(* ===== verification/_CoqProject ===== *)
-Q . S2P
Prelude.v
GoStd.v
Json.v
Doubles.v
Api.v
Effects.v
Urls.v
PathHash.v
ImageStreams.v
Externals.v
Host.v
Templates.v
CodebaseCommon.v
PutProject.v
CodebaseChain.v
Simulation.v
CodebaseController.v
Provisioning.v
BranchLabels.v
BranchChain.v
BranchController.v
DeploymentUsage.v
StaleCheck.v
Webhook.v
TriggerTemplate.v
StageDeploy.v
DeployQueue.v
ImageStreamDeploy.v
BranchSafety.v
BranchFunctional.v
SshHostKey.v
GitClient.v
ProviderClients.v
BitbucketTypes.v
BitbucketHttp.v
Gerrit.v
Linking.v
ProviderSafety.v
GerritSafety.v
GitClientSafety.v
LinkedProvisioning.v
LinkedBranch.v
Telemetry.v
Entry.v
GitServerController.v
WebhookUrl.v
Jira.v
JiraMetadata.v
Backoff.v
JiraProperties.v
IntegrationSecret.v
Schema.v
LinkedHooks.v
Predicates.v
CodebaseProperties.v
