(* ===== verification/Prelude.v ===== *)
(** * codebase-operator: a verification development

    The codebase operator ([src/], Go) is a set of Kubernetes controllers, admission webhooks
    and one periodic job. They read and write custom resources through the Kubernetes client
    and act on git servers, Gerrit, Tekton and the file system of their pod:

    - a Codebase is provisioned by a chain of handlers: its repository is created and pushed,
      its web address, webhook, CI file, deploy templates and default branch are set up;
    - a CodebaseBranch is created in git and gets a version history and an image stream; the
      stale branch checker marks or deletes the branches that vanished from git;
    - a new tag of a CodebaseImageStream creates CDStageDeploys for the stages its labels name;
    - the CDStageDeploys of a stage form a queue, and the one whose turn it is starts a
      PipelineRun from the stage's trigger template;
    - the webhooks refuse invalid or duplicate codebases, and the deletion or change of
      protected or used ones;
    - a GitServer owns its ssh secret, is checked over ssh and gets an event listener with a
      route, whose host the codebases' webhooks are created with;
    - a JiraServer is checked for its connection; JiraIssueMetadata creates field values, tags
      and links issues in Jira and is deleted when all is done;
    - integration secrets are annotated with the outcome of a request to their service.

    ** How the code is represented

    The state of a handler is the Go variable it mutates (the object behind the pointer it was
    given). Its calls to the Kubernetes client, git, the git providers, Gerrit, the file
    system, the clock and the event recorder are nodes of a finite tree ([Effects.prog]), so a
    function of the code is a program [M S A]: state [S], result [A], an error value or a
    panic. [Effects.run] executes a program against an environment. [Effects.wp] says what
    holds for all answers an environment may give: a monitor has a ghost state, says what the
    environment promises ([rely]) and what every call must satisfy ([guar]). Its lemmas connect
    the two ([safe_run], [safe_exec]) and extend safety to an operator that is killed between
    two calls and restarted ([history]). The controllers call git, the hosting services and
    Gerrit through interfaces, whose calls are nodes of their own; [Linking.link] replaces each
    by the operator's client, a program over the libraries (go-git, resty, ssh), and
    [Linking.link_safe] carries a theorem about the interface over to the linked program when
    the clients implement it ([Linking.Implements]). Where [rely] is trivial nothing is assumed of the
    answers. Goroutines of different objects meet only through the API server, whose answers
    are arbitrary, so interleavings are covered by the quantification over answers.

    Go errors are values that keep their wrapping chain ([error] below), strings are byte
    strings, maps are [gmap]s with the iteration order answered by the environment
    ([RangeMap]), [int64] counters wrap around, durations are integers of nanoseconds. Pure
    functions of third-party libraries are the fields of the class [Externals.Externals], the
    documented laws some theorems use are [ExternalsLaws], and [Externals.reference] is an
    instance with those laws. SHA-256, RFC 3339 times, JSON and the power of
    doubles ([math.Pow]) are written out; what a conversion of a double gives outside int64 is
    a field.

    ** Files

    - Prelude (this file): Go errors and results, strings, paths, general lemmas and tactics.
    - Api: the custom resources, [src/api/v1].
    - Effects: calls, programs, execution, monitors, the rules and tactics of [wp].
    - GoStd, Json: times, durations, numbers, base64 and JSON of the standard library.
      Externals: third-party functions.
    - Urls: [src/pkg/util/url.go], the provider configuration and [src/pkg/objectmodifier].
    - PathHash: [src/pkg/util/gitpathlabel]. ImageStreams: [src/pkg/codebaseimagestream] and
      [src/pkg/autodeploy].
    - Host: [src/pkg/util], [src/pkg/platform]. Templates: the generated files.
    - CodebaseCommon, PutProject, CodebaseChain: [src/controllers/codebase/service/chain], one
      definition per handler ([PutProject_ServeRequest] is [PutProject.ServeRequest], and so
      on). CodebaseController: [Reconcile] of [src/controllers/codebase].
    - BranchLabels, BranchChain, BranchController: [src/pkg/codebasebranch/labels.go] and
      [src/controllers/codebasebranch]. StaleCheck: its directory [stalecheck].
    - DeploymentUsage: [src/pkg/deploymentusage] and the two usage files built on it.
    - Webhook: [src/pkg/webhook]. Predicates: [src/pkg/predicate] and the event filters.
    - TriggerTemplate, StageDeploy: [src/pkg/tektoncd] and [src/controllers/cdstagedeploy].
      ImageStreamDeploy: [src/controllers/codebaseimagestream].
    - GitServerController: [src/controllers/gitserver]. WebhookUrl: its composition with the
      webhook handler of CodebaseChain.
    - Jira: [src/pkg/client/jira] and [src/controllers/jiraserver]. JiraMetadata:
      [src/controllers/jiraissuemetadata]. JiraProperties: the theorems about both.
    - IntegrationSecret: [src/controllers/integrationsecret].
    - SshHostKey: [src/pkg/sshhostkey]. GitClient: [src/pkg/git], with SHA-1 for the empty pack
      file. ProviderClients: the GitHub, GitLab and Bitbucket clients of [src/pkg/gitprovider].
      BitbucketTypes, BitbucketHttp: the types and the operations of the generated Bitbucket
      client that the operator uses, over HTTP, with the theorem about them.
      Gerrit: [src/pkg/gerrit]. Linking: programs linked to these clients.
    - GitClientSafety, ProviderSafety, GerritSafety: the theorems about the clients.
      LinkedProvisioning, LinkedBranch: those about the codebase controller and the branch
      controller linked to the git client.
    - Telemetry: [src/pkg/telemetry]. Entry: [src/cmd/main.go] and the registrations of the
      controllers and webhooks, over calls of controller-runtime.
    - Schema: the constraints of the custom resources' CRDs, and the operator as one set of
      programs. LinkedHooks: this operator linked to the clients of the hosting services.
    - Doubles: lower bounds on operations of Go's doubles. Backoff: the waits after failures.
    - Simulation: a concrete environment. Provisioning, DeployQueue, BranchSafety,
      BranchFunctional and CodebaseProperties: theorems across components.

    ** What is proved

    - Provisioning: over any sequence of reconciliations cut at any point, a regenerated
      history is only pushed onto a remote branch that was checked to be absent, after the
      intent was recorded, and the persisted git status never claims more than was pushed.
    - DeployQueue: [ReconcileCDStageDeploy] refines an abstract queue; a stage whose calls do
      not fail never has two unfinished PipelineRuns and its queue ends. StageDeploy: without
      that assumption, at most one PipelineRun per reconciliation, only in turn. The queue may
      be killed between any two calls and restarted. One failed listing, or one listing that
      does not show the PipelineRun just created, is enough to break exclusivity, which
      DeployQueue shows on concrete runs.
    - BranchSafety, BranchFunctional: what is created in git and when, which status is
      written, default values, versions, image streams, release of terminating branches.
    - StaleCheck, DeploymentUsage, Webhook: nothing that is in use is deleted; each decision of
      a webhook is characterised exactly in terms of the cluster's objects.
    - CodebaseProperties, Predicates, Urls, PathHash, BranchLabels, ImageStreams,
      ImageStreamDeploy: finalizers, webhooks, generated files, event filters, names, hashes,
      labels, tags and payloads.
    - LinkedProvisioning: the same promise one level below, as calls of go-git: the git client
      implements the interface the provisioning theorem assumes, for every default branch that
      is neither a tag of the remote nor spelled like a commit hash. LinkedBranch: a status
      claims a branch only once the git server showed or accepted it, whatever it answers.
    - Schema: in every history of reconciliations and sweeps of all controllers, every object
      written has the type its CRD demands, if every object read has, but for one record that
      the API server must reject, which Schema names.
    - LinkedHooks: the operator, killed and restarted anywhere, never asks a hosting service for
      a webhook that the last listing of the repository showed, whatever is answered.
    - Entry: the manager starts only with every index, controller, health check and enabled
      webhook registered, once, in order. Telemetry: what a report contains, what its request is.
    - GitClientSafety, ProviderSafety, GerritSafety: which servers see which credentials, the
      one change a method may make, and that sessions are closed. A webhook that was deleted on
      Bitbucket is not recreated, which ProviderSafety proves for the linked handler.
    - BitbucketHttp: on exactly which HTTP answers an operation of the Bitbucket provider
      succeeds, and when a webhook counts as absent.
    - Backoff: how long an object waits after each failure, in the arithmetic of Go's doubles,
      and from which failure the computed wait is no duration.
    - GitServerController, WebhookUrl: what a git server's reconciliation may own, create, patch
      and claim, and the round trip of the webhook's address through the cluster.
    - JiraProperties, IntegrationSecret: whose credentials are used for what, what is created in
      Jira, when a resource is deleted, and which status is written in every outcome.

    ** Bounds

    Programs are finite trees, so every modelled function terminates. The loop of
    [TrimGitFromURL] has the length of the URL as fuel, more than it can strip suffixes; the
    splitting and replacing functions of this file recurse on the string. The JSON parser has
    twice the length of the text as fuel ([Json.parse_json_fuel]: more changes nothing) and the
    nesting limit of Go's scanner; the parser of durations has the length of the text.
    [math.Pow] squares once per bit of a 64-bit exponent, its fuel; Bitbucket's recursive types
    have the depth of the value as fuel ([BitbucketTypes.decodable_eq]). A retry after a
    conflict is bounded by the number of steps of the policy, a field of [Externals]. A listing
    with a limit is truncated by the server: the limits of the code (500 PipelineRuns, 1000
    codebases) are part of the call.

    ** Not modelled

    The libraries under the clients (go-git, resty with its retries, ssh, go-jira, and
    net/url under the generated Bitbucket client, of which the operations that the operator does
    not call are left out too) and under the entry point (controller-runtime; all their calls are
    nodes of the tree), the template engine, logging, deep copies and test doubles. The text of
    encoding/json's errors and of formatted floats is a parameter. The loops of the periodic
    jobs are modelled over the ticks they receive. *)

From Stdlib Require Ascii.
From stdpp Require Export base gmap strings list fin_maps pretty.


Declare Scope go_scope.
Delimit Scope go_scope with go.

(** ** Go errors

    A Go [error] is a message plus what [errors.Is], [errors.As] and the
    Kubernetes classifiers can find by unwrapping it. *)

(** The classes of errors the Kubernetes client reports and the operator
    distinguishes, and those of an ssh host key check; an error value built outside the
    operator arrives with one. *)
Inductive ext_class :=
| NotFound | Conflict | AlreadyExists | NoKindMatch | KindNotRegistered | OtherError
| KeyError (want : nat)     (* *knownhosts.KeyError and the length of its Want *)
| RevokedError.             (* *knownhosts.RevokedError *)

#[export] Instance ext_class_eq_dec : EqDecision ext_class.
Proof. solve_decision. Defined.

(** The package-level error values ([var Err... = errors.New(..)]) compared with [errors.Is]. *)
Inductive sentinel :=
| ErrCodebaseImageStreamNotFound
| ErrLasTagNotFound
| ErrEmptyTriggerTemplateResources
| ErrReferenceNotFound
| ErrWebHookNotFound
| ErrApiNotSupported
| ErrJiraNotFound
| ErrJobFailed
| NoErrAlreadyUpToDate | ErrRemoteNotFound                        (* go-git *)
| ErrEmptyRemoteRepository | ErrRepositoryNotFound.               (* its package transport *)

#[export] Instance sentinel_eq_dec : EqDecision sentinel.
Proof. solve_decision. Defined.

(** A cause attached to a denial ([metav1.StatusCause]). *)
Record StatusCause := { sc_Type : string; sc_Field : string; sc_Message : string }.

(** The [metav1.Status] of a hand-built [*apierrors.StatusError]. *)
Record ErrStatus := {
  es_Code : Z; es_Reason : string; es_Message : string;
  es_Group : string; es_Kind : string; es_Name : string; es_Causes : list StatusCause }.

#[warnings="-register-all"]
Inductive error :=
| ENew (msg : string)                       (* errors.New, fmt.Errorf without %w *)
| EExt (c : ext_class) (msg : string)       (* an error made by a library *)
| ESentinel (s : sentinel)
| EReconcile (msg : string)                 (* *util.CodebaseBranchReconcileError *)
| EStatus (st : ErrStatus)                  (* *apierrors.StatusError *)
| EWrap (prefix : string) (cause : error)   (* fmt.Errorf("prefix%w", cause) *)
| EJoin (errs : list error).                (* errors.Join *)

Definition sentinel_msg (s : sentinel) : string :=
  match s with
  | ErrCodebaseImageStreamNotFound => "CodebaseImageStream not found"
  | ErrLasTagNotFound => "last tag not found"
  | ErrEmptyTriggerTemplateResources => "trigger template resources is empty"
  | ErrReferenceNotFound => "reference not found in remote repository"
  | ErrWebHookNotFound => "webhook not found"
  | ErrApiNotSupported => "api is not supported"
  | ErrJiraNotFound => "404"
  | ErrJobFailed => "deletion job failed"
  | NoErrAlreadyUpToDate => "already up-to-date"
  | ErrRemoteNotFound => "remote not found"
  | ErrEmptyRemoteRepository => "remote repository is empty"
  | ErrRepositoryNotFound => "repository not found"
  end.

(** strings.Join *)
Fixpoint str_join (sep : string) (l : list string) : string :=
  match l with
  | [] => ""
  | [s] => s
  | s :: l' => s +:+ sep +:+ str_join sep l'
  end.

Definition newline : string := String (Ascii.ascii_of_nat 10) "".

(** [err.Error()] *)
Fixpoint err_msg (e : error) : string :=
  match e with
  | ENew m => m
  | EExt _ m => m
  | ESentinel s => sentinel_msg s
  | EReconcile m => m
  | EStatus st => es_Message st
  | EWrap p c => p +:+ err_msg c
  | EJoin es => str_join newline (map err_msg es)
  end.

(** [errors.Is(e, s)] *)
Fixpoint err_is (s : sentinel) (e : error) : bool :=
  match e with
  | ESentinel s' => bool_decide (s = s')
  | EWrap _ c => err_is s c
  | EJoin es => existsb (err_is s) es
  | _ => false
  end.

(** The library class found by unwrapping, as [errors.As] finds the first match. *)
Fixpoint err_class (e : error) : option ext_class :=
  match e with
  | EExt c _ => Some c
  | EWrap _ c => err_class c
  | EJoin es => foldr (λ e acc, match err_class e with Some c => Some c | None => acc end) None es
  | _ => None
  end.

Definition IsNotFound (e : error) : bool := bool_decide (err_class e = Some NotFound).
Definition IsConflict (e : error) : bool := bool_decide (err_class e = Some Conflict).

(** [errors.As(e, *CodebaseBranchReconcileError)] *)
Fixpoint is_reconcile_error (e : error) : bool :=
  match e with
  | EReconcile _ => true
  | EWrap _ c => is_reconcile_error c
  | EJoin es => existsb is_reconcile_error es
  | _ => false
  end.

(** The outcome of a Go call: a value, an error, or a run-time panic. *)
Inductive res (A : Type) :=
| Ok (a : A)
| Err (e : error)
| Panic (why : string).
Arguments Ok {A} a.
Arguments Err {A} e.
Arguments Panic {A} why.

Definition is_ok {A} (r : res A) : bool := match r with Ok _ => true | _ => false end.

(** [if err != nil { return fmt.Errorf("prefix%w", err) }] *)
Definition wrap {A} (p : string) (r : res A) : res A :=
  match r with Err e => Err (EWrap p e) | r => r end.

Definition res_bind {A B} (r : res A) (f : A → res B) : res B :=
  match r with Ok a => f a | Err e => Err e | Panic w => Panic w end.

(** ** Go strings

    A Go string is its bytes. *)

(** strings.HasPrefix *)
Fixpoint has_prefix (p s : string) : bool :=
  match p, s with
  | "", _ => true
  | String a p', String b s' => bool_decide (a = b) && has_prefix p' s'
  | _, "" => false
  end.

Fixpoint str_drop (n : nat) (s : string) : string :=
  match n, s with
  | 0, _ => s
  | S n', String _ s' => str_drop n' s'
  | _, "" => ""
  end.

(** strings.TrimPrefix *)
Definition trim_prefix (p s : string) : string :=
  if has_prefix p s then str_drop (String.length p) s else s.

(** strings.HasSuffix *)
Fixpoint has_suffix (suf s : string) : bool :=
  bool_decide (s = suf) || match s with "" => false | String _ s' => has_suffix suf s' end.

(** strings.TrimSuffix *)
Fixpoint trim_suffix (suf s : string) : string :=
  if bool_decide (s = suf) then ""
  else match s with "" => "" | String a s' => String a (trim_suffix suf s') end.

(** strings.Contains *)
Fixpoint str_contains (sub s : string) : bool :=
  has_prefix sub s || match s with "" => false | String _ s' => str_contains sub s' end.

(** strings.Count for a non-empty pattern: non-overlapping occurrences, left to right. *)
Fixpoint count_from (skip : nat) (sub s : string) : nat :=
  match s with
  | "" => 0
  | String _ s' =>
    match skip with
    | S k => count_from k sub s'
    | 0 => if has_prefix sub s then S (count_from (String.length sub - 1) sub s')
           else count_from 0 sub s'
    end
  end.
Definition str_count (sub s : string) : nat := count_from 0 sub s.

(** strings.ReplaceAll (bytes.ReplaceAll) for a non-empty pattern. *)
Fixpoint replace_from (skip : nat) (old new s : string) : string :=
  match s with
  | "" => ""
  | String a s' =>
    match skip with
    | S k => replace_from k old new s'
    | 0 => if has_prefix old s then new +:+ replace_from (String.length old - 1) old new s'
           else String a (replace_from 0 old new s')
    end
  end.
Definition replace_all (old new s : string) : string := replace_from 0 old new s.

(** strings.Repeat *)
Fixpoint str_repeat (s : string) (n : nat) : string :=
  match n with 0 => "" | S n' => str_repeat s n' +:+ s end.

Fixpoint str_map (f : Ascii.ascii → Ascii.ascii) (s : string) : string :=
  match s with "" => "" | String a s' => String (f a) (str_map f s') end.

Fixpoint str_forallb (f : Ascii.ascii → bool) (s : string) : bool :=
  match s with "" => true | String a s' => f a && str_forallb f s' end.

(** strings.Split for a one-byte separator; never empty. *)
Fixpoint split_go (sep : Ascii.ascii) (s : string) : string * list string :=
  match s with
  | "" => ("", [])
  | String a s' =>
    let '(w, ws) := split_go sep s' in
    if bool_decide (a = sep) then ("", w :: ws) else (String a w, ws)
  end.
Definition str_split (sep : Ascii.ascii) (s : string) : list string :=
  let '(w, ws) := split_go sep s in w :: ws.

Definition ascii_between (lo hi : nat) (a : Ascii.ascii) : bool :=
  let n := Ascii.nat_of_ascii a in (lo <=? n)%nat && (n <=? hi)%nat.

Definition ascii_lower (a : Ascii.ascii) : Ascii.ascii :=
  if ascii_between 65 90 a then Ascii.ascii_of_nat (Ascii.nat_of_ascii a + 32) else a.

(** strings.ToLower on ASCII text; bytes above 127 are left as they are. *)
Definition to_lower (s : string) : string := str_map ascii_lower s.

(** fmt's %q on text without control characters: quotes and backslashes are escaped. *)
Definition slash : Ascii.ascii := Ascii.ascii_of_nat 47.
Definition dot : Ascii.ascii := Ascii.ascii_of_nat 46.
Definition dash : Ascii.ascii := Ascii.ascii_of_nat 45.
Definition dquote : Ascii.ascii := Ascii.ascii_of_nat 34.
Definition backslash : Ascii.ascii := Ascii.ascii_of_nat 92.
Fixpoint quote_body (s : string) : string :=
  match s with
  | "" => ""
  | String a s' =>
    if bool_decide (a = dquote) || bool_decide (a = backslash)
    then String backslash (String a (quote_body s'))
    else String a (quote_body s')
  end.
Definition go_quote (s : string) : string := String dquote (quote_body s +:+ String dquote "").

(** strconv.Itoa / %d *)
Definition itoa (z : Z) : string := pretty z.

(** slices.Contains *)
Definition contains {A} `{EqDecision A} (l : list A) (x : A) : bool := bool_decide (x ∈ l).

(** A lookup in a Go map of strings: the zero value when the key is absent. *)
Definition map_get (m : gmap string string) (k : string) : string := default "" (m !! k).

(** ** path/filepath (Unix) *)

(** One path element pushed on the stack of kept elements, latest first: empty and
    [.] elements vanish, [..] drops the element before it. *)
Definition push_elem (rooted : bool) (stack : list string) (e : string) : list string :=
  if bool_decide (e = "") || bool_decide (e = ".") then stack
  else if bool_decide (e = "..") then
    match stack with
    | top :: rest => if bool_decide (top = "..") then e :: stack else rest
    | [] => if rooted then [] else [e]
    end
  else e :: stack.

(** filepath.Clean *)
Definition path_clean (p : string) : string :=
  if bool_decide (p = "") then "."
  else
    let rooted := has_prefix "/" p in
    let body := str_join "/" (rev (fold_left (push_elem rooted) (str_split slash p) [])) in
    if rooted then "/" +:+ body else if bool_decide (body = "") then "." else body.

(** filepath.Join, path.Join: empty elements are ignored. *)
Definition path_join (elems : list string) : string :=
  match List.filter (λ e, negb (bool_decide (e = ""))) elems with
  | [] => ""
  | es => path_clean (str_join "/" es)
  end.

(** ** Automation *)

Create HintDb go discriminated.
Create Rewrite HintDb go.

(** Case analysis on every [bool_decide]/[match] of the goal, closing contradictions. *)
Ltac go_cases :=
  repeat first
    [ progress intros
    | progress simplify_eq/=
    | case_bool_decide
    | case_match
    | done ].

Ltac bool_props :=
  repeat match goal with
  | H : _ && _ = true |- _ => apply andb_true_iff in H as [? ?]
  | H : _ || _ = false |- _ => apply orb_false_iff in H as [? ?]
  | H : negb _ = true |- _ => apply negb_true_iff in H
  | H : negb _ = false |- _ => apply negb_false_iff in H
  | H : bool_decide _ = true |- _ => apply bool_decide_eq_true in H
  | H : bool_decide _ = false |- _ => apply bool_decide_eq_false in H
  end.

(** ** Lemmas on strings *)

Lemma app_cons_str a s1 s2 : String a s1 +:+ s2 = String a (s1 +:+ s2).
Proof. done. Qed.

Lemma app_nil_l_str s : "" +:+ s = s.
Proof. done. Qed.

#[export] Hint Rewrite app_cons_str app_nil_l_str : go.

Lemma app_nil_r_str s : s +:+ "" = s.
Proof. induction s as [|a s IH]; [done|]. by rewrite app_cons_str, IH. Qed.

Lemma app_assoc_str (s1 s2 s3 : string) : (s1 +:+ s2) +:+ s3 = s1 +:+ s2 +:+ s3.
Proof. induction s1 as [|a s1 IH]; [done|]. by rewrite !app_cons_str, IH. Qed.

Lemma length_app_str (s1 s2 : string) :
  String.length (s1 +:+ s2) = (String.length s1 + String.length s2)%nat.
Proof. induction s1 as [|a s1 IH]; [done|]. rewrite app_cons_str. cbn. by rewrite IH. Qed.

Ltac str_length H :=
  apply (f_equal String.length) in H; autorewrite with go in H; cbn in H;
  rewrite ?length_app_str in H; lia.

Lemma app_inv_tail_str (s1 s2 s : string) : s1 +:+ s = s2 +:+ s → s1 = s2.
Proof.
  revert s2. induction s1 as [|a s1 IH]; intros [|b s2] H; [done| | |].
  - str_length H.
  - str_length H.
  - rewrite !app_cons_str in H. injection H as -> H. f_equal. by apply IH.
Qed.

Lemma has_suffix_spec suf s : has_suffix suf s = true ↔ ∃ p, s = p +:+ suf.
Proof.
  split.
  - induction s as [|a s IH]; cbn; rewrite orb_true_iff, bool_decide_eq_true.
    + intros [<-|?]; [by exists ""|done].
    + intros [<-|H]; [by exists ""|]. destruct (IH H) as [p ->]. by exists (String a p).
  - intros [p ->]. induction p as [|a p IH]; autorewrite with go.
    + destruct suf; cbn; by rewrite bool_decide_true.
    + cbn. rewrite IH. by rewrite orb_true_r.
Qed.

Lemma trim_suffix_app p suf : suf ≠ "" → trim_suffix suf (p +:+ suf) = p.
Proof.
  intros Hne. induction p as [|a p IH]; autorewrite with go.
  - destruct suf; [done|]. cbn. by rewrite bool_decide_true.
  - cbn. rewrite bool_decide_false; [by rewrite IH|]. intros H. str_length H.
Qed.

Lemma trim_suffix_none suf s : has_suffix suf s = false → trim_suffix suf s = s.
Proof.
  induction s as [|a s IH]; cbn; rewrite orb_false_iff.
  - intros [H _]. by rewrite H.
  - intros [H1 H2]. rewrite H1, IH; done.
Qed.

Lemma has_prefix_spec p s : has_prefix p s = true ↔ ∃ r, s = p +:+ r.
Proof.
  revert s. induction p as [|a p IH]; intros s; cbn.
  - split; [by exists s|done].
  - destruct s as [|b s]; [split; [done|by intros [r ?]]|].
    rewrite andb_true_iff, bool_decide_eq_true, IH. split.
    + intros [-> [r ->]]. by exists r.
    + intros [r H]. rewrite app_cons_str in H. injection H as -> ->. eauto.
Qed.

Lemma str_drop_app p r : str_drop (String.length p) (p +:+ r) = r.
Proof. induction p as [|a p IH]; [by destruct r|]. done. Qed.

Lemma str_forallb_app f s1 s2 : str_forallb f (s1 +:+ s2) = str_forallb f s1 && str_forallb f s2.
Proof.
  induction s1 as [|a s1 IH]; [done|]. rewrite app_cons_str. cbn. by rewrite IH, andb_assoc.
Qed.

Lemma trim_prefix_app p r : trim_prefix p (p +:+ r) = r.
Proof.
  unfold trim_prefix. replace (has_prefix p (p +:+ r)) with true.
  - apply str_drop_app.
  - symmetry. apply has_prefix_spec. by exists r.
Qed.

Lemma trim_prefix_none p s : has_prefix p s = false → trim_prefix p s = s.
Proof. unfold trim_prefix. by intros ->. Qed.

Lemma str_map_app f s1 s2 : str_map f (s1 +:+ s2) = str_map f s1 +:+ str_map f s2.
Proof. induction s1 as [|a s1 IH]; [done|]. autorewrite with go. cbn. by rewrite IH. Qed.

Lemma str_map_map f g s : str_map f (str_map g s) = str_map (λ a, f (g a)) s.
Proof. induction s as [|a s IH]; [done|]. cbn. by rewrite IH. Qed.

Lemma str_map_ext f g s : (∀ a, f a = g a) → str_map f s = str_map g s.
Proof. intros H. induction s as [|a s IH]; [done|]. cbn. by rewrite H, IH. Qed.

Lemma ascii_forall (P : Ascii.ascii → Prop) :
  (∀ n, (n < 256)%nat → P (Ascii.ascii_of_nat n)) → ∀ a, P a.
Proof.
  intros H a. rewrite <- (Ascii.ascii_nat_embedding a). apply H, Ascii.nat_ascii_bounded.
Qed.

Lemma ascii_lower_idemp a : ascii_lower (ascii_lower a) = ascii_lower a.
Proof. destruct a as [[] [] [] [] [] [] [] []]; vm_compute; reflexivity. Qed.

Lemma to_lower_idemp s : to_lower (to_lower s) = to_lower s.
Proof. unfold to_lower. rewrite str_map_map. apply str_map_ext, ascii_lower_idemp. Qed.

#[export] Hint Rewrite app_nil_r_str app_assoc_str length_app_str : go.
#[export] Hint Resolve to_lower_idemp trim_suffix_none trim_prefix_none : go.

(** ** Lemmas on errors *)

Lemma IsNotFound_wrap p e : IsNotFound (EWrap p e) = IsNotFound e.
Proof. done. Qed.

Lemma err_is_wrap s p e : err_is s (EWrap p e) = err_is s e.
Proof. done. Qed.

#[export] Hint Rewrite IsNotFound_wrap err_is_wrap : go.

(** ** Lemmas on lists *)

Lemma existsb_true_iff {A} (f : A → bool) l : existsb f l = true ↔ ∃ x, x ∈ l ∧ f x = true.
Proof. rewrite existsb_exists. by setoid_rewrite list_elem_of_In. Qed.

Lemma forallb_true_iff {A} (f : A → bool) l : forallb f l = true ↔ ∀ x, x ∈ l → f x = true.
Proof. rewrite forallb_forall. by setoid_rewrite list_elem_of_In. Qed.
