(* ===== verification/GoStd.v ===== *)
(** * GoStd: functions of Go's standard library

    [time.Parse(time.RFC3339, ..)], [time.ParseDuration], [strconv.Atoi] and the encoder of
    [encoding/json] on strings and string-keyed maps, base64, [strings.EqualFold] and host-port pairs of
    [net], as far as the operator uses them. An instant is its number of nanoseconds since the zero
    [time.Time], January 1 of year 1, 00:00:00 UTC; [t.After(u)] is [u < t]. *)

From Stdlib Require Floats.SpecFloat.
From stdpp Require Import sorting.
From S2P Require Import Prelude.

#[local] Open Scope Z_scope.

(** ** time.Parse *)

Definition is_digit (a : Ascii.ascii) : bool := ascii_between 48 57 a.
Definition digit (a : Ascii.ascii) : Z := Z.of_nat (Ascii.nat_of_ascii a) - 48.

(** [getnum]: one or two digits, or exactly two when [fixed]. *)
Definition getnum (fixed : bool) (s : string) : option (Z * string) :=
  match s with
  | String a s' =>
    if negb (is_digit a) then None
    else match s' with
    | String b s'' =>
      if is_digit b then Some (10 * digit a + digit b, s'')
      else if fixed then None else Some (digit a, s')
    | EmptyString => if fixed then None else Some (digit a, s')
    end
  | EmptyString => None
  end.

Definition skip_char (n : nat) (s : string) : option string :=
  match s with
  | String a s' => if bool_decide (a = Ascii.ascii_of_nat n) then Some s' else None
  | EmptyString => None
  end.

Definition guard (b : bool) : option unit := if b then Some tt else None.

(** The four digits of [2006]. *)
Definition year4 (s : string) : option (Z * string) :=
  match s with
  | String a (String b (String c (String d s'))) =>
    if is_digit a && is_digit b && is_digit c && is_digit d
    then Some (1000 * digit a + 100 * digit b + 10 * digit c + digit d, s')
    else None
  | _ => None
  end.

(** The digits of a fraction: the nanoseconds of the first nine, the rest skipped. *)
Fixpoint frac_digits (scale acc : Z) (s : string) : Z * string :=
  match s with
  | String a s' => if is_digit a then frac_digits (scale / 10) (acc + scale * digit a) s' else (acc, s)
  | EmptyString => (acc, s)
  end.

(** A fraction the layout does not mention: a dot or a comma followed by a digit. *)
Definition fraction (s : string) : Z * string :=
  match s with
  | String p (String a s' as rest) =>
    if (bool_decide (p = Ascii.ascii_of_nat 46) || bool_decide (p = Ascii.ascii_of_nat 44)) && is_digit a
    then frac_digits 100000000 0 rest else (0, s)
  | _ => (0, s)
  end.

(** [Z07:00]: the offset in seconds. *)
Definition zone (s : string) : option (Z * string) :=
  match s with
  | String a s' =>
    if bool_decide (a = Ascii.ascii_of_nat 90) then Some (0, s')
    else
      '(hr, s1) ← getnum true s';
      s2 ← skip_char 58 s1;
      '(mm, s3) ← getnum true s2;
      _ ← guard ((hr <=? 24) && (mm <=? 60));
      let off := hr * 3600 + mm * 60 in
      if bool_decide (a = Ascii.ascii_of_nat 43) then Some (off, s3)
      else if bool_decide (a = Ascii.ascii_of_nat 45) then Some (- off, s3)
      else None
  | EmptyString => None
  end.

Definition isLeap (year : Z) : bool :=
  (year mod 4 =? 0) && (negb (year mod 100 =? 0) || (year mod 400 =? 0)).
Definition month_lengths (year : Z) : list Z :=
  [31; if isLeap year then 29 else 28; 31; 30; 31; 30; 31; 31; 30; 31; 30; 31].
Definition daysIn (month year : Z) : Z := nth (Z.to_nat (month - 1)) (month_lengths year) 0.

(** Days from January 1 of year 1. *)
Definition days_before_year (year : Z) : Z :=
  let y := year - 1 in 365 * y + y / 4 - y / 100 + y / 400.
Definition days_since_epoch (year month day : Z) : Z :=
  days_before_year year + foldr Z.add 0 (take (Z.to_nat (month - 1)) (month_lengths year)) + (day - 1).

Definition ParseRFC3339 (s : string) : option Z :=
  '(year, s) ← year4 s; s ← skip_char 45 s;
  '(month, s) ← getnum true s; _ ← guard ((0 <? month) && (month <=? 12)); s ← skip_char 45 s;
  '(day, s) ← getnum true s; s ← skip_char 84 s;
  '(hour, s) ← getnum false s; _ ← guard (hour <? 24); s ← skip_char 58 s;
  '(min, s) ← getnum true s; _ ← guard (min <? 60); s ← skip_char 58 s;
  '(sec, s) ← getnum true s; _ ← guard (sec <? 60);
  let '(nsec, s) := fraction s in
  '(off, s) ← zone s;
  _ ← guard (bool_decide (s = ""));
  _ ← guard ((1 <=? day) && (day <=? daysIn month year));
  Some ((days_since_epoch year month day * 86400 + hour * 3600 + min * 60 + sec - off) * 1000000000
        + nsec).

(** ** encoding/json *)

Definition hex_digit (n : nat) : Ascii.ascii :=
  Ascii.ascii_of_nat (if (n <? 10)%nat then 48 + n else 87 + n).
Definition json_u00 (a : Ascii.ascii) : string :=
  let n := Ascii.nat_of_ascii a in
  "\u00" +:+ String (hex_digit (n / 16)) (String (hex_digit (n mod 16)) "").

(** The escape of one byte: HTML characters are escaped too. *)
Definition json_escape (a : Ascii.ascii) : string :=
  let n := Ascii.nat_of_ascii a in
  if bool_decide (a = dquote) || bool_decide (a = backslash) then String backslash (String a "")
  else if (n =? 8)%nat then "\b" else if (n =? 9)%nat then "\t" else if (n =? 10)%nat then "\n"
  else if (n =? 12)%nat then "\f" else if (n =? 13)%nat then "\r"
  else if (n <? 32)%nat || (n =? 60)%nat || (n =? 62)%nat || (n =? 38)%nat then json_u00 a
  else String a "".

(** [encodeState.string] on a valid UTF-8 string: strings decoded from the API server are. The
    separators U+2028 and U+2029 (bytes e2 80 a8, e2 80 a9) are escaped. *)
Fixpoint json_body (s : string) : string :=
  match s with
  | String a s1 =>
    let rest := json_body s1 in
    if (Ascii.nat_of_ascii a =? 226)%nat then
      match s1 with
      | String b (String c s3) =>
        if (Ascii.nat_of_ascii b =? 128)%nat && (Ascii.nat_of_ascii c =? 168)%nat
        then "\u2028" +:+ json_body s3
        else if (Ascii.nat_of_ascii b =? 128)%nat && (Ascii.nat_of_ascii c =? 169)%nat
        then "\u2029" +:+ json_body s3
        else String a rest
      | _ => String a rest
      end
    else json_escape a +:+ rest
  | EmptyString => ""
  end.
Definition json_string (s : string) : string := String dquote (json_body s +:+ String dquote "").

(** An object whose values are already encoded, and a map: its keys in byte order. *)
Definition json_object (fields : list (string * string)) : string :=
  "{" +:+ str_join "," (map (λ '(k, v), json_string k +:+ ":" +:+ v) fields) +:+ "}".
Definition json_map {V} (encode : V → string) (m : gmap string V) : string :=
  json_object
    (omap (λ k, (λ v, (k, encode v)) <$> m !! k) (merge_sort String.le (map fst (map_to_list m)))).

(** ** strconv.Atoi *)

Fixpoint all_digits (s : string) : bool :=
  match s with String a s' => is_digit a && all_digits s' | EmptyString => true end.
Fixpoint decimal_value (acc : Z) (s : string) : Z :=
  match s with String a s' => decimal_value (10 * acc + digit a) s' | EmptyString => acc end.

Definition Atoi (s : string) : res Z :=
  let fail why := Err (ENew ("strconv.Atoi: parsing " +:+ go_quote s +:+ ": " +:+ why)) in
  let '(neg, t) := match s with
    | String a s' =>
      if bool_decide (a = Ascii.ascii_of_nat 45) then (true, s')
      else if bool_decide (a = Ascii.ascii_of_nat 43) then (false, s') else (false, s)
    | EmptyString => (false, s)
    end in
  if bool_decide (t = "") || negb (all_digits t) then fail "invalid syntax"
  else
    let v := decimal_value 0 t in
    if (if neg : bool then v <=? 2 ^ 63 else v <? 2 ^ 63) then Ok (if neg then - v else v)
    else fail "value out of range".

(** ** time.ParseDuration *)

(** [quote] of package time: bytes outside printable ASCII in hexadecimal. *)
Fixpoint time_quote_body (s : string) : string :=
  match s with
  | String a s' =>
    let n := Ascii.nat_of_ascii a in
    (if (n <? 32)%nat || (128 <=? n)%nat then
       "\x" +:+ String (hex_digit (n / 16)) (String (hex_digit (n mod 16)) "")
     else if bool_decide (a = dquote) || bool_decide (a = backslash) then String backslash (String a "")
     else String a "") +:+ time_quote_body s'
  | EmptyString => ""
  end.
Definition time_quote (s : string) : string := String dquote (time_quote_body s +:+ String dquote "").

(** [leadingInt]: [None] on overflow. *)
Fixpoint leadingInt (x : Z) (s : string) : option (Z * string) :=
  match s with
  | String a s' =>
    if is_digit a then
      if 2 ^ 63 / 10 <? x then None
      else let y := x * 10 + digit a in if 2 ^ 63 <? y then None else leadingInt y s'
    else Some (x, s)
  | EmptyString => Some (x, s)
  end.

(** [leadingFraction]: digits that overflow are skipped; the number of digits used is kept,
    the scale is its power of ten. *)
Fixpoint leadingFraction (x : Z) (used : Z) (overflow : bool) (s : string) : Z * Z * string :=
  match s with
  | String a s' =>
    if is_digit a then
      if overflow then leadingFraction x used true s'
      else if (2 ^ 63 - 1) / 10 <? x then leadingFraction x used true s'
      else
        let y := x * 10 + digit a in
        if 2 ^ 63 <? y then leadingFraction x used true s' else leadingFraction y (used + 1) false s'
    else (x, used, s)
  | EmptyString => (x, used, s)
  end.

Fixpoint unit_name (s : string) : string * string :=
  match s with
  | String a s' =>
    if is_digit a || bool_decide (a = dot) then ("", s)
    else let '(u, r) := unit_name s' in (String a u, r)
  | EmptyString => ("", "")
  end.
Definition byte (n : nat) : Ascii.ascii := Ascii.ascii_of_nat n.
Definition unitMap (u : string) : option Z :=
  if bool_decide (u = "ns") then Some 1
  else if contains ["us"; String (byte 194) (String (byte 181) "s"); String (byte 206) (String (byte 188) "s")] u
  then Some 1000
  else if bool_decide (u = "ms") then Some 1000000
  else if bool_decide (u = "s") then Some 1000000000
  else if bool_decide (u = "m") then Some 60000000000
  else if bool_decide (u = "h") then Some 3600000000000
  else None.

(** Doubles: [uint64(float64(f) * (float64(unit) / scale))]. *)
Definition float64 (m : Z) : SpecFloat.spec_float := SpecFloat.binary_normalize 53 1024 m 0 false.
Definition truncate (x : SpecFloat.spec_float) : Z :=
  match x with
  | SpecFloat.S754_finite _ m e => if 0 <=? e then Z.pos m * 2 ^ e else Z.pos m / 2 ^ (- e)
  | _ => 0
  end.
Definition scaled_fraction (f used unit : Z) : Z :=
  truncate (SpecFloat.SFmul 53 1024 (float64 f)
    (SpecFloat.SFdiv 53 1024 (float64 unit) (float64 (10 ^ used)))).

Section Duration.
Variable orig : string.
Definition invalid_duration : res Z := Err (ENew ("time: invalid duration " +:+ time_quote orig)).

(** The loop over the components; each consumes a character. *)
Fixpoint duration_loop (fuel : nat) (d : Z) (s : string) : res Z :=
  match fuel, s with
  | _, EmptyString => Ok d
  | 0%nat, _ => invalid_duration
  | S fuel, String a s0 =>
    if negb (is_digit a || bool_decide (a = dot)) then invalid_duration
    else match leadingInt 0 s with
    | None => invalid_duration
    | Some (v, s1) =>
      let pre := negb (bool_decide (String.length s1 = String.length s)) in
      let '(f, used, post, s2) := match s1 with
        | String b s1' =>
          if bool_decide (b = dot) then
            let '(f, used, r) := leadingFraction 0 0 false s1' in
            (f, used, negb (bool_decide (String.length r = String.length s1')), r)
          else (0, 0, false, s1)
        | EmptyString => (0, 0, false, s1)
        end in
      if negb pre && negb post then invalid_duration
      else
        let '(u, s3) := unit_name s2 in
        if bool_decide (u = "") then
          Err (ENew ("time: missing unit in duration " +:+ time_quote orig))
        else match unitMap u with
        | None => Err (ENew ("time: unknown unit " +:+ time_quote u +:+ " in duration " +:+ time_quote orig))
        | Some unit =>
          if 2 ^ 63 / unit <? v then invalid_duration
          else
            let v := v * unit in
            let w := if 0 <? f then v + scaled_fraction f used unit else v in
            if 2 ^ 63 <? w then invalid_duration
            else
              let d' := (d + w) mod 2 ^ 64 in
              if 2 ^ 63 <? d' then invalid_duration else duration_loop fuel d' s3
        end
    end
  end.

Definition ParseDuration : res Z :=
  let '(neg, s) := match orig with
    | String a s' =>
      if bool_decide (a = Ascii.ascii_of_nat 45) then (true, s')
      else if bool_decide (a = Ascii.ascii_of_nat 43) then (false, s') else (false, orig)
    | EmptyString => (false, orig)
    end in
  if bool_decide (s = "0") then Ok 0
  else if bool_decide (s = "") then invalid_duration
  else match duration_loop (String.length s) 0 s with
  | Ok d => if neg : bool then Ok (- d) else if 2 ^ 63 - 1 <? d then invalid_duration else Ok d
  | r => r
  end.
End Duration.

(** ** math.Pow

    The loop of [math.Pow] for an integer exponent, in double precision and with its own order of
    multiplications, so that the result has the bits of Go's. *)

Definition f64_mul : SpecFloat.spec_float → SpecFloat.spec_float → SpecFloat.spec_float := SpecFloat.SFmul 53 1024.
Definition f64_half : SpecFloat.spec_float := SpecFloat.S754_finite false (2 ^ 52) (- 53).
(** [math.E] *)
Definition math_E : SpecFloat.spec_float := SpecFloat.S754_finite false 6121026514868073 (- 51).

(** The variables of the loop: [xe], [ae], [x1] and [a1]. *)
Record powers := { pw_xe : Z; pw_ae : Z; pw_x1 : SpecFloat.spec_float; pw_a1 : SpecFloat.spec_float }.

(** The body, for the lowest bit of [i]. *)
Definition pow_step (odd : bool) (p : powers) : powers :=
  let x2 := f64_mul (pw_x1 p) (pw_x1 p) in
  let small := SpecFloat.SFltb x2 f64_half in
  {| pw_xe := if small then 2 * pw_xe p - 1 else 2 * pw_xe p;
     pw_ae := if odd then pw_ae p + pw_xe p else pw_ae p;
     pw_x1 := if small then SpecFloat.SFadd 53 1024 x2 x2 else x2;
     pw_a1 := if odd then f64_mul (pw_a1 p) (pw_x1 p) else pw_a1 p |}.

(** [i] has less bits than the fuel. *)
Fixpoint pow_loop (fuel : nat) (i : Z) (p : powers) : SpecFloat.spec_float * Z :=
  match fuel with
  | 0%nat => (pw_a1 p, pw_ae p)
  | S fuel =>
    if i =? 0 then (pw_a1 p, pw_ae p)
    else if (pw_xe p <? - 4096) || (4096 <? pw_xe p) then (pw_a1 p, pw_ae p + pw_xe p)
    else pow_loop fuel (i / 2) (pow_step (Z.odd i) p)
  end.

Definition pow_start (x : SpecFloat.spec_float) : powers :=
  let '(x1, xe) := SpecFloat.SFfrexp 53 1024 x in
  {| pw_xe := xe; pw_ae := 0; pw_x1 := x1; pw_a1 := float64 1 |}.

(** [math.Pow(x, float64(y))] for a positive finite [x] other than 1. Integers up to 2^53 are
    doubles; larger ones are rounded. *)
Definition PowInt (x : SpecFloat.spec_float) (y : Z) : SpecFloat.spec_float :=
  let yi := if Z.abs y <=? 2 ^ 53 then Z.abs y else truncate (float64 (Z.abs y)) in
  if y =? 0 then float64 1
  else if y =? 1 then x
  else if 2 ^ 63 <=? yi then
    if Bool.eqb (SpecFloat.SFltb x (float64 1)) (0 <? y) then SpecFloat.S754_zero false
    else SpecFloat.S754_infinity false
  else
    let '(a1, ae) := pow_loop 64 yi (pow_start x) in
    if y <? 0 then SpecFloat.SFldexp 53 1024 (SpecFloat.SFdiv 53 1024 (float64 1) a1) (- ae)
    else SpecFloat.SFldexp 53 1024 a1 ae.

(** A double rounded towards zero; infinities and NaN have no integer. *)
Definition integer_part (x : SpecFloat.spec_float) : option Z :=
  match x with
  | SpecFloat.S754_zero _ => Some 0
  | SpecFloat.S754_finite negative _ _ => Some (if negative : bool then - truncate x else truncate x)
  | _ => None
  end.

(** ** encoding/base64: StdEncoding *)

Definition base64_char (n : Z) : string :=
  let c := if n <? 26 then 65 + n else if n <? 52 then 71 + n else if n <? 62 then n - 4
           else if n =? 62 then 43 else 47 in
  String (byte (Z.to_nat c)) "".
Fixpoint base64_encode (s : string) : string :=
  let v a := Z.of_nat (Ascii.nat_of_ascii a) in
  match s with
  | String a (String b (String c s')) =>
    base64_char (v a / 4) +:+ base64_char (v a mod 4 * 16 + v b / 16)
    +:+ base64_char (v b mod 16 * 4 + v c / 64) +:+ base64_char (v c mod 64) +:+ base64_encode s'
  | String a (String b EmptyString) =>
    base64_char (v a / 4) +:+ base64_char (v a mod 4 * 16 + v b / 16)
    +:+ base64_char (v b mod 16 * 4) +:+ "="
  | String a EmptyString => base64_char (v a / 4) +:+ base64_char (v a mod 4 * 16) +:+ "=="
  | EmptyString => ""
  end.

(** ** strings *)

(** strings.EqualFold of an ASCII text [element] and any text: besides the other
    case, [s] folds with U+017F and [k] with U+212A (two and three bytes of UTF-8). *)
Definition long_s : string := String (byte 197) (String (byte 191) "").
Definition kelvin : string := String (byte 226) (String (byte 132) (String (byte 170) "")).

Fixpoint equal_fold (element value : string) : bool :=
  match element with
  | "" => bool_decide (value = "")
  | String a element' =>
    match value with
    | "" => false
    | String b value' =>
      if bool_decide (ascii_lower a = ascii_lower b) then equal_fold element' value'
      else if bool_decide (ascii_lower a = byte 115) && has_prefix long_s value
      then equal_fold element' (str_drop 2 value)
      else if bool_decide (ascii_lower a = byte 107) && has_prefix kelvin value
      then equal_fold element' (str_drop 3 value)
      else false
    end
  end.

(** ** net *)

(** The text before and after the first, and the last, [c]. *)
Fixpoint cut_first (c : Ascii.ascii) (s : string) : option (string * string) :=
  match s with
  | "" => None
  | String a s' =>
    if bool_decide (a = c) then Some ("", s')
    else match cut_first c s' with Some (x, y) => Some (String a x, y) | None => None end
  end.
Fixpoint cut_last (c : Ascii.ascii) (s : string) : option (string * string) :=
  match s with
  | "" => None
  | String a s' =>
    match cut_last c s' with
    | Some (x, y) => Some (String a x, y)
    | None => if bool_decide (a = c) then Some ("", s') else None
    end
  end.
Definition has_char (c : Ascii.ascii) (s : string) : bool := negb (str_forallb (λ a, negb (bool_decide (a = c))) s).
Definition colon : Ascii.ascii := byte 58.
Definition lbracket : Ascii.ascii := byte 91.
Definition rbracket : Ascii.ascii := byte 93.

(** net.JoinHostPort *)
Definition JoinHostPort (host port : string) : string :=
  if has_char colon host then String lbracket (host +:+ String rbracket (String colon port))
  else host +:+ String colon port.

(** net.SplitHostPort; the error is not looked at. *)
Definition SplitHostPort (hostport : string) : option (string * string) :=
  match cut_last colon hostport with
  | None => None                                        (* missing port *)
  | Some (before, port) =>
    if has_prefix (String lbracket "") hostport then
      match cut_first rbracket hostport with
      | None => None                                    (* missing ']' *)
      | Some (bracketed, rest) =>
        if negb (String.length bracketed + 1 =? String.length before)%nat then None
        else if has_char lbracket (str_drop 1 hostport) || has_char rbracket rest then None
        else Some (str_drop 1 bracketed, port)
      end
    else if has_char colon before || has_char lbracket hostport || has_char rbracket hostport then None
    else Some (before, port)
  end.

(** ** Concrete values *)

Example base64_examples :
  map base64_encode [""; "f"; "fo"; "foo"; "foob~>?"; "foobar"]
  = [""; "Zg=="; "Zm8="; "Zm9v"; "Zm9vYn4+Pw=="; "Zm9vYmFy"].
Proof. vm_compute. reflexivity. Qed.

Example duration_examples :
  map ParseDuration ["360m"; "1h15m30.918s"; "-1.5h"; "0.1m"; ".s"; "5"; "5x"; "9223372036854775808ns"]
  = [Ok 21600000000000; Ok 4530918000000; Ok (- 5400000000000); Ok 6000000000;
     Err (ENew ("time: invalid duration " +:+ time_quote ".s"));
     Err (ENew ("time: missing unit in duration " +:+ time_quote "5"));
     Err (ENew ("time: unknown unit " +:+ time_quote "x" +:+ " in duration " +:+ time_quote "5x"));
     Err (ENew ("time: invalid duration " +:+ time_quote "9223372036854775808ns"))].
Proof. vm_compute. reflexivity. Qed.

Example atoi_examples :
  map (is_ok ∘ Atoi) ["10001"; "-9223372036854775808"; "9223372036854775808"; ""; "+"; "1_0"]
  = [true; true; false; false; false; false].
Proof. vm_compute. reflexivity. Qed.

Example parse_examples :
  map ParseRFC3339
    ["0001-01-01T00:00:00Z"; "1970-01-01T00:00:00Z"; "2022-04-12T13:56:34.5+02:00";
     "2024-02-29T00:00:00Z"; "2023-02-29T00:00:00Z"; "2022-04-12T24:00:00Z"; "2022-04-12"]
  = [Some 0; Some 62135596800000000000; Some 63785361394500000000; Some 63844761600000000000;
     None; None; None].
Proof. vm_compute. reflexivity. Qed.

Example json_example :
  json_map json_string (list_to_map [("b", "<1>"); ("a", "x")])
  = "{" +:+ go_quote "a" +:+ ":" +:+ go_quote "x" +:+ "," +:+ go_quote "b" +:+ ":"
    +:+ String dquote ("\u003c1\u003e" +:+ String dquote "}").
Proof. vm_compute. reflexivity. Qed.

Lemma has_char_cons c a s : has_char c (String a s) = bool_decide (a = c) || has_char c s.
Proof. unfold has_char. cbn. by rewrite negb_andb, negb_involutive. Qed.
Lemma has_char_app c s1 s2 : has_char c (s1 +:+ s2) = has_char c s1 || has_char c s2.
Proof. unfold has_char. by rewrite str_forallb_app, negb_andb. Qed.

Lemma cut_last_none c s : has_char c s = false → cut_last c s = None.
Proof.
  induction s as [|a s IH]; [done|]. rewrite has_char_cons, orb_false_iff. intros [Ha Hs].
  cbn. by rewrite IH, Ha.
Qed.
Lemma cut_last_app c s1 s2 : has_char c s2 = false → cut_last c (s1 +:+ String c s2) = Some (s1, s2).
Proof.
  intros H. induction s1 as [|a s1 IH]; autorewrite with go; cbn.
  - by rewrite cut_last_none, bool_decide_true.
  - by rewrite IH.
Qed.
Lemma cut_first_app c s1 s2 : has_char c s1 = false → cut_first c (s1 +:+ String c s2) = Some (s1, s2).
Proof.
  induction s1 as [|a s1 IH]; autorewrite with go; cbn; [by rewrite bool_decide_true|].
  rewrite has_char_cons, orb_false_iff. intros [-> Hs]. by rewrite IH.
Qed.

Lemma SplitHostPort_JoinHostPort host port :
  has_char lbracket host = false → has_char rbracket host = false →
  has_char colon port = false → has_char lbracket port = false → has_char rbracket port = false →
  SplitHostPort (JoinHostPort host port) = Some (host, port).
Proof.
  intros Hl Hr Hc Hpl Hpr. unfold JoinHostPort. destruct (has_char colon host) eqn:Hh; unfold SplitHostPort.
  - replace (String lbracket (host +:+ String rbracket (String colon port)))
      with ((String lbracket host +:+ String rbracket "") +:+ String colon port)
      by (by rewrite app_assoc_str).
    rewrite cut_last_app by done.
    rewrite app_assoc_str. change (String rbracket "" +:+ String colon port) with (String rbracket (String colon port)).
    rewrite (cut_first_app rbracket (String lbracket host)) by (by rewrite has_char_cons, Hr).
    rewrite length_app_str. change (String.length (String rbracket "")) with 1%nat.
    rewrite Nat.eqb_refl. rewrite app_cons_str. cbn [has_prefix str_drop negb].
    rewrite bool_decide_true by done. cbn [andb]. autorewrite with go.
    rewrite has_char_app, !has_char_cons, Hl, Hpl, Hpr. done.
  - rewrite cut_last_app by done.
    destruct (has_prefix _ _) eqn:Hp.
    + apply has_prefix_spec in Hp as [r Hp]. destruct host as [|a host]; [done|].
      rewrite !app_cons_str in Hp. injection Hp as -> _. by rewrite has_char_cons in Hl.
    + rewrite Hh, !has_char_app, !has_char_cons, Hl, Hr, Hpl, Hpr. done.
Qed.
