(* ===== verification/Json.v ===== *)
(** * Json: the decoder of Go's encoding/json

    [json.Unmarshal] into a [map[string]interface{}], as [util.GetFieldsMap] uses it, and the
    parts of decoding into structs the operator relies on. A text is checked and parsed first
    ([parse_json]); numbers keep their literal, because Go converts them to floats only where
    the target is an interface. *)

From stdpp Require Import sorting.
From S2P Require Import Prelude GoStd.

#[local] Open Scope Z_scope.

#[warnings="-register-all"]
Inductive json :=
| JNull | JBool (b : bool) | JNum (lit : string) | JStr (s : string)
| JArr (l : list json) | JObj (l : list (string * json)).

Definition code (a : Ascii.ascii) : Z := Z.of_nat (Ascii.nat_of_ascii a).
Definition chr (n : Z) : Ascii.ascii := Ascii.ascii_of_nat (Z.to_nat n).
Definition is_chr (n : Z) (a : Ascii.ascii) : bool := code a =? n.

(** ** Scanning *)

(** Space, tab, newline, carriage return. *)
Definition is_space (a : Ascii.ascii) : bool := existsb (Z.eqb (code a)) [32; 9; 10; 13].
Fixpoint skip_ws (s : string) : string :=
  match s with
  | String a s' => if is_space a then skip_ws s' else s
  | "" => ""
  end.

Definition hex_value (a : Ascii.ascii) : option Z :=
  let c := code a in
  if (48 <=? c) && (c <=? 57) then Some (c - 48)
  else if (97 <=? c) && (c <=? 102) then Some (c - 87)
  else if (65 <=? c) && (c <=? 70) then Some (c - 55)
  else None.
Definition hex4 (s : string) : option (Z * string) :=
  match s with
  | String a (String b (String c (String d s'))) =>
    x ← hex_value a; y ← hex_value b; z ← hex_value c; w ← hex_value d;
    Some (4096 * x + 256 * y + 16 * z + w, s')
  | _ => None
  end.
Definition is_hex (a : Ascii.ascii) : bool := bool_decide (is_Some (hex_value a)).

Definition prepend (p : string) (r : option (string * string)) : option (string * string) :=
  '(raw, rest) ← r; Some (p +:+ raw, rest).

(** The raw text of a string literal, after its opening quote, and what follows it. *)
Fixpoint scan_string (s : string) : option (string * string) :=
  match s with
  | "" => None
  | String a s1 =>
    if bool_decide (a = dquote) then Some ("", s1)
    else if code a <? 32 then None
    else if bool_decide (a = backslash) then
      match s1 with
      | String b s2 =>
        if is_chr 117 b then
          match s2 with
          | String h1 (String h2 (String h3 (String h4 s3))) =>
            if is_hex h1 && is_hex h2 && is_hex h3 && is_hex h4
            then prepend (String a (String b (String h1 (String h2 (String h3 (String h4 ""))))))
                   (scan_string s3)
            else None
          | _ => None
          end
        else if existsb (Z.eqb (code b)) [34; 92; 47; 98; 102; 110; 114; 116]
        then prepend (String a (String b "")) (scan_string s2)
        else None
      | "" => None
      end
    else prepend (String a "") (scan_string s1)
  end.

(** ** Unquoting *)

(** The bytes of a code point. *)
Definition utf8_encode (r : Z) : string :=
  if r <? 128 then String (chr r) ""
  else if r <? 2048 then String (chr (192 + r / 64)) (String (chr (128 + r mod 64)) "")
  else if r <? 65536 then
    String (chr (224 + r / 4096)) (String (chr (128 + r / 64 mod 64)) (String (chr (128 + r mod 64)) ""))
  else
    String (chr (240 + r / 262144)) (String (chr (128 + r / 4096 mod 64))
      (String (chr (128 + r / 64 mod 64)) (String (chr (128 + r mod 64)) ""))).
Definition replacement : string := utf8_encode 65533.

(** The number of bytes of the code point at the start of [s]; [None] if it is not valid UTF-8. *)
Definition rune_len (s : string) : option nat :=
  let inside lo hi a := (lo <=? code a) && (code a <=? hi) in
  let cont := inside 128 191 in
  match s with
  | "" => None
  | String a s1 =>
    if code a <? 128 then Some 1%nat
    else if inside 194 223 a then
      match s1 with String b _ => if cont b then Some 2%nat else None | _ => None end
    else if inside 224 239 a then
      match s1 with
      | String b (String c _) =>
        if inside (if is_chr 224 a then 160 else 128) (if is_chr 237 a then 159 else 191) b && cont c
        then Some 3%nat else None
      | _ => None
      end
    else if inside 240 244 a then
      match s1 with
      | String b (String c (String d _)) =>
        if inside (if is_chr 240 a then 144 else 128) (if is_chr 244 a then 143 else 191) b
           && cont c && cont d
        then Some 4%nat else None
      | _ => None
      end
    else None
  end.

Definition is_surrogate (r : Z) : bool := (55296 <=? r) && (r <? 57344).
(** The low half of a pair whose high half is [r], as an escape at the start of [s]. *)
Definition low_surrogate (r : Z) (s : string) : option (Z * string) :=
  match s with
  | String a (String b s') =>
    if bool_decide (a = backslash) && is_chr 117 b && (r <? 56320) then
      '(lo, rest) ← hex4 s';
      if (56320 <=? lo) && (lo <? 57344)
      then Some (65536 + (r - 55296) * 1024 + (lo - 56320), rest) else None
    else None
  | _ => None
  end.

Definition escape_char (a : Ascii.ascii) : Ascii.ascii :=
  match code a with
  | 98 => chr 8 | 102 => chr 12 | 110 => chr 10 | 114 => chr 13 | 116 => chr 9
  | _ => a
  end.

(** One unit of a raw literal: its value and the rest. *)
Definition unquote_char (s : string) : string * string :=
  match s with
  | "" => ("", "")
  | String a s1 =>
    if bool_decide (a = backslash) then
      match s1 with
      | "" => ("", "")
      | String b s2 =>
        if is_chr 117 b then
          match hex4 s2 with
          | None => ("", "")
          | Some (r, s3) =>
            if is_surrogate r then
              match low_surrogate r s3 with
              | Some (r', s4) => (utf8_encode r', s4)
              | None => (replacement, s3)
              end
            else (utf8_encode r, s3)
          end
        else (String (escape_char b) "", s2)
      end
    else
      match rune_len s with
      | Some n => (String.substring 0 n s, str_drop n s)
      | None => (replacement, s1)
      end
  end.
Fixpoint unquote_loop (fuel : nat) (s : string) : string :=
  match fuel, s with
  | 0%nat, _ | _, "" => ""
  | S fuel, _ => let '(v, rest) := unquote_char s in v +:+ unquote_loop fuel rest
  end.
Definition unquote (s : string) : string := unquote_loop (String.length s) s.

(** ** Numbers *)

Fixpoint scan_digits (s : string) : string * string :=
  match s with
  | String a s' => if is_digit a then let '(d, r) := scan_digits s' in (String a d, r) else ("", s)
  | "" => ("", "")
  end.
Definition digits1 (s : string) : option (string * string) :=
  match scan_digits s with ("", _) => None | r => Some r end.

Definition scan_int (s : string) : option (string * string) :=
  match s with
  | String a s' => if is_chr 48 a then Some (String a "", s') else digits1 s
  | "" => None
  end.
Definition scan_frac (s : string) : option (string * string) :=
  match s with
  | String a s' => if is_chr 46 a then prepend (String a "") (digits1 s') else Some ("", s)
  | "" => Some ("", "")
  end.
Definition scan_exp (s : string) : option (string * string) :=
  match s with
  | String a s' =>
    if is_chr 101 a || is_chr 69 a then
      match s' with
      | String b s'' =>
        if is_chr 43 b || is_chr 45 b then prepend (String a (String b "")) (digits1 s'')
        else prepend (String a "") (digits1 s')
      | "" => None
      end
    else Some ("", s)
  | "" => Some ("", "")
  end.
Definition scan_number (s : string) : option (string * string) :=
  let '(sign, s1) := match s with
    | String a s' => if is_chr 45 a then (String a "", s') else ("", s)
    | "" => ("", "")
    end in
  '(i, s2) ← scan_int s1; '(f, s3) ← scan_frac s2; '(e, s4) ← scan_exp s3;
  Some (sign +:+ i +:+ f +:+ e, s4).

(** ** Values *)

Definition expect (word : string) (j : json) (s : string) : option (json * string) :=
  if has_prefix word s then Some (j, str_drop (String.length word) s) else None.

Fixpoint parse_value (fuel : nat) (depth : Z) (s : string) {struct fuel} : option (json * string) :=
  match fuel with
  | 0%nat => None
  | S fuel =>
    match skip_ws s with
    | "" => None
    | String a s1 as t =>
      if is_chr 123 a then
        if depth <=? 0 then None
        else match skip_ws s1 with
        | String b s2 =>
          if is_chr 125 b then Some (JObj [], s2)
          else '(l, rest) ← parse_members fuel (depth - 1) s1; Some (JObj l, rest)
        | "" => None
        end
      else if is_chr 91 a then
        if depth <=? 0 then None
        else match skip_ws s1 with
        | String b s2 =>
          if is_chr 93 b then Some (JArr [], s2)
          else '(l, rest) ← parse_items fuel (depth - 1) s1; Some (JArr l, rest)
        | "" => None
        end
      else if bool_decide (a = dquote) then
        '(raw, rest) ← scan_string s1; Some (JStr (unquote raw), rest)
      else if is_chr 116 a then expect "true" (JBool true) t
      else if is_chr 102 a then expect "false" (JBool false) t
      else if is_chr 110 a then expect "null" JNull t
      else '(lit, rest) ← scan_number t; Some (JNum lit, rest)
    end
  end
with parse_members (fuel : nat) (depth : Z) (s : string) {struct fuel} : option (list (string * json) * string) :=
  match fuel with
  | 0%nat => None
  | S fuel =>
    match skip_ws s with
    | String a s1 =>
      if bool_decide (a = dquote) then
        '(key, s2) ← scan_string s1;
        s3 ← skip_char 58 (skip_ws s2);
        '(v, s4) ← parse_value fuel depth s3;
        match skip_ws s4 with
        | String b s5 =>
          if is_chr 44 b then
            '(l, rest) ← parse_members fuel depth s5; Some ((unquote key, v) :: l, rest)
          else if is_chr 125 b then Some ([(unquote key, v)], s5)
          else None
        | "" => None
        end
      else None
    | "" => None
    end
  end
with parse_items (fuel : nat) (depth : Z) (s : string) {struct fuel} : option (list json * string) :=
  match fuel with
  | 0%nat => None
  | S fuel =>
    '(v, s1) ← parse_value fuel depth s;
    match skip_ws s1 with
    | String b s2 =>
      if is_chr 44 b then '(l, rest) ← parse_items fuel depth s2; Some (v :: l, rest)
      else if is_chr 93 b then Some ([v], s2)
      else None
    | "" => None
    end
  end.

(** [maxNestingDepth] of the scanner. *)
Definition maxNestingDepth : Z := 10000.

Definition parse_json (s : string) : option json :=
  '(j, rest) ← parse_value (S (2 * String.length s)) maxNestingDepth s;
  if bool_decide (skip_ws rest = "") then Some j else None.

(** ** Conversion to Go values *)

(** A literal as mantissa and decimal exponent; the exponent saturates as in [readFloat]. *)
Fixpoint digits_value (acc : Z) (s : string) : Z :=
  match s with
  | String a s' => digits_value (10 * acc + digit a) s'
  | "" => acc
  end.
Fixpoint exponent_value (acc : Z) (s : string) : Z :=
  match s with
  | String a s' => exponent_value (if acc <? 10000 then 10 * acc + digit a else acc) s'
  | "" => acc
  end.
Definition literal_value (lit : string) : Z * Z :=
  let s := match lit with String a s' => if is_chr 45 a then s' else lit | "" => "" end in
  let '(i, s1) := scan_digits s in
  let '(f, s2) := match s1 with
    | String a s' => if is_chr 46 a then scan_digits s' else ("", s1)
    | "" => ("", "")
    end in
  let e := match s2 with
    | String _ (String b s' as s3) =>
      if is_chr 45 b then - exponent_value 0 s'
      else if is_chr 43 b then exponent_value 0 s' else exponent_value 0 s3
    | _ => 0
    end in
  (digits_value 0 (i +:+ f), e - Z.of_nat (String.length f)).

(** The number of decimal digits of [m > 0]. *)
Fixpoint decimal_digits (fuel : nat) (m : Z) : Z :=
  match fuel with
  | 0%nat => 0
  | S fuel => if m <=? 0 then 0 else 1 + decimal_digits fuel (m / 10)
  end.

(** [strconv.ParseFloat] reports no overflow: the value is below 2^1024 - 2^970, where rounding
    to a double reaches infinity. Only literals with 309 digits before the point are compared. *)
Definition float_overflow : Z := 2 ^ 1024 - 2 ^ 970.
Definition in_float_range (lit : string) : bool :=
  let '(m, e) := literal_value lit in
  let p := decimal_digits (String.length lit) m + e in
  if (m =? 0) || (p <? 309) then true
  else if 309 <? p then false
  else if 0 <=? e then m * 10 ^ e <? float_overflow else m <? float_overflow * 10 ^ (- e).

(** Every number of a value converts to a float. *)
Fixpoint convertible (j : json) : bool :=
  match j with
  | JNum lit => in_float_range lit
  | JArr l => forallb convertible l
  | JObj l => forallb (λ '(_, v), convertible v) l
  | _ => true
  end.

(** The members of an object in a Go map: the last of equal keys stays. *)
Definition members {V} (l : list (string * V)) : gmap string V :=
  foldl (λ m '(k, v), <[k := v]> m) ∅ l.

(** [json.Unmarshal] into an empty [map[string]interface{}]: [null] leaves a nil map, any other
    value that is not an object is a type error. *)
Definition decode_map (j : json) : option (gmap string json) :=
  match j with
  | JNull => Some ∅
  | JObj l => if convertible j then Some (members l) else None
  | _ => None
  end.

(** [foldName]: the name a key is compared by when no field has exactly that name. Two letters
    outside ASCII fold to an ASCII one: the long s and the Kelvin sign. *)
Definition ascii_upper (a : Ascii.ascii) : Ascii.ascii :=
  if ascii_between 97 122 a then chr (code a - 32) else a.
Definition long_s : string := utf8_encode 383.
Definition kelvin : string := utf8_encode 8490.
Definition fold_name (s : string) : string :=
  str_map ascii_upper (replace_all kelvin "K" (replace_all long_s "S" s)).
Definition is_field (name key : string) : bool := bool_decide (fold_name key = fold_name name).

(** A string field of a struct: [null] leaves it as it is. *)
Definition decode_string (cur : string) (j : json) : option string :=
  match j with JStr s => Some s | JNull => Some cur | _ => None end.

(** [%v] of a decoded value, with the text of a float as a parameter. *)
Section Format.
Variable FormatFloat : string → string.
Fixpoint fmt_value (j : json) : string :=
  match j with
  | JNull => "<nil>"
  | JBool b => if b then "true" else "false"
  | JNum lit => FormatFloat lit
  | JStr s => s
  | JArr l => "[" +:+ str_join " " (map fmt_value l) +:+ "]"
  | JObj l =>
    let m := members (map (λ '(k, v), (k, fmt_value v)) l) in
    "map[" +:+ str_join " " (map (λ k, k +:+ ":" +:+ map_get m k) (merge_sort String.le (map fst (map_to_list m))))
    +:+ "]"
  end.
End Format.

(** ** The fuel is enough

    A value consumes a character before it calls the parser of its members or items, and these
    call the parser of a value: twice the length of the text is more fuel than a parse needs. *)

#[local] Arguments is_space : simpl never.
#[local] Arguments is_chr : simpl never.
#[local] Arguments is_digit : simpl never.
#[local] Arguments is_hex : simpl never.
#[local] Arguments code : simpl never.
#[local] Notation len := String.length.
#[local] Open Scope nat_scope.

Lemma skip_ws_length s : len (skip_ws s) ≤ len s.
Proof. induction s as [|a s IH]; cbn; [done|]. destruct (is_space a); cbn; lia. Qed.

Lemma prepend_Some p r raw rest :
  prepend p r = Some (raw, rest) → ∃ raw', r = Some (raw', rest).
Proof. destruct r as [[raw' rest']|]; cbn; [|done]. intros [= <- <-]. eauto. Qed.

(** Open the choices of a scanner that succeeded. *)
Ltac scan_cases :=
  repeat match goal with
  | H : context [match ?x with _ => _ end] |- _ => lazymatch x with
    | context [match _ with _ => _ end] => fail
    | _ => destruct x eqn:?; cbn in H
    end
  | H : (?x ≫= _) = Some _ |- _ => destruct x eqn:?; cbn in H
  | H : prepend _ _ = Some _ |- _ => apply prepend_Some in H as [? H]
  | H : Some _ = Some _ |- _ => injection H as; subst
  | H : None = Some _ |- _ => discriminate H
  end.

Lemma scan_string_length n : ∀ s raw rest,
  len s ≤ n → scan_string s = Some (raw, rest) → len rest < len s.
Proof.
  induction n as [|n IH]; intros [|a s1] raw rest Hn; cbn in *; try done; [lia|].
  intros H. scan_cases; cbn in *; try lia.
  all: match goal with H : scan_string _ = Some _ |- _ => apply IH in H; lia end.
Qed.

Lemma scan_digits_length s d r : scan_digits s = (d, r) → len d + len r = len s.
Proof.
  revert d r. induction s as [|a s IH]; cbn; intros d r; [by intros [= <- <-]|].
  destruct (is_digit a); [|by intros [= <- <-]].
  destruct (scan_digits s) as [d' r']. intros [= <- <-]. cbn. by rewrite (IH d' r').
Qed.
Lemma digits1_length s d r : digits1 s = Some (d, r) → len r < len s.
Proof.
  unfold digits1. destruct (scan_digits s) as [[|a d'] r'] eqn:H; [done|].
  intros [= <- <-]. apply scan_digits_length in H. cbn in *. lia.
Qed.
Lemma scan_int_length s i r : scan_int s = Some (i, r) → len r < len s.
Proof.
  destruct s as [|a s]; cbn; [done|]. destruct (is_chr 48 a); [intros [= <- <-]; lia|].
  intros H. by apply digits1_length in H.
Qed.
Lemma scan_frac_length s f r : scan_frac s = Some (f, r) → len r ≤ len s.
Proof.
  destruct s as [|a s]; cbn; intros H; scan_cases; cbn; try lia. apply digits1_length in H. lia.
Qed.
Lemma scan_exp_length s e r : scan_exp s = Some (e, r) → len r ≤ len s.
Proof.
  destruct s as [|a s]; cbn; intros H; scan_cases; cbn in *; try lia;
    apply digits1_length in H; cbn in *; lia.
Qed.
Lemma scan_number_length s lit r : scan_number s = Some (lit, r) → len r < len s.
Proof.
  unfold scan_number. intros H. 
  destruct (match s with String a s' => if is_chr 45 a then (String a "", s') else ("", s) | "" => ("", "") end)
    as [sign s1] eqn:Hs.
  assert (Hl : len s1 ≤ len s) by (destruct s as [|a s]; [|destruct (is_chr 45 a)]; injection Hs as <- <-; cbn; lia).
  destruct (scan_int s1) as [[i s2]|] eqn:Hi; [|done]. cbn in H.
  destruct (scan_frac s2) as [[f s3]|] eqn:Hf; [|done]. cbn in H.
  destruct (scan_exp s3) as [[e s4]|] eqn:He; [|done]. cbn in H. injection H as _ <-.
  apply scan_int_length in Hi. apply scan_frac_length in Hf. apply scan_exp_length in He. lia.
Qed.

Lemma str_drop_length n s : len (str_drop n s) = len s - n.
Proof. revert s. induction n as [|n IH]; intros [|a s]; cbn; auto. Qed.
Lemma expect_length w j s j' r : w ≠ "" → expect w j s = Some (j', r) → len r < len s.
Proof.
  unfold expect. destruct (has_prefix w s) eqn:Hp; [|done]. intros Hw [= <- <-].
  rewrite str_drop_length. destruct w as [|b w]; [done|].
  destruct s as [|a s]; [done|]. cbn [String.length]. lia.
Qed.
Lemma skip_char_length n s r : skip_char n s = Some r → len r < len s.
Proof. destruct s as [|a s]; cbn; [done|]. case_bool_decide; [|done]. intros [= <-]. lia. Qed.

(** What is left after skipping the spaces of [s]. *)
Lemma skip_ws_cons s a s1 : skip_ws s = String a s1 → len s1 < len s.
Proof. intros H. pose proof (skip_ws_length s) as Hl. rewrite H in Hl. cbn in Hl. lia. Qed.

Ltac lengths :=
  repeat match goal with
  | H : skip_ws _ = String _ _ |- _ => apply skip_ws_cons in H
  | H : scan_string _ = Some _ |- _ => apply (scan_string_length _ _ _ _ (le_n _)) in H
  | H : scan_number _ = Some _ |- _ => apply scan_number_length in H
  | H : expect _ _ _ = Some _ |- _ => apply expect_length in H; [|done]
  | H : skip_char _ _ = Some _ |- _ => apply skip_char_length in H
  | H : context [len (skip_ws ?s)] |- _ => 
    lazymatch goal with _ : len (skip_ws s) ≤ len s |- _ => fail | _ => pose proof (skip_ws_length s) end
  end.

Ltac shorter IH :=
  repeat match goal with
  | H : parse_value _ ?d ?s = Some _ |- _ => apply (proj1 (IH d s)) in H
  | H : parse_members _ ?d ?s = Some _ |- _ => apply (proj1 (proj2 (IH d s))) in H
  | H : parse_items _ ?d ?s = Some _ |- _ => apply (proj2 (proj2 (IH d s))) in H
  end.

Lemma parse_length f : ∀ d s,
  (∀ j r, parse_value f d s = Some (j, r) → len r < len s)
  ∧ (∀ l r, parse_members f d s = Some (l, r) → len r < len s)
  ∧ (∀ l r, parse_items f d s = Some (l, r) → len r < len s).
Proof.
  induction f as [|f IH]; [done|]. intros d s. split_and!; intros x r H; cbn in H.
  - destruct (skip_ws s) as [|a s1] eqn:Hs; [done|].
    scan_cases; cbn in *; lengths; shorter IH; cbn in *; lia.
  - scan_cases; lengths; shorter IH; cbn in *; lia.
  - scan_cases; lengths; shorter IH; cbn in *; lia.
Qed.

(** Any fuel above twice the length of the text parses it alike. *)
Lemma parse_fuel f : ∀ f' d s,
  (2 * len s < f → 2 * len s < f' → parse_value f d s = parse_value f' d s)
  ∧ (2 * len s < f → 2 * len s < f' → parse_members f d s = parse_members f' d s)
  ∧ (2 * len s + 1 < f → 2 * len s + 1 < f' → parse_items f d s = parse_items f' d s).
Proof.
  induction f as [|f IH]; [intros; split_and!; lia|]. intros [|f'] d s; [split_and!; lia|].
  split_and!; intros Hf Hf'; cbn.
  - destruct (skip_ws s) as [|a s1] eqn:Hs; [done|]. apply skip_ws_cons in Hs.
    rewrite (proj1 (proj2 (IH f' (d - 1)%Z s1))), (proj2 (proj2 (IH f' (d - 1)%Z s1))) by lia.
    reflexivity.
  - destruct (skip_ws s) as [|a s1] eqn:Hs; [done|]. apply skip_ws_cons in Hs.
    destruct (bool_decide _); [|done]. destruct (scan_string s1) as [[key s2]|] eqn:H2; [|done]. cbn.
    destruct (skip_char 58 (skip_ws s2)) as [s3|] eqn:H3; [|done]. cbn. lengths.
    rewrite (proj1 (IH f' d s3)) by lia. destruct (parse_value f' d s3) as [[v s4]|] eqn:H4; [|done].
    cbn. apply parse_length in H4. destruct (skip_ws s4) as [|b s5] eqn:H5; [done|]. lengths.
    by rewrite (proj1 (proj2 (IH f' d s5))) by lia.
  - rewrite (proj1 (IH f' d s)) by lia. destruct (parse_value f' d s) as [[v s1]|] eqn:H1; [|done].
    cbn. apply parse_length in H1. destruct (skip_ws s1) as [|b s2] eqn:H2; [done|]. lengths.
    by rewrite (proj2 (proj2 (IH f' d s2))) by lia.
Qed.

(** The parser does not depend on its fuel. *)
Lemma parse_json_fuel f s : 2 * len s < f →
  parse_json s = ('(j, rest) ← parse_value f maxNestingDepth s;
                  if bool_decide (skip_ws rest = "") then Some j else None).
Proof.
  intros Hf. unfold parse_json. by rewrite (proj1 (parse_fuel (S (2 * len s)) f maxNestingDepth s)) by lia.
Qed.

(** ** Concrete texts *)

Definition quoted (s : string) : string := String dquote (s +:+ String dquote "").

Example parse_json_examples :
  map parse_json
    [" { " +:+ quoted "a" +:+ " : [1.5e-3, true,null] , " +:+ quoted "b\u00e9\ud83d\ude00\n" +:+ ":{}}";
     "[[[[]]]]"; "[1,]"; "01"; quoted "\ud800x"; "{}x"; "-0.0"; ""]
  = [Some (JObj [("a", JArr [JNum "1.5e-3"; JBool true; JNull]);
                 ("b" +:+ utf8_encode 233 +:+ utf8_encode 128512 +:+ newline, JObj [])]);
     Some (JArr [JArr [JArr [JArr []]]]); None; None; Some (JStr (replacement +:+ "x")); None;
     Some (JNum "-0.0"); None].
Proof. vm_compute. reflexivity. Qed.

Example in_float_range_examples :
  map in_float_range ["1e308"; "1e309"; "17976931348623157e292"; "17976931348623159e292"; "0e999999"; "-1e-400"]
  = [true; false; true; false; true; true].
Proof. vm_compute. reflexivity. Qed.

Example is_field_examples :
  map (is_field "issuesLinks") ["issuesLinks"; "ISSUESLINKS"; "i" +:+ long_s +:+ "suesLin" +:+ kelvin +:+ "s"; "links"]
  = [true; true; true; false].
Proof. vm_compute. reflexivity. Qed.
