(* ===== verification/Doubles.v ===== *)
(** * Doubles: lower bounds in double arithmetic

    Rounding to nearest keeps a power of two that bounds a value from below. The bounds are
    carried through the operations that [math.Pow] is made of. *)

From Stdlib Require Import Floats.SpecFloat.
From S2P Require Import Prelude GoStd.

#[local] Open Scope Z_scope.

(** [x] is at least [2 ^ b]: powers with a negative exponent are 0 in [Z]. *)
Definition at_least (b : Z) (x : spec_float) : Prop :=
  match x with
  | S754_finite false m e => 2 ^ (b - e) ≤ Z.pos m
  | S754_infinity false => True
  | _ => False
  end.

Lemma at_least_weaken b c x : c ≤ b → at_least b x → at_least c x.
Proof.
  intros Hc. destruct x as [[]|[]| |[] m e]; cbn; try done. intros H.
  etrans; [|exact H]. destruct (decide (c - e < 0)); [rewrite Z.pow_neg_r by lia; apply Z.pow_nonneg; lia|].
  apply Z.pow_le_mono_r; lia.
Qed.

Lemma digits_bounds m : 2 ^ (Z.pos (digits2_pos m) - 1) ≤ Z.pos m < 2 ^ Z.pos (digits2_pos m).
Proof.
  induction m as [m IH|m IH|]; [| |by vm_compute]; cbn [digits2_pos]; rewrite Pos2Z.inj_succ;
    replace (Z.succ _ - 1) with (Z.succ (Z.pos (digits2_pos m) - 1)) by lia;
    rewrite !Z.pow_succ_r by lia; lia.
Qed.

(** ** Rounding *)

Lemma shr_1_half r : 0 ≤ shr_m r → shr_m (shr_1 r) = shr_m r / 2.
Proof.
  destruct r as [m r s]. cbn. intros Hm. destruct m as [|[m|m|]|m]; try done.
  - change (Z.pos m~1) with (2 * Z.pos m + 1). apply Z.div_unique with 1; cbn [shr_1 shr_m]; lia.
  - change (Z.pos m~0) with (2 * Z.pos m). apply Z.div_unique with 0; cbn [shr_1 shr_m]; lia.
Qed.
Lemma pow_2_double n : 0 ≤ n → 2 ^ (2 * n) = 2 ^ n * 2 ^ n.
Proof. intros H. replace (2 * n) with (n + n) by lia. by apply Z.pow_add_r. Qed.
Lemma shr_floor n r : 0 ≤ shr_m r → shr_m (SpecFloat.iter_pos shr_1 n r) = shr_m r / 2 ^ Z.pos n.
Proof.
  revert r. induction n as [n IH|n IH|]; intros r Hr; cbn [SpecFloat.iter_pos];
    try assert (Hp : 0 < 2 ^ Z.pos n) by (apply Z.pow_pos_nonneg; lia).
  - assert (H1 : 0 ≤ shr_m (shr_1 r)) by (rewrite shr_1_half by done; by apply Z.div_pos).
    assert (H2 : 0 ≤ shr_m (SpecFloat.iter_pos shr_1 n (shr_1 r))) by (rewrite IH by done; by apply Z.div_pos).
    rewrite (IH _ H2), (IH _ H1), shr_1_half, !Z.div_div by lia.
    f_equal. rewrite (Pos2Z.inj_xI n), Z.pow_add_r, pow_2_double by lia. lia.
  - assert (H2 : 0 ≤ shr_m (SpecFloat.iter_pos shr_1 n r)) by (rewrite IH by done; by apply Z.div_pos).
    rewrite (IH _ H2), (IH _ Hr), Z.div_div by lia.
    f_equal. rewrite (Pos2Z.inj_xO n). by rewrite pow_2_double by lia.
  - by apply shr_1_half.
Qed.

(** A right shift of [m] by [n], which leaves something, keeps the bound. *)
Lemma shift_bound b e m n :
  0 < n → 2 ^ (b - e) ≤ m → 2 ^ n ≤ m ∨ e + n ≤ b → 0 < m / 2 ^ n ∧ 2 ^ (b - (e + n)) ≤ m / 2 ^ n.
Proof.
  intros Hn Hm Hb. assert (Hp : 0 < 2 ^ n) by (apply Z.pow_pos_nonneg; lia).
  destruct (decide (e + n ≤ b)) as [Hd|Hd].
  - replace (b - e) with ((b - (e + n)) + n) in Hm by lia. rewrite Z.pow_add_r in Hm by lia.
    assert (0 < 2 ^ (b - (e + n))) by (apply Z.pow_pos_nonneg; lia).
    assert (2 ^ (b - (e + n)) ≤ m / 2 ^ n) by (apply Z.div_le_lower_bound; lia). lia.
  - rewrite (Z.pow_neg_r 2 (b - (e + n))) by lia. assert (1 ≤ m / 2 ^ n) by (apply Z.div_le_lower_bound; lia). lia.
Qed.

Lemma shr_fexp_bound b m e l :
  0 < m → - 1074 ≤ b → 2 ^ (b - e) ≤ m →
  let r := shr_fexp 53 1024 m e l in 0 < shr_m r.1 ∧ 2 ^ (b - r.2) ≤ shr_m r.1.
Proof.
  intros Hm Hb Hbm. unfold shr_fexp. assert (Hl : shr_m (shr_record_of_loc m l) = m) by by destruct l as [|[]].
  destruct (fexp 53 1024 (Zdigits2 m + e) - e) as [|n|n] eqn:Hn; cbn [shr fst snd]; rewrite ?Hl; [done| |done].
  rewrite shr_floor, Hl by (rewrite Hl; lia). apply shift_bound; [lia|done|].
  unfold fexp, emin in Hn. destruct m as [|m|m]; try lia. cbn [Zdigits2] in Hn.
  pose proof (digits_bounds m) as [Hd _].
  destruct (decide (Z.pos (digits2_pos m) + e - 53 ≤ - 1074)); [right; lia|left].
  etrans; [|exact Hd]. apply Z.pow_le_mono_r; lia.
Qed.

Lemma round_up_bound m l : m ≤ round_nearest_even m l.
Proof. destruct l as [|[]]; cbn; try destruct (Z.even m); lia. Qed.

Lemma round_aux_bound b m e :
  - 1074 ≤ b → 2 ^ (b - e) ≤ Z.pos m → at_least b (binary_round_aux 53 1024 false (Z.pos m) e loc_Exact).
Proof.
  intros Hb Hm. unfold binary_round_aux.
  destruct (shr_fexp_bound b (Z.pos m) e loc_Exact ltac:(lia) Hb Hm) as [Hp1 Hb1].
  destruct (shr_fexp 53 1024 (Z.pos m) e loc_Exact) as [r1 e1]. cbn [fst snd] in *.
  pose proof (round_up_bound (shr_m r1) (loc_of_shr_record r1)) as Hup.
  destruct (shr_fexp_bound b (round_nearest_even (shr_m r1) (loc_of_shr_record r1)) e1 loc_Exact
    ltac:(lia) Hb ltac:(lia)) as [Hp2 Hb2].
  destruct (shr_fexp 53 1024 _ e1 loc_Exact) as [r2 e2]. cbn [fst snd] in *.
  destruct (shr_m r2) as [|m2|m2]; [lia| |lia]. by destruct (e2 <=? 1024 - 53).
Qed.

Lemma shl_align_bound b m e e' :
  2 ^ (b - e) ≤ Z.pos m → let r := shl_align m e e' in 2 ^ (b - r.2) ≤ Z.pos r.1.
Proof.
  intros Hm. unfold shl_align. destruct (e' - e) as [|n|n] eqn:Hn; [done..|]. cbn [fst snd].
  assert (Hs : Z.pos (Pos.iter xO m n) = Z.pos m * 2 ^ Z.pos n).
  { clear. induction n as [|n IH] using Pos.peano_ind; [cbn; lia|].
    rewrite Pos.iter_succ, (Pos2Z.inj_xO (Pos.iter _ _ _)), IH, Pos2Z.inj_succ, Z.pow_succ_r by lia. lia. }
  rewrite Hs. destruct (decide (b - e < 0)).
  - destruct (decide (b - e' < 0)); [rewrite (Z.pow_neg_r 2 (b - e')) by lia; lia|].
    assert (2 ^ (b - e') ≤ 2 ^ Z.pos n) by (apply Z.pow_le_mono_r; lia). nia.
  - replace (b - e') with ((b - e) + Z.pos n) by lia. rewrite Z.pow_add_r by lia.
    apply Z.mul_le_mono_nonneg_r; [apply Z.pow_nonneg; lia|done].
Qed.

Lemma round_bound b m e : - 1074 ≤ b → 2 ^ (b - e) ≤ Z.pos m → at_least b (binary_round 53 1024 false m e).
Proof.
  intros Hb Hm. unfold binary_round.
  pose proof (shl_align_bound b m e (fexp 53 1024 (Z.pos (digits2_pos m) + e)) Hm) as H.
  destruct (shl_align _ _ _) as [m1 e1]. by apply round_aux_bound.
Qed.

(** ** Operations *)

Lemma pow_2_mul a b m n : 2 ^ a ≤ m → 2 ^ b ≤ n → 0 < m → 0 < n → 2 ^ (a + b) ≤ m * n.
Proof.
  intros Hm Hn Hm0 Hn0. destruct (decide (a < 0)); [|destruct (decide (b < 0))].
  - destruct (decide (a + b < 0)); [rewrite (Z.pow_neg_r 2 (a + b)); nia|].
    assert (2 ^ (a + b) ≤ 2 ^ b) by (apply Z.pow_le_mono_r; lia). nia.
  - destruct (decide (a + b < 0)); [rewrite (Z.pow_neg_r 2 (a + b)); nia|].
    assert (2 ^ (a + b) ≤ 2 ^ a) by (apply Z.pow_le_mono_r; lia). nia.
  - rewrite Z.pow_add_r by lia. assert (0 ≤ 2 ^ a) by (apply Z.pow_nonneg; lia). nia.
Qed.

Lemma mul_bound b c x y : - 1074 ≤ b + c → at_least b x → at_least c y → at_least (b + c) (f64_mul x y).
Proof.
  intros Hbc. destruct x as [[]|[]| |[] m e]; try done; destruct y as [[]|[]| |[] n f]; try done. cbn.
  intros Hm Hn. apply round_aux_bound; [done|]. rewrite Pos2Z.inj_mul.
  replace (b + c - (e + f)) with ((b - e) + (c - f)) by lia. by apply pow_2_mul.
Qed.

Lemma ldexp_bound b x n : - 1074 ≤ b + n → at_least b x → at_least (b + n) (SFldexp 53 1024 x n).
Proof.
  intros Hb. destruct x as [[]|[]| |[] m e]; try done. cbn. intros Hm. apply round_bound; [done|].
  by replace (b + n - (e + n)) with (b - e) by lia.
Qed.

(** ** Integer parts *)

Lemma truncate_bound b x z : 0 ≤ b → at_least b x → integer_part x = Some z → 2 ^ b ≤ z.
Proof.
  intros Hb. destruct x as [[]|[]| |[] m e]; try done. cbn [at_least integer_part truncate]. intros Hm [= <-].
  case_match eqn:He.
  - destruct (decide (b - e < 0)).
    + assert (2 ^ b ≤ 2 ^ e) by (apply Z.pow_le_mono_r; lia). nia.
    + replace b with ((b - e) + e) by lia. rewrite Z.pow_add_r by lia.
      apply Z.mul_le_mono_nonneg_r; [apply Z.pow_nonneg; lia|done].
  - apply Z.div_le_lower_bound; [apply Z.pow_pos_nonneg; lia|].
    rewrite <- Z.pow_add_r by lia. by replace (- e + b) with (b - e) by lia.
Qed.
