(* ===== verification/Api.v ===== *)
(** * Api: the custom resources (api/v1)

    One record per Go struct of [src/api/v1], with the struct's fields in their
    order, the accessor methods declared next to the structs, and the constants
    of [src/api/v1] and [src/pkg/util/consts.go] the controllers compare with.
    Pointers to strings and structs are options; a nil map or slice and an empty
    one are the same value. [ObjectMeta], [Condition] and the resources owned
    by other projects (Secret, ConfigMap, CDPipeline, Stage, PipelineRun, ...)
    are records of the fields the operator reads or writes. *)

From S2P Require Import Prelude.

(** ** Kubernetes metadata *)

Record OwnerReference := { or_Kind : string; or_Name : string; or_Controller : bool }.
#[export] Instance OwnerReference_eq_dec : EqDecision OwnerReference.
Proof. solve_decision. Defined.

Record ObjectMeta := {
  om_Name : string;
  om_GenerateName : string;
  om_Namespace : string;
  om_Labels : gmap string string;
  om_Annotations : gmap string string;
  om_Finalizers : list string;
  om_OwnerReferences : list OwnerReference;
  om_DeletionTimestamp : option Z;
  om_CreationTimestamp : Z;
  om_Generation : Z }.
#[export] Instance ObjectMeta_eq_dec : EqDecision ObjectMeta.
Proof. solve_decision. Defined.

Definition set_Labels (l : gmap string string) (m : ObjectMeta) : ObjectMeta :=
  {| om_Name := om_Name m; om_GenerateName := om_GenerateName m; om_Namespace := om_Namespace m;
     om_Labels := l; om_Annotations := om_Annotations m; om_Finalizers := om_Finalizers m;
     om_OwnerReferences := om_OwnerReferences m; om_DeletionTimestamp := om_DeletionTimestamp m;
     om_CreationTimestamp := om_CreationTimestamp m; om_Generation := om_Generation m |}.

Definition new_meta (name generateName namespace : string) : ObjectMeta :=
  {| om_Name := name; om_GenerateName := generateName; om_Namespace := namespace;
     om_Labels := ∅; om_Annotations := ∅; om_Finalizers := []; om_OwnerReferences := [];
     om_DeletionTimestamp := None; om_CreationTimestamp := 0; om_Generation := 0 |}.

Record ObjectKey := { key_Namespace : string; key_Name : string }.
#[export] Instance ObjectKey_eq_dec : EqDecision ObjectKey.
Proof. solve_decision. Defined.

Record Condition := {
  cond_Type : string; cond_Status : string; cond_Reason : string;
  cond_Message : string; cond_ObservedGeneration : Z; cond_LastTransitionTime : Z }.
#[export] Instance Condition_eq_dec : EqDecision Condition.
Proof. solve_decision. Defined.

(** What the code reaches through [metav1.Object] / [client.Object]. *)
Class Object (O : Type) := {
  obj_meta : O → ObjectMeta;
  obj_set_meta : O → ObjectMeta → O;
  obj_meta_set : ∀ o m, obj_meta (obj_set_meta o m) = m;
  obj_set_set : ∀ o m m', obj_set_meta (obj_set_meta o m) m' = obj_set_meta o m' }.

Definition name_of {O} `{Object O} (o : O) : string := om_Name (obj_meta o).
Definition namespace_of {O} `{Object O} (o : O) : string := om_Namespace (obj_meta o).
Definition labels_of {O} `{Object O} (o : O) : gmap string string := om_Labels (obj_meta o).
Definition with_labels {O} `{Object O} (l : gmap string string) (o : O) : O :=
  obj_set_meta o (set_Labels l (obj_meta o)).
Definition is_deleting {O} `{Object O} (o : O) : bool :=
  match om_DeletionTimestamp (obj_meta o) with Some _ => true | None => false end.

Lemma labels_with_labels {O} `{Object O} l (o : O) : labels_of (with_labels l o) = l.
Proof. unfold labels_of, with_labels. by rewrite obj_meta_set. Qed.
#[export] Hint Rewrite @labels_with_labels @obj_meta_set @obj_set_set : go.

(** ** Labels, annotations and status constants *)

Definition CdPipelineLabel := "app.edp.epam.com/cdpipeline".
Definition CdStageLabel := "app.edp.epam.com/cdstage".
Definition CdStageDeployLabel := "app.edp.epam.com/cdstagedeploy".
Definition CodebaseBranchLabel := "app.edp.epam.com/codebasebranch".
Definition CodebaseLabel := "app.edp.epam.com/codebase".
Definition BranchHashLabel := "app.edp.epam.com/branch-hash".
Definition GitServerLabel := "app.edp.epam.com/gitServer".
Definition GitUrlPathHashLabel := "app.edp.epam.com/gitUrlPathHash".
Definition StaleLabel := "app.edp.epam.com/stale".
Definition BranchCleanupStrategyAnnotation := "app.edp.epam.com/branch-cleanup-strategy".
Definition BranchCleanupStrategyAuto := "auto".

Definition StatusFailed := "failed".
Definition StatusFinished := "created".
Definition StatusInProgress := "in progress".
Definition StatusInit := "initialized".
Definition PrivateSShKeyName := "id_rsa".
Definition GitServerSecretTokenField := "token".
Definition GitServerSecretWebhookSecretField := "secretString".
Definition GitServerSecretUserNameField := "username".
Definition Application := "application".
Definition CITekton := "tekton".
Definition CIGitLab := "gitlab".
Definition ForegroundDeletionFinalizerName := "foregroundDeletion".

Definition ProjectPushedStatus := "pushed".
Definition ProjectGitLabCIPushedStatus := "gitlab_ci_pushed".
Definition ProjectTemplatesPushedStatus := "templates_pushed".
Definition ProjectPushInProgressStatus := "push_in_progress".

Definition GitProviderGerrit := "gerrit".
Definition GitProviderGithub := "github".
Definition GitProviderGitlab := "gitlab".
Definition GitProviderBitbucket := "bitbucket".

(** ** Codebase *)

Definition Create := "create".
Definition Clone := "clone".
Definition Import := "import".
Definition VersioningTypDefault := "default".
Definition VersioningTypeEDP := "edp".
Definition VersioningTypeSemver := "semver".

Record Versioning := { v_Type : string; v_StartFrom : option string }.
#[export] Instance Versioning_eq_dec : EqDecision Versioning.
Proof. solve_decision. Defined.

Record Repository := { r_Url : string }.
#[export] Instance Repository_eq_dec : EqDecision Repository.
Proof. solve_decision. Defined.

Record CloneRepositoryCredentials := { crc_SecretRefName : string; crc_ClearSecretAfterUse : bool }.
#[export] Instance CloneRepositoryCredentials_eq_dec : EqDecision CloneRepositoryCredentials.
Proof. solve_decision. Defined.

Record CodebaseSpec := {
  cs_Lang : string;
  cs_Description : option string;
  cs_Framework : string;
  cs_BuildTool : string;
  cs_Strategy : string;
  cs_Repository : option Repository;
  cs_TestReportFramework : option string;
  cs_Type : string;
  cs_GitServer : string;
  cs_GitUrlPath : string;
  cs_DeploymentScript : string;
  cs_Versioning : Versioning;
  cs_JiraServer : option string;
  cs_CommitMessagePattern : option string;
  cs_TicketNamePattern : option string;
  cs_CiTool : string;
  cs_DefaultBranch : string;
  cs_JiraIssueMetadataPayload : option string;
  cs_EmptyProject : bool;
  cs_BranchToCopyInDefaultBranch : string;
  cs_DisablePutDeployTemplates : bool;
  cs_Private : bool;
  cs_CloneRepositoryCredentials : option CloneRepositoryCredentials }.
#[export] Instance CodebaseSpec_eq_dec : EqDecision CodebaseSpec.
Proof. solve_decision. Defined.

(** The action and result names written to [Status.Action] and [Status.Result]. *)
Definition RepositoryProvisioning := "repository_provisioning".
Definition CIConfiguration := "ci_configuration".
Definition SetupDeploymentTemplates := "setup_deployment_templates".
Definition AcceptCodebaseBranchRegistration := "accept_codebase_branch_registration".
Definition CleanData := "clean_data".
Definition PutWebHook := "put_web_hook".
Definition PutGitWebRepoUrl := "put_git_web_repo_url".
Definition PutGitBranch := "put_git_branch".
Definition PutCodebaseImageStream := "put_codebase_image_stream".
Definition CheckCommitHashExists := "check_commit_hash_exists".
Definition Success := "success".
Definition Error := "error".

Record CodebaseStatus := {
  cst_Available : bool;
  cst_LastTimeUpdated : Z;
  cst_Status : string;
  cst_Username : string;
  cst_Action : string;
  cst_Result : string;
  cst_DetailedMessage : string;
  cst_Value : string;
  cst_FailureCount : Z;
  cst_Git : string;
  cst_WebHookID : Z;
  cst_WebHookRef : string;
  cst_GitWebUrl : string }.
#[export] Instance CodebaseStatus_eq_dec : EqDecision CodebaseStatus.
Proof. solve_decision. Defined.

Definition zero_codebase_status : CodebaseStatus :=
  {| cst_Available := false; cst_LastTimeUpdated := 0; cst_Status := ""; cst_Username := "";
     cst_Action := ""; cst_Result := ""; cst_DetailedMessage := ""; cst_Value := "";
     cst_FailureCount := 0; cst_Git := ""; cst_WebHookID := 0; cst_WebHookRef := "";
     cst_GitWebUrl := "" |}.

Record Codebase := { c_Meta : ObjectMeta; c_Spec : CodebaseSpec; c_Status : CodebaseStatus }.
#[export] Instance Codebase_eq_dec : EqDecision Codebase.
Proof. solve_decision. Defined.

#[export] Program Instance Codebase_Object : Object Codebase := {|
  obj_meta := c_Meta;
  obj_set_meta c m := {| c_Meta := m; c_Spec := c_Spec c; c_Status := c_Status c |} |}.
Solve Obligations with done.

Definition c_with_spec (s : CodebaseSpec) (c : Codebase) : Codebase :=
  {| c_Meta := c_Meta c; c_Spec := s; c_Status := c_Status c |}.
Definition c_with_status (s : CodebaseStatus) (c : Codebase) : Codebase :=
  {| c_Meta := c_Meta c; c_Spec := c_Spec c; c_Status := s |}.

(** [func (in *CodebaseSpec) GetProjectID] *)
Definition GetProjectID (s : CodebaseSpec) : string := trim_prefix "/" (cs_GitUrlPath s).

(** [func (in *CodebaseSpec) IsVersionTypeSemver] *)
Definition IsVersionTypeSemver (s : CodebaseSpec) : bool :=
  bool_decide (v_Type (cs_Versioning s) = VersioningTypeSemver)
  || bool_decide (v_Type (cs_Versioning s) = VersioningTypeEDP).

(** [func (in *Codebase) GetCloneRepositoryCredentialSecret] *)
Definition GetCloneRepositoryCredentialSecret (c : Codebase) : string :=
  let temp := "repository-codebase-" +:+ name_of c +:+ "-temp" in
  match cs_CloneRepositoryCredentials (c_Spec c) with
  | Some crc => if bool_decide (crc_SecretRefName crc = "") then temp else crc_SecretRefName crc
  | None => temp
  end.

(** [func (in *CodebaseStatus) GetWebHookRef] *)
Definition GetWebHookRef (s : CodebaseStatus) : string :=
  if bool_decide (cst_WebHookRef s = "") && negb (bool_decide (cst_WebHookID s = 0%Z))
  then itoa (cst_WebHookID s)
  else cst_WebHookRef s.

Definition set_Git (git : string) (s : CodebaseStatus) : CodebaseStatus :=
  {| cst_Available := cst_Available s; cst_LastTimeUpdated := cst_LastTimeUpdated s;
     cst_Status := cst_Status s; cst_Username := cst_Username s; cst_Action := cst_Action s;
     cst_Result := cst_Result s; cst_DetailedMessage := cst_DetailedMessage s;
     cst_Value := cst_Value s; cst_FailureCount := cst_FailureCount s; cst_Git := git;
     cst_WebHookID := cst_WebHookID s; cst_WebHookRef := cst_WebHookRef s;
     cst_GitWebUrl := cst_GitWebUrl s |}.

(** ** CodebaseBranch *)

Definition CodebaseBranchGitStatusBranchCreated := "branch-created".
Definition ConditionStale := "Stale".
Definition ReasonBranchNotFoundInGit := "BranchNotFoundInGit".
Definition ReasonBranchFoundInGit := "BranchFoundInGit".

Record CodebaseBranchSpec := {
  bs_CodebaseName : string;
  bs_BranchName : string;
  bs_FromCommit : string;
  bs_Version : option string;
  bs_Release : bool;
  bs_Pipelines : gmap string string }.
#[export] Instance CodebaseBranchSpec_eq_dec : EqDecision CodebaseBranchSpec.
Proof. solve_decision. Defined.

Record CodebaseBranchStatus := {
  bst_LastTimeUpdated : Z;
  bst_VersionHistory : list string;
  bst_LastSuccessfulBuild : option string;
  bst_Build : option string;
  bst_Status : string;
  bst_Username : string;
  bst_Action : string;
  bst_Result : string;
  bst_DetailedMessage : string;
  bst_Value : string;
  bst_FailureCount : Z;
  bst_Git : string;
  bst_Conditions : list Condition }.
#[export] Instance CodebaseBranchStatus_eq_dec : EqDecision CodebaseBranchStatus.
Proof. solve_decision. Defined.

Record CodebaseBranch := {
  b_Meta : ObjectMeta; b_Spec : CodebaseBranchSpec; b_Status : CodebaseBranchStatus }.
#[export] Instance CodebaseBranch_eq_dec : EqDecision CodebaseBranch.
Proof. solve_decision. Defined.

#[export] Program Instance CodebaseBranch_Object : Object CodebaseBranch := {|
  obj_meta := b_Meta;
  obj_set_meta b m := {| b_Meta := m; b_Spec := b_Spec b; b_Status := b_Status b |} |}.
Solve Obligations with done.

Definition b_with_spec (s : CodebaseBranchSpec) (b : CodebaseBranch) : CodebaseBranch :=
  {| b_Meta := b_Meta b; b_Spec := s; b_Status := b_Status b |}.
Definition b_with_status (s : CodebaseBranchStatus) (b : CodebaseBranch) : CodebaseBranch :=
  {| b_Meta := b_Meta b; b_Spec := b_Spec b; b_Status := s |}.

Definition set_Pipelines (p : gmap string string) (s : CodebaseBranchSpec) : CodebaseBranchSpec :=
  {| bs_CodebaseName := bs_CodebaseName s; bs_BranchName := bs_BranchName s;
     bs_FromCommit := bs_FromCommit s; bs_Version := bs_Version s; bs_Release := bs_Release s;
     bs_Pipelines := p |}.

(** The zero status of a freshly built CodebaseBranch. *)
Definition zero_branch_status : CodebaseBranchStatus :=
  {| bst_LastTimeUpdated := 0; bst_VersionHistory := []; bst_LastSuccessfulBuild := None;
     bst_Build := None; bst_Status := ""; bst_Username := ""; bst_Action := ""; bst_Result := "";
     bst_DetailedMessage := ""; bst_Value := ""; bst_FailureCount := 0; bst_Git := "";
     bst_Conditions := [] |}.

(** ** CodebaseImageStream *)

Record Tag := { t_Name : string; t_Created : string; t_Digest : string }.
#[export] Instance Tag_eq_dec : EqDecision Tag.
Proof. solve_decision. Defined.

Record CodebaseImageStreamSpec := {
  is_Codebase : string; is_ImageName : string; is_Tags : list Tag }.
#[export] Instance CodebaseImageStreamSpec_eq_dec : EqDecision CodebaseImageStreamSpec.
Proof. solve_decision. Defined.

Record CodebaseImageStreamStatus := { ist_DetailedMessage : string; ist_FailureCount : Z }.
#[export] Instance CodebaseImageStreamStatus_eq_dec : EqDecision CodebaseImageStreamStatus.
Proof. solve_decision. Defined.

Record CodebaseImageStream := {
  i_Meta : ObjectMeta; i_Spec : CodebaseImageStreamSpec; i_Status : CodebaseImageStreamStatus }.
#[export] Instance CodebaseImageStream_eq_dec : EqDecision CodebaseImageStream.
Proof. solve_decision. Defined.

#[export] Program Instance CodebaseImageStream_Object : Object CodebaseImageStream := {|
  obj_meta := i_Meta;
  obj_set_meta i m := {| i_Meta := m; i_Spec := i_Spec i; i_Status := i_Status i |} |}.
Solve Obligations with done.

(** ** CDStageDeploy *)

Definition CDStageDeployStatusFailed := "failed".
Definition CDStageDeployStatusRunning := "running".
Definition CDStageDeployStatusPending := "pending".
Definition CDStageDeployStatusInQueue := "in-queue".
Definition CDStageDeployStatusCompleted := "completed".

Record CodebaseTag := { ct_Codebase : string; ct_Tag : string; ct_Digest : string }.
#[export] Instance CodebaseTag_eq_dec : EqDecision CodebaseTag.
Proof. solve_decision. Defined.

Record CDStageDeploySpec := {
  ds_Pipeline : string;
  ds_Stage : string;
  ds_Tag : CodebaseTag;
  ds_Tags : list CodebaseTag;
  ds_TriggerType : string }.
#[export] Instance CDStageDeploySpec_eq_dec : EqDecision CDStageDeploySpec.
Proof. solve_decision. Defined.

Record CDStageDeployStatus := { dst_Status : string; dst_Message : string }.
#[export] Instance CDStageDeployStatus_eq_dec : EqDecision CDStageDeployStatus.
Proof. solve_decision. Defined.

Record CDStageDeploy := {
  d_Meta : ObjectMeta; d_Spec : CDStageDeploySpec; d_Status : CDStageDeployStatus }.
#[export] Instance CDStageDeploy_eq_dec : EqDecision CDStageDeploy.
Proof. solve_decision. Defined.

#[export] Program Instance CDStageDeploy_Object : Object CDStageDeploy := {|
  obj_meta := d_Meta;
  obj_set_meta d m := {| d_Meta := m; d_Spec := d_Spec d; d_Status := d_Status d |} |}.
Solve Obligations with done.

(** [stageDeploy.Status.Status = s] *)
Definition set_deploy_status (s : string) (d : CDStageDeploy) : CDStageDeploy :=
  {| d_Meta := d_Meta d; d_Spec := d_Spec d;
     d_Status := {| dst_Status := s; dst_Message := dst_Message (d_Status d) |} |}.

(** [func (in *CDStageDeploy) SetFailedStatus] *)
Definition SetFailedStatus (e : error) (d : CDStageDeploy) : CDStageDeploy :=
  {| d_Meta := d_Meta d; d_Spec := d_Spec d;
     d_Status := {| dst_Status := CDStageDeployStatusFailed; dst_Message := err_msg e |} |}.

(** [func (in *CDStageDeploy) GetStageCRName] *)
Definition GetStageCRName (d : CDStageDeploy) : string :=
  ds_Pipeline (d_Spec d) +:+ "-" +:+ ds_Stage (d_Spec d).

Definition IsPending (d : CDStageDeploy) : bool :=
  bool_decide (dst_Status (d_Status d) = CDStageDeployStatusPending).
Definition IsInQueue (d : CDStageDeploy) : bool :=
  bool_decide (dst_Status (d_Status d) = CDStageDeployStatusInQueue).
Definition IsFailed (d : CDStageDeploy) : bool :=
  bool_decide (dst_Status (d_Status d) = CDStageDeployStatusFailed).
Definition IsCompleted (d : CDStageDeploy) : bool :=
  bool_decide (dst_Status (d_Status d) = CDStageDeployStatusCompleted).
Definition IsRunning (d : CDStageDeploy) : bool :=
  bool_decide (dst_Status (d_Status d) = CDStageDeployStatusRunning).

(** ** pkg/model *)

(** The values the deploy templates are rendered with. *)
Record ConfigGoTemplating := {
  cf_Lang : string; cf_Name : string; cf_PlatformType : string; cf_DnsWildcard : string;
  cf_Framework : string; cf_GitURL : string; cf_IngressController : string;
  cf_GatewayName : string; cf_GatewayNamespace : string }.

(** ** GitServer *)

Record GitServerSpec := {
  gs_GitHost : string;
  gs_GitUser : string;
  gs_HttpsPort : Z;
  gs_SshPort : Z;
  gs_NameSshKeySecret : string;
  gs_GitProvider : string;
  gs_SkipWebhookSSLVerification : bool;
  gs_WebhookUrl : string;
  gs_TektonDisabled : bool }.
#[export] Instance GitServerSpec_eq_dec : EqDecision GitServerSpec.
Proof. solve_decision. Defined.

Record GitServerStatus := { gst_Error : string; gst_Connected : bool; gst_Status : string }.
#[export] Instance GitServerStatus_eq_dec : EqDecision GitServerStatus.
Proof. solve_decision. Defined.

Definition SetFailed (err : string) (s : GitServerStatus) : GitServerStatus :=
  {| gst_Error := err; gst_Connected := gst_Connected s; gst_Status := "failed" |}.
Definition SetSuccess (s : GitServerStatus) : GitServerStatus :=
  {| gst_Error := ""; gst_Connected := gst_Connected s; gst_Status := "ok" |}.
Definition IsSuccess (s : GitServerStatus) : bool := bool_decide (gst_Status s = "ok").

Record GitServer := { g_Meta : ObjectMeta; g_Spec : GitServerSpec; g_Status : GitServerStatus }.
#[export] Instance GitServer_eq_dec : EqDecision GitServer.
Proof. solve_decision. Defined.

#[export] Program Instance GitServer_Object : Object GitServer := {|
  obj_meta := g_Meta;
  obj_set_meta g m := {| g_Meta := m; g_Spec := g_Spec g; g_Status := g_Status g |} |}.
Solve Obligations with done.

Definition g_with_status (s : GitServerStatus) (g : GitServer) : GitServer :=
  {| g_Meta := g_Meta g; g_Spec := g_Spec g; g_Status := s |}.

(** ** JiraServer and JiraIssueMetadata *)

Record JiraServerSpec := { js_ApiUrl : string; js_RootUrl : string; js_CredentialName : string }.
Record JiraServerStatus := {
  jst_Available : bool; jst_LastTimeUpdated : Z; jst_Status : string; jst_DetailedMessage : string }.
#[export] Instance JiraServerStatus_eq_dec : EqDecision JiraServerStatus.
Proof. solve_decision. Defined.
Record JiraServer := { j_Meta : ObjectMeta; j_Spec : JiraServerSpec; j_Status : JiraServerStatus }.
#[export] Program Instance JiraServer_Object : Object JiraServer := {|
  obj_meta := j_Meta;
  obj_set_meta j m := {| j_Meta := m; j_Spec := j_Spec j; j_Status := j_Status j |} |}.
Solve Obligations with done.

Record JiraIssueMetadataSpec := {
  jm_CodebaseName : string; jm_Payload : string; jm_Commits : list string; jm_Tickets : list string }.
#[export] Instance JiraIssueMetadataSpec_eq_dec : EqDecision JiraIssueMetadataSpec.
Proof. solve_decision. Defined.
(** [ErrorStrings] is not serialised: the client leaves it out of what it sends. *)
Record JiraIssueMetadataStatus := {
  jmt_LastTimeUpdated : Z; jmt_Status : string; jmt_DetailedMessage : string;
  jmt_FailureCount : Z; jmt_ErrorStrings : list string }.
Record JiraIssueMetadata := {
  m_Meta : ObjectMeta; m_Spec : JiraIssueMetadataSpec; m_Status : JiraIssueMetadataStatus }.
#[export] Program Instance JiraIssueMetadata_Object : Object JiraIssueMetadata := {|
  obj_meta := m_Meta;
  obj_set_meta i m := {| m_Meta := m; m_Spec := m_Spec i; m_Status := m_Status i |} |}.
Solve Obligations with done.

(** ** Resources of other projects, reduced to what the operator uses *)

Record Secret := { sec_Meta : ObjectMeta; sec_Data : gmap string string }.
Record ConfigMap := { cm_Meta : ObjectMeta; cm_Data : gmap string string }.
Record QuickLinkSpec := { qs_Type : string; qs_Url : string; qs_Icon : string; qs_Visible : bool }.
Record QuickLink := { ql_Meta : ObjectMeta; ql_Spec : QuickLinkSpec }.

Record CDPipeline := {
  p_Meta : ObjectMeta;
  p_SpecName : string;
  p_InputDockerStreams : list string;
  p_Applications : list string;
  p_ApplicationsToPromote : list string }.

Record QualityGate := { qg_AutotestName : option string; qg_BranchName : option string }.

Record Stage := {
  st_Meta : ObjectMeta;
  st_SpecName : string;
  st_CdPipeline : string;
  st_QualityGates : list QualityGate;
  st_TriggerType : string;
  st_TriggerTemplate : string;
  st_ClusterName : string }.

Record PipelineRun := { pr_Meta : ObjectMeta; pr_CompletionTime : option Z }.

(** The routing resources. A path of an Ingress or an HTTPRoute is its match (a path prefix)
    and its backend service and port; [rt_IngressHosts] is [Status.Ingress[i].Host] of an
    OpenShift Route. *)
Record HTTPPath := {
  hp_Path : string; hp_PathType : string; hp_ServiceName : string; hp_ServicePort : Z }.
Record IngressRule := { ir_Host : string; ir_Paths : list HTTPPath }.
Record Ingress := { ing_Meta : ObjectMeta; ing_Rules : list IngressRule }.
Record ParentReference := { pf_Name : string; pf_Namespace : string }.
Record HTTPRoute := {
  hr_Meta : ObjectMeta; hr_ParentRefs : list ParentReference; hr_Hostnames : list string;
  hr_Rules : list HTTPPath }.
Record Route := {
  rt_Meta : ObjectMeta; rt_Host : string;
  rt_InsecureEdgeTerminationPolicy : string; rt_Termination : string;
  rt_ToKind : string; rt_ToName : string; rt_ToWeight : Z; rt_TargetPort : string;
  rt_WildcardPolicy : string; rt_IngressHosts : list string }.

(** The content of an unstructured object, and a Tekton EventListener, which the operator
    handles as one: its metadata and its [spec]. *)
#[warnings="-register-all"] Inductive value :=
| VString (s : string)
| VList (items : list value)
| VMap (fields : list (string * value)).
Record EventListener := { el_Meta : ObjectMeta; el_Content : value }.

(** An unstructured object: its namespace, its labels ([None]: absent or not a map of
    strings), the [status] entry of its spec ([None]: the spec is not a map), the rest. *)
Record Unstructured := {
  u_Namespace : string; u_Labels : option (gmap string string);
  u_SpecStatus : option (option string); u_Content : string }.

(** [ResourceTemplates[i].Raw] of a Tekton TriggerTemplate. *)
Record TriggerTemplate := { tt_Meta : ObjectMeta; tt_ResourceTemplates : list string }.

#[export] Program Instance Secret_Object : Object Secret := {|
  obj_meta := sec_Meta; obj_set_meta s m := {| sec_Meta := m; sec_Data := sec_Data s |} |}.
Solve Obligations with done.
#[export] Program Instance CDPipeline_Object : Object CDPipeline := {|
  obj_meta := p_Meta;
  obj_set_meta p m := {| p_Meta := m; p_SpecName := p_SpecName p;
    p_InputDockerStreams := p_InputDockerStreams p; p_Applications := p_Applications p;
    p_ApplicationsToPromote := p_ApplicationsToPromote p |} |}.
Solve Obligations with done.
#[export] Program Instance Stage_Object : Object Stage := {|
  obj_meta := st_Meta;
  obj_set_meta s m := {| st_Meta := m; st_SpecName := st_SpecName s; st_CdPipeline := st_CdPipeline s;
    st_QualityGates := st_QualityGates s; st_TriggerType := st_TriggerType s;
    st_TriggerTemplate := st_TriggerTemplate s; st_ClusterName := st_ClusterName s |} |}.
Solve Obligations with done.

(** ** Lemmas *)

Lemma GetProjectID_no_slash s r :
  cs_GitUrlPath s = "/" +:+ r → GetProjectID s = r.
Proof. unfold GetProjectID. intros ->. apply trim_prefix_app. Qed.

Lemma GetWebHookRef_set s : cst_WebHookRef s ≠ "" → GetWebHookRef s = cst_WebHookRef s.
Proof. intros H. unfold GetWebHookRef. by rewrite bool_decide_false. Qed.
