(* ===== verification/Effects.v ===== *)
(** * Effects: the operator's calls to the outside world

    Every handler of the operator is a sequential Go function that reads and
    mutates one object it was given by pointer and calls interfaces it was built
    with: the Kubernetes client, a git client, a git-provider API client, Gerrit,
    the file system, the clock, the environment. [call R] is the signature of
    those interfaces, [prog A] the finite trees of calls with their
    continuations, and [M S A] the handlers: state [S] is the object behind the
    pointer, the result a Go outcome. Nothing is assumed about the answers.

    Two semantics are given to a program: [run] executes it against an
    environment that answers every call (used to evaluate concrete cases), and
    [safe] states that, whatever the environment answers within [rely], every
    call made satisfies [guar]. [safe_run] connects them: the trace of every
    execution of a [safe] program against any environment is accepted by the
    monitor. Logging calls are not modelled. *)

From S2P Require Import Prelude Api.
From S2P Require Json.

(** ** Interfaces *)

(** The kinds of resources the Kubernetes client is asked for. *)
Inductive kind : Type → Type :=
| KCodebase : kind Codebase
| KCodebaseBranch : kind CodebaseBranch
| KCodebaseImageStream : kind CodebaseImageStream
| KCDStageDeploy : kind CDStageDeploy
| KGitServer : kind GitServer
| KSecret : kind Secret
| KConfigMap : kind ConfigMap
| KQuickLink : kind QuickLink
| KCDPipeline : kind CDPipeline
| KStage : kind Stage
| KPipelineRun : kind PipelineRun
| KTriggerTemplate : kind TriggerTemplate
| KIngress : kind Ingress
| KHTTPRoute : kind HTTPRoute
| KRoute : kind Route
| KEventListener : kind EventListener
| KJiraServer : kind JiraServer
| KJiraIssueMetadata : kind JiraIssueMetadata
| KUnstructured : kind Unstructured.

(** List options: [client.MatchingLabels], [client.MatchingFields], [client.Limit]. *)
Record selector := {
  sel_Labels : list (string * string); sel_Fields : list (string * string); sel_Limit : option nat }.
Definition no_selector : selector := {| sel_Labels := []; sel_Fields := []; sel_Limit := None |}.
Definition matching_labels (l : list (string * string)) : selector :=
  {| sel_Labels := l; sel_Fields := []; sel_Limit := None |}.

(** [client.Client]. A write answers with the content of the Go object after the
    call: the client decodes the server's answer into it. *)
Inductive kube_call : Type → Type :=
| KGet {O} (k : kind O) (key : ObjectKey) : kube_call (res O)
| KList {O} (k : kind O) (ns : string) (sel : selector) : kube_call (res (list O))
| KCreate {O} (k : kind O) (o : O) : kube_call (res O)
| KUpdate {O} (k : kind O) (o : O) : kube_call (res O)
| KPatch {O} (k : kind O) (original o : O) : kube_call (res O)
| KStatusUpdate {O} (k : kind O) (o : O) : kube_call (res O)
| KStatusPatch {O} (k : kind O) (original o : O) : kube_call (res O)
| KDelete {O} (k : kind O) (key : ObjectKey) : kube_call (res unit).

(** [Config] of pkg/git/provider.go *)
Record Config := {
  cfg_GitProvider : string; cfg_SSHKey : string; cfg_SSHUser : string; cfg_SSHPort : Z;
  cfg_Token : string; cfg_Username : string }.

(** The [Git] interface of pkg/git/git.go. *)
Inductive git_call : Type → Type :=
| GClone (repoURL destination : string) : git_call (res unit)
| GCommit (directory message : string) (allowEmpty : bool) : git_call (res unit)
| GPush (directory : string) (refspecs : list string) : git_call (res unit)
| GCheckout (directory branchName : string) (remote : bool) : git_call (res unit)
| GGetCurrentBranchName (directory : string) : git_call (res string)
| GCheckPermissions (repoURL : string) : git_call (res unit)
| GListRemoteBranches (repoURL : string) : git_call (res (list string))
| GResolveRemoteReference (repoURL ref : string) : git_call (res string)
| GCreateRemoteBranchViaRefUpdate (repoURL branchName fromRef : string) : git_call (res unit)
| GRemoveBranch (directory branchName : string) : git_call (res unit)
| GCreateChildBranch (directory parentBranch newBranch : string) : git_call (res unit)
| GInit (directory : string) : git_call (res unit)
| GAddRemoteLink (directory remoteURL : string) : git_call (res unit)
| GCheckoutRemoteBranch (directory branchName : string) : git_call (res unit).

Record WebHook := { wh_ID : string; wh_URL : string }.

(** [GitProvider] of pkg/gitprovider/provider.go; [p] is the provider's name. *)
Inductive provider_call : Type → Type :=
| PNewBitbucketClient (token : string) : provider_call (res unit)
| PProjectExists (p url token projectID : string) : provider_call (res bool)
| PCreateProject (p url token fullPath : string) (isPrivate : bool) : provider_call (res unit)
| PSetDefaultBranch (p url token projectID branch : string) : provider_call (res unit)
| PGetWebHook (p url token projectID ref : string) : provider_call (res WebHook)
| PCreateWebHookIfNotExists (p url token projectID secret webHookURL : string) (skipTLS : bool)
  : provider_call (res WebHook)
| PDeleteWebHook (p url token projectID ref : string) : provider_call (res unit).

(** [gerrit.Client] *)
Inductive gerrit_call : Type → Type :=
| GrCheckProjectExist (port : Z) (key host user project : string) : gerrit_call (res bool)
| GrCreateProject (port : Z) (key host user project : string) : gerrit_call (res unit)
| GrSetHeadToBranch (port : Z) (key host user project branch : string) : gerrit_call (res unit).

(** [dto.JiraServer] of pkg/client/jira: a Jira client is made from it. *)
Record JiraConnection := { jc_ApiUrl : string; jc_User : string; jc_Pwd : string }.

(** What the operator reads of go-jira's issues, and the fields it sends in remote links. *)
Record IssueFields := { if_ProjectID : string; if_TypeID : string; if_TypeName : string }.
Record IssueAnswer := { ia_StatusCode : option Z; ia_Issue : res (option IssueFields) }.
Record RemoteLink := {
  rl_Relationship : string; rl_Title : string; rl_URL : string; rl_IconUrl16x16 : string }.
(** [IssueTypeMeta] with the names of its allowed values. *)
Record IssueTypeMeta := { itm_FieldID : string; itm_AllowedValues : list string }.

(** The go-jira client. [JDo] sends a request made by [JNewRequest]; [JDoMeta] also decodes the
    page of issue type metadata in the answer. *)
Inductive jira_call : Type → Type :=
| JNewClient : jira_call (res unit)
| JGetSelf : jira_call (res bool)                       (* whether the user is non-nil *)
| JGetIssue (issueId : string) : jira_call IssueAnswer
| JCreateVersion (name : string) (projectID : Z) : jira_call (res unit)
| JGetProject (projectID : string) : jira_call (res string)   (* its key *)
| JCreateComponent (name project : string) (projectID : Z) : jira_call (res unit)
| JUpdateIssue (issue : string) (tags : value) : jira_call (res unit)
| JNewRequest (method url : string) (body : option RemoteLink) : jira_call (res unit)
| JDo (method url : string) (body : option RemoteLink) : jira_call (res unit)
| JDoMeta (method url : string) : jira_call (res (list IssueTypeMeta)).

(** A request of the resty client and what the operator reads of its response. *)
Record HttpRequest := {
  rq_Method : string; rq_BaseURL : string; rq_Path : string; rq_Timeout : Z;
  rq_BasicAuth : option (string * string); rq_AuthToken : option string;
  rq_Headers : list (string * string); rq_Body : list (string * string) }.
Record HttpResponse := { rs_IsSuccess : bool; rs_Status : string }.

(** The answer of [os.Stat]. *)
Inductive stat := StatOk | StatNotExist | StatErr (e : error).

(** The manager of controller-runtime that [src/cmd/main.go] sets up: its TLS options, its
    options, the runnables it is given, and the calls on it. *)
Inductive TLSOpt := DisableHTTP2 | GetCertificate (certPath keyPath : string).
Record ManagerOptions := {
  mo_BindAddress : string; mo_SecureServing : bool; mo_Authorization : bool; mo_TLSOpts : list TLSOpt;
  mo_WebhookTLSOpts : list TLSOpt; mo_HealthProbeBindAddress : string; mo_LeaderElection : bool;
  mo_LeaderElectionID : string; mo_Namespace : string }.
Inductive Runnable :=
| CertWatcher (certPath keyPath : string)
| StaleChecker (namespace : string) (interval : Z).
Inductive mgr_call :=
| NewCertWatcher (certPath keyPath : string)
| GetConfig                                                  (* GetConfigOrDie ends the process *)
| NewManager (o : ManagerOptions)
| IndexField (index : string)
| CompleteController {O} (k : kind O) (MaxConcurrentReconciles : Z)   (* 0 when it is not set *)
| CompleteWebhook {O} (k : kind O)
| AddRunnable (r : Runnable)
| AddHealthzCheck (name : string)
| AddReadyzCheck (name : string)
| GoCollector (namespace telemetryUrl : string) (delay sendEvery : Z)   (* [go ...Start(...)] *)
| StartManager.

(** [os], [crypto/rand], [time], [text/template]: files, environment, randomness,
    clock, template rendering; the order a Go map is ranged over; ssh; the event recorder. *)
Inductive sys_call : Type → Type :=
| Stat (path : string) : sys_call stat
| ReadDir (path : string) : sys_call (res (list (string * bool)))   (* name, is a directory *)
| MkdirAll (path : string) : sys_call (res unit)
| RemoveAll (path : string) : sys_call (res unit)
| CreateFile (path : string) : sys_call (res unit)
| ReadFile (path : string) : sys_call (res string)
| WriteFile (path content : string) : sys_call (res unit)
| ParseFiles (name path : string) : sys_call (res unit)
| ExecuteTemplate (name file : string) (config : ConfigGoTemplating) : sys_call (res unit)
| LookupEnv (name : string) : sys_call (option string)
| Now : sys_call Z
| RandRead (n : Z) : sys_call (res string)
| RangeMap (keys : list string) : sys_call (list string)
| ParsePrivateKey (key : string) : sys_call (res unit)       (* ssh.ParsePrivateKey *)
| SSHClientConfig (host : string) (port : Z) : sys_call (res unit)   (* sshhostkey.ClientConfig *)
| SSHNewSession (host user key : string) (port : Z) : sys_call (res unit)   (* gerrit.SSHClient *)
| Eventf (eventType reason message : string) : sys_call unit
| Manager (c : mgr_call) : sys_call (res unit).

(** ** The libraries under the git client

    The client of [src/pkg/git] is itself a program over go-git (file GitClient). *)

(** [transport.AuthMethod]: nil, [ssh.PublicKeys] (its signer named by the private key),
    [http.BasicAuth]. *)
Inductive AuthMethod :=
| NoAuth | PublicKeys (User key : string) | BasicAuth (Username Password : string).

Record FetchOptions := {
  fo_RemoteName : string; fo_RefSpecs : list string; fo_Auth : AuthMethod; fo_Force : bool }.
Record PushOptions := { po_RemoteName : string; po_RefSpecs : list string; po_Auth : AuthMethod }.
Record CheckoutOptions := { co_Branch : string; co_Force : bool; co_Create : bool }.
Record CommitOptions := {
  cmo_Name : string; cmo_Email : string; cmo_When : Z; cmo_AllowEmptyCommits : bool }.

(** [packp.AdvRefs]; a hash is its canonical text. *)
Record AdvRefs := {
  ar_Head : option string; ar_References : gmap string string; ar_Peeled : gmap string string;
  ar_Capabilities : list string }.
(** [packp.Command], and the request made of the capabilities of an advertisement. *)
Record Command := { cmd_Name : string; cmd_Old : string; cmd_New : string }.
Record ReferenceUpdateRequest := {
  ru_Capabilities : list string; ru_Commands : list Command; ru_Packfile : string }.

Inductive service := UploadPack | ReceivePack.

(** go-git and the transport clients it makes; a repository is named by its directory, a
    session by its service. *)
Inductive gogit_call : Type → Type :=
| GgPlainClone (path : string) (isBare : bool) (URL : string) (auth : AuthMethod) : gogit_call (res unit)
| GgPlainOpen (path : string) : gogit_call (res unit)
| GgPlainInit (path : string) (isBare : bool) : gogit_call (res unit)
| GgFetch (path : string) (o : FetchOptions) : gogit_call (res unit)
| GgPush (path : string) (o : PushOptions) : gogit_call (res unit)
| GgReference (path name : string) : gogit_call (res unit)
| GgHead (path : string) : gogit_call (res string)              (* the name of the reference *)
| GgRemote (path name : string) : gogit_call (res (list string))   (* its URLs *)
| GgDeleteRemote (path name : string) : gogit_call (res unit)
| GgCreateRemote (path name : string) (URLs : list string) : gogit_call (res unit)
| GgRemoveReference (path name : string) : gogit_call (res unit)
| GgWorktree (path : string) : gogit_call (res unit)
| GgAddAll (path : string) : gogit_call (res unit)
| GgStatus (path : string) : gogit_call (res bool)              (* whether it is clean *)
| GgCommit (path message : string) (o : CommitOptions) : gogit_call (res unit)
| GgCheckout (path : string) (o : CheckoutOptions) : gogit_call (res unit)
| GgMemoryRemote (name : string) (URLs : list string) : gogit_call (res unit)   (* in memory storage *)
| GgList (URLs : list string) (auth : AuthMethod) : gogit_call (res (list string))  (* names *)
| GgNewClient (URL : string) : gogit_call (res unit)
| GgNewSession (s : service) (URL : string) (auth : AuthMethod) : gogit_call (res unit)
| GgAdvertisedReferences (s : service) (URL : string) : gogit_call (res AdvRefs)
| GgReceivePack (URL : string) (req : ReferenceUpdateRequest)
  : gogit_call (res (option (option error)))                    (* the report's error, if any *)
| GgClose (s : service) (URL : string) : gogit_call (res unit).

(** The ssh library under the Gerrit client and the checks of git servers; a connection and its
    session are named by their address. *)
Inductive ssh_call : Type → Type :=
| SshKnownHosts : ssh_call (res unit)                          (* go-git's NewKnownHostsDb *)
| SshDial (hostPort user key : string) : ssh_call (res unit)
| SshSession (hostPort : string) : ssh_call (res unit)
| SshOutput (hostPort command : string) : ssh_call (res string)
| SshCloseSession (hostPort : string) : ssh_call (res unit)
| SshCloseConnection (hostPort : string) : ssh_call (res unit).

(** ** The libraries under the clients of git hosting services

    [src/pkg/gitprovider] talks to GitHub and GitLab through resty, and to Bitbucket through a
    generated client (file ProviderClients). *)

(** What a resty request is told to decode its answer into; a Go pointer that the answer may
    leave nil is an [option]. *)
Record gitHubWebHook := { ghw_ID : Z; ghw_URL : string }.
Record gitlabWebHook := { glw_ID : Z; glw_URL : string }.
Inductive rest_result : Type → Type :=
| RNone : rest_result unit
| RGitHubWebHook : rest_result gitHubWebHook
| RGitHubWebHooks : rest_result (list (option gitHubWebHook))
| RGitHubOrganizations : rest_result (list string)                (* their logins *)
| RGitlabWebHook : rest_result gitlabWebHook
| RGitlabWebHooks : rest_result (list (option gitlabWebHook))
| RGitlabNamespace : rest_result Z.                               (* its id *)

Record RestRequest := {
  rr_Method : string; rr_HostURL : string; rr_Path : string; rr_PathParams : list (string * string);
  rr_QueryParams : list (string * string); rr_AuthToken : option string;
  rr_Headers : list (string * string); rr_Body : option Json.json }.
Record RestResponse (T : Type) := {
  ra_StatusCode : Z; ra_Status : string; ra_IsError : bool; ra_String : string; ra_Result : T }.
#[global] Arguments ra_StatusCode {T}. #[global] Arguments ra_IsError {T}.
#[global] Arguments ra_Status {T}. #[global] Arguments ra_String {T}. #[global] Arguments ra_Result {T}.

(** A response of the generated client: status, its text, the body, and the decoded object of
    the expected status when there is one. *)
Record BitbucketResponse (T : Type) := {
  br_StatusCode : Z; br_Status : string; br_Body : string; br_JSON : option T }.
#[global] Arguments br_StatusCode {T}. #[global] Arguments br_Status {T}.
#[global] Arguments br_Body {T}. #[global] Arguments br_JSON {T}.
Record BitbucketHook := { bh_Uuid : option string; bh_Url : option string }.
(** [auth] is the Authorization header that the client's request editor sets. *)
Inductive bitbucket_call : Type → Type :=
| BPostHook (auth owner repo : string) (body : Json.json)
  : bitbucket_call (res (BitbucketResponse BitbucketHook))
| BGetHook (auth owner repo uid : string) : bitbucket_call (res (BitbucketResponse BitbucketHook))
| BGetHooks (auth owner repo : string)
  : bitbucket_call (res (BitbucketResponse (option (list BitbucketHook))))
| BDeleteHook (auth owner repo uid : string) : bitbucket_call (res (BitbucketResponse unit))
| BPostRepository (auth owner repo ty : string) (isPrivate : bool)
  : bitbucket_call (res (BitbucketResponse unit))
| BGetRepositories (auth owner RawQuery : string)             (* the full names *)
  : bitbucket_call (res (BitbucketResponse (option (list (option string)))))
| BNewUUID : bitbucket_call string.                            (* uuid.NewUUID *)

Inductive call : Type → Type :=
| CKube {R} (c : kube_call R) : call R
| CGit {R} (cfg : Config) (c : git_call R) : call R
| CProvider {R} (c : provider_call R) : call R
| CGerrit {R} (c : gerrit_call R) : call R
| CSys {R} (c : sys_call R) : call R
| CJira {R} (server : JiraConnection) (c : jira_call R) : call R
| CHttp (rq : HttpRequest) : call (res HttpResponse)
| CGoGit {R} (c : gogit_call R) : call R
| CRest {T} (t : rest_result T) (rq : RestRequest) : call (res (RestResponse T))
| CBitbucket {R} (c : bitbucket_call R) : call R
| CSsh {R} (c : ssh_call R) : call R.

(** ** Programs *)

Inductive prog (A : Type) : Type :=
| Ret (a : A)
| Call {R : Type} (c : call R) (k : R → prog A).
Arguments Ret {A} a.
Arguments Call {A R} c k.

Fixpoint bind {A B} (p : prog A) (f : A → prog B) : prog B :=
  match p with
  | Ret a => f a
  | Call c k => Call c (λ r, bind (k r) f)
  end.

(** A handler over the object of type [S]. *)
Definition M (S A : Type) : Type := S → prog (res A * S).

Definition ret {S A} (a : A) : M S A := λ s, Ret (Ok a, s).
Definition throw {S A} (e : error) : M S A := λ s, Ret (Err e, s).
Definition panic {S A} (why : string) : M S A := λ s, Ret (Panic why, s).
Definition get {S} : M S S := λ s, Ret (Ok s, s).
Definition modify {S} (f : S → S) : M S unit := λ s, Ret (Ok tt, f s).
Definition put {S} (s : S) : M S unit := λ _, Ret (Ok tt, s).
Definition of_res {S A} (r : res A) : M S A := λ s, Ret (r, s).

Definition mbind {S A B} (m : M S A) (f : A → M S B) : M S B := λ s,
  bind (m s) (λ '(r, s'), match r with
    | Ok a => f a s'
    | Err e => Ret (Err e, s')
    | Panic w => Ret (Panic w, s')
    end).

(** [if err := m; err != nil { h(err) }]: a panic is not an error. *)
Definition orelse {S A} (m : M S A) (h : error → M S A) : M S A := λ s,
  bind (m s) (λ '(r, s'), match r with Err e => h e s' | _ => Ret (r, s') end).

(** The Go pattern [v, err := m], with both inspected afterwards. *)
Definition attempt {S A} (m : M S A) : M S (A + error) := λ s,
  bind (m s) (λ '(r, s'), match r with
    | Ok a => Ret (Ok (inl a), s')
    | Err e => Ret (Ok (inr e), s')
    | Panic w => Ret (Panic w, s')
    end).

Definition do_call {S R} (c : call R) : M S R := λ s, Call c (λ r, Ret (Ok r, s)).
(** A call answering a Go outcome. *)
Definition do_res {S R} (c : call (res R)) : M S R := λ s, Call c (λ r, Ret (r, s)).

(** Run a handler of another object and keep this one ([with_state s' m] is how a
    function is called with a pointer to a local object). *)
Definition with_state {S T A} (t : T) (m : M T A) : M S (res A * T) := λ s,
  bind (m t) (λ rt, Ret (Ok rt, s)).

(** [defer f()]: run after [m] however it ends; a panic of [f] replaces the outcome. *)
Definition deferring {S A} (f : M S unit) (m : M S A) : M S A := λ s,
  bind (m s) (λ '(r, s'), bind (f s') (λ '(r', s''),
    Ret (match r' with Panic w => Panic w | _ => r end, s''))).

(** The answer of a method that has no object of its own. *)
Definition answer {R} (m : M unit R) : prog (res R) := bind (m tt) (λ '(r, _), Ret r).

#[global] Arguments ret : simpl never.
#[global] Arguments throw : simpl never.
#[global] Arguments panic : simpl never.
#[global] Arguments get : simpl never.
#[global] Arguments modify : simpl never.
#[global] Arguments put : simpl never.
#[global] Arguments of_res : simpl never.
#[global] Arguments mbind : simpl never.
#[global] Arguments orelse : simpl never.
#[global] Arguments attempt : simpl never.
#[global] Arguments do_call : simpl never.
#[global] Arguments do_res : simpl never.
#[global] Arguments with_state : simpl never.
#[global] Arguments deferring : simpl never.

Declare Scope handler_scope.
Delimit Scope handler_scope with handler.
Bind Scope handler_scope with M.
Notation "x <- m ;; k" := (mbind m (λ x, k))
  (at level 63, m at next level, right associativity) : handler_scope.
Notation "' pat <- m ;; k" := (mbind m (λ x, match x with pat => k end))
  (at level 20, pat pattern, m at level 62, k at level 200) : handler_scope.
Notation "m ;;; k" := (mbind m (λ _, k)) (at level 63, right associativity) : handler_scope.
(** [m ?> "prefix"]: [fmt.Errorf("prefix%w", err)] around a failing [m]. *)
Notation "m ?> p" := (orelse m (λ e, throw (EWrap p e))) (at level 60, p at next level) : handler_scope.
#[global] Open Scope handler_scope.

Definition when {S} (b : bool) (m : M S unit) : M S unit := if b then m else ret tt.

(** Loops over slices. *)
Fixpoint for_each {S A} (l : list A) (f : A → M S unit) : M S unit :=
  match l with
  | [] => ret tt
  | a :: l' => f a ;;; for_each l' f
  end.

(** Accumulating loops. *)
Fixpoint fold_each {S A B} (l : list A) (b : B) (f : B → A → M S B) : M S B :=
  match l with
  | [] => ret b
  | a :: l' => b' <- f b a ;; fold_each l' b' f
  end.

(** ** The Kubernetes client as handler operations *)

Section Kube.
Context {S : Type}.
Definition k_get {O} (k : kind O) (ns name : string) : M S O :=
  do_res (CKube (KGet k {| key_Namespace := ns; key_Name := name |})).
Definition k_list {O} (k : kind O) (ns : string) (sel : selector) : M S (list O) :=
  do_res (CKube (KList k ns sel)).
Definition k_create {O} (k : kind O) (o : O) : M S O := do_res (CKube (KCreate k o)).
Definition k_delete {O} (k : kind O) (ns name : string) : M S unit :=
  do_res (CKube (KDelete k {| key_Namespace := ns; key_Name := name |})).
Definition k_update {O} (k : kind O) (o : O) : M S O := do_res (CKube (KUpdate k o)).
Definition k_status_update {O} (k : kind O) (o : O) : M S O := do_res (CKube (KStatusUpdate k o)).
Definition k_patch {O} (k : kind O) (orig o : O) : M S O := do_res (CKube (KPatch k orig o)).
Definition git {R} (cfg : Config) (c : git_call (res R)) : M S R := do_res (CGit cfg c).
Definition now : M S Z := do_call (CSys Now).
Definition env (name : string) : M S (option string) := do_call (CSys (LookupEnv name)).
Definition sys {R} (c : sys_call R) : M S R := do_call (CSys c).
Definition sys_res {R} (c : sys_call (res R)) : M S R := do_res (CSys c).
Definition jira_res {R} (js : JiraConnection) (c : jira_call (res R)) : M S R := do_res (CJira js c).
Definition gogit {R} (c : gogit_call (res R)) : M S R := do_res (CGoGit c).
Definition rest {T} (t : rest_result T) (rq : RestRequest) : M S (RestResponse T) := do_res (CRest t rq).
Definition bitbucket {R} (c : bitbucket_call (res R)) : M S R := do_res (CBitbucket c).
Definition ssh {R} (c : ssh_call (res R)) : M S R := do_res (CSsh c).
End Kube.

(** Writes of the object behind the pointer: on success the object becomes the
    client's decoded answer, on failure it stays as it was. *)
Definition update_self {O} (k : kind O) : M O unit :=
  o <- get ;; o' <- k_update k o ;; put o'.
Definition status_update_self {O} (k : kind O) : M O unit :=
  o <- get ;; o' <- k_status_update k o ;; put o'.
Definition patch_self {O} (k : kind O) (orig : O) : M O unit :=
  o <- get ;; o' <- do_res (CKube (KPatch k orig o)) ;; put o'.
Definition status_patch_self {O} (k : kind O) (orig : O) : M O unit :=
  o <- get ;; o' <- do_res (CKube (KStatusPatch k orig o)) ;; put o'.

(** ** Execution *)

(** One answered call. *)
Record obs := Obs { obs_type : Type; obs_call : call obs_type; obs_answer : obs_type }.

Definition environment (W : Type) : Type := ∀ R, call R → W → R * W.

Section Run.
Context {W : Type} (h : environment W).
Fixpoint run {A} (p : prog A) (w : W) : A * W * list obs :=
  match p with
  | Ret a => (a, w, [])
  | @Call _ R c k =>
    let '(r, w') := h R c w in
    let '(a, w'', tr) := run (k r) w' in
    (a, w'', Obs R c r :: tr)
  end.
Definition exec {A} (p : prog A) (w : W) : A := fst (fst (run p w)).
Definition trace {A} (p : prog A) (w : W) : list obs := snd (run p w).
End Run.

(** ** Monitors *)

Record monitor (G : Type) := {
  rely : G → ∀ R, call R → R → Prop;    (* what the environment promises *)
  guar : G → ∀ R, call R → Prop;        (* what every call must satisfy *)
  step : G → ∀ R, call R → R → G }.     (* the ghost state after the call *)
Arguments rely {G}. Arguments guar {G}. Arguments step {G}.

Section Safe.
Context {G : Type} (m : monitor G).

Fixpoint safe {A} (p : prog A) (g : G) (Q : A → G → Prop) : Prop :=
  match p with
  | Ret a => Q a g
  | @Call _ R c k =>
    guar m g R c ∧ ∀ r, rely m g R c r → safe (k r) (step m g R c r) Q
  end.

(** A trace is accepted when every call satisfies [guar] until the environment
    breaks [rely]. Prefixes of accepted traces are accepted, so this covers an
    operator that is killed between two calls. *)
Fixpoint accepts (g : G) (tr : list obs) : Prop :=
  match tr with
  | [] => True
  | Obs R c r :: tr' => guar m g R c ∧ (rely m g R c r → accepts (step m g R c r) tr')
  end.

Lemma safe_mono {A} (p : prog A) g (Q Q' : A → G → Prop) :
  (∀ a g, Q a g → Q' a g) → safe p g Q → safe p g Q'.
Proof.
  intros HQ. revert g. induction p as [a|R c k IH]; intros g; cbn; [apply HQ|].
  intros [Hg H]. split; [done|]. intros r Hr. by apply IH, H.
Qed.

Lemma safe_bind {A B} (p : prog A) (f : A → prog B) g Q :
  safe (bind p f) g Q ↔ safe p g (λ a g', safe (f a) g' Q).
Proof.
  revert g. induction p as [a|R c k IH]; intros g; cbn; [done|].
  split; intros [Hg H]; (split; [done|]); intros r Hr; apply IH, H, Hr.
Qed.

Lemma safe_run {W A} (h : environment W) (p : prog A) g Q w :
  safe p g Q → accepts g (trace h p w).
Proof.
  unfold trace. revert g w. induction p as [a|R c k IH]; intros g w; cbn; [done|].
  intros [Hg H]. destruct (h R c w) as [r w'].
  specialize (IH r (step m g R c r) w').
  destruct (run h (k r) w') as [[a w''] tr]. cbn in *. auto.
Qed.

Lemma accepts_prefix g tr1 tr2 : accepts g (tr1 ++ tr2) → accepts g tr1.
Proof.
  revert g. induction tr1 as [|[R c r] tr1 IH]; intros g; cbn; [done|].
  intros [Hg H]. split; [done|]. eauto.
Qed.

(** The handler form: the postcondition sees the outcome, the object and the ghost state. *)
Definition wp {S A} (h : M S A) (s : S) (g : G) (Q : res A → S → G → Prop) : Prop :=
  safe (h s) g (λ rs g', Q (fst rs) (snd rs) g').

#[local] Arguments wp : simpl never.

Lemma wp_mono {S A} (h : M S A) s g (Q Q' : res A → S → G → Prop) :
  wp h s g Q → (∀ r s g, Q r s g → Q' r s g) → wp h s g Q'.
Proof. unfold wp. intros H HQ. eapply safe_mono; [|exact H]. eauto. Qed.

Lemma wp_ret {S A} (a : A) (s : S) g (Q : res A → S → G → Prop) : Q (Ok a) s g → wp (ret a) s g Q.
Proof. done. Qed.
Lemma wp_throw {S A} e (s : S) g (Q : res A → S → G → Prop) : Q (Err e) s g → wp (throw e) s g Q.
Proof. done. Qed.
Lemma wp_panic {S A} w (s : S) g (Q : res A → S → G → Prop) : Q (Panic w) s g → wp (panic w) s g Q.
Proof. done. Qed.
Lemma wp_of_res {S A} (r : res A) (s : S) g Q : Q r s g → wp (of_res r) s g Q.
Proof. done. Qed.
Lemma wp_get {S} (s : S) g Q : Q (Ok s) s g → wp get s g Q.
Proof. done. Qed.
Lemma wp_put {S} (s s' : S) g Q : Q (Ok tt) s' g → wp (put s') s g Q.
Proof. done. Qed.
Lemma wp_modify {S} f (s : S) g Q : Q (Ok tt) (f s) g → wp (modify f) s g Q.
Proof. done. Qed.

Lemma wp_bind {S A B} (h : M S A) (f : A → M S B) s g Q :
  wp h s g (λ r s' g', match r with
    | Ok a => wp (f a) s' g' Q
    | Err e => Q (Err e) s' g'
    | Panic w => Q (Panic w) s' g'
    end) →
  wp (mbind h f) s g Q.
Proof.
  unfold wp, mbind. intros H. apply safe_bind. eapply safe_mono; [|exact H].
  intros [[a|e|w] s'] g'; cbn; done.
Qed.

Lemma wp_orelse {S A} (h : M S A) (f : error → M S A) s g Q :
  wp h s g (λ r s' g', match r with Err e => wp (f e) s' g' Q | _ => Q r s' g' end) →
  wp (orelse h f) s g Q.
Proof.
  unfold wp, orelse. intros H. apply safe_bind. eapply safe_mono; [|exact H].
  intros [[a|e|w] s'] g'; cbn; done.
Qed.

Lemma wp_attempt {S A} (h : M S A) s g Q :
  wp h s g (λ r s' g', match r with
    | Ok a => Q (Ok (inl a)) s' g'
    | Err e => Q (Ok (inr e)) s' g'
    | Panic w => Q (Panic w) s' g'
    end) →
  wp (attempt h) s g Q.
Proof.
  unfold wp, attempt. intros H. apply safe_bind. eapply safe_mono; [|exact H].
  intros [[a|e|w] s'] g'; cbn; done.
Qed.

Lemma wp_with_state {S T A} (t : T) (h : M T A) (s : S) g Q :
  wp h t g (λ r t' g', Q (Ok (r, t')) s g') → wp (with_state t h) s g Q.
Proof.
  unfold wp, with_state. intros H. apply safe_bind. eapply safe_mono; [|exact H].
  intros [r t'] g'; cbn; done.
Qed.

Lemma wp_deferring {S A} (f : M S unit) (h : M S A) s g Q :
  wp h s g (λ r s' g', wp f s' g' (λ r' s'' g'', Q (match r' with Panic w => Panic w | _ => r end) s'' g'')) →
  wp (deferring f h) s g Q.
Proof.
  unfold wp, deferring. intros H. apply safe_bind. eapply safe_mono; [|exact H].
  intros [r s'] g' H'. apply safe_bind. eapply safe_mono; [|exact H']. by intros [r' s''] g''.
Qed.

Lemma wp_do_call {S R} (c : call R) (s : S) g Q :
  guar m g R c → (∀ r, rely m g R c r → Q (Ok r) s (step m g R c r)) → wp (do_call c) s g Q.
Proof. done. Qed.

Lemma wp_do_res {S R} (c : call (res R)) (s : S) g Q :
  guar m g _ c → (∀ r, rely m g _ c r → Q r s (step m g _ c r)) → wp (do_res c) s g Q.
Proof. done. Qed.

(** A loop keeps an invariant of the object and the ghost state. *)
Lemma wp_for_each {S A} (l : list A) (f : A → M S unit) (I : S → G → Prop)
    (E : res unit → S → G → Prop) s g :
  I s g →
  (∀ a s g, a ∈ l → I s g → wp (f a) s g (λ r s g, match r with Ok _ => I s g | _ => E r s g end)) →
  wp (for_each l f) s g (λ r s g, match r with Ok _ => I s g | _ => E r s g end).
Proof.
  intros HI Hf. revert s g HI. induction l as [|a l IH]; intros s g HI; cbn.
  - exact HI.
  - apply wp_bind. eapply wp_mono; [apply Hf; [set_solver|done]|].
    intros [[]|e|w] s' g' H'; cbn; try done.
    apply IH; [|done]. intros b s'' g'' Hb. apply Hf. set_solver.
Qed.
End Safe.
#[global] Arguments wp : simpl never.

(** A handler run by an environment inherits what [wp] proves of it. *)
Lemma wp_trace {G W S A} (m : monitor G) (h : environment W) (p : M S A) s g Q w :
  wp m p s g Q → accepts m g (trace h (p s) w).
Proof. apply safe_run. Qed.

(** ** Histories

    The trace of an operator that is killed and restarted is the concatenation of
    prefixes of traces. When every guaranteed call keeps an invariant of the ghost
    state, the invariant holds at every restart. *)

Section Traces.
Context {G : Type} (m : monitor G).

Fixpoint ghost_after (g : G) (tr : list obs) : G :=
  match tr with [] => g | Obs R c r :: tr' => ghost_after (step m g R c r) tr' end.
Fixpoint relied (g : G) (tr : list obs) : Prop :=
  match tr with
  | [] => True
  | Obs R c r :: tr' => rely m g R c r ∧ relied (step m g R c r) tr'
  end.
Fixpoint guaranteed (g : G) (tr : list obs) : Prop :=
  match tr with
  | [] => True
  | Obs R c r :: tr' => guar m g R c ∧ guaranteed (step m g R c r) tr'
  end.

(** An execution whose answers keep the promise ends as a [safe] program says. *)
Lemma safe_exec {W A} (h : environment W) (p : prog A) g Q w :
  safe m p g Q → relied g (trace h p w) → Q (exec h p w) (ghost_after g (trace h p w)).
Proof.
  unfold trace, exec. revert g w. induction p as [a|R c k IH]; intros g w; cbn; [done|].
  intros [_ H]. destruct (h R c w) as [r w'].
  specialize (IH r (step m g R c r) w').
  destruct (run h (k r) w') as [[a w''] tr]. cbn in *. intros [Hr Htr]. auto.
Qed.

(** An environment whose answers keep the promise, as its state and the ghost state agree. *)
Lemma faithful_relied {W A} (h : environment W) (J : G → W → Prop) (p : prog A) :
  (∀ R (c : call R) g w, J g w →
    rely m g R c (fst (h R c w)) ∧ J (step m g R c (fst (h R c w))) (snd (h R c w))) →
  ∀ g w, J g w → relied g (trace h p w).
Proof.
  intros Hh. unfold trace. induction p as [a|R c k IH]; intros g w HJ; cbn; [done|].
  destruct (Hh R c g w HJ) as [Hr HJ']. destruct (h R c w) as [r w']. cbn in *.
  specialize (IH r _ _ HJ'). destruct (run h (k r) w') as [[a w''] tr]. by split.
Qed.

(** An environment whose state is the ghost state and whose answers keep the promise. *)
Definition truthful (h : environment G) : Prop :=
  ∀ R (c : call R) g, rely m g R c (fst (h R c g)) ∧ snd (h R c g) = step m g R c (fst (h R c g)).

Lemma truthful_relied {A} h (p : prog A) g : truthful h → relied g (trace h p g).
Proof.
  intros Hh. apply (faithful_relied h eq); [|done]. intros R c g' w <-.
  destruct (Hh R c g') as [Hr Hs]. by rewrite Hs.
Qed.

Lemma accepts_guaranteed g tr : accepts m g tr → relied g tr → guaranteed g tr.
Proof.
  revert g. induction tr as [|[R c r] tr IH]; intros g; cbn; [done|].
  intros [Hg H] [Hr Hrs]. auto.
Qed.

Lemma guaranteed_app g tr1 tr2 :
  guaranteed g (tr1 ++ tr2) ↔ guaranteed g tr1 ∧ guaranteed (ghost_after g tr1) tr2.
Proof.
  revert g. induction tr1 as [|[R c r] tr1 IH]; intros g; cbn; [tauto|].
  rewrite IH. tauto.
Qed.

Lemma relied_app g tr1 tr2 :
  relied g (tr1 ++ tr2) ↔ relied g tr1 ∧ relied (ghost_after g tr1) tr2.
Proof.
  revert g. induction tr1 as [|[R c r] tr1 IH]; intros g; cbn; [tauto|].
  rewrite IH. tauto.
Qed.

(** What every guaranteed call keeps holds after a trace. *)
Lemma guaranteed_invariant (I : G → Prop) :
  (∀ g R c r, I g → guar m g R c → rely m g R c r → I (step m g R c r)) →
  ∀ g tr, guaranteed g tr → relied g tr → I g → I (ghost_after g tr).
Proof.
  intros Hstep g tr. revert g. induction tr as [|[R c r] tr IH]; intros g; cbn; [done|].
  intros [] [] ?. apply IH; auto.
Qed.

(** A run that is cut anywhere. *)
Lemma cut_guaranteed {A W} (h : environment W) (p : prog A) g Q w tr rest :
  safe m p g Q → trace h p w = tr ++ rest → relied g tr → guaranteed g tr.
Proof.
  intros Hp Htr Hrel. apply accepts_guaranteed; [|done]. apply accepts_prefix with rest.
  rewrite <- Htr. by eapply safe_run.
Qed.

(** Runs of a program, each cut anywhere. *)
Inductive history {A} (run_of : prog A → Prop) : G → list obs → Prop :=
| history_nil g : history run_of g []
| history_run g W (h : environment W) p w tr rest later :
    run_of p → trace h p w = tr ++ rest → relied g tr →
    history run_of (ghost_after g tr) later → history run_of g (tr ++ later).

Lemma history_guaranteed {A} (run_of : prog A → Prop) (I : G → Prop) :
  (∀ g R c r, I g → guar m g R c → rely m g R c r → I (step m g R c r)) →
  (∀ p g, run_of p → I g → safe m p g (λ _ _, True)) →
  ∀ g tr, history run_of g tr → I g → guaranteed g tr.
Proof.
  intros Hstep Hsafe g tr Hh. induction Hh as [g|g W h p w tr rest later Hp Htr Hrel Hh IH];
    intros HI; [done|].
  assert (Hg : guaranteed g tr) by (eapply cut_guaranteed; [by apply Hsafe|done|done]).
  apply guaranteed_app. split; [done|]. apply IH. by eapply guaranteed_invariant.
Qed.
End Traces.

(** ** Invariants of handlers *)

Section Keeps.
Context {G S : Type} (m : monitor G) (J : S → G → Prop).

(** However the handler ends, [J] still holds. *)
Definition keeps {A} (h : M S A) : Prop :=
  ∀ s g, J s g → wp m h s g (λ _ s' g', J s' g').

Lemma keeps_ret {A} (a : A) : keeps (ret a).
Proof. intros s g H. by apply wp_ret. Qed.
Lemma keeps_throw {A} e : keeps (throw (A:=A) e).
Proof. intros s g H. by apply wp_throw. Qed.
Lemma keeps_panic {A} w : keeps (panic (A:=A) w).
Proof. intros s g H. by apply wp_panic. Qed.
Lemma keeps_of_res {A} (r : res A) : keeps (of_res r).
Proof. intros s g H. by apply wp_of_res. Qed.
Lemma keeps_get : keeps get.
Proof. intros s g H. by apply wp_get. Qed.
Lemma keeps_bind {A B} (h : M S A) (f : A → M S B) :
  keeps h → (∀ a, keeps (f a)) → keeps (mbind h f).
Proof.
  intros Hh Hf s g HJ. apply wp_bind. eapply wp_mono; [by apply Hh|].
  intros [a|e|w] s' g'; [apply Hf|done|done].
Qed.
Lemma keeps_orelse {A} (h : M S A) (f : error → M S A) :
  keeps h → (∀ e, keeps (f e)) → keeps (orelse h f).
Proof.
  intros Hh Hf s g HJ. apply wp_orelse. eapply wp_mono; [by apply Hh|].
  intros [a|e|w] s' g'; [done|apply Hf|done].
Qed.
Lemma keeps_attempt {A} (h : M S A) : keeps h → keeps (attempt h).
Proof.
  intros Hh s g HJ. apply wp_attempt. eapply wp_mono; [by apply Hh|]. by intros [a|e|w].
Qed.
Lemma keeps_deferring {A} (f : M S unit) (h : M S A) : keeps f → keeps h → keeps (deferring f h).
Proof.
  intros Hf Hh s g HJ. apply wp_deferring. eapply wp_mono; [by apply Hh|]. intros r s' g' HJ'. by apply Hf.
Qed.
Lemma keeps_when b (h : M S unit) : keeps h → keeps (when b h).
Proof. destruct b; [done|]. intros _. apply keeps_ret. Qed.
Lemma keeps_for_each {A} (l : list A) (f : A → M S unit) :
  (∀ a, keeps (f a)) → keeps (for_each l f).
Proof.
  intros Hf. induction l as [|a l IH]; cbn; [apply keeps_ret|]. by apply keeps_bind.
Qed.
Lemma keeps_fold_each {A B} (l : list A) (b : B) (f : B → A → M S B) :
  (∀ b a, keeps (f b a)) → keeps (fold_each l b f).
Proof.
  intros Hf. revert b. induction l as [|a l IH]; intros b; cbn; [apply keeps_ret|].
  by apply keeps_bind.
Qed.
Lemma keeps_do_call {R} (c : call R) :
  (∀ s g, J s g → guar m g R c ∧ ∀ r, rely m g R c r → J s (step m g R c r)) →
  keeps (do_call c).
Proof. intros H s g HJ. destruct (H s g HJ) as [? ?]. by apply wp_do_call. Qed.
Lemma keeps_do_res {R} (c : call (res R)) :
  (∀ s g, J s g → guar m g _ c ∧ ∀ r, rely m g _ c r → J s (step m g _ c r)) →
  keeps (do_res c).
Proof. intros H s g HJ. destruct (H s g HJ) as [? ?]. by apply wp_do_res. Qed.
Lemma keeps_modify f : (∀ s g, J s g → J (f s) g) → keeps (modify f).
Proof. intros H s g HJ. apply wp_modify. auto. Qed.

Lemma keeps_put s' : (∀ s g, J s g → J s' g) → keeps (put s').
Proof. intros H s g HJ. apply wp_put. eauto. Qed.

(** Use: a handler that keeps [J], followed by anything that only needs [J]. *)
Lemma wp_keeps {A} (h : M S A) s g (Q : res A → S → G → Prop) :
  keeps h → J s g → (∀ r s g, J s g → Q r s g) → wp m h s g Q.
Proof. intros Hh HJ HQ. eapply wp_mono; [by apply Hh|]. eauto. Qed.
End Keeps.

(** Structural steps of a [keeps] goal; calls and lemmas are left to the database. *)
Create HintDb keeps discriminated.
Ltac keeps_step :=
  lazymatch goal with
  | |- ∀ _, _ => intro
  | |- keeps _ _ (mbind _ _) => apply keeps_bind
  | |- keeps _ _ (orelse _ _) => apply keeps_orelse
  | |- keeps _ _ (attempt _) => apply keeps_attempt
  | |- keeps _ _ (deferring _ _) => apply keeps_deferring
  | |- keeps _ _ (when _ _) => apply keeps_when
  | |- keeps _ _ (for_each _ _) => apply keeps_for_each
  | |- keeps _ _ (fold_each _ _ _) => apply keeps_fold_each
  | |- keeps _ _ (ret _) => apply keeps_ret
  | |- keeps _ _ (throw _) => apply keeps_throw
  | |- keeps _ _ (panic _) => apply keeps_panic
  | |- keeps _ _ (of_res _) => apply keeps_of_res
  | |- keeps _ _ get => apply keeps_get
  | |- keeps _ _ (if ?b then _ else _) => destruct b
  | |- keeps _ _ (match ?x with _ => _ end) => destruct x
  end.
(** A call the monitor has nothing to say about. *)
Ltac keeps_neutral :=
  lazymatch goal with
  | |- keeps _ _ (do_call _) => apply keeps_do_call
  | |- keeps _ _ (do_res _) => apply keeps_do_res
  end; intros; split; [done|intros; done].
(** A write of the object that [J] does not look at. *)
Ltac keeps_blind :=
  lazymatch goal with
  | |- keeps _ _ (modify _) => apply keeps_modify
  | |- keeps _ _ (put _) => apply keeps_put
  end; intros; done.
Ltac keeps_unfold :=
  lazymatch goal with
  | |- keeps _ _ (modify _) => fail
  | |- keeps _ _ (put _) => fail
  | |- keeps _ _ (do_call _) => fail
  | |- keeps _ _ (do_res _) => fail
  | |- keeps _ _ (with_state _ _) => fail
  | |- keeps _ _ ?t =>
    let rec head t := lazymatch t with ?f _ => head f | _ => t end in
    let h := head t in unfold h
  end.
Ltac keeps_go :=
  repeat first [ solve [auto with keeps nocore] | keeps_step | keeps_neutral | keeps_blind | keeps_unfold ].

(** ** Assumptions about answers

    [assuming P] lets every call happen and takes [P] of every answer; the
    combinators below build [P] (or a guarantee) from the calls it speaks of. *)

Definition assuming (P : ∀ R, call R → R → Prop) : monitor unit :=
  {| rely _ := P; guar _ _ _ := True; step _ _ _ _ := tt |}.

Lemma wp_assuming {S A} (P P' : ∀ R, call R → R → Prop) (h : M S A) s Q :
  (∀ R c r, P' R c r → P R c r) → wp (assuming P) h s tt Q → wp (assuming P') h s tt Q.
Proof.
  intros HP. unfold wp. generalize (h s). intros p. induction p as [a|R c k IH]; cbn; [done|].
  intros [_ H]. split; [done|]. intros r Hr. by apply IH, H, HP.
Qed.

Definition when_kube (f : ∀ R, kube_call R → R → Prop) : ∀ R, call R → R → Prop := λ R c,
  match c in call R return R → Prop with CKube k => f _ k | _ => λ _, True end.

Definition when_list (f : ∀ O, kind O → string → selector → res (list O) → Prop)
  : ∀ R, call R → R → Prop := when_kube (λ R c,
  match c in kube_call R return R → Prop with KList k ns sel => f _ k ns sel | _ => λ _, True end).

Definition when_get (f : ∀ O, kind O → ObjectKey → res O → Prop)
  : ∀ R, call R → R → Prop := when_kube (λ R c,
  match c in kube_call R return R → Prop with KGet k key => f _ k key | _ => λ _, True end).

(** An API server nobody else writes to answers a write with the object written. *)
Definition kube_echo : ∀ R, call R → R → Prop := when_kube (λ R c,
  match c in kube_call R return R → Prop with
  | KCreate _ o => λ r, match r with Ok o' => o' = o | _ => True end
  | KUpdate _ o => λ r, match r with Ok o' => o' = o | _ => True end
  | KPatch _ _ o => λ r, match r with Ok o' => o' = o | _ => True end
  | KStatusUpdate _ o => λ r, match r with Ok o' => o' = o | _ => True end
  | KStatusPatch _ _ o => λ r, match r with Ok o' => o' = o | _ => True end
  | _ => λ _, True
  end).

(** A guarantee on the git calls, the Kubernetes calls, and no condition on others. *)
Definition guard_git (f : ∀ R, git_call R → Prop) : ∀ R, call R → Prop := λ R c,
  match c with CGit _ g => f _ g | _ => True end.
Definition guard_kube (f : ∀ R, kube_call R → Prop) : ∀ R, call R → Prop := λ R c,
  match c with CKube k => f _ k | _ => True end.

(** ** Automation for [wp] *)

Create HintDb wp discriminated.

Ltac wp_step :=
  lazymatch goal with
  | |- wp _ (mbind _ _) _ _ _ => apply wp_bind
  | |- wp _ (orelse _ _) _ _ _ => apply wp_orelse
  | |- wp _ (attempt _) _ _ _ => apply wp_attempt
  | |- wp _ (with_state _ _) _ _ _ => apply wp_with_state
  | |- wp _ (deferring _ _) _ _ _ => apply wp_deferring
  | |- wp _ (ret _) _ _ _ => apply wp_ret
  | |- wp _ (throw _) _ _ _ => apply wp_throw
  | |- wp _ (panic _) _ _ _ => apply wp_panic
  | |- wp _ (of_res _) _ _ _ => apply wp_of_res
  | |- wp _ get _ _ _ => apply wp_get
  | |- wp _ (put _) _ _ _ => apply wp_put
  | |- wp _ (modify _) _ _ _ => apply wp_modify
  | |- wp _ (do_call _) _ _ _ => apply wp_do_call
  | |- wp _ (do_res _) _ _ _ => apply wp_do_res
  | |- wp _ (k_get _ _ _) _ _ _ => unfold k_get
  | |- wp _ (k_list _ _ _) _ _ _ => unfold k_list
  | |- wp _ (k_create _ _) _ _ _ => unfold k_create
  | |- wp _ (k_delete _ _ _) _ _ _ => unfold k_delete
  | |- wp _ (k_update _ _) _ _ _ => unfold k_update
  | |- wp _ (k_patch _ _ _) _ _ _ => unfold k_patch
  | |- wp _ (k_status_update _ _) _ _ _ => unfold k_status_update
  | |- wp _ (git _ _) _ _ _ => unfold git
  | |- wp _ now _ _ _ => unfold now
  | |- wp _ (env _) _ _ _ => unfold env
  | |- wp _ (sys _) _ _ _ => unfold sys
  | |- wp _ (sys_res _) _ _ _ => unfold sys_res
  | |- wp _ (jira_res _ _) _ _ _ => unfold jira_res
  | |- wp _ (gogit _) _ _ _ => unfold gogit
  | |- wp _ (rest _ _) _ _ _ => unfold rest
  | |- wp _ (bitbucket _) _ _ _ => unfold bitbucket
  | |- wp _ (ssh _) _ _ _ => unfold ssh
  | |- wp _ (when _ _) _ _ _ => unfold when
  | |- wp _ (update_self _) _ _ _ => unfold update_self
  | |- wp _ (status_update_self _) _ _ _ => unfold status_update_self
  | |- wp _ (patch_self _ _) _ _ _ => unfold patch_self
  | |- wp _ (status_patch_self _ _) _ _ _ => unfold status_patch_self
  | |- wp _ (if ?b then _ else _) _ _ _ => destruct b eqn:?
  | |- wp _ (match ?x with _ => _ end) _ _ _ => destruct x eqn:?
  end.

(** Steps up to the next answered call. *)
Ltac wp_to_call :=
  repeat lazymatch goal with
    | |- wp _ (do_res _) _ _ _ => fail
    | |- wp _ (do_call _) _ _ _ => fail
    | |- _ => wp_step
    end.

(** Run a handler symbolically: open every call with an arbitrary answer. *)
Ltac wp_go :=
  repeat first
    [ progress intros
    | progress cbn [guar rely step fst snd]
    | wp_step
    | match goal with |- match ?r with Ok _ => _ | Err _ => _ | Panic _ => _ end => destruct r eqn:? end
    | done ].
