(* ===== verification/Urls.v ===== *)
(** * Urls: repository URLs, names and credentials

    The URL and naming helpers of [src/pkg/util] (url.go, helper.go),
    [src/pkg/gitprovider/provider.go], [src/pkg/git/factory.go] and the name
    conventions of the chains; the codebase modifiers of
    [src/pkg/objectmodifier]; the repository credentials of [src/pkg/codebase]. *)

From S2P Require Import Prelude Api Effects.

Definition CrSuffixGit := ".git".
Definition GithubDomain := "https://github.com/epmd-edp".

(** ** pkg/util/url.go *)

(** The loop removes one suffix per turn; each turn shortens the URL, so its
    length bounds the number of turns. *)
Fixpoint trim_git_loop (fuel : nat) (url : string) : string :=
  match fuel with
  | 0 => url
  | S n => if has_suffix CrSuffixGit url then trim_git_loop n (trim_suffix CrSuffixGit url) else url
  end.
Definition TrimGitFromURL (url : string) : string := trim_git_loop (String.length url) url.

Definition AddGitToURL (url : string) : string :=
  if has_suffix CrSuffixGit url then url else url +:+ CrSuffixGit.

Definition tryGetRepoUrl (spec : CodebaseSpec) : res string :=
  match cs_Repository spec with
  | None => Err (ENew "repository cannot be nil for specified strategy")
  | Some r => Ok (r_Url r)
  end.

Definition BuildTemplateRepoUrl (spec : CodebaseSpec) : string :=
  to_lower (GithubDomain +:+ "/" +:+ cs_Lang spec +:+ "-" +:+ cs_BuildTool spec +:+ "-"
            +:+ cs_Framework spec +:+ ".git").

Definition GetRepoUrlForClone (c : Codebase) : res string :=
  if bool_decide (cs_Strategy (c_Spec c) = Clone) then tryGetRepoUrl (c_Spec c)
  else Ok (BuildTemplateRepoUrl (c_Spec c)).

Definition protocolRegexp (s : string) : bool := has_prefix "https://" s || has_prefix "http://" s.

Definition GetHostWithProtocol (host : string) : string :=
  if protocolRegexp host then host else "https://" +:+ host.

Definition GetSSHUrl (gitServer : GitServer) (repoName : string) : string :=
  if bool_decide (gs_GitProvider (g_Spec gitServer) = GitProviderGerrit)
  then "ssh://" +:+ gs_GitHost (g_Spec gitServer) +:+ ":" +:+ itoa (gs_SshPort (g_Spec gitServer))
       +:+ "/" +:+ repoName
  else "git@" +:+ gs_GitHost (g_Spec gitServer) +:+ ":" +:+ repoName +:+ ".git".

Definition GetHTTPSUrl (gitServer : GitServer) (repoName : string) : string :=
  "https://" +:+ gs_GitHost (g_Spec gitServer) +:+ "/" +:+ repoName +:+ ".git".

Definition GetProjectGitUrl (gitServer : GitServer) (gitServerSecret : Secret) (repoName : string)
  : string :=
  if bool_decide (String.length (map_get (sec_Data gitServerSecret) PrivateSShKeyName) = 0)
  then GetHTTPSUrl gitServer repoName
  else GetSSHUrl gitServer repoName.

(** ** pkg/git/factory.go *)

Definition NewConfigFromGitServerAndSecret (gitServer : GitServer) (secret : Secret) : Config :=
  {| cfg_SSHKey := map_get (sec_Data secret) PrivateSShKeyName;
     cfg_SSHUser := gs_GitUser (g_Spec gitServer);
     cfg_SSHPort := gs_SshPort (g_Spec gitServer);
     cfg_GitProvider := gs_GitProvider (g_Spec gitServer);
     cfg_Token := map_get (sec_Data secret) GitServerSecretTokenField;
     cfg_Username := map_get (sec_Data secret) GitServerSecretUserNameField |}.

(** The zero [Config{}]. *)
Definition no_auth : Config :=
  {| cfg_SSHKey := ""; cfg_SSHUser := ""; cfg_SSHPort := 0; cfg_GitProvider := "";
     cfg_Token := ""; cfg_Username := "" |}.
Definition token_config (user token : string) : Config :=
  {| cfg_SSHKey := ""; cfg_SSHUser := ""; cfg_SSHPort := 0; cfg_GitProvider := "";
     cfg_Token := token; cfg_Username := user |}.

(** ** pkg/gitprovider/provider.go *)

(** The provider is known by its name in the calls that follow. *)
Definition NewProvider {S} (gitServer : GitServer) (token : string) : M S string :=
  let p := gs_GitProvider (g_Spec gitServer) in
  if bool_decide (p = GitProviderGithub) then ret p
  else if bool_decide (p = GitProviderGitlab) then ret p
  else if bool_decide (p = GitProviderBitbucket) then
    do_res (CProvider (PNewBitbucketClient token)) ;;; ret p
  else throw (ENew ("unsupported git provider " +:+ p)).

Definition GetGitProviderAPIURL (gitServer : GitServer) : string :=
  let spec := g_Spec gitServer in
  let url := GetHostWithProtocol (gs_GitHost spec) in
  let with_port url :=
    if bool_decide (gs_HttpsPort spec = 0%Z) then url
    else url +:+ ":" +:+ itoa (gs_HttpsPort spec) in
  if bool_decide (gs_GitProvider spec = GitProviderGithub) then
    if bool_decide (url = "https://github.com") then "https://api.github.com"
    else with_port (url +:+ "/api/v3")
  else if bool_decide (gs_GitProvider spec = GitProviderBitbucket) then "https://api.bitbucket.org/2.0"
  else with_port url.

(** ** Names *)

(** [util.GetWorkDir] *)
Definition GetWorkDir {S} (codebaseName namespace : string) : M S string :=
  value <- env "WORKING_DIR" ;;
  ret (match value with
  | None => "/home/codebase-operator/edp/" +:+ namespace +:+ "/" +:+ codebaseName
            +:+ "/templates/" +:+ codebaseName
  | Some v => v +:+ "/codebase-operator/edp/" +:+ namespace +:+ "/" +:+ codebaseName
              +:+ "/templates/" +:+ codebaseName
  end).

(** [processNameToKubernetesConvention] of put_default_codebasebranch.go *)
Definition processNameToKubernetesConvention (name : string) : string := replace_all "/" "-" name.

(** [ProcessNameToK8sConvention] of put_codebase_image_stream.go *)
Definition slash_or_dot_to_dash (a : Ascii.ascii) : Ascii.ascii :=
  if bool_decide (a = slash) || bool_decide (a = dot) then dash else a.
Definition ProcessNameToK8sConvention (name : string) : string := str_map slash_or_dot_to_dash name.

(** ** pkg/codebase/creds.go *)

Definition GetRepositoryCredentialsIfExists {S} (codebase : Codebase) : M S (string * string * bool) :=
  r <- attempt (k_get KSecret (namespace_of codebase) (GetCloneRepositoryCredentialSecret codebase)) ;;
  match r with
  | inr err =>
    if IsNotFound err then ret ("", "", false)
    else throw (EWrap "failed to get secret with clone repository credentials: " err)
  | inl secret =>
    let user := map_get (sec_Data secret) "username" in
    let password := map_get (sec_Data secret) "password" in
    if bool_decide (String.length user = 0) then
      throw (ENew ("username key is not defined in secret " +:+ name_of secret))
    else if bool_decide (String.length password = 0) then
      throw (ENew ("password key is not defined in secret " +:+ name_of secret))
    else ret (user, password, true)
  end.

(** ** pkg/objectmodifier/codebase_modifier.go *)

Definition set_GitUrlPath (p : string) (s : CodebaseSpec) : CodebaseSpec :=
  {| cs_Lang := cs_Lang s; cs_Description := cs_Description s; cs_Framework := cs_Framework s;
     cs_BuildTool := cs_BuildTool s; cs_Strategy := cs_Strategy s; cs_Repository := cs_Repository s;
     cs_TestReportFramework := cs_TestReportFramework s; cs_Type := cs_Type s;
     cs_GitServer := cs_GitServer s; cs_GitUrlPath := p; cs_DeploymentScript := cs_DeploymentScript s;
     cs_Versioning := cs_Versioning s; cs_JiraServer := cs_JiraServer s;
     cs_CommitMessagePattern := cs_CommitMessagePattern s;
     cs_TicketNamePattern := cs_TicketNamePattern s; cs_CiTool := cs_CiTool s;
     cs_DefaultBranch := cs_DefaultBranch s;
     cs_JiraIssueMetadataPayload := cs_JiraIssueMetadataPayload s;
     cs_EmptyProject := cs_EmptyProject s;
     cs_BranchToCopyInDefaultBranch := cs_BranchToCopyInDefaultBranch s;
     cs_DisablePutDeployTemplates := cs_DisablePutDeployTemplates s; cs_Private := cs_Private s;
     cs_CloneRepositoryCredentials := cs_CloneRepositoryCredentials s |}.

Definition set_RepositoryUrl (u : string) (s : CodebaseSpec) : CodebaseSpec :=
  {| cs_Lang := cs_Lang s; cs_Description := cs_Description s; cs_Framework := cs_Framework s;
     cs_BuildTool := cs_BuildTool s; cs_Strategy := cs_Strategy s;
     cs_Repository := Some {| r_Url := u |};
     cs_TestReportFramework := cs_TestReportFramework s; cs_Type := cs_Type s;
     cs_GitServer := cs_GitServer s; cs_GitUrlPath := cs_GitUrlPath s;
     cs_DeploymentScript := cs_DeploymentScript s;
     cs_Versioning := cs_Versioning s; cs_JiraServer := cs_JiraServer s;
     cs_CommitMessagePattern := cs_CommitMessagePattern s;
     cs_TicketNamePattern := cs_TicketNamePattern s; cs_CiTool := cs_CiTool s;
     cs_DefaultBranch := cs_DefaultBranch s;
     cs_JiraIssueMetadataPayload := cs_JiraIssueMetadataPayload s;
     cs_EmptyProject := cs_EmptyProject s;
     cs_BranchToCopyInDefaultBranch := cs_BranchToCopyInDefaultBranch s;
     cs_DisablePutDeployTemplates := cs_DisablePutDeployTemplates s; cs_Private := cs_Private s;
     cs_CloneRepositoryCredentials := cs_CloneRepositoryCredentials s |}.

(** A modifier reports whether it modified the codebase it was given. *)
Definition codebaseModifierFunc : Type := Codebase → res (bool * Codebase).

Definition trimCodebaseGitSuffix : codebaseModifierFunc := λ codebase,
  if negb (has_suffix CrSuffixGit (cs_GitUrlPath (c_Spec codebase))) then Ok (false, codebase)
  else Ok (true, c_with_spec
    (set_GitUrlPath (TrimGitFromURL (cs_GitUrlPath (c_Spec codebase))) (c_Spec codebase)) codebase).

(** [codebase.Spec.Repository.Url] panics when the pointer is nil. *)
Definition addCodebaseGitSuffix : codebaseModifierFunc := λ codebase,
  if negb (bool_decide (cs_Strategy (c_Spec codebase) = Clone)) then Ok (false, codebase)
  else match cs_Repository (c_Spec codebase) with
  | None => Panic "nil pointer dereference: Spec.Repository"
  | Some r =>
    let url := r_Url r in
    if bool_decide (url = "") then Ok (false, codebase)
    else if has_suffix CrSuffixGit url && bool_decide (str_count CrSuffixGit url = 1)
    then Ok (false, codebase)
    else
      let url' := if has_suffix CrSuffixGit url then TrimGitFromURL url else url in
      Ok (true, c_with_spec (set_RepositoryUrl (AddGitToURL url') (c_Spec codebase)) codebase)
  end.

Definition modifiers : list codebaseModifierFunc := [trimCodebaseGitSuffix; addCodebaseGitSuffix].

(** The loop of [Apply]. *)
Fixpoint apply_modifiers (ms : list codebaseModifierFunc) (needToPatch : bool) (c : Codebase)
  : res (bool * Codebase) :=
  match ms with
  | [] => Ok (needToPatch, c)
  | f :: ms' => res_bind (f c) (λ '(b, c'), apply_modifiers ms' (needToPatch || b) c')
  end.

(** [func (m *CodebaseModifier) Apply] *)
Definition Apply : M Codebase bool :=
  orig <- get ;;
  ' (needToPatch, codebase) <- of_res (apply_modifiers modifiers false orig) ;;
  put codebase ;;;
  if needToPatch then
    patch_self KCodebase orig ?> "failed to patch codebase: " ;;; ret true
  else ret false.

(** ** Lemmas *)

Lemma CrSuffixGit_nonempty : CrSuffixGit ≠ "".
Proof. done. Qed.

Lemma trim_git_loop_no_suffix fuel url :
  (String.length url ≤ fuel)%nat → has_suffix CrSuffixGit (trim_git_loop fuel url) = false.
Proof.
  revert url. induction fuel as [|n IH]; intros url Hlen; cbn.
  - by destruct url; cbn in Hlen; [|lia].
  - destruct (has_suffix CrSuffixGit url) eqn:H; [|done].
    apply has_suffix_spec in H as [p ->]. rewrite trim_suffix_app by done.
    apply IH. rewrite length_app_str in Hlen. cbn in Hlen. lia.
Qed.

Lemma trim_git_loop_stable fuel url :
  has_suffix CrSuffixGit url = false → trim_git_loop fuel url = url.
Proof. destruct fuel; cbn; [done|]. by intros ->. Qed.

(** The URL is the trimmed URL followed by copies of the suffix. *)
Lemma trim_git_loop_prefix fuel url :
  ∃ n, url = trim_git_loop fuel url +:+ str_repeat CrSuffixGit n.
Proof.
  revert url. induction fuel as [|k IH]; intros url; cbn.
  - exists 0%nat. cbn. by rewrite app_nil_r_str.
  - destruct (has_suffix CrSuffixGit url) eqn:H.
    + apply has_suffix_spec in H as [p ->]. rewrite trim_suffix_app by done.
      destruct (IH p) as [n Hn]. exists (S n). cbn. rewrite Hn at 1. by rewrite app_assoc_str.
    + exists 0%nat. cbn. by rewrite app_nil_r_str.
Qed.

Lemma TrimGitFromURL_app base :
  has_suffix CrSuffixGit base = false → TrimGitFromURL (base +:+ CrSuffixGit) = base.
Proof.
  intros H. unfold TrimGitFromURL. rewrite length_app_str.
  replace (String.length base + String.length CrSuffixGit)%nat
    with (S (String.length base + 3)) by (cbn; lia).
  cbn [trim_git_loop].
  replace (has_suffix CrSuffixGit (base +:+ CrSuffixGit)) with true.
  - rewrite trim_suffix_app by done. by apply trim_git_loop_stable.
  - symmetry. apply has_suffix_spec. by exists base.
Qed.

Lemma AddGitToURL_suffix url : has_suffix CrSuffixGit (AddGitToURL url) = true.
Proof.
  unfold AddGitToURL. destruct (has_suffix CrSuffixGit url) eqn:H; [done|].
  apply has_suffix_spec. by exists url.
Qed.

Lemma set_RepositoryUrl_same s u :
  cs_Repository s = Some {| r_Url := u |} → set_RepositoryUrl u s = s.
Proof. destruct s; cbn. by intros ->. Qed.

Lemma c_with_spec_same c : c_with_spec (c_Spec c) c = c.
Proof. by destruct c. Qed.

#[export] Hint Rewrite c_with_spec_same : go.
#[export] Hint Resolve CrSuffixGit_nonempty AddGitToURL_suffix : go.

(** A URL with one [.git] suffix and another [.git] elsewhere is reported as modified. *)
Lemma addCodebaseGitSuffix_reports_no_change codebase base :
  cs_Strategy (c_Spec codebase) = Clone →
  cs_Repository (c_Spec codebase) = Some {| r_Url := base +:+ ".git" |} →
  has_suffix ".git" base = false →
  str_count ".git" (base +:+ ".git") ≠ 1%nat →
  addCodebaseGitSuffix codebase = Ok (true, codebase).
Proof.
  change ".git" with CrSuffixGit.
  intros Hs Hr Hb Hc. unfold addCodebaseGitSuffix. rewrite Hs, Hr. cbn [r_Url].
  rewrite bool_decide_true by done. cbn [negb].
  rewrite bool_decide_false by (intros H; str_length H).
  rewrite (bool_decide_false (str_count _ _ = 1%nat)), andb_false_r by done.
  assert (Hsuf : has_suffix CrSuffixGit (base +:+ CrSuffixGit) = true)
    by (apply has_suffix_spec; by exists base).
  rewrite Hsuf, TrimGitFromURL_app by done. unfold AddGitToURL. rewrite Hb.
  rewrite set_RepositoryUrl_same by done. by rewrite c_with_spec_same.
Qed.

(** ** Properties *)

(** [TrimGitFromURL] removes every trailing [.git] and nothing else: the result has no
    such suffix, the URL is the result followed by copies of it, and trimming twice is
    trimming once. *)
Theorem TrimGitFromURL_normal_form url :
  has_suffix ".git" (TrimGitFromURL url) = false
  ∧ (∃ n, url = TrimGitFromURL url +:+ str_repeat ".git" n)
  ∧ TrimGitFromURL (TrimGitFromURL url) = TrimGitFromURL url.
Proof.
  assert (H : has_suffix ".git" (TrimGitFromURL url) = false) by by apply trim_git_loop_no_suffix.
  split_and!; [done|apply trim_git_loop_prefix|]. by apply trim_git_loop_stable.
Qed.
