(* ===== verification/PathHash.v ===== *)
(** * PathHash: the repository identity label ([src/pkg/util/gitpathlabel])

    [Hash] is a frozen wire format: the first 32 hexadecimal digits of the
    SHA-256 of the normalised path. SHA-256 (crypto/sha256) is written out over
    32-bit words as integers with their wrap-around, so the golden values of the
    package's tests are checked by evaluation. *)

From S2P Require Import Prelude.

(** ** crypto/sha256 *)

Module Sha256.
Local Open Scope Z_scope.

Definition mask32 : Z := 2 ^ 32 - 1.
Definition add32 (x y : Z) : Z := Z.land (x + y) mask32.
Definition rotr (n x : Z) : Z :=
  Z.land (Z.lor (Z.shiftr x n) (Z.shiftl x (32 - n))) mask32.
Definition ch (x y z : Z) : Z := Z.lxor (Z.land x y) (Z.land (Z.lxor x mask32) z).
Definition maj (x y z : Z) : Z := Z.lxor (Z.lxor (Z.land x y) (Z.land x z)) (Z.land y z).
Definition bsig0 (x : Z) : Z := Z.lxor (Z.lxor (rotr 2 x) (rotr 13 x)) (rotr 22 x).
Definition bsig1 (x : Z) : Z := Z.lxor (Z.lxor (rotr 6 x) (rotr 11 x)) (rotr 25 x).
Definition ssig0 (x : Z) : Z := Z.lxor (Z.lxor (rotr 7 x) (rotr 18 x)) (Z.shiftr x 3).
Definition ssig1 (x : Z) : Z := Z.lxor (Z.lxor (rotr 17 x) (rotr 19 x)) (Z.shiftr x 10).

(** The constants are the fractional bits of the cube and square roots of the first
    primes (FIPS 180-4). *)
Definition primes : list Z :=
  Eval vm_compute in
    List.filter (λ p, forallb (λ d, negb (p mod d =? 0)) (map Z.of_nat (seq 2 (Z.to_nat p - 2))))
      (map Z.of_nat (seq 2 310)).

(** The largest [r] with [r^3 <= n], built from bit [k - 1] down. *)
Fixpoint cbrt_bits (k : nat) (r n : Z) : Z :=
  match k with
  | O => r
  | S k' => let r' := r + 2 ^ Z.of_nat k' in cbrt_bits k' (if r' ^ 3 <=? n then r' else r) n
  end.

Definition K : list Z :=
  Eval vm_compute in map (λ p, Z.land (cbrt_bits 36 0 (p * 2 ^ 96)) mask32) (firstn 64 primes).

Record digest := D { d0 : Z; d1 : Z; d2 : Z; d3 : Z; d4 : Z; d5 : Z; d6 : Z; d7 : Z }.
Definition init : digest :=
  Eval vm_compute in
    match map (λ p, Z.land (Z.sqrt (p * 2 ^ 64)) mask32) (firstn 8 primes) with
    | [a; b; c; d; e; f; g; h] => D a b c d e f g h
    | _ => D 0 0 0 0 0 0 0 0
    end.

Definition bytes (s : string) : list Z :=
  map (λ a, Z.of_nat (Ascii.nat_of_ascii a)) (String.list_ascii_of_string s).

Definition be64 (n : Z) : list Z :=
  map (λ i, Z.land (Z.shiftr n i) 255) [56; 48; 40; 32; 24; 16; 8; 0].

(** The message, a 1 bit, zeros up to 56 modulo 64 bytes, and the length in bits. *)
Definition pad (m : list Z) : list Z :=
  let len := Z.of_nat (length m) in
  m ++ [128] ++ repeat 0 (Z.to_nat ((55 - len) mod 64)) ++ be64 (8 * len).

Fixpoint words (l : list Z) : list Z :=
  match l with
  | a :: b :: c :: d :: l' =>
    Z.lor (Z.lor (Z.shiftl a 24) (Z.shiftl b 16)) (Z.lor (Z.shiftl c 8) d) :: words l'
  | _ => []
  end.

(** The message schedule, latest word first, extended [n] times. *)
Fixpoint extend (n : nat) (ws : list Z) : list Z :=
  match n with
  | O => ws
  | S n' =>
    let w i := nth i ws 0 in
    extend n' (add32 (add32 (ssig1 (w 1%nat)) (w 6%nat)) (add32 (ssig0 (w 14%nat)) (w 15%nat)) :: ws)
  end.
Definition schedule (block : list Z) : list Z := rev (extend 48 (rev block)).

Definition round (s : digest) (kw : Z * Z) : digest :=
  let '(k, w) := kw in
  let t1 := add32 (add32 (d7 s) (bsig1 (d4 s))) (add32 (ch (d4 s) (d5 s) (d6 s)) (add32 k w)) in
  let t2 := add32 (bsig0 (d0 s)) (maj (d0 s) (d1 s) (d2 s)) in
  D (add32 t1 t2) (d0 s) (d1 s) (d2 s) (add32 (d3 s) t1) (d4 s) (d5 s) (d6 s).

Definition compress (s : digest) (block : list Z) : digest :=
  let t := fold_left round (combine K (schedule block)) s in
  D (add32 (d0 s) (d0 t)) (add32 (d1 s) (d1 t)) (add32 (d2 s) (d2 t)) (add32 (d3 s) (d3 t))
    (add32 (d4 s) (d4 t)) (add32 (d5 s) (d5 t)) (add32 (d6 s) (d6 t)) (add32 (d7 s) (d7 t)).

Fixpoint blocks (n : nat) (s : digest) (ws : list Z) : digest :=
  match n with
  | O => s
  | S n' => match ws with [] => s | _ => blocks n' (compress s (firstn 16 ws)) (skipn 16 ws) end
  end.

Definition Sum256 (m : string) : digest :=
  let ws := words (pad (bytes m)) in blocks (length ws) init ws.

(** encoding/hex *)
Definition hex_digit (z : Z) : Ascii.ascii :=
  Ascii.ascii_of_nat (Z.to_nat (if z <? 10 then 48 + z else 87 + z)).
Definition hex32 (z : Z) : string :=
  String.string_of_list_ascii
    (map (λ i, hex_digit (Z.land (Z.shiftr z i) 15)) [28; 24; 20; 16; 12; 8; 4; 0]).
Definition EncodeToString (s : digest) : string :=
  hex32 (d0 s) +:+ hex32 (d1 s) +:+ hex32 (d2 s) +:+ hex32 (d3 s) +:+
  hex32 (d4 s) +:+ hex32 (d5 s) +:+ hex32 (d6 s) +:+ hex32 (d7 s).
End Sha256.

(** ** gitpathlabel.go *)

Definition hashLen : nat := 32.

Fixpoint str_take (n : nat) (s : string) : string :=
  match n, s with
  | S n', String a s' => String a (str_take n' s')
  | _, _ => ""
  end.

(** The path SHA-256 is taken of: lower case, with a leading slash. *)
Definition normalize_path (gitUrlPath : string) : string :=
  let path := to_lower gitUrlPath in
  if has_prefix "/" path then path else "/" +:+ path.

Definition Hash (gitUrlPath : string) : string :=
  str_take hashLen (Sha256.EncodeToString (Sha256.Sum256 (normalize_path gitUrlPath))).

(** ** Lemmas *)

Definition is_hex (a : Ascii.ascii) : bool := ascii_between 48 57 a || ascii_between 97 102 a.

Lemma hex_digit_is_hex z : (0 ≤ z < 16)%Z → is_hex (Sha256.hex_digit z) = true.
Proof.
  intros Hz. assert (H : z ∈ map Z.of_nat (seq 0 16)).
  { apply list_elem_of_In, in_map_iff. exists (Z.to_nat z). split; [lia|]. apply in_seq. lia. }
  clear Hz. revert z H. apply Forall_forall. vm_compute. repeat constructor.
Qed.

Lemma nibble a : (0 ≤ Z.land a 15 < 16)%Z.
Proof. change 15%Z with (Z.ones 4). rewrite Z.land_ones by lia. apply Z.mod_pos_bound. lia. Qed.

Lemma hex32_hex z :
  str_forallb is_hex (Sha256.hex32 z) = true ∧ String.length (Sha256.hex32 z) = 8%nat.
Proof.
  split; [|reflexivity]. unfold Sha256.hex32.
  cbn [map String.string_of_list_ascii str_forallb].
  by rewrite !hex_digit_is_hex by apply nibble.
Qed.

Lemma str_take_spec f n s :
  str_forallb f s = true →
  str_forallb f (str_take n s) = true ∧ String.length (str_take n s) = Nat.min n (String.length s).
Proof.
  revert s. induction n as [|n IH]; intros [|a s] H; cbn in *; [done..|].
  apply andb_true_iff in H as [-> H]. destruct (IH s H) as [-> ->]. done.
Qed.

Lemma EncodeToString_hex d :
  str_forallb is_hex (Sha256.EncodeToString d) = true
  ∧ String.length (Sha256.EncodeToString d) = 64%nat.
Proof.
  unfold Sha256.EncodeToString. rewrite !str_forallb_app, !length_app_str.
  rewrite !(proj1 (hex32_hex _)), !(proj2 (hex32_hex _)). done.
Qed.

Lemma has_prefix_one c a p : has_prefix (String c "") (String a p) = bool_decide (c = a).
Proof. cbn [has_prefix]. destruct p; apply andb_true_r. Qed.

Lemma ascii_lower_slash a : ascii_lower a = slash → a = slash.
Proof. destruct a as [[] [] [] [] [] [] [] []]; vm_compute; congruence. Qed.

Lemma normalize_path_lower p : normalize_path (to_lower p) = normalize_path p.
Proof. unfold normalize_path. by rewrite to_lower_idemp. Qed.

Lemma normalize_path_slash p :
  has_prefix "/" p = false → normalize_path ("/" +:+ p) = normalize_path p.
Proof.
  intros H. unfold normalize_path.
  change (to_lower ("/" +:+ p)) with ("/" +:+ to_lower p).
  replace (has_prefix "/" ("/" +:+ to_lower p)) with true by by destruct (to_lower p).
  replace (has_prefix "/" (to_lower p)) with false; [done|].
  destruct p as [|a p]; [done|]. change (to_lower (String a p)) with (String (ascii_lower a) (to_lower p)).
  rewrite has_prefix_one in *. symmetry. bool_props. apply bool_decide_eq_false.
  intros Heq. apply H. symmetry. by apply ascii_lower_slash.
Qed.

(** ** Properties *)

(** The hash of any path is 32 lowercase hexadecimal digits, a legal label value. *)
Theorem Hash_label_value gitUrlPath :
  String.length (Hash gitUrlPath) = 32%nat ∧ str_forallb is_hex (Hash gitUrlPath) = true.
Proof.
  unfold Hash. destruct (EncodeToString_hex (Sha256.Sum256 (normalize_path gitUrlPath))) as [Hh Hl].
  destruct (str_take_spec is_hex hashLen _ Hh) as [-> Hlen]. by rewrite Hlen, Hl.
Qed.

(** The hash identifies exactly the variants the API server may hold of one path: letter
    case and a missing leading slash do not change it. *)
Theorem Hash_identity p :
  Hash (to_lower p) = Hash p
  ∧ Hash (if has_prefix "/" p then p else "/" +:+ p) = Hash p.
Proof.
  unfold Hash. split; [by rewrite normalize_path_lower|].
  destruct (has_prefix "/" p) eqn:H; [done|]. by rewrite normalize_path_slash.
Qed.

(** The frozen values the portal's deduplication relies on, from the package's tests. *)
Example Hash_golden :
  map Hash ["/myorg/my-app"; "/MyOrg/My-App"; "myorg/my-app"; "/MYORG/MY-APP"; "/myorg/my-app/"; ""]
  = ["89f3172369ae09a6b91fa78494b89639"; "89f3172369ae09a6b91fa78494b89639";
     "89f3172369ae09a6b91fa78494b89639"; "89f3172369ae09a6b91fa78494b89639";
     "ccf6c216ffae94a2d7a77d9f4546febc"; "8a5edab282632443219e051e4ade2d1d"].
Proof. vm_compute. reflexivity. Qed.
