(* ===== verification/ImageStreams.v ===== *)
(** * ImageStreams: image streams, their latest tag, and the payload of a deployment

    [src/pkg/codebaseimagestream/codebaseimagestream.go] and
    [src/pkg/autodeploy/autodeploy.go]. *)

From S2P Require Import Prelude Api Effects GoStd.

(** ** pkg/codebaseimagestream *)

(** [current, err := time.Parse(..)]: a failed parse leaves the zero time. *)
Definition tag_time (t : Tag) : Z := default 0%Z (ParseRFC3339 (t_Created t)).

Definition zero_tag : Tag := {| t_Name := ""; t_Created := ""; t_Digest := "" |}.

(** The loop over the tags, with [latestTag] and [latestTagTime]. *)
Fixpoint latest_tag (tags : list Tag) (latestTag : Tag) (latestTagTime : Z) : Tag :=
  match tags with
  | [] => latestTag
  | s :: tags' =>
    let current := tag_time s in
    if (latestTagTime <? current)%Z then latest_tag tags' s current
    else latest_tag tags' latestTag latestTagTime
  end.

Definition GetLastTag (tags : list Tag) : res Tag :=
  let latestTag := latest_tag tags zero_tag 0 in
  if bool_decide (t_Name latestTag = "") then Err (ENew "latest tag is not found")
  else Ok latestTag.

Definition GetCodebaseImageStreamByCodebaseBaseBranchName {S} (codebaseBranchName namespace : string)
  : M S CodebaseImageStream :=
  items <- k_list KCodebaseImageStream namespace
      (matching_labels [(CodebaseBranchLabel, codebaseBranchName)])
    ?> "failed to get CodebaseImageStream by label: " ;;
  match items with
  | [] => throw (EWrap ("failed to get CodebaseImageStream for CodebaseBranch "
            +:+ codebaseBranchName +:+ ": ") (ESentinel ErrCodebaseImageStreamNotFound))
  | [cis] => ret cis
  | _ => throw (ENew ("multiple CodebaseImageStream found for CodebaseBranch " +:+ codebaseBranchName))
  end.

(** ** pkg/autodeploy *)

Record ApplicationPayload := { ImageTag : string; ImageDigest : string }.
#[export] Instance ApplicationPayload_eq_dec : EqDecision ApplicationPayload.
Proof. solve_decision. Defined.

(** The JSON of a payload: [imageDigest] is omitted when empty. *)
Definition payload_json (p : ApplicationPayload) : string :=
  json_object ((("imageTag", json_string (ImageTag p)))
    :: (if bool_decide (ImageDigest p = "") then [] else [("imageDigest", json_string (ImageDigest p))])).

Definition payload_of (t : Tag) : ApplicationPayload :=
  {| ImageTag := t_Name t; ImageDigest := t_Digest t |}.

(** Whatever [GetLastTag] complains about, the error becomes [ErrLasTagNotFound]. *)
Definition getLatestTag (imageStream : CodebaseImageStream) : res (string * Tag) :=
  match GetLastTag (is_Tags (i_Spec imageStream)) with
  | Ok t => Ok (is_Codebase (i_Spec imageStream), t)
  | Err _ => Err (ESentinel ErrLasTagNotFound)
  | Panic w => Panic w
  end.

Definition findDigestByTagName (cbis : option CodebaseImageStream) (tagName : string) : string :=
  match cbis with
  | None => ""
  | Some c =>
    match List.find (λ tag, bool_decide (t_Name tag = tagName)) (is_Tags (i_Spec c)) with
    | Some tag => t_Digest tag
    | None => ""
    end
  end.

Section Strategies.
Context {S : Type}.

(** One iteration of the loops over [pipeline.Spec.InputDockerStreams]. *)
Definition stream_latest (pipeline : CDPipeline) (stream : string)
  : M S (CodebaseImageStream * string * Tag) :=
  imageStream <- GetCodebaseImageStreamByCodebaseBaseBranchName stream (om_Namespace (p_Meta pipeline))
    ?> ("failed to get codebase image stream for stream " +:+ stream +:+ ": ") ;;
  latest <- of_res (getLatestTag imageStream) ;;
  ret (imageStream, fst latest, snd latest).

Definition add_latest (pipeline : CDPipeline) (appPayload : gmap string ApplicationPayload)
    (stream : string) : M S (gmap string ApplicationPayload) :=
  ' (_, codebase, tag) <- stream_latest pipeline stream ;;
  ret (<[codebase := payload_of tag]> appPayload).

Definition GetAppPayloadForAllLatestStrategy (pipeline : CDPipeline) : M S string :=
  appPayload <- fold_each (p_InputDockerStreams pipeline) ∅ (add_latest pipeline) ;;
  ret (json_map payload_json appPayload).

Definition stable_annotation (app : string) : string := "app.edp.epam.com/" +:+ app.

(** The tags of the stage's annotations, then the tag that triggered the deployment. *)
Definition stable_payload (current : CodebaseTag) (pipeline : CDPipeline) (stage : Stage)
  : gmap string ApplicationPayload :=
  <[ct_Codebase current := {| ImageTag := ct_Tag current; ImageDigest := ct_Digest current |}]>
    (fold_left (λ m app,
       match om_Annotations (st_Meta stage) !! stable_annotation app with
       | Some t => <[app := {| ImageTag := t; ImageDigest := "" |}]> m
       | None => m
       end) (p_Applications pipeline) ∅).

Definition backfill (appPayload : gmap string ApplicationPayload) (imageStream : CodebaseImageStream)
    (codebase : string) (tag : Tag) : gmap string ApplicationPayload :=
  match appPayload !! codebase with
  | None => <[codebase := payload_of tag]> appPayload
  | Some existing =>
    if bool_decide (ImageDigest existing = "") then
      <[codebase := {| ImageTag := ImageTag existing;
                       ImageDigest := findDigestByTagName (Some imageStream) (ImageTag existing) |}]>
        appPayload
    else appPayload
  end.

Definition add_stable (pipeline : CDPipeline) (appPayload : gmap string ApplicationPayload)
    (stream : string) : M S (gmap string ApplicationPayload) :=
  ' (imageStream, codebase, tag) <- stream_latest pipeline stream ;;
  ret (backfill appPayload imageStream codebase tag).

Definition GetAppPayloadForCurrentWithStableStrategy (current : CodebaseTag) (pipeline : CDPipeline)
    (stage : Stage) : M S string :=
  appPayload <- fold_each (p_InputDockerStreams pipeline) (stable_payload current pipeline stage)
    (add_stable pipeline) ;;
  ret (json_map payload_json appPayload).
End Strategies.

(** ** Lemmas *)

Lemma latest_tag_spec tags l T :
  (Forall (λ s, tag_time s ≤ T)%Z tags ∧ latest_tag tags l T = l)
  ∨ ∃ pre post, tags = pre ++ latest_tag tags l T :: post
      ∧ (T < tag_time (latest_tag tags l T))%Z
      ∧ Forall (λ s, tag_time s < tag_time (latest_tag tags l T))%Z pre
      ∧ Forall (λ s, tag_time s ≤ tag_time (latest_tag tags l T))%Z post.
Proof.
  revert l T. induction tags as [|s tags IH]; intros l T; cbn; [by left|].
  destruct (T <? tag_time s)%Z eqn:Hs.
  - apply Z.ltb_lt in Hs. right.
    destruct (IH s (tag_time s)) as [[Hall ->]|(pre&post&Heq&Hlt&Hpre&Hpost)].
    + exists [], tags. auto.
    + exists (s :: pre), post. split_and!; [by rewrite Heq at 1|lia|by constructor|done].
  - apply Z.ltb_ge in Hs. destruct (IH l T) as [[Hall ->]|(pre&post&Heq&Hlt&Hpre&Hpost)].
    + left. by split; [constructor|].
    + right. exists (s :: pre), post.
      split_and!; [by rewrite Heq at 1|done|constructor; [lia|done]|done].
Qed.

Lemma latest_tag_max pre t post l T :
  (T < tag_time t)%Z → Forall (λ s, tag_time s < tag_time t)%Z pre →
  Forall (λ s, tag_time s ≤ tag_time t)%Z post → latest_tag (pre ++ t :: post) l T = t.
Proof.
  intros HT Hpre Hpost. revert l T HT. induction Hpre as [|s pre Hs Hpre IH]; intros l T HT; cbn.
  - rewrite (proj2 (Z.ltb_lt _ _) HT). clear l T HT. generalize (Z.le_refl (tag_time t)).
    generalize (tag_time t) at 2 3. intros T. intros HT.
    induction Hpost as [|s post Hs Hpost IH]; cbn; [done|].
    by destruct (Z.ltb_spec T (tag_time s)); [lia|].
  - destruct (T <? tag_time s)%Z; by apply IH.
Qed.

(** What an API server holding [streams] answers, by branch label. *)
Definition streams_listed (streams : string → list CodebaseImageStream) : ∀ R, call R → R → Prop :=
  when_list (λ O k ns sel,
    match k in kind O return res (list O) → Prop with
    | KCodebaseImageStream => λ r,
        ∀ b, sel = matching_labels [(CodebaseBranchLabel, b)] → r = Ok (streams b)
    | _ => λ _, True
    end).

Lemma wp_stream_latest {S} streams pipeline stream (s : S) (Q : _ → S → unit → Prop) :
  (∀ cis t, streams stream = [cis] → GetLastTag (is_Tags (i_Spec cis)) = Ok t →
    Q (Ok (cis, is_Codebase (i_Spec cis), t)) s tt) →
  (∀ e, Q (Err e) s tt) → (∀ w, Q (Panic w) s tt) →
  wp (assuming (streams_listed streams)) (stream_latest pipeline stream) s tt Q.
Proof.
  intros HQ He Hp. unfold stream_latest, GetCodebaseImageStreamByCodebaseBaseBranchName.
  wp_step. wp_step. wp_step. wp_step. wp_step. wp_step; [done|]. intros r Hr.
  specialize (Hr stream eq_refl). subst r. cbn.
  destruct (streams stream) as [|cis [|cis' l]] eqn:Hst; [wp_go; auto| |wp_go; auto].
  wp_step. wp_step. wp_step. unfold getLatestTag.
  destruct (GetLastTag (is_Tags (i_Spec cis))) as [t|e|w] eqn:Ht; [|auto|auto].
  wp_step. cbn. by apply HQ.
Qed.

Section Payload.
Context (streams : string → list CodebaseImageStream).

(** [pl] is the latest tag of the codebase [k] on the input stream [stream]. *)
Definition latest_on (stream k : string) (pl : ApplicationPayload) : Prop :=
  ∃ cis t, streams stream = [cis] ∧ is_Codebase (i_Spec cis) = k
    ∧ GetLastTag (is_Tags (i_Spec cis)) = Ok t ∧ pl = payload_of t.

(** The payload [m] extends the pinned entries [m0] with latest tags of the streams [l]. *)
Definition extends (m0 : gmap string ApplicationPayload) (l : list string)
    (m : gmap string ApplicationPayload) : Prop :=
  (∀ k p, m0 !! k = Some p →
    ∃ p', m !! k = Some p' ∧ ImageTag p' = ImageTag p ∧ (ImageDigest p ≠ "" → p' = p))
  ∧ (∀ k p, m !! k = Some p → m0 !! k = None →
      ∃ stream pl, stream ∈ l ∧ latest_on stream k pl ∧ ImageTag p = ImageTag pl)
  ∧ (∀ stream, stream ∈ l → ∃ k pl, latest_on stream k pl ∧ is_Some (m !! k)).

Lemma extends_nil m0 : extends m0 [] m0.
Proof. split_and!; [eauto|congruence|set_solver]. Qed.

(** Replacing one entry by one with the same tag, unless it was complete. *)
Lemma extends_backfill m0 l m stream cis t :
  extends m0 l m → streams stream = [cis] → GetLastTag (is_Tags (i_Spec cis)) = Ok t →
  extends m0 (l ++ [stream]) (backfill m cis (is_Codebase (i_Spec cis)) t).
Proof.
  intros (H1&H2&H3) Hst Ht.
  set (k0 := is_Codebase (i_Spec cis)).
  assert (HL : latest_on stream k0 (payload_of t)) by (by exists cis, t).
  assert (Hb : ∀ k, k ≠ k0 → backfill m cis k0 t !! k = m !! k).
  { intros k Hk. unfold backfill. destruct (m !! k0); [case_bool_decide|];
      by rewrite ?lookup_insert_ne. }
  assert (Hk0 : match m !! k0 with
    | None => backfill m cis k0 t !! k0 = Some (payload_of t)
    | Some p => ∃ p', backfill m cis k0 t !! k0 = Some p' ∧ ImageTag p' = ImageTag p
        ∧ (ImageDigest p ≠ "" → p' = p)
    end).
  { unfold backfill. destruct (m !! k0) as [p|] eqn:Hm; [case_bool_decide|];
      rewrite ?lookup_insert_eq; [by eexists|by exists p|done]. }
  split_and!.
  - intros k p Hk. destruct (H1 k p Hk) as (p'&Hm&Htag&Hd).
    destruct (decide (k = k0)) as [->|Hne]; [|by rewrite Hb by done; eauto].
    rewrite Hm in Hk0. destruct Hk0 as (p''&?&?&Hd'). exists p''.
    split_and!; [done|congruence|]. intros HD. specialize (Hd HD). subst p'. auto.
  - intros k p Hk Hn. destruct (decide (k = k0)) as [->|Hne].
    + destruct (m !! k0) as [p0|] eqn:Hm.
      * destruct Hk0 as (p'&Hp'&Htag&_). assert (p' = p) as -> by congruence.
        destruct (H2 k0 p0 Hm Hn) as (st&pl&?&?&?). exists st, pl.
        split_and!; [set_solver|done|congruence].
      * rewrite Hk0 in Hk. injection Hk as <-. exists stream, (payload_of t).
        split_and!; [set_solver|done|done].
    + rewrite Hb in Hk by done. destruct (H2 k p Hk Hn) as (st&pl&?&?&?). exists st, pl.
        split_and!; [set_solver|done|congruence].
  - intros st [Hin| ->%list_elem_of_singleton]%elem_of_app.
    + destruct (H3 st Hin) as (k&pl&?&Hs). exists k, pl. split; [done|].
      destruct (decide (k = k0)) as [->|Hne]; [|by rewrite Hb].
      destruct Hs as [p0 Hs]. rewrite Hs in Hk0. destruct Hk0 as (?&->&_). eauto.
    + exists k0, (payload_of t). split; [done|]. destruct (m !! k0); [|by rewrite Hk0].
      destruct Hk0 as (?&->&_). eauto.
Qed.

Lemma wp_add_stable {S} pipeline m0 l todo m (s : S) :
  extends m0 l m →
  wp (assuming (streams_listed streams)) (fold_each todo m (add_stable pipeline)) s tt
    (λ r s' _, s' = s ∧ ∀ m', r = Ok m' → extends m0 (l ++ todo) m').
Proof.
  revert l m. induction todo as [|stream todo IH]; intros l m HE; cbn [fold_each].
  - wp_step. rewrite app_nil_r. by split; [|intros ? [= <-]].
  - wp_step. unfold add_stable. wp_step. apply wp_stream_latest; [|done..].
    intros cis t Hst Ht. wp_step. change (stream :: todo) with ([stream] ++ todo).
    rewrite app_assoc. apply IH. by apply extends_backfill.
Qed.
End Payload.

(** ** Properties *)

(** The last tag is the first of the tags with the greatest creation time, times that do
    not parse counting as the zero time; there is none when no time is later than the zero
    time or that tag has no name. *)
Theorem GetLastTag_spec tags t :
  GetLastTag tags = Ok t ↔
  t_Name t ≠ "" ∧ ∃ pre post, tags = pre ++ t :: post ∧ (0 < tag_time t)%Z
    ∧ Forall (λ s, tag_time s < tag_time t)%Z pre ∧ Forall (λ s, tag_time s ≤ tag_time t)%Z post.
Proof.
  unfold GetLastTag. split.
  - case_bool_decide as Hn; [done|]. intros [= <-]. split; [done|].
    destruct (latest_tag_spec tags zero_tag 0) as [[_ Heq]|?]; [|done]. by rewrite Heq in Hn.
  - intros (Hn&pre&post&->&H0&Hpre&Hpost). rewrite latest_tag_max by done.
    by rewrite bool_decide_false.
Qed.

