(* ===== verification/Externals.v ===== *)
(** * Externals: pure functions of third-party libraries

    Functions the operator calls in controller-runtime ([controllerutil]),
    apimachinery ([meta]), client-go ([retry]), xxhash and the cd-pipeline
    operator's API are fields of the class [Externals], arguments of every
    definition that uses them. [ExternalsLaws] states the documented behaviour some
    theorems rely on, and [reference] is a concrete instance with those laws, used by
    the witnesses. *)

From Stdlib Require Floats.SpecFloat.
From S2P Require Import Prelude Api Effects.

(** [transport.Endpoint] of go-git, as far as it is read. *)
Record Endpoint := { ep_Host : string; ep_Port : Z }.

Class Externals := {
  (* controllerutil.AddFinalizer: whether the list changed, and the metadata *)
  AddFinalizer : string → ObjectMeta → bool * ObjectMeta;
  (* controllerutil.RemoveFinalizer; the callers ignore its answer *)
  RemoveFinalizer : string → ObjectMeta → ObjectMeta;
  (* controllerutil.SetControllerReference(owner, controlled): the owner's kind and metadata *)
  SetControllerReference : string → ObjectMeta → ObjectMeta → res ObjectMeta;
  (* meta.IsStatusConditionTrue *)
  IsStatusConditionTrue : list Condition → string → bool;
  (* meta.SetStatusCondition at a given time: the conditions and whether they changed *)
  SetStatusCondition : Z → Condition → list Condition → list Condition * bool;
  (* the Steps of retry.DefaultRetry, less the first one *)
  DefaultRetry_retries : nat;
  (* time.Duration(t) for a double t outside its range, which Go leaves to the implementation *)
  Duration_overflow : SpecFloat.spec_float → Z;
  (* xxhash.Sum64String, printed in hexadecimal *)
  Sum64_hex : string → string;
  (* Stage.IsAutoDeployTriggerType of the cd-pipeline operator's API *)
  IsAutoDeployTriggerType : Stage → bool;
  (* the constant TriggerTypeAutoStable of that API *)
  TriggerTypeAutoStable : string;
  (* unstructured.UnmarshalJSON *)
  UnmarshalJSON : string → res Unstructured;
  (* metav1.GetControllerOf *)
  GetControllerOf : ObjectMeta → option OwnerReference;
  (* unstructured.NestedFieldNoCopy, NestedString, SetNestedField with a string *)
  NestedField : value → list string → res (option value);
  NestedString : value → list string → res (option string);
  SetNestedField : value → string → list string → res value;
  (* the constant of the package eventlistener of Tekton Triggers *)
  GeneratedResourcePrefix : string;
  (* the text of json.Unmarshal's error for a Go type and an input, and of a decoded number *)
  Unmarshal_error : string → string → string;
  FormatFloat : string → string;
  (* oapi-codegen: StyleParamWithLocation of a path parameter in the simple style, its name and value *)
  StyleParam : string → string → res string;
  (* go-git: transport.NewEndpoint; plumbing.NewBranchReferenceName, NewTagReferenceName,
     ReferenceName.IsBranch and Short; plumbing.NewHash with Hash.String *)
  NewEndpoint : string → res Endpoint;
  NewBranchReferenceName : string → string;
  NewTagReferenceName : string → string;
  IsBranch : string → bool;
  Short : string → string;
  NewHash : string → string }.

(** [plumbing.ZeroHash] *)
Definition ZeroHash : string := str_repeat "0" 40.
Definition hex_char (a : Ascii.ascii) : bool := ascii_between 48 57 a || ascii_between 97 102 a.
(** The 40 hexadecimal digits of a commit, in either case. *)
Definition full_hash (s : string) : bool :=
  bool_decide (String.length s = 40) && str_forallb (λ a, hex_char (ascii_lower a)) s.

Definition set_Finalizers (f : list string) (m : ObjectMeta) : ObjectMeta :=
  {| om_Name := om_Name m; om_GenerateName := om_GenerateName m; om_Namespace := om_Namespace m;
     om_Labels := om_Labels m; om_Annotations := om_Annotations m; om_Finalizers := f;
     om_OwnerReferences := om_OwnerReferences m; om_DeletionTimestamp := om_DeletionTimestamp m;
     om_CreationTimestamp := om_CreationTimestamp m; om_Generation := om_Generation m |}.

Definition set_OwnerReferences (l : list OwnerReference) (m : ObjectMeta) : ObjectMeta :=
  {| om_Name := om_Name m; om_GenerateName := om_GenerateName m; om_Namespace := om_Namespace m;
     om_Labels := om_Labels m; om_Annotations := om_Annotations m; om_Finalizers := om_Finalizers m;
     om_OwnerReferences := l; om_DeletionTimestamp := om_DeletionTimestamp m;
     om_CreationTimestamp := om_CreationTimestamp m; om_Generation := om_Generation m |}.

(** Neither path leads through the other. *)
Definition unrelated (p q : list string) : Prop := ¬ p `prefix_of` q ∧ ¬ q `prefix_of` p.

(** The documented behaviour of these functions, as far as theorems use it. *)
Class ExternalsLaws (X : Externals) := {
  AddFinalizer_spec f m :
    AddFinalizer f m =
      if bool_decide (f ∈ om_Finalizers m) then (false, m)
      else (true, set_Finalizers (om_Finalizers m ++ [f]) m);
  RemoveFinalizer_absent f m : f ∉ om_Finalizers (RemoveFinalizer f m);
  RemoveFinalizer_others f g m :
    g ≠ f → g ∈ om_Finalizers (RemoveFinalizer f m) ↔ g ∈ om_Finalizers m;
  RemoveFinalizer_rest f m : ∃ l, RemoveFinalizer f m = set_Finalizers l m;
  SetControllerReference_rest k o m m' :
    SetControllerReference k o m = Ok m' → ∃ l, m' = set_OwnerReferences l m;
  SetStatusCondition_status t c l :
    IsStatusConditionTrue (fst (SetStatusCondition t c l)) (cond_Type c)
    = bool_decide (cond_Status c = "True");
  SetStatusCondition_unchanged t c l :
    snd (SetStatusCondition t c l) = false → fst (SetStatusCondition t c l) = l;
  SetStatusCondition_types t c l :
    map cond_Type (fst (SetStatusCondition t c l)) =
      if bool_decide (cond_Type c ∈ map cond_Type l) then map cond_Type l
      else map cond_Type l ++ [cond_Type c];
  SetStatusCondition_in t c l d :
    d ∈ fst (SetStatusCondition t c l) → d ∈ l ∨ cond_Status d = cond_Status c;
  GetControllerOf_none m :
    GetControllerOf m = None ↔ Forall (λ r, or_Controller r = false) (om_OwnerReferences m);
  SetNestedField_same v s p v' :
    SetNestedField v s p = Ok v' → NestedString v' p = Ok (Some s);
  SetNestedField_other v s p v' q :
    SetNestedField v s p = Ok v' → unrelated p q → NestedField v' q = NestedField v q;
  NewBranchReferenceName_spec b : NewBranchReferenceName b = "refs/heads/" +:+ b;
  NewTagReferenceName_spec t : NewTagReferenceName t = "refs/tags/" +:+ t;
  IsBranch_spec n : IsBranch n = has_prefix "refs/heads/" n;
  Short_branch b : Short ("refs/heads/" +:+ b) = b;
  (* a hash prints as 40 lower-case digits, and a full one is read in either case *)
  NewHash_canonical s : full_hash (NewHash s) = true ∧ to_lower (NewHash s) = NewHash s;
  NewHash_full s : full_hash s = true → NewHash s = to_lower s }.

(** ** retry.RetryOnConflict

    The function is tried again after a conflict, as long as the backoff has steps
    left; the last error is returned as it is. *)

Fixpoint retry_loop {S} (retries : nat) (fn : M S unit) : M S unit :=
  match retries with
  | 0 => fn
  | S n => orelse fn (λ err, if IsConflict err then retry_loop n fn else throw err)
  end.
Definition RetryOnConflict {X : Externals} {S} (fn : M S unit) : M S unit :=
  retry_loop DefaultRetry_retries fn.

(** ** A reference instance *)

Definition same_condition (c d : Condition) : bool :=
  bool_decide (cond_Status c = cond_Status d) && bool_decide (cond_Reason c = cond_Reason d)
  && bool_decide (cond_Message c = cond_Message d)
  && bool_decide (cond_ObservedGeneration c = cond_ObservedGeneration d).

Definition stamp (t : Z) (c : Condition) : Condition :=
  {| cond_Type := cond_Type c; cond_Status := cond_Status c; cond_Reason := cond_Reason c;
     cond_Message := cond_Message c; cond_ObservedGeneration := cond_ObservedGeneration c;
     cond_LastTransitionTime := t |}.

Fixpoint ref_SetStatusCondition (t : Z) (c : Condition) (l : list Condition)
  : list Condition * bool :=
  match l with
  | [] => ([stamp t c], true)
  | d :: l' =>
    if bool_decide (cond_Type d = cond_Type c) then
      if same_condition c d then (l, false)
      else (stamp (if bool_decide (cond_Status c = cond_Status d)
                   then cond_LastTransitionTime d else t) c :: l', true)
    else let '(l'', b) := ref_SetStatusCondition t c l' in (d :: l'', b)
  end.

Fixpoint ref_IsStatusConditionTrue (l : list Condition) (ty : string) : bool :=
  match l with
  | [] => false
  | d :: l' => if bool_decide (cond_Type d = ty) then bool_decide (cond_Status d = "True")
               else ref_IsStatusConditionTrue l' ty
  end.

(** The value of the first field [key] of a JSON text whose value is a plain string. *)
Fixpoint until_quote (s : string) : string :=
  match s with
  | "" => ""
  | String a s' => if bool_decide (a = dquote) then "" else String a (until_quote s')
  end.
Fixpoint json_field (key s : string) : option string :=
  let pat := String dquote key +:+ String dquote (":" +:+ String dquote "") in
  match s with
  | "" => None
  | String _ s' => if has_prefix pat s then Some (until_quote (str_drop (String.length pat) s))
                   else json_field key s'
  end.
Definition ref_labels (raw : string) : gmap string string :=
  list_to_map (omap (λ key, pair key <$> json_field key raw) [CdPipelineLabel; CdStageLabel]).

Definition field (k : string) (m : list (string * value)) : option value :=
  snd <$> List.find (λ kv, bool_decide (fst kv = k)) m.
Fixpoint set_field (k : string) (v : value) (m : list (string * value)) : list (string * value) :=
  match m with
  | [] => [(k, v)]
  | (k', v') :: m' => if bool_decide (k' = k) then (k, v) :: m' else (k', v') :: set_field k v m'
  end.

Fixpoint ref_nested_go (p : list string) (v : value) : res (option value) :=
  match p with
  | [] => Ok (Some v)
  | k :: p' =>
    match v with
    | VMap m => match field k m with Some v' => ref_nested_go p' v' | None => Ok None end
    | _ => Err (ENew "accessor error: value is not a map")
    end
  end.
Definition ref_nested (v : value) (p : list string) : res (option value) := ref_nested_go p v.

Fixpoint ref_set_go (s : string) (p : list string) (v : value) : res value :=
  match p with
  | [] => Ok (VString s)
  | k :: p' =>
    match v with
    | VMap m => res_bind (ref_set_go s p' (default (VMap []) (field k m)))
                  (λ v', Ok (VMap (set_field k v' m)))
    | _ => Err (ENew "value cannot be set because it is not a map")
    end
  end.
Definition ref_set_nested (v : value) (s : string) (p : list string) : res value := ref_set_go s p v.

#[export] Instance reference : Externals := {
  AddFinalizer f m := if bool_decide (f ∈ om_Finalizers m) then (false, m)
                      else (true, set_Finalizers (om_Finalizers m ++ [f]) m);
  RemoveFinalizer f m :=
    set_Finalizers (List.filter (λ g, negb (bool_decide (g = f))) (om_Finalizers m)) m;
  SetControllerReference k o m :=
    Ok (set_OwnerReferences (om_OwnerReferences m
      ++ [{| or_Kind := k; or_Name := om_Name o; or_Controller := true |}]) m);
  IsStatusConditionTrue := ref_IsStatusConditionTrue;
  SetStatusCondition := ref_SetStatusCondition;
  DefaultRetry_retries := 4;
  Duration_overflow _ := (- 2 ^ 63)%Z;
  Sum64_hex s := s;
  IsAutoDeployTriggerType st := bool_decide (st_TriggerType st = "Auto");
  TriggerTypeAutoStable := "Auto-stable";
  UnmarshalJSON raw :=
    Ok {| u_Namespace := ""; u_Labels := Some (ref_labels raw); u_SpecStatus := Some None; u_Content := raw |};
  GetControllerOf m := List.find or_Controller (om_OwnerReferences m);
  NestedField := ref_nested;
  NestedString v p := res_bind (ref_nested v p) (λ o, match o with
    | None => Ok None
    | Some (VString s) => Ok (Some s)
    | Some _ => Err (ENew "accessor error: value is not a string")
    end);
  SetNestedField := ref_set_nested;
  GeneratedResourcePrefix := "el";
  Unmarshal_error target _ := "json: cannot unmarshal into Go value of type " +:+ target;
  FormatFloat lit := lit;
  StyleParam _ value := Ok value;
  NewEndpoint url := Ok {| ep_Host := url; ep_Port := 0 |};
  NewBranchReferenceName b := "refs/heads/" +:+ b;
  NewTagReferenceName t := "refs/tags/" +:+ t;
  IsBranch := has_prefix "refs/heads/";
  Short n := trim_prefix "refs/heads/" n;
  NewHash s := if full_hash s then to_lower s else ZeroHash }.

Lemma length_to_lower s : String.length (to_lower s) = String.length s.
Proof. induction s as [|a s IH]; [done|]. cbn. by f_equal. Qed.
Lemma full_hash_lower s : full_hash (to_lower s) = full_hash s.
Proof.
  unfold full_hash. rewrite length_to_lower. f_equal. induction s as [|a s IH]; [done|].
  unfold to_lower in *. cbn. by rewrite IH, ascii_lower_idemp.
Qed.

Lemma elem_of_filter_ne (f g : string) l :
  g ∈ List.filter (λ g, negb (bool_decide (g = f))) l ↔ g ∈ l ∧ g ≠ f.
Proof.
  rewrite !list_elem_of_In, filter_In, negb_true_iff, bool_decide_eq_false. done.
Qed.

Lemma field_set_field k v m k' :
  field k' (set_field k v m) = if decide (k' = k) then Some v else field k' m.
Proof.
  unfold field. induction m as [|[k1 v1] m IH]; cbn.
  - destruct (decide (k' = k)) as [->|Hne];
      [by rewrite bool_decide_true|by rewrite bool_decide_false].
  - destruct (decide (k1 = k)) as [->|Hne]; [rewrite (bool_decide_true (k = k)) by done|
      rewrite (bool_decide_false (k1 = k)) by done]; cbn.
    + destruct (decide (k' = k)) as [->|Hne']; [by rewrite bool_decide_true|].
      by rewrite bool_decide_false by done.
    + destruct (decide (k1 = k')) as [->|Hne'].
      * rewrite bool_decide_true by done. cbn. by rewrite decide_False.
      * rewrite bool_decide_false by done. exact IH.
Qed.

Lemma ref_set_same s p v v' : ref_set_go s p v = Ok v' → ref_nested_go p v' = Ok (Some (VString s)).
Proof.
  revert v v'. induction p as [|k p IH]; intros v v'; cbn; [by intros [= <-]|].
  destruct v as [?|?|m]; [done|done|]. destruct (ref_set_go s p _) as [v1|e|w] eqn:H1; [|done|done].
  cbn. intros [= <-]. rewrite field_set_field, decide_True by done. by apply (IH _ _ H1).
Qed.

Lemma ref_nested_empty q : q ≠ [] → ref_nested_go q (VMap []) = Ok None.
Proof. by destruct q. Qed.

Lemma ref_set_other s p v v' q :
  ref_set_go s p v = Ok v' → unrelated p q → ref_nested_go q v' = ref_nested_go q v.
Proof.
  revert v v' q. induction p as [|k p IH]; intros v v' q; cbn.
  { intros _ [Hp _]. exfalso. apply Hp, prefix_nil. }
  destruct v as [?|?|m]; [done|done|]. destruct (ref_set_go s p _) as [v1|e|w] eqn:H1; [|done|done].
  cbn. intros [= <-] [Hp Hq]. destruct q as [|k' q]; [exfalso; apply Hq, prefix_nil|].
  cbn. rewrite field_set_field. destruct (decide (k' = k)) as [->|Hne]; [|done].
  assert (Hu : unrelated p q).
  { split; intros H; [apply Hp|apply Hq]; by apply prefix_cons. }
  rewrite (IH _ _ q H1 Hu). destruct (field k m); [done|]. cbn. apply ref_nested_empty.
  intros ->. by apply Hu, prefix_nil.
Qed.

#[export] Instance reference_laws : ExternalsLaws reference.
Proof.
  split; cbn.
  - done.
  - intros f m. rewrite elem_of_filter_ne. naive_solver.
  - intros f g m Hne. rewrite elem_of_filter_ne. naive_solver.
  - intros f m. by eexists.
  - intros k o m m' [= <-]. by eexists.
  - intros t c l. induction l as [|d l IH]; cbn;
      [by rewrite (bool_decide_true (cond_Type c = cond_Type c))|].
    destruct (decide (cond_Type d = cond_Type c)) as [Hty|Hty];
      [rewrite (bool_decide_true _ Hty)|rewrite (bool_decide_false _ Hty)].
    + unfold same_condition. destruct (_ && _) eqn:Hs; cbn.
      * rewrite (bool_decide_true _ Hty). bool_props.
        by match goal with H : cond_Status c = _ |- _ => rewrite H end.
      * by rewrite (bool_decide_true (cond_Type c = cond_Type c)).
    + destruct (ref_SetStatusCondition t c l) as [l' b]. cbn in *.
      by rewrite (bool_decide_false _ Hty).
  - intros t c l. induction l as [|d l IH]; cbn; [done|].
    case_bool_decide; [by destruct (same_condition c d)|].
    destruct (ref_SetStatusCondition t c l) as [l' b]. cbn in *. intros ->. by rewrite IH.
  - intros t c l. induction l as [|d l IH]; cbn; [by rewrite bool_decide_false by set_solver|].
    destruct (decide (cond_Type d = cond_Type c)) as [Hty|Hty];
      [rewrite (bool_decide_true _ Hty)|rewrite (bool_decide_false _ Hty)].
    + rewrite (bool_decide_true (cond_Type c ∈ _)) by (rewrite Hty; left). destruct (same_condition c d); cbn; [done|by rewrite Hty].
    + destruct (ref_SetStatusCondition t c l) as [l' b]. cbn in *. rewrite IH.
      assert (Hin : cond_Type c ∈ cond_Type d :: map cond_Type l ↔ cond_Type c ∈ map cond_Type l).
      { rewrite elem_of_cons. split; [by intros [?|]|by right]. }
      destruct (decide (cond_Type c ∈ map cond_Type l)) as [H|H]; [by rewrite !bool_decide_true by tauto|].
      by rewrite !bool_decide_false by tauto.
  - intros t c l d. induction l as [|e l IH]; cbn; [rewrite list_elem_of_singleton; intros ->; by right|].
    case_bool_decide.
    + destruct (same_condition c e); cbn; [by left|]. rewrite !elem_of_cons. intros [->|?]; [by right|auto].
    + destruct (ref_SetStatusCondition t c l) as [l' b]. cbn in *. rewrite !elem_of_cons. tauto.
  - intros m. induction (om_OwnerReferences m) as [|r l IH]; cbn; [by split|].
    rewrite Forall_cons. destruct (or_Controller r); [by split; [|intros []]|]. naive_solver.
  - intros v s p v' H. unfold ref_nested. by rewrite (ref_set_same s p v v' H).
  - intros v s p v' q. apply ref_set_other.
  - done.
  - done.
  - done.
  - intros b. by rewrite trim_prefix_app.
  - intros s. destruct (full_hash s) eqn:Hs; [|by vm_compute]. by rewrite full_hash_lower, to_lower_idemp.
  - intros s Hs. by rewrite Hs.
Qed.
