(* ===== verification/Host.v ===== *)
(** * Host: the process's host and the platform settings

    [src/pkg/util] file.go, rand.go, helper.go, platform.go, reconcilation.go and
    str.go, [src/pkg/platform] and [src/pkg/model/git-server.go]: what the handlers
    use of the file system, the environment, the random source and the platform
    configuration. *)

From Stdlib Require Floats.SpecFloat.
From S2P Require Import Prelude GoStd Api Effects Urls.

(** ** pkg/util/file.go *)

Section Files.
Context {S : Type}.

Definition CreateDirectory (dirPath : string) : M S unit :=
  st <- sys (Stat dirPath) ;;
  match st with
  | StatNotExist => sys_res (MkdirAll dirPath) ?> "failed to make directory: "
  | _ => ret tt
  end.

Definition CopyFiles (src dest : string) : M S unit :=
  files <- sys_res (ReadDir src)
    ?> ("failed to read a content of directory " +:+ go_quote src +:+ ": ") ;;
  for_each files (λ f,
    if snd f then ret tt
    else
      let fp := path_join [src; fst f] in
      input <- sys_res (ReadFile fp) ?> ("failed to read a file " +:+ go_quote fp +:+ ": ") ;;
      let destFp := path_join [dest; fst f] in
      sys_res (WriteFile destFp input)
        ?> ("failed to write to file " +:+ go_quote destFp +:+ ": ")).

Definition CopyFile (src dest : string) : M S unit :=
  input <- sys_res (ReadFile src) ?> ("failed to read a file " +:+ go_quote src +:+ ": ") ;;
  sys_res (WriteFile dest input) ?> ("failed to write to file " +:+ go_quote dest +:+ ": ").

Definition DoesDirectoryExist (dirPath : string) : M S bool :=
  st <- sys (Stat dirPath) ;;
  ret (match st with StatOk => true | _ => false end).

Definition RemoveDirectory (dirPath : string) : M S unit :=
  sys_res (RemoveAll dirPath) ?> ("failed to remove directory " +:+ go_quote dirPath +:+ ": ").

Definition IsDirectoryEmpty (dirPath : string) : M S bool :=
  files <- sys (ReadDir dirPath) ;;
  match files with
  | Ok l => ret (bool_decide (length l = 0%nat))
  | Err _ => ret false
  | Panic w => panic w
  end.

Definition ReplaceStringInFile (file oldLine newLine : string) : M S unit :=
  input <- sys_res (ReadFile file) ?> ("failed to read a file " +:+ go_quote file +:+ ": ") ;;
  sys_res (WriteFile file (replace_all oldLine newLine input))
    ?> ("failed to write to file " +:+ go_quote file +:+ ": ").

Definition GetListFilesInDirectory (src : string) : M S (list (string * bool)) :=
  sys_res (ReadDir src) ?> ("failed to read a content of directory " +:+ go_quote src +:+ ": ").
End Files.

(** ** pkg/util/rand.go *)

(** encoding/base64 [URLEncoding] *)
Definition base64_digit (n : nat) : Ascii.ascii :=
  Ascii.ascii_of_nat
    (if (n <? 26)%nat then 65 + n
     else if (n <? 52)%nat then 97 + (n - 26)
     else if (n <? 62)%nat then 48 + (n - 52)
     else if (n =? 62)%nat then 45 else 95).
Definition base64_pad : Ascii.ascii := Ascii.ascii_of_nat 61.

Fixpoint base64_bytes (l : list nat) : list Ascii.ascii :=
  match l with
  | [] => []
  | [a] => [base64_digit (a / 4); base64_digit (a mod 4 * 16); base64_pad; base64_pad]
  | [a; b] => [base64_digit (a / 4); base64_digit (a mod 4 * 16 + b / 16);
               base64_digit (b mod 16 * 4); base64_pad]
  | a :: b :: c :: l' =>
    base64_digit (a / 4) :: base64_digit (a mod 4 * 16 + b / 16)
    :: base64_digit (b mod 16 * 4 + c / 64) :: base64_digit (c mod 64) :: base64_bytes l'
  end.
Definition base64_url (s : string) : string :=
  String.string_of_list_ascii
    (base64_bytes (map Ascii.nat_of_ascii (String.list_ascii_of_string s))).

Definition GenerateRandomBytes {S} (n : Z) : M S string :=
  sys_res (RandRead n) ?> "error reading from crypto/rand: ".

Definition GenerateRandomString {S} (s : Z) : M S string :=
  b <- GenerateRandomBytes s ;; ret (base64_url b).

(** ** pkg/util/helper.go, platform.go, str.go *)

Definition GetAssetsDir {S} : M S string :=
  value <- env "ASSETS_DIR" ;;
  match value with
  | None => throw (ENew "ASSETS_DIR env variable is not set")
  | Some v => ret v
  end.

(** The loop over the owner references. *)
Definition GetOwnerReference (ownerKind : string) (ors : list OwnerReference) : res OwnerReference :=
  let missing := Err (ENew ("resource doesn't have " +:+ ownerKind +:+ " owner reference")) in
  if bool_decide (length ors = 0%nat) then missing
  else match List.find (λ o, bool_decide (or_Kind o = ownerKind)) ors with
  | Some o => Ok o
  | None => missing
  end.

Definition getGitServerCR {S} (name namespace : string) : M S GitServer :=
  r <- attempt (k_get KGitServer namespace name) ;;
  match r with
  | inl instance => ret instance
  | inr err =>
    if IsNotFound err then throw (EWrap ("failed to find GitServer " +:+ name +:+ " in k8s: ") err)
    else throw (EWrap ("failed to get GitServer " +:+ name +:+ ": ") err)
  end.

(** [model.GitServer], without the action log no conversion fills. *)
Record ModelGitServer := {
  mgs_GitHost : string; mgs_GitUser : string; mgs_HttpsPort : Z; mgs_SshPort : Z;
  mgs_NameSshKeySecret : string; mgs_Namespace : string; mgs_Name : string }.

Definition ConvertToGitServer (k8sObj : GitServer) : ModelGitServer :=
  let spec := g_Spec k8sObj in
  {| mgs_GitHost := gs_GitHost spec; mgs_GitUser := gs_GitUser spec;
     mgs_HttpsPort := gs_HttpsPort spec; mgs_SshPort := gs_SshPort spec;
     mgs_NameSshKeySecret := gs_NameSshKeySecret spec; mgs_Namespace := namespace_of k8sObj;
     mgs_Name := name_of k8sObj |}.

Definition GetGitServer {S} (name namespace : string) : M S ModelGitServer :=
  gitReq <- getGitServerCR name namespace ?> ("failed to get " +:+ name +:+ " Git Server CR: ") ;;
  ret (ConvertToGitServer gitReq).

Definition GetSecret {S} (secretName namespace : string) : M S Secret :=
  k_get KSecret namespace secretName ?> ("failed to get secret " +:+ secretName +:+ ": ").

Definition GetWatchNamespace {S} : M S string :=
  ns <- env "WATCH_NAMESPACE" ;;
  match ns with
  | None => throw (ENew "WATCH_NAMESPACE must be set")
  | Some v => ret v
  end.

(** strconv.ParseBool *)
Definition ParseBool (s : string) : res bool :=
  if contains ["1"; "t"; "T"; "true"; "TRUE"; "True"] s then Ok true
  else if contains ["0"; "f"; "F"; "false"; "FALSE"; "False"] s then Ok false
  else Err (ENew ("strconv.ParseBool: parsing " +:+ go_quote s +:+ ": invalid syntax")).

Definition GetDebugMode {S} : M S bool :=
  mode <- env "DEBUG_MODE" ;;
  match mode with
  | None => ret false
  | Some m => of_res (wrap "failed to parse env value as boolean: " (ParseBool m))
  end.

Fixpoint CheckElementInArray (array : list string) (element : string) : bool :=
  match array with
  | [] => false
  | elementCandidate :: array' =>
    if bool_decide (elementCandidate = element) then true else CheckElementInArray array' element
  end.

(** ** pkg/platform/helper.go *)

Definition Openshift := "openshift".
Definition K8S := "kubernetes".
Definition IngressControllerNginx := "nginx".
Definition IngressControllerEnvoy := "envoy".

Section Platform.
Context {S : Type}.
Definition lookup_platform : M S string :=
  value <- env "PLATFORM_TYPE" ;; ret (default K8S value).
Definition IsK8S : M S bool := p <- lookup_platform ;; ret (bool_decide (p = K8S)).
Definition IsOpenshift : M S bool := p <- lookup_platform ;; ret (bool_decide (p = Openshift)).
Definition GetPlatformType : M S string := lookup_platform.
(** os.Getenv *)
Definition getenv (name : string) : M S string := value <- env name ;; ret (default "" value).
Definition IsEnvoy : M S bool :=
  v <- getenv "INGRESS_CONTROLLER_TYPE" ;; ret (bool_decide (v = IngressControllerEnvoy)).
Definition GetIngressControllerType : M S string :=
  e <- IsEnvoy ;; if e then ret IngressControllerEnvoy else ret IngressControllerNginx.
Definition GatewayName : M S string := getenv "GATEWAY_NAME".
Definition GatewayNamespace : M S string := getenv "GATEWAY_NAMESPACE".
End Platform.

(** ** pkg/platform/config.go *)

Record KrciConfig := {
  kc_DnsWildcard : string; kc_ContainerRegistryType : string; kc_EdpVersion : string;
  kc_ContainerRegistryHost : string; kc_ContainerRegistrySpace : string }.

Definition mapConfigToKrciConfig (config : ConfigMap) : KrciConfig :=
  {| kc_DnsWildcard := map_get (cm_Data config) "dns_wildcard";
     kc_ContainerRegistryType := map_get (cm_Data config) "container_registry_type";
     kc_EdpVersion := map_get (cm_Data config) "edp_version";
     kc_ContainerRegistryHost := map_get (cm_Data config) "container_registry_host";
     kc_ContainerRegistrySpace := map_get (cm_Data config) "container_registry_space" |}.

Definition getEdpConfig {S} (namespace : string) : M S KrciConfig :=
  config <- k_get KConfigMap namespace "edp-config" ?> "failed to get edp-config: " ;;
  ret (mapConfigToKrciConfig config).

Definition GetKrciConfig {S} (namespace : string) : M S KrciConfig :=
  r <- attempt (k_get KConfigMap namespace "krci-config") ;;
  match r with
  | inl config => ret (mapConfigToKrciConfig config)
  | inr err =>
    if IsNotFound err then getEdpConfig namespace
    else throw (EWrap "failed to get krci-config: " err)
  end.

(** ** pkg/util/reconcilation.go *)

(** A signed 64-bit integer's wrap-around. *)
Definition int64 (z : Z) : Z := ((z + 2 ^ 63) mod 2 ^ 64 - 2 ^ 63)%Z.

Definition minFactor : Z := 10.
Definition second : Z := 1000000000.

Section Backoff.
(** The conversion to [time.Duration] of a double outside its range: left to the Go
    implementation. *)
Variable Duration_overflow : SpecFloat.spec_float → Z.

Definition Duration_of (x : SpecFloat.spec_float) : Z :=
  match integer_part x with
  | Some z => if (- 2 ^ 63 <=? z)%Z && (z <? 2 ^ 63)%Z then z else Duration_overflow x
  | None => Duration_overflow x
  end.
Definition GetTimeout (factor baseDuration : Z) : Z :=
  if (factor <? minFactor)%Z then int64 (int64 (factor + 1) * baseDuration)
  else Duration_of (f64_mul (float64 baseDuration) (PowInt math_E (int64 (factor + 1)))).
End Backoff.

(** ** Lemmas *)

Lemma int64_id z : (- 2 ^ 63 ≤ z < 2 ^ 63)%Z → int64 z = z.
Proof. intros H. unfold int64. rewrite Z.mod_small by lia. lia. Qed.

Lemma CheckElementInArray_spec l x : CheckElementInArray l x = contains l x.
Proof.
  unfold contains. induction l as [|y l IH]; cbn.
  - symmetry. apply bool_decide_eq_false. set_solver.
  - rewrite IH. repeat case_bool_decide; first [done | exfalso; set_solver].
Qed.
#[export] Hint Rewrite CheckElementInArray_spec : go.

(** The linear part of the backoff: one more base duration per failure. *)
Lemma GetTimeout_linear exp factor base :
  (0 ≤ factor < minFactor)%Z → (0 < base < 2 ^ 59)%Z →
  GetTimeout exp factor base = ((factor + 1) * base)%Z.
Proof.
  intros Hf Hb. unfold GetTimeout, minFactor in *.
  replace (factor <? 10)%Z with true by lia. rewrite (int64_id (factor + 1)) by lia. apply int64_id. nia.
Qed.
