(* ===== verification/Templates.v ===== *)
(** * Templates: deploy templates and CI configuration in the work directory

    [src/pkg/util/template.go], [src/controllers/codebase/service/template/template.go]
    and [src/pkg/gitlab/manager.go]: the files the operator generates in a
    checked-out repository. Parsing and executing a [text/template] file is a call. *)

From S2P Require Import Prelude Api Effects Urls Host.

(** ** pkg/util/template.go *)

Definition HelmChartDeploymentScriptType := "helm-chart".
Definition RpmPackageDeploymentScriptType := "rpm-package".
Definition ChartTemplate := "Chart.tmpl".
Definition ReadmeTemplate := "README.tmpl".
Definition ChartValuesTemplate := "values.tmpl".
Definition TemplateFolder := "templates".
Definition TestFolder := "tests".
Definition HelmIgnoreFile := ".helmignore".
Definition TestFile := "test-connection.yaml".

Section Generate.
Context {S : Type}.

Definition renderTemplate (file templateBasePath templateName : string)
    (config : ConfigGoTemplating) : M S unit :=
  sys_res (ParseFiles templateName templateBasePath)
    ?> "failed to parse codebase deploy template: " ;;;
  sys_res (ExecuteTemplate templateName file config)
    ?> "failed to render codebase deploy template: ".

Definition CopyHelmChartTemplates (deploymentScript templatesDest assetsDir : string)
    (config : ConfigGoTemplating) : M S unit :=
  let templateBasePath :=
    path_join [assetsDir; "templates/applications"; deploymentScript; cf_PlatformType config] in
  CreateDirectory templatesDest ;;;
  let valuesFile := path_join [templatesDest; "values.yaml"] in
  sys_res (CreateFile valuesFile)
    ?> ("failed to create Values file " +:+ go_quote valuesFile +:+ ": ") ;;;
  let chartFile := path_join [templatesDest; "Chart.yaml"] in
  sys_res (CreateFile chartFile)
    ?> ("failed to create chart file " +:+ go_quote chartFile +:+ ": ") ;;;
  let readmeFile := path_join [templatesDest; "README.md"] in
  sys_res (CreateFile readmeFile)
    ?> ("failed to create chart file " +:+ go_quote readmeFile +:+ ": ") ;;;
  let templateFolder := path_join [templatesDest; TemplateFolder] in
  CreateDirectory templateFolder ;;;
  let testFolder := path_join [templatesDest; TemplateFolder; TestFolder] in
  CreateDirectory testFolder ;;;
  let templateSourceFolder := path_join [templateBasePath; TemplateFolder] in
  CopyFiles templateSourceFolder templateFolder ;;;
  let readmegoFileName := path_join [templateBasePath; "README.md.gotmpl"] in
  bytesRead <- sys_res (ReadFile readmegoFileName)
    ?> ("failed to read file " +:+ go_quote readmegoFileName +:+ ": ") ;;
  let readmeFileNameCopy := path_join [templatesDest; "README.md.gotmpl"] in
  sys_res (WriteFile readmeFileNameCopy bytesRead)
    ?> ("failed to write file " +:+ go_quote readmeFileNameCopy +:+ ": ") ;;;
  let testsSourceFolder := path_join [templateBasePath; TemplateFolder; TestFolder] in
  CopyFiles testsSourceFolder testFolder ;;;
  CopyFile (path_join [templateBasePath; HelmIgnoreFile]) (path_join [templatesDest; HelmIgnoreFile]) ;;;
  renderTemplate valuesFile (path_join [templateBasePath; ChartValuesTemplate]) ChartValuesTemplate config ;;;
  renderTemplate chartFile (path_join [templateBasePath; ChartTemplate]) ChartTemplate config ;;;
  renderTemplate readmeFile (path_join [templateBasePath; ReadmeTemplate]) ReadmeTemplate config ;;;
  files <- GetListFilesInDirectory (path_join [templatesDest; TemplateFolder])
    ?> "failed to GetListFilesInDirectory: " ;;
  for_each files (λ file,
    if snd file then ret tt
    else ReplaceStringInFile (path_join [templatesDest; TemplateFolder; fst file])
           "REPLACE_IT" (cf_Name config)) ;;;
  ReplaceStringInFile (path_join [templatesDest; TemplateFolder; TestFolder; TestFile])
    "REPLACE_IT" (cf_Name config).

Definition createAndRenderTemplate (destPath templatePath templateName : string)
    (config : ConfigGoTemplating) : M S unit :=
  sys_res (CreateFile destPath)
    ?> ("failed to create destination file " +:+ go_quote destPath +:+ ": ") ;;;
  renderTemplate destPath templatePath templateName config.

Definition CopyRpmPackageTemplates (templatesDest assetsDir : string)
    (config : ConfigGoTemplating) : M S unit :=
  let base := "templates/applications/rpm-package/" in
  let makefileTemplatePath := path_join [assetsDir; base +:+ "Makefile.tmpl"] in
  let rpmlintTemplatePath := path_join [assetsDir; base +:+ ".rpmlintrc.toml"] in
  let langSpec := path_join [assetsDir; base +:+ cf_Lang config +:+ "/spec.tmpl"] in
  let langService := path_join [assetsDir; base +:+ cf_Lang config +:+ "/service.tmpl"] in
  st <- sys (Stat langSpec) ;;
  ' (specTemplatePath, serviceTemplatePath) <-
    match st with
    | StatNotExist => ret (path_join [assetsDir; base +:+ "default/spec.tmpl"],
                           path_join [assetsDir; base +:+ "default/service.tmpl"])
    | StatErr err =>
      throw (EWrap ("failed to check if " +:+ go_quote langSpec +:+ " exists: ") err)
    | StatOk => ret (langSpec, langService)
    end ;;
  let makefile := path_join [templatesDest; "Makefile"] in
  st <- sys (Stat makefile) ;;
  let makefileDestPath :=
    match st with StatOk => path_join [templatesDest; "Makefile.kuberocketci"] | _ => makefile end in
  createAndRenderTemplate makefileDestPath makefileTemplatePath "Makefile.tmpl" config ;;;
  createAndRenderTemplate (path_join [templatesDest; cf_Name config +:+ ".spec"])
    specTemplatePath "spec.tmpl" config ;;;
  createAndRenderTemplate (path_join [templatesDest; cf_Name config +:+ ".service"])
    serviceTemplatePath "service.tmpl" config ;;;
  CopyFile rpmlintTemplatePath (path_join [templatesDest; ".rpmlintrc.toml"]).

Definition CopyTemplate (deploymentScript workDir assetsDir : string)
    (cf : ConfigGoTemplating) : M S unit :=
  if bool_decide (deploymentScript = HelmChartDeploymentScriptType) then
    let templatesDest := path_join [workDir; "deploy-templates"] in
    exists_ <- DoesDirectoryExist templatesDest ;;
    if exists_ then ret tt
    else CopyHelmChartTemplates deploymentScript templatesDest assetsDir cf
  else if bool_decide (deploymentScript = RpmPackageDeploymentScriptType) then
    CopyRpmPackageTemplates workDir assetsDir cf
  else throw (ENew "unsupported deployment type").

(** ** controllers/codebase/service/template/template.go *)

Definition languagesForSonarTemplates : list string := ["javascript"; "python"; "go"].

Definition getProjectUrl (s : CodebaseSpec) (n : string) : M S string :=
  if bool_decide (cs_Strategy s = Create) then ret (BuildTemplateRepoUrl s)
  else if bool_decide (cs_Strategy s = Clone) then
    match cs_Repository s with
    | None => panic "nil pointer dereference: Spec.Repository"
    | Some r => ret (r_Url r)
    end
  else if bool_decide (cs_Strategy s = Import) then
    gs <- GetGitServer (cs_GitServer s) n ?> "failed to get git server: " ;;
    ret ("https://" +:+ mgs_GitHost gs +:+ cs_GitUrlPath s)
  else throw (ENew "failed to get project url, caused by the unsupported strategy").

Definition buildTemplateConfig (cb : Codebase) : M S ConfigGoTemplating :=
  conf <- GetKrciConfig (namespace_of cb) ?> "failed to get user setting: " ;;
  platformType <- GetPlatformType ;;
  ingressController <- GetIngressControllerType ;;
  gatewayName <- GatewayName ;;
  gatewayNamespace <- GatewayNamespace ;;
  url <- getProjectUrl (c_Spec cb) (namespace_of cb) ?> "failed to get project url: " ;;
  ret {| cf_Lang := cs_Lang (c_Spec cb); cf_Name := name_of cb; cf_PlatformType := platformType;
         cf_DnsWildcard := kc_DnsWildcard conf; cf_Framework := cs_Framework (c_Spec cb);
         cf_GitURL := url; cf_IngressController := ingressController;
         cf_GatewayName := gatewayName; cf_GatewayNamespace := gatewayNamespace |}.

Definition copySonarConfigs (workDir td : string) (config : ConfigGoTemplating) : M S unit :=
  let lang := to_lower (cf_Lang config) in
  if negb (contains languagesForSonarTemplates lang) then ret tt
  else
    let sonarConfigPath := workDir +:+ "/sonar-project.properties" in
    st <- sys (Stat sonarConfigPath) ;;
    match st with
    | StatOk => ret tt
    | _ =>
      sys_res (CreateFile sonarConfigPath) ?> "failed to create sonar config file: " ;;;
      let sonarTemplateName := lang +:+ "-sonar-project.properties.tmpl" in
      let sonarTemplateFile := td +:+ "/templates/sonar/" +:+ sonarTemplateName in
      sys_res (ParseFiles sonarTemplateName sonarTemplateFile)
        ?> "failed to parse sonar template file: " ;;;
      sys_res (ExecuteTemplate sonarTemplateName sonarConfigPath config)
        ?> ("failed to render Sonar configs fo " +:+ cf_Lang config +:+ " app: "
            +:+ cf_Name config +:+ ": ")
    end.

Definition PrepareTemplates (cb : Codebase) (workDir : string) : M S unit :=
  cf <- buildTemplateConfig cb ;;
  assetsDir <- GetAssetsDir ?> "failed to get assets dir: " ;;
  CopyTemplate (cs_DeploymentScript (c_Spec cb)) workDir assetsDir cf
    ?> ("failed to copy template for " +:+ name_of cb +:+ " codebase: ") ;;;
  copySonarConfigs workDir assetsDir cf.
End Generate.

(** ** pkg/gitlab/manager.go *)

Definition GitLabCIDefaultTemplate := "gitlab-ci-default".
Definition GitLabCIFileName := ".gitlab-ci.yml".
Definition GitLabCITemplateAnnotation := "app.edp.epam.com/gitlab-ci-template".

Section GitLabCI.
Context {S : Type}.

Definition getTemplateFromConfigMap (configMapName namespace : string) : M S string :=
  configMap <- k_get KConfigMap namespace configMapName ;;
  let template := map_get (cm_Data configMap) GitLabCIFileName in
  if bool_decide (template = "")
  then throw (ENew ("no " +:+ GitLabCIFileName +:+ " template found in ConfigMap " +:+ configMapName))
  else ret template.

Definition getGitLabCITemplate (codebase : Codebase) : M S string :=
  let ann := map_get (om_Annotations (c_Meta codebase)) GitLabCITemplateAnnotation in
  let configMapName := if bool_decide (ann = "") then GitLabCIDefaultTemplate else ann in
  getTemplateFromConfigMap configMapName (namespace_of codebase)
    ?> ("failed to get GitLab CI template from ConfigMap " +:+ go_quote configMapName +:+ ": ").

Definition InjectGitLabCIConfig (codebase : Codebase) (workDir : string) : M S unit :=
  let gitlabCIPath := path_join [workDir; GitLabCIFileName] in
  st <- sys (Stat gitlabCIPath) ;;
  match st with
  | StatOk => ret tt
  | _ =>
    template <- getGitLabCITemplate codebase ?> "failed to get GitLab CI template: " ;;
    sys_res (WriteFile gitlabCIPath (replace_all "{{.CodebaseName}}" (name_of codebase) template))
      ?> ("failed to write " +:+ GitLabCIFileName +:+ ": ")
  end.
End GitLabCI.
