(* ===== verification/CodebaseCommon.v ===== *)
(** * CodebaseCommon: what the handlers of the codebase chain share

    [src/controllers/codebase/service/chain] chain.go, common.go, checkout_branch.go
    and [setFailedFields] of put_project.go. A handler is an [M Codebase unit]: the
    codebase it was given by pointer is its state. *)

From S2P Require Import Prelude Api Effects Urls Host.

(** ** chain.go *)

(** The loop of [chain.ServeRequest] over the handlers left. *)
Fixpoint chain_ServeRequest (handlers : list (M Codebase unit)) : M Codebase unit :=
  match handlers with
  | [] => ret tt
  | h :: handlers' => h ?> "failed to serve handler: " ;;; chain_ServeRequest handlers'
  end.

(** ** Status writes *)

(** [WebHookRef] from [WebHookID] for backward compatibility. *)
Definition compat_webHookRef (s : CodebaseStatus) : string :=
  if bool_decide (cst_WebHookRef s = "") && negb (bool_decide (cst_WebHookID s = 0%Z))
  then itoa (cst_WebHookID s) else cst_WebHookRef s.

Definition setFailedFields (c : Codebase) (a message : string) (now : Z) : Codebase :=
  let s := c_Status c in
  c_with_status
    {| cst_Status := StatusFailed; cst_Available := false; cst_LastTimeUpdated := now;
       cst_Username := "system"; cst_Action := a; cst_Result := Error;
       cst_DetailedMessage := message; cst_Value := "failed";
       cst_FailureCount := cst_FailureCount s; cst_Git := cst_Git s;
       cst_WebHookID := cst_WebHookID s; cst_WebHookRef := compat_webHookRef s;
       cst_GitWebUrl := cst_GitWebUrl s |} c.

(** [setFailedFields(codebase, a, message)] on the handler's codebase. *)
Definition fail_codebase (a message : string) : M Codebase unit :=
  t <- now ;; modify (λ c, setFailedFields c a message t).

Definition intermediate_status (s : CodebaseStatus) (action : string) (now : Z) : CodebaseStatus :=
  {| cst_Status := StatusInProgress; cst_Available := false; cst_LastTimeUpdated := now;
     cst_Action := action; cst_Result := Success; cst_Username := "system";
     cst_Value := "inactive"; cst_FailureCount := cst_FailureCount s; cst_Git := cst_Git s;
     cst_WebHookID := cst_WebHookID s; cst_WebHookRef := compat_webHookRef s;
     cst_GitWebUrl := cst_GitWebUrl s; cst_DetailedMessage := "" |}.

Definition setIntermediateSuccessFields (action : string) : M Codebase unit :=
  t <- now ;;
  modify (λ cb, c_with_status (intermediate_status (c_Status cb) action t) cb) ;;;
  cb <- get ;;
  status_update_self KCodebase
    ?> ("failed to update status field of " +:+ go_quote (name_of cb) +:+ " resource 'Codebase': ").

Definition updateGitStatusWithPatch (action gitStatus : string) : M Codebase unit :=
  codebase <- get ;;
  if bool_decide (cst_Git (c_Status codebase) = gitStatus) then ret tt
  else
    modify (λ c, c_with_status (set_Git gitStatus (c_Status c)) c) ;;;
    orelse (status_patch_self KCodebase codebase) (λ err,
      fail_codebase action (err_msg err) ;;;
      throw (EWrap ("failed to patch git status to " +:+ gitStatus +:+ " for codebase "
                    +:+ name_of codebase +:+ ": ") err)).

(** ** The repository context *)

Record GitRepositoryContext := {
  rc_GitServer : GitServer; rc_GitServerSecret : Secret; rc_PrivateSSHKey : string;
  rc_UserName : string; rc_Token : string; rc_RepoGitUrl : string; rc_WorkDir : string }.

Definition repo_config (rc : GitRepositoryContext) : Config :=
  NewConfigFromGitServerAndSecret (rc_GitServer rc) (rc_GitServerSecret rc).

Section Shared.
Context {S : Type}.

Definition GetGitRepositoryContext (codebase : Codebase) : M S GitRepositoryContext :=
  gitServer <- k_get KGitServer (namespace_of codebase) (cs_GitServer (c_Spec codebase))
    ?> "failed to get GitServer: " ;;
  gitServerSecret <-
    k_get KSecret (namespace_of codebase) (gs_NameSshKeySecret (g_Spec gitServer))
    ?> "failed to get GitServer secret: " ;;
  workDir <- GetWorkDir (name_of codebase) (namespace_of codebase) ;;
  ret {| rc_GitServer := gitServer; rc_GitServerSecret := gitServerSecret;
         rc_PrivateSSHKey := map_get (sec_Data gitServerSecret) PrivateSShKeyName;
         rc_UserName := map_get (sec_Data gitServerSecret) GitServerSecretUserNameField;
         rc_Token := map_get (sec_Data gitServerSecret) GitServerSecretTokenField;
         rc_RepoGitUrl :=
           GetProjectGitUrl gitServer gitServerSecret (GetProjectID (c_Spec codebase));
         rc_WorkDir := workDir |}.

(** ** checkout_branch.go *)

Definition CheckoutBranch (branchName : string) (repoContext : GitRepositoryContext)
    (cb : Codebase) : M S unit :=
  let cfg := repo_config repoContext in
  let wd := rc_WorkDir repoContext in
  currentBranchName <- git cfg (GGetCurrentBranchName wd) ?> "failed to get current branch name: " ;;
  if bool_decide (currentBranchName = branchName) then ret tt
  else if bool_decide (cs_Strategy (c_Spec cb) = Create) then
    git cfg (GCheckout wd branchName false)
      ?> ("failed to checkout to default branch " +:+ branchName +:+ " (create strategy): ")
  else if bool_decide (cs_Strategy (c_Spec cb) = Clone) then
    ' (user, password, _) <- GetRepositoryCredentialsIfExists cb
      ?> "failed to get repository credentials for checkout (clone strategy): " ;;
    git (token_config user password) (GCheckout wd branchName true)
      ?> ("failed to checkout to default branch " +:+ branchName +:+ " (clone strategy): ")
  else if bool_decide (cs_Strategy (c_Spec cb) = Import) then
    git cfg (GCheckoutRemoteBranch wd branchName)
      ?> ("failed to checkout to default branch " +:+ branchName +:+ " (import strategy): ")
  else throw (ENew ("failed to checkout, unsupported strategy: '" +:+ cs_Strategy (c_Spec cb) +:+ "'")).

Definition PrepareGitRepository (codebase : Codebase) : M S GitRepositoryContext :=
  gitRepoCtx <- GetGitRepositoryContext codebase ;;
  let wd := rc_WorkDir gitRepoCtx in
  exists_ <- DoesDirectoryExist wd ;;
  clone <- (if negb exists_ then ret true else IsDirectoryEmpty wd) ;;
  when clone (git (repo_config gitRepoCtx) (GClone (rc_RepoGitUrl gitRepoCtx) wd)
    ?> "failed to clone git repository: ") ;;;
  CheckoutBranch (cs_DefaultBranch (c_Spec codebase)) gitRepoCtx codebase
    ?> ("failed to checkout default branch " +:+ cs_DefaultBranch (c_Spec codebase) +:+ ": ") ;;;
  ret gitRepoCtx.
End Shared.

(** ** Lemmas *)

Lemma compat_webHookRef_spec s : compat_webHookRef s = GetWebHookRef s.
Proof. done. Qed.

(** A failed or intermediate status keeps what later runs depend on. *)
Lemma setFailedFields_keeps c a m t :
  c_Spec (setFailedFields c a m t) = c_Spec c
  ∧ c_Meta (setFailedFields c a m t) = c_Meta c
  ∧ cst_Git (c_Status (setFailedFields c a m t)) = cst_Git (c_Status c)
  ∧ cst_FailureCount (c_Status (setFailedFields c a m t)) = cst_FailureCount (c_Status c).
Proof. done. Qed.
