(* ===== verification/PutProject.v ===== *)
(** * PutProject: provisioning of the remote repository

    [src/controllers/codebase/service/chain/put_project.go], the handler that
    generates a repository's first history and pushes it. The git server may hold
    a history of someone else, and the operator may be killed between any two
    calls, so a push is preceded by a check of the remote default branch and by a
    durable note of the intent. *)

From S2P Require Import Prelude Api Effects Urls Host CodebaseCommon.

Definition RefSpecPushAllBranches := "refs/heads/*:refs/heads/*".
Definition RefSpecPushAllTags := "refs/tags/*:refs/tags/*".

Definition skipPutProjectStatuses : list string :=
  [ProjectPushedStatus; ProjectGitLabCIPushedStatus; ProjectTemplatesPushedStatus].
Definition putProjectStrategies : list string := [Clone; Create].

Definition PutProject_skip (codebase : Codebase) : bool :=
  if negb (contains putProjectStrategies (cs_Strategy (c_Spec codebase))) then true
  else contains skipPutProjectStatuses (cst_Git (c_Status codebase)).

Definition handleError {A} (err : error) (message : string) : M Codebase A :=
  fail_codebase RepositoryProvisioning (err_msg err) ;;;
  throw (EWrap (message +:+ ": ") err).

Section Provider.
Context {S : Type}.

Definition createGerritProject (gitServer : GitServer) (privateSSHKey projectName : string)
  : M S unit :=
  let sp := g_Spec gitServer in
  projectExist <- do_res (CGerrit (GrCheckProjectExist (gs_SshPort sp) privateSSHKey
      (gs_GitHost sp) (gs_GitUser sp) projectName))
    ?> "failed to check if project exist in Gerrit: " ;;
  if projectExist : bool then ret tt
  else do_res (CGerrit (GrCreateProject (gs_SshPort sp) privateSSHKey
      (gs_GitHost sp) (gs_GitUser sp) projectName))
    ?> "failed to create gerrit project: ".

Definition createGitThirdPartyProject (gitServer : GitServer) (gitProviderToken : string)
    (codebase : Codebase) : M S unit :=
  gitProvider <- NewProvider gitServer gitProviderToken ?> "failed to create git provider: " ;;
  let projectName := GetProjectID (c_Spec codebase) in
  projectExists <- do_res (CProvider (PProjectExists gitProvider (GetGitProviderAPIURL gitServer)
      gitProviderToken projectName))
    ?> "failed to check if project exists: " ;;
  if projectExists : bool then ret tt
  else do_res (CProvider (PCreateProject gitProvider (GetGitProviderAPIURL gitServer)
      gitProviderToken projectName (cs_Private (c_Spec codebase))))
    ?> "failed to create project: ".

Definition setDefaultBranch (gitServer : GitServer) (codebase : Codebase)
    (gitProviderToken privateSSHKey : string) : M S unit :=
  let sp := g_Spec gitServer in
  let projectID := GetProjectID (c_Spec codebase) in
  let branch := cs_DefaultBranch (c_Spec codebase) in
  if bool_decide (gs_GitProvider sp = GitProviderGerrit) then
    do_res (CGerrit (GrSetHeadToBranch (gs_SshPort sp) privateSSHKey (gs_GitHost sp)
        (gs_GitUser sp) projectID branch))
      ?> ("set remote HEAD for codebase " +:+ projectID +:+ " to default branch " +:+ branch
          +:+ " has been failed: ")
  else
    gitProvider <- NewProvider gitServer gitProviderToken ?> "failed to create git provider: " ;;
    orelse (do_res (CProvider (PSetDefaultBranch gitProvider (GetGitProviderAPIURL gitServer)
        gitProviderToken projectID branch))) (λ err,
      if err_is ErrApiNotSupported err then ret tt
      else throw (EWrap "failed to set default branch: " err)).

Definition remoteDefaultBranchAbsent (codebase : Codebase) (repoContext : GitRepositoryContext)
  : M S bool :=
  let repoURL := GetProjectGitUrl (rc_GitServer repoContext) (rc_GitServerSecret repoContext)
                   (GetProjectID (c_Spec codebase)) in
  r <- attempt (git (repo_config repoContext)
         (GResolveRemoteReference repoURL (cs_DefaultBranch (c_Spec codebase)))) ;;
  match r with
  | inl _ => ret false
  | inr err =>
    if err_is ErrReferenceNotFound err then ret true
    else throw (EWrap "failed to check remote default branch: " err)
  end.

Definition replaceDefaultBranch (cfg : Config) (directory defaultBranchName newBranchName : string)
  : M S unit :=
  git cfg (GRemoveBranch directory defaultBranchName)
    ?> ("failed to remove default branch " +:+ defaultBranchName +:+ ": ") ;;;
  git cfg (GCreateChildBranch directory newBranchName defaultBranchName)
    ?> "failed to create child branch: ".

Definition pushProject (projectName : string) (repoContext : GitRepositoryContext) : M S unit :=
  let cfg := repo_config repoContext in
  git cfg (GAddRemoteLink (rc_WorkDir repoContext)
      (GetProjectGitUrl (rc_GitServer repoContext) (rc_GitServerSecret repoContext) projectName))
    ?> "failed to add remote link: " ;;;
  git cfg (GPush (rc_WorkDir repoContext) [RefSpecPushAllBranches; RefSpecPushAllTags])
    ?> "failed to push changes and tags into git: ".

Definition initBranch := "master".

Definition checkoutBranch (codebase : Codebase) (repoContext : GitRepositoryContext) : M S unit :=
  let sp := c_Spec codebase in
  let cfg := repo_config repoContext in
  let toCopy := cs_BranchToCopyInDefaultBranch sp in
  if negb (bool_decide (toCopy = "")) && negb (bool_decide (cs_DefaultBranch sp = toCopy)) then
    CheckoutBranch toCopy repoContext codebase
      ?> ("failed to checkout branch to copy " +:+ toCopy +:+ ": ") ;;;
    replaceDefaultBranch cfg (rc_WorkDir repoContext) (cs_DefaultBranch sp) toCopy
      ?> ("failed to replace default branch " +:+ cs_DefaultBranch sp +:+ " with " +:+ toCopy +:+ ": ")
  else
    CheckoutBranch (cs_DefaultBranch sp) repoContext codebase
      ?> ("failed to checkout default branch " +:+ cs_DefaultBranch sp +:+ ": ") ;;;
    when ((bool_decide (cs_Strategy sp = Create) || cs_EmptyProject sp)
          && negb (bool_decide (cs_DefaultBranch sp = initBranch)))
      (git cfg (GRemoveBranch (rc_WorkDir repoContext) initBranch)
        ?> ("failed to remove init branch " +:+ initBranch +:+ ": ")).

Definition tryToCloneRepo (repoUrl repositoryUsername repositoryPassword : string)
    (repoContext : GitRepositoryContext) : M S unit :=
  exists_ <- DoesDirectoryExist (path_join [rc_WorkDir repoContext; ".git"]) ;;
  if exists_ : bool then ret tt
  else git (token_config repositoryUsername repositoryPassword)
         (GClone repoUrl (rc_WorkDir repoContext)) ?> "failed to clone repository: ".

Definition squashCommits (workDir strategy : string) : M S unit :=
  if negb (bool_decide (strategy = Create)) then ret tt
  else
    sys_res (RemoveAll (path_join [workDir; ".git"])) ?> "failed to remove .git folder: " ;;;
    git no_auth (GInit workDir) ?> "failed to create git repository: " ;;;
    git no_auth (GCommit workDir "Initial commit" false) ?> "failed to commit all default content: ".

Definition emptyProjectProvisioning (repoContext : GitRepositoryContext) : M S unit :=
  let wd := rc_WorkDir repoContext in
  sys_res (RemoveAll (path_join [wd; ".git"])) ?> "failed to remove stale .git folder: " ;;;
  git no_auth (GInit wd) ?> "failed to create empty git repository: " ;;;
  git no_auth (GCommit wd "Initial commit" true) ?> "failed to create Initial commit: ".

Definition notEmptyProjectProvisioning (codebase : Codebase) (repoContext : GitRepositoryContext)
  : M S unit :=
  repoUrl <- of_res (wrap "failed to build repo url: " (GetRepoUrlForClone codebase)) ;;
  ' (repoUsername, repoPassword, _) <- GetRepositoryCredentialsIfExists codebase
    ?> "failed to get repository credentials for project provisioning: " ;;
  tryToCloneRepo repoUrl repoUsername repoPassword repoContext
    ?> "failed to clone template project: " ;;;
  squashCommits (rc_WorkDir repoContext) (cs_Strategy (c_Spec codebase))
    ?> "failed to squash commits in a template repo: ".
End Provider.

(** ** The steps that also write the codebase *)

Definition initialProjectProvisioning (repoContext : GitRepositoryContext) : M Codebase unit :=
  let wd := rc_WorkDir repoContext in
  orelse (CreateDirectory wd) (λ err, handleError err ("failed to create dir " +:+ go_quote wd)) ;;;
  codebase <- get ;;
  if cs_EmptyProject (c_Spec codebase) then emptyProjectProvisioning repoContext
  else notEmptyProjectProvisioning codebase repoContext.

Definition createProject (repoContext : GitRepositoryContext) : M Codebase unit :=
  codebase <- get ;;
  let gitServer := rc_GitServer repoContext in
  (if bool_decide (gs_GitProvider (g_Spec gitServer) = GitProviderGerrit) then
     createGerritProject gitServer (rc_PrivateSSHKey repoContext) (GetProjectID (c_Spec codebase))
       ?> ("failed to create project in Gerrit for codebase " +:+ name_of codebase +:+ ": ")
   else createGitThirdPartyProject gitServer (rc_Token repoContext) codebase) ;;;
  remoteBranchAbsent <- remoteDefaultBranchAbsent codebase repoContext ;;
  if negb remoteBranchAbsent then
    throw (ENew ("remote repository already contains default branch "
      +:+ cs_DefaultBranch (c_Spec codebase)
      +:+ " with history not pushed by this provisioning; refusing to overwrite it - remove the remote branch or onboard the repository with the import strategy"))
  else
    updateGitStatusWithPatch RepositoryProvisioning ProjectPushInProgressStatus ;;;
    codebase <- get ;;
    pushProject (GetProjectID (c_Spec codebase)) repoContext ;;;
    setDefaultBranch gitServer codebase (rc_Token repoContext) (rc_PrivateSSHKey repoContext).

Definition adoptPushedProject (repoContext : GitRepositoryContext) : M Codebase bool :=
  codebase <- get ;;
  if negb (bool_decide (cst_Git (c_Status codebase) = ProjectPushInProgressStatus)) then ret false
  else
    absent <- remoteDefaultBranchAbsent codebase repoContext ;;
    if absent : bool then ret false
    else
      setDefaultBranch (rc_GitServer repoContext) codebase (rc_Token repoContext)
        (rc_PrivateSSHKey repoContext) ;;;
      updateGitStatusWithPatch RepositoryProvisioning ProjectPushedStatus ;;;
      ret true.

Definition PutProject_ServeRequest : M Codebase unit :=
  codebase <- get ;;
  if PutProject_skip codebase then ret tt
  else
    setIntermediateSuccessFields RepositoryProvisioning
      ?> ("failed to update codebase " +:+ name_of codebase +:+ " status: ") ;;;
    codebase <- get ;;
    repoContext <- orelse (GetGitRepositoryContext codebase)
      (λ err, handleError err "failed to get git repository context") ;;
    adopted <- orelse (adoptPushedProject repoContext)
      (λ err, handleError err "failed to adopt already pushed project") ;;
    if adopted : bool then ret tt
    else
      orelse (initialProjectProvisioning repoContext) (λ err,
        c <- get ;;
        handleError err ("failed to perform initial provisioning of codebase " +:+ name_of c)) ;;;
      codebase <- get ;;
      orelse (checkoutBranch codebase repoContext)
        (λ err, handleError err "failed to checkout branch") ;;;
      orelse (createProject repoContext) (λ err, handleError err "failed to create project") ;;;
      updateGitStatusWithPatch RepositoryProvisioning ProjectPushedStatus.
