(* ===== verification/CodebaseChain.v ===== *)
(** * CodebaseChain: the other handlers of the codebase chain

    [src/controllers/codebase/service/chain]: put_gitwebrepourl.go, put_webhook.go,
    put_gitlab_ci_config.go, put_deploy_configs.go, put_default_codebasebranch.go,
    cleaner.go, delete_webhook.go and the two chains of factory.go. *)

From S2P Require Import Prelude Api Effects Urls Host Templates CodebaseCommon PutProject.

(** [processCodebaseError] of the handlers: fail the codebase, return the error unwrapped. *)
Definition processCodebaseError {A} (action : string) (err : error) : M Codebase A :=
  fail_codebase action (err_msg err) ;;; throw err.

(** ** put_gitwebrepourl.go *)

Definition gerritQuickLinkName := "gerrit".

Definition getGitWebURL {S} (gitServer : GitServer) (codebase : Codebase) : M S string :=
  let p := gs_GitProvider (g_Spec gitServer) in
  let projectID := GetProjectID (c_Spec codebase) in
  if contains [GitProviderGitlab; GitProviderGithub; GitProviderBitbucket] p then
    let urlLink := trim_suffix "/" (GetHostWithProtocol (gs_GitHost (g_Spec gitServer))) in
    ret (urlLink +:+ "/" +:+ projectID)
  else if bool_decide (p = GitProviderGerrit) then
    link <- k_get KQuickLink (namespace_of gitServer) gerritQuickLinkName
      ?> ("failed to get QuickLink " +:+ gerritQuickLinkName +:+ ": ") ;;
    ret (trim_suffix "/" (qs_Url (ql_Spec link)) +:+ "/gitweb?p=" +:+ projectID +:+ ".git")
  else throw (ENew ("unsupported Git provider " +:+ p)).

Definition set_GitWebUrl (u : string) (s : CodebaseStatus) : CodebaseStatus :=
  {| cst_Available := cst_Available s; cst_LastTimeUpdated := cst_LastTimeUpdated s;
     cst_Status := cst_Status s; cst_Username := cst_Username s; cst_Action := cst_Action s;
     cst_Result := cst_Result s; cst_DetailedMessage := cst_DetailedMessage s;
     cst_Value := cst_Value s; cst_FailureCount := cst_FailureCount s; cst_Git := cst_Git s;
     cst_WebHookID := cst_WebHookID s; cst_WebHookRef := cst_WebHookRef s; cst_GitWebUrl := u |}.

Definition PutGitWebRepoUrl_ServeRequest : M Codebase unit :=
  codebase <- get ;;
  gitServer <- orelse (k_get KGitServer (namespace_of codebase) (cs_GitServer (c_Spec codebase)))
    (λ err, processCodebaseError PutGitWebRepoUrl
      (EWrap ("failed to get git server " +:+ cs_GitServer (c_Spec codebase) +:+ ": ") err)) ;;
  gitWebURL <- orelse (getGitWebURL gitServer codebase) (processCodebaseError PutGitWebRepoUrl) ;;
  modify (λ c, c_with_status (set_GitWebUrl gitWebURL (c_Status c)) c) ;;;
  setIntermediateSuccessFields PutGitWebRepoUrl
    ?> ("failed to update codebase " +:+ name_of codebase +:+ " status: ").

(** ** put_webhook.go *)

Definition webhookTokenLength : Z := 20.

Definition set_SecretData (k v : string) (s : Secret) : Secret :=
  {| sec_Meta := sec_Meta s; sec_Data := <[k := v]> (sec_Data s) |}.

Section WebhookTarget.
Context {S : Type}.

Definition PutWebHook_getGitServerSecret (secretName namespace : string) : M S Secret :=
  secret <- k_get KSecret namespace secretName ?> ("failed to get " +:+ secretName +:+ " secret: ") ;;
  match sec_Data secret !! GitServerSecretTokenField with
  | None => throw (ENew ("failed to get " +:+ GitServerSecretTokenField +:+ " field from "
                         +:+ secretName +:+ " secret"))
  | Some _ =>
    if bool_decide (String.length (map_get (sec_Data secret) GitServerSecretWebhookSecretField) = 0)
    then
      token <- GenerateRandomString webhookTokenLength ?> "failed to generate webhook secret: " ;;
      k_update KSecret (set_SecretData GitServerSecretWebhookSecretField token secret)
        ?> ("failed to update " +:+ secretName +:+ " secret: ")
    else ret secret
  end.

Definition GenerateIngressName (gitServerName : string) : string :=
  "event-listener-" +:+ gitServerName.

Definition getWebhookIngressUrl (gitServerName namespace : string) : M S string :=
  ingress <- k_get KIngress namespace (GenerateIngressName gitServerName)
    ?> "failed to get webhook ingress: " ;;
  match ing_Rules ingress with
  | [] => throw (ENew ("ingress " +:+ om_Name (ing_Meta ingress) +:+ " doesn't have rules"))
  | rule :: _ => ret (GetHostWithProtocol (ir_Host rule))
  end.

Definition getWebhookHTTPRouteUrl (gitServerName namespace : string) : M S string :=
  route <- k_get KHTTPRoute namespace (GenerateIngressName gitServerName)
    ?> "failed to get webhook HTTPRoute: " ;;
  match hr_Hostnames route with
  | [] => throw (ENew ("HTTPRoute " +:+ om_Name (hr_Meta route) +:+ " doesn't have hostnames"))
  | host :: _ => ret (GetHostWithProtocol host)
  end.

(** [route.Status.Ingress[0]] panics while the route is not admitted. *)
Definition getWebhookRouteUrl (gitServerName namespace : string) : M S string :=
  route <- k_get KRoute namespace (GenerateIngressName gitServerName)
    ?> "failed to get webhook route: " ;;
  match rt_IngressHosts route with
  | [] => panic "index out of range: route.Status.Ingress[0]"
  | host :: _ => ret (GetHostWithProtocol host)
  end.

Definition getWebHookUrl (gitServer : GitServer) : M S string :=
  if negb (bool_decide (gs_WebhookUrl (g_Spec gitServer) = "")) then
    ret (gs_WebhookUrl (g_Spec gitServer))
  else
    k8s <- IsK8S ;;
    if negb k8s then getWebhookRouteUrl (name_of gitServer) (namespace_of gitServer)
    else
      envoy <- IsEnvoy ;;
      if envoy : bool then getWebhookHTTPRouteUrl (name_of gitServer) (namespace_of gitServer)
      else getWebhookIngressUrl (name_of gitServer) (namespace_of gitServer).
End WebhookTarget.

Definition set_WebHookRef (r : string) (s : CodebaseStatus) : CodebaseStatus :=
  {| cst_Available := cst_Available s; cst_LastTimeUpdated := cst_LastTimeUpdated s;
     cst_Status := cst_Status s; cst_Username := cst_Username s; cst_Action := cst_Action s;
     cst_Result := cst_Result s; cst_DetailedMessage := cst_DetailedMessage s;
     cst_Value := cst_Value s; cst_FailureCount := cst_FailureCount s; cst_Git := cst_Git s;
     cst_WebHookID := cst_WebHookID s; cst_WebHookRef := r; cst_GitWebUrl := cst_GitWebUrl s |}.

(** The part after the provider is built: [None] means the webhook is already there. *)
Definition put_webhook_ref (gitServer : GitServer) (secret : Secret) (gitProvider : string)
    (codebase : Codebase) : M Codebase (option WebHook) :=
  let token := map_get (sec_Data secret) GitServerSecretTokenField in
  let projectID := GetProjectID (c_Spec codebase) in
  let gitHost := GetGitProviderAPIURL gitServer in
  let ref := GetWebHookRef (c_Status codebase) in
  there <- (if negb (bool_decide (ref = "")) then
      r <- attempt (do_res (CProvider (PGetWebHook gitProvider gitHost token projectID ref))) ;;
      match r with
      | inl _ => ret true
      | inr err =>
        if err_is ErrWebHookNotFound err then ret false
        else processCodebaseError PutWebHook (EWrap "failed to get webhook: " err)
      end
    else ret false) ;;
  if there : bool then ret None
  else
    webHookURL <- orelse (getWebHookUrl gitServer) (processCodebaseError PutWebHook) ;;
    webHook <- orelse (do_res (CProvider (PCreateWebHookIfNotExists gitProvider gitHost token projectID
        (map_get (sec_Data secret) GitServerSecretWebhookSecretField) webHookURL
        (gs_SkipWebhookSSLVerification (g_Spec gitServer)))))
      (λ err, processCodebaseError PutWebHook (EWrap "failed to create web hook: " err)) ;;
    ret (Some webHook).

Definition PutWebHook_ServeRequest : M Codebase unit :=
  codebase <- get ;;
  if negb (bool_decide (cs_CiTool (c_Spec codebase) = CITekton)) then ret tt
  else
    gitServer <- orelse (k_get KGitServer (namespace_of codebase) (cs_GitServer (c_Spec codebase)))
      (λ err, processCodebaseError PutWebHook
        (EWrap ("failed to get git server " +:+ cs_GitServer (c_Spec codebase) +:+ ": ") err)) ;;
    if negb (contains [GitProviderGitlab; GitProviderGithub; GitProviderBitbucket]
               (gs_GitProvider (g_Spec gitServer))) then ret tt
    else
      secret <- orelse (PutWebHook_getGitServerSecret (gs_NameSshKeySecret (g_Spec gitServer))
          (namespace_of gitServer))
        (processCodebaseError PutWebHook) ;;
      gitProvider <- orelse (NewProvider gitServer
          (map_get (sec_Data secret) GitServerSecretTokenField))
        (λ err, processCodebaseError PutWebHook (EWrap "failed to create git provider: " err)) ;;
      created <- put_webhook_ref gitServer secret gitProvider codebase ;;
      match created with
      | None => ret tt
      | Some webHook =>
        modify (λ c, c_with_status (set_WebHookRef (wh_ID webHook) (c_Status c)) c) ;;;
        setIntermediateSuccessFields PutWebHook
          ?> ("failed to update codebase " +:+ name_of codebase +:+ " status: ")
      end.

(** ** put_gitlab_ci_config.go *)

Definition gitlabCIAlreadyExists {S} (codebase : Codebase) : M S bool :=
  wd <- GetWorkDir (name_of codebase) (namespace_of codebase) ;;
  st <- sys (Stat (path_join [wd; GitLabCIFileName])) ;;
  ret (match st with StatOk => true | _ => false end).

Definition tryToPushGitLabCIConfig : M Codebase unit :=
  codebase <- get ;;
  gitCtx <- orelse (PrepareGitRepository codebase) (λ err,
    fail_codebase RepositoryProvisioning (err_msg err) ;;;
    throw (EWrap "failed to prepare git repository: " err)) ;;
  let cfg := repo_config gitCtx in
  let wd := rc_WorkDir gitCtx in
  codebase <- get ;;
  InjectGitLabCIConfig codebase wd ?> "failed to inject GitLab CI config: " ;;;
  git cfg (GCommit wd "Add GitLab CI configuration" false) ?> "failed to commit changes: " ;;;
  git cfg (GPush wd [RefSpecPushAllBranches]) ?> "failed to push changes: ".

Definition PutGitLabCIConfig_ServeRequest : M Codebase unit :=
  codebase <- get ;;
  if negb (bool_decide (cs_CiTool (c_Spec codebase) = CIGitLab)) then ret tt
  else if bool_decide (cst_Git (c_Status codebase) = ProjectGitLabCIPushedStatus)
       || bool_decide (cst_Git (c_Status codebase) = ProjectTemplatesPushedStatus) then ret tt
  else
    already <- gitlabCIAlreadyExists codebase ;;
    if already : bool then ret tt
    else
      orelse tryToPushGitLabCIConfig (λ err,
        fail_codebase RepositoryProvisioning (err_msg err) ;;;
        throw (EWrap ("failed to push GitLab CI config for " +:+ name_of codebase +:+ " codebase: ")
                 err)) ;;;
      updateGitStatusWithPatch RepositoryProvisioning ProjectGitLabCIPushedStatus.

(** ** put_deploy_configs.go *)

Definition addCommitHooks {S} (wd : string) : M S unit :=
  let destinationPath := wd +:+ "/.git/hooks" in
  CreateDirectory destinationPath ?> ("failed to create folder " +:+ destinationPath +:+ ": ") ;;;
  assetsDir <- GetAssetsDir ?> "failed to get assets dir: " ;;
  let fileName := "commit-msg" in
  CopyFile (assetsDir +:+ "/configs/" +:+ fileName) (destinationPath +:+ "/" +:+ fileName)
    ?> ("failed to copy file " +:+ fileName +:+ ": ").

Definition tryToPushConfigs : M Codebase unit :=
  codebase <- get ;;
  if bool_decide (cst_Git (c_Status codebase) = ProjectTemplatesPushedStatus) then ret tt
  else
    gitCtx <- orelse (PrepareGitRepository codebase) (λ err,
      fail_codebase SetupDeploymentTemplates (err_msg err) ;;;
      throw (EWrap "failed to prepare git repository: " err)) ;;
    let cfg := repo_config gitCtx in
    let wd := rc_WorkDir gitCtx in
    when (bool_decide (gs_GitProvider (g_Spec (rc_GitServer gitCtx)) = GitProviderGerrit))
      (addCommitHooks wd ?> "failed to add commit hooks: ") ;;;
    codebase <- get ;;
    PrepareTemplates codebase wd ?> "failed to prepare template: " ;;;
    git cfg (GCommit wd ("Add deployment templates for " +:+ name_of codebase) false)
      ?> "failed to commit changes: " ;;;
    git cfg (GPush wd [RefSpecPushAllBranches]) ?> "failed to push changes: " ;;;
    updateGitStatusWithPatch SetupDeploymentTemplates ProjectTemplatesPushedStatus.

Definition PutDeployConfigs_ServeRequest : M Codebase unit :=
  c <- get ;;
  if cs_DisablePutDeployTemplates (c_Spec c) then ret tt
  else if negb (bool_decide (cs_Type (c_Spec c) = Application)) then ret tt
  else
    orelse tryToPushConfigs (λ err,
      fail_codebase SetupDeploymentTemplates (err_msg err) ;;;
      throw (EWrap ("failed to push deploy configs for " +:+ name_of c +:+ " codebase: ") err)).

(** ** put_default_codebasebranch.go *)

Definition default_branch_name (codebase : Codebase) : string :=
  name_of codebase +:+ "-" +:+ processNameToKubernetesConvention (cs_DefaultBranch (c_Spec codebase)).

Definition new_default_branch (codebase : Codebase) : CodebaseBranch :=
  {| b_Meta := new_meta (default_branch_name codebase) "" (namespace_of codebase);
     b_Spec := {| bs_CodebaseName := name_of codebase;
                  bs_BranchName := cs_DefaultBranch (c_Spec codebase);
                  bs_FromCommit := "";
                  bs_Version :=
                    if bool_decide (v_Type (cs_Versioning (c_Spec codebase)) = VersioningTypDefault)
                    then None else v_StartFrom (cs_Versioning (c_Spec codebase));
                  bs_Release := false; bs_Pipelines := ∅ |};
     b_Status := zero_branch_status |}.

Definition PutDefaultCodeBaseBranch_ServeRequest : M Codebase unit :=
  codebase <- get ;;
  r <- attempt (k_get KCodebaseBranch (namespace_of codebase) (default_branch_name codebase)) ;;
  match r with
  | inl _ => ret tt
  | inr err =>
    if negb (IsNotFound err) then throw (EWrap "failed to get codebase branch: " err)
    else k_create KCodebaseBranch (new_default_branch codebase)
           ?> "failed to create codebase branch: " ;;; ret tt
  end.

(** ** cleaner.go *)

Definition deleteSecret {S} (codebase : Codebase) : M S unit :=
  let keep := match cs_CloneRepositoryCredentials (c_Spec codebase) with
    | Some crc => negb (crc_ClearSecretAfterUse crc) | None => false end in
  if keep then ret tt
  else
    orelse (k_delete KSecret (namespace_of codebase) (GetCloneRepositoryCredentialSecret codebase))
      (λ err, if IsNotFound err then ret tt
        else throw (EWrap "failed to delete secret with repository credentials for clone: " err)).

Definition deleteWorkDirectory {S} (dir : string) : M S unit :=
  RemoveDirectory dir ?> ("failed to delete directory " +:+ dir +:+ ": ").

(** [if err := m; err != nil { errs = append(errs, err) }] *)
Definition collect {S} (errs : list error) (m : M S unit) : M S (list error) :=
  r <- attempt m ;; ret (match r with inl _ => errs | inr e => errs ++ [e] end).

(** [errors.Join]: nil when there is nothing to join. *)
Definition join_errors {S} (errs : list error) : M S unit :=
  match errs with [] => ret tt | _ => throw (EJoin errs) end.

Definition clean {S} (codebase : Codebase) : M S unit :=
  errs <- collect [] (deleteSecret codebase) ;;
  wd <- GetWorkDir (name_of codebase) (namespace_of codebase) ;;
  errs <- collect errs (deleteWorkDirectory wd) ;;
  join_errors errs.

Definition Cleaner_ServeRequest : M Codebase unit :=
  codebase <- get ;;
  orelse (clean codebase) (λ err, fail_codebase CleanData (err_msg err) ;;; throw err).

(** ** delete_webhook.go: every failure is logged and swallowed *)

Definition DeleteWebHook_getGitServerSecret {S} (secretName namespace : string) : M S Secret :=
  secret <- k_get KSecret namespace secretName ?> ("failed to get " +:+ secretName +:+ " secret: ") ;;
  match sec_Data secret !! GitServerSecretTokenField with
  | None => throw (ENew ("failed to get field " +:+ GitServerSecretTokenField +:+ " from "
                         +:+ secretName +:+ " secret"))
  | Some _ => ret secret
  end.

Definition delete_webhook {S} (codebase : Codebase) : M S unit :=
  gitServer <- k_get KGitServer (namespace_of codebase) (cs_GitServer (c_Spec codebase)) ;;
  secret <- DeleteWebHook_getGitServerSecret (gs_NameSshKeySecret (g_Spec gitServer))
    (namespace_of codebase) ;;
  let token := map_get (sec_Data secret) GitServerSecretTokenField in
  gitProvider <- NewProvider gitServer token ;;
  do_res (CProvider (PDeleteWebHook gitProvider (GetGitProviderAPIURL gitServer) token
    (GetProjectID (c_Spec codebase)) (GetWebHookRef (c_Status codebase)))).

Definition DeleteWebHook_ServeRequest : M Codebase unit :=
  codebase <- get ;;
  if negb (bool_decide (cs_CiTool (c_Spec codebase) = CITekton)) then ret tt
  else if bool_decide (GetWebHookRef (c_Status codebase) = "") then ret tt
  else orelse (delete_webhook codebase) (λ _, ret tt).

(** ** factory.go *)

Definition MakeChain : list (M Codebase unit) :=
  [ PutGitWebRepoUrl_ServeRequest; PutProject_ServeRequest; PutWebHook_ServeRequest;
    PutGitLabCIConfig_ServeRequest; PutDeployConfigs_ServeRequest;
    PutDefaultCodeBaseBranch_ServeRequest; Cleaner_ServeRequest ].

Definition MakeDeletionChain : list (M Codebase unit) :=
  [ DeleteWebHook_ServeRequest; Cleaner_ServeRequest ].
