(* ===== verification/Simulation.v ===== *)
(** * Simulation: a small world to run the handlers in

    An environment in the sense of [Effects]: a cluster with one codebase, its git
    server and a secret, an empty host, and a git server that remembers whether the
    default branch was pushed. The witnesses of the theorems and the concrete cases
    are evaluated in it. *)

From S2P Require Import Prelude Api Effects Externals Urls.

Record sim_state := {
  s_codebase : Codebase; s_gitserver : GitServer; s_secret : Secret;
  s_pushed : bool }.

Definition sim_get (w : sim_state) {O} (k : kind O) : res O :=
  match k in kind O return res O with
  | KCodebase => Ok (s_codebase w)
  | KGitServer => Ok (s_gitserver w)
  | KSecret => Ok (s_secret w)
  | _ => Err (EExt NotFound "not found")
  end.

(** The object a write leaves in the cluster. *)
Definition sim_put {O} (k : kind O) : O → sim_state → sim_state :=
  match k in kind O return O → sim_state → sim_state with
  | KCodebase => λ o w, {| s_codebase := o; s_gitserver := s_gitserver w; s_secret := s_secret w;
                           s_pushed := s_pushed w |}
  | _ => λ _ w, w
  end.

Definition sim_kube {R} (c : kube_call R) (w : sim_state) : R * sim_state :=
  match c in kube_call R return R * sim_state with
  | KGet k _ => (sim_get w k, w)
  | KList _ _ _ => (Ok [], w)
  | KCreate k o => (Ok o, w)
  | KUpdate k o => (Ok o, sim_put k o w)
  | KPatch k _ o => (Ok o, sim_put k o w)
  | KStatusUpdate k o => (Ok o, sim_put k o w)
  | KStatusPatch k _ o => (Ok o, sim_put k o w)
  | KDelete _ _ => (Ok tt, w)
  end.

Definition sim_push (w : sim_state) : sim_state :=
  {| s_codebase := s_codebase w; s_gitserver := s_gitserver w; s_secret := s_secret w;
     s_pushed := true |}.

Definition sim_git {R} (c : git_call R) (w : sim_state) : R * sim_state :=
  match c in git_call R return R * sim_state with
  | GGetCurrentBranchName _ => (Ok "main", w)
  | GListRemoteBranches _ => (Ok (if s_pushed w then ["main"] else []), w)
  | GResolveRemoteReference _ _ =>
    (if s_pushed w then Ok "0123" else Err (EWrap "resolve: " (ESentinel ErrReferenceNotFound)), w)
  | GPush _ _ => (Ok tt, sim_push w)
  | GClone _ _ => (Ok tt, w)
  | GCommit _ _ _ => (Ok tt, w)
  | GCheckout _ _ _ => (Ok tt, w)
  | GCheckPermissions _ => (Ok tt, w)
  | GCreateRemoteBranchViaRefUpdate _ _ _ => (Ok tt, w)
  | GRemoveBranch _ _ => (Ok tt, w)
  | GCreateChildBranch _ _ _ => (Ok tt, w)
  | GInit _ => (Ok tt, w)
  | GAddRemoteLink _ _ => (Ok tt, w)
  | GCheckoutRemoteBranch _ _ => (Ok tt, w)
  end.

Definition sim_provider {R} (c : provider_call R) : R :=
  match c in provider_call R return R with
  | PNewBitbucketClient _ => Ok tt
  | PProjectExists _ _ _ _ => Ok false
  | PCreateProject _ _ _ _ _ => Ok tt
  | PSetDefaultBranch _ _ _ _ _ => Ok tt
  | PGetWebHook _ _ _ _ ref => Ok {| wh_ID := ref; wh_URL := "" |}
  | PCreateWebHookIfNotExists _ _ _ _ _ url _ => Ok {| wh_ID := "7"; wh_URL := url |}
  | PDeleteWebHook _ _ _ _ _ => Ok tt
  end.

Definition sim_gerrit {R} (c : gerrit_call R) : R :=
  match c in gerrit_call R return R with
  | GrCheckProjectExist _ _ _ _ _ => Ok false
  | GrCreateProject _ _ _ _ _ => Ok tt
  | GrSetHeadToBranch _ _ _ _ _ _ => Ok tt
  end.

Definition sim_sys {R} (c : sys_call R) : R :=
  match c in sys_call R return R with
  | Stat _ => StatNotExist
  | ReadDir _ => Ok []
  | MkdirAll _ => Ok tt
  | RemoveAll _ => Ok tt
  | CreateFile _ => Ok tt
  | ReadFile _ => Ok ""
  | WriteFile _ _ => Ok tt
  | ParseFiles _ _ => Ok tt
  | ExecuteTemplate _ _ _ => Ok tt
  | LookupEnv _ => Some "/tmp"
  | Now => 1000%Z
  | RandRead _ => Ok "random"
  | RangeMap keys => keys
  | ParsePrivateKey _ => Ok tt
  | SSHClientConfig _ _ => Ok tt
  | SSHNewSession _ _ _ _ => Ok tt
  | Eventf _ _ _ => tt
  | Manager _ => Ok tt
  end.

(** A Jira server with one project whose issue type has no values yet, and a reachable web. *)
Definition sim_jira {R} (c : jira_call R) : R :=
  match c in jira_call R return R with
  | JNewClient => Ok tt
  | JGetSelf => Ok true
  | JGetIssue _ => {| ia_StatusCode := Some 200%Z;
      ia_Issue := Ok (Some {| if_ProjectID := "10001"; if_TypeID := "3"; if_TypeName := "Task" |}) |}
  | JCreateVersion _ _ => Ok tt
  | JGetProject _ => Ok "PRJ"
  | JCreateComponent _ _ _ => Ok tt
  | JUpdateIssue _ _ => Ok tt
  | JNewRequest _ _ _ => Ok tt
  | JDo _ _ _ => Ok tt
  | JDoMeta _ _ => Ok [{| itm_FieldID := "fixVersions"; itm_AllowedValues := [] |}]
  end.

(** A remote that is empty until something is pushed: then it has a branch and an annotated
    tag; and services without webhooks. *)
Definition sim_commit : string := "1669dce138d9b841a518c64b10914d88f5e488ea".
Definition sim_tag : string := "a2b9ee53fc8f2b8cb1cb1d6d6ab0a1a8c8a8e9cd".
Definition sim_adv (s : service) : AdvRefs :=
  {| ar_Head := match s with UploadPack => Some sim_commit | ReceivePack => None end;
     ar_References := list_to_map [("refs/heads/main", sim_commit); ("refs/tags/v1", sim_tag)];
     ar_Peeled := match s with
                  | UploadPack => list_to_map [("refs/tags/v1", sim_commit)]
                  | ReceivePack => ∅
                  end;
     ar_Capabilities := ["report-status"] |}.

Definition sim_gogit {R} (c : gogit_call R) (w : sim_state) : R * sim_state :=
  match c in gogit_call R return R * sim_state with
  | GgPlainClone _ _ _ _ => (Ok tt, w)
  | GgPlainOpen _ => (Ok tt, w)
  | GgPlainInit _ _ => (Ok tt, w)
  | GgFetch _ _ => (Ok tt, w)
  | GgPush _ _ => (Ok tt, sim_push w)
  | GgReference _ _ => (Ok tt, w)
  | GgHead _ => (Ok "refs/heads/main", w)
  | GgRemote _ _ => (Ok ["https://git.example.com/team/app"], w)
  | GgDeleteRemote _ _ => (Err (ESentinel ErrRemoteNotFound), w)
  | GgCreateRemote _ _ _ => (Ok tt, w)
  | GgRemoveReference _ _ => (Ok tt, w)
  | GgWorktree _ => (Ok tt, w)
  | GgAddAll _ => (Ok tt, w)
  | GgStatus _ => (Ok false, w)
  | GgCommit _ _ _ => (Ok tt, w)
  | GgCheckout _ _ => (Ok tt, w)
  | GgMemoryRemote _ _ => (Ok tt, w)
  | GgList _ _ => (Ok ["HEAD"; "refs/heads/main"; "refs/tags/v1"], w)
  | GgNewClient _ => (Ok tt, w)
  | GgNewSession _ _ _ => (Ok tt, w)
  | GgAdvertisedReferences s _ =>
    (if s_pushed w then Ok (sim_adv s) else Err (ESentinel ErrEmptyRemoteRepository), w)
  | GgReceivePack _ _ => (Ok (Some None), w)
  | GgClose _ _ => (Ok tt, w)
  end.

Definition sim_rest {T} (t : rest_result T) : RestResponse T :=
  {| ra_StatusCode := 200; ra_Status := "200 OK"; ra_IsError := false; ra_String := "";
     ra_Result := match t in rest_result T return T with
       | RNone => tt
       | RGitHubWebHook => {| ghw_ID := 7; ghw_URL := "https://el.example.com" |}
       | RGitHubWebHooks => []
       | RGitHubOrganizations => ["Team"]
       | RGitlabWebHook => {| glw_ID := 7; glw_URL := "https://el.example.com" |}
       | RGitlabWebHooks => []
       | RGitlabNamespace => 42%Z
       end |}.

Definition sim_bitbucket {R} (c : bitbucket_call R) : R :=
  let ok {T} code status (o : option T) :=
    Ok {| br_StatusCode := code; br_Status := status; br_Body := ""; br_JSON := o |} in
  let hook := {| bh_Uuid := Some "{7}"; bh_Url := Some "https://el.example.com" |} in
  match c in bitbucket_call R return R with
  | BPostHook _ _ _ _ => ok 201%Z "201 Created" (Some hook)
  | BGetHook _ _ _ _ => ok 200%Z "200 OK" (Some hook)
  | BGetHooks _ _ _ => ok 200%Z "200 OK" (Some (Some []))
  | BDeleteHook _ _ _ _ => ok 204%Z "204 No Content" None
  | BPostRepository _ _ _ _ _ => ok 200%Z "200 OK" None
  | BGetRepositories _ _ _ => ok 200%Z "200 OK" (Some (Some []))
  | BNewUUID => "a5f1c2f0-0000-11ee-8000-000000000000"
  end.

Definition sim_ssh {R} (c : ssh_call R) : R :=
  match c in ssh_call R return R with
  | SshKnownHosts => Ok tt
  | SshDial _ _ _ => Ok tt
  | SshSession _ => Ok tt
  | SshOutput _ _ => Ok "{}"
  | SshCloseSession _ => Ok tt
  | SshCloseConnection _ => Ok tt
  end.

Definition sim : environment sim_state := λ R c w,
  match c in call R return R * sim_state with
  | CKube kc => sim_kube kc w
  | CGit _ gc => sim_git gc w
  | CProvider pc => (sim_provider pc, w)
  | CGerrit gc => (sim_gerrit gc, w)
  | CSys sc => (sim_sys sc, w)
  | CJira _ jc => (sim_jira jc, w)
  | CHttp _ => (Ok {| rs_IsSuccess := true; rs_Status := "200 OK" |}, w)
  | CGoGit gc => sim_gogit gc w
  | CRest t _ => (Ok (sim_rest t), w)
  | CBitbucket bc => (sim_bitbucket bc, w)
  | CSsh sc => (sim_ssh sc, w)
  end.

(** ** A codebase to provision *)

Definition sim_spec : CodebaseSpec :=
  {| cs_Lang := "go"; cs_Description := None; cs_Framework := "gin"; cs_BuildTool := "go";
     cs_Strategy := Create; cs_Repository := None; cs_TestReportFramework := None;
     cs_Type := Application; cs_GitServer := "gitlab"; cs_GitUrlPath := "/team/app";
     cs_DeploymentScript := "helm-chart";
     cs_Versioning := {| v_Type := VersioningTypDefault; v_StartFrom := None |};
     cs_JiraServer := None; cs_CommitMessagePattern := None; cs_TicketNamePattern := None;
     cs_CiTool := CITekton; cs_DefaultBranch := "main"; cs_JiraIssueMetadataPayload := None;
     cs_EmptyProject := false; cs_BranchToCopyInDefaultBranch := "";
     cs_DisablePutDeployTemplates := true; cs_Private := true;
     cs_CloneRepositoryCredentials := None |}.

Definition sim_app : Codebase :=
  {| c_Meta := new_meta "app" "" "ns"; c_Spec := sim_spec; c_Status := zero_codebase_status |}.

Definition sim_gitlab : GitServer :=
  {| g_Meta := new_meta "gitlab" "" "ns";
     g_Spec := {| gs_GitHost := "gitlab.com"; gs_GitUser := "git"; gs_HttpsPort := 0; gs_SshPort := 22;
                  gs_NameSshKeySecret := "gitlab-sshkey"; gs_GitProvider := GitProviderGitlab;
                  gs_SkipWebhookSSLVerification := false; gs_WebhookUrl := "https://el.example.com";
                  gs_TektonDisabled := false |};
     g_Status := {| gst_Error := ""; gst_Connected := true; gst_Status := "" |} |}.

Definition sim_sshkey : Secret :=
  {| sec_Meta := new_meta "gitlab-sshkey" "" "ns";
     sec_Data := list_to_map [("id_rsa", "key"); ("token", "t0ken"); ("secretString", "s");
                              ("username", "u"); ("password", "p")] |}.

Definition sim_start : sim_state :=
  {| s_codebase := sim_app; s_gitserver := sim_gitlab; s_secret := sim_sshkey;
     s_pushed := false |}.
