(* ===== verification/CodebaseController.v ===== *)
(** * CodebaseController: one reconciliation of a Codebase

    [src/controllers/codebase/codebase_controller.go]. The state is the local variable
    [codebase] of [Reconcile]. *)

From S2P Require Import Prelude Api Effects Externals Urls PathHash Host CodebaseCommon PutProject CodebaseChain Simulation.

Definition codebaseOperatorFinalizerName := "codebase.operator.finalizer.name".
Definition codebaseTypeLabelName := "app.edp.epam.com/codebaseType".

(** [reconcile.Result], in nanoseconds. *)
Record Result := { RequeueAfter : Z }.
Definition no_result : Result := {| RequeueAfter := 0 |}.

(** [request.NamespacedName] printed with %q *)
Definition quote_key (key : ObjectKey) : string :=
  go_quote (key_Namespace key +:+ "/" +:+ key_Name key).

(** ** Labels *)

(** The labels [initLabels] wants, and whether they differ from the present ones. *)
Definition wanted_labels (c : Codebase) : gmap string string * bool :=
  let labels := om_Labels (c_Meta c) in
  let '(labels, changed) :=
    match labels !! codebaseTypeLabelName with
    | Some _ => (labels, false)
    | None => (<[codebaseTypeLabelName := cs_Type (c_Spec c)]> labels, true)
    end in
  let hash := Hash (cs_GitUrlPath (c_Spec c)) in
  if bool_decide (map_get labels GitUrlPathHashLabel = hash) then (labels, changed)
  else (<[GitUrlPathHashLabel := hash]> labels, true).

Definition initLabels : M Codebase unit :=
  originalCodeBase <- get ;;
  let '(labels, changed) := wanted_labels originalCodeBase in
  if negb changed then ret tt
  else
    put (with_labels labels originalCodeBase) ;;;
    patch_self KCodebase originalCodeBase
      ?> ("failed to patch 'Codebase' resource " +:+ go_quote (name_of originalCodeBase) +:+ ": ").

(** ** Finalizers *)

Section Controller.
Context {X : Externals}.

Definition setFinalizers : M Codebase unit :=
  c <- get ;;
  if is_deleting c then ret tt
  else
    let '(added1, m) := AddFinalizer codebaseOperatorFinalizerName (obj_meta c) in
    let '(added2, m) := AddFinalizer ForegroundDeletionFinalizerName m in
    put (obj_set_meta c m) ;;;
    when (added1 || added2)
      (update_self KCodebase
        ?> ("failed to update 'Codebase' resource " +:+ go_quote (name_of c) +:+ ": ")).

Definition removeDirectoryIfExists (codebase : Codebase) : M Codebase unit :=
  wd <- GetWorkDir (name_of codebase) (namespace_of codebase) ;;
  RemoveDirectory wd ?> ("failed to remove directory " +:+ wd +:+ ": ").

Definition tryToDeleteCodebase : M Codebase (option Result) :=
  codebase <- get ;;
  if negb (is_deleting codebase) then ret None
  else
    removeDirectoryIfExists codebase ;;;
    chain_ServeRequest MakeDeletionChain ?> "failed to make deletion chain: " ;;;
    modify (λ c, obj_set_meta c (RemoveFinalizer codebaseOperatorFinalizerName (obj_meta c))) ;;;
    update_self KCodebase
      ?> ("failed to update 'Codebase' resource " +:+ go_quote (name_of codebase) +:+ ": ") ;;;
    ret (Some no_result).

(** ** Status *)

Definition finish_status (s : CodebaseStatus) (now : Z) : CodebaseStatus :=
  {| cst_Status := StatusFinished; cst_Available := true; cst_LastTimeUpdated := now;
     cst_Username := "system"; cst_Action := SetupDeploymentTemplates; cst_Result := Success;
     cst_Value := "active"; cst_FailureCount := 0; cst_Git := cst_Git s;
     cst_WebHookID := cst_WebHookID s; cst_WebHookRef := compat_webHookRef s;
     cst_GitWebUrl := cst_GitWebUrl s; cst_DetailedMessage := "" |}.

Definition updateFinishStatus : M Codebase unit :=
  t <- now ;;
  modify (λ c, c_with_status (finish_status (c_Status c) t) c) ;;;
  status_update_self KCodebase ?> "failed to update Codebase status: ".

Definition incr_FailureCount (s : CodebaseStatus) : CodebaseStatus :=
  {| cst_Available := cst_Available s; cst_LastTimeUpdated := cst_LastTimeUpdated s;
     cst_Status := cst_Status s; cst_Username := cst_Username s; cst_Action := cst_Action s;
     cst_Result := cst_Result s; cst_DetailedMessage := cst_DetailedMessage s;
     cst_Value := cst_Value s; cst_FailureCount := int64 (cst_FailureCount s + 1);
     cst_Git := cst_Git s; cst_WebHookID := cst_WebHookID s; cst_WebHookRef := cst_WebHookRef s;
     cst_GitWebUrl := cst_GitWebUrl s |}.

(** A failed status update is only logged. *)
Definition setFailureCount : M Codebase Z :=
  codebase <- get ;;
  let timeout := GetTimeout Duration_overflow (cst_FailureCount (c_Status codebase)) (10 * second)%Z in
  modify (λ c, c_with_status (incr_FailureCount (c_Status c)) c) ;;;
  attempt (status_update_self KCodebase) ;;;
  ret timeout.

(** ** Reconcile *)

(** The part after the chain is selected ([getChain] never fails). *)
Definition serve_codebase : M Codebase Result :=
  served <- attempt (chain_ServeRequest MakeChain) ;;
  match served with
  | inr _ =>
    timeout <- setFailureCount ;;
    codebase <- get ;;
    attempt (removeDirectoryIfExists codebase) ;;;
    ret {| RequeueAfter := timeout |}
  | inl _ =>
    codebase <- get ;;
    updateFinishStatus ?> ("failed to update " +:+ name_of codebase +:+ " Codebase status: ") ;;;
    ret no_result
  end.

Definition Reconcile (request : ObjectKey) : M Codebase Result :=
  fetched <- attempt (do_res (CKube (KGet KCodebase request))) ;;
  match fetched with
  | inr err =>
    if IsNotFound err then ret no_result
    else throw (EWrap ("failed to fetch Codebase resource " +:+ quote_key request +:+ ": ") err)
  | inl codebase =>
    put codebase ;;;
    patched <- Apply ?> "failed to apply codebase changes: " ;;
    if patched : bool then ret no_result
    else
      setFinalizers ?> "failed to set finalizers: " ;;;
      result <- tryToDeleteCodebase ?> "failed to try to delete codebase: " ;;
      match result with
      | Some r => ret r
      | None =>
        initLabels ?> "failed to init labels for codebase: " ;;;
        serve_codebase
      end
  end.
End Controller.

(** ** A codebase the controller never provisions *)

(** A clone URL with one [.git] suffix and another [.git] elsewhere, as in
    https://my.gitlab.com/team/app.git. *)
Definition doubled_git_url (base : string) (c : Codebase) : Prop :=
  cs_Strategy (c_Spec c) = Clone
  ∧ cs_Repository (c_Spec c) = Some {| r_Url := base +:+ ".git" |}
  ∧ has_suffix ".git" (cs_GitUrlPath (c_Spec c)) = false.

(** The codebase is answered with such a URL; only reads and patches that change
    nothing are allowed. *)
Definition no_op_monitor (base : string) : monitor unit :=
  {| rely _ := when_get (λ O k _, match k in kind O return res O → Prop with
       | KCodebase => λ r, match r with Ok c => doubled_git_url base c | _ => True end
       | _ => λ _, True
       end);
     guar _ := λ R c, match c with
       | CKube (KGet _ _) => True
       | CKube (KPatch k orig o) => orig = o
       | _ => False
       end;
     step _ _ _ _ := tt |}.

Lemma Apply_doubled_git_url base c g Q :
  has_suffix ".git" base = false → str_count ".git" (base +:+ ".git") ≠ 1%nat →
  doubled_git_url base c →
  (∀ c', Q (Ok true) c' tt) → (∀ r c', match r with Ok _ => False | _ => True end → Q r c' tt) →
  wp (no_op_monitor base) Apply c g Q.
Proof.
  intros Hb Hc (Hs&Hr&Hp) Hok Herr. unfold Apply. wp_step. wp_step. wp_step. wp_step.
  unfold modifiers, apply_modifiers, trimCodebaseGitSuffix.
  change CrSuffixGit with ".git". rewrite Hp. cbn [negb res_bind].
  rewrite (addCodebaseGitSuffix_reports_no_change c base) by done. cbn [res_bind orb].
  wp_go; by apply Herr.
Qed.


