(* ===== verification/Provisioning.v ===== *)
(** * Provisioning: the operator never overwrites a history it did not push

    The contract of the codebase chain towards the git server, stated on the traces
    of [CodebaseController.Reconcile], across operator restarts. The ghost state
    knows who owns the remote default branch and which git statuses may be
    persisted; the environment answers consistently with it. *)

From S2P Require Import Prelude Api Effects Externals Urls Host Templates CodebaseCommon PutProject CodebaseChain CodebaseController Simulation.

(** ** The specification *)

(** The remote default branch: absent, ours, or someone else's. A push whose answer
    was an error may have landed ([Unsure]). *)
Inductive remote := Absent | Unsure | Ours | Foreign.
#[export] Instance remote_eq_dec : EqDecision remote.
Proof. solve_decision. Defined.

Record world := {
  w_remote : remote;
  w_status : list string;              (* the git statuses that may be persisted *)
  w_checked : option (string * string); (* the url and branch last found absent *)
  w_link : option string }.            (* the url of the work directory's remote *)

(** What a git status claims about the remote. *)
Definition status_ok (s : string) (r : remote) : Prop :=
  (s = ProjectPushInProgressStatus → r ≠ Foreign) ∧ (s ∈ skipPutProjectStatuses → r = Ours).

Definition world_ok (g : world) : Prop := ∀ s, s ∈ w_status g → status_ok s (w_remote g).

Definition set_status (l : list string) (g : world) : world :=
  {| w_remote := w_remote g; w_status := l; w_checked := w_checked g; w_link := w_link g |}.
Definition set_remote (r : remote) (g : world) : world :=
  {| w_remote := r; w_status := w_status g; w_checked := w_checked g; w_link := w_link g |}.
Definition set_checked (c : option (string * string)) (g : world) : world :=
  {| w_remote := w_remote g; w_status := w_status g; w_checked := c; w_link := w_link g |}.
Definition set_link (l : option string) (g : world) : world :=
  {| w_remote := w_remote g; w_status := w_status g; w_checked := w_checked g; w_link := l |}.

Section Monitor.
Context (sp : CodebaseSpec).

(** The environment: the reference exists exactly when the branch does, nobody else
    writes the branch, the codebase keeps its spec, a status write answers with the
    git status it wrote and every other answer with a persisted one. *)
Definition codebase_answer (P : Codebase → Prop) {O} (k : kind O) : res O → Prop :=
  match k in kind O return res O → Prop with
  | KCodebase => λ r, match r with Ok c => c_Spec c = sp ∧ P c | _ => True end
  | _ => λ _, True
  end.

(** The git status of the codebase that is written. *)
Definition written_git {O} (k : kind O) : O → option string :=
  match k in kind O return O → option string with
  | KCodebase => λ o, Some (cst_Git (c_Status o))
  | _ => λ _, None
  end.

Definition push_rely (g : world) : ∀ R, call R → R → Prop := λ R c,
  match c in call R return R → Prop with
  | CGit _ gc => match gc in git_call R return R → Prop with
      | GResolveRemoteReference _ _ => λ r, match r with
          | Ok _ => w_remote g ≠ Absent
          | Err e => err_is ErrReferenceNotFound e = true →
                     w_remote g = Absent ∨ w_remote g = Unsure
          | Panic _ => True
          end
      | _ => λ _, True
      end
  | CKube kc => match kc in kube_call R return R → Prop with
      | KGet k _ => codebase_answer (λ c, cst_Git (c_Status c) ∈ w_status g) k
      | KUpdate k _ => codebase_answer (λ c, cst_Git (c_Status c) ∈ w_status g) k
      | KPatch k _ _ => codebase_answer (λ c, cst_Git (c_Status c) ∈ w_status g) k
      | KStatusUpdate k o => codebase_answer (λ c, written_git k o = Some (cst_Git (c_Status c))) k
      | KStatusPatch k _ o => codebase_answer (λ c, written_git k o = Some (cst_Git (c_Status c))) k
      | _ => λ _, True
      end
  | _ => λ _, True
  end.

(** A push of tags (a whole regenerated history) happens only when the remote branch is
    absent, this run checked it at the url the work directory is linked to, and the
    intent is persisted; any other push only onto our own branch; only the default branch is
    looked up, and no branch is made any other way; a status is written only if what it
    claims is true. *)
Definition write_ok (g : world) {O} (k : kind O) (o : O) : Prop :=
  match written_git k o with Some s => status_ok s (w_remote g) | None => True end.

Definition push_guar (g : world) : ∀ R, call R → Prop := λ R c,
  match c with
  | CGit _ (GPush _ refspecs) =>
    if contains refspecs RefSpecPushAllTags then
      w_remote g = Absent ∧ w_status g = [ProjectPushInProgressStatus]
      ∧ ∃ url, w_checked g = Some (url, cs_DefaultBranch sp) ∧ w_link g = Some url
    else w_remote g = Ours
  | CGit _ (GResolveRemoteReference _ ref) => ref = cs_DefaultBranch sp
  | CGit _ (GCreateRemoteBranchViaRefUpdate _ _ _) => False
  | CGoGit _ => False
  | CKube (KStatusUpdate k o) => write_ok g k o
  | CKube (KStatusPatch k _ o) => write_ok g k o
  | _ => True
  end.

Definition status_written {O} (k : kind O) (o : O) (r : res O) (g : world) : world :=
  match written_git k o with
  | Some s => set_status (match r with Ok _ => [s] | _ => s :: w_status g end) g
  | None => g
  end.

Definition resolved (url ref : string) (r : res string) (g : world) : world :=
  match r with
  | Ok _ => set_checked None
      (match w_remote g with Unsure => set_remote Ours g | _ => g end)
  | Err e =>
    if err_is ErrReferenceNotFound e
    then set_checked (Some (url, ref))
      (match w_remote g with Unsure => set_remote Absent g | _ => g end)
    else set_checked None g
  | Panic _ => set_checked None g
  end.

Definition pushed (r : res unit) (g : world) : world :=
  match w_remote g, r with
  | Absent, Ok _ => set_remote Ours g
  | Absent, _ => set_remote Unsure g
  | _, _ => g
  end.

Definition push_step (g : world) : ∀ R, call R → R → world := λ R c,
  match c in call R return R → world with
  | CGit _ gc => match gc in git_call R return R → world with
      | GResolveRemoteReference url ref => λ r, resolved url ref r g
      | GAddRemoteLink _ url => λ r,
          set_link (match r with Ok _ => Some url | _ => None end) g
      | GPush _ _ => λ r, pushed r g
      | _ => λ _, g
      end
  | CKube kc => match kc in kube_call R return R → world with
      | KStatusUpdate k o => λ r, status_written k o r g
      | KStatusPatch k _ o => λ r, status_written k o r g
      | _ => λ _, g
      end
  | _ => λ _, g
  end.

Definition push_monitor : monitor world :=
  {| rely := push_rely; guar := push_guar; step := push_step |}.
End Monitor.

(** ** Every handler keeps the invariant *)

Section Keeps.
Context (sp : CodebaseSpec).

(** The codebase in memory and the persisted statuses are truthful; [rs] is what is
    known of the remote. *)
Definition inv (rs : remote → Prop) (c : Codebase) (g : world) : Prop :=
  c_Spec c = sp ∧ status_ok (cst_Git (c_Status c)) (w_remote g) ∧ world_ok g ∧ rs (w_remote g).

Lemma inv_same_git rs c c' g :
  c_Spec c' = c_Spec c → cst_Git (c_Status c') = cst_Git (c_Status c) →
  inv rs c g → inv rs c' g.
Proof. unfold inv. by intros -> ->. Qed.

Lemma inv_weaken (rs rs' : remote → Prop) c g :
  (∀ r, rs r → rs' r) → inv rs c g → inv rs' c g.
Proof. intros Hr (?&?&?&?). split_and!; auto. Qed.

Lemma world_ok_cons s l g :
  status_ok s (w_remote g) → world_ok g → l = [s] ∨ l = s :: w_status g →
  world_ok (set_status l g).
Proof. intros Hs Hg [->| ->] x Hx; cbn in *; set_solver. Qed.

Lemma wp_fail_codebase rs a m c g (Q : res unit → Codebase → world → Prop) :
  inv rs c g → (∀ c', inv rs c' g → c_Meta c' = c_Meta c → Q (Ok tt) c' g) →
  wp (push_monitor sp) (fail_codebase a m) c g Q.
Proof.
  intros HI HQ. unfold fail_codebase. wp_go. apply HQ; [|done].
  by eapply inv_same_git; [..|exact HI].
Qed.

Lemma keeps_fail_codebase rs a m : keeps (push_monitor sp) (inv rs) (fail_codebase a m).
Proof. intros c g HI. apply wp_fail_codebase with rs; auto. Qed.

Lemma keeps_status_update rs : keeps (push_monitor sp) (inv rs) (status_update_self KCodebase).
Proof.
  intros c g (Hsp&Hst&Hw&Hr). unfold status_update_self.
  do 3 wp_step. wp_step. wp_step; [done|]. intros r Hrely. cbn in Hrely.
  assert (Hw' : ∀ l, l = [cst_Git (c_Status c)] ∨ l = cst_Git (c_Status c) :: w_status g →
    world_ok (set_status l g)) by (intros l Hl; by eapply world_ok_cons).
  destruct r as [c'|e|w]; cbn; [apply wp_put; destruct Hrely as [? [= Heq]]; rewrite ?Heq in * | |];
    split_and!; cbn; auto; by rewrite <- ?Heq.
Qed.

#[local] Hint Resolve keeps_fail_codebase keeps_status_update : keeps.

Lemma keeps_updateGit rs action st :
  (∀ r, rs r → status_ok st r) →
  keeps (push_monitor sp) (inv rs) (updateGitStatusWithPatch action st).
Proof.
  intros Hst. intros c g HI. unfold updateGitStatusWithPatch, status_patch_self.
  wp_step. wp_step. wp_step; [by wp_step|]. wp_step. wp_step. wp_step. wp_step. wp_step. wp_step.
  destruct HI as (Hsp&Hc&Hw&Hr). assert (Hok := Hst _ Hr).
  wp_step; [done|]. intros r Hrely. cbn in Hrely.
  assert (Hw' : ∀ l, l = [st] ∨ l = st :: w_status g → world_ok (set_status l g))
    by (intros l Hl; by eapply world_ok_cons).
  destruct r as [c'|e|w]; cbn.
  - destruct Hrely as [? [= Heq]]. wp_step. split_and!; cbn; auto. by rewrite <- Heq.
  - wp_step. eapply wp_fail_codebase with rs; [split_and!; cbn; auto|].
    intros c' HI _. by wp_step.
  - split_and!; cbn; auto.
Qed.

Lemma keeps_setIntermediate rs action :
  keeps (push_monitor sp) (inv rs) (setIntermediateSuccessFields action).
Proof.
  unfold setIntermediateSuccessFields.
  repeat first [apply keeps_modify; intros; by eapply inv_same_git | progress keeps_go].
Qed.
#[local] Hint Resolve keeps_setIntermediate : keeps.

(** The reads and writes outside the monitor's sight keep any predicate. *)
Lemma keeps_PrepareTemplates (J : Codebase → world → Prop) cb wd :
  keeps (push_monitor sp) J (PrepareTemplates cb wd).
Proof. keeps_go. Qed.
Lemma keeps_PrepareGitRepository (J : Codebase → world → Prop) cb :
  keeps (push_monitor sp) J (PrepareGitRepository cb).
Proof. keeps_go. Qed.
#[local] Hint Resolve keeps_PrepareTemplates keeps_PrepareGitRepository : keeps.

Ltac prov_go :=
  repeat first [progress keeps_go
    | apply keeps_modify; intros ? ? HI; eapply inv_same_git; [..|exact HI]; done].

Lemma keeps_PutGitWebRepoUrl rs : keeps (push_monitor sp) (inv rs) PutGitWebRepoUrl_ServeRequest.
Proof. prov_go. Qed.
Lemma keeps_PutWebHook rs : keeps (push_monitor sp) (inv rs) PutWebHook_ServeRequest.
Proof. prov_go. Qed.
Lemma keeps_PutDefaultCodeBaseBranch rs :
  keeps (push_monitor sp) (inv rs) PutDefaultCodeBaseBranch_ServeRequest.
Proof. prov_go. Qed.
Lemma keeps_Cleaner rs : keeps (push_monitor sp) (inv rs) Cleaner_ServeRequest.
Proof. prov_go. Qed.
Lemma keeps_DeleteWebHook rs : keeps (push_monitor sp) (inv rs) DeleteWebHook_ServeRequest.
Proof. prov_go. Qed.

(** Pushes onto our own branch. *)
Lemma keeps_plain_push cfg wd :
  keeps (push_monitor sp) (inv (eq Ours)) (git cfg (GPush wd [RefSpecPushAllBranches])).
Proof.
  apply keeps_do_res. intros c g HI. assert (Hr : w_remote g = Ours) by (symmetry; apply HI).
  split; [done|]. intros r _. cbn. unfold pushed. rewrite Hr. by destruct r.
Qed.
#[local] Hint Resolve keeps_plain_push : keeps.

Lemma status_ok_ours st : status_ok st Ours.
Proof. done. Qed.

Lemma keeps_updateGit_ours action st :
  keeps (push_monitor sp) (inv (eq Ours)) (updateGitStatusWithPatch action st).
Proof. apply keeps_updateGit. by intros r <-. Qed.
#[local] Hint Resolve keeps_updateGit_ours : keeps.

Lemma keeps_PutGitLabCIConfig :
  keeps (push_monitor sp) (inv (eq Ours)) PutGitLabCIConfig_ServeRequest.
Proof. prov_go. Qed.
Lemma keeps_PutDeployConfigs :
  keeps (push_monitor sp) (inv (eq Ours)) PutDeployConfigs_ServeRequest.
Proof. prov_go. Qed.

(** ** PutProject *)

Lemma status_ok_unsure st r : status_ok st Unsure → r ≠ Foreign → status_ok st r.
Proof. intros [H1 H2] Hr. split; [done|]. intros Hst. by specialize (H2 Hst). Qed.

(** What the check of the remote branch learns. *)
Definition checked_true (url : string) (g g' : world) : Prop :=
  w_remote g' = Absent ∧ w_checked g' = Some (url, cs_DefaultBranch sp)
  ∧ w_status g' = w_status g ∧ (w_remote g = Absent ∨ w_remote g = Unsure).
Definition checked_false (g g' : world) : Prop :=
  w_status g' = w_status g ∧
  (w_remote g = Unsure ∧ w_remote g' = Ours ∨ w_remote g' = w_remote g ∧ w_remote g' ≠ Absent).

Definition project_url (rc : GitRepositoryContext) : string :=
  GetProjectGitUrl (rc_GitServer rc) (rc_GitServerSecret rc) (GetProjectID sp).

Lemma wp_remoteDefaultBranchAbsent {S} codebase rc (s : S) g Q :
  c_Spec codebase = sp →
  (∀ g', checked_true (project_url rc) g g' → Q (Ok true) s g') →
  (∀ g', checked_false g g' → w_remote g' ≠ Absent → w_remote g' ≠ Unsure → Q (Ok false) s g') →
  (∀ r g', match r with Ok _ => False | _ => True end →
    w_remote g' = w_remote g → w_status g' = w_status g → Q r s g') →
  wp (push_monitor sp) (remoteDefaultBranchAbsent codebase rc) s g Q.
Proof.
  intros Hsp Htrue Hfalse Herr. unfold remoteDefaultBranchAbsent. rewrite Hsp.
  wp_step. wp_step. wp_step. wp_step; [done|]. intros r Hr. cbn in *. unfold resolved.
  destruct r as [a|e|w].
  - wp_step. apply Hfalse; [split; [by destruct (w_remote g)|]|..];
      destruct (w_remote g) eqn:E; cbn; rewrite ?E; try done; [by left|by right|by right].
  - destruct (err_is ErrReferenceNotFound e) eqn:He.
    + wp_step. apply Htrue. specialize (Hr eq_refl).
      split_and!; destruct (w_remote g) eqn:E; cbn; try done; naive_solver.
    + wp_step. by apply Herr.
  - by apply Herr.
Qed.

Lemma inv_checked_true c g g' url :
  inv (λ _, True) c g → checked_true url g g' → inv (eq Absent) c g'.
Proof.
  intros (Hsp&Hst&Hw&_) (Hr&_&Hs&Hcase).
  assert (H : ∀ x, status_ok x (w_remote g) → status_ok x (w_remote g')).
  { intros x Hx. rewrite Hr. destruct Hcase as [E|E]; rewrite E in Hx; [done|].
    by apply status_ok_unsure. }
  split_and!; [done|auto| |done]. intros x Hx. rewrite Hs in Hx. auto.
Qed.

Lemma inv_checked_false c g g' rs :
  inv (λ _, True) c g → checked_false g g' → rs (w_remote g') → inv rs c g'.
Proof.
  intros (Hsp&Hst&Hw&_) (Hs&Hcase) Hrs.
  assert (H : ∀ x, status_ok x (w_remote g) → status_ok x (w_remote g')).
  { intros x Hx. destruct Hcase as [[E E']|[E _]]; rewrite ?E', ?E in *; [|done].
    by apply status_ok_unsure. }
  split_and!; [done|auto| |done]. intros x Hx. rewrite Hs in Hx. auto.
Qed.

Lemma inv_same_world c g g' rs :
  inv rs c g → w_remote g' = w_remote g → w_status g' = w_status g → inv rs c g'.
Proof.
  intros (Hsp&Hst&Hw&Hr) E E'. unfold inv, world_ok. rewrite E, E'. auto.
Qed.

(** The codebase in memory carries the persisted git status. *)
Definition synced (c : Codebase) (g : world) : Prop :=
  inv (λ _, True) c g ∧ w_status g = [cst_Git (c_Status c)].

Lemma keeps_fail_synced a m : keeps (push_monitor sp) synced (fail_codebase a m).
Proof.
  intros c g [HI Hs]. unfold fail_codebase. wp_go.
Qed.
#[local] Hint Resolve keeps_fail_synced : keeps.

Lemma wp_setIntermediate action c g (Q : res unit → Codebase → world → Prop) :
  inv (λ _, True) c g →
  (∀ c' g', synced c' g' → Q (Ok tt) c' g') →
  (∀ r c' g', is_ok r = false → inv (λ _, True) c' g' → Q r c' g') →
  wp (push_monitor sp) (setIntermediateSuccessFields action) c g Q.
Proof.
  intros HI Hok Herr.
  eapply wp_mono with (Q := λ r c' g', inv (λ _, True) c' g' ∧
    (is_ok r = true → w_status g' = [cst_Git (c_Status c')])).
  2:{ intros [[]|e|w] c' g' [HI' Hs]; [apply Hok; split; auto|by apply Herr|by apply Herr]. }
  destruct HI as (Hsp&Hst&Hw&_). unfold setIntermediateSuccessFields. wp_go; cbn in *.
  - match goal with H : c_Spec _ = sp ∧ _ |- _ => destruct H as [? [= Heq]] end.
    split; [|by intros _; rewrite <- Heq].
    split_and!; cbn; try done; [by rewrite <- Heq|by eapply world_ok_cons; [..|left]].
  - split; [|done]. split_and!; cbn; try done. by eapply world_ok_cons; [..|right].
  - split; [|done]. split_and!; cbn; try done. by eapply world_ok_cons; [..|right].
Qed.

Lemma keeps_initialProjectProvisioning rc :
  keeps (push_monitor sp) synced (initialProjectProvisioning rc).
Proof. prov_go. Qed.
Lemma keeps_GetGitRepositoryContext (J : Codebase → world → Prop) cb :
  keeps (push_monitor sp) J (GetGitRepositoryContext cb).
Proof. keeps_go. Qed.
Lemma keeps_checkoutBranch (J : Codebase → world → Prop) cb rc :
  keeps (push_monitor sp) J (checkoutBranch cb rc).
Proof. keeps_go. Qed.
Lemma keeps_setDefaultBranch (J : Codebase → world → Prop) gs cb t k :
  keeps (push_monitor sp) J (setDefaultBranch gs cb t k).
Proof. keeps_go. Qed.
Lemma keeps_createGerritProject (J : Codebase → world → Prop) gs k p :
  keeps (push_monitor sp) J (createGerritProject gs k p).
Proof. keeps_go. Qed.
Lemma keeps_createGitThirdPartyProject (J : Codebase → world → Prop) gs t cb :
  keeps (push_monitor sp) J (createGitThirdPartyProject gs t cb).
Proof. keeps_go. Qed.
#[local] Hint Resolve keeps_createGerritProject keeps_createGitThirdPartyProject : keeps.

(** Whatever happened, the invariant; if it went well, the branch is ours. *)
Definition ours_if {A} (ok : A → bool) (r : res A) (c : Codebase) (g : world) : Prop :=
  inv (λ rm, match r with Ok a => ok a = true → rm = Ours | _ => True end) c g.

Lemma wp_handleError {A} err msg c g (Q : res A → Codebase → world → Prop) :
  inv (λ _, True) c g → (∀ e c', inv (λ _, True) c' g → Q (Err e) c' g) →
  wp (push_monitor sp) (handleError err msg) c g Q.
Proof.
  intros HI HQ. unfold handleError. wp_step. eapply wp_fail_codebase; [done|]. intros c' HI' _.
  wp_step. auto.
Qed.

Lemma wp_adoptPushedProject rc c g :
  synced c g →
  wp (push_monitor sp) (adoptPushedProject rc) c g
    (λ r c' g', ours_if id r c' g' ∧ (r = Ok false → synced c' g')).
Proof.
  intros [HI Hs].
  unfold adoptPushedProject. wp_step. wp_step. wp_step.
  { wp_step. split; [|by split]. by eapply inv_weaken, HI. }
  wp_step. apply wp_remoteDefaultBranchAbsent; [by destruct HI| | |].
  - intros g' Hg. wp_step. pose proof (inv_checked_true _ _ _ _ HI Hg) as HI2.
    split; [by eapply inv_weaken, HI2|]. intros _. split; [by eapply inv_weaken, HI2|].
    destruct Hg as (_&_&->&_). done.
  - intros g' Hg Hna Hnu.
    assert (HO : inv (eq Ours) c g').
    { eapply inv_checked_false; [done..|]. destruct Hg as [_ [[_ ?]|[E _]]]; [done|].
      destruct (w_remote g') eqn:Er; try done. destruct HI as (_&[Hf _]&_&_).
      apply negb_false_iff, bool_decide_eq_true in Heqb. specialize (Hf Heqb). congruence. }
    wp_step. eapply wp_keeps; [apply keeps_setDefaultBranch|exact HO|].
    intros [[]|e|w] c' g'' HO'; try (split; [by eapply inv_weaken, HO'|done]).
    wp_step. eapply wp_keeps; [apply keeps_updateGit_ours|exact HO'|].
    intros [[]|e|w] c'' g3 HO''; try (split; [by eapply inv_weaken, HO''|done]).
    wp_step. split; [by eapply inv_weaken, HO''|done].
  - intros [b|e|w] g' Hr Hrem Hst; [done|..]; (split; [|done]);
      eapply inv_same_world; [|done|done|apply HI|done|done]; apply HI.
Qed.

Lemma in_progress_not_pushed : ProjectPushInProgressStatus ∉ skipPutProjectStatuses.
Proof. eapply bool_decide_eq_false_1. vm_compute. reflexivity. Qed.

(** The intent is durable before the push. *)
Lemma wp_record_intent c g (Q : res unit → Codebase → world → Prop) :
  inv (eq Absent) c g → w_status g = [cst_Git (c_Status c)] →
  (∀ c' g', inv (eq Absent) c' g' → w_status g' = [ProjectPushInProgressStatus] →
    w_checked g' = w_checked g → Q (Ok tt) c' g') →
  (∀ r c' g', is_ok r = false → inv (λ _, True) c' g' → Q r c' g') →
  wp (push_monitor sp)
    (updateGitStatusWithPatch RepositoryProvisioning ProjectPushInProgressStatus) c g Q.
Proof.
  intros HI Hs Hok Herr. destruct HI as (Hsp&Hst&Hw&Hr).
  assert (Hip : status_ok ProjectPushInProgressStatus (w_remote g)).
  { rewrite <- Hr. split; [done|]. intros H. by apply in_progress_not_pushed in H. }
  unfold updateGitStatusWithPatch, status_patch_self.
  wp_step. wp_step. wp_step.
  { wp_step. bool_props. apply Hok; [by split_and!| |done]. by rewrite Hs, Heqb. }
  do 6 wp_step. wp_step; [done|]. intros r Hrely. cbn in Hrely. destruct r as [c'|e|w]; cbn.
  - destruct Hrely as [? [= Heq]]. wp_step. apply Hok; [|done|done].
    split_and!; cbn; try done; [by rewrite <- Heq|by eapply world_ok_cons; [..|left]].
  - wp_step. eapply wp_fail_codebase with (rs := λ _, True).
    + split_and!; cbn; try done. by eapply world_ok_cons; [..|right].
    + intros c' HI _. wp_step. by apply Herr.
  - apply Herr; [done|]. split_and!; cbn; try done. by eapply world_ok_cons; [..|right].
Qed.

(** The push of a regenerated history. *)
Lemma wp_pushProject rc c g :
  inv (eq Absent) c g → w_status g = [ProjectPushInProgressStatus] →
  w_checked g = Some (project_url rc, cs_DefaultBranch sp) →
  wp (push_monitor sp) (pushProject (GetProjectID sp) rc) c g (ours_if (λ _, true)).
Proof.
  intros HI Hs Hc. assert (Hr : w_remote g = Absent) by (symmetry; apply HI).
  assert (HI' : inv (λ _, True) c g) by (eapply inv_weaken, HI; auto).
  unfold pushProject. do 3 wp_step. wp_step; [done|]. intros [[]|e|w] _; cbn.
  - wp_step. wp_step; [split; [done|]; split; [done|]; by eexists|].
    assert (Hw : ∀ r, inv (λ rm, rm = r) c (set_remote r (set_link (Some (project_url rc)) g)) ∨ r = Foreign).
    { intros r. destruct (decide (r = Foreign)) as [->|Hne]; [by right|left].
      destruct HI as (Hsp&[_ Hst]&Hw&_). rewrite Hr in Hst.
      split_and!; cbn; try done.
      - split; [done|]. intros H. by specialize (Hst H).
      - intros x Hx. cbn in *. specialize (Hw x Hx) as [_ Hx']. rewrite Hr in Hx'.
        split; [done|]. intros H. by specialize (Hx' H). }
    intros [[]|e|w] _; cbn; unfold pushed; cbn; rewrite Hr.
    + destruct (Hw Ours) as [H|H]; [|done]. by eapply inv_weaken, H.
    + wp_step. destruct (Hw Unsure) as [H|H]; [|done]. by eapply inv_weaken, H.
    + destruct (Hw Unsure) as [H|H]; [|done]. by eapply inv_weaken, H.
  - wp_step. by eapply inv_same_world.
  - by eapply inv_same_world.
Qed.

Lemma wp_createProject rc c g :
  synced c g →
  wp (push_monitor sp) (createProject rc) c g (ours_if (λ _, true)).
Proof.
  intros HS. destruct (HS) as [(Hsp&_) _]. unfold createProject. wp_step. wp_step. wp_step.
  eapply wp_keeps with (J := synced); [|exact HS|].
  { keeps_go. }
  intros [[]|e|w] c1 g1 [HI Hs]; try exact HI.
  wp_step. apply wp_remoteDefaultBranchAbsent; [done| | |].
  - intros g2 Hg. cbn [negb]. pose proof (inv_checked_true _ _ _ _ HI Hg) as HI2.
    wp_step. destruct Hg as (_&Hc&Hs2&_). rewrite Hs in Hs2.
    apply wp_record_intent; [done|done| |intros [[]|e|w] c' g' Hr HI'; [done|exact HI'|exact HI']].
    intros c2 g3 HI3 Hs3 Hc3. wp_step. wp_step. wp_step.
    destruct (HI3) as (Hsp3&_). rewrite Hsp3.
    eapply wp_mono; [apply wp_pushProject; [done|done|by rewrite Hc3]|].
    intros [[]|e|w] c3 g4 HO; [|exact HO|exact HO]. cbn in HO.
    eapply wp_keeps with (J := inv (eq Ours)); [apply keeps_setDefaultBranch| |].
    + eapply inv_weaken, HO. intros r Hr. by rewrite Hr.
    + intros r c4 g5 HI5. eapply inv_weaken, HI5. intros ? <-. by destruct r.
  - intros g2 Hg Hna Hnu. cbn [negb]. wp_step. eapply inv_checked_false; done.
  - intros [b|e|w] g2 Hr Hrem Hst; [done|..]; by eapply inv_same_world.
Qed.

Context (Hstrat : cs_Strategy sp ∈ putProjectStrategies).

Lemma wp_PutProject c g :
  inv (λ _, True) c g →
  wp (push_monitor sp) PutProject_ServeRequest c g (ours_if (λ _, true)).
Proof.
  intros HI. unfold PutProject_ServeRequest. wp_step. wp_step.
  assert (Hskip : PutProject_skip c = contains skipPutProjectStatuses (cst_Git (c_Status c))).
  { unfold PutProject_skip. destruct HI as (->&_). unfold contains at 1.
    by rewrite bool_decide_true. }
  wp_step.
  { wp_step. symmetry in Hskip. apply bool_decide_eq_true in Hskip.
    destruct HI as (Hsp&[H1 H2]&Hw&_). split_and!; [done|by split|done|]. intros _. by apply H2. }
  wp_step. wp_step. apply wp_setIntermediate; [done| |].
  2:{ intros [[]|e|w] c' g' Hr HI'; [done|by wp_step|done]. }
  intros c1 g1 HS1. do 2 wp_step. wp_step. wp_step.
  eapply wp_keeps with (J := synced); [apply keeps_GetGitRepositoryContext|exact HS1|].
  intros [rc|e|w] c2 g2 HS2; [|by apply wp_handleError; [apply HS2|]|apply HS2].
  wp_step. wp_step. eapply wp_mono; [by apply wp_adoptPushedProject|].
  intros [b|e|w] c3 g3 [HA HS3]; [| |exact HA].
  2:{ apply wp_handleError; [|done]. by eapply inv_weaken, HA. }
  destruct b; [wp_step; eapply inv_weaken, HA; auto|]. specialize (HS3 eq_refl).
  wp_step. wp_step.
  eapply wp_keeps with (J := synced); [apply keeps_initialProjectProvisioning|exact HS3|].
  intros [[]|e|w] c4 g4 HS4; [| |apply HS4].
  2:{ do 2 wp_step. by apply wp_handleError; [apply HS4|]. }
  do 4 wp_step.
  eapply wp_keeps with (J := synced); [apply keeps_checkoutBranch|exact HS4|].
  intros [[]|e|w] c5 g5 HS5; [|by apply wp_handleError; [apply HS5|]|apply HS5].
  wp_step. wp_step. eapply wp_mono; [by apply wp_createProject|].
  intros [[]|e|w] c6 g6 HO; [|by apply wp_handleError; [eapply inv_weaken, HO|]|exact HO].
  eapply wp_keeps with (J := inv (eq Ours)); [apply keeps_updateGit_ours| |].
  - eapply inv_weaken, HO. intros r Hr. by rewrite Hr.
  - intros r c7 g7 HI7. eapply inv_weaken, HI7. intros ? <-. by destruct r.
Qed.

(** ** The chain and the reconciliation *)

#[local] Hint Resolve keeps_PutWebHook keeps_PutGitLabCIConfig keeps_PutDeployConfigs
  keeps_PutDefaultCodeBaseBranch keeps_Cleaner keeps_DeleteWebHook : keeps.

Lemma keeps_chain :
  keeps (push_monitor sp) (inv (λ _, True)) (chain_ServeRequest MakeChain).
Proof.
  intros c g HI. unfold MakeChain. cbn [chain_ServeRequest]. wp_step. wp_step.
  eapply wp_keeps; [apply keeps_PutGitWebRepoUrl|exact HI|].
  intros [[]|e|w] c1 g1 HI1; [|by wp_step|done]. wp_step. wp_step.
  eapply wp_mono; [by apply wp_PutProject|].
  intros [[]|e|w] c2 g2 HI2; [|by wp_step|done].
  eapply wp_keeps with (J := inv (eq Ours)).
  - keeps_go.
  - eapply inv_weaken, HI2. intros r Hr. by rewrite Hr.
  - intros r c3 g3 HI3. by eapply inv_weaken, HI3.
Qed.

Lemma inv_answer c g :
  world_ok g → c_Spec c = sp → cst_Git (c_Status c) ∈ w_status g → inv (λ _, True) c g.
Proof. intros Hw Hsp Hin. split_and!; [done|by apply Hw|done|done]. Qed.

Lemma keeps_update_self : keeps (push_monitor sp) (inv (λ _, True)) (update_self KCodebase).
Proof.
  intros c g HI. unfold update_self. do 4 wp_step. wp_step; [done|]. intros [c'|e|w] Hr; cbn in *;
    [|done|done]. wp_step. destruct Hr. apply inv_answer; [apply HI|done|done].
Qed.
Lemma keeps_patch_self orig : keeps (push_monitor sp) (inv (λ _, True)) (patch_self KCodebase orig).
Proof.
  intros c g HI. unfold patch_self. do 3 wp_step. wp_step; [done|]. intros [c'|e|w] Hr; cbn in *;
    [|done|done]. wp_step. destruct Hr. apply inv_answer; [apply HI|done|done].
Qed.
#[local] Hint Resolve keeps_update_self keeps_patch_self : keeps.

Context {X : Externals}.

Lemma keeps_setFinalizers : keeps (push_monitor sp) (inv (λ _, True)) setFinalizers.
Proof.
  intros c g HI. unfold setFinalizers. wp_step. wp_step. wp_step; [by wp_step|].
  destruct (AddFinalizer _ (obj_meta c)) as [b1 m1], (AddFinalizer _ m1) as [b2 m2].
  wp_step. wp_step. apply keeps_when; [keeps_go|]. by eapply inv_same_git, HI.
Qed.

Lemma keeps_initLabels : keeps (push_monitor sp) (inv (λ _, True)) initLabels.
Proof.
  intros c g HI. unfold initLabels. wp_step. wp_step.
  destruct (wanted_labels c) as [l b]. wp_step; [by wp_step|]. wp_step. wp_step.
  apply keeps_orelse; [apply keeps_patch_self|intros; apply keeps_throw|].
  by eapply inv_same_git, HI.
Qed.

Lemma keeps_deletion_chain rs :
  keeps (push_monitor sp) (inv rs) (chain_ServeRequest MakeDeletionChain).
Proof. unfold MakeDeletionChain. cbn [chain_ServeRequest]. keeps_go. Qed.
#[local] Hint Resolve keeps_deletion_chain : keeps.

Lemma keeps_tryToDeleteCodebase :
  keeps (push_monitor sp) (inv (λ _, True)) tryToDeleteCodebase.
Proof. prov_go. Qed.
Lemma keeps_setFailureCount : keeps (push_monitor sp) (inv (λ _, True)) setFailureCount.
Proof. prov_go. Qed.
Lemma keeps_updateFinishStatus : keeps (push_monitor sp) (inv (λ _, True)) updateFinishStatus.
Proof. prov_go. Qed.
#[local] Hint Resolve keeps_setFinalizers keeps_initLabels keeps_tryToDeleteCodebase
  keeps_setFailureCount keeps_updateFinishStatus keeps_chain : keeps.

(** The spec is in the normal form of the modifiers ([Apply] would patch it and stop). *)
Context (Hnormal : ∀ c, c_Spec c = sp → apply_modifiers modifiers false c = Ok (false, c)).

Lemma wp_Reconcile request c0 g :
  world_ok g →
  wp (push_monitor sp) (Reconcile request) c0 g (λ _ _ g', world_ok g').
Proof.
  intros Hw. unfold Reconcile. wp_step. wp_step. wp_step; [done|].
  intros [c|e|w] Hr; cbn in Hr; [|wp_step; by wp_step|done]. destruct Hr as [Hsp Hin].
  pose proof (inv_answer c g Hw Hsp Hin) as HI. wp_step. wp_step. wp_step. wp_step.
  unfold Apply. wp_step. wp_step. wp_step. wp_step. rewrite Hnormal by done. do 3 wp_step.
  eapply wp_keeps with (J := inv (λ _, True)); [|exact HI|intros r c' g' HI'; apply HI'].
  keeps_go.
Qed.
End Keeps.

(** A truthful write keeps the world truthful. *)
Lemma world_ok_step sp g R (c : call R) r :
  world_ok g → push_guar sp g R c → push_rely sp g R c r → world_ok (push_step g R c r).
Proof.
  intros Hw Hg Hr. destruct c as [R kc|R cfg gc| | | | | | | | |]; try done.
  - destruct kc; try done; cbn in *; unfold status_written, write_ok in *;
      (destruct (written_git k o) as [x|]; [|done]);
      (eapply world_ok_cons; [done..|destruct r; auto]).
  - destruct gc; try done.
    + cbn in *. unfold pushed. destruct (contains _ _).
      * destruct Hg as (Hr'&Hs&_). rewrite Hr'.
        assert (∀ r, r ≠ Foreign → world_ok (set_remote r g)) as H.
        { intros r' Hne x Hx. cbn in *. rewrite Hs in Hx. apply list_elem_of_singleton in Hx as ->.
          split; [done|]. intros H. by apply in_progress_not_pushed in H. }
        destruct r; by apply H.
      * rewrite Hg. by destruct r.
    + cbn in *. unfold resolved.
      assert (w_remote g = Unsure → ∀ r, r ≠ Foreign → world_ok (set_remote r g)) as H.
      { intros Hu r' Hne x Hx. cbn in *. specialize (Hw x Hx). rewrite Hu in Hw.
        by apply status_ok_unsure. }
      destruct r as [a|e|w]; [|destruct (err_is _ _)|]; destruct (w_remote g) eqn:E;
        cbn; try exact Hw; intros x Hx; cbn in *; first [by apply (H eq_refl Ours)|by apply (H eq_refl Absent)|by apply Hw].
Qed.

(** ** Properties *)

(** C1: Across any sequence of reconciliations of a codebase, each cut at an arbitrary
    point (an operator crash) and run against any git server and API server that
    answer truthfully: a regenerated history is pushed only while the remote default
    branch is absent, after this run checked it at the url the work directory is
    linked to and the intent was persisted; every other push goes onto the operator's
    own branch; and a persisted git status never claims a push that did not land. *)
Theorem provisioning_never_overwrites {X : Externals} sp g tr :
  cs_Strategy sp ∈ putProjectStrategies →
  (∀ c, c_Spec c = sp → apply_modifiers modifiers false c = Ok (false, c)) →
  world_ok g →
  history (push_monitor sp) (λ p, ∃ request c0, p = Reconcile request c0) g tr →
  guaranteed (push_monitor sp) g tr.
Proof.
  intros Hs Hn Hw Hh. eapply history_guaranteed; [| |exact Hh|exact Hw].
  - intros. by apply (world_ok_step sp).
  - intros p g' (request&c0&->) Hw'. eapply safe_mono, wp_Reconcile; auto.
Qed.

Definition world_empty : world :=
  {| w_remote := Absent; w_status := [""]; w_checked := None; w_link := None |}.

Definition sim_request : ObjectKey := {| key_Namespace := "ns"; key_Name := "app" |}.

Definition sim_trace : list obs := trace sim (Reconcile sim_request sim_app) sim_start.

Definition is_push (o : obs) : bool :=
  match o with Obs _ (CGit _ (GPush _ _)) _ => true | _ => false end.

Lemma provisioning_never_overwrites_witness :
  length (List.filter is_push sim_trace) = 1%nat
  ∧ guaranteed (push_monitor sim_spec) world_empty sim_trace.
Proof.
  split; [vm_compute; reflexivity|].
  apply (provisioning_never_overwrites (X := reference) sim_spec world_empty sim_trace).
  - eapply bool_decide_eq_true_1. vm_compute. reflexivity.
  - intros [m s st] Hc. cbn in Hc. subst s. vm_compute. reflexivity.
  - intros s Hs. apply list_elem_of_singleton in Hs as ->. split; [done|]. intros H. exfalso.
    revert H. eapply bool_decide_eq_false_1. vm_compute. reflexivity.
  - rewrite <- (app_nil_r sim_trace). eapply history_run with (rest := []) (h := sim) (w := sim_start).
    + by exists sim_request, sim_app.
    + by rewrite app_nil_r.
    + vm_compute. repeat first [exact I | discriminate | reflexivity | split | left | intro].
    + apply history_nil.
Defined.
