(* ===== verification/BranchLabels.v ===== *)
(** * BranchLabels: the labels branches are selected by

    [src/pkg/codebasebranch/labels.go]. *)

From S2P Require Import Prelude Api Effects Externals.

Definition LabelCodebaseName := "app.edp.epam.com/codebaseName".

Section Labels.
Context {X : Externals}.

Definition MakeGitBranchHash (gitBranchName : string) : string := Sum64_hex gitBranchName.

Definition labelsToSet (codebaseBranch : CodebaseBranch) (codebaseName : string)
  : gmap string string :=
  list_to_map
    [(LabelCodebaseName, codebaseName); (CodebaseLabel, codebaseName);
     (BranchHashLabel, MakeGitBranchHash (bs_BranchName (b_Spec codebaseBranch)))].

(** The loop over the map's keys, in the order the runtime picked. *)
Fixpoint set_labels (wanted : gmap string string) (order : list string)
    (currentLabels : gmap string string) (needsUpdate : bool) : gmap string string * bool :=
  match order with
  | [] => (currentLabels, needsUpdate)
  | key :: order' =>
    let value := map_get wanted key in
    if bool_decide (map_get currentLabels key = value)
    then set_labels wanted order' currentLabels needsUpdate
    else set_labels wanted order' (<[key := value]> currentLabels) true
  end.

Definition AddCodebaseLabel (codebaseName : string) : M CodebaseBranch unit :=
  codebaseBranch <- get ;;
  let wanted := labelsToSet codebaseBranch codebaseName in
  order <- sys (RangeMap (map fst (map_to_list wanted))) ;;
  let '(labels, needsUpdate) := set_labels wanted order (labels_of codebaseBranch) false in
  put (with_labels labels codebaseBranch) ;;;
  if negb needsUpdate then ret tt
  else update_self KCodebaseBranch ?> "failed to update k8s resource labels: ".
End Labels.

(** ** Lemmas *)

(** A map is ranged over in some order of all its keys. *)
Definition range_rely : ∀ R, call R → R → Prop := λ R c,
  match c in call R return R → Prop with
  | CSys sc => match sc in sys_call R return R → Prop with
      | RangeMap keys => λ r, Permutation keys r
      | _ => λ _, True
      end
  | _ => λ _, True
  end.

Lemma set_labels_get wanted order current upd k :
  map_get (fst (set_labels wanted order current upd)) k =
  if bool_decide (k ∈ order) then map_get wanted k else map_get current k.
Proof.
  revert current upd. induction order as [|x order IH]; intros current upd; cbn.
  - by rewrite bool_decide_false by set_solver.
  - destruct (bool_decide (map_get current x = map_get wanted x)) eqn:Hx; rewrite IH; clear IH;
      bool_props.
    + destruct (decide (k = x)) as [->|Hne].
      * rewrite (bool_decide_true (x ∈ x :: order)) by set_solver. by case_bool_decide.
      * repeat case_bool_decide; try done; exfalso; set_solver.
    + unfold map_get. destruct (decide (k = x)) as [->|Hne].
      * rewrite (bool_decide_true (x ∈ x :: order)) by set_solver.
        case_bool_decide; [done|]. by rewrite lookup_insert_eq.
      * rewrite lookup_insert_ne by done. repeat case_bool_decide; try done; exfalso; set_solver.
Qed.

Lemma set_labels_changed wanted order current :
  snd (set_labels wanted order current false) = false →
  fst (set_labels wanted order current false) = current.
Proof.
  assert (Hmono : ∀ order current, snd (set_labels wanted order current true) = true).
  { clear. induction order as [|x order IH]; intros current; cbn; [done|].
    case_bool_decide; apply IH. }
  revert current. induction order as [|x order IH]; intros current; cbn; [done|].
  case_bool_decide; [apply IH|]. by rewrite Hmono.
Qed.

(** What the map of wanted labels holds. *)
Lemma labelsToSet_lookup {X : Externals} b n k v :
  labelsToSet b n !! k = Some v ↔
  (k = LabelCodebaseName ∧ v = n) ∨ (k = CodebaseLabel ∧ v = n)
  ∨ (k = BranchHashLabel ∧ v = MakeGitBranchHash (bs_BranchName (b_Spec b))).
Proof.
  unfold labelsToSet. cbn [list_to_map foldr uncurry fst snd].
  rewrite lookup_insert_Some, lookup_insert_Some, lookup_insert_Some, lookup_empty.
  assert (LabelCodebaseName ≠ CodebaseLabel) by done.
  assert (LabelCodebaseName ≠ BranchHashLabel) by done.
  assert (CodebaseLabel ≠ BranchHashLabel) by done.
  naive_solver.
Qed.

Lemma elem_of_map_fst {V} (m : gmap string V) k : k ∈ map fst (map_to_list m) ↔ is_Some (m !! k).
Proof.
  rewrite list_elem_of_In, in_map_iff. split.
  - intros ([k' v] & <- & Hin). apply list_elem_of_In, elem_of_map_to_list in Hin. eauto.
  - intros [v Hv]. exists (k, v). split; [done|]. by apply list_elem_of_In, elem_of_map_to_list.
Qed.

(** ** Properties *)

(** When labelling a branch succeeds (its update echoed), the branch carries the codebase
    name under both labels and the hash of its git branch name, whatever the order the map
    is ranged over, every other label is as it was, and a branch already labelled is not
    written. *)
Theorem AddCodebaseLabel_labels {X : Externals} codebaseName branch :
  wp (assuming (λ R c r, range_rely R c r ∧ kube_echo R c r)) (AddCodebaseLabel codebaseName) branch tt
    (λ r b' _, r = Ok tt →
      b_Spec b' = b_Spec branch ∧ ∀ k, map_get (labels_of b') k =
        match labelsToSet branch codebaseName !! k with
        | Some v => v
        | None => map_get (labels_of branch) k
        end).
Proof.
  unfold AddCodebaseLabel. wp_step. wp_step. wp_step. wp_step. wp_step; [done|].
  intros order [Hperm _]. cbn in Hperm.
  change (Permutation (map fst (map_to_list (labelsToSet branch codebaseName))) order) in Hperm.
  assert (Hget : ∀ k, map_get (fst (set_labels (labelsToSet branch codebaseName) order
      (labels_of branch) false)) k = match labelsToSet branch codebaseName !! k with
        | Some v => v | None => map_get (labels_of branch) k end).
  { intros k. rewrite set_labels_get. unfold map_get at 1.
    destruct (labelsToSet branch codebaseName !! k) as [v|] eqn:Hk.
    - rewrite bool_decide_true; [done|]. rewrite <- Hperm. apply elem_of_map_fst. eauto.
    - rewrite bool_decide_false; [done|]. rewrite <- Hperm.
      intros [v Hv]%elem_of_map_fst. by rewrite Hk in Hv. }
  destruct (set_labels _ _ _ _) as [labels upd]. cbn [fst] in Hget.
  wp_step. wp_step. wp_step; [by wp_step|]. wp_go. cbn in *.
  match goal with H : _ ∧ _ = _ |- _ => destruct H as [_ ->] end. done.
Qed.
