(* ===== verification/BranchChain.v ===== *)
(** * BranchChain: the handlers of a CodebaseBranch

    [src/controllers/codebasebranch/chain]: check_reference.go,
    put_branch_in_git/put_branch_in_git.go, process_new_version.go, util.go,
    put_codebase_image_stream/put_codebase_image_stream.go, handler, empty and factory; and
    [service/codebasebranch.go]. The state is the branch object the chain was given. *)

From S2P Require Import Prelude Api Effects Externals Urls Host ImageStreams CodebaseController.

(** ** handler/codebase_branch_handler.go *)

Definition NextServeOrNil (next : option (M CodebaseBranch unit)) : M CodebaseBranch unit :=
  match next with
  | None => ret tt
  | Some h => h ?> "failed to server handler in a chain: "
  end.

(** ** Status values

    The handlers rebuild the status from a literal; the fields a literal leaves out are reset. *)

Definition failed_status (action message : string) (now : Z) (s : CodebaseBranchStatus)
  : CodebaseBranchStatus :=
  {| bst_Status := StatusFailed; bst_LastTimeUpdated := now; bst_Username := "system";
     bst_Action := action; bst_Result := Error; bst_DetailedMessage := message;
     bst_Value := "failed"; bst_VersionHistory := bst_VersionHistory s;
     bst_LastSuccessfulBuild := bst_LastSuccessfulBuild s; bst_Build := bst_Build s;
     bst_FailureCount := bst_FailureCount s; bst_Git := bst_Git s;
     bst_Conditions := bst_Conditions s |}.

Definition branch_intermediate_status (action : string) (now : Z) (s : CodebaseBranchStatus)
  : CodebaseBranchStatus :=
  {| bst_Status := StatusInit; bst_LastTimeUpdated := now; bst_Username := "system";
     bst_Action := action; bst_Result := Success; bst_DetailedMessage := "";
     bst_Value := "inactive"; bst_VersionHistory := bst_VersionHistory s;
     bst_LastSuccessfulBuild := bst_LastSuccessfulBuild s; bst_Build := bst_Build s;
     bst_FailureCount := bst_FailureCount s; bst_Git := bst_Git s;
     bst_Conditions := bst_Conditions s |}.

(** The same two in put_codebase_image_stream.go, which leave out the failure count, and the
    failed one the last successful build. *)
Definition cis_failed_status (action message : string) (now : Z) (s : CodebaseBranchStatus)
  : CodebaseBranchStatus :=
  {| bst_Status := StatusFailed; bst_LastTimeUpdated := now; bst_Username := "system";
     bst_Action := action; bst_Result := Error; bst_DetailedMessage := message;
     bst_Value := "failed"; bst_VersionHistory := bst_VersionHistory s;
     bst_LastSuccessfulBuild := None; bst_Build := bst_Build s;
     bst_FailureCount := 0; bst_Git := bst_Git s; bst_Conditions := bst_Conditions s |}.

Definition cis_intermediate_status (action : string) (now : Z) (s : CodebaseBranchStatus)
  : CodebaseBranchStatus :=
  {| bst_Status := StatusInit; bst_LastTimeUpdated := now; bst_Username := "system";
     bst_Action := action; bst_Result := Success; bst_DetailedMessage := "";
     bst_Value := "inactive"; bst_VersionHistory := bst_VersionHistory s;
     bst_LastSuccessfulBuild := bst_LastSuccessfulBuild s; bst_Build := bst_Build s;
     bst_FailureCount := 0; bst_Git := bst_Git s; bst_Conditions := bst_Conditions s |}.

Definition set_branch_Git (git : string) (s : CodebaseBranchStatus) : CodebaseBranchStatus :=
  {| bst_LastTimeUpdated := bst_LastTimeUpdated s; bst_VersionHistory := bst_VersionHistory s;
     bst_LastSuccessfulBuild := bst_LastSuccessfulBuild s; bst_Build := bst_Build s;
     bst_Status := bst_Status s; bst_Username := bst_Username s; bst_Action := bst_Action s;
     bst_Result := bst_Result s; bst_DetailedMessage := bst_DetailedMessage s;
     bst_Value := bst_Value s; bst_FailureCount := bst_FailureCount s; bst_Git := git;
     bst_Conditions := bst_Conditions s |}.

(** [Status.Build], [Status.LastSuccessfulBuild] and [Status.VersionHistory]. *)
Definition set_versions (build last : option string) (history : list string)
    (s : CodebaseBranchStatus) : CodebaseBranchStatus :=
  {| bst_LastTimeUpdated := bst_LastTimeUpdated s; bst_VersionHistory := history;
     bst_LastSuccessfulBuild := last; bst_Build := build;
     bst_Status := bst_Status s; bst_Username := bst_Username s; bst_Action := bst_Action s;
     bst_Result := bst_Result s; bst_DetailedMessage := bst_DetailedMessage s;
     bst_Value := bst_Value s; bst_FailureCount := bst_FailureCount s; bst_Git := bst_Git s;
     bst_Conditions := bst_Conditions s |}.

Definition update_branch_status (f : CodebaseBranchStatus → CodebaseBranchStatus)
  : M CodebaseBranch unit := modify (λ b, b_with_status (f (b_Status b)) b).

(** ** check_reference.go *)

Definition processErr (err : error) : M CodebaseBranch unit :=
  t <- now ;;
  update_branch_status (failed_status CheckCommitHashExists (err_msg err) t) ;;;
  throw err.

(** [if err := m; err != nil { return c.processErr(branch, fmt.Errorf(p %w, err)) }] *)
Definition checked {A} (m : M CodebaseBranch A) (p : string) : M CodebaseBranch A :=
  orelse m (λ e, processErr (EWrap p e) ;;; throw (EWrap p e)).

Definition CheckReferenceExists_next (next : option (M CodebaseBranch unit)) : M CodebaseBranch unit :=
  NextServeOrNil next ?> "failed to serve next chain element: ".

Definition CheckReferenceExists_ServeRequest (next : option (M CodebaseBranch unit))
  : M CodebaseBranch unit :=
  codebaseBranch <- get ;;
  if bool_decide (bst_Git (b_Status codebaseBranch) = CodebaseBranchGitStatusBranchCreated)
  then CheckReferenceExists_next next
  else if bool_decide (bs_FromCommit (b_Spec codebaseBranch) = "")
  then CheckReferenceExists_next next
  else
    let ns := namespace_of codebaseBranch in
    codebase <- checked (k_get KCodebase ns (bs_CodebaseName (b_Spec codebaseBranch)))
      ("failed to get codebase " +:+ bs_CodebaseName (b_Spec codebaseBranch) +:+ ": ") ;;
    gitServer <- checked (k_get KGitServer ns (cs_GitServer (c_Spec codebase)))
      ("failed to get git server " +:+ cs_GitServer (c_Spec codebase) +:+ ": ") ;;
    secret <- checked (k_get KSecret ns (gs_NameSshKeySecret (g_Spec gitServer)))
      ("failed to get secret " +:+ gs_NameSshKeySecret (g_Spec gitServer) +:+ ": ") ;;
    let repoGitUrl := GetProjectGitUrl gitServer secret (GetProjectID (c_Spec codebase)) in
    checked (git (NewConfigFromGitServerAndSecret gitServer secret)
        (GResolveRemoteReference repoGitUrl (bs_FromCommit (b_Spec codebaseBranch))))
      ("reference " +:+ bs_FromCommit (b_Spec codebaseBranch) +:+ " doesn't exist: ") ;;;
    CheckReferenceExists_next next.

(** ** put_branch_in_git.go *)

Definition putGitBranchSetFailedFields (message : string) : M CodebaseBranch unit :=
  t <- now ;; update_branch_status (failed_status PutGitBranch message t).

(** Record the failure of [m] in the status, then return [wrapped err]. *)
Definition failing {A} (m : M CodebaseBranch A) (message : error → string) (wrapped : error → error)
  : M CodebaseBranch A :=
  orelse m (λ e, putGitBranchSetFailedFields (message e) ;;; throw (wrapped e)).

Definition PutBranchInGit_setIntermediateSuccessFields (action : string) : M CodebaseBranch unit :=
  t <- now ;;
  update_branch_status (branch_intermediate_status action t) ;;;
  cb <- get ;;
  status_update_self KCodebaseBranch
    ?> ("failed to update CodebaseBranch status field " +:+ go_quote (name_of cb) +:+ ": ").

Definition PutBranchInGit_next (next : option (M CodebaseBranch unit)) : M CodebaseBranch unit :=
  NextServeOrNil next ?> "failed to process next handler in chain: ".

(** The ref the branch starts from: the given commit, or the tip of the default branch. *)
Definition from_ref (branch : CodebaseBranch) (codebase : Codebase) : string :=
  if bool_decide (bs_FromCommit (b_Spec branch) = "") then cs_DefaultBranch (c_Spec codebase)
  else bs_FromCommit (b_Spec branch).

Definition record_branch_created : M CodebaseBranch unit :=
  update_branch_status (set_branch_Git CodebaseBranchGitStatusBranchCreated) ;;;
  orelse (status_update_self KCodebaseBranch) (λ err,
    update_branch_status (set_branch_Git "") ;;;
    putGitBranchSetFailedFields (err_msg err) ;;;
    throw (EWrap "failed to update CodebaseBranch status: " err)).

Definition create_branch_in_git : M CodebaseBranch unit :=
  branch <- get ;;
  let ns := namespace_of branch in
  codebase <- failing (k_get KCodebase ns (bs_CodebaseName (b_Spec branch)))
    err_msg (EWrap "failed to fetch Codebase: ") ;;
  if negb (cst_Available (c_Status codebase))
  then throw (EReconcile (name_of codebase +:+ " codebase is unavailable"))
  else
    gitServer <- failing (k_get KGitServer ns (cs_GitServer (c_Spec codebase)))
      err_msg (EWrap "failed to fetch GitServer: ") ;;
    let wrap_secret :=
      EWrap ("failed to get " +:+ gs_NameSshKeySecret (g_Spec gitServer) +:+ " secret: ") in
    secret <- failing (k_get KSecret ns (gs_NameSshKeySecret (g_Spec gitServer)))
      (λ e, err_msg (wrap_secret e)) wrap_secret ;;
    let repoGitUrl := GetProjectGitUrl gitServer secret (GetProjectID (c_Spec codebase)) in
    failing (git (NewConfigFromGitServerAndSecret gitServer secret)
        (GCreateRemoteBranchViaRefUpdate repoGitUrl (bs_BranchName (b_Spec branch))
           (from_ref branch codebase)))
      err_msg (EWrap "failed to create remote branch: ") ;;;
    record_branch_created.

Definition PutBranchInGit_ServeRequest (next : option (M CodebaseBranch unit)) : M CodebaseBranch unit :=
  branch <- get ;;
  if bool_decide (bst_Git (b_Status branch) = CodebaseBranchGitStatusBranchCreated)
  then PutBranchInGit_next next
  else
    PutBranchInGit_setIntermediateSuccessFields AcceptCodebaseBranchRegistration ;;;
    create_branch_in_git ;;;
    PutBranchInGit_next next.

(** ** util.go, process_new_version.go *)

Definition HasNewVersion (codebaseBranch : CodebaseBranch) : res bool :=
  match bs_Version (b_Spec codebaseBranch) with
  | None => Err (ENew ("codebase branch " +:+ name_of codebaseBranch +:+ " doesn't have version"))
  | Some v => Ok (negb (contains (bst_VersionHistory (b_Status codebaseBranch)) v))
  end.

Definition append_version (v : string) (s : CodebaseBranchStatus) : CodebaseBranchStatus :=
  set_versions (Some "0") None (bst_VersionHistory s ++ [v]) s.

Definition processNewVersion (codebase : Codebase) : M CodebaseBranch unit :=
  if negb (IsVersionTypeSemver (c_Spec codebase)) then ret tt
  else
    codebaseBranch <- get ;;
    hasVersion <- of_res (HasNewVersion codebaseBranch)
      ?> ("failed to check if branch " +:+ name_of codebaseBranch +:+ " has new version: ") ;;
    if negb hasVersion then ret tt
    else
      match bs_Version (b_Spec codebaseBranch) with
      | None => panic "nil pointer dereference"
      | Some v =>
        update_branch_status (append_version v) ;;;
        status_update_self KCodebaseBranch ?> "failed to update CodebaseBranch status: "
      end.

Definition ProcessNewVersion_ServeRequest (next : option (M CodebaseBranch unit))
  : M CodebaseBranch unit :=
  codebaseBranch <- get ;;
  codebase <- k_get KCodebase (namespace_of codebaseBranch) (bs_CodebaseName (b_Spec codebaseBranch))
    ?> "failed to get Codebase: " ;;
  processNewVersion codebase
    ?> ("failed to process new version for " +:+ name_of codebaseBranch +:+ " branch: ") ;;;
  NextServeOrNil next ?> "failed to serve next chain element: ".

(** ** put_codebase_image_stream.go *)

Section ImageStream.
Context {X : Externals}.

Definition cis_setFailedFields (a message : string) : M CodebaseBranch unit :=
  t <- now ;; update_branch_status (cis_failed_status a message t).

Definition PutCodebaseImageStream_setIntermediateSuccessFields (action : string)
  : M CodebaseBranch unit :=
  t <- now ;;
  update_branch_status (cis_intermediate_status action t) ;;;
  cb <- get ;;
  status_update_self KCodebaseBranch
    ?> ("failed to update CodebaseBranch status field " +:+ go_quote (name_of cb) +:+ ": ") ;;;
  cb <- get ;;
  update_self KCodebaseBranch
    ?> ("failed to update CodebaseBranch resource " +:+ go_quote (name_of cb) +:+ ": ").

Definition getDockerRegistryUrl {S} (namespace : string) : M S string :=
  config <- GetKrciConfig namespace ?> "failed to get config: " ;;
  if bool_decide (kc_ContainerRegistryHost config = "")
  then throw (ENew "container_registry_host is not set in krci-config config map")
  else if bool_decide (kc_ContainerRegistrySpace config = "")
  then throw (ENew "container_registry_space is not set in krci-config config map")
  else ret (kc_ContainerRegistryHost config +:+ "/" +:+ kc_ContainerRegistrySpace config).

Definition getCodebaseImageStream {S} (codebaseBranch : CodebaseBranch) : M S CodebaseImageStream :=
  found <- attempt (GetCodebaseImageStreamByCodebaseBaseBranchName (name_of codebaseBranch)
                      (namespace_of codebaseBranch)) ;;
  match found with
  | inl cis => ret cis
  | inr err =>
    if negb (err_is ErrCodebaseImageStreamNotFound err)
    then throw (EWrap "failed to get CodebaseImageStream: " err)
    else
      k_get KCodebaseImageStream (namespace_of codebaseBranch)
        (bs_CodebaseName (b_Spec codebaseBranch) +:+ "-"
         +:+ ProcessNameToK8sConvention (bs_BranchName (b_Spec codebaseBranch)))
      ?> "failed to get CodebaseImageStream: "
  end.

Definition branch_labels (codebaseBranch : CodebaseBranch) : list (string * string) :=
  [(CodebaseBranchLabel, name_of codebaseBranch);
   (CodebaseLabel, bs_CodebaseName (b_Spec codebaseBranch))].

(** The branch label set on an image stream that lacks it. *)
Definition label_image_stream {S} (codebaseBranch : CodebaseBranch) (cis : CodebaseImageStream)
  : M S unit :=
  if bool_decide (labels_of cis !! CodebaseBranchLabel = Some (name_of codebaseBranch)) then ret tt
  else
    k_patch KCodebaseImageStream cis
      (with_labels (<[CodebaseLabel := bs_CodebaseName (b_Spec codebaseBranch)]>
                      (<[CodebaseBranchLabel := name_of codebaseBranch]> (labels_of cis))) cis)
      ?> "failed to set branch label: " ;;;
    ret tt.

Definition new_image_stream (registryUrl : string) (codebaseBranch : CodebaseBranch)
  : CodebaseImageStream :=
  {| i_Meta := set_Labels (list_to_map (branch_labels codebaseBranch))
       (new_meta (name_of codebaseBranch) "" (namespace_of codebaseBranch));
     i_Spec := {| is_Codebase := bs_CodebaseName (b_Spec codebaseBranch);
                  is_ImageName := registryUrl +:+ "/" +:+ bs_CodebaseName (b_Spec codebaseBranch);
                  is_Tags := [] |};
     i_Status := {| ist_DetailedMessage := ""; ist_FailureCount := 0 |} |}.

Definition createCodebaseImageStreamIfNotExists {S} (codebaseBranch : CodebaseBranch) : M S unit :=
  found <- attempt (getCodebaseImageStream codebaseBranch) ;;
  match found with
  | inl cis => label_image_stream codebaseBranch cis
  | inr err =>
    if negb (IsNotFound err) then throw (EWrap "failed to get CodebaseImageStream: " err)
    else
      registryUrl <- getDockerRegistryUrl (namespace_of codebaseBranch)
        ?> "failed to get container registry url: " ;;
      let cis := new_image_stream registryUrl codebaseBranch in
      meta <- of_res (SetControllerReference "CodebaseBranch" (b_Meta codebaseBranch) (i_Meta cis))
        ?> "failed to set controller reference for CodebaseImageStream: " ;;
      k_create KCodebaseImageStream (obj_set_meta cis meta)
        ?> "failed to create CodebaseImageStream: " ;;;
      ret tt
  end.

Definition PutCodebaseImageStream_ServeRequest (next : option (M CodebaseBranch unit))
  : M CodebaseBranch unit :=
  PutCodebaseImageStream_setIntermediateSuccessFields PutCodebaseImageStream ;;;
  cb <- get ;;
  orelse (k_get KCodebase (namespace_of cb) (bs_CodebaseName (b_Spec cb))) (λ err,
    cis_setFailedFields PutCodebaseImageStream (err_msg err) ;;;
    throw (EWrap "failed to fetch Codebase resource: " err)) ;;;
  orelse (createCodebaseImageStreamIfNotExists cb) (λ err,
    cis_setFailedFields PutCodebaseImageStream (err_msg err) ;;; throw err) ;;;
  NextServeOrNil next ?> "failed to process next handler in chain: ".

(** ** factory/factory.go, empty/empty.go *)

Definition empty_chain_ServeRequest (logMessage : string) (returnError : bool) : M CodebaseBranch unit :=
  if returnError then throw (ENew logMessage) else ret tt.

Definition GetDeletionChain : M CodebaseBranch unit :=
  empty_chain_ServeRequest "no deletion chain for tekton" false.

Definition GetChain : M CodebaseBranch unit :=
  CheckReferenceExists_ServeRequest (Some
    (PutBranchInGit_ServeRequest (Some
      (ProcessNewVersion_ServeRequest (Some
        (PutCodebaseImageStream_ServeRequest None)))))).
End ImageStream.

(** ** service/codebasebranch.go *)

Definition service_updateStatus : M CodebaseBranch unit :=
  orelse (status_update_self KCodebaseBranch) (λ _,
    update_self KCodebaseBranch ?> "failed to update codebase branch status: ").

Definition AppendVersionToTheHistorySlice : M CodebaseBranch unit :=
  b <- get ;;
  match bs_Version (b_Spec b) with
  | None => ret tt
  | Some v =>
    update_branch_status (λ s, set_versions (bst_Build s) (bst_LastSuccessfulBuild s)
                                 (bst_VersionHistory s ++ [v]) s) ;;;
    service_updateStatus
  end.

Definition ResetBranchBuildCounter : M CodebaseBranch unit :=
  cb <- get ;;
  match bst_Build (b_Status cb) with
  | None => ret tt
  | Some _ =>
    update_branch_status (λ s, set_versions (Some "0") (bst_LastSuccessfulBuild s)
                                 (bst_VersionHistory s) s) ;;;
    service_updateStatus
  end.

Definition ResetBranchSuccessBuildCounter : M CodebaseBranch unit :=
  cb <- get ;;
  match bst_LastSuccessfulBuild (b_Status cb) with
  | None => ret tt
  | Some _ =>
    update_branch_status (λ s, set_versions (bst_Build s) None (bst_VersionHistory s) s) ;;;
    service_updateStatus
  end.
