(* ===== verification/BranchController.v ===== *)
(** * BranchController: one reconciliation of a CodebaseBranch

    [src/controllers/codebasebranch/codebasebranch_controller.go]. The state is the local
    variable [cb] of [Reconcile]. *)

From S2P Require Import Prelude Api Effects Externals Host ImageStreams CodebaseController BranchLabels BranchChain Simulation.

Definition codebaseBranchOperatorFinalizerName := "codebase.branch.operator.finalizer.name".
Definition errorStatus := "error".

(** ** Status *)

(** The zero failure count and detailed message are left out of the literal. *)
Definition success_status (action : string) (now : Z) (s : CodebaseBranchStatus) : CodebaseBranchStatus :=
  {| bst_LastTimeUpdated := now; bst_Username := "system"; bst_Action := action;
     bst_Result := Success; bst_Value := "active"; bst_Status := StatusFinished;
     bst_VersionHistory := bst_VersionHistory s; bst_LastSuccessfulBuild := bst_LastSuccessfulBuild s;
     bst_Build := bst_Build s; bst_Git := bst_Git s; bst_Conditions := bst_Conditions s;
     bst_DetailedMessage := ""; bst_FailureCount := 0 |}.

Definition set_branch_Conditions (l : list Condition) (s : CodebaseBranchStatus) : CodebaseBranchStatus :=
  {| bst_LastTimeUpdated := bst_LastTimeUpdated s; bst_VersionHistory := bst_VersionHistory s;
     bst_LastSuccessfulBuild := bst_LastSuccessfulBuild s; bst_Build := bst_Build s;
     bst_Status := bst_Status s; bst_Username := bst_Username s; bst_Action := bst_Action s;
     bst_Result := bst_Result s; bst_DetailedMessage := bst_DetailedMessage s;
     bst_Value := bst_Value s; bst_FailureCount := bst_FailureCount s; bst_Git := bst_Git s;
     bst_Conditions := l |}.

(** The freshly read branch with the status of [cb], except the conditions. *)
Definition merged_branch (cb cbbranch : CodebaseBranch) : CodebaseBranch :=
  b_with_status (set_branch_Conditions (bst_Conditions (b_Status cbbranch)) (b_Status cb)) cbbranch.

Definition branch_updateStatus : M CodebaseBranch unit :=
  cb <- get ;;
  cbbranch <- k_get KCodebaseBranch (namespace_of cb) (name_of cb) ?> "failed to get CodebaseBranch: " ;;
  k_status_update KCodebaseBranch (merged_branch cb cbbranch)
    ?> "failed to update CodebaseBranch status: " ;;;
  ret tt.

Definition setSuccessStatus (action : string) : M CodebaseBranch unit :=
  t <- now ;; update_branch_status (success_status action t) ;;; branch_updateStatus.

Definition incr_branch_failures (s : CodebaseBranchStatus) : CodebaseBranchStatus :=
  {| bst_LastTimeUpdated := bst_LastTimeUpdated s; bst_VersionHistory := bst_VersionHistory s;
     bst_LastSuccessfulBuild := bst_LastSuccessfulBuild s; bst_Build := bst_Build s;
     bst_Status := bst_Status s; bst_Username := bst_Username s; bst_Action := bst_Action s;
     bst_Result := bst_Result s; bst_DetailedMessage := bst_DetailedMessage s;
     bst_Value := bst_Value s; bst_FailureCount := int64 (bst_FailureCount s + 1);
     bst_Git := bst_Git s; bst_Conditions := bst_Conditions s |}.

Definition error_status (msg : string) (s : CodebaseBranchStatus) : CodebaseBranchStatus :=
  {| bst_LastTimeUpdated := bst_LastTimeUpdated s; bst_VersionHistory := bst_VersionHistory s;
     bst_LastSuccessfulBuild := bst_LastSuccessfulBuild s; bst_Build := bst_Build s;
     bst_Status := errorStatus; bst_Username := bst_Username s; bst_Action := bst_Action s;
     bst_Result := bst_Result s; bst_DetailedMessage := msg;
     bst_Value := bst_Value s; bst_FailureCount := bst_FailureCount s; bst_Git := bst_Git s;
     bst_Conditions := bst_Conditions s |}.
Definition setErrorStatus (msg : string) : M CodebaseBranch unit := update_branch_status (error_status msg).

(** ** Default values *)

Definition pipelinesIsSet (cb : CodebaseBranch) : bool :=
  match bs_Pipelines (b_Spec cb) !! "review", bs_Pipelines (b_Spec cb) !! "build" with
  | Some _, Some _ => true
  | _, _ => false
  end.

Definition codebaseTypeShorLen : nat := 3.

Fixpoint str_take (n : nat) (s : string) : string :=
  match n, s with
  | S n', String a s' => String a (str_take n' s')
  | _, _ => ""
  end.

Definition build_pipeline (gitServer : GitServer) (codebase : Codebase) : string :=
  gs_GitProvider (g_Spec gitServer) +:+ "-" +:+ to_lower (cs_BuildTool (c_Spec codebase))
  +:+ "-" +:+ to_lower (cs_Framework (c_Spec codebase))
  +:+ "-" +:+ str_take codebaseTypeShorLen (cs_Type (c_Spec codebase))
  +:+ "-build-" +:+ v_Type (cs_Versioning (c_Spec codebase)).
Definition review_pipeline (gitServer : GitServer) (codebase : Codebase) : string :=
  gs_GitProvider (g_Spec gitServer) +:+ "-" +:+ to_lower (cs_BuildTool (c_Spec codebase))
  +:+ "-" +:+ to_lower (cs_Framework (c_Spec codebase))
  +:+ "-" +:+ str_take codebaseTypeShorLen (cs_Type (c_Spec codebase)) +:+ "-review".

(** [if _, ok := m[k]; !ok { m[k] = v; changed = true }] *)
Definition set_default (k v : string) (mc : gmap string string * bool) : gmap string string * bool :=
  match fst mc !! k with Some _ => mc | None => (<[k := v]> (fst mc), true) end.

Definition setDefaultValues (codebase : Codebase) : M CodebaseBranch bool :=
  cb <- get ;;
  if pipelinesIsSet cb then ret false
  else if bool_decide (cs_CiTool (c_Spec codebase) = CIGitLab) then ret false
  else
    gitServer <- k_get KGitServer (namespace_of codebase) (cs_GitServer (c_Spec codebase))
      ?> "failed to get GitServer: " ;;
    if (String.length (cs_Type (c_Spec codebase)) <? codebaseTypeShorLen)%nat
    then throw (ENew ("codebase type is invalid: " +:+ cs_Type (c_Spec codebase)))
    else
      let '(pipelines, changed) :=
        set_default "review" (review_pipeline gitServer codebase)
          (set_default "build" (build_pipeline gitServer codebase) (bs_Pipelines (b_Spec cb), false)) in
      put (b_with_spec (set_Pipelines pipelines (b_Spec cb)) cb) ;;;
      ret changed.

Section Controller.
Context {X : Externals}.

(** A failed status update is only logged. *)
Definition branch_setFailureCount : M CodebaseBranch Z :=
  c <- get ;;
  let timeout := GetTimeout Duration_overflow (bst_FailureCount (b_Status c)) (10 * second)%Z in
  update_branch_status incr_branch_failures ;;;
  ret timeout.

Definition setOwnerRef (c : Codebase) : M CodebaseBranch unit :=
  cb <- get ;;
  meta <- of_res (SetControllerReference "Codebase" (c_Meta c) (b_Meta cb))
    ?> "failed to set owner ref for CodebaseBranch CR: " ;;
  put (obj_set_meta cb meta).

(** ** Deletion *)

Definition release_branch (ns name : string) : M CodebaseBranch unit :=
  cb <- k_get KCodebaseBranch ns name ;;
  put (obj_set_meta cb (RemoveFinalizer codebaseBranchOperatorFinalizerName (obj_meta cb))) ;;;
  update_self KCodebaseBranch.

(** An error of the deletion chain other than [ErrJobFailed] is dropped. *)
Definition tryToDeleteCodebaseBranch (deletionChain : M CodebaseBranch unit)
  : M CodebaseBranch (option Result) :=
  cb <- get ;;
  if negb (is_deleting cb) then
    let '(added, meta) := AddFinalizer codebaseBranchOperatorFinalizerName (obj_meta cb) in
    put (obj_set_meta cb meta) ;;;
    when added (update_self KCodebaseBranch
      ?> ("failed to add finalizer to " +:+ name_of cb +:+ ": ")) ;;;
    ret None
  else
    served <- attempt deletionChain ;;
    let job_failed := match served with inr err => err_is ErrJobFailed err | inl _ => false end in
    if job_failed : bool then
      timeout <- branch_setFailureCount ;;
      attempt (status_update_self KCodebaseBranch) ;;;
      ret (Some {| RequeueAfter := timeout |})
    else
      RetryOnConflict (release_branch (namespace_of cb) (name_of cb))
        ?> ("failed to remove finalizer from " +:+ name_of cb +:+ ": ") ;;;
      ret (Some no_result).

(** ** Reconcile *)

Definition init_build (c : Codebase) (cb : CodebaseBranch) : CodebaseBranch :=
  if IsVersionTypeSemver (c_Spec c) && bool_decide (bst_Build (b_Status cb) = None)
  then b_with_status (set_versions (Some "0") (bst_LastSuccessfulBuild (b_Status cb))
                        (bst_VersionHistory (b_Status cb)) (b_Status cb)) cb
  else cb.

Definition defaultPostponeTime : Z := 5 * second.

Definition serve_branch (c : Codebase) : M CodebaseBranch Result :=
  modify (init_build c) ;;;
  served <- attempt GetChain ;;
  match served with
  | inr err =>
    if is_reconcile_error err then ret {| RequeueAfter := defaultPostponeTime |}
    else
      timeout <- branch_setFailureCount ;;
      attempt branch_updateStatus ;;;
      throw (EWrap "failed to process default chain: " err)
  | inl _ =>
    cb <- get ;;
    setSuccessStatus CIConfiguration
      ?> ("failed to update Codebase " +:+ name_of cb +:+ " branch status: ") ;;;
    ret no_result
  end.

(** The error wrapped after a failed owner reference is the one of the status update; on its
    success the wrapped error is nil, printed as [%!w(<nil>)]. *)
Definition owner_ref_failed (err : error) : M CodebaseBranch Result :=
  setErrorStatus (err_msg err) ;;;
  cb <- get ;;
  let prefix := "failed to set OwnerRef for codebasebranch " +:+ name_of cb +:+ ": " in
  updated <- attempt branch_updateStatus ;;
  match updated with
  | inr e => throw (EWrap prefix e)
  | inl _ => throw (ENew (prefix +:+ "%!w(<nil>)"))
  end.

Definition try_delete_branch : M CodebaseBranch (option Result) :=
  cb <- get ;;
  tryToDeleteCodebaseBranch GetDeletionChain
    ?> ("failed to remove codebasebranch " +:+ name_of cb +:+ ": ").

Definition reconcile_branch (c : Codebase) : M CodebaseBranch Result :=
  updated <- setDefaultValues c ?> "failed to set default values: " ;;
  if updated : bool then
    update_self KCodebaseBranch ?> "failed to update CodebaseBranch: " ;;;
    ret no_result
  else
    owned <- attempt (setOwnerRef c) ;;
    match owned with
    | inr err => owner_ref_failed err
    | inl _ =>
      attempt (AddCodebaseLabel (name_of c)) ;;;
      result <- try_delete_branch ;;
      match result with
      | Some r => ret r
      | None => serve_branch c
      end
    end.

Definition ReconcileCodebaseBranch (request : ObjectKey) : M CodebaseBranch Result :=
  fetched <- attempt (do_res (CKube (KGet KCodebaseBranch request))) ;;
  match fetched with
  | inr err =>
    if IsNotFound err then ret no_result
    else throw (EWrap ("failed to fetch CodebaseBranch resource " +:+ quote_key request +:+ ": ") err)
  | inl cb =>
    put cb ;;;
    owner <- attempt (k_get KCodebase (namespace_of cb) (bs_CodebaseName (b_Spec cb))) ;;
    match owner with
    | inr err =>
      if IsNotFound err && is_deleting cb then
        result <- try_delete_branch ;;
        ret (default no_result result)
      else throw (EWrap "failed to get Codebase: " err)
    | inl c => reconcile_branch c
    end
  end.
End Controller.
