(* ===== verification/DeploymentUsage.v ===== *)
(** * DeploymentUsage: who still uses a codebase or a branch

    [src/pkg/deploymentusage], [src/pkg/codebasebranch/usage.go],
    [src/pkg/codebase/usage.go] and [src/pkg/codebase/index.go]: the references
    CDPipelines and Stages hold to codebases and branches. The index of the stale
    branch sweep and the admission webhooks read them through these functions. *)

From S2P Require Import Prelude Api Effects.

(** ** pkg/deploymentusage *)

Definition KindCDPipeline := "CDPipeline".
Definition KindStage := "Stage".
Definition FieldApplications := "spec.applications".
Definition FieldApplicationsToPromote := "spec.applicationsToPromote".
Definition FieldInputDockerStreams := "spec.inputDockerStreams".
Definition FieldQualityGateAutotest := "spec.qualityGates.autotestName".

Record Reference := {
  ref_Kind : string; ref_Name : string; ref_Field : string; ref_Reason : string;
  ref_ParentCDPipeline : string }.

(** [func (r Reference) String] *)
Definition ref_String (r : Reference) : string :=
  if bool_decide (ref_Kind r = KindStage)
  then KindStage +:+ " " +:+ ref_Name r +:+ " of " +:+ KindCDPipeline +:+ " "
       +:+ ref_ParentCDPipeline r +:+ " (" +:+ ref_Reason r +:+ ")"
  else ref_Kind r +:+ " " +:+ ref_Name r +:+ " (" +:+ ref_Reason r +:+ ")".

Definition Join (refs : list Reference) : string := str_join "; " (map ref_String refs).

(** The classifiers of apimachinery: [IsNoMatchError] unwraps, [IsNotRegisteredError] does not. *)
Definition IsKindUnavailable (e : error) : bool :=
  bool_decide (err_class e = Some NoKindMatch)
  || match e with EExt KindNotRegistered _ => true | _ => false end.

(** The loop that drops the items being deleted. *)
Definition active {O} `{Object O} (items : list O) : list O :=
  List.filter (λ o, negb (is_deleting o)) items.

Section Listing.
Context {S : Type}.

Definition ListActiveCDPipelines (namespace : string) : M S (list CDPipeline) :=
  pipelines <- attempt (k_list KCDPipeline namespace no_selector) ;;
  match pipelines with
  | inr err => if IsKindUnavailable err then ret []
               else throw (EWrap "failed to list CDPipelines: " err)
  | inl items => ret (active items)
  end.

Definition listActiveStages (namespace : string) : M S (list Stage) :=
  stages <- attempt (k_list KStage namespace no_selector) ;;
  match stages with
  | inr err => if IsKindUnavailable err then ret []
               else throw (EWrap "failed to list Stages: " err)
  | inl items => ret (active items)
  end.
End Listing.

Record AutotestGate := { ag_Reference : Reference; ag_AutotestName : string; ag_BranchName : string }.

(** The body of the two loops of [FindAutotestGates] for one gate: manual gates are dropped. *)
Definition autotest_gate (stage : Stage) (gate : QualityGate) : option AutotestGate :=
  match qg_AutotestName gate with
  | None => None
  | Some n =>
    if bool_decide (n = "") then None
    else Some {|
      ag_Reference := {| ref_Kind := KindStage; ref_Name := name_of stage;
        ref_Field := FieldQualityGateAutotest; ref_Reason := "autotest quality gate";
        ref_ParentCDPipeline := st_CdPipeline stage |};
      ag_AutotestName := n;
      ag_BranchName := default "" (qg_BranchName gate) |}
  end.

Definition gates_of (stages : list Stage) : list AutotestGate :=
  concat (map (λ stage, omap (autotest_gate stage) (st_QualityGates stage)) stages).

Definition FindAutotestGates {S} (namespace : string) : M S (list AutotestGate) :=
  stages <- listActiveStages namespace ;;
  ret (gates_of stages).

(** ** pkg/codebasebranch/usage.go *)

(** The key is the pair of a codebase name and a git branch name ([autotestGate]). *)
Record BranchUsageIndex := {
  byStreamName : gmap string (list Reference);
  byAutotest : gmap (string * string) (list Reference) }.

Definition empty_index : BranchUsageIndex := {| byStreamName := ∅; byAutotest := ∅ |}.

Definition pipeline_stream_ref (pipeline : CDPipeline) : Reference :=
  {| ref_Kind := KindCDPipeline; ref_Name := name_of pipeline; ref_Field := FieldInputDockerStreams;
     ref_Reason := "inputDockerStreams"; ref_ParentCDPipeline := "" |}.

(** [m[k] = append(m[k], v)] *)
Definition append_at {K V} `{Countable K} (k : K) (v : V) (m : gmap K (list V)) : gmap K (list V) :=
  <[k := default [] (m !! k) ++ [v]]> m.

(** The loop of [addPipeline] over the remaining streams. *)
Fixpoint add_streams (ref : Reference) (seen : gset string) (streams : list string)
    (m : gmap string (list Reference)) : gmap string (list Reference) :=
  match streams with
  | [] => m
  | stream :: streams' =>
    if bool_decide (stream ∈ seen) then add_streams ref seen streams' m
    else add_streams ref ({[stream]} ∪ seen) streams' (append_at stream ref m)
  end.

Definition addPipeline (i : BranchUsageIndex) (pipeline : CDPipeline) : BranchUsageIndex :=
  {| byStreamName := add_streams (pipeline_stream_ref pipeline) ∅ (p_InputDockerStreams pipeline)
                       (byStreamName i);
     byAutotest := byAutotest i |}.

Definition add_gate (i : BranchUsageIndex) (gate : AutotestGate) : BranchUsageIndex :=
  {| byStreamName := byStreamName i;
     byAutotest := append_at (ag_AutotestName gate, ag_BranchName gate) (ag_Reference gate)
                     (byAutotest i) |}.

Definition NewBranchUsageIndex {S} (namespace : string) : M S BranchUsageIndex :=
  pipelines <- ListActiveCDPipelines namespace ;;
  let index := fold_left addPipeline pipelines empty_index in
  gates <- FindAutotestGates namespace ;;
  ret (fold_left add_gate gates index).

Definition Find (i : BranchUsageIndex) (branch : CodebaseBranch) : list Reference :=
  let pipelineRefs := default [] (byStreamName i !! name_of branch) in
  let gateRefs :=
    default [] (byAutotest i !! (bs_CodebaseName (b_Spec branch), bs_BranchName (b_Spec branch))) in
  if bool_decide (length pipelineRefs = 0%nat) && bool_decide (length gateRefs = 0%nat) then []
  else pipelineRefs ++ gateRefs.

Definition FindBranchUsage {S} (branch : CodebaseBranch) : M S (list Reference) :=
  index <- NewBranchUsageIndex (namespace_of branch) ;;
  ret (Find index branch).

(** ** pkg/codebase/index.go and pkg/codebase/usage.go *)

Definition BranchCodebaseNameIndex := "spec.codebaseName".

(** The index values of a CodebaseBranch (the type assertion on the object is the argument's type). *)
Definition IndexBranchByCodebaseName (branch : CodebaseBranch) : list string :=
  if bool_decide (bs_CodebaseName (b_Spec branch) = "") then []
  else [bs_CodebaseName (b_Spec branch)].

Definition listBranchNames {S} (codebase : Codebase) : M S (gset string) :=
  branches <- attempt (k_list KCodebaseBranch (namespace_of codebase)
    {| sel_Labels := []; sel_Fields := [(BranchCodebaseNameIndex, name_of codebase)];
       sel_Limit := None |}) ;;
  match branches with
  | inr err => if IsKindUnavailable err then ret ∅
               else throw (EWrap "failed to list CodebaseBranches: " err)
  | inl items => ret (list_to_set (map name_of items))
  end.

(** The loop over the pipeline's streams: the first one that is a branch of the codebase. *)
Fixpoint first_branch_stream (branchNames : gset string) (streams : list string) : option string :=
  match streams with
  | [] => None
  | s :: streams' => if bool_decide (s ∈ branchNames) then Some s
                     else first_branch_stream branchNames streams'
  end.

(** [None] is the Go result [("", "", false)]. *)
Definition matchPipeline (pipeline : CDPipeline) (codebaseName : string) (branchNames : gset string)
  : option (string * string) :=
  if contains (p_Applications pipeline) codebaseName then Some (FieldApplications, "applications")
  else if contains (p_ApplicationsToPromote pipeline) codebaseName
  then Some (FieldApplicationsToPromote, "applicationsToPromote")
  else match first_branch_stream branchNames (p_InputDockerStreams pipeline) with
  | Some stream => Some (FieldInputDockerStreams, "branch " +:+ stream +:+ " in inputDockerStreams")
  | None => None
  end.

Definition codebase_pipeline_ref (codebaseName : string) (branchNames : gset string)
    (pipeline : CDPipeline) : option Reference :=
  match matchPipeline pipeline codebaseName branchNames with
  | None => None
  | Some (field, reason) =>
    Some {| ref_Kind := KindCDPipeline; ref_Name := name_of pipeline; ref_Field := field;
            ref_Reason := reason; ref_ParentCDPipeline := "" |}
  end.

Definition FindCodebaseUsage {S} (codebase : Codebase) : M S (list Reference) :=
  pipelines <- ListActiveCDPipelines (namespace_of codebase) ;;
  branchNames <- listBranchNames codebase ;;
  let refs := omap (codebase_pipeline_ref (name_of codebase) branchNames) pipelines in
  gates <- FindAutotestGates (namespace_of codebase) ;;
  ret (refs ++ map ag_Reference
    (List.filter (λ gate, bool_decide (ag_AutotestName gate = name_of codebase)) gates)).

(** ** The specification: which resources use a branch, a codebase *)

Definition branch_usage_spec (pipelines : list CDPipeline) (stages : list Stage)
    (branch : CodebaseBranch) : list Reference :=
  map pipeline_stream_ref
    (List.filter (λ p, bool_decide (name_of branch ∈ p_InputDockerStreams p)) (active pipelines))
  ++ map ag_Reference
    (List.filter (λ g, bool_decide ((ag_AutotestName g, ag_BranchName g)
                     = (bs_CodebaseName (b_Spec branch), bs_BranchName (b_Spec branch))))
      (gates_of (active stages))).

Definition codebase_usage_spec (pipelines : list CDPipeline) (stages : list Stage)
    (branches : list CodebaseBranch) (codebase : Codebase) : list Reference :=
  omap (codebase_pipeline_ref (name_of codebase) (list_to_set (map name_of branches)))
    (active pipelines)
  ++ map ag_Reference
    (List.filter (λ g, bool_decide (ag_AutotestName g = name_of codebase))
      (gates_of (active stages))).

(** A pipeline uses a codebase as an application, to promote, or through a branch. *)
Definition pipeline_uses (codebaseName : string) (branchNames : gset string) (p : CDPipeline) : Prop :=
  codebaseName ∈ p_Applications p ∨ codebaseName ∈ p_ApplicationsToPromote p
  ∨ ∃ s, s ∈ p_InputDockerStreams p ∧ s ∈ branchNames.

(** A stage runs the codebase as an autotest. *)
Definition stage_uses (codebaseName : string) (st : Stage) : Prop :=
  codebaseName ≠ "" ∧ ∃ g, g ∈ st_QualityGates st ∧ qg_AutotestName g = Some codebaseName.

(** What the cluster answers to the three listings. *)
Definition cluster (pipelines : list CDPipeline) (stages : list Stage) (branches : list CodebaseBranch)
  : ∀ R, call R → R → Prop :=
  when_list (λ O k _ _, match k in kind O return res (list O) → Prop with
    | KCDPipeline => λ r, r = Ok pipelines
    | KStage => λ r, r = Ok stages
    | KCodebaseBranch => λ r, r = Ok branches
    | _ => λ _, True
    end).

(** ** Lemmas *)

Lemma append_at_lookup {K V} `{Countable K} (k k' : K) (v : V) m :
  default [] (append_at k v m !! k') =
  default [] (m !! k') ++ (if decide (k = k') then [v] else []).
Proof.
  unfold append_at. rewrite lookup_insert. case_decide; subst; cbn; [done|]. by rewrite app_nil_r.
Qed.

Lemma add_streams_lookup ref seen streams m s :
  default [] (add_streams ref seen streams m !! s) =
  default [] (m !! s) ++ (if bool_decide (s ∈ streams ∧ s ∉ seen) then [ref] else []).
Proof.
  revert seen m. induction streams as [|x streams IH]; intros seen m; cbn.
  - case_bool_decide; [set_solver|by rewrite app_nil_r].
  - case_bool_decide as Hx; rewrite IH.
    + f_equal. repeat case_bool_decide; first [done | exfalso; set_solver].
    + rewrite append_at_lookup, <- app_assoc. f_equal.
      destruct (decide (x = s)); subst; repeat case_bool_decide; first [done | exfalso; set_solver].
Qed.

Lemma addPipelines_lookup ps i s :
  default [] (byStreamName (fold_left addPipeline ps i) !! s) =
  default [] (byStreamName i !! s) ++
  map pipeline_stream_ref (List.filter (λ p, bool_decide (s ∈ p_InputDockerStreams p)) ps).
Proof.
  revert i. induction ps as [|p ps IH]; intros i; cbn; [by rewrite app_nil_r|].
  rewrite IH. cbn. rewrite add_streams_lookup, <- app_assoc. f_equal.
  repeat case_bool_decide; first [done | exfalso; set_solver].
Qed.

Lemma addPipelines_autotest ps i : byAutotest (fold_left addPipeline ps i) = byAutotest i.
Proof. revert i. induction ps as [|p ps IH]; intros i; cbn; [done|]. by rewrite IH. Qed.

Lemma add_gates_stream gs i : byStreamName (fold_left add_gate gs i) = byStreamName i.
Proof. revert i. induction gs as [|g gs IH]; intros i; cbn; [done|]. by rewrite IH. Qed.

Lemma add_gates_lookup gs i k :
  default [] (byAutotest (fold_left add_gate gs i) !! k) =
  default [] (byAutotest i !! k) ++
  map ag_Reference (List.filter (λ g, bool_decide ((ag_AutotestName g, ag_BranchName g) = k)) gs).
Proof.
  revert i. induction gs as [|g gs IH]; intros i; cbn; [by rewrite app_nil_r|].
  rewrite IH. cbn. rewrite append_at_lookup, <- app_assoc. f_equal.
  case_decide; [rewrite bool_decide_true by done|rewrite bool_decide_false by done]; done.
Qed.

Lemma Find_app i b :
  Find i b = default [] (byStreamName i !! name_of b)
    ++ default [] (byAutotest i !! (bs_CodebaseName (b_Spec b), bs_BranchName (b_Spec b))).
Proof.
  unfold Find. set (l1 := default [] (byStreamName i !! _)). set (l2 := default [] (byAutotest i !! _)).
  clearbody l1 l2. by destruct l1, l2.
Qed.

Lemma Find_spec pipelines stages b :
  Find (fold_left add_gate (gates_of (active stages))
    (fold_left addPipeline (active pipelines) empty_index)) b
  = branch_usage_spec pipelines stages b.
Proof.
  rewrite Find_app, add_gates_stream, addPipelines_lookup, add_gates_lookup, addPipelines_autotest.
  done.
Qed.

Lemma first_branch_stream_spec names streams :
  match first_branch_stream names streams with
  | Some s => s ∈ streams ∧ s ∈ names
  | None => ∀ s, s ∈ streams → s ∉ names
  end.
Proof.
  induction streams as [|x streams IH]; cbn; [set_solver|].
  case_bool_decide; [set_solver|].
  destruct (first_branch_stream names streams); set_solver.
Qed.

Lemma matchPipeline_uses p n names :
  is_Some (matchPipeline p n names) ↔ pipeline_uses n names p.
Proof.
  unfold matchPipeline, pipeline_uses, contains.
  case_bool_decide; [naive_solver|]. case_bool_decide; [naive_solver|].
  pose proof (first_branch_stream_spec names (p_InputDockerStreams p)) as Hs.
  destruct (first_branch_stream _ _); naive_solver.
Qed.

Lemma autotest_gate_uses stages n :
  (∃ g, g ∈ gates_of stages ∧ ag_AutotestName g = n) ↔ ∃ st, st ∈ stages ∧ stage_uses n st.
Proof.
  unfold gates_of, stage_uses. split.
  - intros (g & Hg & Hn).
    apply list_elem_of_In, in_concat in Hg as (l & Hl & Hg).
    apply in_map_iff in Hl as (st & <- & Hst).
    apply list_elem_of_In, list_elem_of_omap in Hg as (q & Hq & Hqg).
    exists st. split; [by apply list_elem_of_In|].
    unfold autotest_gate in Hqg. destruct (qg_AutotestName q) eqn:Hname; [|done].
    case_bool_decide; [done|]. injection Hqg as <-. cbn in Hn. subst. eauto.
  - intros (st & Hst & Hne & q & Hq & Hname).
    eexists {| ag_Reference := _; ag_AutotestName := n; ag_BranchName := default "" (qg_BranchName q) |}.
    split; [|done]. apply list_elem_of_In, in_concat.
    exists (omap (autotest_gate st) (st_QualityGates st)). split.
    + apply in_map_iff. exists st. split; [done|by apply list_elem_of_In].
    + apply list_elem_of_In, list_elem_of_omap. exists q. split; [done|].
      unfold autotest_gate. rewrite Hname, bool_decide_false by done. reflexivity.
Qed.

Lemma elem_of_active {O} `{Object O} (o : O) l :
  o ∈ active l ↔ o ∈ l ∧ om_DeletionTimestamp (obj_meta o) = None.
Proof.
  unfold active. rewrite !list_elem_of_In, filter_In. unfold is_deleting.
  destruct (om_DeletionTimestamp _); cbn; naive_solver.
Qed.

(** Every listing succeeds under [cluster]; the reads then compute. *)
Lemma wp_ListActiveCDPipelines {S} ps ss bs ns (s : S) Q :
  Q (Ok (active ps)) s tt → wp (assuming (cluster ps ss bs)) (ListActiveCDPipelines ns) s tt Q.
Proof. intros HQ. unfold ListActiveCDPipelines. wp_go; cbn in *; by simplify_eq. Qed.

Lemma wp_FindAutotestGates {S} ps ss bs ns (s : S) Q :
  Q (Ok (gates_of (active ss))) s tt → wp (assuming (cluster ps ss bs)) (FindAutotestGates ns) s tt Q.
Proof. intros HQ. unfold FindAutotestGates, listActiveStages. wp_go; cbn in *; by simplify_eq. Qed.

Lemma wp_listBranchNames {S} ps ss bs c (s : S) Q :
  Q (Ok (list_to_set (map name_of bs))) s tt →
  wp (assuming (cluster ps ss bs)) (listBranchNames c) s tt Q.
Proof. intros HQ. unfold listBranchNames. wp_go; cbn in *; by simplify_eq. Qed.

Lemma wp_FindBranchUsage {S} pipelines stages branches branch (s : S)
    (Q : res (list Reference) → S → unit → Prop) :
  Q (Ok (branch_usage_spec pipelines stages branch)) s tt →
  wp (assuming (cluster pipelines stages branches)) (FindBranchUsage branch) s tt Q.
Proof.
  intros HQ. unfold FindBranchUsage, NewBranchUsageIndex.
  repeat first [wp_step | apply wp_ListActiveCDPipelines | apply wp_FindAutotestGates].
  by rewrite Find_spec.
Qed.

Lemma wp_FindCodebaseUsage {S} pipelines stages branches codebase (s : S)
    (Q : res (list Reference) → S → unit → Prop) :
  Q (Ok (codebase_usage_spec pipelines stages branches codebase)) s tt →
  wp (assuming (cluster pipelines stages branches)) (FindCodebaseUsage codebase) s tt Q.
Proof.
  intros HQ. unfold FindCodebaseUsage.
  by repeat first [wp_step | apply wp_ListActiveCDPipelines | apply wp_listBranchNames
               | apply wp_FindAutotestGates].
Qed.

(** Nothing active uses the codebase. *)
Definition codebase_unused (pipelines : list CDPipeline) (stages : list Stage)
    (branches : list CodebaseBranch) (codebase : Codebase) : Prop :=
  (∀ p, p ∈ pipelines → om_DeletionTimestamp (p_Meta p) = None →
    ¬ pipeline_uses (name_of codebase) (list_to_set (map name_of branches)) p)
  ∧ (∀ st, st ∈ stages → om_DeletionTimestamp (st_Meta st) = None →
    ¬ stage_uses (name_of codebase) st).

Lemma pipeline_refs_nil_iff pipelines name names :
  omap (codebase_pipeline_ref name names) (active pipelines) = [] ↔
  ∀ p, p ∈ pipelines → om_DeletionTimestamp (p_Meta p) = None → ¬ pipeline_uses name names p.
Proof.
  assert (Hp : ∀ p, is_Some (codebase_pipeline_ref name names p) ↔ pipeline_uses name names p).
  { intros p. rewrite <- matchPipeline_uses. unfold codebase_pipeline_ref.
    destruct (matchPipeline _ _ _) as [[f r]|]; split; intros [? ?]; eauto; done. }
  split.
  - intros Hnil p Hin Hdel Huse. apply Hp in Huse as [r Hr].
    enough (r ∈ omap (codebase_pipeline_ref name names) (active pipelines)) as H
      by (rewrite Hnil in H; set_solver).
    apply list_elem_of_omap. exists p. split; [by apply elem_of_active|done].
  - intros H. apply elem_of_nil_inv. intros ref Hr. apply list_elem_of_omap in Hr as (p & Hin & Hr).
    apply elem_of_active in Hin as [Hin Hdel]. apply (H p Hin Hdel), Hp. eauto.
Qed.

Lemma gate_refs_nil_iff stages name :
  List.filter (λ g, bool_decide (ag_AutotestName g = name)) (gates_of (active stages)) = [] ↔
  ∀ st, st ∈ stages → om_DeletionTimestamp (st_Meta st) = None → ¬ stage_uses name st.
Proof.
  split.
  - intros Hnil st Hin Hdel Huse.
    destruct (proj2 (autotest_gate_uses (active stages) name)) as (g & Hg & Hn).
    { exists st. split; [by apply elem_of_active|done]. }
    assert (In g []) as []. rewrite <- Hnil. apply filter_In.
    split; [by apply list_elem_of_In|by rewrite bool_decide_true].
  - intros H. destruct (List.filter _ _) as [|g l] eqn:Hf; [done|].
    assert (In g (g :: l)) as Hin by by left. rewrite <- Hf in Hin.
    apply filter_In in Hin as [Hin Hn]. apply bool_decide_eq_true in Hn.
    destruct (proj1 (autotest_gate_uses (active stages) name)) as (st & Hst & Hu).
    { exists g. split; [by apply list_elem_of_In|done]. }
    apply elem_of_active in Hst as [Hst Hdel]. exfalso. by apply (H st Hst Hdel).
Qed.

Lemma codebase_usage_nil_iff pipelines stages branches codebase :
  codebase_usage_spec pipelines stages branches codebase = [] ↔
  codebase_unused pipelines stages branches codebase.
Proof.
  unfold codebase_usage_spec, codebase_unused.
  rewrite app_nil, <- pipeline_refs_nil_iff, <- gate_refs_nil_iff.
  split; intros [H1 H2]; (split; [done|]); [by apply map_eq_nil in H2|by rewrite H2].
Qed.

(** ** Properties *)

(** C31: When the listings succeed, the references reported for a branch are the active
    pipelines that stream it, then the autotest gates of active stages on its codebase and
    git branch, in listing order, each pipeline once. *)
Theorem FindBranchUsage_spec {S} pipelines stages branches branch (s : S) :
  wp (assuming (cluster pipelines stages branches)) (FindBranchUsage branch) s tt
    (λ r s' _, r = Ok (branch_usage_spec pipelines stages branch) ∧ s' = s).
Proof. by apply wp_FindBranchUsage. Qed.

(** When the listings succeed, no reference is reported for a codebase exactly when no
    active pipeline uses it (as an application, to promote, or through the stream of one
    of its branches) and no active stage runs it as an autotest. *)
Theorem FindCodebaseUsage_unused_iff {S} pipelines stages branches codebase (s : S) :
  wp (assuming (cluster pipelines stages branches)) (FindCodebaseUsage codebase) s tt
    (λ r s' _, s' = s ∧ ∃ refs, r = Ok refs ∧
      (refs = [] ↔ codebase_unused pipelines stages branches codebase)).
Proof.
  apply wp_FindCodebaseUsage. split; [done|]. eexists. split; [done|].
  apply codebase_usage_nil_iff.
Qed.
