(* ===== verification/StaleCheck.v ===== *)
(** * StaleCheck: the sweep over branches that vanished from git

    [src/controllers/codebasebranch/stalecheck]: checker.go, action.go,
    cleanup_action.go. A branch object of the sweep is a local copy that the actions
    mutate; the sweep itself keeps no state. [Start] runs [sweep] at startup and on
    every tick. *)

From S2P Require Import Prelude Api Effects Externals Urls DeploymentUsage.

(** ** action.go *)

Definition EventTypeNormal := "Normal".
Definition EventTypeWarning := "Warning".
Definition EventReasonBranchStale := "BranchStale".
Definition EventReasonBranchStaleResolved := "BranchStaleResolved".
Definition EventReasonStaleBranchDeleted := "StaleBranchDeleted".
Definition EventReasonStaleBranchRetained := "StaleBranchRetained".

Record Verdict := { ExistsInGit : bool; RetainedBy : string }.

(** The condition wanted for a verdict; [SetStatusCondition] stamps the time. *)
Definition stale_condition (branch : CodebaseBranch) (verdict : Verdict) : Condition :=
  if ExistsInGit verdict then
    {| cond_Type := ConditionStale; cond_Status := "False"; cond_Reason := ReasonBranchFoundInGit;
       cond_Message := "Branch exists in the git repository";
       cond_ObservedGeneration := om_Generation (b_Meta branch); cond_LastTransitionTime := 0 |}
  else
    {| cond_Type := ConditionStale; cond_Status := "True"; cond_Reason := ReasonBranchNotFoundInGit;
       cond_Message :=
         if bool_decide (RetainedBy verdict = "") then "Branch was not found in the git repository"
         else "Branch was not found in the git repository; retained because it is used by "
              +:+ RetainedBy verdict;
       cond_ObservedGeneration := om_Generation (b_Meta branch); cond_LastTransitionTime := 0 |}.

Definition set_Conditions (l : list Condition) (s : CodebaseBranchStatus) : CodebaseBranchStatus :=
  {| bst_LastTimeUpdated := bst_LastTimeUpdated s; bst_VersionHistory := bst_VersionHistory s;
     bst_LastSuccessfulBuild := bst_LastSuccessfulBuild s; bst_Build := bst_Build s;
     bst_Status := bst_Status s; bst_Username := bst_Username s; bst_Action := bst_Action s;
     bst_Result := bst_Result s; bst_DetailedMessage := bst_DetailedMessage s;
     bst_Value := bst_Value s; bst_FailureCount := bst_FailureCount s; bst_Git := bst_Git s;
     bst_Conditions := l |}.

(** The label map the verdict wants; [None] when the labels are up to date. *)
Definition stale_labels (labels : gmap string string) (verdict : Verdict) : option (gmap string string) :=
  let upToDate :=
    if ExistsInGit verdict then bool_decide (labels !! StaleLabel = None)
    else bool_decide (map_get labels StaleLabel = "true") in
  if upToDate then None
  else Some (if ExistsInGit verdict then delete StaleLabel labels
             else <[StaleLabel := "true"]> labels).

Section Actions.
Context {X : Externals}.

Definition updateStatusCondition (verdict : Verdict) : M CodebaseBranch unit :=
  original <- get ;;
  t <- now ;;
  let '(conditions, changed) :=
    SetStatusCondition t (stale_condition original verdict) (bst_Conditions (b_Status original)) in
  put (b_with_status (set_Conditions conditions (b_Status original)) original) ;;;
  if negb changed then ret tt
  else status_patch_self KCodebaseBranch original
    ?> ("failed to patch Stale condition on CodebaseBranch " +:+ name_of original +:+ ": ").

Definition updateStaleLabel (verdict : Verdict) : M CodebaseBranch unit :=
  original <- get ;;
  match stale_labels (labels_of original) verdict with
  | None => ret tt
  | Some labels =>
    put (with_labels labels original) ;;;
    patch_self KCodebaseBranch original
      ?> ("failed to patch stale label on CodebaseBranch " +:+ name_of original +:+ ": ")
  end.

(** [recorder]: the event recorder is configured. *)
Definition emitTransitionEvent {S} (recorder : bool) (branch : CodebaseBranch) (wasStale : bool)
    (verdict : Verdict) : M S unit :=
  let name := bs_BranchName (b_Spec branch) in
  if negb recorder then ret tt
  else if negb wasStale && negb (ExistsInGit verdict) then
    if negb (bool_decide (RetainedBy verdict = "")) then
      sys (Eventf EventTypeWarning EventReasonStaleBranchRetained
        ("Branch " +:+ name +:+ " was not found in the git repository; it is marked as stale but retained because it is used by " +:+ RetainedBy verdict))
    else
      sys (Eventf EventTypeWarning EventReasonBranchStale
        ("Branch " +:+ name +:+ " was not found in the git repository and is marked as stale"))
  else if wasStale && ExistsInGit verdict then
    sys (Eventf EventTypeNormal EventReasonBranchStaleResolved
      ("Branch " +:+ name +:+ " exists in the git repository again, stale mark removed"))
  else ret tt.

Definition MarkAction_Apply (recorder : bool) (verdict : Verdict) : M CodebaseBranch unit :=
  branch <- get ;;
  let wasStale := IsStatusConditionTrue (bst_Conditions (b_Status branch)) ConditionStale in
  updateStatusCondition verdict ;;;
  updateStaleLabel verdict ;;;
  branch <- get ;;
  emitTransitionEvent recorder branch wasStale verdict.

(** ** cleanup_action.go *)

Definition CleanupAction_Apply (recorder : bool) (verdict : Verdict) : M CodebaseBranch unit :=
  if ExistsInGit verdict || negb (bool_decide (RetainedBy verdict = ""))
  then MarkAction_Apply recorder verdict
  else
    branch <- get ;;
    when recorder (sys (Eventf EventTypeNormal EventReasonStaleBranchDeleted
      ("Branch " +:+ bs_BranchName (b_Spec branch) +:+ " was not found in the git repository and is not used by any deployment, deleting"))) ;;;
    k_delete KCodebaseBranch (namespace_of branch) (name_of branch)
      ?> ("failed to delete stale CodebaseBranch " +:+ name_of branch +:+ ": ").

(** ** checker.go *)

Definition eligibleForCheck (branch : CodebaseBranch) (codebase : Codebase) : bool :=
  if is_deleting branch then false
  else if negb (bool_decide (bst_Git (b_Status branch) = CodebaseBranchGitStatusBranchCreated))
  then false
  else negb (bool_decide (bs_BranchName (b_Spec branch) = cs_DefaultBranch (c_Spec codebase))).

Definition auto_cleanup (codebase : Codebase) : bool :=
  bool_decide (map_get (om_Annotations (c_Meta codebase)) BranchCleanupStrategyAnnotation
               = BranchCleanupStrategyAuto).

Definition verdict_of (codebase : Codebase) (usage : BranchUsageIndex) (remoteBranches : list string)
    (branch : CodebaseBranch) : Verdict :=
  let exists_ := contains remoteBranches (bs_BranchName (b_Spec branch)) in
  {| ExistsInGit := exists_;
     RetainedBy := if auto_cleanup codebase && negb exists_ then Join (Find usage branch) else "" |}.

(** A failing verdict is logged and the loop goes on. *)
Definition check_branch {S} (recorder : bool) (codebase : Codebase) (usage : BranchUsageIndex)
    (remoteBranches : list string) (branch : CodebaseBranch) : M S unit :=
  if negb (eligibleForCheck branch codebase) then ret tt
  else
    let verdict := verdict_of codebase usage remoteBranches branch in
    ' (r, _) <- with_state branch
      (attempt (if auto_cleanup codebase then CleanupAction_Apply recorder verdict
                else MarkAction_Apply recorder verdict)) ;;
    _ <- of_res r ;; ret tt.

Definition checkCodebaseBranches {S} (recorder : bool) (namespace codebaseName : string)
    (branches : list CodebaseBranch) (usage : BranchUsageIndex) : M S unit :=
  codebase <- k_get KCodebase namespace codebaseName
    ?> ("failed to get codebase " +:+ codebaseName +:+ ": ") ;;
  gitServer <- k_get KGitServer namespace (cs_GitServer (c_Spec codebase))
    ?> ("failed to get git server " +:+ cs_GitServer (c_Spec codebase) +:+ ": ") ;;
  secret <- k_get KSecret namespace (gs_NameSshKeySecret (g_Spec gitServer))
    ?> ("failed to get secret " +:+ gs_NameSshKeySecret (g_Spec gitServer) +:+ ": ") ;;
  let repoURL := GetProjectGitUrl gitServer secret (GetProjectID (c_Spec codebase)) in
  remoteBranches <- git (NewConfigFromGitServerAndSecret gitServer secret)
      (GListRemoteBranches repoURL)
    ?> ("failed to list remote branches for " +:+ repoURL +:+ ", skipping staleness check: ") ;;
  for_each branches (check_branch recorder codebase usage remoteBranches).

(** [branchesByCodebase] *)
Definition group_by_codebase (branches : list CodebaseBranch) : gmap string (list CodebaseBranch) :=
  fold_left (λ m b, append_at (bs_CodebaseName (b_Spec b)) b m) branches ∅.

Definition sweep {S} (recorder : bool) (namespace : string) : M S unit :=
  branches <- attempt (k_list KCodebaseBranch namespace no_selector) ;;
  match branches with
  | inr _ => ret tt
  | inl branches =>
    usage <- attempt (NewBranchUsageIndex namespace) ;;
    match usage with
    | inr _ => ret tt
    | inl usage =>
      let branchesByCodebase := group_by_codebase branches in
      order <- sys (RangeMap (map fst (map_to_list branchesByCodebase))) ;;
      for_each order (λ codebaseName,
        attempt (checkCodebaseBranches recorder namespace codebaseName
          (default [] (branchesByCodebase !! codebaseName)) usage) ;;;
        ret tt)
    end
  end.

(** [Start] with the ticks that arrive before the context is done; [time.NewTicker] panics
    without a positive interval. *)
Definition Start {S} (recorder : bool) (namespace : string) (interval : Z) (ticks : nat) : M S unit :=
  sweep recorder namespace ;;;
  if (interval <=? 0)%Z then panic "non-positive interval for NewTicker"
  else for_each (repeat tt ticks) (λ _, sweep recorder namespace).

Definition NeedLeaderElection : bool := true.
End Actions.

(** ** The contract of a sweep

    What the sweep has seen: the branches, pipelines and stages of its snapshot, and the
    codebase and remote branch listing it is working on. *)

Record sighting := {
  sn_branches : list CodebaseBranch; sn_pipelines : list CDPipeline; sn_stages : list Stage;
  sn_codebase : option Codebase; sn_remote : option (list string) }.

Definition nothing_seen : sighting :=
  {| sn_branches := []; sn_pipelines := []; sn_stages := []; sn_codebase := None; sn_remote := None |}.

Definition ok_or_nil {A} (r : res (list A)) : list A := match r with Ok l => l | _ => [] end.
Definition ok_or_none {A} (r : res A) : option A := match r with Ok a => Some a | _ => None end.

Definition see_list {O} (k : kind O) : res (list O) → sighting → sighting :=
  match k in kind O return res (list O) → sighting → sighting with
  | KCodebaseBranch => λ r g, {| sn_branches := ok_or_nil r; sn_pipelines := sn_pipelines g;
      sn_stages := sn_stages g; sn_codebase := sn_codebase g; sn_remote := sn_remote g |}
  | KCDPipeline => λ r g, {| sn_branches := sn_branches g; sn_pipelines := ok_or_nil r;
      sn_stages := sn_stages g; sn_codebase := sn_codebase g; sn_remote := sn_remote g |}
  | KStage => λ r g, {| sn_branches := sn_branches g; sn_pipelines := sn_pipelines g;
      sn_stages := ok_or_nil r; sn_codebase := sn_codebase g; sn_remote := sn_remote g |}
  | _ => λ _ g, g
  end.

(** A codebase starts a new listing. *)
Definition see_get {O} (k : kind O) : res O → sighting → sighting :=
  match k in kind O return res O → sighting → sighting with
  | KCodebase => λ r g, {| sn_branches := sn_branches g; sn_pipelines := sn_pipelines g;
      sn_stages := sn_stages g; sn_codebase := ok_or_none r; sn_remote := None |}
  | _ => λ _ g, g
  end.

(** A branch may be deleted when its codebase opted in, its listing succeeded without it,
    it was eligible and nothing active uses it. *)
Definition deletable (g : sighting) (key : ObjectKey) : Prop :=
  ∃ b c l, b ∈ sn_branches g ∧ key = {| key_Namespace := namespace_of b; key_Name := name_of b |}
    ∧ sn_codebase g = Some c ∧ name_of c = bs_CodebaseName (b_Spec b) ∧ sn_remote g = Some l
    ∧ auto_cleanup c = true ∧ eligibleForCheck b c = true ∧ (bs_BranchName (b_Spec b) ∉ l)
    ∧ branch_usage_spec (sn_pipelines g) (sn_stages g) b = [].

Definition is_branch_kind {O} (k : kind O) : bool := match k with KCodebaseBranch => true | _ => false end.

Definition sweep_guar (g : sighting) : ∀ R, call R → Prop := guard_kube (λ R c,
  match c with
  | KGet _ _ => True
  | KList _ _ _ => True
  | KDelete k key => is_branch_kind k = true ∧ deletable g key
  | KPatch k _ _ => is_branch_kind k = true ∧ is_Some (sn_remote g)
  | KStatusPatch k _ _ => is_branch_kind k = true ∧ is_Some (sn_remote g)
  | _ => False
  end).

Definition sweep_step (g : sighting) : ∀ R, call R → R → sighting := λ R c,
  match c in call R return R → sighting with
  | CKube kc => match kc in kube_call R return R → sighting with
      | KList k _ _ => λ r, see_list k r g
      | KGet k _ => λ r, see_get k r g
      | _ => λ _, g
      end
  | CGit _ gc => match gc in git_call R return R → sighting with
      | GListRemoteBranches _ => λ r, {| sn_branches := sn_branches g;
          sn_pipelines := sn_pipelines g; sn_stages := sn_stages g; sn_codebase := sn_codebase g;
          sn_remote := ok_or_none r |}
      | _ => λ _, g
      end
  | _ => λ _, g
  end.

(** The API server answers a get with the object of that name. *)
Definition named_answers : ∀ R, call R → R → Prop :=
  when_get (λ O k key, match k in kind O return res O → Prop with
    | KCodebase => λ r, match r with Ok c => name_of c = key_Name key | _ => True end
    | _ => λ _, True
    end).

Definition sweep_monitor : monitor sighting :=
  {| rely _ := named_answers; guar := sweep_guar; step := sweep_step |}.

(** ** Lemmas *)

Lemma Join_empty refs : Join refs = "" → refs = [].
Proof.
  destruct refs as [|r refs]; [done|]. intros H. exfalso. unfold Join in H. cbn in H.
  assert (Hlen : String.length (ref_String r) ≠ 0%nat).
  { unfold ref_String. case_bool_decide; rewrite !length_app_str; cbn; lia. }
  destruct (map ref_String refs); apply (f_equal String.length) in H;
    rewrite ?length_app_str in H; cbn in H; lia.
Qed.

Lemma group_by_codebase_in branches name b :
  b ∈ default [] (group_by_codebase branches !! name) →
  b ∈ branches ∧ bs_CodebaseName (b_Spec b) = name.
Proof.
  unfold group_by_codebase.
  assert (H : ∀ m, b ∈ default [] (fold_left (λ m b, append_at (bs_CodebaseName (b_Spec b)) b m)
      branches m !! name) → b ∈ default [] (m !! name)
      ∨ (b ∈ branches ∧ bs_CodebaseName (b_Spec b) = name)).
  { induction branches as [|x branches IH]; intros m Hb; cbn in Hb; [by left|].
    destruct (IH _ Hb) as [H|[H1 H2]]; [|right; set_solver].
    rewrite append_at_lookup in H. apply elem_of_app in H as [H|H]; [by left|right].
    destruct (decide _); set_solver. }
  intros Hb. destruct (H ∅ Hb) as [He|He]; [|done]. rewrite lookup_empty in He. set_solver.
Qed.

(** The snapshot and, inside the loop over a codebase's branches, its listing. *)
Definition snapshot (g0 g : sighting) : Prop :=
  sn_branches g = sn_branches g0 ∧ sn_pipelines g = sn_pipelines g0 ∧ sn_stages g = sn_stages g0.
Definition listing (g0 : sighting) (c : Codebase) (l : list string) (g : sighting) : Prop :=
  snapshot g0 g ∧ sn_codebase g = Some c ∧ sn_remote g = Some l.

Section Sweep.
Context {X : Externals}.

Lemma keeps_branch_patch {S} g0 c l (b b' : CodebaseBranch) (cl : kube_call (res CodebaseBranch)) :
  cl = KPatch KCodebaseBranch b b' ∨ cl = KStatusPatch KCodebaseBranch b b' →
  keeps sweep_monitor (λ (_ : S) g, listing g0 c l g) (do_res (CKube cl)).
Proof.
  intros [-> | ->]; apply keeps_do_res; intros _ g HJ; (split; [|done]);
    split; [done|destruct HJ as (_&_&->); eauto|done|destruct HJ as (_&_&->); eauto].
Qed.

Lemma keeps_MarkAction recorder verdict g0 c l :
  keeps sweep_monitor (λ (_ : CodebaseBranch) g, listing g0 c l g) (MarkAction_Apply recorder verdict).
Proof. repeat first [progress keeps_go | eapply keeps_branch_patch; eauto]. Qed.
(** The usage index the sweep built is the one of its snapshot. *)
Definition index_of (g : sighting) : BranchUsageIndex :=
  fold_left add_gate (gates_of (active (sn_stages g)))
    (fold_left addPipeline (active (sn_pipelines g)) empty_index).

Lemma wp_check_branch {S} recorder c l g0 b (s : S) g (Q : res unit → S → sighting → Prop) :
  listing g0 c l g → b ∈ sn_branches g0 → bs_CodebaseName (b_Spec b) = name_of c →
  (∀ r g', listing g0 c l g' → Q r s g') →
  wp sweep_monitor (check_branch recorder c (index_of g0) l b) s g Q.
Proof.
  intros HL Hb Hn HQ. unfold check_branch. wp_step; [wp_step; by apply HQ|].
  apply negb_false_iff in Heqb0.
  assert (Hmark : ∀ v, wp sweep_monitor (MarkAction_Apply recorder v) b g
    (λ _ _ g', listing g0 c l g')) by (intros v; by apply keeps_MarkAction).
  do 3 wp_step. eapply wp_mono with (Q := λ _ _ g', listing g0 c l g').
  2:{ intros [[]|e|w] b' g' HL'; (wp_step; wp_step; by first [wp_step; apply HQ | apply HQ]). }
  destruct (auto_cleanup c) eqn:Hauto; [|apply Hmark]. unfold CleanupAction_Apply, verdict_of.
  cbn [ExistsInGit RetainedBy]. rewrite Hauto. destruct (contains l _) eqn:Hin; [apply Hmark|].
  cbn [orb andb negb]. case_bool_decide as Hj; [|apply Hmark]. cbn [negb].
  assert (Hdel : deletable g {| key_Namespace := namespace_of b; key_Name := name_of b |}).
  { destruct HL as ((E1&E2&E3)&Hc&Hl). exists b, c, l. rewrite E1, E2, E3.
    split_and!; try done.
    - by apply bool_decide_eq_false in Hin.
    - rewrite <- Find_spec. by apply Join_empty. }
  wp_step. wp_step. wp_step. wp_step. eapply wp_mono with (Q := λ _ b' g', b' = b ∧ g' = g).
  { wp_step; [|by wp_step]. wp_step. wp_step; [done|]. by intros. }
  intros [[]|e|w] b' g' [-> ->]; [|done..].
  wp_step. wp_step. wp_step; [done|]. intros [[]|e|w] _; cbn; [done|by wp_step|done].
Qed.

Lemma wp_checkCodebaseBranches {S} recorder ns name bs g0 (s : S) g
    (Q : res unit → S → sighting → Prop) :
  snapshot g0 g → (∀ b, b ∈ bs → b ∈ sn_branches g0 ∧ bs_CodebaseName (b_Spec b) = name) →
  (∀ r g', snapshot g0 g' → Q r s g') →
  wp sweep_monitor (checkCodebaseBranches recorder ns name bs (index_of g0)) s g Q.
Proof.
  intros HS Hbs HQ. unfold checkCodebaseBranches.
  wp_step. wp_step. wp_step. wp_step; [done|]. intros [c|e|w] Hr; cbn in Hr;
    [|by wp_step; apply HQ|by apply HQ].
  match goal with |- wp _ _ _ ?g' _ => set (g1 := g') end.
  assert (HS1 : snapshot g0 g1 ∧ sn_codebase g1 = Some c) by (split; [exact HS|done]).
  clearbody g1.
  wp_step. wp_step. wp_step; [done|]. intros [gs|e|w] _; cbn;
    [|by wp_step; apply HQ; destruct HS1|by apply HQ; destruct HS1].
  wp_step. wp_step. wp_step; [done|]. intros [sec|e|w] _; cbn;
    [|by wp_step; apply HQ; destruct HS1|by apply HQ; destruct HS1].
  wp_step. wp_step. wp_step. wp_step; [done|]. intros [l|e|w] _; cbn;
    [|by wp_step; apply HQ; destruct HS1|by apply HQ; destruct HS1].
  eapply wp_mono.
  - apply wp_for_each with (I := λ s' g', s' = s ∧ listing g0 c l g')
      (E := λ _ s' g', s' = s ∧ listing g0 c l g').
    + by destruct HS1 as [? ?].
    + intros b s' g' Hb [-> HL]. destruct (Hbs b Hb) as [Hb1 Hb2].
      eapply wp_check_branch; [done|done|by rewrite Hr|]. by intros [[]|e|w] g'' HL''.
  - intros [[]|e|w] s' g' [-> [HS' _]]; by apply HQ.
Qed.

End Sweep.

Lemma stale_labels_lookup labels verdict k :
  default labels (stale_labels labels verdict) !! k =
  if decide (k = StaleLabel) then (if ExistsInGit verdict then None else Some "true")
  else labels !! k.
Proof.
  unfold stale_labels, map_get. destruct (ExistsInGit verdict).
  - case_bool_decide as H; cbn; destruct (decide (k = StaleLabel)) as [->|]; try done.
    + apply lookup_delete_eq.
    + by apply lookup_delete_ne.
  - case_bool_decide as H; cbn; destruct (decide (k = StaleLabel)) as [->|]; try done.
    + by destruct (labels !! StaleLabel); cbn in H; [congruence|].
    + apply lookup_insert_eq.
    + by apply lookup_insert_ne.
Qed.

Section Mark.
Context {X : Externals} {XL : ExternalsLaws X}.

(** Both writes of the mark, when the API server echoes them. *)
Lemma wp_updateStatusCondition verdict branch (Q : res unit → CodebaseBranch → unit → Prop) :
  (∀ conditions, IsStatusConditionTrue conditions ConditionStale = negb (ExistsInGit verdict) →
    Q (Ok tt) (b_with_status (set_Conditions conditions (b_Status branch)) branch) tt) →
  (∀ r b', match r with Ok _ => False | _ => True end → Q r b' tt) →
  wp (assuming kube_echo) (updateStatusCondition verdict) branch tt Q.
Proof.
  intros HQ Herr. unfold updateStatusCondition. wp_step. wp_step. wp_step. wp_step. wp_step; [done|].
  intros t _. pose proof (SetStatusCondition_status t (stale_condition branch verdict)
    (bst_Conditions (b_Status branch))) as Hs.
  destruct (SetStatusCondition _ _ _) as [conditions changed]. cbn [fst] in Hs.
  assert (Hc : IsStatusConditionTrue conditions ConditionStale = negb (ExistsInGit verdict)).
  { unfold stale_condition in Hs. destruct (ExistsInGit verdict); cbn in Hs; by rewrite Hs. }
  wp_step. wp_step. wp_step; [wp_step; by apply HQ|].
  wp_go; [|by apply Herr|by apply Herr]. cbn in *. subst. by apply HQ.
Qed.

Lemma wp_updateStaleLabel verdict branch (Q : res unit → CodebaseBranch → unit → Prop) :
  Q (Ok tt) (with_labels (default (labels_of branch) (stale_labels (labels_of branch) verdict))
    branch) tt →
  (∀ r b', match r with Ok _ => False | _ => True end → Q r b' tt) →
  wp (assuming kube_echo) (updateStaleLabel verdict) branch tt Q.
Proof.
  intros HQ Herr. unfold updateStaleLabel. wp_step. wp_step.
  destruct (stale_labels (labels_of branch) verdict) as [labels|]; cbn in HQ.
  - wp_go; [|by apply Herr|by apply Herr]. cbn in *. by subst.
  - wp_step. by destruct branch as [[] ? ?].
Qed.
End Mark.

(** ** Properties *)


(** When marking succeeds and nobody else writes the branch, its Stale condition is true
    exactly when the branch is missing from git, the stale label mirrors it, and no other
    label and no part of the spec changes. *)
Theorem MarkAction_marks {X : Externals} {XL : ExternalsLaws X} recorder verdict branch :
  wp (assuming kube_echo) (MarkAction_Apply recorder verdict) branch tt
    (λ r b' _, r = Ok tt →
      IsStatusConditionTrue (bst_Conditions (b_Status b')) ConditionStale = negb (ExistsInGit verdict)
      ∧ b_Spec b' = b_Spec branch
      ∧ ∀ k, labels_of b' !! k =
          if decide (k = StaleLabel) then (if ExistsInGit verdict then None else Some "true")
          else labels_of branch !! k).
Proof.
  unfold MarkAction_Apply. wp_step. wp_step. wp_step. apply wp_updateStatusCondition.
  2:{ by intros [[]|e|w] b' Hr. }
  intros conditions Hc. wp_step. apply wp_updateStaleLabel.
  2:{ by intros [[]|e|w] b' Hr. }
  wp_step. wp_step. unfold emitTransitionEvent.
  wp_go; (split; [done|]; split; [done|]; intros k; by rewrite <- stale_labels_lookup).
Qed.

Lemma MarkAction_marks_witness :
  let branch := {| b_Meta := new_meta "app-main" "" "ns";
    b_Spec := {| bs_CodebaseName := "app"; bs_BranchName := "main"; bs_FromCommit := "";
                 bs_Version := None; bs_Release := false; bs_Pipelines := ∅ |};
    b_Status := zero_branch_status |} in
  wp (assuming kube_echo) (MarkAction_Apply true {| ExistsInGit := false; RetainedBy := "" |}) branch tt
    (λ r b' _, r = Ok tt →
      IsStatusConditionTrue (bst_Conditions (b_Status b')) ConditionStale = true
      ∧ b_Spec b' = b_Spec branch
      ∧ ∀ k, labels_of b' !! k =
          if decide (k = StaleLabel) then Some "true" else labels_of branch !! k).
Proof. apply (@MarkAction_marks reference reference_laws true {| ExistsInGit := false; RetainedBy := "" |}). Defined.
