(* ===== verification/Webhook.v ===== *)
(** * Webhook: admission of codebases, branches and protected resources

    [src/pkg/webhook] (codebase_webhook.go, codebasebranch_webhook.go,
    protected_label.go, usage_error.go, validation.go). A validation answers no warnings
    and an error or nothing; the admission request travels in the context. *)

From S2P Require Import Prelude GoStd Api Effects Externals Urls PathHash Simulation BranchLabels DeploymentUsage.

(** ** validation.go *)

Definition allowed_strategies : list string := ["clone"; "create"; "import"].
Definition allowed_languages : list string :=
  ["c"; "container"; "cpp"; "csharp"; "dotnet"; "go"; "groovy-pipeline"; "hcl"; "helm"; "java";
   "javascript"; "other"; "python"; "rego"; "terraform"].

Fixpoint containSettings (slice : list string) (value : string) : bool :=
  match slice with
  | [] => false
  | element :: slice' => if equal_fold element value then true else containSettings slice' value
  end.

Definition IsCodebaseValid (codebase : Codebase) : res unit :=
  let spec := c_Spec codebase in
  if negb (containSettings allowed_strategies (cs_Strategy spec)) then
    Err (ENew ("provided unsupported repository strategy: " +:+ cs_Strategy spec))
  else if negb (containSettings allowed_languages (cs_Lang spec)) then
    Err (ENew ("provided unsupported language: " +:+ cs_Lang spec))
  else if negb (bool_decide (v_Type (cs_Versioning spec) = VersioningTypDefault))
       && bool_decide (default "" (v_StartFrom (cs_Versioning spec)) = "") then
    Err (ENew "versioning start from is required when versioning type is not default")
  else if has_suffix " " (cs_GitUrlPath spec) then
    Err (ENew "gitUrlPath should not end with space")
  else Ok tt.

Definition validateCodBaseName (name : string) : res unit :=
  if str_contains "--" name then Err (ENew "codebase name shouldn't contain '--' symbol") else Ok tt.

(** ** protected_label.go *)

(** A [runtime.Object] as the type switches of the webhooks see it. *)
Inductive RuntimeObject :=
| ObjCodebase (o : Codebase)
| ObjCodebaseBranch (o : CodebaseBranch)
| ObjCodebaseImageStream (o : CodebaseImageStream)
| ObjGitServer (o : GitServer)
| ObjOther (labels : option (gmap string string)).  (* labels: it is a metav1.Object *)

Definition object_labels (obj : RuntimeObject) : option (gmap string string) :=
  match obj with
  | ObjCodebase o => Some (labels_of o)
  | ObjCodebaseBranch o => Some (labels_of o)
  | ObjCodebaseImageStream o => Some (labels_of o)
  | ObjGitServer o => Some (labels_of o)
  | ObjOther l => l
  end.

Definition protectedLabel := "app.edp.epam.com/edit-protection".
Definition deleteOperation := "delete".
Definition updateOperation := "update".

Definition hasProtectedLabel (obj : RuntimeObject) (operation : string) : bool :=
  match object_labels obj with
  | None => false
  | Some labels =>
    let value := map_get labels protectedLabel in
    negb (bool_decide (value = "")) && contains (str_split dash value) operation
  end.

Definition isSpecUpdated (oldObj newObj : RuntimeObject) : bool :=
  match oldObj, newObj with
  | ObjCodebase o, ObjCodebase n => negb (bool_decide (c_Spec o = c_Spec n))
  | ObjCodebaseBranch o, ObjCodebaseBranch n => negb (bool_decide (b_Spec o = b_Spec n))
  | ObjCodebaseImageStream o, ObjCodebaseImageStream n => negb (bool_decide (i_Spec o = i_Spec n))
  | ObjGitServer o, ObjGitServer n => negb (bool_decide (g_Spec o = g_Spec n))
  | _, _ => false
  end.

Definition checkResourceProtectionFromModificationOnDelete (obj : RuntimeObject) : res unit :=
  if hasProtectedLabel obj deleteOperation
  then Err (ENew "resource contains label that protects it from deletion") else Ok tt.

Definition checkResourceProtectionFromModificationOnUpdate (oldObj newObj : RuntimeObject) : res unit :=
  if hasProtectedLabel newObj updateOperation && isSpecUpdated oldObj newObj
  then Err (ENew "resource contains label that protects it from modification") else Ok tt.

Definition ProtectedLabel_ValidateCreate (_ : RuntimeObject) : res unit := Ok tt.
Definition ProtectedLabel_ValidateUpdate (oldObj newObj : RuntimeObject) : res unit :=
  checkResourceProtectionFromModificationOnUpdate oldObj newObj.
Definition ProtectedLabel_ValidateDelete (obj : RuntimeObject) : res unit :=
  checkResourceProtectionFromModificationOnDelete obj.

(** ** usage_error.go *)

Definition codebaseKind := "Codebase".
Definition codebaseBranchKind := "CodebaseBranch".
(** metav1.CauseTypeForbidden, http.StatusForbidden, metav1.StatusReasonForbidden *)
Definition CauseTypeForbidden := "FieldValueForbidden".
Definition StatusForbidden : Z := 403.
Definition StatusReasonForbidden := "Forbidden".
Definition Group := "v2.edp.epam.com".

Definition newBlockedByUsageError (resource kind name : string) (refs : list Reference) : error :=
  EStatus {|
    es_Code := StatusForbidden; es_Reason := StatusReasonForbidden;
    es_Message := kind +:+ " " +:+ name +:+ " cannot be deleted because it is used by "
                  +:+ Join refs +:+ "; remove it from the deployment first";
    es_Group := Group; es_Kind := resource; es_Name := name;
    es_Causes := map (λ ref, {| sc_Type := CauseTypeForbidden; sc_Field := ref_Field ref;
                                sc_Message := ref_String ref |}) refs |}.

(** ** codebase_webhook.go *)

Record AdmissionRequest := { req_Name : string; req_Namespace : string }.

Definition listLimit : nat := 1000.

Section Validators.
Context {X : Externals} {S : Type}.

(** The loop over the listed codebases. *)
Fixpoint find_same_path (gitUrlPathToValidate : string) (items : list Codebase) : option Codebase :=
  match items with
  | [] => None
  | c :: items' => if bool_decide (cs_GitUrlPath (c_Spec c) = gitUrlPathToValidate) then Some c
                   else find_same_path gitUrlPathToValidate items'
  end.

(** [req]: [admission.RequestFromContext(ctx)]. *)
Definition Codebase_ValidateCreate (req : res AdmissionRequest) (obj : RuntimeObject) : M S unit :=
  req <- of_res (match req with
    | Err err => Err (EStatus {| es_Code := 400; es_Reason := "BadRequest";
        es_Message := "expected admission.Request in ctx: " +:+ err_msg err;
        es_Group := ""; es_Kind := ""; es_Name := ""; es_Causes := [] |})
    | r => r end) ;;
  match obj with
  | ObjCodebase createdCodebase =>
    of_res (validateCodBaseName (name_of createdCodebase)) ;;;
    of_res (wrap ("codebase " +:+ name_of createdCodebase +:+ " is invalid: ")
      (IsCodebaseValid createdCodebase)) ;;;
    let gitUrlPathToValidate := TrimGitFromURL (cs_GitUrlPath (c_Spec createdCodebase)) in
    if bool_decide (gitUrlPathToValidate = "") then
      throw (ENew ("gitUrlPath " +:+ cs_GitUrlPath (c_Spec createdCodebase) +:+ " is invalid"))
    else
      codeBases <- k_list KCodebase (req_Namespace req)
          {| sel_Labels := []; sel_Fields := []; sel_Limit := Some listLimit |}
        ?> "failed to list codebases: " ;;
      match find_same_path gitUrlPathToValidate codeBases with
      | Some c => throw (ENew ("codebase " +:+ name_of c +:+ " with GitUrlPath "
                    +:+ cs_GitUrlPath (c_Spec c) +:+ " already exists"))
      | None => ret tt
      end
  | _ => ret tt
  end.

Definition Codebase_ValidateUpdate (req : res AdmissionRequest) (oldObj newObj : RuntimeObject)
  : M S unit :=
  of_res (wrap "expected admission.Request in ctx: " req) ;;;
  match newObj with
  | ObjCodebase updatedCodebase =>
    of_res (wrap ("codebase " +:+ name_of updatedCodebase +:+ " is invalid: ")
      (IsCodebaseValid updatedCodebase)) ;;;
    of_res (checkResourceProtectionFromModificationOnUpdate oldObj newObj)
  | _ => ret tt
  end.

Definition Codebase_ValidateDelete (req : res AdmissionRequest) (obj : RuntimeObject) : M S unit :=
  of_res (wrap "expected admission.Request in ctx: " req) ;;;
  of_res (checkResourceProtectionFromModificationOnDelete obj) ;;;
  match obj with
  | ObjCodebase deletedCodebase =>
    refs <- FindCodebaseUsage deletedCodebase ?> "failed to check Codebase usage: " ;;
    if (0 <? length refs)%nat then
      throw (newBlockedByUsageError "codebases" codebaseKind (name_of deletedCodebase) refs)
    else ret tt
  | _ => ret tt
  end.

(** ** codebasebranch_webhook.go *)

Definition CodebaseBranch_ValidateCreate (obj : RuntimeObject) : M S unit :=
  match obj with
  | ObjCodebaseBranch created =>
    items <- k_list KCodebaseBranch (namespace_of created) (matching_labels
        [(CodebaseLabel, bs_CodebaseName (b_Spec created));
         (BranchHashLabel, MakeGitBranchHash (bs_BranchName (b_Spec created)))])
      ?> "failed to list CodebaseBranch CRs: " ;;
    if (0 <? length items)%nat then
      throw (ENew "CodebaseBranch CR with the same codebase name and branch name already exists")
    else ret tt
  | _ => ret tt
  end.

Definition CodebaseBranch_ValidateUpdate (oldObj newObj : RuntimeObject) : M S unit :=
  of_res (checkResourceProtectionFromModificationOnUpdate oldObj newObj).

Definition CodebaseBranch_ValidateDelete (obj : RuntimeObject) : M S unit :=
  of_res (checkResourceProtectionFromModificationOnDelete obj) ;;;
  match obj with
  | ObjCodebaseBranch deleted =>
    codebase <- attempt (k_get KCodebase (namespace_of deleted) (bs_CodebaseName (b_Spec deleted))) ;;
    match codebase with
    | inr err =>
      if IsNotFound err then ret tt
      else throw (EWrap ("failed to get codebase " +:+ bs_CodebaseName (b_Spec deleted) +:+ ": ") err)
    | inl codebase =>
      if is_deleting codebase then ret tt
      else
        refs <- FindBranchUsage deleted ?> "failed to check CodebaseBranch usage: " ;;
        if (0 <? length refs)%nat then
          throw (newBlockedByUsageError "codebasebranches" codebaseBranchKind (name_of deleted) refs)
        else ret tt
    end
  | _ => ret tt
  end.
End Validators.

(** ** Lemmas *)

Lemma find_same_path_spec p items :
  match find_same_path p items with
  | Some c => c ∈ items ∧ cs_GitUrlPath (c_Spec c) = p
  | None => ∀ c, c ∈ items → cs_GitUrlPath (c_Spec c) ≠ p
  end.
Proof.
  induction items as [|c items IH]; cbn; [set_solver|]. case_bool_decide; [set_solver|].
  destruct (find_same_path p items); set_solver.
Qed.

(** Splitting what was joined by dashes. *)
Lemma split_go_word sep w s :
  str_forallb (λ a, negb (bool_decide (a = sep))) w = true →
  split_go sep (w +:+ s) = let '(x, xs) := split_go sep s in (w +:+ x, xs).
Proof.
  induction w as [|a w IH]; cbn; intros H.
  - rewrite app_nil_l_str. by destruct (split_go sep s).
  - apply andb_true_iff in H as [Ha Hw]. rewrite app_cons_str. cbn. rewrite (IH Hw).
    destruct (split_go sep s). apply negb_true_iff in Ha. by rewrite Ha.
Qed.

Lemma str_split_join ops :
  ops ≠ [] → (∀ w, w ∈ ops → str_forallb (λ a, negb (bool_decide (a = dash))) w = true) →
  str_split dash (str_join "-" ops) = ops.
Proof.
  unfold str_split. induction ops as [|w ops IH]; intros Hne Hw; [done|]. clear Hne.
  assert (Hw1 := Hw w ltac:(set_solver)). destruct ops as [|w' ops].
  - cbn. rewrite <- (app_nil_r_str w) at 1. rewrite split_go_word by done. cbn.
    by rewrite app_nil_r_str.
  - cbn [str_join]. rewrite split_go_word by done. cbn [split_go].
    rewrite app_cons_str. cbn [split_go]. rewrite app_nil_l_str.
    specialize (IH ltac:(done) ltac:(set_solver)). cbn [str_join] in IH.
    destruct (split_go dash _) as [x xs]. injection IH as -> ->.
    rewrite bool_decide_true by done. by rewrite app_nil_r_str.
Qed.

Lemma usage_guard {A} (l : list A) : (0 <? length l)%nat = negb (bool_decide (length l = 0%nat)).
Proof. by destruct l. Qed.

(** ** Properties *)

(** The denial of a deletion: forbidden, one cause per reference. *)
Definition denies_usage (resource name : string) (refs : list Reference) (e : error) : Prop :=
  ∃ st, e = EStatus st ∧ es_Code st = 403%Z ∧ es_Reason st = "Forbidden"
    ∧ es_Group st = "v2.edp.epam.com" ∧ es_Kind st = resource ∧ es_Name st = name
    ∧ map (λ c, (sc_Field c, sc_Message c)) (es_Causes st)
      = map (λ r, (ref_Field r, ref_String r)) refs.

Lemma newBlockedByUsageError_denies resource kind name refs :
  denies_usage resource name refs (newBlockedByUsageError resource kind name refs).
Proof. eexists. split; [done|]. split_and!; try done. cbn. by rewrite map_map. Qed.

(** In any cluster state the listings report, deleting a codebase is allowed exactly when
    it carries no delete protection and nothing active uses it; a used codebase is
    denied with a 403 whose causes are all its references, in order. *)
Theorem Codebase_ValidateDelete_iff {S} req codebase pipelines stages branches (s : S) :
  wp (assuming (cluster pipelines stages branches))
    (Codebase_ValidateDelete (Ok req) (ObjCodebase codebase)) s tt
    (λ r s' _, s' = s ∧
      (r = Ok tt ↔ hasProtectedLabel (ObjCodebase codebase) "delete" = false
                   ∧ codebase_unused pipelines stages branches codebase)
      ∧ match r with
        | Ok _ => True
        | Err e => hasProtectedLabel (ObjCodebase codebase) "delete" = true
            ∨ denies_usage "codebases" (name_of codebase)
                (codebase_usage_spec pipelines stages branches codebase) e
        | Panic _ => False
        end).
Proof.
  unfold Codebase_ValidateDelete, checkResourceProtectionFromModificationOnDelete. cbn [wrap].
  change deleteOperation with "delete".
  wp_step. wp_step. wp_step. wp_step. destruct (hasProtectedLabel _ _) eqn:Hp.
  { split; [done|]. split; [|by left]. split; [done|]. by intros [? _]. }
  wp_step. wp_step. apply wp_FindCodebaseUsage. rewrite usage_guard.
  pose proof (codebase_usage_nil_iff pipelines stages branches codebase) as Hiff.
  set (refs := codebase_usage_spec _ _ _ _) in *. case_bool_decide as Hr; cbn [negb].
  - apply nil_length_inv in Hr. wp_step. split; [done|]. split; [|done]. naive_solver.
  - wp_step. split; [done|]. split; [|right; apply newBlockedByUsageError_denies].
    split; [done|]. intros [_ H%Hiff]. by rewrite H in Hr.
Qed.

(** The answer to the lookup of the branch's codebase. *)
Definition owner_answer (owner : res Codebase) : ∀ R, call R → R → Prop :=
  when_get (λ O k _, match k in kind O return res O → Prop with
    | KCodebase => λ r, r = owner
    | _ => λ _, True
    end).

(** C11: Deleting a branch is allowed exactly when it carries no delete protection and its
    codebase is gone or terminating (a cascade) or nothing active uses the branch; a used
    branch is denied with a 403 whose causes are all its references, and an unreadable
    codebase denies. *)
Theorem CodebaseBranch_ValidateDelete_iff {S} branch owner pipelines stages branches (s : S) :
  wp (assuming (λ R c r, cluster pipelines stages branches R c r ∧ owner_answer owner R c r))
    (CodebaseBranch_ValidateDelete (ObjCodebaseBranch branch)) s tt
    (λ r s' _, s' = s ∧
      (r = Ok tt ↔ hasProtectedLabel (ObjCodebaseBranch branch) "delete" = false
         ∧ match owner with
           | Ok c => is_deleting c = true ∨ branch_usage_spec pipelines stages branch = []
           | Err e => IsNotFound e = true
           | Panic _ => False
           end)
      ∧ (∀ c, owner = Ok c → ∀ e, r = Err e →
          hasProtectedLabel (ObjCodebaseBranch branch) "delete" = true
          ∨ denies_usage "codebasebranches" (name_of branch)
              (branch_usage_spec pipelines stages branch) e)).
Proof.
  unfold CodebaseBranch_ValidateDelete, checkResourceProtectionFromModificationOnDelete.
  change deleteOperation with "delete". wp_step. wp_step. destruct (hasProtectedLabel _ _) eqn:Hp.
  { split; [done|]. split; [|naive_solver]. split; [done|]. by intros [? _]. }
  wp_step. wp_step. wp_step. wp_step; [done|]. intros r [_ Hr]. cbn in Hr. subst r.
  destruct owner as [c|e|w]; [| |naive_solver].
  2:{ wp_step; wp_step; (split; [done|]); naive_solver. }
  wp_step; [wp_step; split; [done|]; naive_solver|].
  wp_step. wp_step. apply wp_assuming with (P := cluster pipelines stages branches); [by intros ??? [? _]|].
  apply wp_FindBranchUsage. rewrite usage_guard.
  set (refs := branch_usage_spec _ _ _). case_bool_decide as Hr; cbn [negb].
  - apply nil_length_inv in Hr. wp_step. split; [done|]. naive_solver.
  - wp_step. split; [done|]. split.
    + split; [done|]. intros [_ [H|H]]; [congruence|]. by rewrite H in Hr.
    + intros ? _ ? [= <-]. right. apply newBlockedByUsageError_denies.
Qed.

(** What the API server lists as codebases. *)
Definition listed_codebases (items : list Codebase) : ∀ R, call R → R → Prop :=
  when_list (λ O k _ _, match k in kind O return res (list O) → Prop with
    | KCodebase => λ r, r = Ok items
    | _ => λ _, True
    end).


Definition with_path (p : string) (c : Codebase) : Codebase :=
  c_with_spec (set_GitUrlPath p (c_Spec c)) c.

(** Uniqueness is checked on the literal path, while the identity label identifies letter
    case and a leading slash: the webhook admits a codebase for /Team/App, and one for
    team/app, beside a codebase for /team/app with the same identity label. *)
Theorem Codebase_ValidateCreate_admits_same_identity :
  Forall (λ p, Hash p = Hash "/team/app" ∧ ∀ (s : unit),
    wp (assuming (listed_codebases [with_path "/team/app" sim_app]))
      (Codebase_ValidateCreate (Ok {| req_Name := "new"; req_Namespace := "ns" |})
        (ObjCodebase (with_path p sim_app))) s tt (λ r _ _, r = Ok tt))
    ["/Team/App"; "team/app"].
Proof.
  repeat constructor; try (vm_compute; reflexivity).
  all: intros r Hr; cbn in Hr; subst r; vm_compute; reflexivity.
Qed.

(** The operations a label value lists. *)
Definition plain_operation (w : string) : Prop :=
  w ≠ "" ∧ str_forallb (λ a, negb (bool_decide (a = dash))) w = true.

Lemma str_join_nonempty ops : ops ≠ [] → Forall plain_operation ops → str_join "-" ops ≠ "".
Proof.
  intros Hne Hops. destruct Hops as [|w ops [Hw _] _]; [done|].
  destruct w as [|a w]; [done|]. by destruct ops.
Qed.

(** A resource whose protection label lists operations, joined by dashes, is protected
    from exactly those: its deletion is denied when [delete] is listed, an update is denied
    when [update] is listed and the spec changed, and nothing else is denied. *)
Theorem protected_label_operations ops (old new : RuntimeObject) labels :
  object_labels new = Some labels → labels !! protectedLabel = Some (str_join "-" ops) →
  ops ≠ [] → Forall plain_operation ops →
  (ProtectedLabel_ValidateDelete new = Ok tt ↔ "delete" ∉ ops)
  ∧ (ProtectedLabel_ValidateUpdate old new = Ok tt ↔ "update" ∉ ops ∨ isSpecUpdated old new = false).
Proof.
  intros Hl Hv Hne Hops.
  assert (Hhas : ∀ w, hasProtectedLabel new w = bool_decide (w ∈ ops)).
  { intros w. unfold hasProtectedLabel, map_get. rewrite Hl, Hv. cbn [default from_option id].
    rewrite bool_decide_false by by apply str_join_nonempty.
    rewrite str_split_join; [done|done|]. intros x Hx.
    rewrite Forall_forall in Hops. by apply (Hops x Hx). }
  unfold ProtectedLabel_ValidateDelete, ProtectedLabel_ValidateUpdate,
    checkResourceProtectionFromModificationOnDelete, checkResourceProtectionFromModificationOnUpdate.
  rewrite !Hhas. unfold deleteOperation, updateOperation.
  split; repeat case_bool_decide; cbn [andb]; try (destruct (isSpecUpdated old new)); naive_solver.
Qed.

Lemma protected_label_operations_witness :
  let new := ObjGitServer (obj_set_meta sim_gitlab
    (set_Labels {[protectedLabel := "update-delete"]} (obj_meta sim_gitlab))) in
  ProtectedLabel_ValidateDelete new = Ok tt ↔ "delete" ∉ ["update"; "delete"].
Proof.
  apply (protected_label_operations ["update"; "delete"] (ObjOther None)
    (ObjGitServer (obj_set_meta sim_gitlab
      (set_Labels {[protectedLabel := "update-delete"]} (obj_meta sim_gitlab))))
    {[protectedLabel := "update-delete"]}); [reflexivity|reflexivity|discriminate|].
  repeat constructor; discriminate.
Defined.
