(* ===== verification/TriggerTemplate.v ===== *)
(** * TriggerTemplate: PipelineRuns made from Tekton trigger templates

    [src/pkg/tektoncd/trigger_template.go]. The parsed object is [Unstructured]; parsing it is
    the external [UnmarshalJSON]. *)

From S2P Require Import Prelude Api Effects Externals.

Definition PipelineRunSpecStatusPending := "PipelineRunPending".

Section Tekton.
Context {X : Externals} {S : Type}.

Definition GetRawResourceFromTriggerTemplate (triggerTemplateName ns : string) : M S string :=
  template <- k_get KTriggerTemplate ns triggerTemplateName ?> "failed to get TriggerTemplate: " ;;
  match tt_ResourceTemplates template with
  | [] => throw (ESentinel ErrEmptyTriggerTemplateResources)
  | raw :: _ => ret raw
  end.

(** The four replacements of the template's parameters, in order. *)
Definition instantiate_template (rawPipeRun appPayload stage pipeline clusterSecret : string) : string :=
  let quoted := replace_all (String dquote "") (String backslash (String dquote "")) appPayload in
  let raw := replace_all "$(tt.params.APPLICATIONS_PAYLOAD)" quoted rawPipeRun in
  let raw := replace_all "$(tt.params.CDSTAGE)" stage raw in
  let raw := replace_all "$(tt.params.CDPIPELINE)" pipeline raw in
  replace_all "$(tt.params.KUBECONFIG_SECRET_NAME)" clusterSecret raw.

(** [labels] is nil when the object has none: writing to it panics. *)
Definition makeUnstructuredPipelineRun
    (ns cdStageDeployName rawPipeRun appPayload stage pipeline clusterSecret : string)
  : res Unstructured :=
  res_bind
    (wrap "couldn't unmarshal json from the TriggerTemplate: "
      (UnmarshalJSON (instantiate_template rawPipeRun appPayload stage pipeline clusterSecret)))
    (λ data,
      match u_Labels data with
      | None => Panic "assignment to entry in nil map"
      | Some labels =>
        Ok {| u_Namespace := ns; u_Labels := Some (<[CdStageDeployLabel := cdStageDeployName]> labels);
              u_SpecStatus := u_SpecStatus data; u_Content := u_Content data |}
      end).

Definition CreatePipelineRun
    (ns cdStageDeployName rawPipeRun appPayload stage pipeline clusterSecret : string) : M S unit :=
  data <- of_res (makeUnstructuredPipelineRun ns cdStageDeployName rawPipeRun appPayload stage
                    pipeline clusterSecret) ;;
  k_create KUnstructured data ?> "failed to create resource: " ;;;
  ret tt.

Definition CreatePendingPipelineRun
    (ns cdStageDeployName rawPipeRun appPayload stage pipeline clusterSecret : string) : M S unit :=
  data <- of_res (makeUnstructuredPipelineRun ns cdStageDeployName rawPipeRun appPayload stage
                    pipeline clusterSecret) ;;
  match u_SpecStatus data with
  | None => throw (ENew "invalid PipelineRun spec")
  | Some _ =>
    k_create KUnstructured
      {| u_Namespace := u_Namespace data; u_Labels := u_Labels data;
         u_SpecStatus := Some (Some PipelineRunSpecStatusPending); u_Content := u_Content data |}
      ?> "failed to create resource: " ;;;
    ret tt
  end.
End Tekton.
