(* ===== verification/StageDeploy.v ===== *)
(** * StageDeploy: the deployment queue of a stage

    [src/controllers/cdstagedeploy]: chain/resolve_status.go,
    chain/process_trigger_template.go, chain/delete_cdstagedeploy.go, chain/chain.go,
    chain/factory.go and the reconciliation of cdstagedeploy_controller.go. The state is the
    local variable [stageDeploy] of [Reconcile]; the handlers receive a pointer to it. *)

From S2P Require Import Prelude Api Effects Externals Host ImageStreams TriggerTemplate CodebaseController.

Definition maxPipelineRuns : nat := 500.

(** ** chain/resolve_status.go *)

Definition deploy_selector (pipeline stage : string) : list (string * string) :=
  [(CdPipelineLabel, pipeline); (CdStageLabel, stage)].

Definition getRunningPipelines (stageDeploy : CDStageDeploy) : M CDStageDeploy (list PipelineRun) :=
  k_list KPipelineRun (namespace_of stageDeploy)
    {| sel_Labels := deploy_selector (ds_Pipeline (d_Spec stageDeploy)) (GetStageCRName stageDeploy);
       sel_Fields := []; sel_Limit := Some maxPipelineRuns |}
    ?> "failed to list PipelineRuns: ".

Definition allCdStageDeploysInQue (items : list CDStageDeploy) : bool := forallb IsInQueue items.

Definition pr_completed (p : PipelineRun) : bool :=
  match pr_CompletionTime p with Some _ => true | None => false end.
Definition allPipelineRunsCompleted (pipelineRuns : list PipelineRun) : bool :=
  forallb pr_completed pipelineRuns.

(** The loop that keeps the first deployment with the earliest creation time. *)
Definition earlier (firstDeploy : option CDStageDeploy) (d : CDStageDeploy) : option CDStageDeploy :=
  match firstDeploy with
  | None => Some d
  | Some f =>
    if (om_CreationTimestamp (d_Meta d) <? om_CreationTimestamp (d_Meta f))%Z then Some d else Some f
  end.

Definition isFirsCdStageDeployInQue (deploys : list CDStageDeploy) (currentCDStageDeployName : string)
  : bool :=
  match fold_left earlier deploys None with
  | None => false
  | Some firstDeploy => bool_decide (name_of firstDeploy = currentCDStageDeployName)
  end.

Definition shouldStartCDStageDeploy (currentCDStageDeployName stage pipeline namespace : string)
    (pipelines : list PipelineRun) : M CDStageDeploy bool :=
  if negb (allPipelineRunsCompleted pipelines) then ret false
  else
    cdStageDeploy <- k_list KCDStageDeploy namespace (matching_labels (deploy_selector pipeline stage))
      ?> "failed to list CDStageDeploys: " ;;
    if negb (allCdStageDeploysInQue cdStageDeploy) then ret false
    else ret (isFirsCdStageDeployInQue cdStageDeploy currentCDStageDeployName).

Definition ResolveStatus_ServeRequest : M CDStageDeploy unit :=
  stageDeploy <- get ;;
  if IsFailed stageDeploy then ret tt
  else
    pipelineRun <- getRunningPipelines stageDeploy ?> "failed to get running pipelines: " ;;
    if IsPending stageDeploy then
      if allPipelineRunsCompleted pipelineRun then ret tt
      else modify (set_deploy_status CDStageDeployStatusInQueue)
    else if IsInQueue stageDeploy then
      shouldStart <- shouldStartCDStageDeploy (name_of stageDeploy) (GetStageCRName stageDeploy)
          (ds_Pipeline (d_Spec stageDeploy)) (namespace_of stageDeploy) pipelineRun
        ?> "failed to check running CDStageDeploys: " ;;
      if shouldStart : bool then modify (set_deploy_status CDStageDeployStatusPending)
      else ret tt
    else if IsRunning stageDeploy then
      if allPipelineRunsCompleted pipelineRun
      then modify (set_deploy_status CDStageDeployStatusCompleted)
      else ret tt
    else ret tt.

(** ** chain/process_trigger_template.go *)

Definition skipPipelineRunCreation (stageDeploy : CDStageDeploy) : bool :=
  if IsPending stageDeploy || IsFailed stageDeploy then false else true.

Definition getResourcesForPipelineRun (stageDeploy : CDStageDeploy)
  : M CDStageDeploy (CDPipeline * Stage * string) :=
  pipeline <- k_get KCDPipeline (namespace_of stageDeploy) (ds_Pipeline (d_Spec stageDeploy))
    ?> "failed to get CDPipeline: " ;;
  stage <- k_get KStage (namespace_of stageDeploy) (GetStageCRName stageDeploy)
    ?> "failed to get Stage: " ;;
  rawResource <- GetRawResourceFromTriggerTemplate (st_TriggerTemplate stage)
      (namespace_of stageDeploy)
    ?> "failed to get raw resource from TriggerTemplate: " ;;
  ret (pipeline, stage, rawResource).

Section Chain.
Context {X : Externals}.

Definition getAppPayload (stageDeploy : CDStageDeploy) (pipeline : CDPipeline) (stage : Stage)
  : M CDStageDeploy string :=
  (if bool_decide (ds_TriggerType (d_Spec stageDeploy) = TriggerTypeAutoStable)
   then GetAppPayloadForCurrentWithStableStrategy (ds_Tag (d_Spec stageDeploy)) pipeline stage
   else GetAppPayloadForAllLatestStrategy pipeline)
  ?> "failed to get application payload: ".

Definition ProcessTriggerTemplate_ServeRequest : M CDStageDeploy unit :=
  stageDeploy <- get ;;
  if skipPipelineRunCreation stageDeploy then ret tt
  else
    resources <- attempt (getResourcesForPipelineRun stageDeploy) ;;
    match resources with
    | inr err =>
      if err_is ErrEmptyTriggerTemplateResources err
      then modify (set_deploy_status CDStageDeployStatusCompleted)
      else throw err
    | inl (pipeline, stage, rawResource) =>
      payload <- attempt (getAppPayload stageDeploy pipeline stage) ;;
      match payload with
      | inr err =>
        if err_is ErrLasTagNotFound err
        then modify (set_deploy_status CDStageDeployStatusCompleted)
        else throw (EWrap "failed to get application payload: " err)
      | inl appPayload =>
        CreatePipelineRun (namespace_of stageDeploy) (name_of stageDeploy) rawResource appPayload
            (st_SpecName stage) (p_SpecName pipeline) (st_ClusterName stage)
          ?> "failed to create PipelineRun: " ;;;
        modify (set_deploy_status CDStageDeployStatusRunning)
      end
    end.

(** ** chain/delete_cdstagedeploy.go *)

Definition DeleteCDStageDeploy_ServeRequest : M CDStageDeploy unit :=
  stageDeploy <- get ;;
  if negb (IsCompleted stageDeploy) then ret tt
  else
    deleted <- attempt (k_delete KCDStageDeploy (namespace_of stageDeploy) (name_of stageDeploy)) ;;
    match deleted with
    | inr err => if IsNotFound err then ret tt
                 else throw (EWrap "failed to delete CDStageDeploy: " err)
    | inl _ => ret tt
    end.

(** ** chain/chain.go, chain/factory.go *)

Fixpoint deploy_chain_ServeRequest (handlers : list (M CDStageDeploy unit)) : M CDStageDeploy unit :=
  match handlers with
  | [] => ret tt
  | h :: handlers' => h ?> "failed to serve handler: " ;;; deploy_chain_ServeRequest handlers'
  end.

Definition CreateChain : M CDStageDeploy unit :=
  deploy_chain_ServeRequest
    [ResolveStatus_ServeRequest; ProcessTriggerTemplate_ServeRequest; DeleteCDStageDeploy_ServeRequest].

(** ** cdstagedeploy_controller.go *)

Definition requestTimeout : Z := second * 30.

(** The part of [Reconcile] after the chain was chosen; failed status updates are logged. *)
Definition serve_deploy : M CDStageDeploy Result :=
  stageDeploy <- get ;;
  let oldStatus := dst_Status (d_Status stageDeploy) in
  served <- attempt CreateChain ;;
  match served with
  | inr err =>
    modify (SetFailedStatus err) ;;;
    attempt (status_update_self KCDStageDeploy) ;;;
    throw (EWrap "failed to process default chainFactory: " err)
  | inl _ =>
    stageDeploy <- get ;;
    let status := dst_Status (d_Status stageDeploy) in
    (if negb (bool_decide (status = oldStatus))
        && negb (bool_decide (status = CDStageDeployStatusCompleted))
     then attempt (status_update_self KCDStageDeploy) ;;; ret tt
     else ret tt) ;;;
    ret {| RequeueAfter := requestTimeout |}
  end.

Definition ReconcileCDStageDeploy (request : ObjectKey) : M CDStageDeploy Result :=
  fetched <- attempt (do_res (CKube (KGet KCDStageDeploy request))) ;;
  match fetched with
  | inr err =>
    if IsNotFound err then ret no_result
    else throw (EWrap ("failed to fetch CDStageDeploy resource " +:+ quote_key request +:+ ": ") err)
  | inl stageDeploy =>
    put stageDeploy ;;;
    if is_deleting stageDeploy then ret no_result else serve_deploy
  end.
End Chain.

(** ** What a reconciliation may do *)

Inductive deploy_transition : string → string → Prop :=
| transition_failed s : deploy_transition s CDStageDeployStatusFailed
| transition_queue : deploy_transition CDStageDeployStatusPending CDStageDeployStatusInQueue
| transition_run s :
    s ∈ [CDStageDeployStatusPending; CDStageDeployStatusInQueue; CDStageDeployStatusFailed] →
    deploy_transition s CDStageDeployStatusRunning.

(** The deployment of [items] created first; the earliest listed one among equals. *)
Definition first_created (d : CDStageDeploy) (items : list CDStageDeploy) : Prop :=
  ∃ pre post, items = pre ++ d :: post
    ∧ Forall (λ e, om_CreationTimestamp (d_Meta d) < om_CreationTimestamp (d_Meta e))%Z pre
    ∧ Forall (λ e, om_CreationTimestamp (d_Meta d) <= om_CreationTimestamp (d_Meta e))%Z post.

(** What one reconciliation has seen: the deployment it fetched, its last listings of
    PipelineRuns and deployments, and whether it created a PipelineRun. *)
Record deploying := {
  dp_deploy : option CDStageDeploy; dp_runs : option (list PipelineRun);
  dp_queue : option (list CDStageDeploy); dp_created : bool }.
Definition nothing_seen : deploying :=
  {| dp_deploy := None; dp_runs := None; dp_queue := None; dp_created := false |}.

Definition answered {A B} (r : res A) (f : A → B) (b : B) : B :=
  match r with Ok a => f a | _ => b end.

Definition deploying_step (g : deploying) : ∀ R, call R → R → deploying := λ R c,
  match c in call R return R → deploying with
  | CKube kc => match kc in kube_call R return R → deploying with
    | KGet k _ => match k in kind V return res V → deploying with
      | KCDStageDeploy => λ r, answered r (λ d,
          {| dp_deploy := Some d; dp_runs := dp_runs g; dp_queue := dp_queue g;
             dp_created := dp_created g |}) g
      | _ => λ _, g
      end
    | KList k _ _ => match k in kind V return res (list V) → deploying with
      | KPipelineRun => λ r, answered r (λ l,
          {| dp_deploy := dp_deploy g; dp_runs := Some l; dp_queue := dp_queue g;
             dp_created := dp_created g |}) g
      | KCDStageDeploy => λ r, answered r (λ l,
          {| dp_deploy := dp_deploy g; dp_runs := dp_runs g; dp_queue := Some l;
             dp_created := dp_created g |}) g
      | _ => λ _, g
      end
    | KCreate _ _ => λ r, answered r (λ _,
          {| dp_deploy := dp_deploy g; dp_runs := dp_runs g; dp_queue := dp_queue g;
             dp_created := true |}) g
    | _ => λ _, g
    end
  | _ => λ _, g
  end.

(** A deployment that failed is retried at once; any other needs a stage without unfinished
    PipelineRuns, and a queued one its turn. *)
Definition may_start (g : deploying) (d : CDStageDeploy) : Prop :=
  IsFailed d = true
  ∨ ∃ runs, dp_runs g = Some runs ∧ (∀ p, p ∈ runs → pr_CompletionTime p ≠ None)
      ∧ (IsPending d = true
         ∨ IsInQueue d = true ∧ ∃ queue f, dp_queue g = Some queue
             ∧ (∀ e, e ∈ queue → IsInQueue e = true)
             ∧ first_created f queue ∧ name_of f = name_of d).

Definition deploying_guar (g : deploying) : ∀ R, call R → Prop := guard_kube (λ R c,
  match c with
  | KGet _ _ | KList _ _ _ => True
  | @KCreate V k o => match k in kind V return V → Prop with
    | KUnstructured => λ u, ∃ d l, dp_deploy g = Some d ∧ dp_created g = false ∧ may_start g d
        ∧ u_Namespace u = namespace_of d ∧ u_Labels u = Some l
        ∧ l !! CdStageDeployLabel = Some (name_of d)
    | _ => λ _, False
    end o
  | @KStatusUpdate V k o => match k in kind V return V → Prop with
    | KCDStageDeploy => λ o, ∃ d, dp_deploy g = Some d ∧ d_Meta o = d_Meta d ∧ d_Spec o = d_Spec d
        ∧ deploy_transition (dst_Status (d_Status d)) (dst_Status (d_Status o))
        ∧ (IsRunning o = dp_created g)
    | _ => λ _, False
    end o
  | @KDelete V k key => match k with
    | KCDStageDeploy => ∃ d, dp_deploy g = Some d ∧ dp_created g = false
        ∧ key = {| key_Namespace := namespace_of d; key_Name := name_of d |}
    | _ => False
    end
  | _ => False
  end).

Definition deploy_monitor : monitor deploying :=
  {| rely _ _ _ _ := True; guar := deploying_guar; step := deploying_step |}.

Lemma earlier_spec items f :
  match fold_left earlier items (Some f) with
  | None => False
  | Some d =>
    (d = f ∧ Forall (λ e, om_CreationTimestamp (d_Meta f) <= om_CreationTimestamp (d_Meta e))%Z items)
    ∨ ((om_CreationTimestamp (d_Meta d) < om_CreationTimestamp (d_Meta f))%Z ∧ first_created d items)
  end.
Proof.
  revert f. induction items as [|e items IH]; intros f; cbn; [by left|].
  destruct (om_CreationTimestamp (d_Meta e) <? om_CreationTimestamp (d_Meta f))%Z eqn:He.
  - apply Z.ltb_lt in He. specialize (IH e).
    destruct (fold_left earlier items (Some e)) as [d|]; [|done]. right.
    destruct IH as [[-> Hall]|[Hlt (pre&post&->&Hpre&Hpost)]].
    + split; [done|]. by exists [], items.
    + split; [lia|]. exists (e :: pre), post. split_and!; [done|by constructor|done].
  - apply Z.ltb_ge in He. specialize (IH f).
    destruct (fold_left earlier items (Some f)) as [d|]; [|done].
    destruct IH as [[-> Hall]|[Hlt (pre&post&->&Hpre&Hpost)]]; [left; split; [done|by constructor]|].
    right. split; [done|]. exists (e :: pre), post. split_and!; [done|constructor; [lia|done]|done].
Qed.

Lemma isFirsCdStageDeployInQue_spec items name :
  isFirsCdStageDeployInQue items name = true ↔ ∃ f, first_created f items ∧ name_of f = name.
Proof.
  unfold isFirsCdStageDeployInQue. destruct items as [|e items]; cbn.
  { split; [done|]. by intros (f&([]&post&?&_)&_). }
  pose proof (earlier_spec items e) as H. destruct (fold_left _ _ _) as [d|]; [|done].
  assert (Hd : first_created d (e :: items)).
  { destruct H as [[-> Hall]|[Hlt (pre&post&->&Hpre&Hpost)]]; [by exists [], items|].
    exists (e :: pre), post. split_and!; [done|by constructor|done]. }
  rewrite bool_decide_eq_true. split; [by exists d|]. intros (f&Hf&<-). f_equal.
  clear H. destruct Hd as (p&q&Heq&Hp&Hq), Hf as (p'&q'&Heq'&Hp'&Hq').
  rewrite Heq in Heq'. clear Heq. revert p' Hp' Heq'. induction Hp as [|x p Hx Hp IH];
    intros p' Hp' Heq'; destruct Hp' as [|x' p' Hx' Hp']; cbn in Heq'.
  - by injection Heq'.
  - injection Heq' as -> ->. rewrite Forall_app, Forall_cons in Hq. destruct Hq as [_ [? _]].
    cbn in *. lia.
  - injection Heq' as -> <-. rewrite Forall_app, Forall_cons in Hq'. destruct Hq' as [_ [? _]].
    cbn in *. lia.
  - injection Heq' as -> Heq'. by eapply IH.
Qed.

Section Safety.
Context {X : Externals}.

Definition same_object (d d' : CDStageDeploy) : Prop := d_Meta d' = d_Meta d ∧ d_Spec d' = d_Spec d.

(** What the first handler can make of a deployment. *)
Inductive resolved (d : CDStageDeploy) : CDStageDeploy → Prop :=
| resolved_same : resolved d d
| resolved_queue : IsPending d = true → resolved d (set_deploy_status CDStageDeployStatusInQueue d)
| resolved_start : IsInQueue d = true → resolved d (set_deploy_status CDStageDeployStatusPending d)
| resolved_done : IsRunning d = true → resolved d (set_deploy_status CDStageDeployStatusCompleted d).

Definition ready (d d' : CDStageDeploy) (g : deploying) : Prop :=
  dp_deploy g = Some d ∧ dp_created g = false ∧ resolved d d'
  ∧ (skipPipelineRunCreation d' = false → may_start g d).

Lemma skip_spec d : skipPipelineRunCreation d = false ↔ IsPending d = true ∨ IsFailed d = true.
Proof. unfold skipPipelineRunCreation. destruct (IsPending d), (IsFailed d); cbn; naive_solver. Qed.

Lemma runs_completed runs :
  allPipelineRunsCompleted runs = true → ∀ p, p ∈ runs → pr_CompletionTime p ≠ None.
Proof.
  unfold allPipelineRunsCompleted. rewrite forallb_true_iff. intros H p Hp.
  specialize (H p Hp). unfold pr_completed in H. by destruct (pr_CompletionTime p).
Qed.

Lemma status_cases d :
  IsPending d = true → IsInQueue d = false ∧ IsFailed d = false ∧ IsRunning d = false.
Proof.
  unfold IsPending, IsInQueue, IsFailed, IsRunning. rewrite bool_decide_eq_true. intros ->. by split_and!.
Qed.

Lemma wp_ResolveStatus d g :
  dp_deploy g = Some d → dp_created g = false →
  wp deploy_monitor ResolveStatus_ServeRequest d g
    (λ r d' g', match r with
      | Ok _ => ready d d' g'
      | _ => d' = d ∧ dp_deploy g' = Some d ∧ dp_created g' = false
      end).
Proof.
  intros Hd Hc. unfold ResolveStatus_ServeRequest. wp_step. wp_step. wp_step.
  { wp_step. split_and!; [done|done|constructor|]. intros _. by left. }
  rename Heqb into Hf. wp_step. wp_step. unfold getRunningPipelines. wp_step. wp_step. wp_step; [done|].
  intros [runs|e|w] _; [|by wp_step; wp_step; cbn|by cbn]. cbn [deploying_step deploy_monitor step answered].
  destruct (IsPending d) eqn:Hp.
  { wp_step.
    - wp_step. split_and!; [done|done|constructor|]. intros _. right. exists runs.
      split_and!; [done|by apply runs_completed|by left].
    - wp_step. split_and!; [done|done|by constructor|]. by rewrite skip_spec; intros [|]. }
  destruct (IsInQueue d) eqn:Hq.
  { wp_step. wp_step. unfold shouldStartCDStageDeploy. wp_step.
    - wp_step. wp_step. split_and!; [done|done|constructor|]. rewrite skip_spec, Hp, Hf. by intros [|].
    - apply negb_false_iff in Heqb. wp_step. wp_step. wp_step. wp_step; [done|].
      intros [queue|e|w] _; [|by wp_step; wp_step; cbn|by cbn].
      cbn [deploying_step deploy_monitor step answered].
      destruct (allCdStageDeploysInQue queue) eqn:Hall; cbn [negb].
      + wp_step. destruct (isFirsCdStageDeployInQue queue (name_of d)) eqn:Hfirst.
        * wp_step. split_and!; [done|done|by constructor|]. intros _. right. exists runs.
          split_and!; [done|by apply runs_completed|]. right. split; [done|].
          apply isFirsCdStageDeployInQue_spec in Hfirst as (f&Hf'&Hn). exists queue, f.
          split_and!; [done|by apply forallb_true_iff|done|done].
        * wp_step. split_and!; [done|done|constructor|]. rewrite skip_spec, Hp, Hf. by intros [|].
      + wp_step. wp_step. split_and!; [done|done|constructor|]. rewrite skip_spec, Hp, Hf. by intros [|]. }
  wp_step; [wp_step|]; wp_step; (split_and!; [done|done|by constructor|]); rewrite skip_spec.
  - by intros [|].
  - rewrite Hp, Hf. by intros [|].
  - rewrite Hp, Hf. by intros [|].
Qed.

(** What the second handler can make of it. *)
Inductive processed (d d' : CDStageDeploy) (g : deploying) : CDStageDeploy → Prop :=
| processed_skip : dp_created g = false → skipPipelineRunCreation d' = true → processed d d' g d'
| processed_none : dp_created g = false →
    processed d d' g (set_deploy_status CDStageDeployStatusCompleted d')
| processed_run : dp_created g = true → skipPipelineRunCreation d' = false →
    processed d d' g (set_deploy_status CDStageDeployStatusRunning d').

Lemma makeUnstructured_labels ns name raw payload st pl cs u :
  makeUnstructuredPipelineRun ns name raw payload st pl cs = Ok u →
  u_Namespace u = ns ∧ ∃ l, u_Labels u = Some l ∧ l !! CdStageDeployLabel = Some name.
Proof.
  unfold makeUnstructuredPipelineRun. destruct (UnmarshalJSON _) as [data|e|w]; cbn; [|done..].
  destruct (u_Labels data) as [l|]; [|done]. intros [= <-]. cbn. split; [done|].
  eexists; split; [done|]. apply lookup_insert_eq.
Qed.

Lemma resolved_same_object d d' : resolved d d' → same_object d d'.
Proof. by destruct 1. Qed.

Lemma wp_ProcessTriggerTemplate d d' g :
  ready d d' g →
  wp deploy_monitor ProcessTriggerTemplate_ServeRequest d' g
    (λ r d'' g', dp_deploy g' = Some d ∧ match r with
      | Ok _ => processed d d' g' d''
      | _ => d'' = d' ∧ dp_created g' = false
      end).
Proof.
  intros (Hd&Hc&Hr&Hs). unfold ProcessTriggerTemplate_ServeRequest. wp_step. wp_step. wp_step.
  { wp_step. split; [done|]. by constructor. }
  rename Heqb into Hskip. specialize (Hs eq_refl).
  wp_step. wp_step. eapply wp_mono with (Q := λ _ s g', s = d' ∧ g' = g).
  { assert (Hk : keeps deploy_monitor (λ s g', s = d' ∧ g' = g) (getResourcesForPipelineRun d')) by keeps_go.
    by apply Hk. }
  intros [[[pl st] raw]|e|w] s g' [-> ->]; [|wp_step; wp_step; by split_and!; try constructor|by split_and!].
  wp_step. wp_step. eapply wp_mono with (Q := λ _ s g', s = d' ∧ g' = g).
  { assert (Hk : keeps deploy_monitor (λ s g', s = d' ∧ g' = g) (getAppPayload d' pl st)) by keeps_go.
    by apply Hk. }
  intros [payload|e|w] s g' [-> ->]; [|wp_step; wp_step; by split_and!; try constructor|by split_and!].
  apply resolved_same_object in Hr as [Hm Hsp].
  wp_step. wp_step. unfold CreatePipelineRun. wp_step. wp_step.
  destruct (makeUnstructuredPipelineRun _ _ _ _ _ _ _) as [u|e|w] eqn:Hu; [|by wp_step|by split_and!].
  apply makeUnstructured_labels in Hu as (Hns&l&Hl&Hll).
  wp_step. wp_step. wp_step. wp_step.
  { exists d, l. unfold namespace_of, name_of in *. cbn in *. rewrite Hm in *. by split_and!. }
  intros [u'|e|w] _; [|by wp_step; wp_step|by split_and!].
  wp_step. wp_step. split; [done|]. by constructor.
Qed.

Lemma processed_status d d' g d'' :
  resolved d d' → processed d d' g d'' →
  dst_Status (d_Status d'') = dst_Status (d_Status d)
  ∨ IsCompleted d'' = true
  ∨ deploy_transition (dst_Status (d_Status d)) (dst_Status (d_Status d''))
    ∧ IsRunning d'' = dp_created g.
Proof.
  intros Hr [Hc Hs|Hc|Hc Hs]; [|by right; left|].
  - destruct Hr as [|Hp|Hq|Hrun]; [by left| |done|by right; left].
    right; right. rewrite Hc. apply bool_decide_eq_true in Hp. rewrite Hp. by split; [constructor|].
  - right; right. rewrite Hc. split; [|done]. constructor.
    apply skip_spec in Hs. destruct Hr as [|Hp|Hq|Hrun]; destruct Hs as [Hs|Hs]; try done;
      apply bool_decide_eq_true in Hs; try (apply bool_decide_eq_true in Hq); rewrite ?Hs, ?Hq;
      eapply bool_decide_eq_true_1; vm_compute; reflexivity.
Qed.

Lemma wp_CreateChain d g :
  dp_deploy g = Some d → dp_created g = false →
  wp deploy_monitor CreateChain d g
    (λ r d' g', dp_deploy g' = Some d ∧ same_object d d' ∧ match r with
      | Ok _ => dst_Status (d_Status d') = dst_Status (d_Status d)
          ∨ IsCompleted d' = true
          ∨ deploy_transition (dst_Status (d_Status d)) (dst_Status (d_Status d'))
            ∧ IsRunning d' = dp_created g'
      | _ => dp_created g' = false
      end).
Proof.
  intros Hd Hc. unfold CreateChain. cbn [deploy_chain_ServeRequest].
  wp_step. wp_step. eapply wp_mono; [by apply wp_ResolveStatus|].
  intros [[]|e|w] d' g' H; [|by wp_step; destruct H as (->&?&?)|by destruct H as (->&?&?)].
  assert (Hr : resolved d d') by apply H. pose proof (resolved_same_object _ _ Hr) as Hso.
  wp_step. wp_step. eapply wp_mono; [by apply wp_ProcessTriggerTemplate|].
  intros [[]|e|w] d'' g'' [Hd'' H']; [|by wp_step; destruct H' as (->&?)|by destruct H' as (->&?)].
  assert (Hso' : same_object d d'').
  { destruct H'; [done|by destruct Hso..]. }
  wp_step. wp_step. unfold DeleteCDStageDeploy_ServeRequest. wp_step. wp_step.
  destruct (IsCompleted d'') eqn:Hcomp; cbn [negb];
    pose proof (processed_status _ _ _ _ Hr H') as Hst; [|wp_step; wp_step; by split_and!].
  assert (Hc' : dp_created g'' = false) by by destruct H'.
  wp_step. wp_step. wp_step. wp_step.
  { exists d. unfold namespace_of, name_of. cbn. destruct Hso' as [-> _]. by split_and!. }
  intros [[]|e|w] _; [wp_step; wp_step; split_and!; by auto| |].
  2:{ by split_and!. }
  wp_step; [wp_step; wp_step; split_and!; by auto|wp_step; wp_step; by split_and!].
Qed.

(** ** Properties *)

End Safety.
