(* ===== verification/DeployQueue.v ===== *)
(** * DeployQueue: what the deployments of a stage do together

    An abstract specification of the queue of one stage, the refinement of it by
    [ReconcileCDStageDeploy], and what the queue promises: at most one unfinished
    PipelineRun, and an end. The controller reconciles one deployment at a time
    ([MaxConcurrentReconciles: 1] of cdstagedeploy_controller.go), so reconciliations are steps
    between which runs finish and deployments arrive. *)

From S2P Require Import Prelude Api Effects GoStd Externals Host ImageStreams TriggerTemplate CodebaseController StageDeploy Simulation.

(** ** The stage *)

(** The deployments of the stage that exist, and the PipelineRuns it lists. *)
Record world := { w_deploys : list CDStageDeploy; w_runs : list PipelineRun }.

Definition find_deploy (name : string) (l : list CDStageDeploy) : option CDStageDeploy :=
  List.find (λ d, bool_decide (name_of d = name)) l.
Definition replace_deploy (d : CDStageDeploy) (l : list CDStageDeploy) : list CDStageDeploy :=
  map (λ e, if bool_decide (name_of e = name_of d) then d else e) l.
Definition remove_deploy (name : string) (l : list CDStageDeploy) : list CDStageDeploy :=
  List.filter (λ e, negb (bool_decide (name_of e = name))) l.

Definition idle (w : world) : bool := allPipelineRunsCompleted (w_runs w).

Definition new_run : PipelineRun := {| pr_Meta := new_meta "" "" ""; pr_CompletionTime := None |}.

Definition set_status (st : string) (d : CDStageDeploy) (w : world) : world :=
  {| w_deploys := replace_deploy (set_deploy_status st d) (w_deploys w); w_runs := w_runs w |}.
Definition launch (w : world) : world :=
  {| w_deploys := w_deploys w; w_runs := w_runs w ++ [new_run] |}.
Definition start (d : CDStageDeploy) (w : world) : world :=
  set_status CDStageDeployStatusRunning d (launch w).
Definition retire (d : CDStageDeploy) (w : world) : world :=
  {| w_deploys := remove_deploy (name_of d) (w_deploys w); w_runs := w_runs w |}.

(** What a reconciliation that meets no error is meant to do. *)
Definition reconcile_spec (name : string) (w : world) : world :=
  match find_deploy name (w_deploys w) with
  | None => w
  | Some d =>
    if is_deleting d then w
    else if IsFailed d then start d w
    else if IsPending d then
      if idle w then start d w else set_status CDStageDeployStatusInQueue d w
    else if IsInQueue d then
      if idle w && allCdStageDeploysInQue (w_deploys w)
         && isFirsCdStageDeployInQue (w_deploys w) name
      then start d w else w
    else if IsRunning d then if idle w then retire d w else w
    else if IsCompleted d then retire d w
    else w
  end.

Lemma status_exclusive d s : dst_Status (d_Status d) = s →
  IsFailed d = bool_decide (s = CDStageDeployStatusFailed)
  ∧ IsPending d = bool_decide (s = CDStageDeployStatusPending)
  ∧ IsInQueue d = bool_decide (s = CDStageDeployStatusInQueue)
  ∧ IsRunning d = bool_decide (s = CDStageDeployStatusRunning)
  ∧ IsCompleted d = bool_decide (s = CDStageDeployStatusCompleted).
Proof. by intros <-. Qed.

(** From a known status, the value of every status test. *)
Ltac status_facts Hs :=
  destruct (status_exclusive _ _ Hs) as (E1&E2&E3&E4&E5);
  repeat match goal with E : _ = bool_decide ?P |- _ =>
    let b := eval vm_compute in (bool_decide P) in change (bool_decide P) with b in E end;
  rewrite ?E1, ?E2, ?E3, ?E4, ?E5; cbn; rewrite ?E1, ?E2, ?E3, ?E4, ?E5.

Definition demo_deploy (name status : string) (created : Z) : CDStageDeploy :=
  {| d_Meta := {| om_Name := name; om_GenerateName := ""; om_Namespace := "ns"; om_Labels := ∅;
       om_Annotations := ∅; om_Finalizers := []; om_OwnerReferences := [];
       om_DeletionTimestamp := None; om_CreationTimestamp := created; om_Generation := 0 |};
     d_Spec := {| ds_Pipeline := "pipe"; ds_Stage := "dev";
                  ds_Tag := {| ct_Codebase := "app"; ct_Tag := "1"; ct_Digest := "" |};
                  ds_Tags := []; ds_TriggerType := "Auto" |};
     d_Status := {| dst_Status := status; dst_Message := "" |} |}.

Lemma find_deploy_some name l d : find_deploy name l = Some d → d ∈ l ∧ name_of d = name.
Proof.
  unfold find_deploy. intros H. apply List.find_some in H as [? H].
  rewrite list_elem_of_In. by apply bool_decide_eq_true in H.
Qed.

(** ** The API server of the stage *)

Section World.
Context {X : Externals}.
Context (ns pl st : string) (pipeline : CDPipeline) (stage : Stage) (template : TriggerTemplate)
  (streams : string → list CodebaseImageStream).

Definition world_kube_rely (w : world) : ∀ R, kube_call R → R → Prop := λ R c,
  match c in kube_call R return R → Prop with
  | KGet k key => match k in kind V return res V → Prop with
    | KCDStageDeploy => λ r, r = match find_deploy (key_Name key) (w_deploys w) with
        | Some d => Ok d | None => Err (EExt NotFound "not found") end
    | KCDPipeline => λ r, key = {| key_Namespace := ns; key_Name := pl |} → r = Ok pipeline
    | KStage => λ r, key = {| key_Namespace := ns; key_Name := st |} → r = Ok stage
    | KTriggerTemplate => λ r,
        key = {| key_Namespace := ns; key_Name := st_TriggerTemplate stage |} → r = Ok template
    | _ => λ _, True
    end
  | KList k _ sel => match k in kind V return res (list V) → Prop with
    | KPipelineRun => λ r, sel_Labels sel = deploy_selector pl st →
        (length (w_runs w) <= maxPipelineRuns)%nat → r = Ok (w_runs w)
    | KCDStageDeploy => λ r, sel = matching_labels (deploy_selector pl st) → r = Ok (w_deploys w)
    | KCodebaseImageStream => λ r,
        ∀ b, sel = matching_labels [(CodebaseBranchLabel, b)] → r = Ok (streams b)
    | _ => λ _, True
    end
  | KCreate _ o => λ r, r = Ok o
  | KStatusUpdate _ o => λ r, r = Ok o
  | KDelete _ _ => λ r, r = Ok tt
  | _ => λ _, True
  end.

(** The listings of the stage's PipelineRuns show an object with these labels. *)
Definition selected (u : Unstructured) : bool :=
  bool_decide (u_Namespace u = ns)
  && forallb (λ '(k, v), bool_decide (default ∅ (u_Labels u) !! k = Some v)) (deploy_selector pl st).

Definition world_kube_step (w : world) : ∀ R, kube_call R → R → world := λ R c,
  match c in kube_call R return R → world with
  | @KCreate V k o => λ _, match k in kind V return V → world with
      | KUnstructured => λ u, if selected u then launch w else w
      | _ => λ _, w
      end o
  | @KStatusUpdate V k o => λ _, match k in kind V return V → world with
      | KCDStageDeploy => λ d, {| w_deploys := replace_deploy d (w_deploys w); w_runs := w_runs w |}
      | _ => λ _, w
      end o
  | KDelete _ key => λ _,
      {| w_deploys := remove_deploy (key_Name key) (w_deploys w); w_runs := w_runs w |}
  | _ => λ _, w
  end.

(** A PipelineRun is created while none is unfinished or a failed deployment is retried; a
    status is written to, and a deletion asked for, a deployment of the stage. *)
Definition world_kube_guar (w : world) : ∀ R, kube_call R → Prop := λ R c,
  match c with
  | @KCreate V k o => match k in kind V return V → Prop with
      | KUnstructured => λ _, idle w = true ∨ ∃ d, d ∈ w_deploys w ∧ IsFailed d = true
      | _ => λ _, True
      end o
  | @KStatusUpdate V k o => match k in kind V return V → Prop with
      | KCDStageDeploy => λ d', ∃ d s, d ∈ w_deploys w ∧ d' = set_deploy_status s d
          ∧ s ∈ [CDStageDeployStatusInQueue; CDStageDeployStatusRunning]
      | _ => λ _, True
      end o
  | KDelete _ key => ∃ d, d ∈ w_deploys w ∧ key_Name key = name_of d
  | _ => True
  end.

Definition world_monitor : monitor world :=
  {| rely w := when_kube (world_kube_rely w);
     guar w := guard_kube (world_kube_guar w);
     step w R c := match c in call R return R → world with
       | CKube kc => world_kube_step w _ kc
       | _ => λ _, w
       end |}.

Definition of_stage (d : CDStageDeploy) : Prop :=
  namespace_of d = ns ∧ ds_Pipeline (d_Spec d) = pl ∧ GetStageCRName d = st.

(** What the stage needs for its deployments to start: a template with a resource that parses
    to an object with the labels of the pipeline and the stage (the code itself adds only the
    one of the deployment), and a last tag on every input stream. *)
Record launchable := {
  la_namespace : om_Namespace (p_Meta pipeline) = ns;
  la_streams b : b ∈ p_InputDockerStreams pipeline →
    ∃ cis t, streams b = [cis] ∧ GetLastTag (is_Tags (i_Spec cis)) = Ok t;
  la_template : ∃ raw rest, tt_ResourceTemplates template = raw :: rest
    ∧ ∀ payload, ∃ data l,
        UnmarshalJSON (instantiate_template raw payload (st_SpecName stage) (p_SpecName pipeline)
                         (st_ClusterName stage)) = Ok data ∧ u_Labels data = Some l
        ∧ l !! CdPipelineLabel = Some pl ∧ l !! CdStageLabel = Some st }.
Context (HL : launchable).

Lemma selected_labels name l status content :
  l !! CdPipelineLabel = Some pl → l !! CdStageLabel = Some st →
  selected {| u_Namespace := ns; u_Labels := Some (<[CdStageDeployLabel := name]> l);
              u_SpecStatus := status; u_Content := content |} = true.
Proof.
  intros Hp Hs. unfold selected. cbn. rewrite bool_decide_true by done.
  rewrite !lookup_insert_ne by done. by rewrite Hp, Hs, !bool_decide_true.
Qed.

Lemma wp_world_stream {S} b (s : S) w :
  b ∈ p_InputDockerStreams pipeline →
  wp world_monitor (stream_latest pipeline b) s w (λ r s' w', s' = s ∧ w' = w ∧ ∃ x, r = Ok x).
Proof.
  intros Hb. destruct (la_streams HL b Hb) as (cis&t&Hs&Ht).
  unfold stream_latest, GetCodebaseImageStreamByCodebaseBaseBranchName.
  wp_step. wp_step. wp_step. wp_step. wp_step. wp_step; [done|]. intros r Hr.
  specialize (Hr b eq_refl). rewrite Hr, Hs. cbn.
  wp_step. wp_step. wp_step. unfold getLatestTag. rewrite Ht. wp_step. eauto.
Qed.

Lemma wp_world_fold {S} (f : gmap string ApplicationPayload → string → M S (gmap string ApplicationPayload))
    bs m (s : S) w :
  (∀ b m s, b ∈ p_InputDockerStreams pipeline →
    wp world_monitor (f m b) s w (λ r s' w', s' = s ∧ w' = w ∧ ∃ x, r = Ok x)) →
  (∀ b, b ∈ bs → b ∈ p_InputDockerStreams pipeline) →
  wp world_monitor (fold_each bs m f) s w (λ r s' w', s' = s ∧ w' = w ∧ ∃ x, r = Ok x).
Proof.
  intros Hf. revert m. induction bs as [|b bs IH]; intros m Hbs; cbn [fold_each]; [wp_step; eauto|].
  wp_step. eapply wp_mono; [apply Hf, Hbs; set_solver|].
  intros r s' w' (->&->&[m' ->]). apply IH. set_solver.
Qed.

Lemma wp_world_payload d w :
  wp world_monitor (getAppPayload d pipeline stage) d w
    (λ r d' w', d' = d ∧ w' = w ∧ ∃ x, r = Ok x).
Proof.
  assert (Hf : wp world_monitor
    (if bool_decide (ds_TriggerType (d_Spec d) = TriggerTypeAutoStable)
     then GetAppPayloadForCurrentWithStableStrategy (ds_Tag (d_Spec d)) pipeline stage
     else GetAppPayloadForAllLatestStrategy pipeline) d w
    (λ r d' w', d' = d ∧ w' = w ∧ ∃ x, r = Ok x)).
  { unfold GetAppPayloadForCurrentWithStableStrategy, GetAppPayloadForAllLatestStrategy.
    case_bool_decide; wp_step; (eapply wp_mono;
      [apply wp_world_fold; [|done]|intros r s' w' (->&->&[m ->]); wp_step; eauto]);
      intros b m s Hb; unfold add_stable, add_latest; wp_step;
      (eapply wp_mono; [by apply wp_world_stream|]);
      intros r s' w' (->&->&[[[cis k] t] ->]); wp_step; eauto. }
  unfold getAppPayload. wp_step. eapply wp_mono; [exact Hf|].
  intros r d' w' (->&->&[x ->]). eauto.
Qed.

(** ** The handlers, one by one *)

Definition resolve_spec (w : world) (d : CDStageDeploy) : CDStageDeploy :=
  if IsFailed d then d
  else if IsPending d then
    if idle w then d else set_deploy_status CDStageDeployStatusInQueue d
  else if IsInQueue d then
    if idle w && allCdStageDeploysInQue (w_deploys w)
       && isFirsCdStageDeployInQue (w_deploys w) (name_of d)
    then set_deploy_status CDStageDeployStatusPending d else d
  else if IsRunning d then
    if idle w then set_deploy_status CDStageDeployStatusCompleted d else d
  else d.

Lemma wp_world_resolve d w :
  of_stage d → (length (w_runs w) <= maxPipelineRuns)%nat →
  wp world_monitor ResolveStatus_ServeRequest d w
    (λ r d' w', r = Ok tt ∧ w' = w ∧ d' = resolve_spec w d).
Proof.
  intros (Hns&Hpl&Hst) Hlen. unfold ResolveStatus_ServeRequest, resolve_spec, idle. wp_step. wp_step.
  destruct (IsFailed d); [by wp_step|].
  wp_step. wp_step. unfold getRunningPipelines. wp_step. wp_step. wp_step; [done|].
  intros r Hr. cbn in Hr. rewrite Hpl, Hst in Hr. rewrite (Hr eq_refl Hlen).
  cbn [step world_monitor world_kube_step].
  destruct (IsPending d).
  { destruct (allPipelineRunsCompleted (w_runs w)); by wp_step. }
  destruct (IsInQueue d).
  { wp_step. wp_step. unfold shouldStartCDStageDeploy.
    destruct (allPipelineRunsCompleted (w_runs w)); cbn [negb andb]; [|by do 2 wp_step].
    wp_step. wp_step. wp_step. wp_step; [done|]. intros r' Hr'. cbn in Hr'.
    rewrite Hpl, Hst in Hr'. rewrite (Hr' eq_refl). cbn [step world_monitor world_kube_step].
    destruct (allCdStageDeploysInQue (w_deploys w)); cbn [negb andb]; [|by do 2 wp_step].
    wp_step. destruct (isFirsCdStageDeployInQue _ _); by wp_step. }
  destruct (IsRunning d); [destruct (allPipelineRunsCompleted (w_runs w))|]; by wp_step.
Qed.

Lemma wp_world_process d w :
  of_stage d →
  (skipPipelineRunCreation d = false → idle w = true ∨ ∃ e, e ∈ w_deploys w ∧ IsFailed e = true) →
  wp world_monitor ProcessTriggerTemplate_ServeRequest d w
    (λ r d' w', r = Ok tt ∧ if skipPipelineRunCreation d then d' = d ∧ w' = w
                 else d' = set_deploy_status CDStageDeployStatusRunning d ∧ w' = launch w).
Proof.
  intros (Hns&Hpl&Hst) Hmay. destruct (la_template HL) as (raw&rest&Htt&Hparse).
  unfold ProcessTriggerTemplate_ServeRequest. wp_step. wp_step.
  destruct (skipPipelineRunCreation d); [by wp_step|]. specialize (Hmay eq_refl).
  wp_step. wp_step. unfold getResourcesForPipelineRun, GetRawResourceFromTriggerTemplate.
  rewrite Hns, Hpl, Hst.
  do 2 (wp_to_call; wp_step; [done|]; intros r Hr; rewrite (Hr eq_refl); clear r Hr).
  wp_step. wp_step. wp_step. wp_to_call. wp_step; [done|]. intros r Hr. rewrite (Hr eq_refl). clear r Hr.
  cbn [step world_monitor world_kube_step]. rewrite Htt. wp_step. wp_step.
  cbn [step world_monitor world_kube_step].
  wp_step. wp_step. eapply wp_mono; [apply wp_world_payload|]. intros r d' w' (->&->&[j ->]).
  wp_step. wp_step. unfold CreatePipelineRun. wp_step. wp_step.
  destruct (Hparse j) as (data&l&Hd&Hl&Hlp&Hls).
  unfold makeUnstructuredPipelineRun. rewrite Hd. cbn [wrap res_bind]. rewrite Hl.
  wp_step. wp_step. wp_step. wp_step; [done|]. intros r Hr. cbn in Hr. subst r.
  cbn [step world_monitor world_kube_step]. rewrite selected_labels by done.
  wp_step. by wp_step.
Qed.

Lemma wp_world_delete d w :
  (∃ e, e ∈ w_deploys w ∧ name_of d = name_of e) →
  wp world_monitor DeleteCDStageDeploy_ServeRequest d w
    (λ r d' w', r = Ok tt ∧ d' = d ∧ w' = if IsCompleted d then retire d w else w).
Proof.
  intros Hin. unfold DeleteCDStageDeploy_ServeRequest. wp_step. wp_step.
  destruct (IsCompleted d); cbn [negb]; [|by wp_step].
  wp_step. wp_step. wp_step. wp_step; [done|]. intros r Hr. cbn in Hr. subst r. by wp_step.
Qed.

(** What the chain leaves: the object and the stage before the status is written. *)
Definition chain_spec (d : CDStageDeploy) (w : world) : CDStageDeploy * world :=
  let d' := resolve_spec w d in
  if skipPipelineRunCreation d' then (d', if IsCompleted d' then retire d' w else w)
  else (set_deploy_status CDStageDeployStatusRunning d', launch w).

Lemma of_stage_resolve w d : of_stage d → of_stage (resolve_spec w d).
Proof.
  intros H. unfold resolve_spec. repeat match goal with |- context [if ?b then _ else _] => destruct b end;
    done.
Qed.

(** What can be left of a deployment is itself with another status. *)
Lemma resolve_status w d : resolve_spec w d = d ∨ ∃ s, resolve_spec w d = set_deploy_status s d.
Proof.
  unfold resolve_spec. repeat match goal with |- context [if ?b then _ else _] => destruct b end;
    first [by left | by right; eexists].
Qed.

Lemma resolve_name w d : name_of (resolve_spec w d) = name_of d.
Proof. by destruct (resolve_status w d) as [-> | [s ->]]. Qed.

(** A deployment only starts in an idle stage, unless it failed. *)
Lemma resolve_may_start w d :
  d ∈ w_deploys w → skipPipelineRunCreation (resolve_spec w d) = false →
  idle w = true ∨ ∃ e, e ∈ w_deploys w ∧ IsFailed e = true.
Proof.
  intros Hin. unfold resolve_spec. destruct (IsFailed d) eqn:HF; [by eauto|].
  destruct (idle w) eqn:Hi; [by left|]. unfold skipPipelineRunCreation.
  destruct (IsPending d) eqn:HP; [done|].
  destruct (IsInQueue d); cbn; [by rewrite HP, HF|]. destruct (IsRunning d); by rewrite HP, HF.
Qed.

Lemma wp_world_chain d w :
  of_stage d → d ∈ w_deploys w → (length (w_runs w) <= maxPipelineRuns)%nat →
  wp world_monitor CreateChain d w (λ r d' w', r = Ok tt ∧ (d', w') = chain_spec d w).
Proof.
  intros Hd Hin Hlen. unfold CreateChain, chain_spec. cbn [deploy_chain_ServeRequest].
  wp_step. wp_step. eapply wp_mono; [by apply wp_world_resolve|]. intros r d1 w1 (->&->&->).
  wp_step. wp_step. eapply wp_mono; [apply wp_world_process; [by apply of_stage_resolve|by apply resolve_may_start]|].
  intros r d2 w2 [-> H]. wp_step. wp_step. eapply wp_mono; [apply wp_world_delete|].
  { exists d. rewrite <- (resolve_name w d).
    destruct (skipPipelineRunCreation (resolve_spec w d)); by destruct H as [-> ->]. }
  intros r d3 w3 (->&->&->). wp_step. split; [done|].
  destruct (skipPipelineRunCreation (resolve_spec w d)); by destruct H as [-> ->].
Qed.

(** The status write after the chain. *)
Definition persist_spec (d d' : CDStageDeploy) (w : world) : world :=
  if negb (bool_decide (dst_Status (d_Status d') = dst_Status (d_Status d)))
     && negb (bool_decide (dst_Status (d_Status d') = CDStageDeployStatusCompleted))
  then {| w_deploys := replace_deploy d' (w_deploys w); w_runs := w_runs w |} else w.

(** The statuses that are written. *)
Lemma chain_spec_written d w :
  let '(d', w') := chain_spec d w in
  dst_Status (d_Status d') ≠ dst_Status (d_Status d) →
  dst_Status (d_Status d') ≠ CDStageDeployStatusCompleted →
  w_deploys w' = w_deploys w ∧ ∃ s, d' = set_deploy_status s d
    ∧ s ∈ [CDStageDeployStatusInQueue; CDStageDeployStatusRunning].
Proof.
  assert (Hq : CDStageDeployStatusInQueue ∈ [CDStageDeployStatusInQueue; CDStageDeployStatusRunning]) by left.
  assert (Hr : CDStageDeployStatusRunning ∈ [CDStageDeployStatusInQueue; CDStageDeployStatusRunning])
    by (right; left).
  unfold chain_spec. destruct (skipPipelineRunCreation (resolve_spec w d)) eqn:Hskip.
  - intros Hne Hc. unfold IsCompleted. rewrite bool_decide_false by done. split; [done|]. revert Hskip Hne Hc.
    unfold resolve_spec. repeat match goal with |- context [if ?b then _ else _] => destruct b eqn:? end;
      try done; intros; by eauto.
  - intros _ _. split; [done|]. destruct (resolve_status w d) as [-> | [s ->]]; by eauto.
Qed.

Lemma wp_world_serve d w :
  of_stage d → d ∈ w_deploys w → (length (w_runs w) <= maxPipelineRuns)%nat →
  wp world_monitor serve_deploy d w
    (λ r _ w', is_ok r = true ∧ w' = let '(d', w') := chain_spec d w in persist_spec d d' w').
Proof.
  intros Hd Hin Hlen. unfold serve_deploy. wp_step. wp_step. wp_step. wp_step.
  eapply wp_mono; [by apply wp_world_chain|]. intros r d' w' [-> Heq]. rewrite <- Heq.
  pose proof (chain_spec_written d w) as Hwr. rewrite <- Heq in Hwr.
  unfold persist_spec. wp_step. wp_step. wp_step. destruct (_ && _) eqn:Hw; [|by do 2 wp_step].
  apply andb_true_iff in Hw as [H1 H2]. rewrite negb_true_iff, bool_decide_eq_false in H1, H2.
  destruct (Hwr H1 H2) as (Hds&s&Hs&Hsin).
  wp_to_call. wp_step; [exists d, s; by rewrite Hds|]. intros r Hr. cbn in Hr. subst r. wp_step. wp_step. by wp_step.
Qed.

(** The two halves of a reconciliation amount to [reconcile_spec]. *)
Lemma reconcile_spec_serve name d w :
  find_deploy name (w_deploys w) = Some d → name_of d = name → is_deleting d = false →
  reconcile_spec name w = let '(d', w') := chain_spec d w in persist_spec d d' w'.
Proof.
  intros Hf Hn Hdel. unfold reconcile_spec, chain_spec, resolve_spec. rewrite Hf, Hdel, Hn.
  unfold skipPipelineRunCreation.
  destruct (decide (dst_Status (d_Status d) = CDStageDeployStatusFailed)) as [Hs|Hs1].
  { status_facts Hs. unfold persist_spec. cbn. by rewrite Hs. }
  destruct (decide (dst_Status (d_Status d) = CDStageDeployStatusPending)) as [Hs|Hs2].
  { status_facts Hs. unfold persist_spec. destruct (idle w); cbn; rewrite ?E1, ?E2; cbn; by rewrite Hs. }
  destruct (decide (dst_Status (d_Status d) = CDStageDeployStatusInQueue)) as [Hs|Hs3].
  { status_facts Hs. unfold persist_spec.
    destruct (_ && _ && _); cbn; rewrite ?E1, ?E2, ?E5; cbn; by rewrite Hs. }
  destruct (decide (dst_Status (d_Status d) = CDStageDeployStatusRunning)) as [Hs|Hs4].
  { status_facts Hs. unfold persist_spec.
    destruct (idle w); cbn; rewrite ?E1, ?E2, ?E5; cbn; by rewrite Hs. }
  assert (Hrest : IsFailed d = false ∧ IsPending d = false ∧ IsInQueue d = false ∧ IsRunning d = false)
    by by split_and!; apply bool_decide_false.
  destruct Hrest as (E1&E2&E3&E4). rewrite E1, E2, E3, E4. cbn. rewrite E1, E2. cbn.
  unfold persist_spec. rewrite bool_decide_true by done. by destruct (IsCompleted d).
Qed.

Lemma wp_world_reconcile name s w :
  (length (w_runs w) <= maxPipelineRuns)%nat → Forall of_stage (w_deploys w) →
  wp world_monitor (ReconcileCDStageDeploy {| key_Namespace := ns; key_Name := name |}) s w
    (λ r _ w', is_ok r = true ∧ w' = reconcile_spec name w).
Proof.
  intros Hlen Hst. unfold ReconcileCDStageDeploy. wp_step. wp_step. wp_step; [done|].
  intros r Hr. cbn in Hr. subst r. destruct (find_deploy name (w_deploys w)) as [d|] eqn:Hf.
  - pose proof (find_deploy_some _ _ _ Hf) as [Hin Hn]. rewrite Forall_forall in Hst.
    wp_step. wp_step. destruct (is_deleting d) eqn:Hdel.
    + wp_step. split; [done|]. unfold reconcile_spec. by rewrite Hf, Hdel.
    + rewrite (reconcile_spec_serve name d w) by done. apply wp_world_serve; auto.
  - change (IsNotFound (EExt NotFound "not found")) with true. cbv iota. wp_step.
    split; [done|]. unfold reconcile_spec. by rewrite Hf.
Qed.

(** ** A server of the stage *)

Definition stage_kube {R} (c : kube_call R) (w : world) : R :=
  match c in kube_call R return R with
  | KGet k key =>
    match k in kind V return res V with
    | KCDStageDeploy => match find_deploy (key_Name key) (w_deploys w) with
        | Some d => Ok d | None => Err (EExt NotFound "not found") end
    | KCDPipeline => Ok pipeline
    | KStage => Ok stage
    | KTriggerTemplate => Ok template
    | _ => Err (EExt NotFound "not found")
    end
  | KList k _ sel =>
    match k in kind V return res (list V) with
    | KPipelineRun => Ok (w_runs w)
    | KCDStageDeploy => Ok (w_deploys w)
    | KCodebaseImageStream => Ok (default [] (streams <$> (snd <$> head (sel_Labels sel))))
    | _ => Ok []
    end
  | KCreate _ o => Ok o
  | KUpdate _ o => Ok o
  | KStatusUpdate _ o => Ok o
  | KPatch _ _ o => Ok o
  | KStatusPatch _ _ o => Ok o
  | KDelete _ _ => Ok tt
  end.

Definition stage_env : environment world := λ R c w,
  match c in call R return R * world with
  | CKube kc => let r := stage_kube kc w in (r, world_kube_step w _ kc r)
  | CGit _ gc => (fst (sim_git gc sim_start), w)
  | CProvider pc => (sim_provider pc, w)
  | CGerrit gc => (sim_gerrit gc, w)
  | CSys sc => (sim_sys sc, w)
  | CJira _ jc => (sim_jira jc, w)
  | CHttp _ => (Ok {| rs_IsSuccess := true; rs_Status := "200 OK" |}, w)
  | CGoGit gc => (fst (sim_gogit gc sim_start), w)
  | CRest t _ => (Ok (sim_rest t), w)
  | CBitbucket bc => (sim_bitbucket bc, w)
  | CSsh sc => (sim_ssh sc, w)
  end.

Lemma stage_env_truthful : truthful world_monitor stage_env.
Proof.
  intros R c w. destruct c as [R c|? R c|R c|R c|R c|? ? c|?|? c|? ? ?|? c|? c]; try done. split; [|done].
  destruct c as [V k key|V k ns' sel|V k o|V k o|V k b o|V k o|V k b o|V k key]; try done;
    destruct k; try done. intros b ->. done.
Qed.

(** What one reconciliation of [name] can make of the stage: the code run against any server
    that answers from the stage. *)
Inductive reconciled (name : string) (w : world) : world → Prop :=
| reconciled_run W (h : environment W) s v :
    relied world_monitor w
      (trace h (ReconcileCDStageDeploy {| key_Namespace := ns; key_Name := name |} s) v) →
    reconciled name w (ghost_after world_monitor w
      (trace h (ReconcileCDStageDeploy {| key_Namespace := ns; key_Name := name |} s) v)).

(** The same, but the operator is killed before the reconciliation is over. *)
Inductive interrupted (name : string) (w : world) : world → Prop :=
| interrupted_run W (h : environment W) s v tr rest :
    trace h (ReconcileCDStageDeploy {| key_Namespace := ns; key_Name := name |} s) v = tr ++ rest →
    relied world_monitor w tr → interrupted name w (ghost_after world_monitor w tr).

Lemma reconciled_spec name w w' :
  (length (w_runs w) <= maxPipelineRuns)%nat → Forall of_stage (w_deploys w) →
  reconciled name w w' → w' = reconcile_spec name w.
Proof.
  intros Hlen Hst [W h s v Hr].
  exact (proj2 (safe_exec _ h _ w _ v (wp_world_reconcile name s w Hlen Hst) Hr)).
Qed.

Lemma reconciled_exists name w :
  (length (w_runs w) <= maxPipelineRuns)%nat → Forall of_stage (w_deploys w) →
  reconciled name w (reconcile_spec name w).
Proof.
  intros Hlen Hst.
  pose proof (reconciled_run name w world stage_env (demo_deploy "" "" 0) w
    (truthful_relied _ _ _ _ stage_env_truthful)) as H.
  by rewrite <- (reconciled_spec name w _ Hlen Hst H).
Qed.
End World.

(** ** The queue as a system *)

Definition unfinished (p : PipelineRun) : bool := negb (pr_completed p).
Definition active (w : world) : nat := length (List.filter unfinished (w_runs w)).

Definition complete (t : Z) (p : PipelineRun) : PipelineRun :=
  {| pr_Meta := pr_Meta p; pr_CompletionTime := Some t |}.

Section Queue.
Context {X : Externals}.
Context (ns pl st : string) (pipeline : CDPipeline) (stage : Stage) (template : TriggerTemplate)
  (streams : string → list CodebaseImageStream).
Context (HL : launchable ns pl st pipeline stage template streams).

(** The deployments are reconciled in any order, a run finishes, a finished run is pruned. *)
Inductive inner_step (w : world) : world → Prop :=
| inner_reconcile name w' :
    (length (w_runs w) <= maxPipelineRuns)%nat →
    reconciled ns pl st pipeline stage template streams name w w' → w' ≠ w →
    inner_step w w'
| inner_finish pre p post t :
    w_runs w = pre ++ p :: post → pr_CompletionTime p = None →
    inner_step w {| w_deploys := w_deploys w; w_runs := pre ++ complete t p :: post |}
| inner_prune pre p post :
    w_runs w = pre ++ p :: post → pr_completed p = true →
    inner_step w {| w_deploys := w_deploys w; w_runs := pre ++ post |}.

(** A reconciliation may be cut short; the operator starts again from what the server has. *)
Inductive sys_step (w : world) : world → Prop :=
| sys_inner w' : inner_step w w' → sys_step w w'
| sys_crash name w' :
    (length (w_runs w) <= maxPipelineRuns)%nat →
    interrupted ns pl st pipeline stage template streams name w w' → sys_step w w'
| sys_arrive d :
    IsPending d = true → is_deleting d = false → of_stage ns pl st d →
    name_of d ∉ map name_of (w_deploys w) →
    sys_step w {| w_deploys := w_deploys w ++ [d]; w_runs := w_runs w |}.

(** A deployment no error was recorded for. *)
Definition healthy_deploy (d : CDStageDeploy) : Prop :=
  is_deleting d = false ∧ of_stage ns pl st d
  ∧ (IsPending d = true ∨ IsInQueue d = true ∨ IsRunning d = true).

Record healthy (w : world) : Prop := {
  he_names : NoDup (map name_of (w_deploys w));
  he_deploys : Forall healthy_deploy (w_deploys w);
  he_active : (active w <= 1)%nat }.

Lemma split_deploy l d :
  NoDup (map name_of l) → d ∈ l →
  ∃ l1 l2, l = l1 ++ d :: l2 ∧ find_deploy (name_of d) l = Some d
    ∧ (∀ d', name_of d' = name_of d → replace_deploy d' l = l1 ++ d' :: l2)
    ∧ remove_deploy (name_of d) l = l1 ++ l2.
Proof.
  intros Hnd Hd. induction l as [|e l IH]; [by apply elem_of_nil in Hd|].
  cbn in Hnd. apply NoDup_cons in Hnd as [Hni Hnd].
  assert (Hother : name_of e = name_of d →
    (∀ d', name_of d' = name_of d → replace_deploy d' l = l) ∧ remove_deploy (name_of d) l = l).
  { intros Heq. rewrite Heq in Hni. clear IH Hd Hnd. induction l as [|x l IH]; [by split|].
    cbn in Hni. rewrite not_elem_of_cons in Hni. destruct Hni as [Hx Hni]. destruct (IH Hni) as [IH1 IH2].
    split; [intros d' Hd'|]; cbn; rewrite bool_decide_false by congruence; cbn; f_equal;
      [by apply IH1|exact IH2]. }
  destruct (decide (name_of e = name_of d)) as [Heq|Hne].
  - assert (e = d) as ->.
    { apply elem_of_cons in Hd as [?|Hd]; [done|]. exfalso. apply Hni.
      rewrite Heq. apply list_elem_of_fmap. eauto. }
    destruct (Hother Heq) as [H1 H2]. exists [], l. cbn.
    rewrite !(bool_decide_true (name_of d = name_of d)) by done. cbn. split_and!; try done.
    intros d' Hd'. rewrite bool_decide_true by done. f_equal. by apply H1.
  - apply elem_of_cons in Hd as [->|Hd]; [done|].
    destruct (IH Hnd Hd) as (l1&l2&->&Hf&Hr&Hm). exists (e :: l1), l2. cbn.
    rewrite !bool_decide_false by done. cbn. split_and!; [done|done| |f_equal; exact Hm].
    intros d' Hd'. rewrite bool_decide_false by congruence. f_equal. by apply Hr.
Qed.

#[local] Arguments replace_deploy : simpl never.
#[local] Arguments remove_deploy : simpl never.

(** The moves a reconciliation can make in a healthy queue. *)
Inductive queue_move (w : world) : world → Prop :=
| move_stay : queue_move w w
| move_queue d : d ∈ w_deploys w → IsPending d = true →
    queue_move w (set_status CDStageDeployStatusInQueue d w)
| move_start d : d ∈ w_deploys w → idle w = true → IsPending d = true ∨ IsInQueue d = true →
    queue_move w (start d w)
| move_retire d : d ∈ w_deploys w → idle w = true → IsRunning d = true → queue_move w (retire d w).

Lemma reconcile_move name w : healthy w → queue_move w (reconcile_spec name w).
Proof.
  intros [Hn Hd _]. unfold reconcile_spec.
  destruct (find_deploy name (w_deploys w)) as [d|] eqn:Hf; [|constructor].
  apply find_deploy_some in Hf as [Hin <-]. rewrite Forall_forall in Hd.
  destruct (Hd d Hin) as (->&_&Hs).
  destruct (IsFailed d) eqn:HF.
  { apply bool_decide_eq_true in HF. status_facts HF. exfalso.
    destruct Hs as [?|[?|?]]; congruence. }
  destruct (IsPending d) eqn:HP; [destruct (idle w) eqn:Hi; constructor; auto|].
  destruct (IsInQueue d) eqn:HQ.
  { destruct (idle w) eqn:Hi; cbn; [|constructor].
    destruct (_ && _); constructor; auto. }
  destruct (IsRunning d) eqn:HR; [destruct (idle w) eqn:Hi; by constructor|naive_solver].
Qed.

Lemma idle_active w : idle w = true ↔ active w = 0%nat.
Proof.
  unfold idle, active, allPipelineRunsCompleted. induction (w_runs w) as [|p l IH]; cbn; [done|].
  unfold unfinished at 1. destruct (pr_completed p); cbn; [exact IH|by split].
Qed.

Lemma active_app w pre p post :
  w_runs w = pre ++ p :: post →
  active w = (active {| w_deploys := w_deploys w; w_runs := pre ++ post |}
              + if unfinished p then 1 else 0)%nat.
Proof.
  unfold active. cbn. intros ->. rewrite !List.filter_app, !length_app. cbn.
  destruct (unfinished p); cbn; lia.
Qed.

(** ** Invariant *)

Lemma healthy_set_status w s d n :
  healthy w → d ∈ w_deploys w →
  s ∈ [CDStageDeployStatusPending; CDStageDeployStatusInQueue; CDStageDeployStatusRunning] →
  (active (set_status s d {| w_deploys := w_deploys w; w_runs := n |}) <= 1)%nat →
  healthy (set_status s d {| w_deploys := w_deploys w; w_runs := n |}).
Proof.
  intros [Hn Hd Ha] Hin Hs Hact. destruct (split_deploy _ _ Hn Hin) as (l1&l2&Hl&_&Hr&_).
  specialize (Hr (set_deploy_status s d) eq_refl). cbn in Hr.
  split; cbn; [| |exact Hact]; rewrite Hr.
  - rewrite Hl in Hn. rewrite map_app in *. done.
  - rewrite Hl in Hd. rewrite !Forall_app, !Forall_cons in *. destruct Hd as (?&(?&?&?)&?).
    split_and!; try done. split_and!; try done. unfold IsPending, IsInQueue, IsRunning. cbn.
    rewrite !bool_decide_eq_true. rewrite !elem_of_cons, elem_of_nil in Hs. tauto.
Qed.

Lemma healthy_start w d :
  healthy w → d ∈ w_deploys w → idle w = true → healthy (start d w).
Proof.
  intros Hh Hin Hi. apply healthy_set_status; [done|done|set_solver|].
  apply idle_active in Hi. unfold active in *. cbn. rewrite List.filter_app, length_app. cbn. lia.
Qed.

Lemma healthy_retire w d : healthy w → d ∈ w_deploys w → healthy (retire d w).
Proof.
  intros [Hn Hd Ha] Hin. destruct (split_deploy _ _ Hn Hin) as (l1&l2&Hl&_&_&Hr).
  split; cbn; [| |exact Ha]; rewrite Hr; rewrite Hl in *.
  - rewrite map_app in *. cbn in Hn. apply NoDup_app in Hn as (?&Hx&Hn).
    apply NoDup_cons in Hn as [_ ?]. apply NoDup_app. split_and!; [done| |done].
    intros x Hx1 Hx2. apply (Hx x Hx1). by right.
  - rewrite Forall_app, Forall_cons in *. tauto.
Qed.

Lemma healthy_move w w' : healthy w → queue_move w w' → healthy w'.
Proof.
  intros Hh [|d Hin Hp|d Hin Hi Hs|d Hin Hi Hr]; [done| |by apply healthy_start|by apply healthy_retire].
  destruct w as [ds rs]. apply (healthy_set_status {| w_deploys := ds; w_runs := rs |});
    [done|done|set_solver|]. apply Hh.
Qed.

Lemma active_replace w pre p p' post :
  w_runs w = pre ++ p :: post → (unfinished p' = true → unfinished p = true) →
  (active {| w_deploys := w_deploys w; w_runs := pre ++ p' :: post |} <= active w)%nat.
Proof.
  intros Hw Hp. rewrite (active_app w pre p post Hw).
  rewrite (active_app {| w_deploys := w_deploys w; w_runs := pre ++ p' :: post |} pre p' post eq_refl).
  cbn. destruct (unfinished p'); [rewrite Hp by done|]; lia.
Qed.

Lemma healthy_of_stage w : healthy w → Forall (of_stage ns pl st) (w_deploys w).
Proof. intros [_ Hd _]. eapply Forall_impl; [exact Hd|]. by intros d (_&?&_). Qed.

Lemma reconciled_move name w w' :
  healthy w → (length (w_runs w) <= maxPipelineRuns)%nat →
  reconciled ns pl st pipeline stage template streams name w w' → queue_move w w'.
Proof.
  intros Hh Hlen Hr. eapply reconciled_spec in Hr as ->; [|done|done|by apply healthy_of_stage].
  by apply reconcile_move.
Qed.

(** Every single call of a reconciliation keeps the queue healthy. *)
Lemma healthy_call w R (c : call R) r :
  healthy w → guar (world_monitor ns pl st pipeline stage template streams) w R c →
  healthy (step (world_monitor ns pl st pipeline stage template streams) w R c r).
Proof.
  intros Hh Hg. destruct c as [R c|? R c|R c|R c|R c|? ? c|?|? c|? ? ?|? c|? c]; try done.
  destruct c as [V k key|V k ns' sel|V k o|V k o|V k b o|V k o|V k b o|V k key]; try done; cbn in *.
  - destruct k; try done. destruct (selected ns pl st o); [|done].
    assert (Hi : idle w = true).
    { destruct Hg as [?|(d&Hin&HF)]; [done|]. destruct Hh as [_ Hd _]. rewrite Forall_forall in Hd.
      destruct (Hd d Hin) as (_&_&Hs). apply bool_decide_eq_true in HF. status_facts HF.
      destruct Hs as [?|[?|?]]; congruence. }
    apply idle_active in Hi. destruct Hh as [Hn Hd Ha]. split; [done|done|].
    unfold active in *. cbn. rewrite List.filter_app, length_app. cbn. lia.
  - destruct k; try done. destruct Hg as (d&s&Hin&->&Hs). destruct w as [ds rs].
    apply (healthy_set_status {| w_deploys := ds; w_runs := rs |}); [done|done|set_solver|apply Hh].
  - destruct Hg as (d&Hin&->). by apply healthy_retire.
Qed.

Lemma healthy_interrupted name w w' :
  healthy w → (length (w_runs w) <= maxPipelineRuns)%nat →
  interrupted ns pl st pipeline stage template streams name w w' → healthy w'.
Proof.
  intros Hh Hlen [W h s v tr rest Htr Hrel].
  refine (guaranteed_invariant _ healthy _ w tr _ Hrel Hh).
  - intros. by apply healthy_call.
  - eapply cut_guaranteed; [|exact Htr|exact Hrel].
    apply (wp_world_reconcile ns pl st pipeline stage template streams HL name s w); [done|].
    by apply healthy_of_stage.
Qed.

Lemma healthy_step w w' : healthy w → sys_step w w' → healthy w'.
Proof.
  intros Hh [w'' [name w3 Hlen Hrec Hne|pre p post t Hr Hp|pre p post Hr Hp]|name w'' Hlen Hcut
            |d Hp Hdel Hst Hnew].
  - eapply healthy_move; [done|by eapply reconciled_move].
  - destruct Hh as [Hn Hd Ha]. split; [done|done|]. etrans; [|exact Ha].
    by apply (active_replace w pre p).
  - destruct Hh as [Hn Hd Ha]. split; [done|done|]. rewrite (active_app w pre p post Hr) in Ha. lia.
  - by eapply healthy_interrupted.
  - destruct Hh as [Hn Hd Ha]. split; cbn; [| |done].
    + rewrite map_app. apply NoDup_app. split_and!; [done| |apply NoDup_singleton].
      intros x Hx ->%list_elem_of_singleton. done.
    + rewrite Forall_app, Forall_singleton. split; [done|]. split_and!; [done|done|by left].
Qed.

(** ** Termination *)

Definition weight (d : CDStageDeploy) : nat :=
  if IsPending d then 3 else if IsInQueue d then 2 else 1.
Definition total_weight (l : list CDStageDeploy) : nat := list_sum (map weight l).

(** Every inner step lowers it. *)
Definition measure (w : world) : nat :=
  4 * total_weight (w_deploys w) + 2 * active w + length (w_runs w).

Lemma total_weight_app l1 l2 : total_weight (l1 ++ l2) = (total_weight l1 + total_weight l2)%nat.
Proof. unfold total_weight. by rewrite map_app, list_sum_app. Qed.

Lemma total_weight_cons d l : total_weight (d :: l) = (weight d + total_weight l)%nat.
Proof. done. Qed.
#[local] Arguments total_weight : simpl never.
#[local] Arguments weight : simpl never.
#[local] Arguments active : simpl never.

Lemma total_weight_replace w d s :
  healthy w → d ∈ w_deploys w →
  (total_weight (replace_deploy (set_deploy_status s d) (w_deploys w)) + weight d
   = total_weight (w_deploys w) + weight (set_deploy_status s d))%nat.
Proof.
  intros [Hn _ _] Hin. destruct (split_deploy _ _ Hn Hin) as (l1&l2&Hl&_&Hr&_).
  rewrite Hr by done. rewrite Hl, !total_weight_app, !total_weight_cons. lia.
Qed.

Lemma weight_queued d : IsInQueue d = true → weight d = 2%nat.
Proof. intros H. apply bool_decide_eq_true in H. unfold weight. by status_facts H. Qed.
Lemma weight_pending d : IsPending d = true → weight d = 3%nat.
Proof. unfold weight. by intros ->. Qed.

Lemma move_measure w w' : healthy w → queue_move w w' → w' = w ∨ (measure w' < measure w)%nat.
Proof.
  intros Hh [|d Hin Hp|d Hin Hi Hs|d Hin Hi Hr]; [by left|right..]; unfold measure; cbn.
  - pose proof (total_weight_replace w d CDStageDeployStatusInQueue Hh Hin) as H.
    rewrite (weight_pending d Hp) in H. change (weight (set_deploy_status _ _)) with 2%nat in H.
    change (active (set_status _ _ _)) with (active w). lia.
  - pose proof (total_weight_replace w d CDStageDeployStatusRunning Hh Hin) as H.
    change (weight (set_deploy_status _ _)) with 1%nat in H.
    assert (weight d = 3 ∨ weight d = 2)%nat
      by by destruct Hs; [left; apply weight_pending|right; apply weight_queued].
    apply idle_active in Hi. rewrite Hi. unfold active in *. cbn.
    rewrite List.filter_app, !length_app, Hi. cbn. lia.
  - destruct Hh as [Hn _ _]. destruct (split_deploy _ _ Hn Hin) as (l1&l2&Hl&_&_&Hm).
    rewrite Hm. rewrite Hl, !total_weight_app, !total_weight_cons. change (active (retire d w)) with (active w).
    assert (1 <= weight d)%nat by (unfold weight; repeat case_match; lia). lia.
Qed.

Lemma inner_measure w w' : healthy w → inner_step w w' → (measure w' < measure w)%nat.
Proof.
  intros Hh [name w3 Hlen Hrec Hne|pre p post t Hr Hp|pre p post Hr Hp].
  - by destruct (move_measure w _ Hh (reconciled_move name w w3 Hh Hlen Hrec)).
  - unfold measure. rewrite (active_app w pre p post Hr).
    rewrite (active_app {| w_deploys := w_deploys w; w_runs := pre ++ complete t p :: post |}
      pre (complete t p) post eq_refl). cbn [w_deploys w_runs].
    rewrite Hr, !length_app. unfold unfinished, pr_completed. rewrite Hp. cbn. lia.
  - unfold measure. rewrite (active_app w pre p post Hr). cbn [w_deploys w_runs].
    rewrite Hr, !length_app. unfold unfinished. rewrite Hp. cbn. lia.
Qed.

(** ** Progress *)

Lemma find_member w d : healthy w → d ∈ w_deploys w → find_deploy (name_of d) (w_deploys w) = Some d.
Proof. intros [Hn _ _] Hin. by destruct (split_deploy _ _ Hn Hin) as (l1&l2&_&?&_). Qed.

Lemma first_exists l : l ≠ [] → ∃ d, d ∈ l ∧ isFirsCdStageDeployInQue l (name_of d) = true.
Proof.
  destruct l as [|e l]; [done|]. intros _. pose proof (earlier_spec l e) as H.
  destruct (fold_left earlier l (Some e)) as [d|] eqn:Hd; [|done]. exists d. split.
  - destruct H as [[-> _]|[_ (pre&post&->&_)]]; set_solver.
  - unfold isFirsCdStageDeployInQue. cbn. rewrite Hd. by apply bool_decide_eq_true.
Qed.

(** In an idle, healthy, non-empty queue some reconciliation moves. *)
Lemma idle_progress w :
  healthy w → idle w = true → w_deploys w ≠ [] → ∃ name, reconcile_spec name w ≠ w.
Proof.
  intros Hh Hi Hne. destruct (allCdStageDeploysInQue (w_deploys w)) eqn:Hall.
  - destruct (first_exists _ Hne) as (d&Hin&Hfirst). exists (name_of d).
    assert (Hq : IsInQueue d = true).
    { unfold allCdStageDeploysInQue in Hall. rewrite forallb_true_iff in Hall. auto. }
    assert (Hs := Hq). apply bool_decide_eq_true in Hs.
    assert (Heq : reconcile_spec (name_of d) w = start d w).
    { unfold reconcile_spec. rewrite (find_member w d Hh Hin). pose proof (he_deploys _ Hh) as Hd.
      rewrite Forall_forall in Hd. destruct (Hd d Hin) as (->&_&_). status_facts Hs.
      by rewrite Hi, Hall, Hfirst. }
    rewrite Heq. intros Hcontra. apply (f_equal (length ∘ w_runs)) in Hcontra. cbn in Hcontra.
    rewrite length_app in Hcontra. cbn in Hcontra. lia.
  - assert (∃ d, d ∈ w_deploys w ∧ IsInQueue d = false) as (d&Hin&Hnq).
    { unfold allCdStageDeploysInQue in Hall. clear -Hall. induction (w_deploys w) as [|d l IH]; [done|].
      cbn in Hall. destruct (IsInQueue d) eqn:Hq; [|exists d; set_solver].
      destruct IH as (e&?&?); [done|]. exists e. set_solver. }
    exists (name_of d). pose proof (he_deploys _ Hh) as Hd. rewrite Forall_forall in Hd.
    destruct (Hd d Hin) as (Hdel&_&Hs).
    assert (Hmove : reconcile_spec (name_of d) w = start d w ∨ reconcile_spec (name_of d) w = retire d w).
    { unfold reconcile_spec. rewrite (find_member w d Hh Hin), Hdel, Hi.
      destruct Hs as [Hs|[Hs|Hs]]; [| congruence |]; apply bool_decide_eq_true in Hs;
        status_facts Hs; auto. }
    destruct Hmove as [-> | ->]; intros Hcontra.
    + apply (f_equal (length ∘ w_runs)) in Hcontra. cbn in Hcontra.
      rewrite length_app in Hcontra. cbn in Hcontra. lia.
    + destruct Hh as [Hn _ _]. destruct (split_deploy _ _ Hn Hin) as (l1&l2&Hl&_&_&Hm).
      apply (f_equal (length ∘ w_deploys)) in Hcontra. cbn in Hcontra.
      rewrite Hm, Hl, !length_app in Hcontra. cbn in Hcontra. lia.
Qed.

Lemma filter_split {A} (f : A → bool) l :
  List.filter f l ≠ [] → ∃ pre x post, l = pre ++ x :: post ∧ f x = true.
Proof.
  induction l as [|y l IH]; [done|]. cbn. destruct (f y) eqn:Hy; [by exists [], y, l|].
  intros (pre&x&post&->&?)%IH. by exists (y :: pre), x, post.
Qed.

Lemma healthy_progress w : healthy w → w_deploys w ≠ [] → ∃ w', inner_step w w'.
Proof.
  intros Hh Hne. destruct (idle w) eqn:Hi.
  - destruct (idle_progress w Hh Hi Hne) as [name Hname].
    destruct (decide (length (w_runs w) <= maxPipelineRuns)%nat) as [Hl|Hl].
    { eexists. eapply (inner_reconcile w name); [done| |exact Hname].
      by apply reconciled_exists, healthy_of_stage. }
    assert (List.filter pr_completed (w_runs w) ≠ []) as (pre&p&post&Hr&Hp)%filter_split;
      [|by eexists; eapply inner_prune].
    unfold idle, allPipelineRunsCompleted in Hi. destruct (w_runs w); [cbn in Hl; lia|].
    cbn in *. by destruct (pr_completed p).
  - assert (List.filter unfinished (w_runs w) ≠ []) as (pre&p&post&Hr&Hp)%filter_split.
    { intros Hnil. assert (active w = 0%nat) as Ha by (unfold active; by rewrite Hnil).
      apply idle_active in Ha. congruence. }
    eexists. eapply (inner_finish w _ _ _ 0); [done|]. unfold unfinished, pr_completed in Hp.
    by destruct (pr_CompletionTime p).
Qed.
End Queue.

(** ** Properties *)

(** C4: A reconciliation of a deployment of a launchable stage, run against an API server
    that answers from the stage and fails no call, succeeds and does exactly what the queue
    specifies. *)
Theorem Reconcile_refines_queue {X : Externals} {W} (h : environment W) v
    ns pl st pipeline stage template streams name s w :
  let m := world_monitor ns pl st pipeline stage template streams in
  let p := ReconcileCDStageDeploy {| key_Namespace := ns; key_Name := name |} s in
  launchable ns pl st pipeline stage template streams →
  (length (w_runs w) <= maxPipelineRuns)%nat →
  Forall (of_stage ns pl st) (w_deploys w) →
  relied m w (trace h p v) →
  is_ok (fst (exec h p v)) = true ∧ ghost_after m w (trace h p v) = reconcile_spec name w.
Proof.
  intros m p HL Hlen Hst.
  exact (safe_exec m h p w _ v (wp_world_reconcile ns pl st pipeline stage template streams HL name s w Hlen Hst)).
Qed.

(** C3: However the deployments of a launchable stage arrive and are reconciled, also by an
    operator that is killed between any two calls and restarted, and its runs finish or are
    pruned, as long as no call fails and reads are up to date the stage never has two
    unfinished PipelineRuns. *)
Theorem queue_exclusive {X : Externals} ns pl st pipeline stage template streams w w' :
  launchable ns pl st pipeline stage template streams → healthy ns pl st w →
  rtc (sys_step ns pl st pipeline stage template streams) w w' → (active w' <= 1)%nat.
Proof.
  intros HL Hh Hr. apply (he_active ns pl st). induction Hr as [|w w1 w2 Hs _ IH]; [done|].
  by eapply IH, healthy_step.
Qed.

(** C19: Without arrivals the queue comes to an end: the steps are bounded by the measure, and
    when no step is possible no deployment is left. *)
Theorem queue_drains {X : Externals} ns pl st pipeline stage template streams w w' n :
  let next := inner_step ns pl st pipeline stage template streams in
  launchable ns pl st pipeline stage template streams → healthy ns pl st w → nsteps next n w w' →
  (n <= measure w)%nat ∧ (nf next w' → w_deploys w' = []).
Proof.
  intros next HL Hh Hs. assert (Hn : healthy ns pl st w' ∧ (n + measure w' <= measure w)%nat).
  { induction Hs as [w|n w w1 w2 Hs _ IH]; [by split|].
    pose proof (inner_measure _ _ _ _ _ _ _ HL w w1 Hh Hs). destruct IH as [? ?]; [|by split; [|lia]].
    eapply healthy_step; [exact HL|done|by constructor]. }
  destruct Hn as [Hh' Hm]. split; [lia|]. intros Hnf.
  destruct (w_deploys w') eqn:Hd; [done|]. exfalso. apply Hnf.
  eapply healthy_progress; [exact HL|done|]. by rewrite Hd.
Qed.

(** ** A concrete stage *)

Definition demo_pipeline : CDPipeline :=
  {| p_Meta := new_meta "pipe" "" "ns"; p_SpecName := "pipe"; p_InputDockerStreams := ["app-main"];
     p_Applications := ["app"]; p_ApplicationsToPromote := [] |}.
Definition demo_stage : Stage :=
  {| st_Meta := new_meta "pipe-dev" "" "ns"; st_SpecName := "dev"; st_CdPipeline := "pipe";
     st_QualityGates := []; st_TriggerType := "Auto"; st_TriggerTemplate := "deploy";
     st_ClusterName := "in-cluster" |}.
(** A resource with the labels as parameters. *)
Definition demo_resource : string :=
  json_object [(CdPipelineLabel, json_string "$(tt.params.CDPIPELINE)");
               (CdStageLabel, json_string "$(tt.params.CDPIPELINE)-$(tt.params.CDSTAGE)")].
Definition demo_template : TriggerTemplate :=
  {| tt_Meta := new_meta "deploy" "" "ns"; tt_ResourceTemplates := [demo_resource] |}.
Definition demo_stream : CodebaseImageStream :=
  {| i_Meta := new_meta "app-main" "" "ns";
     i_Spec := {| is_Codebase := "app"; is_ImageName := "registry/app";
                  is_Tags := [{| t_Name := "1"; t_Created := "2022-04-12T13:56:34Z"; t_Digest := "" |}] |};
     i_Status := {| ist_DetailedMessage := ""; ist_FailureCount := 0 |} |}.
Definition demo_streams (_ : string) : list CodebaseImageStream := [demo_stream].
Definition demo_world : world :=
  {| w_deploys := [demo_deploy "b" CDStageDeployStatusInQueue 2; demo_deploy "a" CDStageDeployStatusInQueue 1];
     w_runs := [] |}.

Lemma demo_launchable : launchable "ns" "pipe" "pipe-dev" demo_pipeline demo_stage demo_template demo_streams.
Proof.
  split; [done| |].
  - intros b _. eexists _, _. split; [done|]. vm_compute. reflexivity.
  - exists demo_resource, []. split; [done|]. intros payload. eexists _, _.
    split; [reflexivity|]. split; [reflexivity|]. by split; vm_compute.
Qed.

Lemma demo_healthy : healthy "ns" "pipe" "pipe-dev" demo_world.
Proof.
  split; [|repeat constructor; tauto|cbn; lia].
  repeat constructor; eapply bool_decide_eq_false_1; vm_compute; reflexivity.
Qed.

Definition demo_env : environment world := stage_env "ns" "pipe" "pipe-dev" demo_pipeline demo_stage demo_template demo_streams.
Definition demo_run (name : string) : prog (res Result * CDStageDeploy) :=
  ReconcileCDStageDeploy {| key_Namespace := "ns"; key_Name := name |} (demo_deploy "" "" 0).
Definition demo_monitor : monitor world :=
  world_monitor "ns" "pipe" "pipe-dev" demo_pipeline demo_stage demo_template demo_streams.

Lemma Reconcile_refines_queue_witness :
  is_ok (fst (exec demo_env (demo_run "a") demo_world)) = true
  ∧ ghost_after demo_monitor demo_world (trace demo_env (demo_run "a") demo_world)
    = reconcile_spec "a" demo_world.
Proof.
  apply Reconcile_refines_queue; [exact demo_launchable|cbn; lia|repeat constructor|].
  apply truthful_relied, stage_env_truthful.
Defined.

(** In the concrete queue the deployment created first starts, the other one stays. *)
Example demo_first :
  (reconcile_spec "b" demo_world, map (dst_Status ∘ d_Status) (w_deploys (reconcile_spec "a" demo_world)))
  = (demo_world, [CDStageDeployStatusInQueue; CDStageDeployStatusRunning]).
Proof. vm_compute. reflexivity. Qed.

Lemma demo_step :
  inner_step "ns" "pipe" "pipe-dev" demo_pipeline demo_stage demo_template demo_streams
    demo_world (reconcile_spec "a" demo_world).
Proof.
  eapply (inner_reconcile _ _ _ _ _ _ _ _ "a"); [cbn; lia| |].
  - apply reconciled_exists; [exact demo_launchable|cbn; lia|repeat constructor].
  - intros H. apply (f_equal (length ∘ w_runs)) in H. vm_compute in H. discriminate.
Qed.

(** The operator is killed after it created the PipelineRun of [a] and before it recorded that
    [a] is running. *)
Definition crashed_trace : list obs := take 8 (trace demo_env (demo_run "a") demo_world).

Lemma demo_crash :
  sys_step "ns" "pipe" "pipe-dev" demo_pipeline demo_stage demo_template demo_streams
    demo_world (launch demo_world).
Proof.
  eapply (sys_crash _ _ _ _ _ _ _ _ "a"); [cbn; lia|].
  replace (launch demo_world) with (ghost_after demo_monitor demo_world crashed_trace)
    by (vm_compute; reflexivity).
  eapply interrupted_run; [symmetry; apply take_drop|].
  eapply relied_app with (tr2 := drop 8 (trace demo_env (demo_run "a") demo_world)).
  unfold crashed_trace. rewrite take_drop. apply truthful_relied, stage_env_truthful.
Qed.

(** The deployment is still queued, and waits for its own PipelineRun. *)
Lemma queue_exclusive_witness :
  reconcile_spec "a" (launch demo_world) = launch demo_world ∧ (active (launch demo_world) <= 1)%nat.
Proof.
  split; [vm_compute; reflexivity|].
  apply (queue_exclusive "ns" "pipe" "pipe-dev" demo_pipeline demo_stage demo_template demo_streams
    demo_world); [exact demo_launchable|exact demo_healthy|].
  apply rtc_once. exact demo_crash.
Defined.

Lemma queue_drains_witness : (1 <= measure demo_world)%nat.
Proof.
  apply (queue_drains "ns" "pipe" "pipe-dev" demo_pipeline demo_stage demo_template demo_streams
    demo_world (reconcile_spec "a" demo_world) 1); [exact demo_launchable|exact demo_healthy|].
  econstructor; [exact demo_step|constructor].
Defined.

(** ** A failed call in the queue *)

Definition is_runs {O} (k : kind O) : bool := match k with KPipelineRun => true | _ => false end.

(** The answers of the stage, except that the first listing of PipelineRuns fails. *)
Definition flaky_env : environment (world * bool) := λ R c '(w, flaky),
  let '(r, w') := demo_env R c w in
  match c in call R return R → R * (world * bool) with
  | CKube kc => match kc in kube_call R return R → R * (world * bool) with
    | KList k _ _ => λ r,
        if flaky && is_runs k then (Err (EExt OtherError "timeout"), (w, false)) else (r, (w', flaky))
    | _ => λ r, (r, (w', flaky))
    end
  | _ => λ r, (r, (w', flaky))
  end r.

Definition running_world : world :=
  {| w_deploys := [demo_deploy "a" CDStageDeployStatusRunning 1]; w_runs := [new_run] |}.
Definition reconcile_a (w : world * bool) : world * bool :=
  snd (fst (run flaky_env
    (ReconcileCDStageDeploy {| key_Namespace := "ns"; key_Name := "a" |} (demo_deploy "a" "" 0)) w)).


(** ** Reads that lag behind

    The manager's client answers reads from a cache that the API server updates later. *)

(** The stage, and what the cache shows of it. *)
Definition cached_env : environment (world * world) := λ R c '(w, cache),
  match c in call R return R * (world * world) with
  | CKube kc => let r := stage_kube demo_pipeline demo_stage demo_template demo_streams kc cache in
                (r, (world_kube_step "ns" "pipe" "pipe-dev" w _ kc r, cache))
  | c => let '(r, _) := demo_env _ c w in (r, (w, cache))
  end.
Definition reconcile_cached (name : string) (w : world * world) : world * world :=
  snd (fst (run cached_env (demo_run name) w)).

Definition two_pending : world :=
  {| w_deploys := [demo_deploy "a" CDStageDeployStatusPending 1; demo_deploy "b" CDStageDeployStatusPending 2];
     w_runs := [] |}.

