(* ===== verification/ImageStreamDeploy.v ===== *)
(** * ImageStreamDeploy: deployments requested by a new image tag

    [src/controllers/codebaseimagestream]: chain/put_cd_stage_deploy.go, chain/factory.go
    and the reconciliation of codebaseimagestream_controller.go. The state is the local
    variable [i] of [Reconcile]; the handlers only read it. *)

From S2P Require Import Prelude Api Effects Externals ImageStreams CodebaseController BranchLabels StageDeploy Simulation.

(** ^[-A-Za-z0-9_.]+/[-A-Za-z0-9_.]+$ *)
Definition env_char (a : Ascii.ascii) : bool :=
  ascii_between 65 90 a || ascii_between 97 122 a || ascii_between 48 57 a
  || bool_decide (a = dash) || bool_decide (a = dot) || bool_decide (a = Ascii.ascii_of_nat 95).
Definition env_word (s : string) : bool := negb (bool_decide (s = "")) && str_forallb env_char s.
Definition env_label_matches (s : string) : bool :=
  match str_split slash s with [pipeline; stage] => env_word pipeline && env_word stage | _ => false end.

Record cdStageDeployCommand := {
  cmd_Name : string; cmd_Namespace : string; cmd_Pipeline : string; cmd_Stage : string;
  cmd_TriggerType : string; cmd_Tag : CodebaseTag }.

Definition validateCbis (imageStream : CodebaseImageStream) : list string :=
  (if bool_decide (is_Codebase (i_Spec imageStream) = "") then ["codebase is not defined in spec "] else [])
  ++ (if bool_decide (length (is_Tags (i_Spec imageStream)) = 0%nat)
      then ["tags are not defined in spec "] else []).

Definition getCreateCommand (pipeline stage name namespace codebase triggerType : string)
    (tags : list Tag) : res cdStageDeployCommand :=
  res_bind (wrap "failed to get last tag: " (GetLastTag tags)) (λ lastTag,
    Ok {| cmd_Name := name; cmd_Namespace := namespace; cmd_Pipeline := pipeline; cmd_Stage := stage;
          cmd_TriggerType := triggerType;
          cmd_Tag := {| ct_Codebase := codebase; ct_Tag := t_Name lastTag; ct_Digest := t_Digest lastTag |} |}).

Section Chain.
Context {X : Externals} {S : Type}.

Definition skipCDStageDeployCreation (pipeline namespace : string) (stage : Stage) : M S bool :=
  if negb (IsAutoDeployTriggerType stage) then ret false
  else
    items <- k_list KCDStageDeploy namespace
        (matching_labels [(CdPipelineLabel, pipeline); (CdStageLabel, name_of stage)])
      ?> "failed to get CDStageDeploys: " ;;
    match items with
    | [] | [_] => ret false
    | _ => ret true
    end.

Definition zero_deploy_status : CDStageDeployStatus := {| dst_Status := ""; dst_Message := "" |}.

Definition new_stage_deploy (command : cdStageDeployCommand) : CDStageDeploy :=
  let stageDeploy :=
    {| d_Meta := new_meta "" (cmd_Name command) (cmd_Namespace command);
       d_Spec := {| ds_Pipeline := cmd_Pipeline command; ds_Stage := cmd_Stage command;
                    ds_Tag := cmd_Tag command; ds_Tags := [cmd_Tag command];
                    ds_TriggerType := cmd_TriggerType command |};
       d_Status := zero_deploy_status |} in
  with_labels (list_to_map [(CdPipelineLabel, cmd_Pipeline command);
                            (CdStageLabel, GetStageCRName stageDeploy)]) stageDeploy.

Definition PutCDStageDeploy_create (command : cdStageDeployCommand) (stage : Stage) : M S unit :=
  let stageDeploy := new_stage_deploy command in
  meta <- of_res (SetControllerReference "Stage" (st_Meta stage) (d_Meta stageDeploy))
    ?> "failed to set controller reference: " ;;
  k_create KCDStageDeploy (obj_set_meta stageDeploy meta)
    ?> ("failed to create CDStageDeploy resource " +:+ go_quote (cmd_Name command) +:+ ": ") ;;;
  ret tt.

Definition putCDStageDeploy (envLabel namespace : string) (spec : CodebaseImageStreamSpec) : M S unit :=
  let name := replace_all "/" "-" envLabel in
  match str_split slash envLabel with
  | pipeline :: stage :: _ =>
    let stageCrName := pipeline +:+ "-" +:+ stage in
    stageCr <- k_get KStage namespace stageCrName ?> ("failed to get CDStage " +:+ stageCrName +:+ ": ") ;;
    skip <- skipCDStageDeployCreation pipeline namespace stageCr
      ?> "failed to check if CDStageDeploy exists: " ;;
    if skip : bool then ret tt
    else
      cdsd <- of_res (getCreateCommand pipeline stage name namespace (is_Codebase spec)
                        (st_TriggerType stageCr) (is_Tags spec))
        ?> ("failed to construct command to create " +:+ name +:+ " cd stage deploy: ") ;;
      PutCDStageDeploy_create cdsd stageCr
        ?> ("failed to create " +:+ name +:+ " cd stage deploy: ")
  | _ => panic "index out of range [1] with length 1"
  end.

(** The body of the loop over the labels. *)
Definition put_env_label (imageStream : CodebaseImageStream) (envLabel : string) : M S unit :=
  if env_label_matches envLabel && bool_decide (map_get (labels_of imageStream) envLabel = "")
  then putCDStageDeploy envLabel (namespace_of imageStream) (i_Spec imageStream)
  else ret tt.

Definition handleCodebaseImageStreamEnvLabels (imageStream : CodebaseImageStream) : M S unit :=
  if bool_decide (labels_of imageStream = ∅) then ret tt
  else match validateCbis imageStream with
  | [] =>
    order <- sys (RangeMap (map fst (map_to_list (labels_of imageStream)))) ;;
    for_each order (put_env_label imageStream)
  | errs => throw (ENew (str_join "; " errs))
  end.

Definition PutCDStageDeploy_ServeRequest (imageStream : CodebaseImageStream) : M S unit :=
  handleCodebaseImageStreamEnvLabels imageStream
    ?> ("failed to handle " +:+ name_of imageStream +:+ " codebase image stream: ").

Definition ReconcileCodebaseImageStream (request : ObjectKey) : M S Result :=
  fetched <- attempt (do_res (CKube (KGet KCodebaseImageStream request))) ;;
  match fetched with
  | inr err =>
    if IsNotFound err then ret no_result
    else throw (EWrap ("failed to fetch CodebaseImageStream " +:+ go_quote (key_Name request) +:+ ": ") err)
  | inl i =>
    PutCDStageDeploy_ServeRequest i ?> "fail during CodebaseImageStream default chain: " ;;;
    ret no_result
  end.
End Chain.

(** ** Lemmas *)

Lemma str_join_split sep s : str_join (String sep "") (str_split sep s) = s.
Proof.
  unfold str_split. induction s as [|a s IH]; [done|]. cbn.
  destruct (split_go sep s) as [w ws]. case_bool_decide as Ha.
  - subst a. by rewrite <- IH.
  - rewrite <- IH. destruct ws; cbn [str_join]; autorewrite with go; done.
Qed.

Lemma env_label_split envLabel :
  env_label_matches envLabel = true →
  ∃ pipeline stage, str_split slash envLabel = [pipeline; stage]
    ∧ envLabel = pipeline +:+ "/" +:+ stage.
Proof.
  unfold env_label_matches. pose proof (str_join_split slash envLabel) as Hj.
  destruct (str_split slash envLabel) as [|p [|st [|x l]]]; try done. intros _.
  exists p, st. by split.
Qed.

(** What one reconciliation has seen: the stream it fetched, the stage of the label it is
    at, and the deployments listed since. *)
Record streaming := {
  sg_stream : option CodebaseImageStream; sg_stage : option Stage;
  sg_deploys : option (list CDStageDeploy) }.
Definition streaming_start : streaming :=
  {| sg_stream := None; sg_stage := None; sg_deploys := None |}.

Definition streaming_step (g : streaming) : ∀ R, call R → R → streaming := λ R c,
  match c in call R return R → streaming with
  | CKube kc => match kc in kube_call R return R → streaming with
    | KGet k _ => match k in kind V return res V → streaming with
      | KCodebaseImageStream => λ r, answered r (λ i,
          {| sg_stream := Some i; sg_stage := sg_stage g; sg_deploys := sg_deploys g |}) g
      | KStage => λ r, answered r (λ st,
          {| sg_stream := sg_stream g; sg_stage := Some st; sg_deploys := None |}) g
      | _ => λ _, g
      end
    | KList k _ _ => match k in kind V return res (list V) → streaming with
      | KCDStageDeploy => λ r, answered r (λ l,
          {| sg_stream := sg_stream g; sg_stage := sg_stage g; sg_deploys := Some l |}) g
      | _ => λ _, g
      end
    | _ => λ _, g
    end
  | _ => λ _, g
  end.

Section Properties.
Context {X : Externals}.

(** A deployment the stream asks for. *)
Record requested (i : CodebaseImageStream) (d : CDStageDeploy) : Prop := {
  rq_label : ∃ envLabel, labels_of i !! envLabel = Some "" ∧ env_label_matches envLabel = true
    ∧ envLabel = ds_Pipeline (d_Spec d) +:+ "/" +:+ ds_Stage (d_Spec d);
  rq_tag : ∃ t, GetLastTag (is_Tags (i_Spec i)) = Ok t
    ∧ ds_Tag (d_Spec d) = {| ct_Codebase := is_Codebase (i_Spec i); ct_Tag := t_Name t;
                             ct_Digest := t_Digest t |};
  rq_tags : ds_Tags (d_Spec d) = [ds_Tag (d_Spec d)];
  rq_namespace : namespace_of d = namespace_of i;
  rq_labels : labels_of d
    = list_to_map (deploy_selector (ds_Pipeline (d_Spec d)) (GetStageCRName d)) }.

Definition streaming_guar (g : streaming) : ∀ R, call R → Prop := guard_kube (λ R c,
  match c with
  | KGet _ _ | KList _ _ _ => True
  | @KCreate V k o => match k in kind V return V → Prop with
    | KCDStageDeploy => λ d, ∃ i st, sg_stream g = Some i ∧ requested i d ∧ sg_stage g = Some st
        ∧ ds_TriggerType (d_Spec d) = st_TriggerType st
        ∧ (IsAutoDeployTriggerType st = true →
             ∃ l, sg_deploys g = Some l ∧ (length l <= 1)%nat)
    | _ => λ _, False
    end o
  | _ => False
  end).

Definition streaming_monitor : monitor streaming :=
  {| rely _ := range_rely; guar := streaming_guar; step := streaming_step |}.

Context {XL : ExternalsLaws X}.

Lemma wp_put_env_label {S} i envLabel (s : S) g :
  sg_stream g = Some i → envLabel ∈ map fst (map_to_list (labels_of i)) →
  wp streaming_monitor (put_env_label i envLabel) s g (λ _ s' g', s' = s ∧ sg_stream g' = Some i).
Proof.
  intros Hi Hin. unfold put_env_label. destruct (_ && _) eqn:Hm; [|by wp_step].
  apply andb_true_iff in Hm as [Hm Hv]. apply bool_decide_eq_true in Hv.
  assert (Hl : labels_of i !! envLabel = Some "").
  { apply list_elem_of_fmap in Hin as ([k v]&->&Hkv). apply elem_of_map_to_list in Hkv.
    unfold map_get in Hv. cbn in *. rewrite Hkv in *. cbn in Hv. by subst. }
  destruct (env_label_split envLabel Hm) as (p&stn&Hsplit&Heq).
  unfold putCDStageDeploy. rewrite Hsplit.
  wp_to_call. wp_step; [done|]. intros [st|e|w] _; [|by wp_go|done].
  match goal with |- wp _ _ _ ?g' _ => set (g1 := g') end.
  assert (Hg1 : sg_stream g1 = Some i ∧ sg_stage g1 = Some st) by done.
  clearbody g1. clear g Hi. destruct Hg1 as [Hi Hst].
  wp_step. wp_step. eapply wp_mono with (Q := λ r s' g', s' = s ∧ sg_stream g' = Some i
    ∧ (r = Ok false → sg_stage g' = Some st ∧ (IsAutoDeployTriggerType st = true →
        ∃ l, sg_deploys g' = Some l ∧ (length l <= 1)%nat))).
  { unfold skipCDStageDeployCreation. destruct (IsAutoDeployTriggerType st) eqn:Ha; cbn [negb];
      [|by wp_step].
    wp_to_call. wp_step; [done|]. intros [l|e|w] _; [|by wp_step|done]. cbn.
    destruct l as [|d [|d' l]]; wp_step; (split_and!; [done|done|]); intros [=];
      (split; [done|]); intros _; eexists; (split; [done|]); cbn; lia. }
  intros [[]|e|w] s' g2 (->&Hi2&H2); [by wp_step| |by wp_go|done].
  destruct (H2 eq_refl) as [Hst2 Hauto]. wp_step. wp_step. wp_step.
  unfold getCreateCommand. destruct (GetLastTag (is_Tags (i_Spec i))) as [t|e|w] eqn:Ht; cbn;
    [|by wp_go|done].
  wp_step. unfold PutCDStageDeploy_create. wp_step. wp_step. wp_step.
  match goal with |- context [SetControllerReference ?k ?o ?m] =>
    destruct (SetControllerReference k o m) as [m'|e|w] eqn:Hc end; [|by wp_go|done].
  apply SetControllerReference_rest in Hc as [refs ->].
  wp_to_call. wp_step.
  { exists i, st. split_and!; [done| |done|done|done]. split; cbn.
    - exists envLabel. by split_and!.
    - by exists t.
    - done.
    - done.
    - done. }
  intros [o|e|w] _; by wp_go.
Qed.

(** ** Properties *)

(** C25: Whatever the API server answers, a reconciliation of an image stream only creates
    deployments the stream asks for: one of its empty [pipeline/stage] labels, its last tag,
    the labels the queue selects by; and on an Auto stage only when at most one deployment of
    the stage was listed after the stage was read. *)
Theorem image_stream_requests request (s : unit) :
  wp streaming_monitor (ReconcileCodebaseImageStream request) s streaming_start (λ _ _ _, True).
Proof.
  unfold ReconcileCodebaseImageStream. wp_to_call. wp_step; [done|].
  intros [i|e|w] _; [|by wp_go|done].
  match goal with |- wp _ _ _ ?g' _ => set (g1 := g') end.
  assert (Hi : sg_stream g1 = Some i) by done. clearbody g1.
  wp_step. wp_step. unfold PutCDStageDeploy_ServeRequest, handleCodebaseImageStreamEnvLabels.
  wp_step. destruct (bool_decide (labels_of i = ∅)); [by wp_go|].
  destruct (validateCbis i) as [|err errs]; [|by wp_go].
  wp_to_call. wp_step; [done|]. intros order Horder. cbn in Horder.
  eapply wp_mono; [apply (wp_for_each streaming_monitor order (put_env_label i)
      (λ _ g, sg_stream g = Some i) (λ _ _ _, True)); [done|]|intros [[]|e|w] ? ? _; by wp_go].
  intros envLabel s' g Hin Hg. eapply wp_mono.
  - apply (wp_put_env_label i); [done|]. by rewrite Horder.
  - by intros [[]|e|w] s'' g' [_ ?].
Qed.
End Properties.

Lemma image_stream_requests_witness :
  wp streaming_monitor
    (ReconcileCodebaseImageStream {| key_Namespace := "ns"; key_Name := "app-main" |}) tt
    streaming_start (λ _ _ _, True).
Proof. apply (@image_stream_requests reference reference_laws). Defined.
