(* ===== verification/BranchSafety.v ===== *)
(** * BranchSafety: what a reconciliation of a branch writes to git and to the status

    Theorems about [BranchChain] and [BranchController] for arbitrary answers of the API
    server, except that it stores what is written or reports a failure: an update carries the
    resource version that was read, so a concurrent change makes it fail. *)

From S2P Require Import Prelude Api Effects Externals Urls Host ImageStreams CodebaseController BranchLabels BranchChain BranchController StageDeploy Simulation.

Definition claimed (b : CodebaseBranch) : bool :=
  bool_decide (bst_Git (b_Status b) = CodebaseBranchGitStatusBranchCreated).

(** What one reconciliation has seen: the branch of the last read or write, the last codebase
    read, the references found on the git server, whether it created the branch, and whether
    any version of the object said the branch is created. *)
Record branching := {
  br_branch : option CodebaseBranch; br_codebase : option Codebase; br_resolved : list string;
  br_created : bool; br_claimed : bool }.
Definition branching_start : branching :=
  {| br_branch := None; br_codebase := None; br_resolved := []; br_created := false;
     br_claimed := false |}.

Definition saw_branch (g : branching) (b : CodebaseBranch) : branching :=
  {| br_branch := Some b; br_codebase := br_codebase g; br_resolved := br_resolved g;
     br_created := br_created g; br_claimed := br_claimed g || claimed b |}.
Definition saw_codebase (g : branching) (c : Codebase) : branching :=
  {| br_branch := br_branch g; br_codebase := Some c; br_resolved := br_resolved g;
     br_created := br_created g; br_claimed := br_claimed g |}.
Definition saw_ref (g : branching) (ref : string) : branching :=
  {| br_branch := br_branch g; br_codebase := br_codebase g; br_resolved := ref :: br_resolved g;
     br_created := br_created g; br_claimed := br_claimed g |}.
Definition did_create (g : branching) : branching :=
  {| br_branch := br_branch g; br_codebase := br_codebase g; br_resolved := br_resolved g;
     br_created := true; br_claimed := br_claimed g |}.

Definition kind_step (g : branching) {V} (k : kind V) : res V → branching :=
  match k in kind V return res V → branching with
  | KCodebaseBranch => λ r, answered r (saw_branch g) g
  | KCodebase => λ r, answered r (saw_codebase g) g
  | _ => λ _, g
  end.

Definition branching_step (g : branching) : ∀ R, call R → R → branching := λ R c,
  match c in call R return R → branching with
  | CKube kc => match kc in kube_call R return R → branching with
    | KGet k _ => kind_step g k
    | KUpdate k _ => kind_step g k
    | KStatusUpdate k _ => kind_step g k
    | _ => λ _, g
    end
  | CGit _ gc => match gc in git_call R return R → branching with
    | GResolveRemoteReference _ ref => λ r, answered r (λ _, saw_ref g ref) g
    | GCreateRemoteBranchViaRefUpdate _ _ _ => λ r, answered r (λ _, did_create g) g
    | _ => λ _, g
    end
  | _ => λ _, g
  end.

(** A successful write answers with the object written: for a status update its spec and
    status, for an update its spec. *)
Definition stored_rely : ∀ R, call R → R → Prop := when_kube (λ R c,
  match c in kube_call R return R → Prop with
  | @KStatusUpdate V k o => match k in kind V return V → res V → Prop with
    | KCodebaseBranch => λ o r, ∀ o', r = Ok o' → b_Spec o' = b_Spec o ∧ b_Status o' = b_Status o
    | _ => λ _ _, True
    end o
  | @KUpdate V k o => match k in kind V return V → res V → Prop with
    | KCodebaseBranch => λ o r, ∀ o', r = Ok o' → b_Spec o' = b_Spec o
    | _ => λ _ _, True
    end o
  | _ => λ _, True
  end).

Definition branching_git_guar (g : branching) : ∀ R, git_call R → Prop := λ R c,
  match c with
  | GResolveRemoteReference _ _ => True
  | GCreateRemoteBranchViaRefUpdate _ name ref => ∃ b c, br_branch g = Some b ∧ br_codebase g = Some c
      ∧ claimed b = false ∧ name = bs_BranchName (b_Spec b) ∧ cst_Available (c_Status c) = true
      ∧ ref = from_ref b c
      ∧ (bs_FromCommit (b_Spec b) ≠ "" → bs_FromCommit (b_Spec b) ∈ br_resolved g)
  | _ => False
  end.

Definition branching_kube_guar (g : branching) : ∀ R, kube_call R → Prop := λ R c,
  match c with
  | @KStatusUpdate V k o => match k in kind V return V → Prop with
    | KCodebaseBranch => λ o,
        (claimed o = true → br_created g = true ∨ br_claimed g = true)
        ∧ ∃ b, br_branch g = Some b ∧ b_Spec o = b_Spec b
            ∧ bst_Conditions (b_Status o) = bst_Conditions (b_Status b)
    | _ => λ _, False
    end o
  | KDelete _ _ => False
  | _ => True
  end.

Definition branching_guar (g : branching) : ∀ R, call R → Prop := λ R c,
  match c with
  | CGit _ gc => branching_git_guar g _ gc
  | CKube kc => branching_kube_guar g _ kc
  | CGoGit _ => False
  | _ => True
  end.

Definition branch_monitor : monitor branching :=
  {| rely _ := stored_rely; guar := branching_guar; step := branching_step |}.

(** The object in hand agrees with the last version seen. *)
Record tracks (s : CodebaseBranch) (g : branching) : Prop := {
  tr_claimed : claimed s = true → br_created g = true ∨ br_claimed g = true;
  tr_branch : ∃ b, br_branch g = Some b ∧ b_Spec s = b_Spec b
    ∧ bst_Conditions (b_Status s) = bst_Conditions (b_Status b) ∧ claimed b = claimed s }.

Lemma tracks_saw g b : tracks b (saw_branch g b).
Proof. split; cbn; [intros ->; right; apply orb_true_r|by exists b]. Qed.

(** A change of the object that tracking does not look at. *)
Lemma tracks_same s s' g :
  tracks s g → b_Spec s' = b_Spec s → bst_Conditions (b_Status s') = bst_Conditions (b_Status s) →
  claimed s' = claimed s → tracks s' g.
Proof.
  intros [Hc (b&Hb&Hs&Hcond&Hx)] H1 H2 H3. split; [by rewrite H3|]. exists b. split_and!; congruence.
Qed.

Lemma tracks_ref s g ref : tracks s g → tracks s (saw_ref g ref).
Proof. by intros [? ?]. Qed.

(** What the API server wants of a status write is known of the object in hand. *)
Lemma tracks_status_guar s g :
  tracks s g → branching_kube_guar g _ (KStatusUpdate KCodebaseBranch s).
Proof. intros [Hc (b&Hb&Hs&Hcond&_)]. split; [exact Hc|]. by exists b. Qed.

Lemma tracks_codebase_step s g (r : res Codebase) :
  tracks s g → tracks s (kind_step g KCodebase r).
Proof. by destruct r; intros [? ?]. Qed.

Lemma tracks_codebase s g c : tracks s g → tracks s (saw_codebase g c).
Proof. by intros [? ?]. Qed.

Section Keeps.
Context {X : Externals}.

Lemma keeps_branch_modify f :
  (∀ s, bst_Conditions (f s) = bst_Conditions s) → (∀ s, bst_Git (f s) = bst_Git s) →
  keeps branch_monitor tracks (update_branch_status f).
Proof.
  intros Hc Hg. apply keeps_modify. intros s g H. eapply tracks_same; [done|done|cbn; apply Hc|].
  unfold claimed. cbn. by rewrite Hg.
Qed.

Lemma keeps_status_update_self : keeps branch_monitor tracks (status_update_self KCodebaseBranch).
Proof.
  intros s g H. unfold status_update_self. wp_to_call. wp_step; [by apply tracks_status_guar|].
  intros [o|e|w] _; [|done|done]. wp_step. apply tracks_saw.
Qed.

Lemma keeps_branch_update : keeps branch_monitor tracks (update_self KCodebaseBranch).
Proof.
  intros s g H. unfold update_self. wp_to_call. wp_step; [done|].
  intros [o|e|w] _; [|done|done]. wp_step. apply tracks_saw.
Qed.

Lemma keeps_get_codebase ns name : keeps branch_monitor tracks (k_get KCodebase ns name).
Proof. intros s g H. wp_to_call. wp_step; [done|]. intros [o|e|w] _; by try apply tracks_codebase. Qed.
End Keeps.

#[export] Hint Resolve keeps_status_update_self keeps_branch_update keeps_get_codebase : keeps.
#[export] Hint Extern 1 (keeps branch_monitor tracks (update_branch_status _)) =>
  apply keeps_branch_modify; intros []; reflexivity : keeps.

Section Handlers.
Context {X : Externals}.

(** The reference check has been done for a branch that is still to be created. *)
Definition checked_ref (s : CodebaseBranch) (g : branching) : Prop :=
  claimed s = false → bs_FromCommit (b_Spec s) ≠ "" → bs_FromCommit (b_Spec s) ∈ br_resolved g.

Lemma keeps_image_stream : keeps branch_monitor tracks (PutCodebaseImageStream_ServeRequest None).
Proof. keeps_go. Qed.

Lemma keeps_new_version next :
  keeps branch_monitor tracks next →
  keeps branch_monitor tracks (ProcessNewVersion_ServeRequest (Some next)).
Proof. intros Hn. keeps_go; done. Qed.

(** How a handler leaves the object, unless the goroutine panics. *)
Definition settled {A} (r : res A) (s : CodebaseBranch) (g : branching) : Prop :=
  match r with Panic _ => True | _ => tracks s g end.

(** The end of the creation: the status is written only after the branch exists. *)
Lemma wp_record_branch_created s g :
  tracks s g → br_created g = true → claimed s = false →
  wp branch_monitor record_branch_created s g settled.
Proof.
  intros [Hc (b&Hb&Hs&Hcond&Hx)] Hcr Hf. unfold record_branch_created, update_branch_status.
  wp_step. wp_step. wp_step. wp_to_call. wp_step.
  { split; [by left|]. by exists b. }
  intros [o|e|w] _; [wp_step; apply tracks_saw| |done].
  assert (H : tracks (b_with_status (set_branch_Git "" (b_Status s)) s) g).
  { split; [done|]. exists b. by rewrite Hx, Hf. }
  wp_step. wp_step. wp_step. eapply wp_keeps; [|exact H|].
  - unfold putGitBranchSetFailedFields. keeps_go.
  - intros [[]|e'|w] s' g' H'; [by wp_step|done|done].
Qed.

Lemma keeps_failing {A} (m : M CodebaseBranch A) f h :
  keeps branch_monitor tracks m → keeps branch_monitor tracks (failing m f h).
Proof. intros Hm. unfold failing, putGitBranchSetFailedFields. keeps_go; done. Qed.

(** [failing m f h] when [m] only reads. *)
Lemma wp_failing {A} (m : M CodebaseBranch A) f h s g (Q : res A → CodebaseBranch → branching → Prop) :
  wp branch_monitor m s g (λ r s' g', match r with
    | Ok a => Q (Ok a) s' g'
    | Err _ => tracks s' g'
    | Panic w => True
    end) →
  (∀ r s g, match r with Ok _ => False | _ => True end → settled r s g → Q r s g) →
  wp branch_monitor (failing m f h) s g Q.
Proof.
  intros Hm HQ. unfold failing. wp_step. eapply wp_mono; [exact Hm|].
  intros [a|e|w] s' g' H; [done| |by apply HQ]. wp_step. eapply wp_keeps; [|exact H|].
  - unfold putGitBranchSetFailedFields. keeps_go.
  - intros [[]|e'|w] s2 g2 H2; [wp_step|..]; by apply HQ.
Qed.

Lemma wp_create_branch_in_git s g :
  tracks s g → claimed s = false → checked_ref s g →
  wp branch_monitor create_branch_in_git s g settled.
Proof.
  intros HT Hf Hck. unfold create_branch_in_git. wp_step. wp_step. wp_step. apply wp_failing.
  2:{ by intros [c|e|w] s' g' H. }
  wp_to_call. wp_step; [done|]. intros [c|e|w] _; [|done|done].
  pose proof (tracks_codebase_step s g (Ok c) HT) as HT1.
  match goal with |- wp _ _ _ ?g' _ => set (g1 := g') end.
  assert (HT' : tracks s g1) by exact HT1. assert (Hc1 : br_codebase g1 = Some c) by done.
  assert (Hr1 : br_resolved g1 = br_resolved g) by done. clearbody g1. clear HT1.
  destruct (cst_Available (c_Status c)) eqn:Hav; cbn [negb]; [|by wp_step].
  wp_step. apply wp_failing; [|by intros [gs|e|w] s' g' H].
  wp_to_call. wp_step; [done|]. intros [gs|e|w] _; [|done|done]. cbn [step branch_monitor branching_step kind_step].
  wp_step. apply wp_failing; [|by intros [sec|e|w] s' g' H].
  wp_to_call. wp_step; [done|]. intros [sec|e|w] _; [|done|done]. cbn [step branch_monitor branching_step kind_step].
  wp_step. apply wp_failing; [|by intros [[]|e|w] s' g' H].
  destruct HT' as [Hc (b&Hb&Hs&Hcond&Hx)].
  wp_to_call. wp_step.
  { exists b, c. rewrite Hx, Hr1, <- Hs. split_and!; try done.
    - unfold from_ref. by rewrite Hs.
    - by apply Hck. }
  intros [[]|e|w] _; [| |done].
  - apply wp_record_branch_created; [|done|done]. split; [by left|by exists b].
  - split; [done|by exists b].
Qed.

Lemma wp_put_branch next s g :
  keeps branch_monitor tracks next → tracks s g → checked_ref s g →
  wp branch_monitor (PutBranchInGit_ServeRequest (Some next)) s g settled.
Proof.
  intros Hnext HT Hck. unfold PutBranchInGit_ServeRequest. wp_step. wp_step.
  assert (Hgo : ∀ s g, tracks s g → wp branch_monitor (PutBranchInGit_next (Some next)) s g settled).
  { intros s' g' H. eapply wp_keeps; [|exact H|by intros [[]|e|w]].
    unfold PutBranchInGit_next, NextServeOrNil. by repeat keeps_step. }
  destruct (bool_decide (bst_Git (b_Status s) = _)) eqn:Hgit; [by apply Hgo|].
  wp_step. unfold PutBranchInGit_setIntermediateSuccessFields, update_branch_status.
  wp_to_call. wp_step; [done|]. intros t _. wp_step. wp_step. wp_step. wp_step. wp_step.
  set (s1 := b_with_status (branch_intermediate_status AcceptCodebaseBranchRegistration t (b_Status s)) s).
  assert (HT1 : tracks s1 g) by by eapply tracks_same.
  wp_to_call. wp_step; [by apply tracks_status_guar|].
  intros [o|e|w] Hr; [|by wp_step|done]. destruct (Hr o eq_refl) as [Hspec Hstat].
  wp_step. wp_step. eapply wp_mono; [apply wp_create_branch_in_git|].
  - apply tracks_saw.
  - unfold claimed. by rewrite Hstat.
  - intros _. rewrite Hspec. by apply Hck.
  - intros [[]|e|w] s' g' H; [by apply Hgo|done|done].
Qed.

Lemma wp_checked {A} (m : M CodebaseBranch A) p s g (Q : res A → CodebaseBranch → branching → Prop) :
  wp branch_monitor m s g (λ r s' g', match r with
    | Ok a => Q (Ok a) s' g'
    | Err _ => tracks s' g'
    | Panic w => True
    end) →
  (∀ r s g, match r with Ok _ => False | _ => True end → settled r s g → Q r s g) →
  wp branch_monitor (checked m p) s g Q.
Proof.
  intros Hm HQ. unfold checked. wp_step. eapply wp_mono; [exact Hm|].
  intros [a|e|w] s' g' H; [done| |by apply HQ]. wp_step. eapply wp_keeps; [|exact H|].
  - unfold processErr. keeps_go.
  - intros [[]|e'|w] s2 g2 H2; [wp_step|..]; by apply HQ.
Qed.

Lemma wp_check_reference next s g :
  (∀ s g, tracks s g → checked_ref s g → wp branch_monitor next s g settled) →
  tracks s g → wp branch_monitor (CheckReferenceExists_ServeRequest (Some next)) s g settled.
Proof.
  intros Hnext HT. unfold CheckReferenceExists_ServeRequest. wp_step. wp_step.
  assert (Hgo : ∀ g, tracks s g → checked_ref s g →
    wp branch_monitor (CheckReferenceExists_next (Some next)) s g settled).
  { intros g' H H'. unfold CheckReferenceExists_next, NextServeOrNil. wp_step. wp_step.
    eapply wp_mono; [by apply Hnext|]. intros [[]|e|w] s' g2 H2; [done|by wp_step; wp_step|done]. }
  case_bool_decide as Hgit; [apply Hgo; [done|]; unfold checked_ref, claimed; by rewrite Hgit|].
  case_bool_decide as Hfc; [apply Hgo; [done|]; by intros _ ?|].
  wp_step. apply wp_checked; [|by intros [c|e|w] s' g' H].
  wp_to_call. wp_step; [done|]. intros [c|e|w] _; [|done|done].
  pose proof (tracks_codebase_step s g (Ok c) HT) as HT1.
  wp_step. apply wp_checked; [|by intros [gs|e|w] s' g' H].
  wp_to_call. wp_step; [done|]. intros [gs|e|w] _; [|done|done].
  wp_step. apply wp_checked; [|by intros [sec|e|w] s' g' H].
  wp_to_call. wp_step; [done|]. intros [sec|e|w] _; [|done|done].
  wp_step. apply wp_checked; [|by intros [x|e|w] s' g' H].
  wp_to_call. wp_step; [done|]. intros [x|e|w] _; [|done|done].
  apply Hgo; [by apply tracks_ref|]. intros _ _. apply elem_of_cons. by left.
Qed.

Lemma wp_GetChain s g : tracks s g → wp branch_monitor GetChain s g settled.
Proof.
  intros HT. unfold GetChain. apply wp_check_reference; [|done]. intros s' g' H H'.
  apply wp_put_branch; [|done|done]. apply keeps_new_version, keeps_image_stream.
Qed.

(** The last write of a reconciliation: the branch is read again first. *)
Lemma wp_branch_updateStatus s g :
  tracks s g → wp branch_monitor branch_updateStatus s g (λ _ _ _, True).
Proof.
  intros [Hc (b&Hb&Hs&Hcond&Hx)]. unfold branch_updateStatus. wp_to_call. wp_step; [done|].
  intros [o|e|w] _; [|by wp_go|done]. wp_to_call. wp_step.
  { split; [|by exists o]. change (claimed (merged_branch s o)) with (claimed s). cbn.
    intros H. destruct (Hc H) as [?|Hcl]; [by left|]. right. by rewrite Hcl. }
  intros [x|e|w] _; by wp_go.
Qed.

Lemma tracks_meta s g m : tracks s g → tracks (obj_set_meta s m) g.
Proof. intros H. by eapply tracks_same. Qed.

Lemma keeps_release ns name : keeps branch_monitor tracks (release_branch ns name).
Proof.
  intros s g H. unfold release_branch. wp_to_call. wp_step; [done|].
  intros [o|e|w] _; [|done|done]. wp_step. wp_step. apply keeps_branch_update.
  apply tracks_meta, tracks_saw.
Qed.

Lemma keeps_retry n (fn : M CodebaseBranch unit) :
  keeps branch_monitor tracks fn → keeps branch_monitor tracks (retry_loop n fn).
Proof.
  intros Hf. induction n as [|n IH]; cbn; [done|]. apply keeps_orelse; [done|]. intros e.
  destruct (IsConflict e); [done|apply keeps_throw].
Qed.

Lemma keeps_try_delete : keeps branch_monitor tracks try_delete_branch.
Proof.
  intros s g H. unfold try_delete_branch, tryToDeleteCodebaseBranch. wp_step. wp_step. wp_step. wp_step.
  wp_step. destruct (negb (is_deleting s)).
  - destruct (AddFinalizer _ _) as [added m]. wp_step. wp_step. wp_step.
    eapply wp_keeps with (J := tracks); [|by apply tracks_meta|].
    + keeps_go.
    + intros [[]|e|w] s' g' H'; by wp_go.
  - unfold GetDeletionChain, empty_chain_ServeRequest. cbn [negb]. wp_step. wp_step. wp_step. cbv iota.
    wp_step. wp_step. unfold RetryOnConflict.
    eapply wp_keeps; [apply keeps_retry, keeps_release|done|]. intros [[]|e|w] s' g' H'; by wp_go.
Qed.

Lemma keeps_AddCodebaseLabel name : keeps branch_monitor tracks (AddCodebaseLabel name).
Proof.
  intros s g H. unfold AddCodebaseLabel. wp_to_call. wp_step; [done|]. intros order _.
  destruct (set_labels _ _ _ _) as [labels upd]. wp_step. wp_step.
  eapply wp_keeps with (J := tracks); [|by apply tracks_meta|done]. keeps_go.
Qed.

Lemma wp_setDefaultValues c s g :
  tracks s g →
  wp branch_monitor (setDefaultValues c) s g (λ r s' g', r ≠ Ok true → tracks s' g').
Proof.
  intros H. unfold setDefaultValues. wp_step. wp_step. destruct (pipelinesIsSet s) eqn:Hp; [by wp_step|].
  wp_step; [by wp_step|]. wp_to_call. wp_step; [done|]. intros [gs|e|w] _; [|by wp_step|done].
  wp_step; [by wp_step|]. unfold set_default, pipelinesIsSet in *. cbn [fst].
  destruct (bs_Pipelines (b_Spec s) !! "build") as [v|] eqn:Hb; cbn [fst].
  - destruct (bs_Pipelines (b_Spec s) !! "review"); [done|]. cbv beta iota. wp_go; congruence.
  - wp_go; case_match; congruence.
Qed.

Lemma wp_serve_branch c s g : tracks s g → wp branch_monitor (serve_branch c) s g (λ _ _ _, True).
Proof.
  intros H. unfold serve_branch. wp_step. wp_step. wp_step. wp_step.
  eapply wp_mono; [apply wp_GetChain; unfold init_build; destruct (_ && _); by try eapply tracks_same|].
  intros [[]|e|w] s' g' H'; [| |done].
  - wp_step. wp_step. wp_step. wp_step. unfold setSuccessStatus, update_branch_status.
    wp_to_call. wp_step; [done|]. intros t _. wp_step. wp_step.
    eapply wp_mono; [apply wp_branch_updateStatus; by eapply tracks_same|].
    intros [[]|e|w] ? ? _; by wp_go.
  - wp_step; [by wp_step|]. unfold branch_setFailureCount, update_branch_status.
    do 8 wp_step.
    eapply wp_mono; [apply wp_branch_updateStatus; by eapply tracks_same|].
    intros [[]|e'|w] ? ? _; by wp_go.
Qed.

Lemma wp_reconcile_branch c s g :
  tracks s g → wp branch_monitor (reconcile_branch c) s g (λ _ _ _, True).
Proof.
  intros H. unfold reconcile_branch. wp_step. wp_step. eapply wp_mono; [by apply wp_setDefaultValues|].
  intros [updated|e|w] s1 g1 H1; [|by wp_go|done]. destruct updated.
  { wp_to_call. wp_step; [done|]. intros [o|e|w] _; by wp_go. }
  specialize (H1 ltac:(done)). clear dependent s. wp_step. wp_step. unfold setOwnerRef.
  wp_step. wp_step. wp_step. wp_step. wp_step.
  destruct (SetControllerReference _ _ _) as [m|e|w]; [| |done].
  - wp_step. wp_step. wp_step. eapply wp_keeps; [apply keeps_AddCodebaseLabel|by apply tracks_meta|].
    intros [[]|e|w] s2 g2 H2; [| |done]; (wp_step; eapply wp_keeps; [apply keeps_try_delete|done|]);
      (intros [[r|]|e'|w] s3 g3 H3; [by wp_step|by apply wp_serve_branch|done|done]).
  - wp_step. unfold owner_ref_failed, setErrorStatus, update_branch_status. do 6 wp_step.
    eapply wp_mono; [apply wp_branch_updateStatus; by eapply tracks_same|].
    intros [[]|e'|w] ? ? _; by wp_go.
Qed.
End Handlers.

Lemma wp_ReconcileCodebaseBranch {X : Externals} request s :
  wp branch_monitor (ReconcileCodebaseBranch request) s branching_start (λ _ _ _, True).
Proof.
  unfold ReconcileCodebaseBranch. wp_to_call. wp_step; [done|].
  intros [b|e|w] _; [|by wp_go|done]. wp_step. wp_step. wp_step. wp_to_call. wp_step; [done|].
  pose proof (tracks_saw branching_start b) as H.
  intros [c|e|w] _; [| |done].
  - apply wp_reconcile_branch. by apply tracks_codebase.
  - wp_step; [|by wp_step]. wp_step. eapply wp_keeps; [apply keeps_try_delete|exact H|].
    intros [[r|]|e'|w] ? ? _; by wp_go.
Qed.

(** ** Properties *)

