(* ===== verification/BranchFunctional.v ===== *)
(** * BranchFunctional: what the steps of a branch reconciliation compute

    Default pipelines, version history, image stream, release of a terminating branch. *)

From S2P Require Import Prelude Api Effects Externals Urls Host ImageStreams CodebaseController BranchLabels BranchChain BranchController StageDeploy Simulation.

(** ** Lemmas *)

(** The git server the codebase names. *)
Definition git_server_is (gs : GitServer) : ∀ R, call R → R → Prop :=
  when_get (λ O k _, match k in kind V return res V → Prop with
    | KGitServer => λ r, r = Ok gs
    | _ => λ _, True
    end).

Definition default_pipelines (gs : GitServer) (c : Codebase) : gmap string string :=
  list_to_map [("build", build_pipeline gs c); ("review", review_pipeline gs c)].

Lemma set_default_lookup k v m b k' :
  fst (set_default k v (m, b)) !! k' =
  match m !! k' with Some w => Some w | None => if decide (k' = k) then Some v else None end.
Proof.
  unfold set_default. cbn. destruct (m !! k) as [w|] eqn:Hk; cbn.
  - destruct (m !! k') eqn:Hk'; [done|]. destruct (decide (k' = k)); congruence.
  - destruct (decide (k' = k)) as [->|Hne]; [by rewrite lookup_insert_eq, Hk|].
    rewrite lookup_insert_ne by done. by destruct (m !! k').
Qed.

Lemma set_default_snd k v m b :
  snd (set_default k v (m, b)) = b || bool_decide (m !! k = None).
Proof.
  unfold set_default. cbn. destruct (m !! k); cbn; [by rewrite orb_false_r|by rewrite orb_true_r].
Qed.

(** Both defaults at once. *)
Lemma default_pipelines_lookup gs c m k :
  fst (set_default "review" (review_pipeline gs c) (set_default "build" (build_pipeline gs c) (m, false)))
    !! k = (m ∪ default_pipelines gs c) !! k.
Proof.
  destruct (set_default "build" (build_pipeline gs c) (m, false)) as [m1 b1] eqn:H1.
  rewrite set_default_lookup. replace m1 with (fst (set_default "build" (build_pipeline gs c) (m, false)))
    by by rewrite H1.
  rewrite set_default_lookup, lookup_union. destruct (m !! k) as [v|]; [by destruct (_ !! k)|].
  unfold default_pipelines. cbn [list_to_map foldr uncurry fst snd].
  destruct (decide (k = "build")) as [->|Hb].
  { by rewrite lookup_insert_eq. }
  rewrite lookup_insert_ne by done.
  destruct (decide (k = "review")) as [->|Hr]; [by rewrite lookup_insert_eq|].
  by rewrite lookup_insert_ne, lookup_empty by done.
Qed.

(** ** The release of a terminating branch *)

(** An API server that holds the terminating branch [b], lost its codebase, and answers
    [left] updates with a conflict before it stores one. *)
Record releasing := { rl_left : nat; rl_stored : option CodebaseBranch }.

Definition releasing_rely (b : CodebaseBranch) (g : releasing) : ∀ R, call R → R → Prop :=
  when_kube (λ R c,
    match c in kube_call R return R → Prop with
    | KGet k _ => match k in kind V return res V → Prop with
      | KCodebaseBranch => λ r, r = Ok b
      | KCodebase => λ r, ∃ e, r = Err e ∧ IsNotFound e = true
      | _ => λ _, True
      end
    | KUpdate _ o => λ r, match rl_left g with
      | 0 => r = Ok o
      | S _ => ∃ e, r = Err e ∧ IsConflict e = true
      end
    | _ => λ _, True
    end).

Definition releasing_step (g : releasing) : ∀ R, call R → R → releasing := λ R c,
  match c in call R return R → releasing with
  | CKube kc => match kc in kube_call R return R → releasing with
    | @KUpdate V k o => λ _, match k in kind V return V → releasing with
      | KCodebaseBranch => λ o, match rl_left g with
          | 0 => {| rl_left := 0; rl_stored := Some o |}
          | S n => {| rl_left := n; rl_stored := rl_stored g |}
          end
      | _ => λ _, g
      end o
    | _ => λ _, g
    end
  | _ => λ _, g
  end.

(** Reads and updates of the branch are the only calls. *)
Definition releasing_guar : ∀ R, call R → Prop := λ R c,
  match c with
  | CKube kc => match kc with
    | KGet _ _ => True
    | KUpdate k _ => match k with KCodebaseBranch => True | _ => False end
    | _ => False
    end
  | _ => False
  end.

Definition release_monitor (b : CodebaseBranch) : monitor releasing :=
  {| rely := releasing_rely b; guar _ := releasing_guar; step := releasing_step |}.

Section Release.
Context {X : Externals} {XL : ExternalsLaws X}.

Definition released (b b' : CodebaseBranch) : Prop :=
  codebaseBranchOperatorFinalizerName ∉ om_Finalizers (b_Meta b')
  ∧ (∀ f, f ≠ codebaseBranchOperatorFinalizerName →
       f ∈ om_Finalizers (b_Meta b') ↔ f ∈ om_Finalizers (b_Meta b))
  ∧ ∃ l, b' = obj_set_meta b (set_Finalizers l (b_Meta b)).

Lemma released_remove b :
  released b (obj_set_meta b (RemoveFinalizer codebaseBranchOperatorFinalizerName (obj_meta b))).
Proof.
  split_and!; cbn; [apply RemoveFinalizer_absent|intros f Hf; by apply RemoveFinalizer_others|].
  destruct (RemoveFinalizer_rest codebaseBranchOperatorFinalizerName (b_Meta b)) as [l ->]. eauto.
Qed.

Lemma wp_release_retry b ns name n g s :
  (rl_left g <= n)%nat →
  wp (release_monitor b) (retry_loop n (release_branch ns name)) s g
    (λ r _ g', r = Ok tt ∧ ∃ b', rl_stored g' = Some b' ∧ released b b').
Proof.
  revert g s. induction n as [|n IH]; intros [left stored] s Hn; cbn [rl_left retry_loop] in *.
  - assert (left = 0) as -> by lia. unfold release_branch. wp_to_call. wp_step; [done|].
    intros r Hr. cbn in Hr. subst r. unfold update_self. wp_to_call. wp_step; [done|].
    intros r Hr. cbn in Hr. subst r. wp_step. split; [done|]. eexists. split; [done|].
    apply released_remove.
  - wp_step. unfold release_branch. wp_to_call. wp_step; [done|].
    intros r Hr. cbn in Hr. subst r. unfold update_self. wp_to_call. wp_step; [done|].
    intros r Hr. cbn in Hr. destruct left as [|left].
    + subst r. wp_step. split; [done|]. eexists. split; [done|]. apply released_remove.
    + destruct Hr as (e&->&He). rewrite He. apply IH. cbn. lia.
Qed.
End Release.

(** ** Image streams *)

(** What the search for an image stream has seen: the listing by label, whether the old name
    was found, and the configuration map read. *)
Record searching := {
  se_listed : option (list CodebaseImageStream); se_old : option CodebaseImageStream;
  se_config : option ConfigMap; se_created : option CodebaseImageStream }.

Definition searching_step (g : searching) : ∀ R, call R → R → searching := λ R c,
  match c in call R return R → searching with
  | CKube kc => match kc in kube_call R return R → searching with
    | KList k _ _ => match k in kind V return res (list V) → searching with
      | KCodebaseImageStream => λ r, answered r (λ l,
          {| se_listed := Some l; se_old := se_old g; se_config := se_config g;
             se_created := se_created g |}) g
      | _ => λ _, g
      end
    | KGet k _ => match k in kind V return res V → searching with
      | KCodebaseImageStream => λ r, answered r (λ i,
          {| se_listed := se_listed g; se_old := Some i; se_config := se_config g;
             se_created := se_created g |}) g
      | KConfigMap => λ r, answered r (λ m,
          {| se_listed := se_listed g; se_old := se_old g; se_config := Some m;
             se_created := se_created g |}) g
      | _ => λ _, g
      end
    | KCreate k _ => match k in kind V return res V → searching with
      | KCodebaseImageStream => λ r, answered r (λ i,
          {| se_listed := se_listed g; se_old := se_old g; se_config := se_config g;
             se_created := Some i |}) g
      | _ => λ _, g
      end
    | _ => λ _, g
    end
  | _ => λ _, g
  end.

(** [v] is in the history of [b'], and was appended to the one of [b] when it is new. *)
Definition recorded (v : string) (b b' : CodebaseBranch) : Prop :=
  v ∈ bst_VersionHistory (b_Status b')
  ∧ (v ∈ bst_VersionHistory (b_Status b) → b' = b)
  ∧ (v ∉ bst_VersionHistory (b_Status b) →
       bst_VersionHistory (b_Status b') = bst_VersionHistory (b_Status b) ++ [v]
       ∧ bst_Build (b_Status b') = Some "0" ∧ bst_LastSuccessfulBuild (b_Status b') = None).

Definition forgot_failures (s : CodebaseBranchStatus) : Prop :=
  bst_FailureCount s = 0%Z ∧ (bst_Status s = StatusFailed → bst_LastSuccessfulBuild s = None).

Definition stream_for (b : CodebaseBranch) (m : ConfigMap) (i : CodebaseImageStream) : Prop :=
  name_of i = name_of b ∧ namespace_of i = namespace_of b
  ∧ labels_of i = list_to_map (branch_labels b)
  ∧ is_Codebase (i_Spec i) = bs_CodebaseName (b_Spec b) ∧ is_Tags (i_Spec i) = []
  ∧ map_get (cm_Data m) "container_registry_host" ≠ ""
  ∧ map_get (cm_Data m) "container_registry_space" ≠ ""
  ∧ is_ImageName (i_Spec i) = (map_get (cm_Data m) "container_registry_host" +:+ "/"
      +:+ map_get (cm_Data m) "container_registry_space" +:+ "/" +:+ bs_CodebaseName (b_Spec b)).

Definition searching_guar (b : CodebaseBranch) (g : searching) : ∀ R, call R → Prop := guard_kube (λ R c,
  match c with
  | KGet _ _ | KList _ _ _ => True
  | @KCreate V k o => match k in kind V return V → Prop with
    | KCodebaseImageStream => λ i, (∀ l, se_listed g = Some l → l = []) ∧ se_old g = None
        ∧ ∃ m, se_config g = Some m ∧ stream_for b m i
    | _ => λ _, False
    end o
  | @KPatch V k orig o => match k in kind V return V → V → Prop with
    | KCodebaseImageStream => λ orig o,
        (se_listed g = Some [orig] ∨ se_old g = Some orig)
        ∧ i_Spec o = i_Spec orig ∧ labels_of o !! CodebaseBranchLabel = Some (name_of b)
    | _ => λ _ _, False
    end orig o
  | _ => False
  end).

Definition search_monitor (b : CodebaseBranch) : monitor searching :=
  {| rely _ := kube_echo; guar := searching_guar b; step := searching_step |}.
Definition searching_start : searching :=
  {| se_listed := None; se_old := None; se_config := None; se_created := None |}.

Section ImageStream.
Context {X : Externals}.

Lemma wp_getDockerRegistryUrl {S} b ns g (s : S) (Q : res string → S → searching → Prop) :
  (∀ g' m, se_listed g' = se_listed g → se_old g' = se_old g → se_config g' = Some m →
     map_get (cm_Data m) "container_registry_host" ≠ "" →
     map_get (cm_Data m) "container_registry_space" ≠ "" →
     Q (Ok (map_get (cm_Data m) "container_registry_host" +:+ "/"
            +:+ map_get (cm_Data m) "container_registry_space")) s g') →
  (∀ r g', match r with Ok _ => False | _ => True end → Q r s g') →
  wp (search_monitor b) (getDockerRegistryUrl ns) s g Q.
Proof.
  intros HQ He. unfold getDockerRegistryUrl, GetKrciConfig.
  assert (Hend : ∀ m g', se_listed g' = se_listed g → se_old g' = se_old g → se_config g' = Some m →
    wp (search_monitor b)
      (let config := mapConfigToKrciConfig m in
       if bool_decide (kc_ContainerRegistryHost config = "")
       then throw (ENew "container_registry_host is not set in krci-config config map")
       else if bool_decide (kc_ContainerRegistrySpace config = "")
       then throw (ENew "container_registry_space is not set in krci-config config map")
       else ret (kc_ContainerRegistryHost config +:+ "/" +:+ kc_ContainerRegistrySpace config)) s g' Q).
  { intros m g' H1 H2 H3. cbn. case_bool_decide; [wp_step; by apply He|].
    case_bool_decide; [wp_step; by apply He|]. wp_step. by eapply HQ. }
  wp_to_call. wp_step; [done|]. intros [m|e|w] _; [wp_step; by apply Hend| |by apply He].
  wp_step; [|wp_step; wp_step; by apply He]. unfold getEdpConfig. wp_to_call. wp_step; [done|].
  intros [m|e'|w] _; [wp_step; by apply Hend|do 2 wp_step; by apply He|by apply He].
Qed.

(** The search finds an image stream, or nothing it saw speaks against creating one. *)
Definition searched (r : res CodebaseImageStream) (g : searching) : Prop :=
  se_created g = None ∧ match r with
  | Ok i => se_listed g = Some [i] ∨ se_old g = Some i
  | Err e => IsNotFound e = true → se_old g = None ∧ ∀ l, se_listed g = Some l → l = []
  | Panic _ => True
  end.

Lemma wp_search {S} b (s : S) :
  wp (search_monitor b) (getCodebaseImageStream b) s searching_start
    (λ r s' g', s' = s ∧ searched r g').
Proof.
  unfold getCodebaseImageStream, GetCodebaseImageStreamByCodebaseBaseBranchName.
  assert (Hold : ∀ name g, se_created g = None → se_old g = None →
    (∀ l, se_listed g = Some l → l = []) →
    wp (search_monitor b) (k_get KCodebaseImageStream (namespace_of b) name
      ?> "failed to get CodebaseImageStream: ") s g (λ r s' g', s' = s ∧ searched r g')).
  { intros name g H1 H2 H3. wp_to_call. wp_step; [done|]. intros [i|e|w] _; [|wp_step|done].
    - split; [done|]. split; [done|]. by right.
    - split; [done|]. by split. }
  wp_to_call. wp_step; [done|]. intros [l|e|w] _; [|do 2 wp_step|done].
  - destruct l as [|i [|i' l]].
    + wp_step. cbn. apply Hold; [done|done|]. by intros l [= <-].
    + wp_step. wp_step. split; [done|]. split; [done|]. by left.
    + wp_step. cbn. wp_step. split; [done|]. split; [done|]. intros [=].
  - wp_step. split; [done|]. by split.
  - by apply Hold.
Qed.
End ImageStream.

(** ** Properties *)

(** The defaults are written only when a pipeline is missing and the codebase is not built
    by GitLab CI; they fill in the missing names and keep every other entry, and nothing else
    of the branch changes; afterwards both pipelines are set. *)
Theorem setDefaultValues_spec gs c b :
  wp (assuming (git_server_is gs)) (setDefaultValues c) b tt
    (λ r b' _, b_Meta b' = b_Meta b ∧ b_Status b' = b_Status b
      ∧ (r = Ok true ↔ pipelinesIsSet b = false ∧ cs_CiTool (c_Spec c) ≠ CIGitLab
           ∧ (codebaseTypeShorLen <= String.length (cs_Type (c_Spec c)))%nat)
      ∧ (r = Ok true → pipelinesIsSet b' = true
           ∧ b_Spec b' = set_Pipelines (bs_Pipelines (b_Spec b) ∪ default_pipelines gs c) (b_Spec b))
      ∧ (r ≠ Ok true → b' = b)).
Proof.
  unfold setDefaultValues. wp_step. wp_step. destruct (pipelinesIsSet b) eqn:Hp.
  { wp_step. naive_solver. }
  case_bool_decide as Hci; [wp_step; naive_solver|].
  wp_to_call. wp_step; [done|]. intros r Hr. cbn in Hr. subst r.
  destruct (String.length _ <? _)%nat eqn:Hlen.
  { apply Nat.ltb_lt in Hlen. wp_step. split_and!; [done|done| |done|done]. split; [done|]. lia. }
  apply Nat.ltb_ge in Hlen.
  destruct (set_default "review" _ _) as [pipelines changed] eqn:Hd.
  assert (Hpl : pipelines = bs_Pipelines (b_Spec b) ∪ default_pipelines gs c).
  { apply map_eq. intros k. rewrite <- default_pipelines_lookup, Hd. done. }
  assert (Hch : changed = true).
  { unfold pipelinesIsSet in Hp. apply (f_equal snd) in Hd. cbn in Hd.
    destruct (set_default "build" _ _) as [m1 b1] eqn:Hb. rewrite set_default_snd in Hd.
    pose proof (f_equal fst Hb) as Hm. pose proof (f_equal snd Hb) as Hs. cbn in Hm, Hs.
    rewrite set_default_snd in Hs. rewrite <- Hm, set_default_lookup in Hd. subst.
    destruct (bs_Pipelines (b_Spec b) !! "build"); cbn; [|done].
    by destruct (bs_Pipelines (b_Spec b) !! "review"). }
  subst pipelines changed. wp_step. wp_step. wp_step.
  split_and!; [done|done|done| |done]. intros _. split; [|done].
  unfold pipelinesIsSet. cbn. rewrite !lookup_union. unfold default_pipelines.
  cbn [list_to_map foldr uncurry fst snd].
  rewrite lookup_insert_eq, lookup_insert_ne, lookup_insert_eq by done.
  destruct (bs_Pipelines (b_Spec b) !! "review"), (bs_Pipelines (b_Spec b) !! "build"); done.
Qed.

(** C22: A new version of a semantically versioned branch is recorded exactly once: after
    success the version is in the history, an old one changes nothing, a new one is appended
    and restarts the build counters; without a version the branch is refused. *)
Theorem processNewVersion_spec c b :
  IsVersionTypeSemver (c_Spec c) = true →
  wp (assuming kube_echo) (processNewVersion c) b tt (λ r b' _,
    (bs_Version (b_Spec b) = None → ∃ e, r = Err e ∧ b' = b)
    ∧ (r = Ok tt → ∃ v, bs_Version (b_Spec b) = Some v ∧ recorded v b b')
    ∧ (NoDup (bst_VersionHistory (b_Status b)) → NoDup (bst_VersionHistory (b_Status b')))).
Proof.
  intros Hsv. unfold processNewVersion. rewrite Hsv. cbn [negb]. wp_step. wp_step. wp_step. wp_step.
  unfold HasNewVersion. destruct (bs_Version (b_Spec b)) as [v|] eqn:Hv; wp_step.
  2:{ wp_step. split_and!; [eauto|done|done]. }
  unfold contains. case_bool_decide as Hin; cbn [negb].
  { wp_step. split_and!; [done| |done]. intros _. exists v. split; [done|]. by split_and!. }
  assert (Hnd : NoDup (bst_VersionHistory (b_Status b)) → NoDup (bst_VersionHistory (b_Status b) ++ [v])).
  { intros ?. apply NoDup_app. split_and!; [done|by intros x Hx ->%list_elem_of_singleton|apply NoDup_singleton]. }
  unfold update_branch_status. wp_to_call. wp_step; [done|]. intros [o|e|w] Hr; cbn in Hr.
  - subst o. wp_step. split_and!; [done| |done]. intros _. exists v.
    split; [done|]. split_and!; [cbn; set_solver|done|done].
  - wp_step. by split_and!.
  - by split_and!.
Qed.

(** C23: Whatever the API server answers, as long as a create it reports stored the object: an
    image stream is created only when the branch's label listed none and the old name was not
    found, with the branch's name, labels and the registry path of the configuration; a found
    one only gets the labels; and success leaves the branch with an image stream. *)
Theorem image_stream_exists {X : Externals} {XL : ExternalsLaws X} b (s : CodebaseBranch) :
  wp (search_monitor b) (createCodebaseImageStreamIfNotExists b) s searching_start
    (λ r s' g', s' = s ∧ (r = Ok tt →
       (∃ i m, se_created g' = Some i ∧ stream_for b m i)
       ∨ ∃ i, se_listed g' = Some [i] ∨ se_old g' = Some i)).
Proof.
  unfold createCodebaseImageStreamIfNotExists. wp_step. wp_step. eapply wp_mono; [apply wp_search|].
  intros [i|e|w] s' g [-> [Hc H]]; [| |done].
  - unfold label_image_stream. wp_step; [wp_step; eauto|]. wp_to_call. wp_step.
    { split_and!; [done|done|]. rewrite labels_with_labels, lookup_insert_ne by done.
      apply lookup_insert_eq. }
    intros [o|e|w] _; [wp_step; eauto|by wp_step|done].
  - wp_step; [by wp_step|]. rename Heqb0 into Hnf. apply negb_false_iff in Hnf.
    destruct (H Hnf) as [Hold Hlist]. wp_step. wp_step. apply wp_getDockerRegistryUrl.
    2:{ intros [url|e'|w] g' Hr; [done|by wp_step|done]. }
    intros g' m H1 H2 H3 Hh Hs. wp_step. wp_step. wp_step.
    destruct (SetControllerReference _ _ _) as [meta|e'|w] eqn:Href; [|by wp_step|done].
    apply SetControllerReference_rest in Href as [refs ->].
    assert (Hst : stream_for b m (obj_set_meta (new_image_stream
      (map_get (cm_Data m) "container_registry_host" +:+ "/"
        +:+ map_get (cm_Data m) "container_registry_space") b)
      (set_OwnerReferences refs (set_Labels (list_to_map (branch_labels b))
         (new_meta (name_of b) "" (namespace_of b)))))).
    { split_and!; try done. cbn. by autorewrite with go. }
    wp_to_call. wp_step.
    { split_and!; [by rewrite H1|by rewrite H2|]. by exists m. }
    intros [o|e'|w] Hr; [|by wp_step|done]. cbn in Hr. subst o. wp_step. eauto 10.
Qed.

(** C24: A terminating branch whose codebase is gone is released: its reconciliation succeeds
    through as many conflicts as the retry policy allows, only ever reads and updates the
    branch, and what is stored lost the operator's finalizer and nothing else. *)
Theorem orphaned_branch_released {X : Externals} {XL : ExternalsLaws X} b conflicts request s :
  is_deleting b = true → (conflicts <= DefaultRetry_retries)%nat →
  wp (release_monitor b) (ReconcileCodebaseBranch request) s
    {| rl_left := conflicts; rl_stored := None |}
    (λ r _ g, r = Ok no_result ∧ ∃ b', rl_stored g = Some b' ∧ released b b').
Proof.
  intros Hdel Hn. unfold ReconcileCodebaseBranch. wp_to_call. wp_step; [done|].
  intros r Hr. cbn in Hr. subst r. wp_step. wp_step. wp_step. wp_to_call. wp_step; [done|].
  intros r (e&->&He). rewrite He, Hdel. cbn [andb]. wp_step.
  unfold try_delete_branch, tryToDeleteCodebaseBranch. wp_step. wp_step. wp_step. wp_step. wp_step.
  rewrite Hdel. cbn [negb]. unfold GetDeletionChain, empty_chain_ServeRequest.
  wp_step. wp_step. wp_step. cbv iota. wp_step. wp_step. eapply wp_mono; [by apply wp_release_retry|].
  intros r s' g' (->&b'&Hb'&Hrel). wp_step. wp_step. eauto.
Qed.

(** C37: The image stream handler forgets the failure count: whenever it fails the count is
    zero again, so the count a branch keeps never reports more than the failure that follows;
    a failure it records also drops the last successful build. *)
Theorem image_stream_failure_forgets {X : Externals} b :
  wp (assuming kube_echo) (PutCodebaseImageStream_ServeRequest None) b tt (λ r b' _,
    ∀ e, r = Err e → forgot_failures (b_Status b')).
Proof.
  unfold forgot_failures, PutCodebaseImageStream_ServeRequest, PutCodebaseImageStream_setIntermediateSuccessFields,
    cis_setFailedFields, update_branch_status.
  wp_to_call. wp_step; [done|]. intros t _. wp_step. wp_step. wp_step. wp_step. wp_step. wp_step.
  set (b1 := b_with_status (cis_intermediate_status PutCodebaseImageStream t (b_Status b)) b).
  wp_to_call. wp_step; [done|]. intros [o|e|w] Hr; cbn in Hr; [subst o|by wp_step|done].
  wp_step. wp_step. wp_step. wp_to_call. wp_step; [done|].
  intros [o|e|w] Hr; cbn in Hr; [subst o|by wp_step|done]. wp_step. wp_step. wp_step.
  wp_to_call. wp_step; [done|]. intros [c|e|w] _; [| |done].
  2:{ wp_to_call. wp_step; [done|]. intros t' _. by do 2 wp_step. }
  wp_step. wp_step. eapply wp_mono with (Q := λ _ s _, s = b1).
  { assert (Hk : keeps (assuming kube_echo) (λ s _, s = b1) (createCodebaseImageStreamIfNotExists b1))
      by keeps_go. by apply Hk. }
  intros [[]|e|w] s' [] ->; [wp_step; unfold NextServeOrNil; by wp_step| |done].
  wp_to_call. wp_step; [done|]. intros t' _. by do 2 wp_step.
Qed.

(** ** Witnesses *)

Definition demo_branch : CodebaseBranch :=
  {| b_Meta := {| om_Name := "app-main"; om_GenerateName := ""; om_Namespace := "ns"; om_Labels := ∅;
       om_Annotations := ∅; om_Finalizers := [codebaseBranchOperatorFinalizerName];
       om_OwnerReferences := []; om_DeletionTimestamp := Some 1%Z; om_CreationTimestamp := 0;
       om_Generation := 0 |};
     b_Spec := {| bs_CodebaseName := "app"; bs_BranchName := "main"; bs_FromCommit := "";
                  bs_Version := Some "1.0.0"; bs_Release := false; bs_Pipelines := ∅ |};
     b_Status := zero_branch_status |}.

Definition demo_semver : Codebase :=
  c_with_spec
    {| cs_Lang := "go"; cs_Description := None; cs_Framework := "gin"; cs_BuildTool := "go";
       cs_Strategy := Create; cs_Repository := None; cs_TestReportFramework := None;
       cs_Type := Application; cs_GitServer := "gitlab"; cs_GitUrlPath := "/team/app";
       cs_DeploymentScript := "helm-chart";
       cs_Versioning := {| v_Type := VersioningTypeSemver; v_StartFrom := Some "1.0.0" |};
       cs_JiraServer := None; cs_CommitMessagePattern := None; cs_TicketNamePattern := None;
       cs_CiTool := CITekton; cs_DefaultBranch := "main"; cs_JiraIssueMetadataPayload := None;
       cs_EmptyProject := false; cs_BranchToCopyInDefaultBranch := "";
       cs_DisablePutDeployTemplates := true; cs_Private := true;
       cs_CloneRepositoryCredentials := None |} sim_app.

Lemma processNewVersion_spec_witness :
  wp (assuming kube_echo) (processNewVersion demo_semver) demo_branch tt (λ r b' _,
    (bs_Version (b_Spec demo_branch) = None → ∃ e, r = Err e ∧ b' = demo_branch)
    ∧ (r = Ok tt → ∃ v, bs_Version (b_Spec demo_branch) = Some v ∧ recorded v demo_branch b')
    ∧ (NoDup (bst_VersionHistory (b_Status demo_branch)) → NoDup (bst_VersionHistory (b_Status b')))).
Proof. apply (processNewVersion_spec demo_semver demo_branch). vm_compute. reflexivity. Defined.

Lemma image_stream_exists_witness :
  wp (search_monitor demo_branch) (createCodebaseImageStreamIfNotExists demo_branch) demo_branch
    searching_start
    (λ r s' g', s' = demo_branch ∧ (r = Ok tt →
       (∃ i m, se_created g' = Some i ∧ stream_for demo_branch m i)
       ∨ ∃ i, se_listed g' = Some [i] ∨ se_old g' = Some i)).
Proof. apply (@image_stream_exists reference reference_laws demo_branch demo_branch). Defined.

Lemma orphaned_branch_released_witness :
  wp (release_monitor demo_branch)
    (ReconcileCodebaseBranch {| key_Namespace := "ns"; key_Name := "app-main" |}) demo_branch
    {| rl_left := 2; rl_stored := None |}
    (λ r _ g, r = Ok no_result ∧ ∃ b', rl_stored g = Some b' ∧ released demo_branch b').
Proof.
  apply (@orphaned_branch_released reference reference_laws demo_branch 2); [reflexivity|cbn; lia].
Defined.
