(* ===== verification/SshHostKey.v ===== *)
(** * SshHostKey: explaining host key failures ([src/pkg/sshhostkey])

    Errors of ssh connections are enriched with what an operator has to do; the file of known
    hosts itself is read by go-git. *)

From S2P Require Import Prelude GoStd Api Effects.

Definition knownHostsEnvVar : string := "SSH_KNOWN_HOSTS".
Definition defaultSSHPort : Z := 22.

Definition HostPort (host : string) (port : Z) : string :=
  let port := if bool_decide (port = 0%Z) then defaultSSHPort else port in
  JoinHostPort host (itoa port).

Definition hostOf (hostPort : string) : string :=
  match SplitHostPort hostPort with Some (host, _) => host | None => hostPort end.
Definition portOf (hostPort : string) : string :=
  match SplitHostPort hostPort with Some (_, port) => port | None => itoa defaultSSHPort end.

(** [errors.As] for the two error types of a host key check. *)
Fixpoint as_revoked (e : error) : bool :=
  match e with
  | EExt RevokedError _ => true
  | EWrap _ c => as_revoked c
  | EJoin es => existsb as_revoked es
  | _ => false
  end.
(** The number of keys the first [KeyError] wants. *)
Fixpoint as_key_error (e : error) : option nat :=
  match e with
  | EExt (KeyError want) _ => Some want
  | EWrap _ c => as_key_error c
  | EJoin es => foldr (λ e acc, match as_key_error e with Some n => Some n | None => acc end) None es
  | _ => None
  end.

Section Hostkey.
Context {S : Type}.

Definition Source : M S string :=
  path <- env knownHostsEnvVar ;;
  let path := default "" path in
  ret (if negb (bool_decide (path = "")) then path else "~/.ssh/known_hosts, /etc/ssh/ssh_known_hosts").

(** The error is not nil. *)
Definition Enrich (err : error) (hostPort : string) : M S error :=
  if as_revoked err then
    source <- Source ;;
    ret (EWrap ("SSH host key for " +:+ hostPort +:+ " is marked as revoked in known_hosts (" +:+ source
                +:+ "), refusing to connect: ") err)
  else
    match as_key_error err with
    | None => ret err
    | Some want =>
      source <- Source ;;
      if (0 <? want)%nat then
        ret (EWrap ("SSH host key mismatch for " +:+ hostPort
          +:+ ": the server presented a key that does not match known_hosts (" +:+ source +:+ "). "
          +:+ "This means either the git server's host key was rotated, or the connection is being intercepted. "
          +:+ "Verify the new key out-of-band before replacing the entry: ") err)
      else
        ret (EWrap ("SSH host key for " +:+ hostPort +:+ " is not present in known_hosts (" +:+ source +:+ "). "
          +:+ "Add it to the operator's ssh-known-hosts ConfigMap, for example: ssh-keyscan -p "
          +:+ portOf hostPort +:+ " " +:+ hostOf hostPort +:+ ": ") err)
    end.
End Hostkey.

(** The callback and the algorithms are kept in the connection. *)
Definition ClientConfig {S} (host : string) (port : Z) : M S unit :=
  orelse (ssh SshKnownHosts) (λ err,
    source <- Source ;;
    throw (EWrap ("failed to load SSH known_hosts (" +:+ source +:+ "): ") err)).

Definition IsVerificationError (err : error) : bool :=
  if (match as_key_error err with Some _ => true | None => false end) || as_revoked err then true
  else str_contains "known_hosts" (err_msg err).

(** ** Lemmas *)

Section Lemmas.
Context {G S : Type} (m : monitor G).

(** Enriching reads one variable and at most adds a prefix to the error. *)
Lemma wp_Enrich err hostPort (s : S) g (Q : res error → S → G → Prop) :
  (∀ g, guar m g _ (CSys (LookupEnv knownHostsEnvVar))) →
  (∀ g r, step m g _ (CSys (LookupEnv knownHostsEnvVar)) r = g) →
  (∀ e, e = err ∨ (∃ p, e = EWrap p err) → Q (Ok e) s g) → wp m (Enrich err hostPort) s g Q.
Proof.
  intros Hg Hstep HQ. unfold Enrich, Source. destruct (as_revoked err).
  - do 4 wp_step; [apply Hg|]. intros r _. rewrite Hstep. do 2 wp_step. apply HQ. eauto.
  - destruct (as_key_error err) as [want|]; [|wp_step; auto].
    do 4 wp_step; [apply Hg|]. intros r _. rewrite Hstep. wp_step.
    destruct (_ <? _)%nat; wp_step; apply HQ; eauto.
Qed.
End Lemmas.

(** A number printed in decimal has no character a host-port pair is split at. *)
Definition numeric (c : Ascii.ascii) : Prop := c = dash ∨ is_digit c = true.

Lemma pretty_N_go_no_char c n acc :
  ¬ numeric c → has_char c acc = false → has_char c (pretty_N_go n acc) = false.
Proof.
  intros Hc. revert acc. induction (N.lt_wf_0 n) as [n _ IH]. intros acc Hacc.
  destruct (decide (n = 0%N)) as [->|Hn]; [by rewrite pretty_N_go_0|].
  rewrite pretty_N_go_step by lia. apply IH; [apply N.div_lt; lia|].
  rewrite has_char_cons, Hacc, orb_false_r. apply bool_decide_eq_false_2. intros <-. apply Hc. right.
  unfold pretty_N_char. by repeat case_match.
Qed.

Lemma itoa_no_char c z : ¬ numeric c → has_char c (itoa z) = false.
Proof.
  intros Hc. assert (Hpos : ∀ p, has_char c (pretty (N.pos p)) = false)
    by (intros p; by apply pretty_N_go_no_char).
  destruct z as [|p|p]; [|apply Hpos|].
  - change (itoa 0) with "0". rewrite has_char_cons, orb_false_r.
    apply bool_decide_eq_false_2. intros <-. apply Hc. by right.
  - change (itoa (Z.neg p)) with (String dash (pretty (N.pos p))).
    rewrite has_char_cons, Hpos, orb_false_r. apply bool_decide_eq_false_2. intros <-. apply Hc. by left.
Qed.

Lemma HostPort_parts host port :
  has_char lbracket host = false → has_char rbracket host = false →
  hostOf (HostPort host port) = host
  ∧ portOf (HostPort host port) = itoa (if bool_decide (port = 0%Z) then defaultSSHPort else port).
Proof.
  intros Hl Hr. unfold hostOf, portOf, HostPort.
  rewrite SplitHostPort_JoinHostPort; [done|done|done|..]; apply itoa_no_char; by intros [].
Qed.
