(* ===== verification/GitClient.v ===== *)
(** * GitClient: the git client ([src/pkg/git])

    [GitProvider] of provider.go and the packless operations of transport.go as programs over
    go-git: every method of the [Git] interface is a definition, and [git_client] answers a
    call of that interface with it. The empty packfile is checked down to its SHA-1. *)

From S2P Require Import Prelude GoStd PathHash Api Effects Externals Urls SshHostKey.

(** ** crypto/sha1 *)

Module Sha1.
Import Sha256.
#[local] Open Scope Z_scope.

Definition rotl (n x : Z) : Z := rotr (32 - n) x.
(** The message schedule, latest word first, extended [n] times. *)
Fixpoint extend (n : nat) (ws : list Z) : list Z :=
  match n with
  | O => ws
  | S n' =>
    let w i := nth i ws 0 in
    extend n' (rotl 1 (Z.lxor (Z.lxor (w 2%nat) (w 7%nat)) (Z.lxor (w 13%nat) (w 15%nat))) :: ws)
  end.

Record digest := D { a : Z; b : Z; c : Z; d : Z; e : Z }.
Definition init : digest := D 1732584193 4023233417 2562383102 271733878 3285377520.

Definition round (s : digest) (tw : nat * Z) : digest :=
  let '(t, w) := tw in
  let '(f, k) :=
    if (t <? 20)%nat then (ch (b s) (c s) (d s), 1518500249)
    else if (t <? 40)%nat then (Z.lxor (Z.lxor (b s) (c s)) (d s), 1859775393)
    else if (t <? 60)%nat then (maj (b s) (c s) (d s), 2400959708)
    else (Z.lxor (Z.lxor (b s) (c s)) (d s), 3395469782) in
  D (add32 (add32 (rotl 5 (a s)) f) (add32 (e s) (add32 k w))) (a s) (rotl 30 (b s)) (c s) (d s).

Definition compress (s : digest) (block : list Z) : digest :=
  let t := fold_left round (combine (seq 0 80) (rev (extend 64 (rev block)))) s in
  D (add32 (a s) (a t)) (add32 (b s) (b t)) (add32 (c s) (c t)) (add32 (d s) (d t)) (add32 (e s) (e t)).

Fixpoint blocks (n : nat) (s : digest) (ws : list Z) : digest :=
  match n with
  | O => s
  | S n' => match ws with [] => s | _ => blocks n' (compress s (firstn 16 ws)) (skipn 16 ws) end
  end.

Definition be32 (x : Z) : string :=
  String.string_of_list_ascii
    (map (λ i, Ascii.ascii_of_nat (Z.to_nat (Z.land (Z.shiftr x i) 255))) [24; 16; 8; 0]).

(** The 20 bytes of the checksum. *)
Definition Sum (m : string) : string :=
  let ws := words (pad (bytes m)) in
  let s := blocks (length ws) init ws in
  be32 (a s) +:+ be32 (b s) +:+ be32 (c s) +:+ be32 (d s) +:+ be32 (e s).

Definition hex (m : string) : string :=
  str_join "" (map (λ z, String (hex_digit (Z.shiftr z 4)) (String (hex_digit (Z.land z 15)) "")) (bytes m)).

Example sha1_abc : hex (Sum "abc") = "a9993e364706816aba3e25717850c26c9cd0d89d".
Proof. vm_compute. reflexivity. Qed.
Example sha1_two_blocks :
  hex (Sum "abcdbcdecdefdefgefghfghighijhijkijkljklmklmnlmnomnopnopq")
  = "84983e441c3bd26ebaae4aa1f95129e5e54670f1".
Proof. vm_compute. reflexivity. Qed.
End Sha1.

(** ** provider.go *)

Definition git_defaultSSHPort : Z := 22.
Definition defaultSSHUser : string := "git".
Definition defaultCommitName : string := "codebase".
Definition defaultCommitEmail : string := "codebase@krci.local".

Definition NewGitProvider (cfg : Config) : Config :=
  {| cfg_GitProvider := cfg_GitProvider cfg; cfg_SSHKey := cfg_SSHKey cfg;
     cfg_SSHUser := if bool_decide (cfg_SSHUser cfg = "") then defaultSSHUser else cfg_SSHUser cfg;
     cfg_SSHPort := if bool_decide (cfg_SSHPort cfg = 0%Z) then git_defaultSSHPort else cfg_SSHPort cfg;
     cfg_Token := cfg_Token cfg; cfg_Username := cfg_Username cfg |}.

(** [if err != nil && !errors.Is(err, git.NoErrAlreadyUpToDate)] *)
Definition unless_up_to_date {S} (m : M S unit) (failed : error → M S unit) : M S unit :=
  orelse m (λ err, if err_is NoErrAlreadyUpToDate err then ret tt else failed err).

Section Provider.
Context {X : Externals} {S : Type}.

Definition sshTarget (repoURL : string) : string :=
  match NewEndpoint repoURL with
  | Ok ep => HostPort (ep_Host ep) (ep_Port ep)
  | _ => repoURL
  end.
Definition remoteErr (err : error) (repoURL : string) : M S error := Enrich err (sshTarget repoURL).
Definition originURL (repo : string) : M S string :=
  r <- attempt (gogit (GgRemote repo "origin")) ;;
  ret (match r with inl (url :: _) => url | _ => "" end).

(** [fmt.Errorf(prefix + "%w", remoteErr(err, repoURL))] *)
Definition remote_failed {A} (prefix repoURL : string) (err : error) : M S A :=
  err' <- remoteErr err repoURL ;; throw (EWrap prefix err').
Definition origin_failed {A} (prefix repo : string) (err : error) : M S A :=
  url <- originURL repo ;; remote_failed prefix url err.

Section Methods.
Context (config : Config).

Definition getTokenAuth : AuthMethod :=
  if bool_decide (cfg_GitProvider config = GitProviderGithub)
  then BasicAuth (cfg_Username config) (cfg_Token config)
  else if bool_decide (cfg_GitProvider config = GitProviderGitlab)
  then BasicAuth "oauth2" (cfg_Token config)
  else BasicAuth (cfg_Username config) (cfg_Token config).

Definition getAuth : M S AuthMethod :=
  if negb (bool_decide (cfg_SSHKey config = "")) then
    sys_res (ParsePrivateKey (cfg_SSHKey config)) ?> "failed to parse SSH private key: " ;;;
    ret (PublicKeys (cfg_SSHUser config) (cfg_SSHKey config))
  else if negb (bool_decide (cfg_Token config = "")) then ret getTokenAuth
  else ret NoAuth.

(** [auth, err := p.getAuth()] with its error returned. *)
Definition authentication : M S AuthMethod := getAuth ?> "failed to get authentication: ".
Definition open_repository (directory : string) : M S unit :=
  gogit (GgPlainOpen directory) ?> ("failed to open repository at " +:+ go_quote directory +:+ ": ").
Definition get_worktree (directory : string) : M S unit :=
  gogit (GgWorktree directory) ?> "failed to get worktree: ".

Definition Clone (repoURL destination : string) : M S unit :=
  auth <- authentication ;;
  orelse (gogit (GgPlainClone destination false repoURL auth))
    (remote_failed "failed to clone repository: " repoURL) ;;;
  unless_up_to_date (gogit (GgFetch destination
      {| fo_RemoteName := "origin"; fo_Auth := auth; fo_Force := false;
         fo_RefSpecs := ["+refs/heads/*:refs/heads/*"; "+refs/tags/*:refs/tags/*"] |}))
    (remote_failed "failed to fetch all branches and tags: " repoURL).

Definition Commit (directory message : string) (allowEmptyCommit : bool) : M S unit :=
  open_repository directory ;;;
  get_worktree directory ;;;
  gogit (GgAddAll directory) ?> "failed to add files to index: " ;;;
  clean <- (if negb allowEmptyCommit then gogit (GgStatus directory) ?> "failed to get status: "
            else ret false) ;;
  if clean : bool then ret tt
  else
    time <- now ;;
    gogit (GgCommit directory message
      {| cmo_Name := defaultCommitName; cmo_Email := defaultCommitEmail; cmo_When := time;
         cmo_AllowEmptyCommits := allowEmptyCommit |}) ?> "failed to commit: ".

Definition Push (directory : string) (refspecs : list string) : M S unit :=
  open_repository directory ;;;
  auth <- authentication ;;
  unless_up_to_date (gogit (GgPush directory
      {| po_RemoteName := "origin"; po_RefSpecs := refspecs; po_Auth := auth |}))
    (origin_failed "failed to push: " directory).

Definition Checkout (directory branchName : string) (remote : bool) : M S unit :=
  open_repository directory ;;;
  get_worktree directory ;;;
  createBranch <- (if remote then
      auth <- authentication ;;
      unless_up_to_date (gogit (GgFetch directory
          {| fo_RemoteName := ""; fo_RefSpecs := ["refs/*:refs/*"]; fo_Auth := auth; fo_Force := true |}))
        (origin_failed "failed to fetch: " directory) ;;;
      r <- attempt (gogit (GgReference directory (NewBranchReferenceName branchName))) ;;
      ret (match r with inl _ => false | inr _ => true end)
    else ret true) ;;
  gogit (GgCheckout directory
    {| co_Branch := NewBranchReferenceName branchName; co_Force := true; co_Create := createBranch |})
  ?> "failed to checkout branch: ".

Definition GetCurrentBranchName (directory : string) : M S string :=
  open_repository directory ;;;
  head <- gogit (GgHead directory) ?> "failed to get HEAD: " ;;
  ret (Short head).

(** A remote of a repository in memory; the error of [git.Init] is dropped. *)
Definition memory_remote (repoURL : string) : M S unit :=
  gogit (GgMemoryRemote "origin" [repoURL]) ?> "failed to create remote: ".

Definition ListRemoteBranches (repoURL : string) : M S (list string) :=
  auth <- authentication ;;
  memory_remote repoURL ;;;
  r <- attempt (gogit (GgList [repoURL] auth)) ;;
  match r with
  | inl refs => ret (map Short (List.filter IsBranch refs))
  | inr err =>
    if err_is ErrEmptyRemoteRepository err then ret []
    else remote_failed "failed to list remote references: " repoURL err
  end.

Definition CheckPermissions (repoURL : string) : M S unit :=
  if bool_decide (cfg_SSHKey config = "") && bool_decide (cfg_Token config = "") then ret tt
  else
    auth <- authentication ;;
    memory_remote repoURL ;;;
    r <- attempt (gogit (GgList [repoURL] auth)) ;;
    match r with
    | inl _ => ret tt
    | inr err =>
      if err_is ErrEmptyRemoteRepository err then ret tt
      else if IsVerificationError err then err' <- remoteErr err repoURL ;; throw err'
      else throw (EWrap "permission denied or repository not found: " err)
    end.

Definition RemoveBranch (directory branchName : string) : M S unit :=
  open_repository directory ;;;
  gogit (GgRemoveReference directory (NewBranchReferenceName branchName)) ?> "failed to remove branch: ".

Definition CreateChildBranch (directory parentBranch newBranch : string) : M S unit :=
  open_repository directory ;;;
  get_worktree directory ;;;
  gogit (GgCheckout directory
    {| co_Branch := NewBranchReferenceName parentBranch; co_Force := true; co_Create := false |})
  ?> "failed to checkout parent branch: " ;;;
  gogit (GgCheckout directory
    {| co_Branch := NewBranchReferenceName newBranch; co_Force := false; co_Create := true |})
  ?> "failed to create child branch: ".

Definition Init (directory : string) : M S unit :=
  gogit (GgPlainInit directory false) ?> "failed to initialize repository: ".

Definition AddRemoteLink (directory remoteURL : string) : M S unit :=
  open_repository directory ;;;
  orelse (gogit (GgDeleteRemote directory "origin")) (λ err,
    if err_is ErrRemoteNotFound err then ret tt
    else throw (EWrap "failed to delete existing remote: " err)) ;;;
  gogit (GgCreateRemote directory "origin" [remoteURL]) ?> "failed to create remote: ".

Definition CheckoutRemoteBranch (directory branchName : string) : M S unit :=
  open_repository directory ;;;
  auth <- authentication ;;
  unless_up_to_date (gogit (GgFetch directory
      {| fo_RemoteName := "origin"; fo_RefSpecs := ["refs/*:refs/*"]; fo_Auth := auth; fo_Force := true |}))
    (λ err, throw (EWrap "failed to fetch: " err)) ;;;
  get_worktree directory ;;;
  gogit (GgCheckout directory
    {| co_Branch := NewBranchReferenceName branchName; co_Force := true; co_Create := false |})
  ?> "failed to checkout branch: ".
End Methods.
End Provider.

(** ** transport.go *)

(** The "PACK" header with version 2 and no objects, and its checksum. *)
Definition emptyPackfile : string :=
  let header := "PACK" +:+ Sha1.be32 2 +:+ Sha1.be32 0 in
  header +:+ Sha1.Sum header.

Section Transport.
Context {X : Externals} {S : Type}.

Definition resolveAdvertisedRef (advRefs : AdvRefs) (ref : string) : res string :=
  if bool_decide (ref = "") then
    match ar_Head advRefs with
    | Some hash => Ok hash
    | None => Err (EWrap "remote advertisement has no HEAD: " (ESentinel ErrReferenceNotFound))
    end
  else
    match ar_References advRefs !! NewBranchReferenceName ref with
    | Some hash => Ok hash
    | None =>
      let tagRef := NewTagReferenceName ref in
      match ar_Peeled advRefs !! tagRef with
      | Some hash => Ok hash
      | None =>
        match ar_References advRefs !! tagRef with
        | Some hash => Ok hash
        | None =>
          let hash := NewHash ref in
          if negb (bool_decide (hash = ZeroHash)) && equal_fold hash ref then Ok hash
          else Err (EWrap ("failed to resolve " +:+ go_quote ref +:+ ": ") (ESentinel ErrReferenceNotFound))
        end
      end
    end.

Section Methods.
Context (config : Config).

(** [_ = session.Close()] *)
Definition close_session (s : service) (repoURL : string) : M S unit :=
  attempt (gogit (GgClose s repoURL)) ;;; ret tt.

Definition newTransportClient (repoURL : string) : M S AuthMethod :=
  auth <- authentication config ;;
  of_res (NewEndpoint repoURL) ?> ("failed to parse repository URL " +:+ go_quote repoURL +:+ ": ") ;;;
  gogit (GgNewClient repoURL) ?> "failed to create transport client: " ;;;
  ret auth.

(** The session stays open; the caller closes it. *)
Definition advertisedReferences (repoURL : string) : M S AdvRefs :=
  auth <- newTransportClient repoURL ;;
  orelse (gogit (GgNewSession UploadPack repoURL auth))
    (remote_failed "failed to open upload-pack session: " repoURL) ;;;
  orelse (gogit (GgAdvertisedReferences UploadPack repoURL)) (λ err,
    close_session UploadPack repoURL ;;;
    if err_is ErrEmptyRemoteRepository err || err_is ErrRepositoryNotFound err
    then throw (EWrap "remote repository is empty or missing: " (ESentinel ErrReferenceNotFound))
    else remote_failed "failed to get advertised references: " repoURL err).

Definition ResolveRemoteReference (repoURL ref : string) : M S string :=
  advRefs <- advertisedReferences repoURL ;;
  deferring (close_session UploadPack repoURL) (of_res (resolveAdvertisedRef advRefs ref)).

(** The create command of a branch, in the session whose references are [advRefs]. *)
Definition create_command (branchName hash : string) (advRefs : AdvRefs) : ReferenceUpdateRequest :=
  {| ru_Capabilities := ar_Capabilities advRefs;
     ru_Commands := [{| cmd_Name := NewBranchReferenceName branchName; cmd_Old := ZeroHash;
                        cmd_New := NewHash hash |}];
     ru_Packfile := emptyPackfile |}.

(** The open receive-pack session. *)
Definition update_reference (repoURL branchName hash : string) : M S unit :=
  advRefs <- orelse (gogit (GgAdvertisedReferences ReceivePack repoURL))
    (remote_failed "failed to get advertised references: " repoURL) ;;
  match ar_References advRefs !! NewBranchReferenceName branchName with
  | Some _ => ret tt
  | None =>
    reportStatus <- gogit (GgReceivePack repoURL (create_command branchName hash advRefs))
      ?> ("failed to create remote branch " +:+ branchName +:+ ": ") ;;
    match reportStatus with
    | Some (Some err) => throw (EWrap ("remote rejected branch " +:+ branchName +:+ " creation: ") err)
    | _ => ret tt
    end
  end.

Definition CreateRemoteBranchViaRefUpdate (repoURL branchName fromRef : string) : M S unit :=
  if bool_decide (fromRef = "")
  then throw (EWrap "fromRef must not be empty: " (ESentinel ErrReferenceNotFound))
  else
    hash <- ResolveRemoteReference repoURL fromRef ;;
    auth <- newTransportClient repoURL ;;
    orelse (gogit (GgNewSession ReceivePack repoURL auth))
      (remote_failed "failed to open receive-pack session: " repoURL) ;;;
    deferring (close_session ReceivePack repoURL) (update_reference repoURL branchName hash).
End Methods.
End Transport.

(** ** The interface *)

(** [GitProviderFactory]: a client of a configuration, asked for one method. *)
Definition git_client {X : Externals} (cfg : Config) {R} (c : git_call R) : prog R :=
  let config := NewGitProvider cfg in
  match c in git_call R return prog R with
  | GClone repoURL destination => answer (Clone config repoURL destination)
  | GCommit directory message allowEmpty => answer (Commit directory message allowEmpty)
  | GPush directory refspecs => answer (Push config directory refspecs)
  | GCheckout directory branchName remote => answer (Checkout config directory branchName remote)
  | GGetCurrentBranchName directory => answer (GetCurrentBranchName directory)
  | GCheckPermissions repoURL => answer (CheckPermissions config repoURL)
  | GListRemoteBranches repoURL => answer (ListRemoteBranches config repoURL)
  | GResolveRemoteReference repoURL ref => answer (ResolveRemoteReference config repoURL ref)
  | GCreateRemoteBranchViaRefUpdate repoURL branchName fromRef =>
      answer (CreateRemoteBranchViaRefUpdate config repoURL branchName fromRef)
  | GRemoveBranch directory branchName => answer (RemoveBranch directory branchName)
  | GCreateChildBranch directory parentBranch newBranch =>
      answer (CreateChildBranch directory parentBranch newBranch)
  | GInit directory => answer (Init directory)
  | GAddRemoteLink directory remoteURL => answer (AddRemoteLink directory remoteURL)
  | GCheckoutRemoteBranch directory branchName => answer (CheckoutRemoteBranch config directory branchName)
  end.

(** ** Concrete values *)

(** The bytes a real server accepts (transport_test.go). *)
Example emptyPackfile_golden :
  Sha1.hex emptyPackfile = "5041434b0000000200000000029d08823bd8a8eab510ad6ac75c823cfd3ed31e".
Proof. vm_compute. reflexivity. Qed.

(** ** Hashes *)

Lemma lower_hex a : hex_char a = true → ascii_lower a = a ∧ a ≠ byte 115 ∧ a ≠ byte 107.
Proof. destruct a as [[] [] [] [] [] [] [] []]; vm_compute; intros H; first [discriminate H|by split_and!]. Qed.

(** Case folding against hexadecimal digits is ASCII case folding. *)
Lemma equal_fold_hex h s :
  str_forallb (λ a, hex_char (ascii_lower a)) h = true → equal_fold h s = true → to_lower h = to_lower s.
Proof.
  revert s. induction h as [|a h IH]; intros s Hh; cbn [equal_fold str_forallb] in *.
  { by intros ->%bool_decide_eq_true. }
  apply andb_true_iff in Hh as [Ha Hh]. destruct s as [|b s]; [done|].
  destruct (lower_hex _ Ha) as (_&Hs&Hk). case_bool_decide as Hab.
  - intros H. unfold to_lower in *. cbn [str_map]. rewrite Hab. f_equal. by apply IH.
  - rewrite (bool_decide_eq_false_2 _ Hs), (bool_decide_eq_false_2 _ Hk). done.
Qed.

Lemma equal_fold_lower h s : to_lower h = to_lower s → equal_fold h s = true.
Proof.
  revert s. induction h as [|a h IH]; intros [|b s]; try done.
  unfold to_lower in *. cbn [str_map equal_fold]. intros [= Hab H]. rewrite bool_decide_true by done. by apply IH.
Qed.

Lemma passthrough_hash {X : Externals} {L : ExternalsLaws X} ref :
  negb (bool_decide (NewHash ref = ZeroHash)) && equal_fold (NewHash ref) ref = true
  ↔ full_hash ref = true ∧ to_lower ref ≠ ZeroHash.
Proof.
  rewrite andb_true_iff, negb_true_iff, bool_decide_eq_false. split.
  - intros [Hz Hf]. destruct (NewHash_canonical ref) as [Hc Hl].
    assert (to_lower (NewHash ref) = to_lower ref) as Hlow.
    { apply equal_fold_hex; [|done]. by apply andb_true_iff in Hc as [_ ?]. }
    assert (full_hash ref = true) as Hfull.
    { by rewrite <- (full_hash_lower ref), <- Hlow, full_hash_lower. }
    split; [done|]. by rewrite <- (NewHash_full ref Hfull).
  - intros [Hfull Hz]. rewrite (NewHash_full ref Hfull). split; [done|].
    apply equal_fold_lower, to_lower_idemp.
Qed.

(** The lookup order of git: HEAD, a branch, a tag at its commit, a tag, a full hash. *)
Inductive resolves (adv : AdvRefs) : string → string → Prop :=
| resolves_head h : ar_Head adv = Some h → resolves adv "" h
| resolves_branch ref h : ref ≠ "" → ar_References adv !! ("refs/heads/" +:+ ref) = Some h → resolves adv ref h
| resolves_peeled ref h :
    ref ≠ "" → ar_References adv !! ("refs/heads/" +:+ ref) = None →
    ar_Peeled adv !! ("refs/tags/" +:+ ref) = Some h → resolves adv ref h
| resolves_tag ref h :
    ref ≠ "" → ar_References adv !! ("refs/heads/" +:+ ref) = None →
    ar_Peeled adv !! ("refs/tags/" +:+ ref) = None →
    ar_References adv !! ("refs/tags/" +:+ ref) = Some h → resolves adv ref h
| resolves_hash ref :
    ref ≠ "" → ar_References adv !! ("refs/heads/" +:+ ref) = None →
    ar_Peeled adv !! ("refs/tags/" +:+ ref) = None →
    ar_References adv !! ("refs/tags/" +:+ ref) = None →
    full_hash ref = true → to_lower ref ≠ ZeroHash → resolves adv ref (to_lower ref).

(** The outcome of resolving: a hash git would find, or [ErrReferenceNotFound]. *)
Lemma resolveAdvertisedRef_cases {X : Externals} {L : ExternalsLaws X} adv ref :
  match resolveAdvertisedRef adv ref with
  | Ok h => resolves adv ref h
  | Err e => err_is ErrReferenceNotFound e = true ∧ ∀ h, ¬ resolves adv ref h
  | Panic _ => False
  end.
Proof.
  unfold resolveAdvertisedRef. cbv zeta. rewrite NewBranchReferenceName_spec, NewTagReferenceName_spec.
  case_bool_decide as Hempty; [subst ref|].
  { destruct (ar_Head adv) eqn:Hh; [by apply resolves_head|]. split; [done|].
    intros h Hr. inversion Hr; congruence. }
  destruct (ar_References adv !! ("refs/heads/" +:+ ref)) eqn:Hb; [by apply resolves_branch|].
  destruct (ar_Peeled adv !! _) eqn:Hp; [by apply resolves_peeled|].
  destruct (ar_References adv !! ("refs/tags/" +:+ ref)) eqn:Ht; [by apply resolves_tag|].
  destruct (_ && _) eqn:Hh.
  - apply passthrough_hash in Hh as [Hf Hz]. rewrite (NewHash_full _ Hf). by apply resolves_hash.
  - split; [done|]. intros h Hr. apply not_true_iff_false in Hh. apply Hh, passthrough_hash.
    inversion Hr; subst; try congruence. done.
Qed.

Lemma resolves_functional adv ref h h' : resolves adv ref h → resolves adv ref h' → h = h'.
Proof. intros H H'. inversion H; subst; inversion H'; subst; congruence. Qed.
