(* ===== verification/ProviderClients.v ===== *)
(** * ProviderClients: the clients of git hosting services ([src/pkg/gitprovider])

    github.go, gitlab.go, bitbucket.go and auth_provider.go as programs over resty and the
    generated Bitbucket client. [provider_client] answers a call of the [GitProvider]
    interface with the client [NewProvider] chooses for the provider. A Go pointer that may be
    nil is an [option], and looking into a nil one panics. *)

From S2P Require Import Prelude GoStd Api Effects Urls.
From S2P Require Import Json.

Section Clients.
Context {S : Type}.

Definition StatusOK : Z := 200.
Definition StatusCreated : Z := 201.
Definition StatusNoContent : Z := 204.
Definition StatusNotFound : Z := 404.

(** ** provider.go *)

Definition Visibility (isPrivate : bool) : string := if isPrivate then "private" else "public".

Definition parseProjectID (projectID : string) : res (string * string) :=
  match str_split slash projectID with
  | [owner; repo] => Ok (owner, repo)
  | _ => Err (ENew ("invalid project ID: " +:+ projectID))
  end.

(** [for _, webHook := range webHooks { if webHook.URL == webHookURL { return webHook } }] *)
Fixpoint find_webhook (webHooks : list (option WebHook)) (webHookURL : string) : res (option WebHook) :=
  match webHooks with
  | [] => Ok None
  | None :: _ => Panic "invalid memory address or nil pointer dereference"
  | Some webHook :: rest =>
    if bool_decide (wh_URL webHook = webHookURL) then Ok (Some webHook) else find_webhook rest webHookURL
  end.

(** The shape of [CreateWebHookIfNotExists], the same in the three clients. *)
Definition webhook_if_not_exists (list : M S (list (option WebHook))) (create : M S WebHook)
    (webHookURL : string) : M S WebHook :=
  webHooks <- list ;;
  found <- of_res (find_webhook webHooks webHookURL) ;;
  match found with Some webHook => ret webHook | None => create end.

(** A failing request, and an error answer with its body. *)
Definition respond {T} (what : string) (t : rest_result T) (rq : RestRequest) : M S (RestResponse T) :=
  rest t rq ?> ("failed to " +:+ what +:+ ": ").
Definition no_error {T} (what : string) (resp : RestResponse T) : M S unit :=
  if ra_IsError resp then throw (ENew ("failed to " +:+ what +:+ ": " +:+ ra_String resp)) else ret tt.
Definition webhook_found {T} (what : string) (resp : RestResponse T) : M S unit :=
  if bool_decide (ra_StatusCode resp = StatusNotFound)
  then throw (EWrap ("failed to " +:+ what +:+ ": ") (ESentinel ErrWebHookNotFound))
  else ret tt.

(** ** github.go *)

Section GitHub.
Context (githubURL token : string).

Definition github_request (method path : string) (params query : list (string * string)) (body : option json)
  : RestRequest :=
  {| rr_Method := method; rr_HostURL := githubURL; rr_Path := path; rr_PathParams := params;
     rr_QueryParams := query; rr_AuthToken := Some token; rr_Headers := []; rr_Body := body |}.
Definition repo_params (owner repo : string) : list (string * string) := [("owner", owner); ("repo", repo)].

Definition convertWebhook (githubHook : option gitHubWebHook) : option WebHook :=
  match githubHook with
  | None => None
  | Some hook => Some {| wh_ID := itoa (ghw_ID hook); wh_URL := ghw_URL hook |}
  end.

Definition github_hook_body (webHookSecret webHookURL : string) (skipTLS : bool) : json :=
  JObj [("name", JStr "web"); ("active", JBool true);
        ("events", JArr [JStr "pull_request"; JStr "push"; JStr "issue_comment"]);
        ("config", JObj [("url", JStr webHookURL); ("content_type", JStr "json");
                         ("insecure_ssl", JStr (itoa (if skipTLS then 1 else 0)));
                         ("secret", JStr webHookSecret)])].

Definition GitHub_CreateWebHook (projectID webHookSecret webHookURL : string) (skipTLS : bool)
  : M S WebHook :=
  ' (owner, repo) <- of_res (parseProjectID projectID) ;;
  resp <- respond "create GitHub web hook" RGitHubWebHook
    (github_request "POST" "/repos/{owner}/{repo}/hooks" (repo_params owner repo) []
       (Some (github_hook_body webHookSecret webHookURL skipTLS))) ;;
  no_error "create GitHub web hook" resp ;;;
  ret {| wh_ID := itoa (ghw_ID (ra_Result resp)); wh_URL := ghw_URL (ra_Result resp) |}.

Definition GitHub_GetWebHooks (projectID : string) : M S (list (option WebHook)) :=
  ' (owner, repo) <- of_res (parseProjectID projectID) ;;
  resp <- respond "get GitHub web hooks" RGitHubWebHooks
    (github_request "GET" "/repos/{owner}/{repo}/hooks" (repo_params owner repo) [] None) ;;
  no_error "get GitHub web hooks" resp ;;;
  ret (map convertWebhook (ra_Result resp)).

Definition GitHub_CreateWebHookIfNotExists (projectID webHookSecret webHookURL : string) (skipTLS : bool)
  : M S WebHook :=
  webhook_if_not_exists (GitHub_GetWebHooks projectID)
    (GitHub_CreateWebHook projectID webHookSecret webHookURL skipTLS) webHookURL.

Definition GitHub_GetWebHook (projectID webHookRef : string) : M S WebHook :=
  ' (owner, repo) <- of_res (parseProjectID projectID) ;;
  resp <- respond "get GitHub web hook" RGitHubWebHook
    (github_request "GET" "/repos/{owner}/{repo}/hooks/{hook-id}"
       (repo_params owner repo ++ [("hook-id", webHookRef)]) [] None) ;;
  webhook_found "get GitHub web hook" resp ;;;
  no_error "get GitHub web hook" resp ;;;
  ret {| wh_ID := itoa (ghw_ID (ra_Result resp)); wh_URL := ghw_URL (ra_Result resp) |}.

Definition GitHub_DeleteWebHook (projectID webHookRef : string) : M S unit :=
  ' (owner, repo) <- of_res (parseProjectID projectID) ;;
  resp <- respond "delete GitHub web hook" RNone
    (github_request "DELETE" "/repos/{owner}/{repo}/hooks/{hook-id}"
       (repo_params owner repo ++ [("hook-id", webHookRef)]) [] None) ;;
  webhook_found "delete GitHub web hook" resp ;;;
  no_error "delete GitHub web hook" resp.

Definition isOwnerOrg (owner : string) : M S bool :=
  resp <- respond "get GitHub organizations" RGitHubOrganizations
    (github_request "GET" "/user/orgs" [] [("per_page", "1000")] None) ;;
  no_error "get GitHub organizations" resp ;;;
  ret (existsb (λ login, equal_fold login owner) (ra_Result resp)).

Definition GitHub_CreateProject (projectID : string) (isPrivate : bool) : M S unit :=
  ' (owner, repo) <- of_res (parseProjectID projectID) ;;
  isOrg <- isOwnerOrg owner ;;
  let path := if isOrg : bool then "orgs/" +:+ owner +:+ "/repos" else "user/repos" in
  resp <- respond "create GitHub repository" RNone
    (github_request "POST" path [] [] (Some (JObj [("name", JStr repo); ("private", JBool isPrivate)]))) ;;
  no_error "create GitHub repository" resp.

Definition GitHub_ProjectExists (projectID : string) : M S bool :=
  ' (owner, repo) <- of_res (parseProjectID projectID) ;;
  resp <- respond "get GitHub repository" RNone
    (github_request "GET" "/repos/{owner}/{repo}" (repo_params owner repo) [] None) ;;
  if ra_IsError resp then
    if bool_decide (ra_StatusCode resp = StatusNotFound) then ret false
    else throw (ENew ("failed to get GitHub repository: " +:+ ra_String resp))
  else ret true.

Definition GitHub_SetDefaultBranch (projectID branch : string) : M S unit :=
  ' (owner, repo) <- of_res (parseProjectID projectID) ;;
  resp <- respond "set GitHub default branch" RNone
    (github_request "PATCH" "/repos/{owner}/{repo}" (repo_params owner repo) []
       (Some (JObj [("default_branch", JStr branch)]))) ;;
  no_error "set GitHub default branch" resp.
End GitHub.

(** ** gitlab.go *)

Section GitLab.
Context (gitlabURL token : string).

Definition gitLabTokenHeaderName : string := "PRIVATE-TOKEN".

Definition gitlab_request (method path : string) (params : list (string * string)) (body : option json)
  : RestRequest :=
  {| rr_Method := method; rr_HostURL := gitlabURL; rr_Path := path; rr_PathParams := params;
     rr_QueryParams := []; rr_AuthToken := None; rr_Headers := [(gitLabTokenHeaderName, token)];
     rr_Body := body |}.

Definition convertGitlabWebhook (hook : option gitlabWebHook) : option WebHook :=
  match hook with
  | None => None
  | Some hook => Some {| wh_ID := itoa (glw_ID hook); wh_URL := glw_URL hook |}
  end.

Definition gitlab_hook_body (webHookSecret webHookURL : string) (skipTLS : bool) : json :=
  JObj [("url", JStr webHookURL); ("merge_requests_events", JBool true); ("note_events", JBool true);
        ("push_events", JBool false); ("token", JStr webHookSecret);
        ("enable_ssl_verification", JBool (negb skipTLS))].

Definition GitLab_CreateWebHook (projectID webHookSecret webHookURL : string) (skipTLS : bool)
  : M S WebHook :=
  resp <- respond "create GitLab web hook" RGitlabWebHook
    (gitlab_request "POST" "/api/v4/projects/{project-id}/hooks" [("project-id", projectID)]
       (Some (gitlab_hook_body webHookSecret webHookURL skipTLS))) ;;
  no_error "create GitLab web hook" resp ;;;
  ret {| wh_ID := itoa (glw_ID (ra_Result resp)); wh_URL := glw_URL (ra_Result resp) |}.

Definition GitLab_GetWebHooks (projectID : string) : M S (list (option WebHook)) :=
  resp <- respond "get GitLab web hooks" RGitlabWebHooks
    (gitlab_request "GET" "/api/v4/projects/{project-id}/hooks" [("project-id", projectID)] None) ;;
  no_error "get GitLab web hooks" resp ;;;
  ret (map convertGitlabWebhook (ra_Result resp)).

Definition GitLab_CreateWebHookIfNotExists (projectID webHookSecret webHookURL : string) (skipTLS : bool)
  : M S WebHook :=
  webhook_if_not_exists (GitLab_GetWebHooks projectID)
    (GitLab_CreateWebHook projectID webHookSecret webHookURL skipTLS) webHookURL.

Definition GitLab_GetWebHook (projectID webHookRef : string) : M S WebHook :=
  resp <- respond "get GitLab web hook" RGitlabWebHook
    (gitlab_request "GET" "/api/v4/projects/{project-id}/hooks/{hook-id}"
       [("project-id", projectID); ("hook-id", webHookRef)] None) ;;
  webhook_found "get GitLab web hook" resp ;;;
  no_error "get GitLab web hook" resp ;;;
  ret {| wh_ID := itoa (glw_ID (ra_Result resp)); wh_URL := glw_URL (ra_Result resp) |}.

Definition GitLab_DeleteWebHook (projectID webHookRef : string) : M S unit :=
  resp <- respond "delete GitLab web hook" RNone
    (gitlab_request "DELETE" "/api/v4/projects/{project-id}/hooks/{hook-id}"
       [("project-id", projectID); ("hook-id", webHookRef)] None) ;;
  webhook_found "delete GitLab web hook" resp ;;;
  no_error "delete GitLab web hook" resp.

Definition decodeProjectID (projectID : string) : res (string * string) :=
  match cut_last slash projectID with
  | Some (namespace, path) =>
    if bool_decide (path = "") || bool_decide (namespace = "")
    then Err (ENew ("invalid project ID: " +:+ projectID)) else Ok (namespace, path)
  | None => Err (ENew ("invalid project ID: " +:+ projectID))
  end.

Definition getNamespace (namespaceFullPath : string) : M S Z :=
  resp <- respond "get GitLab namespace" RGitlabNamespace
    (gitlab_request "GET" "/api/v4/namespaces/{gitlabNamespace}" [("gitlabNamespace", namespaceFullPath)] None) ;;
  no_error "get GitLab namespace" resp ;;;
  ret (ra_Result resp).

Definition GitLab_CreateProject (projectID : string) (isPrivate : bool) : M S unit :=
  ' (namespace, path) <- of_res (decodeProjectID projectID) ;;
  gitLabNs <- getNamespace namespace ;;
  resp <- respond "create GitLab project" RNone
    (gitlab_request "POST" "/api/v4/projects" []
       (Some (JObj [("path", JStr path); ("namespace_id", JNum (itoa gitLabNs));
                    ("visibility", JStr (Visibility isPrivate))]))) ;;
  no_error "create GitLab project" resp.

Definition GitLab_ProjectExists (projectID : string) : M S bool :=
  resp <- respond "check if GitLab project exists" RNone
    (gitlab_request "GET" "/api/v4/projects/{projectID}" [("projectID", projectID)] None) ;;
  if ra_IsError resp then
    if bool_decide (ra_StatusCode resp = StatusNotFound) then ret false
    else throw (ENew ("failed to get GitLab project: " +:+ ra_String resp))
  else ret true.

Definition GitLab_SetDefaultBranch (projectID branch : string) : M S unit :=
  resp <- respond "set GitLab default branch" RNone
    (gitlab_request "PUT" "/api/v4/projects/{projectID}" [("projectID", projectID)]
       (Some (JObj [("default_branch", JStr branch)]))) ;;
  no_error "set GitLab default branch" resp.
End GitLab.

(** ** bitbucket.go *)

(** The Authorization header that the request editor of [BasicTokenAuthProvider] sets. *)
Definition Intercept (token : string) : string := "Basic " +:+ token.

Section Bitbucket.
(** The token [NewBitbucketClient] was given; the methods ignore theirs. *)
Context (token : string).

Definition createObjectStatusOk (statusCode : Z) : bool :=
  bool_decide (statusCode = StatusOK) || bool_decide (statusCode = StatusCreated).

Definition bitbucket_respond {T} (what : string) (c : bitbucket_call (res (BitbucketResponse T)))
  : M S (BitbucketResponse T) :=
  bitbucket c ?> ("failed to " +:+ what +:+ ": ").
Definition bitbucket_failed {A T} (what : string) (r : BitbucketResponse T) : M S A :=
  throw (ENew ("failed to " +:+ what +:+ ": " +:+ br_Status r +:+ " " +:+ br_Body r)).
(** [if r.JSON == nil || r.JSON.Uuid == nil || r.JSON.Url == nil] *)
Definition bitbucket_webhook {T} (what : string) (r : BitbucketResponse T) (o : option BitbucketHook)
  : res WebHook :=
  match o with
  | Some {| bh_Uuid := Some uuid; bh_Url := Some url |} => Ok {| wh_ID := uuid; wh_URL := url |}
  | _ => Err (ENew ("failed to " +:+ what +:+ ": invalid response " +:+ br_Body r))
  end.

Definition bitbucket_hook_body (uuid webHookSecret webHookURL : string) (skipTLS : bool) : json :=
  JObj [("description", JStr ("Automatically created " +:+ uuid)); ("url", JStr webHookURL);
        ("active", JBool true); ("secret", JStr webHookSecret);
        ("skip_cert_verification", JBool skipTLS); ("history_enabled", JBool true);
        ("events", JArr (map JStr ["pullrequest:created"; "pullrequest:updated"; "pullrequest:fulfilled";
           "pullrequest:comment_created"; "pullrequest:comment_updated"]))].

Definition Bitbucket_CreateWebHook (projectID webHookSecret webHookURL : string) (skipTLS : bool)
  : M S WebHook :=
  ' (owner, repo) <- of_res (parseProjectID projectID) ;;
  uuid <- do_call (CBitbucket BNewUUID) ;;
  r <- bitbucket_respond "create Bitbucket web hook"
    (BPostHook (Intercept token) owner repo (bitbucket_hook_body uuid webHookSecret webHookURL skipTLS)) ;;
  if negb (createObjectStatusOk (br_StatusCode r)) then bitbucket_failed "create Bitbucket web hook" r
  else of_res (bitbucket_webhook "create Bitbucket web hook" r (br_JSON r)).

(** [webHooks[i] = ...] for every hook of the answer, or an error. *)
Fixpoint bitbucket_webhooks {T} (r : BitbucketResponse T) (hooks : list BitbucketHook) : res (list (option WebHook)) :=
  match hooks with
  | [] => Ok []
  | hook :: hooks' =>
    res_bind (bitbucket_webhook "get Bitbucket web hooks" r (Some hook)) (λ w,
    res_bind (bitbucket_webhooks r hooks') (λ ws, Ok (Some w :: ws)))
  end.

Definition Bitbucket_GetWebHooks (projectID : string) : M S (list (option WebHook)) :=
  ' (owner, repo) <- of_res (parseProjectID projectID) ;;
  r <- bitbucket_respond "get Bitbucket web hooks" (BGetHooks (Intercept token) owner repo) ;;
  if negb (bool_decide (br_StatusCode r = StatusOK)) then bitbucket_failed "get Bitbucket web hooks" r
  else
    match br_JSON r with
    | Some (Some hooks) => of_res (bitbucket_webhooks r hooks)
    | _ => ret []
    end.

Definition Bitbucket_CreateWebHookIfNotExists (projectID webHookSecret webHookURL : string) (skipTLS : bool)
  : M S WebHook :=
  webhook_if_not_exists (Bitbucket_GetWebHooks projectID)
    (Bitbucket_CreateWebHook projectID webHookSecret webHookURL skipTLS) webHookURL.

Definition Bitbucket_GetWebHook (projectID webHookRef : string) : M S WebHook :=
  ' (owner, repo) <- of_res (parseProjectID projectID) ;;
  r <- bitbucket_respond "get Bitbucket web hook" (BGetHook (Intercept token) owner repo webHookRef) ;;
  if negb (bool_decide (br_StatusCode r = StatusOK)) then bitbucket_failed "get Bitbucket web hook" r
  else of_res (bitbucket_webhook "get Bitbucket web hook" r (br_JSON r)).

Definition Bitbucket_DeleteWebHook (projectID webHookRef : string) : M S unit :=
  ' (owner, repo) <- of_res (parseProjectID projectID) ;;
  r <- bitbucket_respond "delete Bitbucket web hook" (BDeleteHook (Intercept token) owner repo webHookRef) ;;
  if negb (bool_decide (br_StatusCode r = StatusNoContent)) then
    if bool_decide (br_StatusCode r = StatusNotFound)
    then throw (EWrap "failed to delete Bitbucket web hook: " (ESentinel ErrWebHookNotFound))
    else bitbucket_failed "delete Bitbucket web hook" r
  else ret tt.

Definition Bitbucket_CreateProject (projectID : string) (isPrivate : bool) : M S unit :=
  ' (owner, repo) <- of_res (parseProjectID projectID) ;;
  r <- bitbucket_respond "create Bitbucket repository" (BPostRepository (Intercept token) owner repo "repository" isPrivate) ;;
  if negb (createObjectStatusOk (br_StatusCode r)) then bitbucket_failed "create Bitbucket repository" r
  else ret tt.

Definition slug_query (repo : string) : string :=
  "q=slug=" +:+ String dquote (repo +:+ String dquote "").

Definition Bitbucket_ProjectExists (projectID : string) : M S bool :=
  ' (owner, repo) <- of_res (parseProjectID projectID) ;;
  r <- bitbucket_respond "get Bitbucket repository" (BGetRepositories (Intercept token) owner (slug_query repo)) ;;
  if negb (bool_decide (br_StatusCode r = StatusOK)) then bitbucket_failed "get Bitbucket repository" r
  else
    match br_JSON r with
    | Some (Some values) => ret (existsb (λ v, bool_decide (v = Some projectID)) values)
    | _ => ret false
    end.

Definition Bitbucket_SetDefaultBranch : M S unit :=
  throw (EWrap "setting default branch in Bitbucket repository: " (ESentinel ErrApiNotSupported)).
End Bitbucket.

(** ** The interface *)

(** The clients of the three services, chosen by the name [NewProvider] knows them by. *)
Definition choose {A} (p : string) (github gitlab bitbucket : M S A) : M S A :=
  if bool_decide (p = GitProviderGithub) then github
  else if bool_decide (p = GitProviderGitlab) then gitlab
  else bitbucket.
End Clients.

(** The options of the generated constructor cannot fail. *)
Definition NewBitbucketClient (token : string) : M unit unit := ret tt.

Definition provider_client {R} (c : provider_call R) : prog R :=
  match c in provider_call R return prog R with
  | PNewBitbucketClient token => answer (NewBitbucketClient token)
  | PProjectExists p url token projectID => answer (choose p
      (GitHub_ProjectExists url token projectID) (GitLab_ProjectExists url token projectID)
      (Bitbucket_ProjectExists token projectID))
  | PCreateProject p url token fullPath isPrivate => answer (choose p
      (GitHub_CreateProject url token fullPath isPrivate) (GitLab_CreateProject url token fullPath isPrivate)
      (Bitbucket_CreateProject token fullPath isPrivate))
  | PSetDefaultBranch p url token projectID branch => answer (choose p
      (GitHub_SetDefaultBranch url token projectID branch) (GitLab_SetDefaultBranch url token projectID branch)
      Bitbucket_SetDefaultBranch)
  | PGetWebHook p url token projectID ref => answer (choose p
      (GitHub_GetWebHook url token projectID ref) (GitLab_GetWebHook url token projectID ref)
      (Bitbucket_GetWebHook token projectID ref))
  | PCreateWebHookIfNotExists p url token projectID secret webHookURL skipTLS => answer (choose p
      (GitHub_CreateWebHookIfNotExists url token projectID secret webHookURL skipTLS)
      (GitLab_CreateWebHookIfNotExists url token projectID secret webHookURL skipTLS)
      (Bitbucket_CreateWebHookIfNotExists token projectID secret webHookURL skipTLS))
  | PDeleteWebHook p url token projectID ref => answer (choose p
      (GitHub_DeleteWebHook url token projectID ref) (GitLab_DeleteWebHook url token projectID ref)
      (Bitbucket_DeleteWebHook token projectID ref))
  end.
