(* ===== verification/BitbucketTypes.v ===== *)
(** * BitbucketTypes: the types the generated Bitbucket client decodes answers into

    The structures of [src/pkg/gitprovider/bitbucket/generated] that are reachable from a
    webhook, a repository or an error object: which members of a JSON object their
    [UnmarshalJSON] methods read, and into what. The operator looks at three members only (the
    identifier and the address of a webhook, the full name of a repository), but a value of the
    wrong type anywhere in the object fails the call, so all of them are here. [decodable]
    interprets the tables the way encoding/json does. *)

From S2P Require Import Prelude GoStd Json.

#[local] Open Scope Z_scope.

(** The named structures; those after [Object] have no method and are decoded by field. *)
Inductive type_name :=
| Account | AccountLinks | Author | BaseCommit | Branch | Commit | Error | Participant | Project
| Repository | Team | TeamLinks | WebhookSubscription | Object
| Link | Branch_Links | Commit_Summary | Error_Error | Project_Links | Repository_Links.

(** The types of fields. A pointer decodes whatever its element does, and null always. *)
Inductive field_type :=
| Bool | Int | Text | Time
| Map                                                     (* map[string]interface{} *)
| Slice (t : field_type)
| Struct (n : type_name).

Definition Account_fields : list (string * field_type) :=
  [("created_on", Time); ("display_name", Text); ("links", Struct AccountLinks); ("type", Text); ("uuid", Text)].
Definition AccountLinks_fields : list (string * field_type) := [("avatar", Struct Link)].
Definition Author_fields : list (string * field_type) :=
  [("raw", Text); ("type", Text); ("user", Struct Account)].
Definition BaseCommit_fields : list (string * field_type) :=
  [("author", Struct Author); ("date", Time); ("hash", Text); ("message", Text);
   ("parents", Slice (Struct BaseCommit)); ("summary", Struct Commit_Summary); ("type", Text)].
Definition Branch_fields : list (string * field_type) :=
  [("default_merge_strategy", Text); ("links", Struct Branch_Links); ("merge_strategies", Slice Text);
   ("name", Text); ("target", Struct Commit); ("type", Text)].
Definition Commit_fields : list (string * field_type) :=
  [("author", Struct Author); ("date", Time); ("hash", Text); ("message", Text);
   ("parents", Slice (Struct BaseCommit)); ("participants", Slice (Struct Participant));
   ("repository", Struct Repository); ("summary", Struct Commit_Summary); ("type", Text)].
Definition Error_fields : list (string * field_type) := [("error", Struct Error_Error); ("type", Text)].
Definition Participant_fields : list (string * field_type) :=
  [("approved", Bool); ("participated_on", Time); ("role", Text); ("state", Text); ("type", Text);
   ("user", Struct Account)].
Definition Project_fields : list (string * field_type) :=
  [("created_on", Time); ("description", Text); ("has_publicly_visible_repos", Bool); ("is_private", Bool);
   ("key", Text); ("links", Struct Project_Links); ("name", Text); ("owner", Struct Team); ("type", Text);
   ("updated_on", Time); ("uuid", Text)].
Definition Repository_fields : list (string * field_type) :=
  [("created_on", Time); ("description", Text); ("fork_policy", Text); ("full_name", Text);
   ("has_issues", Bool); ("has_wiki", Bool); ("is_private", Bool); ("language", Text);
   ("links", Struct Repository_Links); ("mainbranch", Struct Branch); ("name", Text);
   ("owner", Struct Account); ("parent", Struct Repository); ("project", Struct Project); ("scm", Text);
   ("size", Int); ("type", Text); ("updated_on", Time); ("uuid", Text)].
Definition Team_fields : list (string * field_type) :=
  [("created_on", Time); ("display_name", Text); ("links", Struct TeamLinks); ("type", Text); ("uuid", Text)].
Definition TeamLinks_fields : list (string * field_type) :=
  [("avatar", Struct Link); ("html", Struct Link); ("members", Struct Link); ("projects", Struct Link);
   ("repositories", Struct Link); ("self", Struct Link)].
Definition WebhookSubscription_fields : list (string * field_type) :=
  [("active", Bool); ("created_at", Time); ("description", Text); ("events", Slice Text); ("secret", Text);
   ("secret_set", Bool); ("subject", Struct Object); ("subject_type", Text); ("type", Text); ("url", Text);
   ("uuid", Text)].
Definition Object_fields : list (string * field_type) := [("type", Text)].

Definition Link_fields : list (string * field_type) := [("href", Text); ("name", Text)].
Definition Branch_Links_fields : list (string * field_type) :=
  [("commits", Struct Link); ("html", Struct Link); ("self", Struct Link)].
Definition Commit_Summary_fields : list (string * field_type) :=
  [("html", Text); ("markup", Text); ("raw", Text)].
Definition Error_Error_fields : list (string * field_type) := [("data", Map); ("message", Text)].
Definition Project_Links_fields : list (string * field_type) :=
  [("avatar", Struct Link); ("html", Struct Link)].
Definition Repository_Links_fields : list (string * field_type) :=
  [("avatar", Struct Link); ("clone", Slice (Struct Link)); ("commits", Struct Link);
   ("downloads", Struct Link); ("forks", Struct Link); ("hooks", Struct Link); ("html", Struct Link);
   ("pullrequests", Struct Link); ("self", Struct Link); ("watchers", Struct Link)].

(** The fields, and whether the type has the generated [UnmarshalJSON]. *)
Definition fields_of (n : type_name) : bool * list (string * field_type) :=
  match n with
  | Account => (true, Account_fields) | AccountLinks => (true, AccountLinks_fields)
  | Author => (true, Author_fields) | BaseCommit => (true, BaseCommit_fields)
  | Branch => (true, Branch_fields) | Commit => (true, Commit_fields) | Error => (true, Error_fields)
  | Participant => (true, Participant_fields) | Project => (true, Project_fields)
  | Repository => (true, Repository_fields) | Team => (true, Team_fields)
  | TeamLinks => (true, TeamLinks_fields) | WebhookSubscription => (true, WebhookSubscription_fields)
  | Object => (true, Object_fields)
  | Link => (false, Link_fields) | Branch_Links => (false, Branch_Links_fields)
  | Commit_Summary => (false, Commit_Summary_fields) | Error_Error => (false, Error_Error_fields)
  | Project_Links => (false, Project_Links_fields) | Repository_Links => (false, Repository_Links_fields)
  end.

(** ** Decoding *)

(** An object read into [map[string]json.RawMessage]; [null] is an empty map. *)
Definition raw_members (j : json) : option (gmap string json) :=
  match j with JNull => Some ∅ | JObj l => Some (members l) | _ => None end.

Section Decode.
Context (named : type_name → json → bool).

(** Whether a value decodes into a field. A time is the text of a string in the format RFC 3339,
    which has no escapes. *)
Fixpoint decodes (t : field_type) (j : json) : bool :=
  match j with
  | JNull => true
  | _ =>
    match t with
    | Bool => match j with JBool _ => true | _ => false end
    | Int => match j with JNum lit => is_ok (Atoi lit) | _ => false end
    | Text => match j with JStr _ => true | _ => false end
    | Time => match j with JStr s => bool_decide (is_Some (ParseRFC3339 s)) | _ => false end
    | Map => bool_decide (is_Some (decode_map j))
    | Slice t => match j with JArr l => forallb (decodes t) l | _ => false end
    | Struct n => named n j
    end
  end.

(** [UnmarshalJSON]: the member of every field, if it is there; the members that no field is
    named after become [AdditionalProperties]. *)
Definition unmarshal_members (fields : list (string * field_type)) (j : json) : bool :=
  match raw_members j with
  | Some m =>
    forallb (λ '(k, t), match m !! k with Some raw => decodes t raw | None => true end) fields
    && forallb (λ '(k, v), contains (map fst fields) k || convertible v) (map_to_list m)
  | None => false
  end.
(** A structure without methods: every member goes to the field of its name, in any case. *)
Definition unmarshal_struct (fields : list (string * field_type)) (j : json) : bool :=
  match j with
  | JNull => true
  | JObj l => forallb (λ '(k, v), forallb (λ '(f, t), negb (is_field f k) || decodes t v) fields) l
  | _ => false
  end.
End Decode.

(** A value of a named type, given how the structures inside it decode. *)
Definition unmarshal_type (f : type_name → json → bool) (n : type_name) (j : json) : bool :=
  let '(has_method, fields) := fields_of n in
  if has_method then unmarshal_members f fields j else unmarshal_struct f fields j.

(** A repository has a parent and a commit has parents, so the types are recursive; every
    structure inside another is one level deeper in the text. *)
Fixpoint named (fuel : nat) (n : type_name) (j : json) : bool :=
  match fuel with
  | 0%nat => false
  | S fuel => unmarshal_type (named fuel) n j
  end.
Fixpoint depth (j : json) : nat :=
  match j with
  | JArr l => S (list_max (map depth l))
  | JObj l => S (list_max (map (λ '(_, v), depth v) l))
  | _ => 1
  end.
Definition decodable (n : type_name) (j : json) : bool := named (S (depth j)) n j.

(** ** More fuel changes nothing *)

Lemma members_depth (l : list (string * json)) k v : members l !! k = Some v → ∃ k', (k', v) ∈ l.
Proof.
  unfold members. induction l as [|[k1 v1] l IH] using rev_ind; [cbn; by rewrite lookup_empty|].
  rewrite foldl_app. cbn. intros [[_ ->]|[_ H]]%lookup_insert_Some.
  - exists k1. apply elem_of_app. right. by apply list_elem_of_singleton.
  - destruct (IH H) as [k' Hin]. exists k'. apply elem_of_app. by left.
Qed.

Lemma depth_arr l v : v ∈ l → (depth v < depth (JArr l))%nat.
Proof.
  intros Hin. cbn. apply Nat.lt_succ_r.
  pose proof (proj1 (list_max_le (map depth l) _) (Nat.le_refl _)) as H.
  rewrite List.Forall_forall in H. apply H, in_map. by apply list_elem_of_In.
Qed.
Lemma depth_obj l k v : (k, v) ∈ l → (depth v < depth (JObj l))%nat.
Proof.
  intros Hin. cbn. apply Nat.lt_succ_r.
  pose proof (proj1 (list_max_le (map (λ '(_, v), depth v) l) _) (Nat.le_refl _)) as H.
  rewrite List.Forall_forall in H. apply H, in_map_iff. exists (k, v). split; [done|]. by apply list_elem_of_In.
Qed.

Lemma forallb_ext_in {A} (f g : A → bool) l : (∀ a, a ∈ l → f a = g a) → forallb f l = forallb g l.
Proof.
  induction l as [|a l IH]; [done|]. intros H. cbn. f_equal; [apply H; set_solver|].
  apply IH. intros b Hb. apply H. set_solver.
Qed.

Lemma decodes_ext d f g t j : (depth j < d)%nat → (∀ n v, (depth v < d)%nat → f n v = g n v) → decodes f t j = decodes g t j.
Proof.
  intros Hd Hfg. revert j Hd. induction t as [| | | | |t IH|n]; intros j Hd; try (by destruct j).
  - destruct j as [| | | |l|]; try done. cbn. apply forallb_ext_in. intros v Hv. apply IH.
    pose proof (depth_arr _ _ Hv). lia.
  - destruct j; try done; by apply Hfg.
Qed.

(** One level of a structure depends on what is inside it. *)
Lemma unmarshal_type_ext f g n j :
  (∀ n v, (depth v < depth j)%nat → f n v = g n v) → unmarshal_type f n j = unmarshal_type g n j.
Proof.
  intros Hfg. unfold unmarshal_type.
  assert (Hin : ∀ t v, (depth v < depth j)%nat → decodes f t v = decodes g t v).
  { intros t v Hv. by apply (decodes_ext (depth j)). }
  destruct (fields_of n) as [[] fields].
  - unfold unmarshal_members, raw_members. destruct j as [| | | | |l]; try done. f_equal. apply forallb_ext_in.
    intros [k t] _. destruct (members l !! k) as [v|] eqn:Hk; [|done]. apply Hin.
    apply members_depth in Hk as [k' Hk]. by apply (depth_obj _ k').
  - destruct j as [| | | | |l]; try done. cbn. apply forallb_ext_in. intros [k v] Hv. apply forallb_ext_in.
    intros [k' t] _. f_equal. apply Hin. by apply (depth_obj _ k).
Qed.

Lemma named_fuel f g n j : (depth j < f)%nat → (depth j < g)%nat → named f n j = named g n j.
Proof.
  revert g n j. induction f as [|f IH]; intros [|g] n j Hf Hg; try lia.
  apply (unmarshal_type_ext (named f) (named g)). intros n' v Hv. apply IH; lia.
Qed.
(** The methods as they are written, each calling the others. *)
Lemma decodable_eq n j : decodable n j = unmarshal_type decodable n j.
Proof. apply (unmarshal_type_ext (named (depth j))). intros n' v Hv. apply named_fuel; lia. Qed.
