(* ===== verification/BitbucketHttp.v ===== *)
(** * BitbucketHttp: the generated Bitbucket client

    The methods of [src/pkg/gitprovider/bitbucket/generated] that the operator calls, on the
    webhooks of a repository and on repositories, from the request they build to the response
    they parse, over the interface [HttpRequestDoer] of that package. [serve_bitbucket] answers
    the calls that [ProviderClients] makes of the generated client with them, so that an
    operation of the provider is described by one request and the answer to it. *)

From S2P Require Import Prelude GoStd Json Api Effects Externals ProviderClients BitbucketTypes.

#[local] Open Scope Z_scope.

(** ** Requests *)

(** The URL is [Server] joined with the relative reference [Path]; net/url does that, and the
    parameters of the path are escaped. *)
Record NetRequest := {
  nq_Method : string; nq_Server : string; nq_Path : string; nq_RawQuery : string;
  nq_Header : list (string * string); nq_Body : option json }.
(** [np_Body] is what [io.ReadAll] gives. *)
Record NetResponse := {
  np_StatusCode : Z; np_Status : string; np_ContentType : string; np_Body : res string }.

Definition RequestEditorFn : Type := NetRequest → res NetRequest.
Record Client := { Server : string; RequestEditors : list RequestEditorFn; Do : NetRequest → res NetResponse }.

Definition NewClient (Do : NetRequest → res NetResponse) (server : string) (editors : list RequestEditorFn)
  : Client :=
  {| Server := if has_suffix "/" server then server else server +:+ "/"; RequestEditors := editors; Do := Do |}.

Fixpoint run_editors (editors : list RequestEditorFn) (req : NetRequest) : res NetRequest :=
  match editors with
  | [] => Ok req
  | r :: editors' => res_bind (r req) (run_editors editors')
  end.
Definition applyEditors (c : Client) (req : NetRequest) (additional : list RequestEditorFn) : res NetRequest :=
  res_bind (run_editors (RequestEditors c) req) (run_editors additional).

(** [http.NewRequest] for an operation path, made relative with a dot. *)
Definition new_request (method server operationPath : string) : NetRequest :=
  {| nq_Method := method; nq_Server := server; nq_Path := "." +:+ operationPath; nq_RawQuery := "";
     nq_Header := []; nq_Body := None |}.
Definition with_body (contentType : string) (body : json) (req : NetRequest) : NetRequest :=
  {| nq_Method := nq_Method req; nq_Server := nq_Server req; nq_Path := nq_Path req;
     nq_RawQuery := nq_RawQuery req; nq_Header := nq_Header req ++ [("Content-Type", contentType)];
     nq_Body := Some body |}.

Section Requests.
Context {X : Externals}.

Definition hooks_path (workspace repoSlug : string) : res string :=
  res_bind (StyleParam "workspace" workspace) (λ pathParam0,
  res_bind (StyleParam "repo_slug" repoSlug) (λ pathParam1,
  Ok ("/repositories/" +:+ pathParam0 +:+ "/" +:+ pathParam1 +:+ "/hooks"))).
Definition hook_path (workspace repoSlug uid : string) : res string :=
  res_bind (StyleParam "workspace" workspace) (λ pathParam0,
  res_bind (StyleParam "repo_slug" repoSlug) (λ pathParam1,
  res_bind (StyleParam "uid" uid) (λ pathParam2,
  Ok ("/repositories/" +:+ pathParam0 +:+ "/" +:+ pathParam1 +:+ "/hooks/" +:+ pathParam2)))).

Definition NewGetHooksRequest (server workspace repoSlug : string) : res NetRequest :=
  res_bind (hooks_path workspace repoSlug) (λ p, Ok (new_request "GET" server p)).
Definition NewPostHooksRequest (server workspace repoSlug : string) : res NetRequest :=
  res_bind (hooks_path workspace repoSlug) (λ p, Ok (new_request "POST" server p)).
Definition NewDeleteHookRequest (server workspace repoSlug uid : string) : res NetRequest :=
  res_bind (hook_path workspace repoSlug uid) (λ p, Ok (new_request "DELETE" server p)).
Definition NewGetHookRequest (server workspace repoSlug uid : string) : res NetRequest :=
  res_bind (hook_path workspace repoSlug uid) (λ p, Ok (new_request "GET" server p)).

(** [params] is nil. *)
Definition NewGetRepositoriesRequest (server workspace : string) : res NetRequest :=
  res_bind (StyleParam "workspace" workspace) (λ pathParam0,
  Ok (new_request "GET" server ("/repositories/" +:+ pathParam0))).
Definition NewPostRepositoryRequestWithBody (server workspace repoSlug contentType : string) (body : json)
  : res NetRequest :=
  res_bind (StyleParam "workspace" workspace) (λ pathParam0,
  res_bind (StyleParam "repo_slug" repoSlug) (λ pathParam1,
  Ok (with_body contentType body
        (new_request "POST" server ("/repositories/" +:+ pathParam0 +:+ "/" +:+ pathParam1))))).
(** [Repository.MarshalJSON] of a value that has these two fields only; the type is always written. *)
Definition repository_json (ty : string) (isPrivate : bool) : json :=
  JObj [("is_private", JBool isPrivate); ("type", JStr ty)].
Definition NewPostRepositoryRequest (server workspace repoSlug : string) (body : json) : res NetRequest :=
  NewPostRepositoryRequestWithBody server workspace repoSlug "application/json" body.

(** The methods of [Client] share their tail. *)
Definition send (c : Client) (req : res NetRequest) (reqEditors : list RequestEditorFn) : res NetResponse :=
  res_bind req (λ req, res_bind (applyEditors c req reqEditors) (Do c)).
Definition GetHooks (c : Client) (workspace repoSlug : string) : list RequestEditorFn → res NetResponse :=
  send c (NewGetHooksRequest (Server c) workspace repoSlug).
Definition PostHooks (c : Client) (workspace repoSlug : string) : list RequestEditorFn → res NetResponse :=
  send c (NewPostHooksRequest (Server c) workspace repoSlug).
Definition DeleteHook (c : Client) (workspace repoSlug uid : string) : list RequestEditorFn → res NetResponse :=
  send c (NewDeleteHookRequest (Server c) workspace repoSlug uid).
Definition GetHook (c : Client) (workspace repoSlug uid : string) : list RequestEditorFn → res NetResponse :=
  send c (NewGetHookRequest (Server c) workspace repoSlug uid).
Definition GetRepositories (c : Client) (workspace : string) : list RequestEditorFn → res NetResponse :=
  send c (NewGetRepositoriesRequest (Server c) workspace).
Definition PostRepository (c : Client) (workspace repoSlug : string) (body : json)
  : list RequestEditorFn → res NetResponse :=
  send c (NewPostRepositoryRequest (Server c) workspace repoSlug body).
End Requests.

(** ** Decoding *)

(** The pointer a text member was read into, which was [cur]; [null] makes it nil. *)
Definition read_text (m : gmap string json) (key : string) (cur : option string) : option (option string) :=
  match m !! key with
  | Some JNull => Some None
  | Some (JStr s) => Some (Some s)
  | Some _ => None
  | None => Some cur
  end.

(** [WebhookSubscription.UnmarshalJSON] into a value that has [cur]. *)
Definition decode_webhook (cur : BitbucketHook) (j : json) : option BitbucketHook :=
  object ← raw_members j;
  _ ← guard (decodable WebhookSubscription j);
  url ← read_text object "url" (bh_Url cur);
  uuid ← read_text object "uuid" (bh_Uuid cur);
  Some {| bh_Uuid := uuid; bh_Url := url |}.
Definition no_hook : BitbucketHook := {| bh_Uuid := None; bh_Url := None |}.

(** [Repository.UnmarshalJSON] into a value with the full name [cur]. *)
Definition decode_repository (cur : option string) (j : json) : option (option string) :=
  object ← raw_members j;
  _ ← guard (decodable Repository j);
  read_text object "full_name" cur.

(** [Error.UnmarshalJSON], as far as it fails. *)
Definition decode_error (j : json) : option unit := guard (decodable Error j).

Section Page.
Context {A : Type} (zero : A) (decode : A → json → option A).

(** Elements are decoded into what the backing array holds. *)
Fixpoint decode_elements (backing : list A) (l : list json) : option (list A) :=
  match l with
  | [] => Some backing
  | j :: l' =>
    v ← decode (default zero (head backing)) j;
    rest ← decode_elements (tail backing) l';
    Some (v :: rest)
  end.
Definition decode_values (cur : option (list A * nat)) (j : json) : option (option (list A * nat)) :=
  match j with
  | JNull => Some None
  | JArr [] => Some (Some ([], 0%nat))
  | JArr l => b ← decode_elements (default [] (fst <$> cur)) l; Some (Some (b, length l))
  | _ => None
  end.

(** One member decoded into a [PaginatedWebhookSubscriptions] or [PaginatedRepositories]. *)
Definition decode_page_field (cur : option (list A * nat)) (kv : string * json) : option (option (list A * nat)) :=
  let '(k, v) := kv in
  if is_field "next" k || is_field "previous" k then _ ← guard (decodes decodable Text v); Some cur
  else if is_field "page" k || is_field "pagelen" k || is_field "size" k then
    _ ← guard (decodes decodable Int v); Some cur
  else if is_field "values" k then decode_values cur v
  else Some cur.
(** The [Values] of the page. *)
Definition decode_page (j : json) : option (option (list A)) :=
  match j with
  | JNull => Some None
  | JObj l =>
    values ← foldl (λ acc kv, cur ← acc; decode_page_field cur kv) (Some None) l;
    Some ((λ '(b, n), take n b) <$> values)
  | _ => None
  end.
End Page.
Definition decode_webhooks : json → option (option (list BitbucketHook)) := decode_page no_hook decode_webhook.
Definition decode_repositories : json → option (option (list (option string))) :=
  decode_page None decode_repository.

(** ** Responses *)

Section Responses.
Context {X : Externals}.

(** [json.Unmarshal] of the body into a variable of the named type. *)
Definition unmarshal {A} (target : string) (d : json → option A) (body : string) : res A :=
  match parse_json body ≫= d with
  | Some dest => Ok dest
  | None => Err (ENew (Unmarshal_error target body))
  end.
(** [strings.Contains(rsp.Header.Get("Content-Type"), "json")] and the status. *)
Definition json_with (status : Z) (rsp : NetResponse) : bool :=
  str_contains "json" (np_ContentType rsp) && bool_decide (np_StatusCode rsp = status).
Definition response {T} (rsp : NetResponse) (body : string) (JSON : option T) : BitbucketResponse T :=
  {| br_StatusCode := np_StatusCode rsp; br_Status := np_Status rsp; br_Body := body; br_JSON := JSON |}.
(** A case of the switch that only matters when it fails. *)
Definition error_case {T} (rsp : NetResponse) (body : string) : res (BitbucketResponse T) :=
  res_bind (unmarshal "generated.Error" decode_error body) (λ _, Ok (response rsp body None)).

Definition ParseGetHooksResponse (rsp : NetResponse) : res (BitbucketResponse (option (list BitbucketHook))) :=
  res_bind (np_Body rsp) (λ body,
  if json_with 200 rsp then
    res_bind (unmarshal "generated.PaginatedWebhookSubscriptions" decode_webhooks body) (λ dest,
    Ok (response rsp body (Some dest)))
  else if json_with 403 rsp then error_case rsp body
  else if json_with 404 rsp then error_case rsp body
  else Ok (response rsp body None)).

Definition ParsePostHooksResponse (rsp : NetResponse) : res (BitbucketResponse BitbucketHook) :=
  res_bind (np_Body rsp) (λ body,
  if json_with 201 rsp then
    res_bind (unmarshal "generated.WebhookSubscription" (decode_webhook no_hook) body) (λ dest,
    Ok (response rsp body (Some dest)))
  else if json_with 403 rsp then error_case rsp body
  else if json_with 404 rsp then error_case rsp body
  else Ok (response rsp body None)).

Definition ParseDeleteHookResponse (rsp : NetResponse) : res (BitbucketResponse unit) :=
  res_bind (np_Body rsp) (λ body,
  if json_with 403 rsp then error_case rsp body
  else if json_with 404 rsp then error_case rsp body
  else Ok (response rsp body None)).

Definition ParseGetHookResponse (rsp : NetResponse) : res (BitbucketResponse BitbucketHook) :=
  res_bind (np_Body rsp) (λ body,
  if json_with 200 rsp then
    res_bind (unmarshal "generated.WebhookSubscription" (decode_webhook no_hook) body) (λ dest,
    Ok (response rsp body (Some dest)))
  else if json_with 404 rsp then error_case rsp body
  else Ok (response rsp body None)).

Definition ParseGetRepositoriesResponse (rsp : NetResponse)
  : res (BitbucketResponse (option (list (option string)))) :=
  res_bind (np_Body rsp) (λ body,
  if json_with 200 rsp then
    res_bind (unmarshal "generated.PaginatedRepositories" decode_repositories body) (λ dest,
    Ok (response rsp body (Some dest)))
  else if json_with 404 rsp then error_case rsp body
  else if json_with 410 rsp then error_case rsp body
  else Ok (response rsp body None)).

Definition ParsePostRepositoryResponse (rsp : NetResponse) : res (BitbucketResponse unit) :=
  res_bind (np_Body rsp) (λ body,
  if json_with 200 rsp then
    res_bind (unmarshal "generated.Repository" (decode_repository None) body) (λ _,
    Ok (response rsp body (Some tt)))
  else if json_with 400 rsp then error_case rsp body
  else if json_with 401 rsp then error_case rsp body
  else Ok (response rsp body None)).

Definition GetRepositoriesWithResponse (c : Client) (workspace : string) (reqEditors : list RequestEditorFn)
  : res (BitbucketResponse (option (list (option string)))) :=
  res_bind (GetRepositories c workspace reqEditors) ParseGetRepositoriesResponse.
Definition PostRepositoryWithResponse (c : Client) (workspace repoSlug : string) (body : json)
  (reqEditors : list RequestEditorFn) : res (BitbucketResponse unit) :=
  res_bind (PostRepository c workspace repoSlug body reqEditors) ParsePostRepositoryResponse.
Definition GetHooksWithResponse (c : Client) (workspace repoSlug : string) (reqEditors : list RequestEditorFn)
  : res (BitbucketResponse (option (list BitbucketHook))) :=
  res_bind (GetHooks c workspace repoSlug reqEditors) ParseGetHooksResponse.
Definition PostHooksWithResponse (c : Client) (workspace repoSlug : string) (reqEditors : list RequestEditorFn)
  : res (BitbucketResponse BitbucketHook) :=
  res_bind (PostHooks c workspace repoSlug reqEditors) ParsePostHooksResponse.
Definition DeleteHookWithResponse (c : Client) (workspace repoSlug uid : string) (reqEditors : list RequestEditorFn)
  : res (BitbucketResponse unit) :=
  res_bind (DeleteHook c workspace repoSlug uid reqEditors) ParseDeleteHookResponse.
Definition GetHookWithResponse (c : Client) (workspace repoSlug uid : string) (reqEditors : list RequestEditorFn)
  : res (BitbucketResponse BitbucketHook) :=
  res_bind (GetHook c workspace repoSlug uid reqEditors) ParseGetHookResponse.

(** ** The client of the operator *)

(** [req.Header.Set("Authorization", ..)] of [BasicTokenAuthProvider.Intercept], and the editors of
    [CreateWebHook], which only sets the body, and of [ProjectExists]. *)
Definition set_authorization (auth : string) : RequestEditorFn := λ req,
  Ok {| nq_Method := nq_Method req; nq_Server := nq_Server req; nq_Path := nq_Path req;
        nq_RawQuery := nq_RawQuery req;
        nq_Header := ("Authorization", auth)
          :: List.filter (λ h, negb (bool_decide (h.1 = "Authorization"))) (nq_Header req);
        nq_Body := nq_Body req |}.
Definition set_body (body : json) : RequestEditorFn := λ req,
  Ok {| nq_Method := nq_Method req; nq_Server := nq_Server req; nq_Path := nq_Path req;
        nq_RawQuery := nq_RawQuery req; nq_Header := nq_Header req; nq_Body := Some body |}.
Definition set_query (query : string) : RequestEditorFn := λ req,
  Ok {| nq_Method := nq_Method req; nq_Server := nq_Server req; nq_Path := nq_Path req;
        nq_RawQuery := query; nq_Header := nq_Header req; nq_Body := nq_Body req |}.

Definition bitbucket_url : string := "https://api.bitbucket.org/2.0".
Definition client_of (Do : NetRequest → res NetResponse) (auth : string) : Client :=
  NewClient Do bitbucket_url [set_authorization auth].

(** The answer to a call of the generated client. *)
Definition serve_bitbucket (Do : NetRequest → res NetResponse) {R} (c : bitbucket_call R) : option R :=
  match c in bitbucket_call R return option R with
  | BPostHook auth owner repo body => Some (PostHooksWithResponse (client_of Do auth) owner repo [set_body body])
  | BGetHook auth owner repo uid => Some (GetHookWithResponse (client_of Do auth) owner repo uid [])
  | BGetHooks auth owner repo => Some (GetHooksWithResponse (client_of Do auth) owner repo [])
  | BDeleteHook auth owner repo uid => Some (DeleteHookWithResponse (client_of Do auth) owner repo uid [])
  | BPostRepository auth owner repo ty isPrivate =>
    Some (PostRepositoryWithResponse (client_of Do auth) owner repo (repository_json ty isPrivate) [])
  | BGetRepositories auth owner query =>
    Some (GetRepositoriesWithResponse (client_of Do auth) owner [set_query query])
  | BNewUUID => None
  end.

(** Calls of the generated client are answered over HTTP; a new UUID is any string. *)
Definition served (Do : NetRequest → res NetResponse) : ∀ R, call R → R → Prop := λ R c,
  match c in call R return R → Prop with
  | CBitbucket bc => λ r, ∀ a, serve_bitbucket Do bc = Some a → r = a
  | _ => λ _, True
  end.
End Responses.

(** ** The operations on the wire *)

(** The repository was created: one of the two statuses, and with 200 an object that decodes, if
    the answer is JSON. *)
Definition repository_created {X : Externals} (rsp : NetResponse) : Prop :=
  ∃ body, np_Body rsp = Ok body ∧ createObjectStatusOk (np_StatusCode rsp) = true
  ∧ (json_with 200 rsp = true → is_Some (parse_json body ≫= decode_repository None)).

(** The page of a JSON answer names the repository or not; no other answer with the status does. *)
Definition repository_listed {X : Externals} (name : string) (rsp : NetResponse) (found : bool) : Prop :=
  ∃ body, np_Body rsp = Ok body ∧ np_StatusCode rsp = StatusOK
  ∧ if str_contains "json" (np_ContentType rsp)
    then ∃ page, parse_json body ≫= decode_repositories = Some page ∧ (found = true ↔ Some name ∈ default [] page)
    else found = false.

(** The answer carries the webhook: the status, JSON and both members. *)
Definition hook_in {X : Externals} (status : Z) (rsp : NetResponse) (hook : WebHook) : Prop :=
  ∃ body o, np_Body rsp = Ok body ∧ json_with status rsp = true
  ∧ parse_json body ≫= decode_webhook no_hook = Some o
  ∧ bh_Uuid o = Some (wh_ID hook) ∧ bh_Url o = Some (wh_URL hook).

(** A webhook is deleted when the answer is 204, and reported absent when it is 404, unless the
    answer is JSON that is no error object. *)
Definition delete_says {X : Externals} (rsp : NetResponse) (body : string) (r : res unit) : Prop :=
  (np_StatusCode rsp = StatusNoContent → r = Ok tt)
  ∧ (np_StatusCode rsp = StatusNotFound →
     if str_contains "json" (np_ContentType rsp) && negb (bool_decide (is_Some (parse_json body ≫= decode_error)))
     then r = Err (EWrap "failed to delete Bitbucket web hook: " (ENew (Unmarshal_error "generated.Error" body)))
     else r = Err (EWrap "failed to delete Bitbucket web hook: " (ESentinel ErrWebHookNotFound))).

Lemma json_with_status status rsp : json_with status rsp = true → np_StatusCode rsp = status.
Proof. unfold json_with. intros [_ H]%andb_true_iff. by apply bool_decide_eq_true in H. Qed.

Section Parse.
Context {X : Externals}.

Lemma unmarshal_Ok {A} target (d : json → option A) body a :
  unmarshal target d body = Ok a ↔ parse_json body ≫= d = Some a.
Proof. unfold unmarshal. destruct (parse_json body ≫= d); naive_solver. Qed.

Lemma bitbucket_webhook_Ok {T} what (r : BitbucketResponse T) o hook :
  bitbucket_webhook what r o = Ok hook ↔
  ∃ b, o = Some b ∧ bh_Uuid b = Some (wh_ID hook) ∧ bh_Url b = Some (wh_URL hook).
Proof.
  destruct hook as [id url], o as [[[uuid|] [u|]]|]; cbn; naive_solver.
Qed.

Lemma error_case_Ok {T} rsp body (r : BitbucketResponse T) : error_case rsp body = Ok r → r = response rsp body None.
Proof. unfold error_case. destruct (unmarshal _ _ body); naive_solver. Qed.
(** The cases of a parser after the expected one leave no object. *)
Lemma other_cases_Ok {T} (b1 b2 : bool) rsp body (r : BitbucketResponse T) :
  (if b1 then error_case rsp body else if b2 then error_case rsp body else Ok (response rsp body None)) = Ok r →
  r = response rsp body None.
Proof. destruct b1, b2; by first [apply error_case_Ok | intros [= <-]]. Qed.

Lemma post_hook_iff rsp what hook :
  (∃ r, ParsePostHooksResponse rsp = Ok r ∧ createObjectStatusOk (br_StatusCode r) = true
        ∧ bitbucket_webhook what r (br_JSON r) = Ok hook) ↔ hook_in 201 rsp hook.
Proof.
  unfold ParsePostHooksResponse. split.
  - intros (r&Hp&_&(b&Hb&Hid&Hurl)%bitbucket_webhook_Ok). destruct (np_Body rsp) as [body|e|w] eqn:Hbody; [|done..].
    cbn [res_bind] in Hp. destruct (json_with 201 rsp) eqn:Hj; [|by apply other_cases_Ok in Hp as ->].
    destruct (unmarshal _ _ body) as [o|e|w] eqn:Ho; [|done..]. injection Hp as <-. injection Hb as <-.
    exists body, o. by rewrite <- unmarshal_Ok.
  - intros (body&o&Hbody&Hj&Ho&Hid&Hurl). exists (response rsp body (Some o)).
    rewrite Hbody. cbn [res_bind]. rewrite Hj. apply (unmarshal_Ok "generated.WebhookSubscription") in Ho as ->.
    split_and!; [done|cbn; by rewrite (json_with_status _ _ Hj)|]. apply bitbucket_webhook_Ok. by exists o.
Qed.
Lemma get_hook_iff rsp what hook :
  (∃ r, ParseGetHookResponse rsp = Ok r ∧ br_StatusCode r = StatusOK
        ∧ bitbucket_webhook what r (br_JSON r) = Ok hook) ↔ hook_in 200 rsp hook.
Proof.
  unfold ParseGetHookResponse. split.
  - intros (r&Hp&_&(b&Hb&Hid&Hurl)%bitbucket_webhook_Ok). destruct (np_Body rsp) as [body|e|w] eqn:Hbody; [|done..].
    cbn [res_bind] in Hp. destruct (json_with 200 rsp) eqn:Hj; [|by apply (other_cases_Ok _ false) in Hp as ->].
    destruct (unmarshal _ _ body) as [o|e|w] eqn:Ho; [|done..]. injection Hp as <-. injection Hb as <-.
    exists body, o. by rewrite <- unmarshal_Ok.
  - intros (body&o&Hbody&Hj&Ho&Hid&Hurl). exists (response rsp body (Some o)).
    rewrite Hbody. cbn [res_bind]. rewrite Hj. apply (unmarshal_Ok "generated.WebhookSubscription") in Ho as ->.
    split_and!; [done|cbn; by rewrite (json_with_status _ _ Hj)|]. apply bitbucket_webhook_Ok. by exists o.
Qed.

(** A webhook of a listing. *)
Definition names_hook (o : BitbucketHook) (h : option WebHook) : Prop :=
  ∃ hook, h = Some hook ∧ bh_Uuid o = Some (wh_ID hook) ∧ bh_Url o = Some (wh_URL hook).
Lemma bitbucket_webhooks_Ok {T} (r : BitbucketResponse T) l hooks :
  bitbucket_webhooks r l = Ok hooks ↔ Forall2 names_hook l hooks.
Proof.
  revert hooks. induction l as [|o l IH]; intros hooks; cbn [bitbucket_webhooks].
  { split; [intros [= <-]; constructor|by intros ->%Forall2_nil_inv_l]. }
  pose proof (bitbucket_webhook_Ok "get Bitbucket web hooks" r (Some o)) as Hw.
  destruct (bitbucket_webhook _ r (Some o)) as [w|e|w] eqn:E; cbn [res_bind].
  - destruct (proj1 (Hw w) eq_refl) as (b&[= <-]&Hu&Hl). split.
    + destruct (bitbucket_webhooks r l) as [ws|e|why]; [|done..]. intros [= <-].
      constructor; [by exists w|by apply IH].
    + intros (h&ws&(w'&->&Hu'&Hl')&Hrest&->)%Forall2_cons_inv_l. apply IH in Hrest as ->. cbn. do 3 f_equal.
      destruct w as [id url], w' as [id' url']. cbn in *. by simplify_eq.
  - split; [done|]. intros (h&ws&(w'&->&Hu'&Hl')&_)%Forall2_cons_inv_l. assert (H : Err e = Ok w') by (apply Hw; by exists o). done.
  - split; [done|]. intros (h&ws&(w'&->&Hu'&Hl')&_)%Forall2_cons_inv_l. assert (H : Panic w = Ok w') by (apply Hw; by exists o). done.
Qed.

(** The page of a JSON answer; any other answer with the status lists nothing. *)
Definition hooks_in (rsp : NetResponse) (hooks : list (option WebHook)) : Prop :=
  ∃ body, np_Body rsp = Ok body ∧ np_StatusCode rsp = StatusOK
  ∧ if str_contains "json" (np_ContentType rsp)
    then ∃ page, parse_json body ≫= decode_webhooks = Some page ∧ Forall2 names_hook (default [] page) hooks
    else hooks = [].
Lemma list_hooks_iff rsp hooks :
  (∃ r, ParseGetHooksResponse rsp = Ok r ∧ br_StatusCode r = StatusOK ∧ match br_JSON r with
     | Some (Some l) => bitbucket_webhooks r l | _ => Ok [] end = Ok hooks) ↔ hooks_in rsp hooks.
Proof.
  unfold ParseGetHooksResponse, hooks_in, json_with. split.
  - intros (r&Hp&Hs&Hl). destruct (np_Body rsp) as [body|e|w]; [|done..]. cbn [res_bind] in Hp.
    exists body. split; [done|]. destruct (str_contains _ _) eqn:Hc; cbn [andb] in Hp.
    + case_bool_decide as H200; [|by apply other_cases_Ok in Hp as ->]. split; [exact H200|].
      destruct (unmarshal _ decode_webhooks body) as [page|e|w] eqn:Hd; [|done..]. injection Hp as <-.
      exists page. split; [by apply unmarshal_Ok in Hd|]. cbn in Hl.
      destruct page as [l|]; [by apply bitbucket_webhooks_Ok in Hl|]. injection Hl as <-. constructor.
    + injection Hp as <-. cbn in Hl. by injection Hl as <-.
  - intros (body&Hb&Hs&Hl). rewrite Hb. cbn [res_bind]. destruct (str_contains _ _); cbn [andb].
    + destruct Hl as (page&Hd&Hf). rewrite bool_decide_true by exact Hs.
      apply (unmarshal_Ok "generated.PaginatedWebhookSubscriptions") in Hd as ->.
      exists (response rsp body (Some page)). split_and!; [done|exact Hs|]. cbn.
      destruct page as [l|]; [by apply bitbucket_webhooks_Ok|]. by apply Forall2_nil_inv_l in Hf as ->.
    + subst hooks. by exists (response rsp body None).
Qed.

Lemma create_repository_iff rsp :
  (∃ r, ParsePostRepositoryResponse rsp = Ok r ∧ createObjectStatusOk (br_StatusCode r) = true)
  ↔ repository_created rsp.
Proof.
  unfold ParsePostRepositoryResponse, repository_created. destruct (np_Body rsp) as [body|e|w]; [|naive_solver..].
  cbn [res_bind]. destruct (json_with 200 rsp) eqn:Hj.
  - unfold unmarshal. destruct (parse_json body ≫= _) as [o|] eqn:Ho; cbn [res_bind].
    + split; [intros (r&[= <-]&Hs)|intros (?&_&Hs&_)].
      * exists body. split_and!; [done|exact Hs|]. rewrite Ho. by eexists.
      * eexists. split; [done|exact Hs].
    + split; [by intros (?&?&_)|intros (?&[= <-]&_&H)]. rewrite Ho in H. by destruct (H eq_refl).
  - split.
    + intros (r&Hr&Hs). apply other_cases_Ok in Hr as ->. exists body. split_and!; [done|exact Hs|congruence].
    + intros (?&_&Hs&_). exists (response rsp body None). split; [|done].
      unfold json_with. unfold createObjectStatusOk, StatusOK, StatusCreated in Hs.
      rewrite !(bool_decide_false (np_StatusCode rsp = 400)), !(bool_decide_false (np_StatusCode rsp = 401)), !andb_false_r;
        [done|..]; intros ?; destruct (np_StatusCode rsp); naive_solver.
Qed.
Lemma list_repositories_iff rsp name found :
  (∃ r, ParseGetRepositoriesResponse rsp = Ok r ∧ br_StatusCode r = StatusOK ∧ match br_JSON r with
     | Some (Some values) => Ok (existsb (λ v, bool_decide (v = Some name)) values) | _ => Ok false end = Ok found)
  ↔ repository_listed name rsp found.
Proof.
  assert (Hex : ∀ b l, existsb (λ v, bool_decide (v = Some name)) l = b ↔ (b = true ↔ Some name ∈ l)).
  { intros b l. rewrite Bool.eq_iff_eq_true, existsb_true_iff. setoid_rewrite bool_decide_eq_true. naive_solver. }
  unfold ParseGetRepositoriesResponse, repository_listed, json_with. split.
  - intros (r&Hp&Hs&Hl). destruct (np_Body rsp) as [body|e|w]; [|done..]. cbn [res_bind] in Hp.
    exists body. split; [done|]. destruct (str_contains _ _) eqn:Hc; cbn [andb] in Hp.
    + case_bool_decide as H200; [|by apply other_cases_Ok in Hp as ->]. split; [exact H200|].
      destruct (unmarshal _ decode_repositories body) as [page|e|w] eqn:Hd; [|done..]. injection Hp as <-.
      exists page. split; [by apply unmarshal_Ok in Hd|]. cbn in Hl. destruct page as [l|]; injection Hl as Hl; [by apply Hex|].
      subst found. split; [done|]. by intros ?%elem_of_nil.
    + injection Hp as <-. cbn in Hl. by injection Hl as <-.
  - intros (body&Hb&Hs&Hl). rewrite Hb. cbn [res_bind]. destruct (str_contains _ _); cbn [andb].
    + destruct Hl as (page&Hd&Hf). rewrite bool_decide_true by exact Hs.
      apply (unmarshal_Ok "generated.PaginatedRepositories") in Hd as ->.
      exists (response rsp body (Some page)). split_and!; [done|exact Hs|]. cbn.
      destruct page as [l|]; f_equal; [by apply Hex|]. symmetry. apply not_true_iff_false.
      by intros ?%Hf%elem_of_nil.
    + subst found. by exists (response rsp body None).
Qed.
End Parse.

Section Wire.
Context {X : Externals} (Do : NetRequest → res NetResponse).
Context (token projectID owner repo p0 p1 : string).
Context (Hid : parseProjectID projectID = Ok (owner, repo)).
Context (H0 : StyleParam "workspace" owner = Ok p0) (H1 : StyleParam "repo_slug" repo = Ok p1).
#[local] Abbreviation wire := (assuming (served Do)).

(** The request of an operation. *)
Definition hook_request (method path : string) (body : option json) : NetRequest :=
  {| nq_Method := method; nq_Server := "https://api.bitbucket.org/2.0/"; nq_Path := path; nq_RawQuery := "";
     nq_Header := [("Authorization", "Basic " +:+ token)]; nq_Body := body |}.
Definition repository_request (body : json) : NetRequest :=
  {| nq_Method := "POST"; nq_Server := "https://api.bitbucket.org/2.0/";
     nq_Path := "./repositories/" +:+ p0 +:+ "/" +:+ p1; nq_RawQuery := "";
     nq_Header := [("Authorization", "Basic " +:+ token); ("Content-Type", "application/json")];
     nq_Body := Some body |}.
Definition search_request : NetRequest :=
  {| nq_Method := "GET"; nq_Server := "https://api.bitbucket.org/2.0/"; nq_Path := "./repositories/" +:+ p0;
     nq_RawQuery := slug_query repo; nq_Header := [("Authorization", "Basic " +:+ token)]; nq_Body := None |}.
Definition hooks_ref : string := "./repositories/" +:+ p0 +:+ "/" +:+ p1 +:+ "/hooks".
Definition hook_ref (p2 : string) : string := hooks_ref +:+ "/" +:+ p2.

Lemma list_response : GetHooksWithResponse (client_of Do (Intercept token)) owner repo [] =
  res_bind (Do (hook_request "GET" hooks_ref None)) ParseGetHooksResponse.
Proof. unfold GetHooksWithResponse, GetHooks, send, NewGetHooksRequest, hooks_path. by rewrite H0, H1. Qed.
Lemma create_response body : PostHooksWithResponse (client_of Do (Intercept token)) owner repo [set_body body] =
  res_bind (Do (hook_request "POST" hooks_ref (Some body))) ParsePostHooksResponse.
Proof. unfold PostHooksWithResponse, PostHooks, send, NewPostHooksRequest, hooks_path. by rewrite H0, H1. Qed.

Lemma get_response uid p2 : StyleParam "uid" uid = Ok p2 →
  GetHookWithResponse (client_of Do (Intercept token)) owner repo uid [] =
  res_bind (Do (hook_request "GET" (hook_ref p2) None)) ParseGetHookResponse.
Proof.
  intros H2. unfold GetHookWithResponse, GetHook, send, NewGetHookRequest, hook_path, hook_ref, hooks_ref.
  rewrite H0, H1, H2. cbn. by rewrite !app_assoc_str.
Qed.
Lemma delete_response uid p2 : StyleParam "uid" uid = Ok p2 →
  DeleteHookWithResponse (client_of Do (Intercept token)) owner repo uid [] =
  res_bind (Do (hook_request "DELETE" (hook_ref p2) None)) ParseDeleteHookResponse.
Proof.
  intros H2. unfold DeleteHookWithResponse, DeleteHook, send, NewDeleteHookRequest, hook_path, hook_ref, hooks_ref.
  rewrite H0, H1, H2. cbn. by rewrite !app_assoc_str.
Qed.

Lemma create_repository_response body :
  PostRepositoryWithResponse (client_of Do (Intercept token)) owner repo body [] =
  res_bind (Do (repository_request body)) ParsePostRepositoryResponse.
Proof.
  unfold PostRepositoryWithResponse, PostRepository, send, NewPostRepositoryRequest, NewPostRepositoryRequestWithBody.
  by rewrite H0, H1.
Qed.
Lemma search_response :
  GetRepositoriesWithResponse (client_of Do (Intercept token)) owner [set_query (slug_query repo)] =
  res_bind (Do search_request) ParseGetRepositoriesResponse.
Proof. unfold GetRepositoriesWithResponse, GetRepositories, send, NewGetRepositoriesRequest. by rewrite H0. Qed.

(** What an operation makes of the answer to its only call on webhooks. *)
Lemma wp_answered {T A} what (c : bitbucket_call (res (BitbucketResponse T))) answer
  (good : BitbucketResponse T → bool) (out : BitbucketResponse T → res A) (k : BitbucketResponse T → M unit A) :
  serve_bitbucket Do c = Some answer → (∀ r, wp wire (k r) tt tt (λ a _ _, a = out r)) →
  wp wire (r <- bitbucket_respond what c ;; if negb (good r) then bitbucket_failed what r else k r) tt tt
    (λ a _ _, ∀ x, a = Ok x ↔ ∃ r, answer = Ok r ∧ good r = true ∧ out r = Ok x).
Proof.
  intros Hc Hk. unfold bitbucket_respond, bitbucket_failed. wp_to_call. wp_step; [done|].
  intros r Hr. rewrite (Hr _ Hc). destruct answer as [rsp|e|w]; cbn [step]; [|repeat wp_step; naive_solver..].
  destruct (good rsp) eqn:Hg; cbn [negb]; [|wp_go; split; [done|intros (r'&[= <-]&?&_); congruence]].
  eapply wp_mono; [apply Hk|]. cbn. intros a ? ? -> x. split; [by exists rsp|by intros (r'&[= <-]&_&?)].
Qed.

Lemma wp_hook_create secret url skipTLS :
  wp wire (Bitbucket_CreateWebHook token projectID secret url skipTLS) tt tt (λ r _ _, ∃ uuid, ∀ hook,
    r = Ok hook ↔ ∃ rsp, Do (hook_request "POST" hooks_ref (Some (bitbucket_hook_body uuid secret url skipTLS))) = Ok rsp
                         ∧ hook_in 201 rsp hook).
Proof.
  unfold Bitbucket_CreateWebHook. rewrite Hid. do 2 wp_step. wp_to_call. wp_step; [done|]. intros uuid _.
  eapply wp_mono; [eapply wp_answered with (out := λ r, bitbucket_webhook "create Bitbucket web hook" r (br_JSON r)); [done|by intros r; wp_step]|].
  cbn beta. intros r ? ? Hr. exists uuid. intros hook. rewrite Hr, create_response. destruct (Do _) as [rsp|e|w]; cbn; [|naive_solver..].
  rewrite post_hook_iff. naive_solver.
Qed.
Lemma wp_hook_get uid p2 : StyleParam "uid" uid = Ok p2 →
  wp wire (Bitbucket_GetWebHook token projectID uid) tt tt (λ r _ _, ∀ hook,
    r = Ok hook ↔ ∃ rsp, Do (hook_request "GET" (hook_ref p2) None) = Ok rsp ∧ hook_in 200 rsp hook).
Proof.
  intros H2. unfold Bitbucket_GetWebHook. rewrite Hid. do 2 wp_step.
  eapply wp_mono; [eapply wp_answered with (out := λ r, bitbucket_webhook "get Bitbucket web hook" r (br_JSON r)); [done|by intros r; wp_step]|].
  cbn beta. intros r ? ? Hr hook. rewrite Hr, (get_response _ _ H2). destruct (Do _) as [rsp|e|w]; cbn; [|naive_solver..].
  setoid_rewrite bool_decide_eq_true. rewrite get_hook_iff. naive_solver.
Qed.
Lemma wp_hook_list :
  wp wire (Bitbucket_GetWebHooks token projectID) tt tt (λ r _ _, ∀ hooks,
    r = Ok hooks ↔ ∃ rsp, Do (hook_request "GET" hooks_ref None) = Ok rsp ∧ hooks_in rsp hooks).
Proof.
  unfold Bitbucket_GetWebHooks. rewrite Hid. do 2 wp_step.
  eapply wp_mono; [eapply wp_answered with (out := λ r, match br_JSON r with
     | Some (Some l) => bitbucket_webhooks r l | _ => Ok [] end); [done|]|].
  { intros r. by destruct (br_JSON r) as [[l|]|]; wp_step. }
  cbn beta. intros r ? ? Hr hooks. rewrite Hr, list_response. destruct (Do _) as [rsp|e|w]; cbn; [|naive_solver..].
  setoid_rewrite bool_decide_eq_true. rewrite list_hooks_iff. naive_solver.
Qed.
Lemma wp_create_project isPrivate :
  wp wire (Bitbucket_CreateProject token projectID isPrivate) tt tt (λ r _ _,
    r = Ok tt ↔ ∃ rsp, Do (repository_request (repository_json "repository" isPrivate)) = Ok rsp
                       ∧ repository_created rsp).
Proof.
  unfold Bitbucket_CreateProject. rewrite Hid. do 2 wp_step.
  eapply wp_mono; [eapply wp_answered with (out := λ r, Ok tt); [done|by intros r; wp_step]|].
  cbn beta. intros r ? ? Hr. rewrite Hr, create_repository_response. destruct (Do _) as [rsp|e|w]; cbn; [|naive_solver..].
  setoid_rewrite <- create_repository_iff. naive_solver.
Qed.
Lemma wp_project_exists :
  wp wire (Bitbucket_ProjectExists token projectID) tt tt (λ r _ _, ∀ found,
    r = Ok found ↔ ∃ rsp, Do search_request = Ok rsp ∧ repository_listed projectID rsp found).
Proof.
  unfold Bitbucket_ProjectExists. rewrite Hid. do 2 wp_step.
  eapply wp_mono; [eapply wp_answered with (out := λ r, match br_JSON r with
     | Some (Some values) => Ok (existsb (λ v, bool_decide (v = Some projectID)) values) | _ => Ok false end); [done|]|].
  { intros r. by destruct (br_JSON r) as [[l|]|]; wp_step. }
  cbn beta. intros r ? ? Hr found. rewrite Hr, search_response. destruct (Do _) as [rsp|e|w]; cbn; [|naive_solver..].
  setoid_rewrite bool_decide_eq_true. rewrite list_repositories_iff. naive_solver.
Qed.
Lemma parse_delete rsp body : np_Body rsp = Ok body →
  ParseDeleteHookResponse rsp =
    if (json_with 403 rsp || json_with 404 rsp) && negb (bool_decide (is_Some (parse_json body ≫= decode_error)))
    then Err (ENew (Unmarshal_error "generated.Error" body)) else Ok (response rsp body None).
Proof.
  intros Hb. unfold ParseDeleteHookResponse, error_case, unmarshal. rewrite Hb. cbn [res_bind].
  destruct (parse_json body ≫= decode_error), (json_with 403 rsp), (json_with 404 rsp); try done;
    rewrite bool_decide_true by done; done.
Qed.
Lemma delete_outcome rsp body r : np_Body rsp = Ok body →
  delete_says rsp body r → (r = Ok tt → np_StatusCode rsp = StatusNoContent) →
  (r = Ok tt ↔ ∃ rsp' body', Ok rsp = Ok rsp' ∧ np_Body rsp' = Ok body' ∧ np_StatusCode rsp' = StatusNoContent)
  ∧ ∀ rsp' body', Ok rsp = Ok rsp' → np_Body rsp' = Ok body' → delete_says rsp' body' r.
Proof.
  intros Hb Hd H. split; [split|].
  - intros Hr. exists rsp, body. auto.
  - intros (rsp'&body'&[= <-]&_&Hs). by apply Hd.
  - intros rsp' body' [= <-] Hb'. rewrite Hb in Hb'. by injection Hb' as <-.
Qed.
Lemma wp_hook_delete uid p2 : StyleParam "uid" uid = Ok p2 →
  wp wire (Bitbucket_DeleteWebHook token projectID uid) tt tt (λ r _ _,
    (r = Ok tt ↔ ∃ rsp body, Do (hook_request "DELETE" (hook_ref p2) None) = Ok rsp ∧ np_Body rsp = Ok body
                             ∧ np_StatusCode rsp = StatusNoContent)
    ∧ ∀ rsp body, Do (hook_request "DELETE" (hook_ref p2) None) = Ok rsp → np_Body rsp = Ok body →
      delete_says rsp body r).
Proof.
  intros H2. unfold Bitbucket_DeleteWebHook, bitbucket_respond, bitbucket_failed. rewrite Hid. do 2 wp_step.
  wp_to_call. wp_step; [done|]. intros r Hr. rewrite (Hr _ eq_refl), (delete_response _ _ H2).
  destruct (Do _) as [rsp|e|w]; cbn [res_bind step];
    [|repeat wp_step; (split; [split; [done|by intros (?&?&?&?)]|done])..].
  destruct (np_Body rsp) as [body|e|w] eqn:Hb.
  2,3: unfold ParseDeleteHookResponse; rewrite Hb; cbn; repeat wp_step;
    (split; [split; [done|intros (?&?&[= <-]&?&?); congruence]|intros ? ? [= <-]; congruence]).
  rewrite (parse_delete _ _ Hb). unfold json_with.
  destruct ((_ || _) && _) eqn:E; [|cbn [br_StatusCode response]; do 2 (case_bool_decide; cbn [negb])];
    repeat wp_step; apply (delete_outcome _ _ _ Hb); unfold delete_says, StatusNoContent, StatusNotFound in *;
    destruct (str_contains _ _), (bool_decide (is_Some _)); repeat case_bool_decide; cbn in E, H |- *;
    repeat split; intros; first [congruence | lia | done].
Qed.

(** C27: The operations of the Bitbucket provider, over HTTP: the requests they send, with the token,
    and on exactly which answers they succeed. A webhook is created only by an answer with status
    201: 200 passes the check of the status, but the generated parser reads no webhook from it.
    A listing that is not JSON lists nothing. A deletion is done when the answer is 204, and a 404
    says that the webhook is gone, unless its JSON body is no error object. A repository is
    created by a 201 whatever it carries, by a 200 unless it is JSON that does not decode; it
    exists when the page of an answer names it. *)
Theorem bitbucket_on_the_wire :
  (∀ secret url skipTLS,
     wp wire (Bitbucket_CreateWebHook token projectID secret url skipTLS) tt tt (λ r _ _, ∃ uuid, ∀ hook,
       r = Ok hook ↔ ∃ rsp,
         Do (hook_request "POST" hooks_ref (Some (bitbucket_hook_body uuid secret url skipTLS))) = Ok rsp
         ∧ hook_in 201 rsp hook))
  ∧ wp wire (Bitbucket_GetWebHooks token projectID) tt tt (λ r _ _, ∀ hooks,
      r = Ok hooks ↔ ∃ rsp, Do (hook_request "GET" hooks_ref None) = Ok rsp ∧ hooks_in rsp hooks)
  ∧ (∀ uid p2, StyleParam "uid" uid = Ok p2 →
      wp wire (Bitbucket_GetWebHook token projectID uid) tt tt (λ r _ _, ∀ hook,
        r = Ok hook ↔ ∃ rsp, Do (hook_request "GET" (hook_ref p2) None) = Ok rsp ∧ hook_in 200 rsp hook)
      ∧ wp wire (Bitbucket_DeleteWebHook token projectID uid) tt tt (λ r _ _,
          (r = Ok tt ↔ ∃ rsp body, Do (hook_request "DELETE" (hook_ref p2) None) = Ok rsp
                                   ∧ np_Body rsp = Ok body ∧ np_StatusCode rsp = StatusNoContent)
          ∧ ∀ rsp body, Do (hook_request "DELETE" (hook_ref p2) None) = Ok rsp → np_Body rsp = Ok body →
            delete_says rsp body r))
  ∧ (∀ isPrivate, wp wire (Bitbucket_CreateProject token projectID isPrivate) tt tt (λ r _ _,
      r = Ok tt ↔ ∃ rsp, Do (repository_request (repository_json "repository" isPrivate)) = Ok rsp
                         ∧ repository_created rsp))
  ∧ wp wire (Bitbucket_ProjectExists token projectID) tt tt (λ r _ _, ∀ found,
      r = Ok found ↔ ∃ rsp, Do search_request = Ok rsp ∧ repository_listed projectID rsp found).
Proof.
  split_and!.
  - apply wp_hook_create.
  - apply wp_hook_list.
  - intros uid p2 H2. split; [by apply wp_hook_get|by apply wp_hook_delete].
  - apply wp_create_project.
  - apply wp_project_exists.
Qed.
End Wire.

(** A server that knows one webhook and one repository. *)
Definition json_answer (body : string) : NetResponse :=
  {| np_StatusCode := 200; np_Status := "200 OK"; np_ContentType := "application/json"; np_Body := Ok body |}.
Definition one_hook_body : string :=
  "{" +:+ quoted "uuid" +:+ ":" +:+ quoted "h1" +:+ "," +:+ quoted "url" +:+ ":"
  +:+ quoted "https://ci.example.com" +:+ "}".
Definition one_repository_body : string :=
  "{" +:+ quoted "values" +:+ ":[{" +:+ quoted "full_name" +:+ ":" +:+ quoted "team/app" +:+ ","
  +:+ quoted "mainbranch" +:+ ":{" +:+ quoted "target" +:+ ":{" +:+ quoted "parents" +:+ ":[null]}}}]}".
Definition small_server (req : NetRequest) : res NetResponse :=
  if bool_decide (nq_Method req = "GET" ∧ nq_Path req = "./repositories/team/app/hooks/h1") then
    Ok (json_answer one_hook_body)
  else if bool_decide (nq_Path req = "./repositories/team") then Ok (json_answer one_repository_body)
  else Ok {| np_StatusCode := 404; np_Status := "404 Not Found"; np_ContentType := "text/plain"; np_Body := Ok "" |}.

(** A member of the wrong type in the latest commit of the main branch spoils the repository. *)
Example decode_repository_examples :
  map (λ parents, decode_repository None (JObj [("full_name", JStr "team/app");
    ("mainbranch", JObj [("target", JObj [("parents", parents)])])]))
    [JArr [JNull; JObj [("hash", JStr "c0ffee")]]; JArr [JObj [("hash", JBool true)]]; JStr "none"]
  = [Some (Some "team/app"); None; None].
Proof. vm_compute. reflexivity. Qed.

Lemma bitbucket_on_the_wire_witness :
  wp (assuming (served (X := reference) small_server))
    (Bitbucket_GetWebHook "token" "team/app" "h1") tt tt
    (λ r _ _, r = Ok {| wh_ID := "h1"; wh_URL := "https://ci.example.com" |})
  ∧ wp (assuming (served (X := reference) small_server))
    (Bitbucket_ProjectExists "token" "team/app") tt tt (λ r _ _, r = Ok true).
Proof.
  pose proof (bitbucket_on_the_wire (X := reference) small_server "token" "team/app" "team" "app"
    "team" "app" eq_refl eq_refl eq_refl) as (_&_&H&_&Hfound).
  destruct (H "h1" "h1" eq_refl) as [Hget _]. split.
  - eapply wp_mono; [exact Hget|]. cbn beta. intros r ? ? Hr. apply Hr.
    exists (json_answer one_hook_body). split; [reflexivity|].
    exists one_hook_body, {| bh_Uuid := Some "h1"; bh_Url := Some "https://ci.example.com" |}.
    split_and!; reflexivity.
  - eapply wp_mono; [exact Hfound|]. cbn beta. intros r ? ? Hr. apply Hr.
    exists (json_answer one_repository_body). split; [reflexivity|]. exists one_repository_body.
    split; [reflexivity|]. split; [reflexivity|]. exists (Some [Some "team/app"]). split; [reflexivity|].
    split; [|reflexivity]. intros _. by apply list_elem_of_singleton.
Defined.
