(* ===== verification/Gerrit.v ===== *)
(** * Gerrit: the Gerrit client ([src/pkg/gerrit])

    Commands over ssh: every method of the [Client] interface is a definition over the ssh
    library, and [gerrit_client] answers a call of that interface with it. *)

From S2P Require Import Prelude GoStd Api Effects Externals SshHostKey.
From S2P Require Import Json.

(** [SSHClient], with the user and the key of its configuration. *)
Record SSHClient := { sc_Host : string; sc_Port : Z; sc_User : string; sc_Key : string }.

Section Client.
Context {X : Externals} {S : Type}.

(** The address of the session is returned. *)
Definition NewSession (s : SSHClient) : M S string :=
  let hostPort := HostPort (sc_Host s) (sc_Port s) in
  orelse (ssh (SshDial hostPort (sc_User s) (sc_Key s))) (λ err,
    err' <- Enrich err hostPort ;; throw (EWrap "failed to dial: " err')) ;;;
  ssh (SshSession hostPort) ?> "failed to create session: " ;;;
  ret hostPort.

(** The deferred function assigns to a variable nobody reads any more: a failing close is lost. *)
Definition close_ssh (hostPort : string) : M S unit :=
  attempt (ssh (SshCloseSession hostPort)) ;;;
  attempt (ssh (SshCloseConnection hostPort)) ;;;
  ret tt.

Definition RunCommand (s : SSHClient) (command : string) : M S string :=
  hostPort <- NewSession s ;;
  deferring (close_ssh hostPort) (ssh (SshOutput hostPort command) ?> "failed to get ssh STD out: ").

Definition SshInit (port : Z) (sshPrivateKey host user : string) : M S SSHClient :=
  sys_res (ParsePrivateKey sshPrivateKey) ?> "failed to get Public Key from Private one: " ;;;
  ClientConfig host port ;;;
  ret {| sc_Host := host; sc_Port := port; sc_User := user; sc_Key := sshPrivateKey |}.

(** [json.Unmarshal(outputCmd, &raw)], [raw["count"] = 1] and the lookup: [null] leaves a nil map. *)
Definition project_listed (outputCmd appName : string) : res bool :=
  match parse_json outputCmd ≫= (λ j, raw ← decode_map j; Some (j, raw)) with
  | None => Err (EWrap "failed to decode json: "
      (ENew (Unmarshal_error "map[string]interface {}" outputCmd)))
  | Some (JNull, _) => Panic "assignment to entry in nil map"
  | Some (_, raw) => Ok (bool_decide (is_Some (<["count" := JNum "1"]> raw !! appName)))
  end.

Definition CheckProjectExist (port : Z) (sshPrivateKey host user appName : string) : M S bool :=
  cl <- SshInit port sshPrivateKey host user ?> "failed to init ssh: " ;;
  outputCmd <- RunCommand cl "gerrit ls-projects --format json" ?> "failed to run ssh command: " ;;
  of_res (project_listed outputCmd appName).

Definition CreateProject (port : Z) (sshPrivateKey host user appName : string) : M S unit :=
  cl <- SshInit port sshPrivateKey host user ;;
  RunCommand cl ("gerrit create-project " +:+ appName) ;;;
  ret tt.

Definition SetHeadToBranch (port : Z) (sshPrivateKey host user appName branchName : string) : M S unit :=
  cl <- SshInit port sshPrivateKey host user ;;
  RunCommand cl ("gerrit set-head " +:+ appName +:+ " --new-head " +:+ branchName) ;;;
  ret tt.
End Client.

Definition gerrit_client {X : Externals} {R} (c : gerrit_call R) : prog R :=
  match c in gerrit_call R return prog R with
  | GrCheckProjectExist port key host user project => answer (CheckProjectExist port key host user project)
  | GrCreateProject port key host user project => answer (CreateProject port key host user project)
  | GrSetHeadToBranch port key host user project branch =>
      answer (SetHeadToBranch port key host user project branch)
  end.

(** ** Concrete values *)

Example project_listed_examples :
  project_listed "{}" "app" = Ok false
  ∧ project_listed (String.concat (String dquote "") ["{"; "app"; ": {}}"]) "app" = Ok true
  ∧ project_listed "null" "app" = Panic "assignment to entry in nil map".
Proof. vm_compute. by split_and!. Qed.

(** A project called [count] is always taken for existing. *)
Example project_count : project_listed "{}" "count" = Ok true.
Proof. vm_compute. reflexivity. Qed.
