(* ===== verification/Linking.v ===== *)
(** * Linking: the controllers over their clients

    The calls of the [Git], [GitProvider] and [Client] (Gerrit) interfaces are themselves
    programs: [link] replaces each of them in a controller by the client that serves it, so
    that a linked controller calls go-git, resty, the generated Bitbucket client and ssh.
    [link_safe] transfers what was proved of the controller against the interfaces to the
    linked program, when the clients keep the promises the interface makes ([Implements]). *)

From S2P Require Import Prelude Api Effects Externals SshHostKey GitClient ProviderClients Gerrit.

Section Link.
Context {X : Externals}.

(** One call of the controller, served by its client. The ssh calls of the GitServer
    controller are functions of the packages gerrit and sshhostkey. *)
Definition expand_sys {R} (c : sys_call R) : prog R :=
  match c in sys_call R return prog R with
  | SSHClientConfig host port => answer (ClientConfig host port)
  | SSHNewSession host user key port =>
      answer (NewSession {| sc_Host := host; sc_Port := port; sc_User := user; sc_Key := key |} ;;; ret tt)
  | Stat path => Call (CSys (Stat path)) Ret
  | ReadDir path => Call (CSys (ReadDir path)) Ret
  | MkdirAll path => Call (CSys (MkdirAll path)) Ret
  | RemoveAll path => Call (CSys (RemoveAll path)) Ret
  | CreateFile path => Call (CSys (CreateFile path)) Ret
  | ReadFile path => Call (CSys (ReadFile path)) Ret
  | WriteFile path content => Call (CSys (WriteFile path content)) Ret
  | ParseFiles name path => Call (CSys (ParseFiles name path)) Ret
  | ExecuteTemplate name file config => Call (CSys (ExecuteTemplate name file config)) Ret
  | LookupEnv name => Call (CSys (LookupEnv name)) Ret
  | Now => Call (CSys Now) Ret
  | RandRead n => Call (CSys (RandRead n)) Ret
  | RangeMap keys => Call (CSys (RangeMap keys)) Ret
  | ParsePrivateKey key => Call (CSys (ParsePrivateKey key)) Ret
  | Eventf eventType reason message => Call (CSys (Eventf eventType reason message)) Ret
  | Manager mc => Call (CSys (Manager mc)) Ret
  end.

Definition expand {R} (c : call R) : prog R :=
  match c in call R return prog R with
  | CGit cfg gc => git_client cfg gc
  | CProvider pc => provider_client pc
  | CGerrit gc => gerrit_client gc
  | CSys sc => expand_sys sc
  | CKube kc => Call (CKube kc) Ret
  | CJira server jc => Call (CJira server jc) Ret
  | CHttp rq => Call (CHttp rq) Ret
  | CGoGit gc => Call (CGoGit gc) Ret
  | CRest t rq => Call (CRest t rq) Ret
  | CBitbucket bc => Call (CBitbucket bc) Ret
  | CSsh sc => Call (CSsh sc) Ret
  end.

Fixpoint link {A} (p : prog A) : prog A :=
  match p with
  | Ret a => Ret a
  | Call c k => bind (expand c) (λ r, link (k r))
  end.

(** ** Transfer *)

Section Transfer.
Context {G G' : Type} (m : monitor G) (m' : monitor G') (related : G → G' → Prop).

(** The clients, watched by [m'], promise what [m] relies on: a call that [m] allows is served
    by a program that [m'] allows, with an answer [m] expects, and the ghost states stay
    related. *)
Class Implements : Prop := implements :
  ∀ R (c : call R) g g', related g g' → guar m g R c →
    safe m' (expand c) g' (λ r g1', rely m g R c r ∧ related (step m g R c r) g1').

Context `{Implements}.

Lemma link_safe {A} (p : prog A) g g' (Q : A → G → Prop) :
  related g g' → safe m p g Q → safe m' (link p) g' (λ a g1', ∃ g1, related g1 g1' ∧ Q a g1).
Proof.
  revert g g'. induction p as [a|R c k IH]; intros g g' Hrel; cbn; [eauto|].
  intros [Hg Hk]. apply safe_bind. eapply safe_mono; [|by apply implements].
  intros r g1' [Hr Hrel1]. apply (IH r _ _ Hrel1), Hk, Hr.
Qed.

(** Histories of the linked controller: after a crash, inside a client or between two calls,
    every ghost state of [m'] is related to one the controller can be restarted from. *)
Lemma link_history {A} (run_of : prog A → Prop) (I : G → Prop) (I' : G' → Prop) :
  (∀ g', I' g' → ∃ g, I g ∧ related g g') →
  (∀ g R c r, I' g → guar m' g R c → rely m' g R c r → I' (step m' g R c r)) →
  (∀ p g, run_of p → I g → safe m p g (λ _ _, True)) →
  ∀ g' tr, history m' (λ q, ∃ p, run_of p ∧ q = link p) g' tr → I' g' → guaranteed m' g' tr.
Proof.
  intros Hrestart Hstep Hsafe g' tr Hh HI. eapply history_guaranteed; [exact Hstep| |exact Hh|exact HI].
  intros q g1' (p&Hp&->) HI1. destruct (Hrestart _ HI1) as (g&HIg&Hrel).
  eapply safe_mono; [|eapply link_safe; [exact Hrel|by apply Hsafe]]. done.
Qed.
End Transfer.
End Link.

(** ** Running a client on its own *)

Section Answers.
Context {G : Type} (m : monitor G).

Lemma safe_answer {R} (h : M unit R) g (Q : res R → G → Prop) :
  wp m h tt g (λ r _ g', Q r g') → safe m (answer h) g Q.
Proof. intros H. apply safe_bind. eapply safe_mono; [|exact H]. by intros [r []] g'. Qed.

Lemma safe_call {R} (c : call R) g (Q : R → G → Prop) :
  guar m g R c → (∀ r, rely m g R c r → Q r (step m g R c r)) → safe m (Call c Ret) g Q.
Proof. intros Hg HQ. by split. Qed.
End Answers.
