(* ===== verification/ProviderSafety.v ===== *)
(** * ProviderSafety: what a client of a git hosting service may do

    A call of the [GitProvider] interface, whatever the service answers: the token is shown to
    the configured address only, what is changed is what was asked for, and a webhook is
    created only when none has its address. The clients disagree about a webhook that is gone,
    which the codebase chain relies on. *)

From S2P Require Import Prelude GoStd Api Effects Externals Urls ProviderClients Linking.
From S2P Require Import Json CodebaseCommon CodebaseChain CodebaseController Simulation.

(** ** The specification *)

(** The webhooks listed last, and whether a change was sent. *)
Record providing := { pv_listed : option (list (option WebHook)); pv_sent : bool }.
Definition providing_start : providing := {| pv_listed := None; pv_sent := false |}.
Definition listed (l : list (option WebHook)) (g : providing) : providing :=
  {| pv_listed := Some l; pv_sent := pv_sent g |}.
Definition sent (g : providing) : providing := {| pv_listed := pv_listed g; pv_sent := true |}.

Definition bitbucket_hook (h : BitbucketHook) : option WebHook :=
  match bh_Uuid h, bh_Url h with
  | Some uuid, Some url => Some {| wh_ID := uuid; wh_URL := url |}
  | _, _ => None
  end.

Definition rest_step {T} (t : rest_result T) (rq : RestRequest) (r : res (RestResponse T)) (g : providing)
  : providing :=
  let g := if bool_decide (rr_Method rq = "GET") then g else sent g in
  match r with
  | Ok resp => match t in rest_result T return RestResponse T → providing with
      | RGitHubWebHooks => λ resp, listed (map convertWebhook (ra_Result resp)) g
      | RGitlabWebHooks => λ resp, listed (map convertGitlabWebhook (ra_Result resp)) g
      | _ => λ _, g
      end resp
  | _ => g
  end.

Definition providing_step (g : providing) : ∀ R, call R → R → providing := λ R c,
  match c in call R return R → providing with
  | CRest t rq => λ r, rest_step t rq r g
  | CBitbucket bc => match bc in bitbucket_call R return R → providing with
      | BGetHooks _ _ _ => λ r, match r with
          | Ok resp => listed (match br_JSON resp with
              | Some (Some hooks) => map bitbucket_hook hooks
              | _ => []
              end) g
          | _ => g
          end
      | BPostHook _ _ _ _ => λ _, sent g
      | BDeleteHook _ _ _ _ => λ _, sent g
      | BPostRepository _ _ _ _ _ => λ _, sent g
      | _ => λ _, g
      end
  | _ => λ _, g
  end.

Section Spec.
Context {A : Type} (method : provider_call A).

(** The service, its address and the token of a method. *)
Definition method_parties : string * string * string :=
  match method with
  | PNewBitbucketClient token => (GitProviderBitbucket, "", token)
  | PProjectExists p url token _ | PCreateProject p url token _ _ | PSetDefaultBranch p url token _ _
  | PGetWebHook p url token _ _ | PCreateWebHookIfNotExists p url token _ _ _ _
  | PDeleteWebHook p url token _ _ => (p, url, token)
  end.

(** No webhook of the last listing has the address. *)
Definition unlisted (url : string) (g : providing) : Prop :=
  ∃ hooks, pv_listed g = Some hooks ∧ ∀ w, Some w ∈ hooks → wh_URL w ≠ url.

Definition rest_allowed (g : providing) (rq : RestRequest) : Prop :=
  let '(p, url, token) := method_parties in
  rr_HostURL rq = url
  ∧ (p = GitProviderGithub ∧ rr_AuthToken rq = Some token ∧ rr_Headers rq = []
     ∨ p = GitProviderGitlab ∧ rr_AuthToken rq = None ∧ rr_Headers rq = [("PRIVATE-TOKEN", token)])
  ∧ (rr_Method rq = "GET" ∧ rr_Body rq = None ∨ pv_sent g = false ∧ match method with
     | PCreateProject _ _ _ id isPrivate => rr_Method rq = "POST"
         ∧ (p = GitProviderGithub ∧ (∃ owner repo, parseProjectID id = Ok (owner, repo)
              ∧ rr_Body rq = Some (JObj [("name", JStr repo); ("private", JBool isPrivate)]))
            ∨ p = GitProviderGitlab ∧ ∃ ns path n, decodeProjectID id = Ok (ns, path)
              ∧ rr_Body rq = Some (JObj [("path", JStr path); ("namespace_id", n);
                                         ("visibility", JStr (Visibility isPrivate))]))
     | PSetDefaultBranch _ _ _ _ branch =>
         (rr_Method rq = "PATCH" ∨ rr_Method rq = "PUT")
         ∧ rr_Body rq = Some (JObj [("default_branch", JStr branch)])
     | PCreateWebHookIfNotExists _ _ _ _ secret hookURL skipTLS => rr_Method rq = "POST" ∧ unlisted hookURL g
         ∧ rr_Body rq = Some (if bool_decide (p = GitProviderGithub)
                              then github_hook_body secret hookURL skipTLS
                              else gitlab_hook_body secret hookURL skipTLS)
     | PDeleteWebHook _ _ _ _ ref => rr_Method rq = "DELETE" ∧ rr_Body rq = None
         ∧ ("hook-id", ref) ∈ rr_PathParams rq
     | _ => False
     end).

Definition bitbucket_allowed (g : providing) {R} (c : bitbucket_call R) : Prop :=
  let '(p, url, token) := method_parties in
  p ≠ GitProviderGithub ∧ p ≠ GitProviderGitlab ∧
  match c with
  | BPostHook t _ _ body => t = Intercept token ∧ pv_sent g = false ∧ match method with
      | PCreateWebHookIfNotExists _ _ _ _ secret hookURL skipTLS => unlisted hookURL g
          ∧ ∃ uuid, body = bitbucket_hook_body uuid secret hookURL skipTLS
      | _ => False
      end
  | BDeleteHook t _ _ uid => t = Intercept token ∧ pv_sent g = false ∧ match method with
      | PDeleteWebHook _ _ _ _ ref => uid = ref
      | _ => False
      end
  | BPostRepository t _ _ _ b => t = Intercept token ∧ pv_sent g = false ∧ match method with
      | PCreateProject _ _ _ _ isPrivate => b = isPrivate
      | _ => False
      end
  | BGetHook t _ _ _ | BGetHooks t _ _ | BGetRepositories t _ _ => t = Intercept token
  | BNewUUID => True
  end.

Definition provider_guar (g : providing) : ∀ R, call R → Prop := λ R c,
  match c with
  | CRest _ rq => rest_allowed g rq
  | CBitbucket bc => bitbucket_allowed g bc
  | _ => False
  end.

Definition provider_monitor : monitor providing :=
  {| rely _ _ _ _ := True; guar := provider_guar; step := providing_step |}.
End Spec.

(** ** The webhook that is looked for *)

Lemma find_webhook_cases hooks url :
  match find_webhook hooks url with
  | Ok (Some w) => Some w ∈ hooks ∧ wh_URL w = url
  | Ok None => ∀ w, Some w ∈ hooks → wh_URL w ≠ url
  | Err _ => False
  | Panic _ => None ∈ hooks
  end.
Proof.
  induction hooks as [|[w|] hooks IH]; cbn; [set_solver| |set_solver].
  case_bool_decide as Hw; [set_solver|]. destruct (find_webhook hooks url) as [[w'|]|e|w']; set_solver.
Qed.

Lemma bitbucket_webhooks_ok {T} (r : BitbucketResponse T) hooks ws :
  bitbucket_webhooks r hooks = Ok ws → ws = map bitbucket_hook hooks.
Proof.
  revert ws. induction hooks as [|[[uuid|] [url|]] hooks IH]; intros ws; cbn; try done; [by intros [= <-]|].
  destruct (bitbucket_webhooks r hooks) as [ws'|e|w]; try done. cbn. intros [= <-]. by rewrite (IH ws').
Qed.

(** ** Every method *)

(** The webhook of the answer was created or has the address. *)
Definition provider_post {A} (method : provider_call A) : A → providing → Prop :=
  match method in provider_call A return A → providing → Prop with
  | PCreateWebHookIfNotExists _ _ _ _ _ hookURL _ => λ r g,
      match r with Ok w => pv_sent g = true ∨ wh_URL w = hookURL | _ => True end
  | _ => λ _ _, True
  end.

Ltac unfold_client :=
  lazymatch goal with
  | |- wp _ ?t _ _ _ => let rec head t := lazymatch t with ?f _ => head f | _ => t end in
                        let h := head t in unfold h
  end.
(** Address and token are fixed; a request reads or makes the change of the method. *)
Ltac rest_parties := split; [done|split; [first [left; by split_and! | right; by split_and!]|]].
Ltac rest_read := left; by split.
Ltac rest_change := right; split; [reflexivity|].
Ltac provider_guar :=
  first
    [ cbn; unfold rest_allowed; cbn; rest_parties;
      first [rest_read | rest_change; first [done | by split_and! | by eauto | split; [done|]]]
    | cbn; unfold bitbucket_allowed; cbn; split; [done|split; [done|]]; first [done | by split_and!] ].
Ltac client_go :=
  repeat first
    [ progress intros
    | progress cbn [guar rely step fst snd]
    | wp_step
    | match goal with |- match ?r with Ok _ => _ | Err _ => _ | Panic _ => _ end => destruct r eqn:? end
    | done
    | unfold_client ].

Section Methods.
Context (p url token : string).

Lemma wp_choose {R B} (c : provider_call B) (github gitlab bitbucket : M unit R) g Q :
  (p = GitProviderGithub → wp (provider_monitor c) github tt g Q) →
  (p = GitProviderGitlab → wp (provider_monitor c) gitlab tt g Q) →
  (p ≠ GitProviderGithub → p ≠ GitProviderGitlab → wp (provider_monitor c) bitbucket tt g Q) →
  wp (provider_monitor c) (choose p github gitlab bitbucket) tt g Q.
Proof. unfold choose. repeat case_bool_decide; auto. Qed.

(** One of the three clients, run symbolically. *)
Ltac every_client := apply safe_answer, wp_choose; intros; subst; client_go; try solve [provider_guar].

Lemma safe_project_exists id :
  safe (provider_monitor (PProjectExists p url token id)) (provider_client (PProjectExists p url token id))
    providing_start (λ _ _, True).
Proof. every_client. Qed.

Lemma safe_create_project id isPrivate :
  let c := PCreateProject p url token id isPrivate in
  safe (provider_monitor c) (provider_client c) providing_start (λ _ _, True).
Proof.
  every_client.
  all: cbn; unfold rest_allowed; cbn; rest_parties; rest_change; (split; [done|]).
  - left. split; [done|]. eauto.
  - right. split; [done|]. eauto.
Qed.

Lemma safe_default_branch id branch :
  let c := PSetDefaultBranch p url token id branch in
  safe (provider_monitor c) (provider_client c) providing_start (λ _ _, True).
Proof. every_client. Qed.

Lemma safe_get_webhook id ref :
  let c := PGetWebHook p url token id ref in
  safe (provider_monitor c) (provider_client c) providing_start (λ _ _, True).
Proof. every_client. Qed.

Lemma safe_delete_webhook id ref :
  let c := PDeleteWebHook p url token id ref in
  safe (provider_monitor c) (provider_client c) providing_start (λ _ _, True).
Proof.
  every_client.
  all: cbn; unfold rest_allowed; cbn; rest_parties; rest_change; (split; [done|split; [done|set_solver]]).
Qed.

(** List, look for the address, create. *)
Lemma wp_if_not_exists {B} (c : provider_call B) list_hooks create hookURL g Q :
  (∀ hooks g', pv_listed g' = Some hooks → pv_sent g' = pv_sent g →
     (∀ w, Some w ∈ hooks → wh_URL w ≠ hookURL) → wp (provider_monitor c) create tt g' Q) →
  (∀ w g', wh_URL w = hookURL → Q (Ok w) tt g') → (∀ r g', is_ok r = false → Q r tt g') →
  wp (provider_monitor c) list_hooks tt g
    (λ r _ g', match r with Ok hooks => pv_listed g' = Some hooks ∧ pv_sent g' = pv_sent g | _ => True end) →
  wp (provider_monitor c) (webhook_if_not_exists list_hooks create hookURL) tt g Q.
Proof.
  intros Hcreate Hfound Hbad Hlist. unfold webhook_if_not_exists. wp_step.
  eapply wp_mono; [exact Hlist|]. intros [hooks|e|w] [] g' H; [|by apply Hbad..]. destruct H as [Hl Hs].
  do 2 wp_step. pose proof (find_webhook_cases hooks hookURL) as Hc.
  destruct (find_webhook hooks hookURL) as [[w|]|e|w]; [| |done|by apply Hbad].
  - wp_step. apply Hfound, Hc.
  - by eapply Hcreate.
Qed.

Lemma safe_create_webhook id secret hookURL skipTLS :
  let c := PCreateWebHookIfNotExists p url token id secret hookURL skipTLS in
  safe (provider_monitor c) (provider_client c) providing_start (λ r g, provider_post c r g).
Proof.
  cbn. apply safe_answer, wp_choose; intros; subst; apply wp_if_not_exists;
    try (intros hooks g' Hl Hs Hu); try done; try (by intros w g' Hw; right); try (by intros [| |] g' ?).
  - client_go; [|by left]. cbn. unfold rest_allowed. cbn. rest_parties.
    right. split; [exact Hs|]. split_and!; [done|by exists hooks|by rewrite bool_decide_true].
  - client_go; [provider_guar|by cbn..].
  - client_go; [|by left]. cbn. unfold rest_allowed. cbn. rest_parties.
    right. split; [exact Hs|]. split_and!; [done|by exists hooks|by rewrite bool_decide_false].
  - client_go; [provider_guar|by cbn..].
  - client_go; try (by left); try provider_guar.
    cbn. unfold bitbucket_allowed. cbn. split_and!; try done; [by exists hooks|by eexists].
  - client_go; try provider_guar; cbn; (split; [|done]);
      match goal with H : br_JSON _ = _ |- _ => rewrite H end; [|done..].
    f_equal. symmetry. by eapply bitbucket_webhooks_ok.
Qed.

Lemma safe_new_client :
  let c := PNewBitbucketClient token in
  safe (provider_monitor c) (provider_client c) providing_start (λ _ _, True).
Proof. cbn. done. Qed.
End Methods.

(** ** A webhook that is gone

    The codebase chain creates a webhook again when the recorded one is reported missing
    ([ErrWebHookNotFound]). The GitHub and GitLab clients report that for status 404, the
    Bitbucket client does not. *)

Definition on_bitbucket {O} (k : kind O) : res O → Prop :=
  match k in kind V return res V → Prop with
  | KGitServer => λ r, match r with Ok g => gs_GitProvider (g_Spec g) = GitProviderBitbucket | _ => True end
  | _ => λ _, True
  end.
Definition server_on_bitbucket {R} (c : kube_call R) : R → Prop :=
  match c in kube_call R return R → Prop with KGet k _ => on_bitbucket k | _ => λ _, True end.

(** The answer does not say that the webhook is missing, and is not the webhook. *)
Definition unhelpful {A} (r : res A) : Prop :=
  match r with Ok _ => False | Err e => err_is ErrWebHookNotFound e = false | Panic _ => True end.

(** The handler against the interface: it asks for the recorded webhook and creates none. *)
Definition gone_iface : monitor unit :=
  {| rely _ R c := match c in call R return R → Prop with
       | CKube kc => server_on_bitbucket kc
       | CProvider pc => match pc in provider_call R return R → Prop with
           | PGetWebHook _ _ _ _ _ => unhelpful
           | _ => λ _, True
           end
       | _ => λ _, True
       end;
     guar _ R c := match c with
       | CKube _ | CSys _ => True
       | CProvider (PNewBitbucketClient _) => True
       | CProvider (PGetWebHook p _ _ _ _) => p = GitProviderBitbucket
       | _ => False
       end;
     step _ _ _ _ := tt |}.

(** The linked handler: the service answers a request for a webhook with anything but success,
    such as 404, and nothing is created there. *)
Definition gone_service : monitor unit :=
  {| rely _ R c := match c in call R return R → Prop with
       | CKube kc => server_on_bitbucket kc
       | CBitbucket bc => match bc in bitbucket_call R return R → Prop with
           | BGetHook _ _ _ _ => λ r, match r with
               | Ok resp => br_StatusCode resp ≠ StatusOK
               | r => unhelpful r
               end
           | _ => λ _, True
           end
       | _ => λ _, True
       end;
     guar _ R c := match c with
       | CKube _ | CSys _ | CSsh _ => True
       | CBitbucket (BGetHook _ _ _ _) => True
       | _ => False
       end;
     step _ _ _ _ := tt |}.

Lemma bitbucket_get_unhelpful token id ref :
  wp gone_service (Bitbucket_GetWebHook token id ref) tt tt (λ r _ _, unhelpful r).
Proof.
  unfold Bitbucket_GetWebHook, bitbucket_respond. wp_step. wp_step.
  destruct (parseProjectID id) as [[owner repo]|e|w] eqn:Hid; [| |done].
  - do 3 wp_step. wp_step; [done|]. intros [resp|e|w] Hr; cbn in Hr; [|by wp_step|done].
    rewrite bool_decide_false by done. unfold bitbucket_failed. by wp_step.
  - unfold parseProjectID in Hid. repeat case_match; by simplify_eq/=.
Qed.

#[export] Instance bitbucket_client_implements {X : Externals} :
  Implements gone_iface gone_service (λ _ _, True).
Proof.
  intros R c [] [] _ Hg.
  assert (Hneutral : ∀ R' (h : M unit R') (Q : res R' → unit → Prop), keeps gone_service (λ _ _, True) h →
    (∀ r, Q r tt) → safe gone_service (answer h) tt Q).
  { intros R' h Q Hh HQ. apply safe_answer. eapply wp_keeps; [exact Hh|done|]. intros r [] [] _. apply HQ. }
  destruct c as [R kc|R cfg gc|R pc|R gc|R sc|R js jc|rq|R gc|T t rq|R bc|R sc]; cbn [expand]; try done.
  - destruct pc; try done; cbn in Hg. subst p. apply safe_answer.
    unfold choose. rewrite !bool_decide_false by done.
    eapply wp_mono; [apply bitbucket_get_unhelpful|]. intros r [] [] H. by split.
  - destruct sc; try done; (apply Hneutral; [keeps_go|done]).
Qed.

Lemma wp_failing_codebase {A} a e (c : Codebase) (Q : res A → Codebase → unit → Prop) :
  (∀ r s, is_ok r = false → Q r s tt) → wp gone_iface (processCodebaseError a e) c tt Q.
Proof.
  intros HQ. unfold processCodebaseError, fail_codebase. wp_to_call. wp_step; [done|].
  intros t _. wp_step. wp_step. by apply HQ.
Qed.

(** The handler fails: nothing it sees lets it create a webhook. *)
Lemma wp_gone_iface c :
  cs_CiTool (c_Spec c) = CITekton → GetWebHookRef (c_Status c) ≠ "" →
  wp gone_iface PutWebHook_ServeRequest c tt (λ r _ _, is_ok r = false).
Proof.
  intros Hci Href. unfold PutWebHook_ServeRequest. wp_step. wp_step. rewrite bool_decide_true by done.
  cbn [negb]. do 3 wp_step. wp_step; [done|]. intros [gs|e|w] Hgs; cbn in Hgs;
    [|apply wp_failing_codebase; by intros [| |] ? ?|done].
  rewrite Hgs. change (contains _ GitProviderBitbucket) with true. cbn [negb].
  wp_step. eapply wp_keeps with (J := λ _ _, True); [keeps_go|done|].
  intros [sec|e|w] s [] _; [|done..].
  wp_step. eapply wp_mono with (Q := λ r _ _, match r with Ok p => p = GitProviderBitbucket | _ => True end).
  { wp_step. unfold NewProvider. rewrite Hgs. cbv zeta.
    rewrite !bool_decide_false, bool_decide_true by done. wp_step. wp_step; [done|].
    intros [[]|e|w] _; cbn; [by wp_step|by apply wp_failing_codebase; intros [| |]|done]. }
  intros [p|e|w] s' [] Hp; [|done..]. subst p. wp_step. unfold put_webhook_ref. wp_step.
  rewrite bool_decide_false by done. cbn [negb]. do 2 wp_step. wp_step; [done|].
  intros [wh|e|w] Hr; cbn in Hr; [done| |done]. rewrite Hr. apply wp_failing_codebase. by intros [| |].
Qed.

(** ** Properties *)


(** C39: A codebase on Bitbucket whose recorded webhook was deleted there never gets one again:
    the handler linked to its clients fails for every answer to the lookup other than success,
    also for status 404, and asks the service to create nothing. (For GitHub and GitLab status
    404 becomes [ErrWebHookNotFound], and the webhook is created again.) *)
Theorem bitbucket_webhook_not_recreated {X : Externals} c :
  cs_CiTool (c_Spec c) = CITekton → GetWebHookRef (c_Status c) ≠ "" →
  safe gone_service (link (PutWebHook_ServeRequest c)) tt (λ rs _, is_ok (fst rs) = false).
Proof.
  intros Hci Href.
  eapply safe_mono; [|exact (link_safe gone_iface gone_service _ _ tt tt _ I (wp_gone_iface c Hci Href))].
  by intros rs [] (g&_&H).
Qed.

(** On a codebase whose webhook GitHub answers with status 404. *)
Definition hooked_app : Codebase :=
  c_with_status (set_WebHookRef "{7}" (c_Status sim_app)) sim_app.
Definition on_service (p : string) (w : sim_state) : sim_state :=
  {| s_codebase := hooked_app; s_secret := s_secret w; s_pushed := s_pushed w;
     s_gitserver := {| g_Meta := g_Meta (s_gitserver w); g_Status := g_Status (s_gitserver w);
       g_Spec := {| gs_GitHost := gs_GitHost (g_Spec (s_gitserver w));
         gs_GitUser := gs_GitUser (g_Spec (s_gitserver w)); gs_HttpsPort := 0; gs_SshPort := 22;
         gs_NameSshKeySecret := gs_NameSshKeySecret (g_Spec (s_gitserver w)); gs_GitProvider := p;
         gs_SkipWebhookSSLVerification := false; gs_WebhookUrl := "https://el.example.com";
         gs_TektonDisabled := false |} |} |}.
(** The services of [sim], except that no webhook can be found by its reference. *)
Definition no_webhook : environment sim_state := λ R c w,
  match c in call R return R * sim_state with
  | CBitbucket bc => (match bc in bitbucket_call R return R with
      | BGetHook _ _ _ _ => Ok {| br_StatusCode := 404; br_Status := "404 Not Found"; br_Body := ""; br_JSON := None |}
      | BPostHook t o r b => sim_bitbucket (BPostHook t o r b)
      | BGetHooks t o r => sim_bitbucket (BGetHooks t o r)
      | BDeleteHook t o r u => sim_bitbucket (BDeleteHook t o r u)
      | BPostRepository t o r ty b => sim_bitbucket (BPostRepository t o r ty b)
      | BGetRepositories t o q => sim_bitbucket (BGetRepositories t o q)
      | BNewUUID => sim_bitbucket BNewUUID
      end, w)
  | CRest t rq => (Ok (if bool_decide (rr_Method rq = "GET") && has_suffix "{hook-id}" (rr_Path rq)
      then {| ra_StatusCode := 404; ra_Status := "404 Not Found"; ra_IsError := true; ra_String := "Not Found";
              ra_Result := ra_Result (sim_rest t) |}
      else sim_rest t), w)
  | CKube kc => sim_kube kc w
  | CGit _ gc => sim_git gc w
  | CProvider pc => (sim_provider pc, w)
  | CGerrit gc => (sim_gerrit gc, w)
  | CSys sc => (sim_sys sc, w)
  | CJira _ jc => (sim_jira jc, w)
  | CHttp _ => (Ok {| rs_IsSuccess := true; rs_Status := "200 OK" |}, w)
  | CGoGit gc => sim_gogit gc w
  | CSsh sc => (sim_ssh sc, w)
  end.
Definition hook_run (p : string) : res unit * Codebase :=
  exec no_webhook (link (PutWebHook_ServeRequest hooked_app)) (on_service p sim_start).

Lemma bitbucket_webhook_not_recreated_witness :
  is_ok (fst (hook_run GitProviderGithub)) = true
  ∧ is_ok (fst (hook_run GitProviderGitlab)) = true
  ∧ is_ok (fst (hook_run GitProviderBitbucket)) = false
  ∧ safe gone_service (link (PutWebHook_ServeRequest hooked_app)) tt (λ rs _, is_ok (fst rs) = false).
Proof.
  split; [vm_compute; reflexivity|]. split; [vm_compute; reflexivity|]. split; [vm_compute; reflexivity|].
  apply (@bitbucket_webhook_not_recreated reference hooked_app).
  - reflexivity.
  - discriminate.
Defined.
