(* ===== verification/GerritSafety.v ===== *)
(** * GerritSafety: what the Gerrit client may do

    A call of the Gerrit client runs one command, the one asked for, in one session with the
    given credentials, and only with a server whose host keys were loaded. *)

From S2P Require Import Prelude GoStd Api Effects Externals SshHostKey Gerrit Linking.
From S2P Require Import Json.

(** ** The specification *)

(** What happened: host keys loaded, the connection open, the session open, the output of the
    command that ran, a session that could not be opened. *)
Record talking := {
  tk_known : bool; tk_connected : bool; tk_session : bool; tk_output : option (res string);
  tk_refused : bool }.
Definition talking_start : talking :=
  {| tk_known := false; tk_connected := false; tk_session := false; tk_output := None; tk_refused := false |}.

Definition talking_step (g : talking) : ∀ R, call R → R → talking := λ R c,
  match c in call R return R → talking with
  | CSsh sc => match sc in ssh_call R return R → talking with
      | SshKnownHosts => λ r, {| tk_known := is_ok r; tk_connected := tk_connected g;
          tk_session := tk_session g; tk_output := tk_output g; tk_refused := tk_refused g |}
      | SshDial _ _ _ => λ r, {| tk_known := tk_known g; tk_connected := is_ok r;
          tk_session := tk_session g; tk_output := tk_output g; tk_refused := tk_refused g |}
      | SshSession _ => λ r, {| tk_known := tk_known g; tk_connected := tk_connected g;
          tk_session := is_ok r; tk_output := tk_output g; tk_refused := negb (is_ok r) |}
      | SshOutput _ _ => λ r, {| tk_known := tk_known g; tk_connected := tk_connected g;
          tk_session := tk_session g; tk_output := Some r; tk_refused := tk_refused g |}
      | SshCloseSession _ => λ r, {| tk_known := tk_known g; tk_connected := tk_connected g;
          tk_session := match r with Panic _ => tk_session g | _ => false end;
          tk_output := tk_output g; tk_refused := tk_refused g |}
      | SshCloseConnection _ => λ r, {| tk_known := tk_known g;
          tk_connected := match r with Panic _ => tk_connected g | _ => false end;
          tk_session := tk_session g; tk_output := tk_output g; tk_refused := tk_refused g |}
      end
  | _ => λ _, g
  end.

Section Spec.
Context {X : Externals} {A : Type} (method : gerrit_call A).

Definition gerrit_parties : Z * string * string * string :=
  match method with
  | GrCheckProjectExist port key host user _ | GrCreateProject port key host user _
  | GrSetHeadToBranch port key host user _ _ => (port, key, host, user)
  end.
Definition gerrit_command : string :=
  match method with
  | GrCheckProjectExist _ _ _ _ _ => "gerrit ls-projects --format json"
  | GrCreateProject _ _ _ _ project => "gerrit create-project " +:+ project
  | GrSetHeadToBranch _ _ _ _ project branch => "gerrit set-head " +:+ project +:+ " --new-head " +:+ branch
  end.

Definition gerrit_guar (g : talking) : ∀ R, call R → Prop := λ R c,
  let '(port, key, host, user) := gerrit_parties in
  match c with
  | CSys (ParsePrivateKey k) => k = key
  | CSys (LookupEnv name) => name = knownHostsEnvVar
  | CSsh SshKnownHosts => tk_connected g = false
  | CSsh (SshDial hostPort u k) =>
      tk_known g = true ∧ tk_connected g = false ∧ hostPort = HostPort host port ∧ u = user ∧ k = key
  | CSsh (SshSession hostPort) => tk_connected g = true ∧ hostPort = HostPort host port
  | CSsh (SshOutput hostPort command) =>
      tk_session g = true ∧ tk_output g = None ∧ hostPort = HostPort host port ∧ command = gerrit_command
  | CSsh (SshCloseSession hostPort) => tk_session g = true ∧ hostPort = HostPort host port
  | CSsh (SshCloseConnection hostPort) =>
      tk_connected g = true ∧ tk_session g = false ∧ hostPort = HostPort host port
  | _ => False
  end.

Definition gerrit_monitor : monitor talking :=
  {| rely _ _ _ _ := True; guar := gerrit_guar; step := talking_step |}.
End Spec.

(** The answer is that of the command; a connection only stays open behind a refused session. *)
Definition gerrit_post {X : Externals} {A} (method : gerrit_call A) : A → talking → Prop :=
  match method in gerrit_call A return A → talking → Prop with
  | GrCheckProjectExist _ _ _ _ project => λ r g, match r with
      | Panic _ => True
      | Ok b => tk_connected g = false ∧ ∃ out, tk_output g = Some (Ok out) ∧ project_listed out project = Ok b
      | Err _ => tk_connected g = tk_refused g
      end
  | GrCreateProject _ _ _ _ _ => λ r g, match r with
      | Panic _ => True
      | Ok _ => tk_connected g = false ∧ ∃ out, tk_output g = Some (Ok out)
      | Err _ => tk_connected g = tk_refused g
      end
  | GrSetHeadToBranch _ _ _ _ _ _ => λ r g, match r with
      | Panic _ => True
      | Ok _ => tk_connected g = false ∧ ∃ out, tk_output g = Some (Ok out)
      | Err _ => tk_connected g = tk_refused g
      end
  end.

(** ** Every method *)

Section Methods.
Context {X : Externals} {A : Type} (method : gerrit_call A) (port : Z) (key host user : string).
Context (Hparties : gerrit_parties method = (port, key, host, user)).
#[local] Abbreviation gm := (gerrit_monitor method).
#[local] Abbreviation cl := {| sc_Host := host; sc_Port := port; sc_User := user; sc_Key := key |}.

(** Nothing is open. *)
Definition aside {R} (r : res R) (_ : unit) (g : talking) : Prop :=
  match r with Panic _ => True | _ => tk_connected g = false ∧ tk_refused g = false end.

Lemma wp_gerrit_init (Q : res SSHClient → unit → talking → Prop) :
  (∀ g, tk_known g = true → tk_connected g = false → tk_session g = false → tk_output g = None →
     tk_refused g = false → Q (Ok cl) tt g) →
  (∀ r g, is_ok r = false → aside r tt g → Q r tt g) →
  wp gm (SshInit port key host user) tt talking_start Q.
Proof.
  intros HQ Hbad. unfold SshInit, ClientConfig, Source.
  do 3 wp_step. wp_step; [cbn; unfold gerrit_guar; by rewrite Hparties|].
  intros [[]|e|w] _; cbn; [|wp_step; by apply Hbad|by apply Hbad].
  do 3 wp_step. wp_step; [cbn; unfold gerrit_guar; by rewrite Hparties|].
  intros [[]|e|w] _; cbn; [wp_step; by apply HQ| |by apply Hbad].
  do 3 wp_step. wp_step; [cbn; unfold gerrit_guar; by rewrite Hparties|].
  intros o _. cbn. wp_step. wp_step. by apply Hbad.
Qed.

Lemma wp_gerrit_run g (Q : res string → unit → talking → Prop) :
  tk_known g = true → tk_connected g = false → tk_session g = false → tk_output g = None →
  tk_refused g = false →
  (∀ r g', match r with
     | Ok out => tk_connected g' = false ∧ tk_refused g' = false ∧ tk_output g' = Some (Ok out)
     | Err _ => tk_connected g' = tk_refused g'
     | Panic _ => True
     end → Q r tt g') →
  wp gm (RunCommand cl (gerrit_command method)) tt g Q.
Proof.
  intros Hk Hc Hs Ho Hr HQ. unfold RunCommand, NewSession, close_ssh. cbn [sc_Host sc_Port sc_User sc_Key].
  do 4 wp_step. wp_step; [cbn; unfold gerrit_guar; by rewrite Hparties|].
  intros [[]|e|w] _; cbn -[HostPort]; [| |by apply HQ].
  2: { wp_step. apply wp_Enrich; [intros g'; cbn; unfold gerrit_guar; by rewrite Hparties|done|].
       intros e' _. wp_step. by apply HQ. }
  wp_step. wp_step. wp_step; [cbn; unfold gerrit_guar; by rewrite Hparties|].
  intros [[]|e|w] _; cbn -[HostPort]; [|wp_step; by apply HQ|by apply HQ].
  wp_step. wp_step. wp_step. wp_step; [cbn; unfold gerrit_guar; by rewrite Hparties|].
  intros out _. cbn -[HostPort].
  (* however the command ended, the session and the connection are closed *)
  assert (Hclose : ∀ r g', (∀ v, r = Ok v → tk_output g' = Some (Ok v)) → tk_session g' = true →
    tk_connected g' = true → tk_refused g' = false →
    wp gm (attempt (do_res (CSsh (SshCloseSession (HostPort host port)))) ;;;
           attempt (do_res (CSsh (SshCloseConnection (HostPort host port)))) ;;; ret tt) tt g'
      (λ r' s'' g'', Q (match r' with Panic w => Panic w | _ => r end) s'' g'')).
  { intros r g' Hout Hs' Hc' Hr'.
    wp_step. wp_step. wp_step; [cbn -[HostPort]; unfold gerrit_guar; by rewrite Hparties|].
    intros c1 _. cbn -[HostPort]. destruct c1 as [[]|e|w]; cbn -[HostPort]; [| |by apply HQ].
    all: wp_step; wp_step; wp_step; [cbn -[HostPort]; unfold gerrit_guar; by rewrite Hparties|].
    all: intros c2 _; cbn -[HostPort]; destruct c2 as [[]|e2|w2]; cbn -[HostPort]; [| |by apply HQ].
    all: wp_step; apply HQ; destruct r; auto. }
  destruct out as [v|e|w]; cbn -[HostPort]; [|wp_step|]; apply Hclose; try done; by intros v0 [= ->].
Qed.
End Methods.

(** ** Properties *)

(** C17: However the ssh library and the environment answer, a call of the Gerrit client parses
    the given key, connects only after the known host keys were loaded, to the given host and
    port (22 for none) with the given user and key, and runs exactly its own command, at most
    once, in an open session. It succeeds only if the command did, a project exists when the
    output lists it, and unless the session was refused the connection is closed again. *)
Theorem gerrit_client_safe {X : Externals} {A} (c : gerrit_call A) :
  safe (gerrit_monitor c) (gerrit_client c) talking_start (λ r g, gerrit_post c r g).
Proof.
  destruct c as [port key host user project|port key host user project|port key host user project branch];
    cbn [gerrit_client]; apply safe_answer.
  all: match goal with |- wp (gerrit_monitor ?c) _ _ _ _ => set (method := c) end.
  all: assert (Hinit := wp_gerrit_init method port key host user eq_refl).
  all: assert (Hrun := wp_gerrit_run method port key host user eq_refl).
  - unfold CheckProjectExist. wp_step. wp_step. apply Hinit; [|].
    + intros g Hk Hc Hs Ho Hr. wp_step. wp_step. apply Hrun; try done.
      intros [out|e|w] g' Hg'; [|wp_step; exact Hg'|done]. destruct Hg' as (Hc'&Hr'&Ho').
      wp_step. cbn. destruct (project_listed out project) eqn:Hl; [|congruence|done].
      split; [done|]. by exists out.
    + intros [?|e|w] g Hbad Hg; [done| |done]. wp_step. cbn. destruct Hg; congruence.
  - unfold CreateProject. wp_step. apply Hinit; [|].
    + intros g Hk Hc Hs Ho Hr. wp_step. apply Hrun; try done.
      intros [out|e|w] g' Hg'; [|exact Hg'|done]. destruct Hg' as (Hc'&Hr'&Ho').
      wp_step. split; [done|]. by exists out.
    + intros [?|e|w] g Hbad Hg; [done| |done]. cbn. destruct Hg; congruence.
  - unfold SetHeadToBranch. wp_step. apply Hinit; [|].
    + intros g Hk Hc Hs Ho Hr. wp_step. apply Hrun; try done.
      intros [out|e|w] g' Hg'; [|exact Hg'|done]. destruct Hg' as (Hc'&Hr'&Ho').
      wp_step. split; [done|]. by exists out.
    + intros [?|e|w] g Hbad Hg; [done| |done]. cbn. destruct Hg; congruence.
Qed.
