(* ===== verification/GitClientSafety.v ===== *)
(** * GitClientSafety: what a method of the git client may do

    A call of the [Git] interface, however go-git and the servers answer, touches only its own
    directory and url, shows only the configured credentials, changes what it is asked to
    change and closes the sessions it opens. A branch is created on a server by one command
    that cannot move an existing one. *)

From S2P Require Import Prelude GoStd Api Effects Externals Urls SshHostKey GitClient Linking Simulation.

(** ** The specification *)

(** The directory, the urls and the credentials of a call of go-git. *)
Definition directory_of {R} (c : gogit_call R) : option string :=
  match c with
  | GgPlainClone path _ _ _ | GgPlainOpen path | GgPlainInit path _ | GgFetch path _ | GgPush path _
  | GgReference path _ | GgHead path | GgRemote path _ | GgDeleteRemote path _ | GgCreateRemote path _ _
  | GgRemoveReference path _ | GgWorktree path | GgAddAll path | GgStatus path | GgCommit path _ _
  | GgCheckout path _ => Some path
  | _ => None
  end.
Definition urls_of {R} (c : gogit_call R) : list string :=
  match c with
  | GgPlainClone _ _ url _ | GgNewClient url | GgNewSession _ url _ | GgAdvertisedReferences _ url
  | GgReceivePack url _ | GgClose _ url => [url]
  | GgCreateRemote _ _ urls | GgMemoryRemote _ urls | GgList urls _ => urls
  | _ => []
  end.
Definition auth_of {R} (c : gogit_call R) : option AuthMethod :=
  match c with
  | GgPlainClone _ _ _ auth | GgList _ auth | GgNewSession _ _ auth => Some auth
  | GgFetch _ o => Some (fo_Auth o)
  | GgPush _ o => Some (po_Auth o)
  | _ => None
  end.

(** Those of a method. *)
Definition method_directory {R} (c : git_call R) : option string :=
  match c with
  | GClone _ destination => Some destination
  | GCommit directory _ _ | GPush directory _ | GCheckout directory _ _ | GGetCurrentBranchName directory
  | GRemoveBranch directory _ | GCreateChildBranch directory _ _ | GInit directory
  | GAddRemoteLink directory _ | GCheckoutRemoteBranch directory _ => Some directory
  | _ => None
  end.
Definition method_url {R} (c : git_call R) : option string :=
  match c with
  | GClone url _ | GCheckPermissions url | GListRemoteBranches url | GResolveRemoteReference url _
  | GCreateRemoteBranchViaRefUpdate url _ _ | GAddRemoteLink _ url => Some url
  | _ => None
  end.

(** The ssh key if there is one, else the token, as its provider wants it. *)
Definition credentials (cfg : Config) : AuthMethod :=
  if bool_decide (cfg_SSHKey cfg = "") then
    if bool_decide (cfg_Token cfg = "") then NoAuth
    else BasicAuth (if bool_decide (cfg_GitProvider cfg = GitProviderGitlab) then "oauth2"
                    else cfg_Username cfg) (cfg_Token cfg)
  else PublicKeys (if bool_decide (cfg_SSHUser cfg = "") then "git" else cfg_SSHUser cfg) (cfg_SSHKey cfg).

(** What happened: the open sessions, the advertisements seen, the reference updates sent,
    whether the work tree was found dirty and the branch found, a panic of go-git. *)
Record doing := {
  dg_open : list (service * string); dg_upload : option AdvRefs; dg_receive : option AdvRefs;
  dg_sent : bool; dg_dirty : bool; dg_branch : bool; dg_panicked : bool }.
Definition doing_nothing : doing :=
  {| dg_open := []; dg_upload := None; dg_receive := None; dg_sent := false; dg_dirty := false;
     dg_branch := false; dg_panicked := false |}.

#[export] Instance service_eq_dec : EqDecision service.
Proof. solve_decision. Defined.

Definition set_open (l : list (service * string)) (g : doing) : doing :=
  {| dg_open := l; dg_upload := dg_upload g; dg_receive := dg_receive g; dg_sent := dg_sent g;
     dg_dirty := dg_dirty g; dg_branch := dg_branch g; dg_panicked := dg_panicked g |}.
Definition advertised (s : service) (r : res AdvRefs) (g : doing) : doing :=
  match r with
  | Ok adv =>
    {| dg_open := dg_open g;
       dg_upload := match s with UploadPack => Some adv | _ => dg_upload g end;
       dg_receive := match s with ReceivePack => Some adv | _ => dg_receive g end;
       dg_sent := dg_sent g; dg_dirty := dg_dirty g; dg_branch := dg_branch g; dg_panicked := dg_panicked g |}
  | Err _ => g
  | Panic _ =>
    {| dg_open := dg_open g; dg_upload := dg_upload g; dg_receive := dg_receive g; dg_sent := dg_sent g;
       dg_dirty := dg_dirty g; dg_branch := dg_branch g; dg_panicked := true |}
  end.
Definition has_sent (g : doing) : doing :=
  {| dg_open := dg_open g; dg_upload := dg_upload g; dg_receive := dg_receive g; dg_sent := true;
     dg_dirty := dg_dirty g; dg_branch := dg_branch g; dg_panicked := dg_panicked g |}.
Definition saw_status (r : res bool) (g : doing) : doing :=
  {| dg_open := dg_open g; dg_upload := dg_upload g; dg_receive := dg_receive g; dg_sent := dg_sent g;
     dg_dirty := match r with Ok clean => negb clean | _ => false end; dg_branch := dg_branch g;
     dg_panicked := dg_panicked g |}.
Definition saw_reference (r : res unit) (g : doing) : doing :=
  {| dg_open := dg_open g; dg_upload := dg_upload g; dg_receive := dg_receive g; dg_sent := dg_sent g;
     dg_dirty := dg_dirty g; dg_branch := is_ok r; dg_panicked := dg_panicked g |}.

Definition doing_step (g : doing) : ∀ R, call R → R → doing := λ R c,
  match c in call R return R → doing with
  | CGoGit gc => match gc in gogit_call R return R → doing with
      | GgNewSession s url _ => λ r, match r with Ok _ => set_open ((s, url) :: dg_open g) g | _ => g end
      | GgAdvertisedReferences s _ => λ r, advertised s r g
      | GgClose s url => λ _, set_open (List.filter (λ x, negb (bool_decide (x = (s, url)))) (dg_open g)) g
      | GgReceivePack _ _ => λ _, has_sent g
      | GgStatus _ => λ r, saw_status r g
      | GgReference _ _ => λ r, saw_reference r g
      | _ => λ _, g
      end
  | _ => λ _, g
  end.

Section Spec.
Context {X : Externals} (cfg : Config) {A : Type} (method : git_call A).

(** The calls that change a repository or a server, and the protocol of a session. *)
Definition change_allowed (g : doing) {R} (c : gogit_call R) : Prop :=
  match c with
  | GgPlainClone _ isBare _ _ => isBare = false ∧ match method with GClone _ _ => True | _ => False end
  | GgPlainInit _ isBare => isBare = false ∧ match method with GInit _ => True | _ => False end
  | GgPush _ o => match method with GPush _ refspecs => po_RefSpecs o = refspecs | _ => False end
  | GgFetch _ _ => match method with
      | GClone _ _ | GCheckout _ _ true | GCheckoutRemoteBranch _ _ => True
      | _ => False
      end
  | GgCommit _ message o => match method with
      | GCommit _ m allowEmpty => message = m ∧ cmo_AllowEmptyCommits o = allowEmpty
          ∧ (allowEmpty = true ∨ dg_dirty g = true)
      | _ => False
      end
  | GgCheckout _ o => match method with
      | GCheckout _ b remote => co_Branch o = NewBranchReferenceName b
          ∧ co_Create o = negb (remote && dg_branch g)
      | GCheckoutRemoteBranch _ b => co_Branch o = NewBranchReferenceName b ∧ co_Create o = false
      | GCreateChildBranch _ parent new =>
          co_Branch o = NewBranchReferenceName parent ∧ co_Create o = false
          ∨ co_Branch o = NewBranchReferenceName new ∧ co_Create o = true ∧ co_Force o = false
      | _ => False
      end
  | GgRemoveReference _ name => match method with
      | GRemoveBranch _ b => name = NewBranchReferenceName b
      | _ => False
      end
  | GgDeleteRemote _ name | GgCreateRemote _ name _ =>
      name = "origin" ∧ match method with GAddRemoteLink _ _ => True | _ => False end
  | GgNewSession s url _ => (s, url) ∉ dg_open g
  | GgAdvertisedReferences s url | GgClose s url => (s, url) ∈ dg_open g
  | GgReceivePack url req => match method with
      | GCreateRemoteBranchViaRefUpdate _ b fromRef =>
          (ReceivePack, url) ∈ dg_open g ∧ dg_sent g = false ∧ fromRef ≠ ""
          ∧ ∃ offered known hash, dg_receive g = Some offered ∧ dg_upload g = Some known
            ∧ resolves known fromRef hash
            ∧ ar_References offered !! NewBranchReferenceName b = None
            ∧ req = {| ru_Capabilities := ar_Capabilities offered; ru_Packfile := emptyPackfile;
                       ru_Commands := [{| cmd_Name := NewBranchReferenceName b; cmd_Old := ZeroHash;
                                          cmd_New := NewHash hash |}] |}
      | _ => False
      end
  | _ => True
  end.

Definition method_guar (g : doing) : ∀ R, call R → Prop := λ R c,
  match c with
  | CGoGit gc =>
      (∀ d, directory_of gc = Some d → method_directory method = Some d)
      ∧ (∀ url, url ∈ urls_of gc → method_url method = Some url)
      ∧ (∀ auth, auth_of gc = Some auth → auth = credentials cfg)
      ∧ change_allowed g gc
  | CSys (ParsePrivateKey key) => key = cfg_SSHKey cfg ∧ key ≠ ""
  | CSys (LookupEnv name) => name = knownHostsEnvVar
  | CSys Now => True
  | _ => False
  end.

Definition method_monitor : monitor doing :=
  {| rely _ _ _ _ := True; guar := method_guar; step := doing_step |}.
End Spec.

(** ** Every method *)

Section Methods.
Context {X : Externals} {L : ExternalsLaws X} (cfg : Config) {A : Type} (method : git_call A).
#[local] Abbreviation mm := (method_monitor cfg method).
#[local] Abbreviation config := (NewGitProvider cfg).

(** The sessions opened are closed again, unless go-git panicked. *)
Definition settled {R} (_ : res R) (_ : unit) (g : doing) : Prop := dg_panicked g = false → dg_open g = [].
Definition idle (_ : unit) (g : doing) : Prop := dg_open g = [].
Definition unchanged (g0 : doing) (_ : unit) (g : doing) : Prop := g = g0.

Lemma wp_auth g (Q : res AuthMethod → unit → doing → Prop) :
  Q (Ok (credentials cfg)) tt g → (∀ r, is_ok r = false → Q r tt g) →
  wp mm (authentication config) tt g Q.
Proof.
  intros Hok Hbad. unfold authentication, getAuth. wp_step. unfold credentials in Hok. cbn.
  case_bool_decide as Hkey; cbn.
  - case_bool_decide as Htok; cbn; wp_step; [done|].
    unfold getTokenAuth. cbn. revert Hok.
    repeat case_bool_decide; try done; unfold GitProviderGithub, GitProviderGitlab in *; congruence.
  - do 3 wp_step. wp_step; [done|]. intros [[]|e|w] _; cbn; [wp_step; exact Hok|wp_step|]; try wp_step; by apply Hbad.
Qed.

Lemma wp_failing_remote {R} prefix url e g (Q : res R → unit → doing → Prop) :
  (∀ r, is_ok r = false → Q r tt g) → wp mm (remote_failed prefix url e) tt g Q.
Proof.
  intros HQ. unfold remote_failed, remoteErr. wp_step. apply wp_Enrich; [done|done|].
  intros e' _. wp_step. by apply HQ.
Qed.

Lemma wp_failing_origin {R} prefix dir e g (Q : res R → unit → doing → Prop) :
  method_directory method = Some dir → (∀ r, is_ok r = false → Q r tt g) →
  wp mm (origin_failed prefix dir e) tt g Q.
Proof.
  intros Hd HQ. unfold origin_failed, originURL. do 4 wp_step. wp_step.
  { cbn. split_and!; [by intros ? [= <-]|set_solver|done|done]. }
  intros [urls|e'|w] _; cbn; [| |by apply HQ]; wp_step; by apply wp_failing_remote.
Qed.

(** ** Sessions *)

(** A failure is passed on. *)
Ltac passed_on H := intros [?|?|?] ?; [done|by apply H; auto..].

(** A call of the session of [url], which is the url of the method. *)
Lemma guar_session {R} (c : gogit_call R) url g :
  directory_of c = None → urls_of c = [url] → method_url method = Some url →
  (∀ auth, auth_of c = Some auth → auth = credentials cfg) → change_allowed method g c →
  guar mm g _ (CGoGit c).
Proof.
  intros Hd Hu Hm Ha Hc. cbn. split_and!; [|rewrite Hu|done|done].
  - intros d. by rewrite Hd.
  - intros u ->%list_elem_of_singleton. done.
Qed.

Lemma wp_close_session s url g (Q : res unit → unit → doing → Prop) :
  method_url method = Some url → dg_open g = [(s, url)] →
  (∀ r, match r with Err _ => False | _ => True end → Q r tt (set_open [] g)) →
  wp mm (close_session s url) tt g Q.
Proof.
  intros Hm Ho HQ. unfold close_session. do 3 wp_step.
  wp_step; [apply (guar_session _ url); cbn; try done; rewrite Ho; set_solver|].
  intros r _. cbn. rewrite Ho. cbn. rewrite bool_decide_true by done. cbn.
  destruct r as [[]|e|w]; cbn; [wp_step|wp_step|]; by apply HQ.
Qed.

Lemma wp_transport url g (Q : res AuthMethod → unit → doing → Prop) :
  method_url method = Some url →
  Q (Ok (credentials cfg)) tt g → (∀ r, is_ok r = false → Q r tt g) →
  wp mm (newTransportClient config url) tt g Q.
Proof.
  intros Hm Hok Hbad. unfold newTransportClient. wp_step. apply wp_auth; [|passed_on Hbad].
  do 3 wp_step. destruct (NewEndpoint url) as [ep|e|w]; [|wp_step; by apply Hbad|by apply Hbad].
  do 3 wp_step. wp_step; [by apply (guar_session _ url)|].
  intros [[]|e|w] _; cbn; [by wp_step|wp_step|]; by apply Hbad.
Qed.

(** The upload-pack advertisement, with the session left open when there is one. *)
Lemma wp_upload url g (Q : res AdvRefs → unit → doing → Prop) :
  method_url method = Some url → dg_open g = [] →
  (∀ adv, Q (Ok adv) tt (advertised UploadPack (Ok adv) (set_open [(UploadPack, url)] g))) →
  (∀ r g', is_ok r = false → dg_panicked g' = true ∨ dg_open g' = [] → Q r tt g') →
  wp mm (advertisedReferences config url) tt g Q.
Proof.
  intros Hm Ho HQ Hbad. unfold advertisedReferences. wp_step.
  apply wp_transport; [done| |passed_on Hbad].
  do 2 wp_step. wp_step. wp_step; [apply (guar_session _ url); cbn; try done; [by intros ? [= <-]|rewrite Ho; set_solver]|].
  intros [[]|e|w] _; cbn; [|apply wp_failing_remote; passed_on Hbad|by apply Hbad; auto].
  rewrite Ho. wp_step. wp_step; [apply (guar_session _ url); cbn; try done; set_solver|].
  intros [adv|e|w] _; cbn; [apply HQ| |by apply Hbad; auto].
  wp_step. apply wp_close_session; [done|done|]. intros [[]|?|w] Hr; [|done|by apply Hbad; auto].
  destruct (_ || _); [wp_step; by apply Hbad; auto|]. apply wp_failing_remote. intros r Hr'. by apply Hbad; auto.
Qed.

(** A resolved reference is what git finds in the advertisement seen. *)
Lemma wp_resolve url ref g (Q : res string → unit → doing → Prop) :
  method_url method = Some url → dg_open g = [] →
  (∀ adv h, resolves adv ref h → Q (Ok h) tt (set_open [] (advertised UploadPack (Ok adv) g))) →
  (∀ r g', is_ok r = false → dg_panicked g' = true ∨ dg_open g' = [] → Q r tt g') →
  wp mm (ResolveRemoteReference config url ref) tt g Q.
Proof.
  intros Hm Ho HQ Hbad. unfold ResolveRemoteReference. wp_step.
  apply wp_upload; [done|done| |intros [a|e|w] g' ? ?; [done|by apply Hbad..]].
  intros adv. wp_step. wp_step. apply wp_close_session; [done|done|].
  intros r Hr. pose proof (resolveAdvertisedRef_cases adv ref) as Hc.
  destruct r as [[]|?|w]; [|done|by apply Hbad; auto].
  destruct (resolveAdvertisedRef adv ref) as [h|e|w]; [|by apply Hbad; auto|done].
  exact (HQ adv h Hc).
Qed.

End Methods.

Section Cases.
Context {X : Externals} {L : ExternalsLaws X} (cfg : Config).
#[local] Abbreviation config := (NewGitProvider cfg).
#[local] Abbreviation mm c := (method_monitor cfg c).

Section Create.
Context (url b fromRef : string).
#[local] Abbreviation method := (GCreateRemoteBranchViaRefUpdate url b fromRef).

(** Between the lookup and the update. *)
Definition ready (hash : string) (g : doing) : Prop :=
  dg_sent g = false ∧ ∃ known, dg_upload g = Some known ∧ resolves known fromRef hash.

Lemma wp_update hash g (Q : res unit → unit → doing → Prop) :
  fromRef ≠ "" → dg_open g = [(ReceivePack, url)] → ready hash g →
  (∀ r g', dg_open g' = [(ReceivePack, url)] → Q r tt g') →
  wp (mm method) (update_reference url b hash) tt g Q.
Proof.
  intros Hne Ho (Hsent&known&Hup&Hres) HQ. unfold update_reference. do 3 wp_step.
  wp_step; [apply (guar_session _ _ _ url); cbn; try done; rewrite Ho; set_solver|].
  intros [adv|e|w] _; cbn; [|apply wp_failing_remote; intros [a|e'|w] ?; [done|by apply HQ..]|by apply HQ].
  destruct (ar_References adv !! _) eqn:Habs; [wp_step; by apply HQ|].
  do 2 wp_step. wp_step.
  - apply (guar_session _ _ _ url); try done. cbn. rewrite Ho. split_and!; [set_solver|done|done|].
    by exists adv, known, hash.
  - intros [r|e|w] _; cbn; [|wp_step; by apply HQ|by apply HQ].
    destruct r as [[e|]|]; wp_step; by apply HQ.
Qed.

Lemma wp_create g :
  dg_open g = [] → dg_sent g = false →
  wp (mm method) (CreateRemoteBranchViaRefUpdate config url b fromRef) tt g settled.
Proof.
  intros Ho Hsent. unfold CreateRemoteBranchViaRefUpdate. case_bool_decide as Hne; [wp_step; by intros _|].
  assert (Hbad : ∀ R (r : res R) g', is_ok r = false → dg_panicked g' = true ∨ dg_open g' = [] → settled r tt g').
  { intros R r g' _ [Hp|Ho'] Hn; congruence. }
  wp_step. apply wp_resolve; [done|done| |intros [a|e|w] g' ? ?; [done|by apply Hbad..]].
  intros adv h Hres. wp_step. apply wp_transport; [done| |intros [a|e|w] ?; [done|by apply Hbad; auto..]].
  wp_step. do 2 wp_step.
  wp_step; [apply (guar_session _ _ _ url); cbn; try done; [by intros ? [= <-]|set_solver]|].
  intros [[]|e|w] _; cbn; [|apply wp_failing_remote; intros [a|e'|w] ?; [done|by apply Hbad; auto..]|by apply Hbad; auto].
  wp_step. apply (wp_update h); [done|done|split; [done|by exists adv]|].
  intros r g' Ho'. apply wp_close_session; [done|done|]. by intros r' _ _.
Qed.
End Create.

(** ** Methods without sessions *)

Lemma settled_keeps {R B} (c : git_call B) (h : M unit R) g :
  keeps (mm c) idle h → dg_open g = [] → wp (mm c) h tt g settled.
Proof. intros Hh Ho. eapply wp_keeps; [exact Hh|exact Ho|]. by intros r [] g' H _. Qed.

Lemma wp_auth_then {R B} (c : git_call B) (k : AuthMethod → M unit R) g :
  wp (mm c) (k (credentials cfg)) tt g settled → dg_open g = [] →
  wp (mm c) (mbind (authentication config) k) tt g settled.
Proof. intros Hk Ho. wp_step. apply wp_auth; [done|]. intros [a|e|w] ?; [done|by intros _..]. Qed.

(** A call of go-git inside the method's directory or at its url. *)
Ltac go_git_guar :=
  cbn; refine (conj _ (conj _ (conj _ _)));
    [by intros ? [= <-] || by intros ?
    |intros ?; rewrite ?list_elem_of_singleton; try set_solver; by intros ->
    |by intros ? [= <-] || by intros ?
    |repeat split; auto].
Ltac go_git_call := apply keeps_do_res; intros [] ? ?; split; [solve [go_git_guar]|by intros].
Ltac keeps_git :=
  repeat first [ keeps_step | go_git_call | keeps_neutral | keeps_unfold ].

(** Open a directory and go on. *)
Lemma wp_first {R R' B} (c : git_call B) (h : M unit R') (k : R' → M unit R) g :
  keeps (mm c) (unchanged g) h → dg_open g = [] → (∀ a, wp (mm c) (k a) tt g settled) →
  wp (mm c) (mbind h k) tt g settled.
Proof.
  intros Hh Ho Hk. wp_step. eapply wp_keeps; [exact Hh|done|]. intros [a|e|w] [] g' ->; [apply Hk|by intros _..].
Qed.

Lemma wp_clone url dir g : dg_open g = [] → wp (mm (GClone url dir)) (Clone config url dir) tt g settled.
Proof. intros Ho. unfold Clone. apply wp_auth_then; [|done]. apply settled_keeps; [keeps_git|done]. Qed.

Lemma wp_git_push dir refs g : dg_open g = [] → wp (mm (GPush dir refs)) (Push config dir refs) tt g settled.
Proof.
  intros Ho. unfold Push. apply wp_first; [keeps_git|done|]. intros _. apply wp_auth_then; [|done].
  apply settled_keeps; [keeps_git|done].
Qed.

Lemma wp_commit dir msg e g :
  dg_open g = [] → wp (mm (GCommit dir msg e)) (Commit dir msg e) tt g settled.
Proof.
  intros Ho. unfold Commit. do 3 (apply wp_first; [keeps_git|done|]; intros _).
  assert (Hc : ∀ g', dg_open g' = [] → (e = true ∨ dg_dirty g' = true) → wp (mm (GCommit dir msg e))
    (time <- now ;; gogit (GgCommit dir msg {| cmo_Name := defaultCommitName; cmo_Email := defaultCommitEmail;
         cmo_When := time; cmo_AllowEmptyCommits := e |}) ?> "failed to commit: ") tt g' settled).
  { intros g' Ho' Hd. do 2 wp_step. wp_step; [done|]. intros t _. do 2 wp_step. wp_step; [go_git_guar|].
    intros [[]|x|w] _; cbn; [by intros _|wp_step; by intros _|by intros _]. }
  wp_step. destruct e; cbn.
  - wp_step. apply Hc; auto.
  - do 2 wp_step. wp_step; [go_git_guar|].
    intros [[]|x|w] _; cbn; [wp_step; by intros _|apply Hc; auto|wp_step; by intros _|by intros _].
Qed.

Lemma wp_checkout dir b remote g :
  dg_open g = [] → dg_branch g = false →
  wp (mm (GCheckout dir b remote)) (Checkout config dir b remote) tt g settled.
Proof.
  intros Ho Hb. unfold Checkout. do 2 (apply wp_first; [keeps_git|done|]; intros _).
  assert (Hc : ∀ g', dg_open g' = [] → wp (mm (GCheckout dir b remote))
    (gogit (GgCheckout dir {| co_Branch := NewBranchReferenceName b; co_Force := true;
       co_Create := negb (remote && dg_branch g') |}) ?> "failed to checkout branch: ") tt g' settled).
  { intros g' Ho'. do 2 wp_step. wp_step; [go_git_guar|].
    intros [[]|x|w] _; cbn; [by intros _|wp_step; by intros _|by intros _]. }
  wp_step. destruct remote; cbn in Hc; [|wp_step; exact (Hc g Ho)].
  wp_step. apply wp_auth; [|intros [a|e|w] ?; [done|by intros _..]].
  wp_step. eapply wp_keeps with (J := idle); [keeps_git|done|].
  intros [[]|e|w] [] g' Ho'; [|by intros _..]. do 3 wp_step. wp_step; [go_git_guar|].
  intros r _. cbn. pose proof (Hc (saw_reference r g') Ho') as Hr. unfold gogit in Hr.
  destruct r as [[]|e|w]; cbn in *; [wp_step; exact Hr|wp_step; exact Hr|by intros _].
Qed.

Lemma wp_list {R B} (c : git_call B) url g (k : list string + error → M unit R) :
  method_url c = Some url →
  dg_open g = [] → (∀ r g', dg_open g' = [] → wp (mm c) (k r) tt g' settled) →
  wp (mm c) (auth <- authentication config ;; memory_remote url ;;; r <- attempt (gogit (GgList [url] auth)) ;; k r)
    tt g settled.
Proof.
  intros Hu Ho Hk. apply wp_auth_then; [|done]. unfold memory_remote. do 3 wp_step.
  wp_step; [go_git_guar|]. intros [[]|e|w] _; cbn; [|wp_step; by intros _|by intros _].
  do 2 wp_step. wp_step; [go_git_guar|]. intros [l|e|w] _; cbn; [by apply Hk|by apply Hk|by intros _].
Qed.

Lemma settled_failing {R B} (c : git_call B) prefix url e g :
  dg_open g = [] → wp (mm c) (remote_failed prefix url e : M unit R) tt g settled.
Proof. intros Ho. apply wp_failing_remote. by intros r _ _. Qed.

Lemma wp_list_branches url g :
  dg_open g = [] → wp (mm (GListRemoteBranches url)) (ListRemoteBranches config url) tt g settled.
Proof.
  intros Ho. apply wp_list; [done|done|]. intros [refs|e] g' Ho'; [wp_step; by intros _|].
  destruct (err_is _ _); [wp_step; by intros _|by apply settled_failing].
Qed.

Lemma wp_permissions url g :
  dg_open g = [] → wp (mm (GCheckPermissions url)) (CheckPermissions config url) tt g settled.
Proof.
  intros Ho. unfold CheckPermissions. destruct (_ && _); [wp_step; by intros _|].
  apply wp_list; [done|done|]. intros [refs|e] g' Ho'; [wp_step; by intros _|].
  apply settled_keeps; [keeps_git|done].
Qed.

Lemma wp_method {B} (c : git_call B) :
  safe (mm c) (git_client cfg c) doing_nothing (λ _ g, dg_panicked g = false → dg_open g = []).
Proof.
  destruct c as [url dir|dir msg e|dir refs|dir b remote|dir|url|url|url ref|url b ref|dir b|dir p n|dir|dir url|dir b];
    cbn [git_client]; apply safe_answer;
    (eapply wp_mono with (Q := settled); [|intros r [] g' H; exact H]).
  - by apply wp_clone.
  - by apply wp_commit.
  - by apply wp_git_push.
  - by apply wp_checkout.
  - apply settled_keeps; [keeps_git|done].
  - by apply wp_permissions.
  - by apply wp_list_branches.
  - apply wp_resolve; [done|done|done|]. intros r g' _ [Hp|Ho] Hn; congruence.
  - by apply wp_create.
  - apply settled_keeps; [keeps_git|done].
  - apply settled_keeps; [keeps_git|done].
  - apply settled_keeps; [keeps_git|done].
  - apply settled_keeps; [keeps_git|done].
  - unfold CheckoutRemoteBranch. apply wp_first; [keeps_git|done|]. intros _.
    apply wp_auth_then; [|done]. apply settled_keeps; [keeps_git|done].
Qed.
End Cases.

(** ** Properties *)

(** C9: However go-git, the servers and the environment answer, a call of the git client works
    in its own directory and at its own url only, parses the configured ssh key or sends the
    configured credentials and no others, commits only a dirty work tree (unless an empty
    commit is asked for), creates a local branch only if none was found, pushes what it is
    asked to push, and creates a branch on a server with one command, sent at most once in an
    open session, from nothing to the commit git finds for the given reference, only if the
    server did not advertise the branch. Every session it opened is closed when it returns. *)
Theorem git_client_safe {X : Externals} {L : ExternalsLaws X} cfg {B} (c : git_call B) :
  safe (method_monitor cfg c) (git_client cfg c) doing_nothing
    (λ _ g, dg_panicked g = false → dg_open g = []).
Proof. apply wp_method. Qed.

(** A branch from an annotated tag: one command, with the commit the tag points to. *)
Definition sim_config : Config :=
  {| cfg_GitProvider := GitProviderGitlab; cfg_SSHKey := ""; cfg_SSHUser := ""; cfg_SSHPort := 0;
     cfg_Token := "token"; cfg_Username := "" |}.
Definition branch_from_tag : git_call (res unit) :=
  GCreateRemoteBranchViaRefUpdate "https://git.example.com/team/app" "release/1" "v1".
Definition branch_trace : list obs :=
  trace sim (@git_client reference sim_config _ branch_from_tag) (sim_push sim_start).

Definition commands_of (o : obs) : list Command :=
  match o with Obs _ (CGoGit (GgReceivePack _ req)) _ => ru_Commands req | _ => [] end.

Lemma git_client_safe_witness :
  flat_map commands_of branch_trace
  = [{| cmd_Name := "refs/heads/release/1"; cmd_Old := "0000000000000000000000000000000000000000";
        cmd_New := sim_commit |}]
  ∧ dg_open (ghost_after (@method_monitor reference sim_config _ branch_from_tag) doing_nothing branch_trace) = [].
Proof.
  split; [vm_compute; reflexivity|].
  refine (safe_exec _ sim _ _ _ (sim_push sim_start) (@git_client_safe reference reference_laws sim_config _ branch_from_tag) _ _).
  - vm_compute. repeat split.
  - vm_compute. reflexivity.
Defined.
