(* ===== verification/LinkedProvisioning.v ===== *)
(** * LinkedProvisioning: the provisioning contract at the level of go-git

    The contract of [Provisioning] is about calls of the [Git] interface. Here the codebase
    controller is linked to the git client, and the contract is stated of go-git's calls: what
    the server advertises and what is pushed. [git_implements] shows that the client keeps what
    the controller relies on, so the theorem about histories carries over, also to an operator
    killed inside a git operation. *)

From S2P Require Import Prelude GoStd Api Effects Externals Urls SshHostKey GitClient ProviderClients Gerrit Linking.
From S2P Require Import CodebaseCommon PutProject CodebaseController Simulation Provisioning.

(** ** The specification *)

Section Contract.
Context {X : Externals} (sp : CodebaseSpec).

(** The lookup of the default branch, as far as it is decided by the answer to the
    advertisement of references. *)
Definition looked_up (r : res AdvRefs) : res string :=
  match r with
  | Ok adv =>
    match ar_References adv !! NewBranchReferenceName (cs_DefaultBranch sp) with
    | Some hash => Ok hash
    | None => Err (ESentinel ErrReferenceNotFound)
    end
  | Err e =>
    if err_is ErrEmptyRemoteRepository e || err_is ErrRepositoryNotFound e
    then Err (ESentinel ErrReferenceNotFound) else Err (ENew (err_msg e))
  | Panic w => Panic w
  end.

(** No tag has the name of the default branch. *)
Definition untagged (r : res AdvRefs) : Prop :=
  match r with
  | Ok adv => ar_Peeled adv !! NewTagReferenceName (cs_DefaultBranch sp) = None
            ∧ ar_References adv !! NewTagReferenceName (cs_DefaultBranch sp) = None
  | _ => True
  end.

(** An error of a library is not the operator's own. *)
Definition foreign_error {A} (r : res A) : Prop :=
  match r with Err e => err_is ErrReferenceNotFound e = false | _ => True end.

Definition up_to_date (r : res unit) : res unit :=
  match r with Err e => if err_is NoErrAlreadyUpToDate e then Ok tt else Err e | _ => r end.

(** The server advertises the branch exactly when it is there; it answers a push with "up to
    date" only when the branch is there. The API server as in [Provisioning]. *)
Definition remote_rely (g : world) : ∀ R, call R → R → Prop := λ R c,
  match c in call R return R → Prop with
  | CGoGit gc => match gc in gogit_call R return R → Prop with
      | GgAdvertisedReferences UploadPack _ => λ r,
          foreign_error r ∧ untagged r
          ∧ match looked_up r with
            | Ok _ => w_remote g ≠ Absent
            | Err e => err_is ErrReferenceNotFound e = true → w_remote g = Absent ∨ w_remote g = Unsure
            | Panic _ => True
            end
      | GgNewClient _ => foreign_error
      | GgNewSession _ _ _ => foreign_error
      | GgPush _ _ => λ r, match r with
          | Err e => err_is NoErrAlreadyUpToDate e = true → w_remote g ≠ Absent
          | _ => True
          end
      | _ => λ _, True
      end
  | CSys sc => match sc in sys_call R return R → Prop with
      | ParsePrivateKey _ => foreign_error
      | _ => λ _, True
      end
  | CKube kc => λ r, push_rely sp g _ (CKube kc) r
  | _ => λ _, True
  end.

(** The linked controller calls no interface, pushes as [Provisioning] says and updates no
    reference without a push. *)
Definition remote_guar (g : world) : ∀ R, call R → Prop := λ R c,
  match c with
  | CGoGit (GgPush _ o) =>
    if contains (po_RefSpecs o) RefSpecPushAllTags then
      w_remote g = Absent ∧ w_status g = [ProjectPushInProgressStatus]
      ∧ ∃ url, w_checked g = Some (url, cs_DefaultBranch sp) ∧ w_link g = Some url
    else w_remote g = Ours
  | CGoGit (GgReceivePack _ _) => False
  | CGit _ _ | CProvider _ | CGerrit _ => False
  | CKube (KStatusUpdate k o) => write_ok g k o
  | CKube (KStatusPatch k _ o) => write_ok g k o
  | _ => True
  end.

Definition remote_step (g : world) : ∀ R, call R → R → world := λ R c,
  match c in call R return R → world with
  | CGoGit gc => match gc in gogit_call R return R → world with
      | GgAdvertisedReferences UploadPack url => λ r,
          resolved url (cs_DefaultBranch sp) (looked_up r) g
      | GgDeleteRemote _ _ => λ _, set_link None g
      | GgCreateRemote _ _ URLs => λ r,
          set_link (match r, URLs with Ok _, [url] => Some url | _, _ => None end) g
      | GgPush _ _ => λ r, pushed (up_to_date r) g
      | _ => λ _, g
      end
  | CKube kc => λ r, push_step g _ (CKube kc) r
  | _ => λ _, g
  end.

Definition remote_monitor : monitor world :=
  {| rely := remote_rely; guar := remote_guar; step := remote_step |}.

(** What the controller knows of the world, and the world itself: it may have lost the check
    or the link, and may not know whether a push landed that never left. *)
Definition known (g g' : world) : Prop :=
  w_status g = w_status g'
  ∧ (w_checked g = w_checked g' ∨ w_checked g = None)
  ∧ (w_link g = w_link g' ∨ w_link g = None)
  ∧ (w_remote g = w_remote g' ∨ w_remote g = Unsure ∧ w_remote g' ≠ Foreign).

Lemma known_refl g : known g g.
Proof. split_and!; auto. Qed.
End Contract.

(** ** The relation *)

Section Known.
Context (g g' : world).

Lemma known_forget c l :
  known g g' → (c = w_checked g' ∨ c = None) → (l = w_link g' ∨ l = None) → known (set_checked c (set_link l g)) g'.
Proof. intros (Hs&_&_&Hr) Hc Hl. by split_and!. Qed.

Lemma known_uncheck : known g g' → known (set_checked None g) g'.
Proof. intros (Hs&Hc&Hl&Hr). split_and!; cbn; auto. Qed.

(** An answer the controller sees, and what the server said: a panic hides everything. *)
Definition agree (hi lo : res string) : Prop :=
  match hi, lo with
  | Panic _, _ => True
  | Ok _, Ok _ => True
  | Err e, Err e' => err_is ErrReferenceNotFound e = err_is ErrReferenceNotFound e'
  | _, _ => False
  end.

Definition truthful_lookup (w : world) (r : res string) : Prop :=
  match r with
  | Ok _ => w_remote w ≠ Absent
  | Err e => err_is ErrReferenceNotFound e = true → w_remote w = Absent ∨ w_remote w = Unsure
  | Panic _ => True
  end.

Lemma known_resolved url ref hi lo :
  known g g' → agree hi lo → truthful_lookup g' lo →
  truthful_lookup g hi ∧ known (resolved url ref hi g) (resolved url ref lo g').
Proof.
  intros (Hs&Hc&Hl&Hr) Ha Ht. unfold agree, truthful_lookup, resolved in *.
  destruct hi as [h|e|w]; destruct lo as [h'|e'|w']; try done; rewrite ?Ha in *;
    try destruct (err_is ErrReferenceNotFound e');
    destruct Hr as [Hr|[Hr Hf]]; try rewrite Hr; destruct (w_remote g') eqn:E'; cbn in *;
    unfold known; split_and?; cbn; rewrite ?E', ?Hr; cbn; auto; try tauto; try (destruct (Ht eq_refl); done).
Qed.
End Known.

(** ** The git client *)

Section Client.
Context {X : Externals} {L : ExternalsLaws X} (sp : CodebaseSpec).
Context (Hbranch : cs_DefaultBranch sp ≠ "") (Hhash : full_hash (cs_DefaultBranch sp) = false).
Context (Hendpoint : ∀ url, foreign_error (NewEndpoint url)).
#[local] Abbreviation rm := (remote_monitor sp).

(** Nothing the contract speaks of happens. *)
Definition same (g0 : world) (_ : unit) (g : world) : Prop := g = g0.

Lemma safe_neutral {R} (h : M unit R) g (Q : res R → world → Prop) :
  keeps rm (same g) h → (∀ r, Q r g) → safe rm (answer h) g Q.
Proof.
  intros Hh HQ. apply safe_answer. eapply wp_keeps; [exact Hh|done|]. by intros r [] g' ->.
Qed.

(** An operation on the way to the server: the world stays, and so do foreign errors. *)
Definition on_the_way {R} (g0 : world) (r : res R) (_ : unit) (g : world) : Prop := g = g0 ∧ foreign_error r.

(** A failure that says nothing about the branch. *)
Definition broken {R} (g0 : world) (r : res R) (_ : unit) (g : world) : Prop :=
  g = g0 ∧ match r with Ok _ => False | Err e => err_is ErrReferenceNotFound e = false | Panic _ => True end.

Lemma wp_remote_failed {R} prefix url e g :
  err_is ErrReferenceNotFound e = false →
  wp rm (remote_failed prefix url e : M unit R) tt g (broken g).
Proof.
  intros He. unfold remote_failed, remoteErr. wp_step. apply wp_Enrich; [done|done|].
  intros e' He'. wp_step. split; [done|]. cbn. by destruct He' as [->|[p ->]].
Qed.

Lemma wp_authentication config g : wp rm (authentication config) tt g (on_the_way g).
Proof.
  unfold authentication, getAuth. wp_step. destruct (negb _).
  - wp_step. wp_step. wp_step. wp_step; [done|]. intros [[]|e|w] Hr; cbn in *; [by wp_step| |done].
    do 2 wp_step. by split.
  - destruct (negb _); by wp_step.
Qed.

Lemma wp_newTransportClient config url g : wp rm (newTransportClient config url) tt g (on_the_way g).
Proof.
  unfold newTransportClient. wp_step. eapply wp_mono; [apply wp_authentication|].
  intros [auth|e|w] [] g' [-> He]; [|by split..]. specialize (Hendpoint url).
  do 3 wp_step. destruct (NewEndpoint url) as [ep|e|w]; [|by wp_step|done].
  do 3 wp_step. wp_step; [done|]. intros [[]|e|w] Hr; cbn in *; [by wp_step|by wp_step|done].
Qed.

(** Looking up the default branch. *)
Definition outcome (g : world) (url : string) (r : res string) (_ : unit) (g' : world) : Prop :=
  broken g r tt g' ∨ ∃ lo, agree r lo ∧ truthful_lookup g lo ∧ g' = resolved url (cs_DefaultBranch sp) lo g.

Lemma looked_up_cases adv :
  untagged sp (Ok adv) → agree (resolveAdvertisedRef adv (cs_DefaultBranch sp)) (looked_up sp (Ok adv)).
Proof.
  intros [Hp Ht]. unfold resolveAdvertisedRef, looked_up. cbv zeta.
  rewrite bool_decide_false by done. destruct (_ !! NewBranchReferenceName _); [done|].
  rewrite Hp, Ht. destruct (_ && _) eqn:H; [|done].
  apply passthrough_hash in H as [H _]. congruence.
Qed.

Lemma wp_close s url g (Q : res unit → unit → world → Prop) :
  (∀ r, match r with Err _ => False | _ => True end → Q r tt g) → wp rm (close_session s url) tt g Q.
Proof.
  intros HQ. unfold close_session. do 3 wp_step. wp_step; [done|].
  intros [[]|e|w] _; cbn; [| |by apply HQ]; wp_step; by apply HQ.
Qed.

Lemma wp_lookup config url g :
  wp rm (ResolveRemoteReference config url (cs_DefaultBranch sp)) tt g (outcome g url).
Proof.
  unfold ResolveRemoteReference, advertisedReferences. do 2 wp_step.
  eapply wp_mono; [apply wp_newTransportClient|]. intros [auth|e|w] [] g' [-> He]; [|by left..].
  do 3 wp_step. wp_step; [done|].
  intros [[]|e|w] Hr; cbn in Hr;
    [|eapply wp_mono; [by apply wp_remote_failed|]; by intros [v|e'|w'] [] g' []; [|left..]|by left].
  wp_step. wp_step; [done|]. intros r (Hf&Hu&Hl). cbn -[looked_up].
  assert (Hlow : truthful_lookup g (looked_up sp r)) by exact Hl.
  assert (Hout : ∀ a, agree a (looked_up sp r) →
    outcome g url a tt (resolved url (cs_DefaultBranch sp) (looked_up sp r) g)) by (intros; right; eauto).
  destruct r as [adv|e|w]; cbv iota beta; [..|by apply Hout].
  - wp_step. wp_step. apply wp_close. intros r Hr'. apply Hout.
    pose proof (looked_up_cases adv Hu) as Ha. by destruct r.
  - wp_step. apply wp_close. intros r Hr'. destruct r as [[]|?|w]; [|done|by apply Hout].
    cbn in Hf. clear -Hout Hf. unfold looked_up in *. revert Hout.
    destruct (_ || _); intros Hout; [wp_step; by apply Hout|].
    eapply wp_mono; [by apply wp_remote_failed|]. intros [v|e'|w] [] g' [-> Ha]; [done|..]; by apply Hout.
Qed.

(** Pushing: nothing was sent, or the answer decides. *)
Definition push_outcome (g : world) (r : res unit) (_ : unit) (g' : world) : Prop :=
  (g' = g ∧ is_ok r = false) ∨ ∃ lo, g' = pushed lo g ∧ (is_ok r = true → is_ok lo = true).

Lemma wp_unsent {R} (h : M unit R) g (Q : res unit → unit → world → Prop) (k : R → M unit unit) :
  keeps rm (same g) h → (∀ r, is_ok r = false → Q r tt g) → (∀ a, wp rm (k a) tt g Q) →
  wp rm (mbind h k) tt g Q.
Proof.
  intros Hh HQ Hk. wp_step. eapply wp_keeps; [exact Hh|done|]. intros [a|e|w] [] g' ->; auto.
Qed.

Lemma wp_push config dir refspecs g :
  (∀ auth, remote_guar sp g _ (CGoGit (GgPush dir
    {| po_RemoteName := "origin"; po_RefSpecs := refspecs; po_Auth := auth |}))) →
  wp rm (Push config dir refspecs) tt g (push_outcome g).
Proof.
  intros Hg. unfold Push. apply wp_unsent; [keeps_go|by left|]. intros _.
  apply wp_unsent; [keeps_go|by left|]. intros auth.
  unfold unless_up_to_date. wp_step. wp_step. wp_step; [apply Hg|]. intros r _. cbn.
  destruct r as [[]|e|w]; [right; eexists; split; done| |right; eexists; split; done].
  unfold up_to_date. destruct (err_is NoErrAlreadyUpToDate e); [wp_step; right; by exists (Ok tt)|].
  eapply wp_mono with (Q := λ r _ g', g' = pushed (Err e) g ∧ is_ok r = false).
  - unfold origin_failed. wp_step.
    eapply wp_keeps with (J := same (pushed (Err e) g)); [unfold originURL; keeps_go|done|].
    intros [url|e'|w'] [] g' ->; [|done..]. unfold remote_failed, remoteErr. wp_step.
    apply wp_Enrich; [done..|]. intros e' _. by wp_step.
  - intros a [] g' [-> Ha]. right. exists (Err e). split; [done|]. by rewrite Ha.
Qed.

Lemma known_pushed g g' r g1' :
  known g g' → w_remote g = Absent ∨ w_remote g = Ours → push_outcome g' r tt g1' → known (pushed r g) g1'.
Proof.
  intros (Hs&Hc&Hl&Hr) Hg [[-> Hok]|(lo&->&Hok)]; unfold pushed, known; cbn;
    destruct Hr as [Hr|[Hr _]]; try (by destruct Hg; congruence); rewrite <- ?Hr in *;
    destruct Hg as [E|E]; rewrite ?E in *; try destruct lo; destruct r; cbn in *;
    rewrite ?E; split_and?; auto; first [done | by specialize (Hok eq_refl)].
Qed.

Lemma wp_link dir url g :
  wp rm (AddRemoteLink dir url) tt g (λ r _ g', ∃ l, g' = set_link l g ∧ (is_ok r = true → l = Some url)
    ∨ g' = g ∧ is_ok r = false).
Proof.
  unfold AddRemoteLink. wp_step. eapply wp_keeps with (J := same g); [keeps_go|done|].
  intros [[]|e|w] [] g' ->; [|by exists None; right..].
  do 3 wp_step. wp_step; [done|]. intros r _. cbn.
  assert (Hcreate : wp rm (gogit (GgCreateRemote dir "origin" [url]) ?> "failed to create remote: ")
    tt (set_link None g) (λ r _ g', ∃ l, g' = set_link l g ∧ (is_ok r = true → l = Some url)
    ∨ g' = g ∧ is_ok r = false)).
  { do 2 wp_step. wp_step; [done|]. intros [[]|e|w] _; cbn; [|wp_step|]; eexists; left; split; done. }
  destruct r as [[]|e|w]; [exact Hcreate| |exists None; by left].
  destruct (err_is _ _); wp_step; [exact Hcreate|]. exists None. by left.
Qed.

(** A step that touches neither the remote nor the link. *)
Lemma known_status g g' l l' :
  known g g' → l = l' → known (set_status l g) (set_status l' g').
Proof. by intros (Hs&Hc&Hl&Hr) ->. Qed.

(** A write that is truthful for the controller is truthful in the world. *)
Lemma known_write g g' {O} (k : kind O) o : known g g' → write_ok g k o → write_ok g' k o.
Proof.
  intros (_&_&_&Hr) Hw. unfold write_ok in *. destruct (written_git k o); [|done].
  destruct Hr as [Hr|[Hr Hf]]; rewrite Hr in Hw; [done|]. by apply status_ok_unsure.
Qed.

Lemma kube_implemented g g' R (c : kube_call R) :
  known g g' → push_guar sp g _ (CKube c) →
  safe rm (Call (CKube c) Ret) g' (λ r g1', push_rely sp g _ (CKube c) r
    ∧ known (push_step g _ (CKube c) r) g1').
Proof.
  intros Hk Hg. pose proof Hk as (Hs&_). apply safe_call.
  - destruct c; try done; cbn in *; by eapply known_write.
  - intros r Hr. destruct c; cbn in *; rewrite ?Hs; try (split; [exact Hr|exact Hk]).
    all: unfold status_written; destruct (written_git k o); split; try exact Hr; try exact Hk.
    all: apply known_status; [done|]; by rewrite ?Hs.
Qed.

(** A push the controller may make, the client may make. *)
Lemma push_allowed g g' cfg dir refspecs auth :
  known g g' → push_guar sp g _ (CGit cfg (GPush dir refspecs)) →
  remote_guar sp g' _ (CGoGit (GgPush dir
    {| po_RemoteName := "origin"; po_RefSpecs := refspecs; po_Auth := auth |}))
  ∧ (w_remote g = Absent ∨ w_remote g = Ours).
Proof.
  intros (Hs&Hc&Hl&Hr) Hg. cbn in *. destruct (contains refspecs RefSpecPushAllTags).
  - destruct Hg as (Ha&Hst&url&Hch&Hli). split; [|by left]. split_and!; [|congruence|exists url; split].
    + destruct Hr as [Hr|[Hr _]]; congruence.
    + destruct Hc as [Hc|Hc]; congruence.
    + destruct Hl as [Hl|Hl]; congruence.
  - split; [|by right]. destruct Hr as [Hr|[Hr _]]; congruence.
Qed.

Lemma git_call_implemented cfg g g' R (c : git_call R) :
  known g g' → push_guar sp g _ (CGit cfg c) →
  safe rm (git_client cfg c) g' (λ r g1', push_rely sp g _ (CGit cfg c) r
    ∧ known (push_step g _ (CGit cfg c) r) g1').
Proof.
  intros Hk Hg.
  destruct c as [| |dir refspecs| | | | |url ref| | | | |dir url|]; cbn [git_client]; try done;
    try (apply safe_neutral; [keeps_go|done]); apply safe_answer.
  - destruct (push_allowed g g' cfg dir refspecs NoAuth Hk Hg) as [_ Hr].
    eapply wp_mono; [apply wp_push; intros auth; by eapply push_allowed|].
    intros r [] g1' Hout. split; [done|]. by eapply known_pushed.
  - cbn in Hg. subst ref. eapply wp_mono; [apply wp_lookup|]. intros r [] g1' Hout. cbn -[resolved].
    destruct Hout as [[-> Hr]|(lo&Ha&Ht&->)].
    + destruct r as [h|e|w]; [done|rewrite Hr|]; (split; [done|]); cbn; rewrite ?Hr; by apply known_uncheck.
    + by apply known_resolved.
  - eapply wp_mono; [apply wp_link|]. intros r [] g1' (l&Hl). split; [done|]. cbn.
    destruct Hk as (Hs&Hc&Hl'&Hr). destruct Hl as [[-> Hok]|[-> Hok]]; split_and!; auto; cbn;
      destruct r; cbn in *; auto; [left; by rewrite Hok|done].
Qed.

(** The clients keep what the controller relies on. *)
#[export] Instance clients_implement : Implements (push_monitor sp) rm known.
Proof.
  intros R c g g' Hk Hg. destruct c as [R kc|R cfg gc|R pc|R gc|R sc|R js jc|rq|R gc|T t rq|R bc|R sc]; cbn [expand].
  - by apply kube_implemented.
  - by apply git_call_implemented.
  - destruct pc; (apply safe_neutral; [keeps_go|done]).
  - destruct gc; (apply safe_neutral; [keeps_go|done]).
  - destruct sc; try (apply safe_neutral; [keeps_go|done]); by apply safe_call.
  - by apply safe_call.
  - by apply safe_call.
  - done.
  - by apply safe_call.
  - by apply safe_call.
  - by apply safe_call.
Qed.
End Client.

(** A truthful step keeps the world truthful. *)
Lemma world_ok_remote_step {X : Externals} sp g R (c : call R) r :
  world_ok g → remote_guar sp g R c → remote_rely sp g R c r → world_ok (remote_step sp g R c r).
Proof.
  intros Hw Hg Hr. destruct c as [R kc|R cfg gc|R pc|R gc|R sc|R js jc|rq|R gc|T t rq|R bc|R sc]; try done.
  - apply (world_ok_step sp g _ (CKube kc) r Hw); [|exact Hr]. by destruct kc.
  - destruct gc as [| | | |path o| | | | | | | | | | | | | | | |[] url| |]; try done.
    + exact (world_ok_step sp g _ (CGit no_auth (GPush path (po_RefSpecs o))) (up_to_date r) Hw Hg I).
    + destruct Hr as (_&_&Hr).
      exact (world_ok_step sp g _ (CGit no_auth (GResolveRemoteReference url (cs_DefaultBranch sp)))
        (looked_up sp r) Hw eq_refl Hr).
Qed.

(** ** Properties *)

(** C2: The codebase controller linked to the git client never overwrites a history: across
    any sequence of reconciliations, each cut at an arbitrary point, also inside a git
    operation, and run against any server that advertises the default branch exactly when it is
    there and has no tag of that name, go-git is asked to push a regenerated history only while
    the branch is absent, after this run saw an advertisement without it at the url of the
    remote and the intent was persisted, any other push goes onto the operator's own branch, no
    reference is updated otherwise, and a persisted git status never claims a push that did
    not land. *)
Theorem provisioning_over_go_git {X : Externals} {L : ExternalsLaws X} sp g tr :
  cs_Strategy sp ∈ putProjectStrategies →
  (∀ c, c_Spec c = sp → apply_modifiers modifiers false c = Ok (false, c)) →
  cs_DefaultBranch sp ≠ "" → full_hash (cs_DefaultBranch sp) = false →
  (∀ url, foreign_error (NewEndpoint url)) →
  world_ok g →
  history (remote_monitor sp) (λ q, ∃ request c0, q = link (Reconcile request c0)) g tr →
  guaranteed (remote_monitor sp) g tr.
Proof.
  intros Hs Hn Hb Hh He Hw Hist. eapply history_guaranteed; [| |exact Hist|exact Hw].
  - intros. by apply world_ok_remote_step.
  - intros q g' (request&c0&->) Hw'. eapply safe_mono; [|eapply link_safe with (m := push_monitor sp)].
    + done.
    + by apply clients_implement.
    + apply known_refl.
    + by apply wp_Reconcile.
Qed.

Definition linked_trace : list obs := trace sim (link (Reconcile sim_request sim_app)) sim_start.

Definition is_go_git_push (o : obs) : bool :=
  match o with Obs _ (CGoGit (GgPush _ _)) _ => true | _ => false end.

Lemma provisioning_over_go_git_witness :
  length (List.filter is_go_git_push linked_trace) = 1%nat
  ∧ guaranteed (remote_monitor sim_spec) world_empty linked_trace.
Proof.
  split; [vm_compute; reflexivity|].
  apply (@provisioning_over_go_git reference reference_laws sim_spec world_empty linked_trace).
  - eapply bool_decide_eq_true_1. vm_compute. reflexivity.
  - intros [m s st] Hc. cbn in Hc. subst s. vm_compute. reflexivity.
  - discriminate.
  - reflexivity.
  - intros url. exact I.
  - intros s Hs. apply list_elem_of_singleton in Hs as ->. split; [done|]. intros H. exfalso.
    revert H. eapply bool_decide_eq_false_1. vm_compute. reflexivity.
  - rewrite <- (app_nil_r linked_trace).
    eapply history_run with (rest := []) (h := sim) (w := sim_start).
    + by exists sim_request, sim_app.
    + by rewrite app_nil_r.
    + vm_compute. repeat first [exact I | discriminate | reflexivity | split | left | intro].
    + apply history_nil.
Defined.
