(* ===== verification/LinkedBranch.v ===== *)
(** * LinkedBranch: a branch that is claimed is on the git server

    The branch controller linked to the git client, over histories: what the status of a branch
    claims in the cluster against what go-git did on the server. [BranchSafety] speaks of one
    reconciliation and of the calls of the [Git] interface; the client keeps what that needs
    ([branch_clients_implement]), so the contract carries over to an operator that is killed
    inside a git operation and restarted. *)

From S2P Require Import Prelude GoStd Api Effects Externals Urls SshHostKey GitClient ProviderClients Gerrit Linking.
From S2P Require Import CodebaseController BranchChain BranchController StageDeploy BranchSafety Simulation.

(** ** The world *)

(** Whether the server showed or created the branch, whether a written status may claim it; the
    versions read last and the advertisements seen. *)
Record bworld := {
  bw_there : bool; bw_claims : bool;
  bw_branch : option CodebaseBranch; bw_codebase : option Codebase;
  bw_upload : option AdvRefs; bw_receive : option AdvRefs }.
Definition bworld_start : bworld :=
  {| bw_there := false; bw_claims := false; bw_branch := None; bw_codebase := None;
     bw_upload := None; bw_receive := None |}.

Definition read_branch (g : bworld) (b : CodebaseBranch) : bworld :=
  {| bw_there := bw_there g; bw_claims := bw_claims g; bw_branch := Some b; bw_codebase := bw_codebase g;
     bw_upload := bw_upload g; bw_receive := bw_receive g |}.
Definition read_codebase (g : bworld) (c : Codebase) : bworld :=
  {| bw_there := bw_there g; bw_claims := bw_claims g; bw_branch := bw_branch g; bw_codebase := Some c;
     bw_upload := bw_upload g; bw_receive := bw_receive g |}.
Definition sent_status (o : CodebaseBranch) (g : bworld) : bworld :=
  {| bw_there := bw_there g; bw_claims := bw_claims g || claimed o; bw_branch := bw_branch g;
     bw_codebase := bw_codebase g; bw_upload := bw_upload g; bw_receive := bw_receive g |}.
Definition created_there (g : bworld) : bworld :=
  {| bw_there := true; bw_claims := bw_claims g; bw_branch := bw_branch g;
     bw_codebase := bw_codebase g; bw_upload := bw_upload g; bw_receive := bw_receive g |}.

Section Contract.
Context {X : Externals} (name : string).

Definition shown (s : service) (adv : AdvRefs) (g : bworld) : bworld :=
  {| bw_there := bw_there g || bool_decide (is_Some (ar_References adv !! NewBranchReferenceName name));
     bw_claims := bw_claims g; bw_branch := bw_branch g; bw_codebase := bw_codebase g;
     bw_upload := match s with UploadPack => Some adv | _ => bw_upload g end;
     bw_receive := match s with ReceivePack => Some adv | _ => bw_receive g end |}.

Definition bkind_step (g : bworld) {V} (k : kind V) : res V → bworld :=
  match k in kind V return res V → bworld with
  | KCodebaseBranch => λ r, answered r (read_branch g) g
  | KCodebase => λ r, answered r (read_codebase g) g
  | _ => λ _, g
  end.

Definition bworld_step (g : bworld) : ∀ R, call R → R → bworld := λ R c,
  match c in call R return R → bworld with
  | CKube kc => match kc in kube_call R return R → bworld with
    | KGet k _ => bkind_step g k
    | KUpdate k _ => bkind_step g k
    | @KStatusUpdate V k o => match k in kind V return V → res V → bworld with
      | KCodebaseBranch => λ o r, bkind_step (sent_status o g) KCodebaseBranch r
      | KCodebase => λ _ r, bkind_step g KCodebase r
      | _ => λ _ _, g
      end o
    | _ => λ _, g
    end
  | CGoGit gc => match gc in gogit_call R return R → bworld with
    | GgAdvertisedReferences s _ => λ r, match r with Ok adv => shown s adv g | _ => g end
    | GgReceivePack _ _ => λ r, match r with
        | Ok None | Ok (Some None) => created_there g
        | _ => g
        end
    | _ => λ _, g
    end
  | _ => λ _, g
  end.

(** The API server stores what is written or fails, keeps the branch's name, which the CRD makes
    immutable, and never shows a claim that was not written. Nothing is assumed of git. *)
Definition bworld_rely (g : bworld) : ∀ R, call R → R → Prop := when_kube (λ R c,
  match c in kube_call R return R → Prop with
  | @KGet V k _ => match k in kind V return res V → Prop with
    | KCodebaseBranch => λ r, ∀ o, r = Ok o →
        bs_BranchName (b_Spec o) = name ∧ (claimed o = true → bw_claims g = true)
    | _ => λ _, True
    end
  | @KUpdate V k o => match k in kind V return V → res V → Prop with
    | KCodebaseBranch => λ o r, ∀ o', r = Ok o' → b_Spec o' = b_Spec o
        ∧ bs_BranchName (b_Spec o') = name ∧ (claimed o' = true → bw_claims g = true)
    | _ => λ _ _, True
    end o
  | @KStatusUpdate V k o => match k in kind V return V → res V → Prop with
    | KCodebaseBranch => λ o r, ∀ o', r = Ok o' → b_Spec o' = b_Spec o
        ∧ bs_BranchName (b_Spec o') = name ∧ b_Status o' = b_Status o
    | _ => λ _ _, True
    end o
  | _ => λ _, True
  end).

Definition bworld_guar (g : bworld) : ∀ R, call R → Prop := λ R c,
  match c with
  | CGoGit gc => match gc with
    | GgReceivePack _ req => ∃ b c known offered hash,
        bw_branch g = Some b ∧ bw_codebase g = Some c ∧ claimed b = false
        ∧ cst_Available (c_Status c) = true
        ∧ bw_upload g = Some known ∧ resolves known (from_ref b c) hash
        ∧ bw_receive g = Some offered ∧ ar_References offered !! NewBranchReferenceName name = None
        ∧ ru_Commands req = [{| cmd_Name := NewBranchReferenceName name; cmd_Old := ZeroHash;
                                cmd_New := NewHash hash |}]
    | GgNewClient _ | GgNewSession _ _ _ | GgAdvertisedReferences _ _ | GgClose _ _ => True
    | _ => False
    end
  | CKube kc => match kc with
    | @KStatusUpdate V k o => match k in kind V return V → Prop with
      | KCodebaseBranch => λ o, (claimed o = true → bw_there g = true)
          ∧ ∃ b, bw_branch g = Some b ∧ b_Spec o = b_Spec b
              ∧ bst_Conditions (b_Status o) = bst_Conditions (b_Status b)
      | _ => λ _, False
      end o
    | KDelete _ _ => False
    | _ => True
    end
  | CGit _ _ | CProvider _ | CGerrit _ => False
  | _ => True
  end.

Definition bworld_monitor : monitor bworld :=
  {| rely := bworld_rely; guar := bworld_guar; step := bworld_step |}.

(** What the controller knows is so. *)
Record true_of (g : branching) (g' : bworld) : Prop := {
  to_branch b : br_branch g = Some b → bw_branch g' = Some b ∧ bs_BranchName (b_Spec b) = name;
  to_codebase c : br_codebase g = Some c → bw_codebase g' = Some c;
  to_created : br_created g = true → bw_there g' = true;
  to_claimed : br_claimed g = true → bw_claims g' = true;
  to_there : bw_claims g' = true → bw_there g' = true }.

Lemma true_of_start g' : (bw_claims g' = true → bw_there g' = true) → true_of branching_start g'.
Proof. by split. Qed.

Lemma true_of_shown g g' s adv : true_of g g' → true_of g (shown s adv g').
Proof. intros []. split; cbn; [done|done| |done|]; rewrite orb_true_iff; auto. Qed.
Lemma true_of_ref g g' ref : true_of g g' → true_of (saw_ref g ref) g'.
Proof. by intros []. Qed.

(** ** The client *)

Context {L : ExternalsLaws X}.

Section Client.
Context (g : branching).
#[local] Abbreviation mm := bworld_monitor.
Definition holds (_ : unit) (g' : bworld) : Prop := true_of g g'.
Definition at_world (g0 : bworld) (_ : unit) (g' : bworld) : Prop := g' = g0.

Lemma keeps_advertised s url : keeps mm holds (gogit (GgAdvertisedReferences s url)).
Proof.
  apply keeps_do_res. intros [] g' H. split; [done|]. intros [adv|e|w] _; [|done|done].
  by apply true_of_shown.
Qed.
End Client.
#[local] Hint Resolve keeps_advertised : keeps.

Lemma keeps_lookup g config url ref : keeps bworld_monitor (holds g) (ResolveRemoteReference config url ref).
Proof. keeps_go. Qed.

Lemma wp_close_there s url g (Q : res unit → unit → bworld → Prop) :
  (∀ r, match r with Err _ => False | _ => True end → Q r tt g) → wp bworld_monitor (close_session s url) tt g Q.
Proof.
  intros HQ. unfold close_session. do 3 wp_step. wp_step; [done|].
  intros [[]|e|w] _; cbn; [wp_step; by apply HQ|wp_step; by apply HQ|by apply HQ].
Qed.

Lemma wp_failed_there {R} prefix url e g (Q : res R → unit → bworld → Prop) :
  (∀ r, is_ok r = false → Q r tt g) → wp bworld_monitor (remote_failed prefix url e) tt g Q.
Proof.
  intros HQ. unfold remote_failed, remoteErr. wp_step. apply wp_Enrich; [done|done|].
  intros e' _. wp_step. by apply HQ.
Qed.

(** A resolved reference is what git finds in the advertisement seen. *)
Lemma wp_resolve_there g config url ref g' :
  true_of g g' →
  wp bworld_monitor (ResolveRemoteReference config url ref) tt g' (λ r _ g1, true_of g g1
    ∧ ∀ h, r = Ok h → ∃ known, bw_upload g1 = Some known ∧ resolves known ref h).
Proof.
  intros H. unfold ResolveRemoteReference, advertisedReferences. wp_step. wp_step.
  eapply wp_keeps with (J := holds g); [keeps_go|done|]. intros [auth|e|w] [] g1 H1; [|done|done].
  wp_step. eapply wp_keeps with (J := holds g); [keeps_go|done|]. intros [[]|e|w] [] g2 H2; [|done|done].
  wp_step. wp_to_call. wp_step; [done|]. intros [adv|e|w] _.
  - wp_step. wp_step. apply wp_close_there. intros r Hr.
    split; [by destruct r; apply true_of_shown|]. intros h Hh.
    exists adv. split; [done|]. pose proof (resolveAdvertisedRef_cases adv ref) as Hc.
    destruct r as [[]|?|w]; [|done|done]. by rewrite Hh in Hc.
  - wp_step. apply wp_close_there. intros [[]|?|w] Hr; [|done|by split].
    destruct (_ || _); [wp_step; by split|]. apply wp_failed_there. by intros [adv|e'|w] ?; [|split..].
  - by split.
Qed.

(** The update of the reference, in its session. *)
Lemma wp_update_there g url b c hash known g' :
  true_of g g' → br_branch g = Some b → br_codebase g = Some c → claimed b = false →
  cst_Available (c_Status c) = true → bw_upload g' = Some known → resolves known (from_ref b c) hash →
  wp bworld_monitor (update_reference url name hash) tt g' (λ r _ g1, true_of g g1
    ∧ (r = Ok tt → bw_there g1 = true)).
Proof.
  intros H Hb Hc Hcl Hav Hup Hres. unfold update_reference. do 3 wp_step. wp_step; [done|].
  intros [adv|e|w] _; cbn [step]; [|apply wp_failed_there; by intros [[]|e'|w] ?; [|split..]|by split].
  pose proof (true_of_shown g g' ReceivePack adv H) as H1. cbn.
  destruct (ar_References adv !! _) as [h|] eqn:Habs.
  { wp_step. split; [exact H1|]. intros _. cbn. rewrite Habs, bool_decide_true by by eexists. apply orb_true_r. }
  do 2 wp_step. wp_step.
  { pose proof H1 as [Hbr Hco _ _ _]. apply Hbr in Hb as [Hb _]. apply Hco in Hc.
    exists b, c, known, adv, hash. by split_and!. }
  assert (H2 : true_of g (created_there (shown ReceivePack adv g'))) by (destruct H1; by split).
  intros [r|e|w] _; cbn [step bworld_monitor bworld_step]; [|by wp_step|done].
  destruct r as [[e|]|]; wp_step; by split.
Qed.

Lemma wp_create_there g cfg url b c fromRef g' :
  true_of g g' → br_branch g = Some b → br_codebase g = Some c → claimed b = false →
  cst_Available (c_Status c) = true → fromRef = from_ref b c →
  wp bworld_monitor (CreateRemoteBranchViaRefUpdate (NewGitProvider cfg) url name fromRef) tt g'
    (λ r _ g1, true_of g g1 ∧ (r = Ok tt → bw_there g1 = true)).
Proof.
  intros H Hb Hc Hcl Hav ->. unfold CreateRemoteBranchViaRefUpdate.
  case_bool_decide; [by wp_step|]. wp_step. eapply wp_mono; [by apply wp_resolve_there|].
  intros [hash|e|w] [] g1 [H1 Hres]; [|by split..]. destruct (Hres hash eq_refl) as (known&Hup&Hr).
  wp_step. eapply wp_keeps with (J := at_world g1); [keeps_go|done|].
  intros [auth|e|w] [] g2 ->; [|by split..]. do 3 wp_step. wp_step; [done|].
  intros [[]|e|w] _; cbn [step bworld_monitor bworld_step];
    [|apply wp_failed_there; by intros [[]|e'|w] ?; [|split..]|by split].
  wp_step. eapply wp_mono; [by eapply wp_update_there|]. intros r [] g2 [H2 Hok].
  apply wp_close_there. intros r' _. split; [done|]. by destruct r', r; auto.
Qed.

(** ** The interface *)

Lemma safe_neutral_there {R} (h : M unit R) g g' (Q : res R → bworld → Prop) :
  keeps bworld_monitor (holds g) h → true_of g g' → (∀ r g1, true_of g g1 → Q r g1) →
  safe bworld_monitor (answer h) g' Q.
Proof. intros Hh H HQ. apply safe_answer. eapply wp_keeps; [exact Hh|exact H|]. by intros r [] g1 H1; apply HQ. Qed.

Lemma true_of_read g g' b :
  true_of g g' → bs_BranchName (b_Spec b) = name → (claimed b = true → bw_claims g' = true) →
  true_of (saw_branch g b) (read_branch g' b).
Proof.
  intros [] Hn Hc. split; cbn; try done; [by intros ? [= <-]|].
  rewrite orb_true_iff. intros [?|?]; auto.
Qed.
Lemma true_of_sent g g' o :
  true_of g g' → (claimed o = true → bw_there g' = true) → true_of g (sent_status o g').
Proof.
  intros [] Hc. split; cbn; try done; rewrite orb_true_iff; [auto|]. intros [?|?]; auto.
Qed.

Lemma kube_implemented_there g g' R (c : kube_call R) :
  true_of g g' → branching_guar g _ (CKube c) →
  safe bworld_monitor (Call (CKube c) Ret) g' (λ r g1, stored_rely _ (CKube c) r
    ∧ true_of (branching_step g _ (CKube c) r) g1).
Proof.
  intros H Hg. apply safe_call.
  - destruct c as [| | |O k o| |O k o| |]; try done. destruct k; try done. destruct Hg as [Hc (b&Hb&?&?)].
    pose proof H as []. apply to_branch0 in Hb as [? _]. split; [|by exists b].
    intros Hcl. destruct (Hc Hcl); auto.
  - intros r Hr. destruct c as [O k key| | |O k o| |O k o| |]; try (by split).
    + split; [done|]. destruct k; try done; destruct r as [o|e|w]; try done.
      * pose proof H as []. by split.
      * destruct (Hr o eq_refl). by apply true_of_read.
    + destruct k; try (by split); try (split; [done|]; destruct r as [o'|e|w]; done).
      * split; [done|]. destruct r as [o'|e|w]; [|done..]. pose proof H as []. by split.
      * split; [by intros o' ->; destruct (Hr o' eq_refl)|]. destruct r as [o'|e|w]; [|done..].
        destruct (Hr o' eq_refl) as (_&?&?). by apply true_of_read.
    + destruct k; try done. destruct Hg as [Hc _].
      assert (H1 : true_of g (sent_status o g')).
      { apply true_of_sent; [done|]. intros Hcl. pose proof H as []. destruct (Hc Hcl); auto. }
      split; [by intros o' ->; destruct (Hr o' eq_refl) as (?&?&?)|]. destruct r as [o'|e|w]; [|done..].
      destruct (Hr o' eq_refl) as (_&?&Hs). apply true_of_read; [done|done|]. cbn.
      unfold claimed. rewrite Hs. intros Hx. rewrite orb_true_iff. by right.
Qed.

Lemma git_implemented_there cfg g g' R (c : git_call R) :
  true_of g g' → branching_git_guar g _ c →
  safe bworld_monitor (git_client cfg c) g' (λ r g1, true_of (branching_step g _ (CGit cfg c) r) g1).
Proof.
  intros H Hg. destruct c as [| | | | | | |url ref|url b0 ref| | | | |]; try done; cbn [git_client].
  - eapply safe_neutral_there; [apply keeps_lookup|done|]. intros [h|e|w] g1 H1; [|done..]. by apply true_of_ref.
  - destruct Hg as (b&c&Hb&Hc&Hcl&->&Hav&Href&_). apply safe_answer.
    pose proof (to_branch _ _ H b Hb) as [_ ->].
    eapply wp_mono; [by eapply wp_create_there|]. intros r [] g1 [[] Hok]. cbn.
    destruct r as [[]|e|w]; cbn; split; cbn; auto.
Qed.

(** The clients keep what the branch controller relies on. *)
#[export] Instance branch_clients_implement : Implements branch_monitor bworld_monitor true_of.
Proof.
  intros R c g g' H Hg. destruct c as [R kc|R cfg gc|R pc|R gc|R sc|R js jc|rq|R gc|T t rq|R bc|R sc]; cbn [expand].
  - by apply kube_implemented_there.
  - eapply safe_mono; [|by apply git_implemented_there]. intros r g1 H1. by split.
  - destruct pc; (eapply safe_neutral_there; [keeps_go|done|by split]).
  - destruct gc; (eapply safe_neutral_there; [keeps_go|done|by split]).
  - destruct sc; try (eapply safe_neutral_there; [keeps_go|done|by split]); by apply safe_call.
  - by apply safe_call.
  - by apply safe_call.
  - done.
  - by apply safe_call.
  - by apply safe_call.
  - by apply safe_call.
Qed.
End Contract.

Definition claims_true (g : bworld) : Prop := bw_claims g = true → bw_there g = true.

Lemma claims_true_step {X : Externals} name g R (c : call R) r :
  claims_true g → bworld_guar name g R c → bworld_rely name g R c r → claims_true (bworld_step name g R c r).
Proof.
  unfold claims_true. intros Ht Hg _.
  destruct c as [R kc|R cfg gc|R pc|R gc|R sc|R js jc|rq|R gc|T t rq|R bc|R sc]; try done.
  - destruct kc as [O k key| | |O k o| |O k o| |]; try done; destruct k; try done; try (by destruct r).
    destruct Hg as [Hc _]. assert (claims_true (sent_status o g)) by (unfold claims_true; cbn; rewrite orb_true_iff; tauto).
    by destruct r.
  - destruct gc as [| | | | | | | | | | | | | | | | | | | |s url|url req|]; try done; destruct r as [a|e|w]; try done.
    + cbn. rewrite orb_true_iff. auto.
    + by destruct a as [[]|].
Qed.

(** ** Properties *)

(** C7: The branch controller linked to the git client: across any sequence of reconciliations
    of a branch, each cut at an arbitrary point, also inside a git operation, and whatever the
    git server answers, a status written to the cluster claims the branch only once the server
    has advertised it or accepted its creation. The one reference the operator ever updates is
    the branch's, from nothing, for an available codebase and an unclaimed branch, in a session
    in which the server did not advertise it, to what the requested reference resolves to in an
    advertisement of that server. *)
Theorem branch_claims_over_go_git {X : Externals} {L : ExternalsLaws X} name g tr :
  claims_true g →
  history (bworld_monitor name) (λ q, ∃ request s, q = link (ReconcileCodebaseBranch request s)) g tr →
  guaranteed (bworld_monitor name) g tr.
Proof.
  intros Ht Hist. eapply history_guaranteed; [| |exact Hist|exact Ht].
  - intros. by apply claims_true_step.
  - intros q g' (request&s&->) Ht'. eapply safe_mono; [|eapply link_safe with (m := branch_monitor)].
    + done.
    + by apply branch_clients_implement.
    + by apply true_of_start.
    + by apply wp_ReconcileCodebaseBranch.
Qed.

(** ** A branch created at go-git *)

(** The object an update leaves: the name of the branch is immutable, and the status is left to
    the subresource. *)
Definition update_stored (b o : CodebaseBranch) : res CodebaseBranch :=
  if bool_decide (bs_BranchName (b_Spec o) = bs_BranchName (b_Spec b))
  then Ok (b_with_status (b_Status b) o) else Err (ENew "branchName is immutable").
Definition status_stored (b o : CodebaseBranch) : res CodebaseBranch :=
  if bool_decide (b_Spec o = b_Spec b)
  then Ok (b_with_status (b_Status o) b) else Err (EExt Conflict "the object has been modified").

Definition branch_state : Type := sim_state * CodebaseBranch.
Definition after_write (w : branch_state) (r : res CodebaseBranch) : res CodebaseBranch * branch_state :=
  (r, match r with Ok b => (w.1, b) | _ => w end).

Definition elsewhere {R} (c : call R) (w : branch_state) : R * branch_state :=
  let '(r, w1) := sim R c w.1 in (r, (w1, w.2)).

(** The world of [Simulation] with one branch in the cluster. *)
Definition branch_kube {R} (c : kube_call R) (w : branch_state) : R * branch_state :=
  match c in kube_call R return R * branch_state with
  | @KGet V k key => match k in kind V return res V * branch_state with
    | KCodebaseBranch => (Ok w.2, w)
    | k' => elsewhere (CKube (KGet k' key)) w
    end
  | @KUpdate V k o => match k in kind V return V → res V * branch_state with
    | KCodebaseBranch => λ o, after_write w (update_stored w.2 o)
    | k' => λ o, elsewhere (CKube (KUpdate k' o)) w
    end o
  | @KStatusUpdate V k o => match k in kind V return V → res V * branch_state with
    | KCodebaseBranch => λ o, after_write w (status_stored w.2 o)
    | k' => λ o, elsewhere (CKube (KStatusUpdate k' o)) w
    end o
  | c' => elsewhere (CKube c') w
  end.

Definition branch_sim : environment branch_state := λ R c w,
  match c in call R return R * branch_state with
  | CKube kc => branch_kube kc w
  | c' => elsewhere c' w
  end.

Definition feature_branch : CodebaseBranch :=
  {| b_Meta := new_meta "app-feature" "" "ns";
     b_Spec := {| bs_CodebaseName := "app"; bs_BranchName := "feature"; bs_FromCommit := "";
                  bs_Version := None; bs_Release := false;
                  bs_Pipelines := {["build" := "go-build"; "review" := "go-review"]} |};
     b_Status := zero_branch_status |}.

Definition available_app : Codebase :=
  {| c_Meta := c_Meta sim_app; c_Spec := c_Spec sim_app;
     c_Status := {| cst_Available := true; cst_LastTimeUpdated := 0; cst_Status := ""; cst_Username := "";
                    cst_Action := ""; cst_Result := ""; cst_DetailedMessage := ""; cst_Value := "";
                    cst_FailureCount := 0; cst_Git := ""; cst_WebHookID := 0; cst_WebHookRef := "";
                    cst_GitWebUrl := "" |} |}.

Definition branch_request : ObjectKey := {| key_Namespace := "ns"; key_Name := "app-feature" |}.
Definition branch_start : branch_state :=
  ({| s_codebase := available_app; s_gitserver := sim_gitlab; s_secret := sim_sshkey; s_pushed := true |},
   feature_branch).
(** What is in the cluster is what the world says. *)
Definition stored_agrees (g : bworld) (w : branch_state) : Prop :=
  bs_BranchName (b_Spec w.2) = "feature" ∧ (claimed w.2 = true → bw_claims g = true).

Lemma branch_sim_faithful {X : Externals} {A} (p : prog A) g w :
  stored_agrees g w → relied (bworld_monitor "feature") g (trace branch_sim p w).
Proof.
  apply (faithful_relied _ branch_sim stored_agrees). clear. intros R c g [w b] [Hn Hc].
  destruct c as [R kc|R cfg gc|R pc|R gc|R sc|R js jc|rq|R gc|T t rq|R bc|R sc]; try (by split).
  - destruct kc as [V k key| | |V k o| |V k o| |]; try (by split); destruct k; try (by split).
    + split; [by intros o [= <-]|]. split; [done|]. cbn. auto.
    + cbn -[update_stored]. unfold update_stored. case_bool_decide as Ho; [|by split].
      split; [intros o' [= <-]; cbn; split_and!; [done|by rewrite Ho|done]|].
      split; cbn; [by rewrite Ho|auto].
    + cbn -[status_stored]. unfold status_stored. case_bool_decide as Ho.
      * split; [by intros o' [= <-]|]. split; cbn; [done|]. rewrite orb_true_iff. by right.
      * split; [done|]. split; cbn; [done|]. rewrite orb_true_iff. auto.
  - by destruct gc.
  - destruct gc as [| | | | | | | | | | | | | | | | | | | |s url|url req|]; try (by split).
    unfold branch_sim, elsewhere. cbn. by destruct (s_pushed w).
Qed.

Definition branch_trace : list obs :=
  trace branch_sim (link (ReconcileCodebaseBranch branch_request feature_branch)) branch_start.

Definition is_reference_update (o : obs) : bool :=
  match o with Obs _ (CGoGit (GgReceivePack _ _)) _ => true | _ => false end.

Lemma branch_claims_over_go_git_witness :
  length (List.filter is_reference_update branch_trace) = 1%nat
  ∧ bw_claims (ghost_after (bworld_monitor "feature") bworld_start branch_trace) = true
  ∧ guaranteed (bworld_monitor "feature") bworld_start branch_trace.
Proof.
  split; [vm_compute; reflexivity|]. split; [vm_compute; reflexivity|].
  apply (@branch_claims_over_go_git reference reference_laws "feature"); [discriminate|].
  rewrite <- (app_nil_r branch_trace).
  eapply history_run with (rest := []) (h := branch_sim) (w := branch_start).
  - by exists branch_request, feature_branch.
  - by rewrite app_nil_r.
  - by apply branch_sim_faithful.
  - apply history_nil.
Defined.
