(* ===== verification/Telemetry.v ===== *)
(** * Telemetry: what the operator reports about its platform ([src/pkg/telemetry])

    A report counts codebases, pipelines and their stages; this file has the code that sends it,
    the loops that call it, and the theorem that says what is sent and when. *)

From S2P Require Import Prelude GoStd Json Api Effects Host.

(** ** model.go *)

Record CodebaseMetrics := {
  cbm_Lang : string; cbm_Framework : string; cbm_BuildTool : string; cbm_Strategy : string;
  cbm_Type : string; cbm_Versioning : string }.
Record CdPipelineMetrics := { cpm_DeploymentType : string; cpm_NumberOfStages : Z }.
Record PlatformMetrics := {
  pm_CodebaseMetrics : list CodebaseMetrics; pm_CdPipelineMetrics : list CdPipelineMetrics;
  pm_GitProviders : list string; pm_JiraEnabled : bool; pm_RegistryType : string; pm_Version : string }.

(** A slice that was never appended to is nil, and encoded as null. *)
Definition json_slice {A} (encode : A → json) (l : list A) : json :=
  match l with [] => JNull | _ => JArr (map encode l) end.
Definition codebase_json (m : CodebaseMetrics) : json :=
  JObj [("lang", JStr (cbm_Lang m)); ("framework", JStr (cbm_Framework m));
        ("buildTool", JStr (cbm_BuildTool m)); ("strategy", JStr (cbm_Strategy m));
        ("type", JStr (cbm_Type m)); ("versioning", JStr (cbm_Versioning m))].
Definition pipeline_json (m : CdPipelineMetrics) : json :=
  JObj [("deploymentType", JStr (cpm_DeploymentType m)); ("numberOfStages", JNum (itoa (cpm_NumberOfStages m)))].
Definition platform_json (m : PlatformMetrics) : json :=
  JObj [("codebaseMetrics", json_slice codebase_json (pm_CodebaseMetrics m));
        ("cdPipelineMetrics", json_slice pipeline_json (pm_CdPipelineMetrics m));
        ("gitProviders", json_slice JStr (pm_GitProviders m));
        ("jiraEnabled", JBool (pm_JiraEnabled m)); ("registryType", JStr (pm_RegistryType m));
        ("version", JStr (pm_Version m))].

(** ** telemetry.go *)

Definition codebase_metrics (c : Codebase) : CodebaseMetrics :=
  {| cbm_Lang := cs_Lang (c_Spec c); cbm_Framework := cs_Framework (c_Spec c);
     cbm_BuildTool := cs_BuildTool (c_Spec c); cbm_Strategy := cs_Strategy (c_Spec c);
     cbm_Type := cs_Type (c_Spec c); cbm_Versioning := v_Type (cs_Versioning (c_Spec c)) |}.

(** The loop over the stages, with its two maps. *)
Definition add_stage (m : gmap string string * gmap string Z) (s : Stage)
  : gmap string string * gmap string Z :=
  let '(deploymentType, stagesCount) := m in
  (if bool_decide (st_TriggerType s = "Auto") then <[st_CdPipeline s := "Auto"]> deploymentType
   else deploymentType,
   <[st_CdPipeline s := (default 0 (stagesCount !! st_CdPipeline s) + 1)%Z]> stagesCount).
Definition stage_maps (stages : list Stage) : gmap string string * gmap string Z :=
  fold_left add_stage stages (∅, ∅).

Definition pipeline_metrics (m : gmap string string * gmap string Z) (p : CDPipeline) : CdPipelineMetrics :=
  {| cpm_DeploymentType := match fst m !! name_of p with Some val => val | None => "Manual" end;
     cpm_NumberOfStages := default 0%Z (snd m !! name_of p) |}.

Definition submit_request (telemetryUrl : string) (telemetry : PlatformMetrics) : RestRequest :=
  {| rr_Method := "POST"; rr_HostURL := telemetryUrl; rr_Path := "/v1/submit"; rr_PathParams := [];
     rr_QueryParams := []; rr_AuthToken := None; rr_Headers := [];
     rr_Body := Some (JObj [("platformMetrics", platform_json telemetry)]) |}.

Section Collector.
Context {S : Type} (namespace telemetryUrl : string).

Definition sendTelemetry : M S unit :=
  config <- GetKrciConfig namespace ?> "failed to get config: " ;;
  codebases <- k_list KCodebase namespace no_selector ?> "failed to get codebases: " ;;
  gitProviders <- k_list KGitServer namespace no_selector ?> "failed to get git providers: " ;;
  stages <- k_list KStage namespace no_selector ?> "failed to get stages: " ;;
  cdPipelines <- k_list KCDPipeline namespace no_selector ?> "failed to get cd pipelines: " ;;
  jiraServers <- k_list KJiraServer namespace no_selector ?> "failed to get jira servers: " ;;
  let telemetry :=
    {| pm_CodebaseMetrics := map codebase_metrics codebases;
       pm_CdPipelineMetrics := map (pipeline_metrics (stage_maps stages)) cdPipelines;
       pm_GitProviders := match gitProviders with [] => [] | g :: _ => [gs_GitProvider (g_Spec g)] end;
       pm_JiraEnabled := match jiraServers with [] => false | _ => true end;
       pm_RegistryType := kc_ContainerRegistryType config; pm_Version := kc_EdpVersion config |} in
  resp <- rest RNone (submit_request telemetryUrl telemetry) ?> "failed to send telemetry: " ;;
  if ra_IsError resp then
    throw (ENew ("failed to send telemetry: http status code: " +:+ ra_Status resp +:+ ", body: " +:+ ra_String resp))
  else ret tt.

(** The two goroutines of [Start], as what each does with the ticks of its own ticker until the
    context is done. The first one sends once, at the first tick after the delay, and ends
    also when that fails; [delay] was added to the time the goroutine started at. *)
Fixpoint send_once (timeToSend : Z) (ticks : list Z) : M S unit :=
  match ticks with
  | [] => ret tt
  | now :: ticks' =>
    if (timeToSend <? now)%Z then attempt sendTelemetry ;;; ret tt else send_once timeToSend ticks'
  end.
Definition start_once (delay : Z) (ticks : list Z) : M S unit :=
  t <- now ;; send_once (t + delay) ticks.
(** The second one sends at every tick; its failures are logged. *)
Definition send_every (sendEvery : Z) (ticks : nat) : M S unit :=
  if (sendEvery <=? 0)%Z then panic "non-positive interval for NewTicker"
  else for_each (repeat tt ticks) (λ _, attempt sendTelemetry ;;; ret tt).
End Collector.

(** ** What a report says

    The same numbers, without the maps. *)

Section Summary.
Context (config : gmap string string) (codebases : list Codebase) (gitServers : list GitServer)
  (stages : list Stage) (pipelines : list CDPipeline) (jiraServers : list JiraServer).

Definition stage_of (p : CDPipeline) (s : Stage) : bool := bool_decide (st_CdPipeline s = name_of p).
Definition auto (s : Stage) : bool := bool_decide (st_TriggerType s = "Auto").

Definition pipeline_summary (p : CDPipeline) : CdPipelineMetrics :=
  {| cpm_DeploymentType := if existsb (λ s, stage_of p s && auto s) stages then "Auto" else "Manual";
     cpm_NumberOfStages := Z.of_nat (length (List.filter (stage_of p) stages)) |}.

Definition summary : PlatformMetrics :=
  {| pm_CodebaseMetrics := map codebase_metrics codebases;
     pm_CdPipelineMetrics := map pipeline_summary pipelines;
     pm_GitProviders := firstn 1 (map (gs_GitProvider ∘ g_Spec) gitServers);
     pm_JiraEnabled := (0 <? length jiraServers)%nat;
     pm_RegistryType := default "" (config !! "container_registry_type");
     pm_Version := default "" (config !! "edp_version") |}.
End Summary.

Lemma stage_maps_lookup stages name :
  let m := stage_maps stages in
  fst m !! name = (if existsb (λ s, bool_decide (st_CdPipeline s = name) && auto s) stages
                   then Some "Auto" else None)
  ∧ default 0%Z (snd m !! name)
    = Z.of_nat (length (List.filter (λ s, bool_decide (st_CdPipeline s = name)) stages)).
Proof.
  unfold stage_maps. cbn. induction stages as [|s stages [IH1 IH2]] using rev_ind; [done|].
  rewrite fold_left_app, existsb_app, List.filter_app, length_app. cbn [fold_left].
  destruct (fold_left add_stage stages (∅, ∅)) as [dt sc]. cbn in *. unfold auto in *.
  destruct (decide (st_CdPipeline s = name)) as [<-|Hne]; cbn.
  - rewrite (bool_decide_true (st_CdPipeline s = st_CdPipeline s)) by done. cbn.
    rewrite lookup_insert_eq. cbn. split; [|lia].
    case_bool_decide; cbn; [by rewrite lookup_insert_eq, orb_true_r|]. by rewrite orb_false_r.
  - rewrite (bool_decide_false (st_CdPipeline s = name)) by done. cbn.
    rewrite orb_false_r, lookup_insert_ne by done.
    split; [|cbn; lia]. case_bool_decide; [by rewrite lookup_insert_ne|done].
Qed.

Lemma pipeline_metrics_summary stages p :
  pipeline_metrics (stage_maps stages) p = pipeline_summary stages p.
Proof.
  unfold pipeline_metrics, pipeline_summary.
  destruct (stage_maps_lookup stages (name_of p)) as [-> ->]. unfold stage_of.
  by destruct (existsb _ _).
Qed.

(** Names of objects are not part of a report: it is the same for a platform whose pipelines
    are renamed, and whose other objects have other names. *)
Lemma summary_anonymous config cs cs' gs gs' ss ss' ps ps' js js' (f : string → string) :
  (∀ x y, f x = f y → x = y) →
  Forall2 (λ c c', codebase_metrics c = codebase_metrics c') cs cs' →
  Forall2 (λ g g', gs_GitProvider (g_Spec g) = gs_GitProvider (g_Spec g')) gs gs' →
  Forall2 (λ s s', st_CdPipeline s' = f (st_CdPipeline s) ∧ st_TriggerType s' = st_TriggerType s) ss ss' →
  Forall2 (λ p p', name_of p' = f (name_of p)) ps ps' →
  length js = length js' →
  summary config cs gs ss ps js = summary config cs' gs' ss' ps' js'.
Proof.
  intros Hf Hc Hg Hs Hp Hj. unfold summary. rewrite Hj. f_equal.
  - induction Hc as [|c c' cs cs' H _ IH]; cbn; [done|]. by rewrite H, IH.
  - induction Hp as [|p p' ps ps' Hn _ IH]; cbn; [done|]. rewrite IH. f_equal.
    assert (Hst : ∀ s s', st_CdPipeline s' = f (st_CdPipeline s) → stage_of p' s' = stage_of p s).
    { intros s s' H. unfold stage_of. rewrite H, Hn. apply bool_decide_ext. split; [apply Hf|by intros ->]. }
    unfold pipeline_summary. f_equal.
    + replace (existsb (λ s, stage_of p' s && auto s) ss') with (existsb (λ s, stage_of p s && auto s) ss);
        [done|].
      clear -Hs Hst. induction Hs as [|s s' ss ss' [H1 H2] _ IH]; cbn; [done|].
      rewrite IH, (Hst s s' H1). unfold auto. by rewrite H2.
    + f_equal. clear -Hs Hst. induction Hs as [|s s' ss ss' [H1 _] _ IH]; cbn; [done|].
      rewrite (Hst s s' H1). destruct (stage_of p s); cbn; by rewrite IH.
  - destruct Hg as [|g g' gs gs' H _]; cbn; [done|]. by rewrite H.
Qed.

(** ** When it is sent *)

Record reporting := {
  tl_config : option (gmap string string); tl_codebases : option (list Codebase);
  tl_gitservers : option (list GitServer); tl_stages : option (list Stage);
  tl_pipelines : option (list CDPipeline); tl_jiraservers : option (list JiraServer);
  tl_sent : bool }.
Definition reporting_start : reporting :=
  {| tl_config := None; tl_codebases := None; tl_gitservers := None; tl_stages := None;
     tl_pipelines := None; tl_jiraservers := None; tl_sent := false |}.

Definition or_else {A} (r : res A) (o : option A) : option A := match r with Ok a => Some a | _ => o end.

Definition reporting_kube (g : reporting) : ∀ R, kube_call R → R → reporting := λ R c,
  match c in kube_call R return R → reporting with
  | KGet k _ => match k in kind V return res V → reporting with
    | KConfigMap => λ r,
        {| tl_config := or_else (match r with Ok c => Ok (cm_Data c) | Err e => Err e | Panic w => Panic w end)
             (tl_config g);
           tl_codebases := tl_codebases g; tl_gitservers := tl_gitservers g; tl_stages := tl_stages g;
           tl_pipelines := tl_pipelines g; tl_jiraservers := tl_jiraservers g; tl_sent := tl_sent g |}
    | _ => λ _, g
    end
  | KList k _ _ => match k in kind V return res (list V) → reporting with
    | KCodebase => λ r, {| tl_config := tl_config g; tl_codebases := or_else r (tl_codebases g);
        tl_gitservers := tl_gitservers g; tl_stages := tl_stages g; tl_pipelines := tl_pipelines g;
        tl_jiraservers := tl_jiraservers g; tl_sent := tl_sent g |}
    | KGitServer => λ r, {| tl_config := tl_config g; tl_codebases := tl_codebases g;
        tl_gitservers := or_else r (tl_gitservers g); tl_stages := tl_stages g; tl_pipelines := tl_pipelines g;
        tl_jiraservers := tl_jiraservers g; tl_sent := tl_sent g |}
    | KStage => λ r, {| tl_config := tl_config g; tl_codebases := tl_codebases g;
        tl_gitservers := tl_gitservers g; tl_stages := or_else r (tl_stages g); tl_pipelines := tl_pipelines g;
        tl_jiraservers := tl_jiraservers g; tl_sent := tl_sent g |}
    | KCDPipeline => λ r, {| tl_config := tl_config g; tl_codebases := tl_codebases g;
        tl_gitservers := tl_gitservers g; tl_stages := tl_stages g; tl_pipelines := or_else r (tl_pipelines g);
        tl_jiraservers := tl_jiraservers g; tl_sent := tl_sent g |}
    | KJiraServer => λ r, {| tl_config := tl_config g; tl_codebases := tl_codebases g;
        tl_gitservers := tl_gitservers g; tl_stages := tl_stages g; tl_pipelines := tl_pipelines g;
        tl_jiraservers := or_else r (tl_jiraservers g); tl_sent := tl_sent g |}
    | _ => λ _, g
    end
  | _ => λ _, g
  end.

Section Spec.
Context (namespace telemetryUrl : string).

(** Reads go to the own namespace; at most one request, with the summary of what was read. *)
Definition reporting_guar (g : reporting) : ∀ R, call R → Prop := λ R c,
  match c with
  | CKube (KGet k key) => key_Namespace key = namespace ∧ match k with KConfigMap => True | _ => False end
  | CKube (KList _ ns sel) => ns = namespace ∧ sel = no_selector
  | CRest _ rq => tl_sent g = false ∧ ∃ config cs gs ss ps js,
      tl_config g = Some config ∧ tl_codebases g = Some cs ∧ tl_gitservers g = Some gs
      ∧ tl_stages g = Some ss ∧ tl_pipelines g = Some ps ∧ tl_jiraservers g = Some js
      ∧ rq = submit_request telemetryUrl (summary config cs gs ss ps js)
  | CSys Now => True
  | _ => False
  end.

(** With the time the delay counts from. *)
Definition reporting_step (g : option Z * reporting) : ∀ R, call R → R → option Z * reporting := λ R c,
  match c in call R return R → option Z * reporting with
  | CKube kc => λ r, (fst g, reporting_kube (snd g) _ kc r)
  | CRest _ _ => λ _, (fst g,
      {| tl_config := tl_config (snd g); tl_codebases := tl_codebases (snd g);
         tl_gitservers := tl_gitservers (snd g); tl_stages := tl_stages (snd g);
         tl_pipelines := tl_pipelines (snd g); tl_jiraservers := tl_jiraservers (snd g);
         tl_sent := true |})
  | CSys sc => match sc in sys_call R return R → option Z * reporting with
      | Now => λ t, (Some t, snd g)
      | _ => λ _, g
      end
  | _ => λ _, g
  end.

Definition reporting_monitor : monitor (option Z * reporting) :=
  {| rely _ _ _ _ := True; guar g := reporting_guar (snd g); step := reporting_step |}.

Lemma wp_config {S} (s : S) t (Q : res KrciConfig → S → option Z * reporting → Prop) :
  (∀ m g, tl_config g = Some (cm_Data m) → tl_sent g = false → Q (Ok (mapConfigToKrciConfig m)) s (t, g)) →
  (∀ r g, is_ok r = false → tl_sent g = false → Q r s (t, g)) →
  wp reporting_monitor (GetKrciConfig namespace) s (t, reporting_start) Q.
Proof.
  intros Hok Hbad. unfold GetKrciConfig, getEdpConfig. wp_to_call. wp_step; [done|].
  intros [m|e|w] _; cbn; [wp_step; by apply Hok| |by apply Hbad].
  destruct (IsNotFound e); [|wp_step; by apply Hbad].
  wp_to_call. wp_step; [done|]. intros [m|e'|w] _; cbn; [wp_step; by apply Hok|wp_step|]; by apply Hbad.
Qed.

(** A listing that fails ends the report. *)
#[local] Ltac listing :=
  wp_to_call; wp_step; [done|]; intros [?l|?e|?w] _; [|wp_step; by split|by split]; cbn.

(** One report. *)
Lemma wp_sendTelemetry {S} (s : S) t :
  wp reporting_monitor (sendTelemetry namespace telemetryUrl) s (t, reporting_start)
    (λ r _ g, fst g = t ∧ (is_ok r = true → tl_sent (snd g) = true)).
Proof.
  unfold sendTelemetry. wp_step. wp_step. apply wp_config.
  2: { intros [|e|w] g Hr Hg; [done|wp_step|]; by split. }
  intros m g Hm Hg.
  do 5 listing. wp_to_call. wp_step.
  - split; [done|]. exists (cm_Data m), l, l0, l1, l2, l3. split_and!; try done. f_equal. unfold summary. f_equal.
    + apply map_ext. intros p. apply pipeline_metrics_summary.
    + by destruct l0.
    + by destruct l3.
  - intros [resp|e|w] _; cbn; [|wp_step; by split|by split].
    destruct (ra_IsError resp); wp_step; by split.
Qed.
Lemma wp_send_once {S} deadline ticks (s : S) t :
  wp reporting_monitor (send_once namespace telemetryUrl deadline ticks) s (Some t, reporting_start)
    (λ r _ g, (r = Ok tt ∨ ∃ w, r = Panic w)
      ∧ (tl_sent (snd g) = true → fst g = Some t ∧ ∃ now, now ∈ ticks ∧ (deadline < now)%Z)).
Proof.
  induction ticks as [|x ticks IH]; cbn [send_once]; [wp_step; split; [by left|done]|].
  destruct (deadline <? x)%Z eqn:Hx.
  - apply Z.ltb_lt in Hx. wp_step. wp_step. eapply wp_mono; [apply wp_sendTelemetry|].
    assert (Hs : ∃ now, now ∈ x :: ticks ∧ (deadline < now)%Z) by (exists x; by split; [left|]).
    intros [[]|e|w] s' g [Hg _]; cbn; [wp_step|wp_step|]; (split; [by eauto|done]).
  - eapply wp_mono; [exact IH|]. intros r s' g [Hr Hs]. split; [done|]. intros H.
    destruct (Hs H) as (?&now&?&?). split; [done|]. exists now. by split; [right|].
Qed.
End Spec.

