(* ===== verification/Entry.v ===== *)
(** * Entry: the start of the operator ([src/cmd/main.go])

    [main] as a program over the manager of controller-runtime and the environment: flags, TLS
    options, the registration of indexes, controllers and webhooks, the runnables and the
    order of all that. [os.Exit(1)] is an error of the program. The predicates that the
    controllers register with are in Predicates. *)

From S2P Require Import Prelude GoStd Api Effects Host DeploymentUsage.

#[local] Open Scope Z_scope.

Definition minutes : Z := 60 * second.
Definition hours : Z := 60 * minutes.

Definition codebaseOperatorLock : string := "edp-codebase-operator-lock".
Definition codebaseBranchMaxConcurrentReconcilesEnv : string := "CODEBASE_BRANCH_MAX_CONCURRENT_RECONCILES".
Definition telemetryDefaultDelay : Z := hours.
Definition telemetrySendEvery : Z := hours * 24.
Definition telemetryUrl : string := "https://telemetry.kuberocketci.io".
Definition branchStaleCheckIntervalEnv : string := "BRANCH_STALE_CHECK_INTERVAL".
Definition branchStaleCheckDefaultInterval : Z := hours * 24.

(** The command line; the flags of the logger are left out. *)
Record Flags := {
  metricsAddr : string; probeAddr : string; enableLeaderElection : bool; secureMetrics : bool;
  webhookCertPath : string; webhookCertName : string; webhookCertKey : string;
  metricsCertPath : string; metricsCertName : string; metricsCertKey : string; enableHTTP2 : bool }.
Definition default_flags : Flags :=
  {| metricsAddr := "0"; probeAddr := ":8081"; enableLeaderElection := false; secureMetrics := true;
     webhookCertPath := ""; webhookCertName := "tls.crt"; webhookCertKey := "tls.key";
     metricsCertPath := ""; metricsCertName := "tls.crt"; metricsCertKey := "tls.key"; enableHTTP2 := false |}.

(** [strconv.ParseInt(s, 10, bitSize)] *)
Definition ParseInt (bitSize : Z) (s : string) : res Z :=
  match Atoi s with
  | Ok v => if (- 2 ^ (bitSize - 1) <=? v) && (v <? 2 ^ (bitSize - 1)) then Ok v
            else Err (ENew ("strconv.ParseInt: parsing " +:+ go_quote s +:+ ": value out of range"))
  | r => r
  end.

Section Entry.
Context {S : Type}.

Definition manager (c : mgr_call) : M S unit := sys_res (Manager c).

Definition getMaxConcurrentReconciles (envVar : string) : M S Z :=
  val <- env envVar ;;
  ret (match val with
       | None => 1
       | Some val => match ParseInt 32 val with Ok n => n | _ => 1 end
       end).

Definition getBranchStaleCheckInterval : M S Z :=
  val <- env branchStaleCheckIntervalEnv ;;
  ret (match val with
       | None => branchStaleCheckDefaultInterval
       | Some val => match ParseDuration val with Ok d => d | _ => branchStaleCheckDefaultInterval end
       end).

Definition getTelemetryDelay : M S Z :=
  val <- env "TELEMETRY_DELAY" ;;
  ret (match val with
       | None => telemetryDefaultDelay
       | Some val => match Atoi val with Ok d => int64 (d * minutes) | _ => telemetryDefaultDelay end
       end).

(** ** Registration *)

(** [NewControllerManagedBy(mgr).For(...).WithOptions(...).Complete(r)] *)
Definition complete {O} (k : kind O) (maxConcurrentReconciles : Z) (name : string) : M S unit :=
  manager (CompleteController k maxConcurrentReconciles) ?> ("failed to build " +:+ name +:+ " controller: ").

Definition Codebase_SetupWithManager := complete KCodebase 0 "Codebase".
Definition CDStageDeploy_SetupWithManager := complete KCDStageDeploy 1 "CDStageDeploy".
Definition CodebaseBranch_SetupWithManager (maxConcurrentReconciles : Z) :=
  complete KCodebaseBranch maxConcurrentReconciles "CodebaseBranch".
Definition CodebaseImageStream_SetupWithManager := complete KCodebaseImageStream 0 "CodebaseImageStream".
Definition GitServer_SetupWithManager := complete KGitServer 0 "GitServer".
Definition IntegrationSecret_SetupWithManager := complete KSecret 0 "IntegrationSecret".
Definition JiraServer_SetupWithManager := complete KJiraServer 0 "JiraServer".
Definition JiraIssueMetadata_SetupWithManager := complete KJiraIssueMetadata 0 "JiraIssueMetadata".

Definition RegisterFieldIndexes : M S unit :=
  manager (IndexField BranchCodebaseNameIndex)
  ?> ("failed to index CodebaseBranch by " +:+ BranchCodebaseNameIndex +:+ ": ").

Definition Codebase_SetupWebhookWithManager : M S unit :=
  manager (CompleteWebhook KCodebase) ?> "failed to build Codebase validation webhook: ".
Definition CodebaseBranch_SetupWebhookWithManager : M S unit :=
  manager (CompleteWebhook KCodebaseBranch) ?> "failed to build CodebaseBranch validation webhook: ".
(** For each of the objects it is given; the error names a kind that is not set on them. *)
Definition webhook_failed : string := "failed to build /, Kind= validation webhook: ".
Definition ProtectedLabel_SetupWebhookWithManager : M S unit :=
  manager (CompleteWebhook KCodebaseImageStream) ?> webhook_failed ;;;
  manager (CompleteWebhook KGitServer) ?> webhook_failed.
Definition RegisterValidationWebHook : M S unit :=
  Codebase_SetupWebhookWithManager ;;;
  CodebaseBranch_SetupWebhookWithManager ;;;
  ProtectedLabel_SetupWebhookWithManager.

(** ** main *)

(** The options of TLS servers: [tlsOpts], and what a certificate adds to them. *)
Definition tlsOpts (f : Flags) : list TLSOpt := if negb (enableHTTP2 f) then [DisableHTTP2] else [].
Definition with_certificate (certPath certName certKey : string) (opts : list TLSOpt) : list TLSOpt :=
  if (0 <? String.length certPath)%nat
  then opts ++ [GetCertificate (path_join [certPath; certName]) (path_join [certPath; certKey])] else opts.

(** [if len(certPath) > 0]: a watcher of the certificate's files. *)
Definition cert_watcher (certPath certName certKey : string) : M S unit :=
  when (0 <? String.length certPath)%nat
    (manager (NewCertWatcher (path_join [certPath; certName]) (path_join [certPath; certKey]))).
Definition add_watcher (certPath certName certKey : string) : M S unit :=
  when (0 <? String.length certPath)%nat
    (manager (AddRunnable (CertWatcher (path_join [certPath; certName]) (path_join [certPath; certKey])))).

Definition manager_options (f : Flags) (ns : string) : ManagerOptions :=
  {| mo_BindAddress := metricsAddr f; mo_SecureServing := secureMetrics f; mo_Authorization := secureMetrics f;
     mo_TLSOpts := with_certificate (metricsCertPath f) (metricsCertName f) (metricsCertKey f) (tlsOpts f);
     mo_WebhookTLSOpts := with_certificate (webhookCertPath f) (webhookCertName f) (webhookCertKey f) (tlsOpts f);
     mo_HealthProbeBindAddress := probeAddr f; mo_LeaderElection := enableLeaderElection f;
     mo_LeaderElectionID := codebaseOperatorLock; mo_Namespace := ns |}.

Definition setup_controllers : M S unit :=
  CDStageDeploy_SetupWithManager ;;;
  Codebase_SetupWithManager ;;;
  n <- getMaxConcurrentReconciles codebaseBranchMaxConcurrentReconcilesEnv ;;
  CodebaseBranch_SetupWithManager n ;;;
  CodebaseImageStream_SetupWithManager ;;;
  GitServer_SetupWithManager ;;;
  JiraIssueMetadata_SetupWithManager ;;;
  JiraServer_SetupWithManager ;;;
  IntegrationSecret_SetupWithManager.

Definition setup_webhooks : M S unit :=
  enabled <- env "ENABLE_WEBHOOKS" ;;
  when (negb (bool_decide (default "" enabled = "false"))) RegisterValidationWebHook.

Definition setup_stale_checker (ns : string) : M S unit :=
  interval <- getBranchStaleCheckInterval ;;
  when (0 <? interval) (manager (AddRunnable (StaleChecker ns interval))).

(** Telemetry runs when the variable parses to true; the error of the parser is dropped. *)
Definition start_telemetry (ns : string) : M S unit :=
  enabled <- env "TELEMETRY_ENABLED" ;;
  when (match ParseBool (default "" enabled) with Ok b => b | _ => false end)
    (delay <- getTelemetryDelay ;;
     manager (GoCollector ns telemetryUrl delay telemetrySendEvery)).

(** Schemes are constants of the program and not part of the model. *)
Definition main (f : Flags) : M S unit :=
  cert_watcher (webhookCertPath f) (webhookCertName f) (webhookCertKey f) ;;;
  cert_watcher (metricsCertPath f) (metricsCertName f) (metricsCertKey f) ;;;
  ns <- GetWatchNamespace ;;
  manager GetConfig ;;;
  manager (NewManager (manager_options f ns)) ;;;
  RegisterFieldIndexes ;;;
  setup_controllers ;;;
  setup_webhooks ;;;
  add_watcher (metricsCertPath f) (metricsCertName f) (metricsCertKey f) ;;;
  add_watcher (webhookCertPath f) (webhookCertName f) (webhookCertKey f) ;;;
  manager (AddHealthzCheck "healthz") ;;;
  manager (AddReadyzCheck "readyz") ;;;
  setup_stale_checker ns ;;;
  start_telemetry ns ;;;
  manager StartManager.
End Entry.

(** ** When the manager starts *)

(** The calls that succeeded (the last one first), whether one failed, the variables read. *)
Record booting := {
  bt_done : list mgr_call; bt_failed : bool; bt_env : list (string * option string) }.
Definition booting_start : booting := {| bt_done := []; bt_failed := false; bt_env := [] |}.

Definition booting_step (g : booting) : ∀ R, call R → R → booting := λ R c,
  match c in call R return R → booting with
  | CSys sc => match sc in sys_call R return R → booting with
      | Manager mc => λ r, match r with
          | Ok _ => {| bt_done := mc :: bt_done g; bt_failed := bt_failed g; bt_env := bt_env g |}
          | _ => {| bt_done := bt_done g; bt_failed := true; bt_env := bt_env g |}
          end
      | LookupEnv name => λ v,
          {| bt_done := bt_done g; bt_failed := bt_failed g; bt_env := (name, v) :: bt_env g |}
      | _ => λ _, g
      end
  | _ => λ _, g
  end.

Section Spec.
Context (f : Flags).

(** The namespace that is watched, the flags' say about the servers. *)
Definition watched (g : booting) (ns : string) : Prop := ("WATCH_NAMESPACE", Some ns) ∈ bt_env g.
Definition serves (opts : list TLSOpt) (certPath certName certKey : string) : Prop :=
  (DisableHTTP2 ∈ opts ↔ enableHTTP2 f = false)
  ∧ (∀ c k, GetCertificate c k ∈ opts ↔ certPath ≠ ""
      ∧ c = path_join [certPath; certName] ∧ k = path_join [certPath; certKey]).
Definition asked_for (g : booting) (o : ManagerOptions) : Prop :=
  watched g (mo_Namespace o) ∧ mo_LeaderElection o = enableLeaderElection f
  ∧ mo_BindAddress o = metricsAddr f ∧ mo_HealthProbeBindAddress o = probeAddr f
  ∧ mo_SecureServing o = secureMetrics f ∧ mo_Authorization o = secureMetrics f
  ∧ serves (mo_TLSOpts o) (metricsCertPath f) (metricsCertName f) (metricsCertKey f)
  ∧ serves (mo_WebhookTLSOpts o) (webhookCertPath f) (webhookCertName f) (webhookCertKey f).

Definition branch_workers (val : option string) : Z :=
  match val with Some v => match ParseInt 32 v with Ok n => n | _ => 1 end | None => 1 end.

(** Every controller: one deployment at a time, branches as configured. *)
Definition controllers_ready (g : booting) : Prop :=
  CompleteController KCDStageDeploy 1 ∈ bt_done g ∧ CompleteController KCodebase 0 ∈ bt_done g
  ∧ (∃ v, (codebaseBranchMaxConcurrentReconcilesEnv, v) ∈ bt_env g
      ∧ CompleteController KCodebaseBranch (branch_workers v) ∈ bt_done g)
  ∧ CompleteController KCodebaseImageStream 0 ∈ bt_done g ∧ CompleteController KGitServer 0 ∈ bt_done g
  ∧ CompleteController KJiraIssueMetadata 0 ∈ bt_done g ∧ CompleteController KJiraServer 0 ∈ bt_done g
  ∧ CompleteController KSecret 0 ∈ bt_done g.
Definition webhooks_ready (g : booting) : Prop :=
  ("ENABLE_WEBHOOKS", Some "false") ∈ bt_env g
  ∨ CompleteWebhook KCodebase ∈ bt_done g ∧ CompleteWebhook KCodebaseBranch ∈ bt_done g
    ∧ CompleteWebhook KCodebaseImageStream ∈ bt_done g ∧ CompleteWebhook KGitServer ∈ bt_done g.
Definition indexed (g : booting) : Prop := IndexField BranchCodebaseNameIndex ∈ bt_done g.
Definition certified (g : booting) (certPath certName certKey : string) : Prop :=
  certPath ≠ "" → ∃ c k, c = path_join [certPath; certName] ∧ k = path_join [certPath; certKey]
    ∧ NewCertWatcher c k ∈ bt_done g ∧ AddRunnable (CertWatcher c k) ∈ bt_done g.

Definition booting_guar (g : booting) : ∀ R, call R → Prop := λ R c,
  match c with
  | CSys (LookupEnv _) => True
  | CSys (Manager mc) => bt_failed g = false ∧ match mc with
      | NewManager o => asked_for g o
      | IndexField i => i = BranchCodebaseNameIndex
      | CompleteWebhook _ => indexed g ∧ ∃ v, ("ENABLE_WEBHOOKS", v) ∈ bt_env g ∧ v ≠ Some "false"
      | AddRunnable (StaleChecker ns i) => watched g ns ∧ 0 < i
      | GoCollector ns url _ every => watched g ns ∧ url = telemetryUrl ∧ 0 < every
          ∧ ∃ v, ("TELEMETRY_ENABLED", Some v) ∈ bt_env g ∧ ParseBool v = Ok true
      | StartManager => StartManager ∉ bt_done g ∧ (∃ o, NewManager o ∈ bt_done g) ∧ indexed g
          ∧ controllers_ready g ∧ webhooks_ready g
          ∧ certified g (metricsCertPath f) (metricsCertName f) (metricsCertKey f)
          ∧ certified g (webhookCertPath f) (webhookCertName f) (webhookCertKey f)
          ∧ AddHealthzCheck "healthz" ∈ bt_done g ∧ AddReadyzCheck "readyz" ∈ bt_done g
      | _ => True
      end
  | _ => False
  end.

Definition booting_monitor : monitor booting :=
  {| rely _ _ _ _ := True; guar := booting_guar; step := booting_step |}.

(** ** Phases

    A phase that succeeds only adds to what was done and read. *)

Definition waiting (g : booting) : Prop := bt_failed g = false ∧ StartManager ∉ bt_done g.
Record later (g g' : booting) : Prop := {
  later_waiting : waiting g'; later_done : bt_done g ⊆ bt_done g'; later_env : bt_env g ⊆ bt_env g' }.
Definition gave_up (g : booting) : Prop := bt_failed g = true ∨ ("WATCH_NAMESPACE", None) ∈ bt_env g.

Context {S : Type} (s : S).
Definition boots {A} (g : booting) (h : M S A) (post : A → booting → Prop) : Prop :=
  waiting g → wp booting_monitor h s g (λ r s' g', s' = s ∧
    match r with Ok a => later g g' ∧ post a g' | Err _ => gave_up g' | Panic _ => True end).

Lemma later_refl g : waiting g → later g g.
Proof. by split. Qed.
Lemma later_trans g1 g2 g3 : later g1 g2 → later g2 g3 → later g1 g3.
Proof. intros [] []. split; [done|set_solver|set_solver]. Qed.

Lemma boots_bind {A B} g (h : M S A) (k : A → M S B) mid post :
  boots g h mid → (∀ a g', later g g' → mid a g' → boots g' (k a) post) → boots g (mbind h k) post.
Proof.
  intros Hh Hk Hw. wp_step. eapply wp_mono; [by apply Hh|].
  intros [a|e|w] s' g' [-> H]; cbn; [|done|done]. destruct H as [Hl Hm].
  eapply wp_mono; [apply (Hk a g' Hl Hm), Hl|]. intros [b|e|w] s'' g'' [-> H]; cbn; [|done|done].
  destruct H as [Hl' Hp]. split; [done|]. split; [by eapply later_trans|done].
Qed.

Lemma boots_mono {A} g (h : M S A) (post post' : A → booting → Prop) :
  (∀ a g', later g g' → post a g' → post' a g') → boots g h post → boots g h post'.
Proof.
  intros Hp Hh Hw. eapply wp_mono; [by apply Hh|]. intros [a|e|w] s' g' [-> H]; [|done|done].
  split; [done|]. destruct H. eauto.
Qed.

Lemma boots_ret {A} g (a : A) (post : A → booting → Prop) : post a g → boots g (ret a) post.
Proof. intros Hp Hw. wp_step. split; [done|]. split; [by apply later_refl|done]. Qed.

Lemma boots_env g name : boots g (env name) (λ v g', (name, v) ∈ bt_env g').
Proof.
  intros [Hf Hs]. unfold env. wp_step; [done|]. intros v _. cbn. split; [done|].
  split; [|by left]. split; [done|done|cbn; set_solver].
Qed.

Lemma boots_manager g c :
  c ≠ StartManager → (bt_failed g = false → booting_guar g _ (CSys (Manager c))) →
  boots g (manager c) (λ _ g', c ∈ bt_done g').
Proof.
  intros Hc Hg [Hf Hs]. unfold manager. wp_step. wp_step; [by apply Hg|].
  intros [[]|e|w] _; cbn; (split; [done|]); [|by left|done].
  split; [|by left]. split; [split; [done|]|cbn; set_solver|done].
  cbn. rewrite not_elem_of_cons. by split; [apply not_eq_sym|].
Qed.

Lemma boots_wrap {A} g (h : M S A) p post : boots g h post → boots g (h ?> p) post.
Proof.
  intros Hh Hw. wp_step. eapply wp_mono; [by apply Hh|]. intros [a|e|w] s' g' [-> H]; [done| |done].
  by wp_step.
Qed.

Lemma boots_when g b (h : M S unit) (post : booting → Prop) :
  (b = true → boots g h (λ _, post)) → boots g (when b h) (λ _ g', b = true → post g').
Proof.
  intros Hh. destruct b; cbn; [|by apply boots_ret]. eapply boots_mono; [|by apply Hh]. by intros [] g' _ H _.
Qed.

Lemma later_done_in g g' c : later g g' → c ∈ bt_done g → c ∈ bt_done g'.
Proof. intros [] ?. set_solver. Qed.
Lemma later_env_in g g' v : later g g' → v ∈ bt_env g → v ∈ bt_env g'.
Proof. intros [] ?. set_solver. Qed.

Lemma boots_complete {O} g (k : kind O) n name :
  boots g (complete k n name) (λ _ g', CompleteController k n ∈ bt_done g').
Proof. apply boots_wrap, boots_manager; [done|by intros]. Qed.

Lemma boots_webhook {O} g (k : kind O) p :
  indexed g → (∃ v, ("ENABLE_WEBHOOKS", v) ∈ bt_env g ∧ v ≠ Some "false") →
  boots g (manager (CompleteWebhook k) ?> p) (λ _ g', CompleteWebhook k ∈ bt_done g').
Proof. intros. by apply boots_wrap, boots_manager. Qed.

(** Run the next step of a phase and lift what is known over it. *)
#[local] Ltac next tac :=
  eapply boots_bind; [tac|];
  let g := fresh "g" in let L := fresh "L" in
  intros ? g L ?; cbv beta in *;
  repeat match goal with
  | H : _ ∈ bt_done _ |- _ => apply (later_done_in _ _ _ L) in H
  | H : _ ∈ bt_env _ |- _ => apply (later_env_in _ _ _ L) in H
  end.

Lemma boots_max_workers g name :
  boots g (getMaxConcurrentReconciles name) (λ n g', ∃ v, (name, v) ∈ bt_env g' ∧ n = branch_workers v).
Proof. unfold getMaxConcurrentReconciles. next ltac:(apply boots_env). apply boots_ret. eauto. Qed.

Lemma boots_controllers g : boots g setup_controllers (λ _ g', controllers_ready g').
Proof.
  unfold setup_controllers.
  do 2 next ltac:(apply boots_complete).
  next ltac:(apply boots_max_workers). destruct H1 as (v&Hv&->).
  do 4 next ltac:(apply boots_complete).
  next ltac:(apply boots_complete).
  eapply boots_mono; [|apply boots_complete]. intros [] g' L7 Hlast.
  unfold controllers_ready. split_and!; try (by eapply later_done_in); [|done].
  exists v. split; [by eapply later_env_in|by eapply later_done_in].
Qed.

Lemma boots_webhooks g : indexed g → boots g setup_webhooks (λ _ g', webhooks_ready g').
Proof.
  unfold indexed. intros Hi. unfold setup_webhooks. next ltac:(apply boots_env).
  destruct (bool_decide (default "" a = "false")) eqn:Hv; cbn [negb when].
  - apply bool_decide_eq_true in Hv. apply boots_ret. left. by destruct a as [v|]; cbn in Hv; subst.
  - apply bool_decide_eq_false in Hv.
    assert (∃ v, ("ENABLE_WEBHOOKS", v) ∈ bt_env g0 ∧ v ≠ Some "false") as (v&Hin&Hne).
    { exists a. split; [done|]. by intros ->. }
    unfold RegisterValidationWebHook, ProtectedLabel_SetupWebhookWithManager.
    do 3 next ltac:(apply boots_webhook; [done|by eauto]).
    eapply boots_mono; [|apply boots_webhook; [done|by eauto]]. intros [] g' L7 Hlast. right.
    split_and!; [by eapply later_done_in..|done].
Qed.

Lemma cert_path (p : string) : (0 <? String.length p)%nat = true ↔ p ≠ "".
Proof. destruct p; cbn; naive_solver. Qed.

Definition done_if (p : Prop) (c : mgr_call) (g : booting) : Prop := p → c ∈ bt_done g.

Lemma boots_cert_watcher g p n k :
  boots g (cert_watcher p n k)
    (λ _, done_if (p ≠ "") (NewCertWatcher (path_join [p; n]) (path_join [p; k]))).
Proof.
  eapply boots_mono; [|apply boots_when; intros _; apply boots_manager; [done|by intros]].
  intros [] g' _ H Hp. by apply H, cert_path.
Qed.

Lemma boots_add_watcher g p n k :
  boots g (add_watcher p n k)
    (λ _, done_if (p ≠ "") (AddRunnable (CertWatcher (path_join [p; n]) (path_join [p; k])))).
Proof.
  eapply boots_mono; [|apply boots_when; intros _; apply boots_manager; [done|by intros]].
  intros [] g' _ H Hp. by apply H, cert_path.
Qed.

Lemma with_certificate_serves p n k : serves (with_certificate p n k (tlsOpts f)) p n k.
Proof.
  unfold serves, with_certificate, tlsOpts.
  destruct (0 <? String.length p)%nat eqn:Hp; [apply cert_path in Hp|];
    destruct (enableHTTP2 f); cbn; (split; [|intros c x]); rewrite ?elem_of_cons, ?elem_of_nil.
  all: try (assert (¬ p ≠ "") by (rewrite <- cert_path; by rewrite Hp)).
  all: naive_solver.
Qed.

Lemma asked_for_options g ns :
  bt_failed g = false → watched g ns →
  booting_guar g _ (CSys (Manager (NewManager (manager_options f ns)))).
Proof.
  intros. split; [done|]. unfold asked_for. do 6 (split; [done|]). split; apply with_certificate_serves.
Qed.

Lemma boots_watch_namespace g : boots g GetWatchNamespace (λ ns g', watched g' ns).
Proof.
  intros [Hf Hs]. unfold GetWatchNamespace, env. wp_step. wp_step; [done|]. intros [ns|] _; cbn.
  - wp_step. split; [done|]. split; [|by left]. split; [done|done|cbn; set_solver].
  - wp_step. split; [done|]. right. by left.
Qed.

Lemma boots_stale_checker g ns : watched g ns → boots g (setup_stale_checker ns) (λ _ _, True).
Proof.
  unfold watched. intros Hw. unfold setup_stale_checker, getBranchStaleCheckInterval.
  next ltac:(next ltac:(apply boots_env); by apply (boots_ret _ _ (λ _ _, True))).
  eapply boots_mono; [done|]. apply boots_when. intros Ha. apply Z.ltb_lt in Ha.
  eapply boots_mono; [|apply boots_manager; [done|by intros]]. done.
Qed.

Lemma boots_telemetry g ns : watched g ns → boots g (start_telemetry ns) (λ _ _, True).
Proof.
  unfold watched. intros Hw. unfold start_telemetry. next ltac:(apply boots_env).
  eapply boots_mono; [|apply (boots_when _ _ _ (λ _, True)); intros Ht]; [done|].
  assert (∃ v, ("TELEMETRY_ENABLED", Some v) ∈ bt_env g0 ∧ ParseBool v = Ok true) as (v&Hv&Hb).
  { destruct a as [v|]; cbn in Ht; [|done]. exists v. split; [done|].
    by destruct (ParseBool v) as [[]|?|?]. }
  unfold getTelemetryDelay. next ltac:(next ltac:(apply boots_env); by apply (boots_ret _ _ (λ _ _, True))).
  eapply boots_mono; [|apply boots_manager; [done|]]; [done|]. intros Hf. cbn. split_and!; try done; by eauto.
Qed.

(** All of it: [main] returns after the manager ran, and exits when something failed. *)
Definition final (r : res unit) (g : booting) : Prop :=
  match r with Ok _ => StartManager ∈ bt_done g | Err _ => gave_up g | Panic _ => True end.
Definition ends (g : booting) (h : M S unit) : Prop :=
  waiting g → wp booting_monitor h s g (λ r _ g', final r g').

Lemma ends_bind {A} g (h : M S A) (k : A → M S unit) mid :
  boots g h mid → (∀ a g', later g g' → mid a g' → ends g' (k a)) → ends g (mbind h k).
Proof.
  intros Hh Hk Hw. wp_step. eapply wp_mono; [by apply Hh|].
  intros [a|e|w] s' g' [-> H]; cbn; [|done|done]. destruct H as [Hl Hm]. apply (Hk a g' Hl Hm), Hl.
Qed.

Lemma ends_start g : booting_guar g _ (CSys (Manager StartManager)) → ends g (manager StartManager).
Proof.
  intros Hg _. unfold manager. wp_step. wp_step; [done|]. by intros [[]|e|w] _; cbn; [left|left|].
Qed.

Lemma controllers_later g g' : later g g' → controllers_ready g → controllers_ready g'.
Proof.
  intros L (?&?&(v&?&?)&?&?&?&?&?). unfold controllers_ready.
  split_and!; try (by eapply later_done_in). exists v.
  split; [by eapply later_env_in|by eapply later_done_in].
Qed.
Lemma webhooks_later g g' : later g g' → webhooks_ready g → webhooks_ready g'.
Proof.
  intros L [?|(?&?&?&?)]; [left; by eapply later_env_in|right]. split_and!; by eapply later_done_in.
Qed.
Lemma done_if_later g g' p c : later g g' → done_if p c g → done_if p c g'.
Proof. intros L H Hp. eapply later_done_in; eauto. Qed.

#[local] Ltac stage tac :=
  eapply ends_bind; [tac|];
  let g := fresh "g" in let L := fresh "L" in
  intros ? g L ?; cbv beta in *;
  repeat match goal with
  | H : _ ∈ bt_done _ |- _ => apply (later_done_in _ _ _ L) in H
  | H : _ ∈ bt_env _ |- _ => apply (later_env_in _ _ _ L) in H
  | H : done_if _ _ _ |- _ => apply (done_if_later _ _ _ _ L) in H
  | H : controllers_ready _ |- _ => apply (controllers_later _ _ L) in H
  | H : webhooks_ready _ |- _ => apply (webhooks_later _ _ L) in H
  end.

Lemma ends_main g : ends g (main f).
Proof.
  unfold main.
  do 2 stage ltac:(apply boots_cert_watcher).
  stage ltac:(apply boots_watch_namespace). unfold watched in *.
  stage ltac:(apply boots_manager; [done|by intros]).
  stage ltac:(apply boots_manager; [done|intros Hf; by apply asked_for_options]).
  stage ltac:(apply boots_wrap, boots_manager; [done|by intros]).
  stage ltac:(apply boots_controllers).
  stage ltac:(by apply boots_webhooks).
  do 2 stage ltac:(apply boots_add_watcher).
  do 2 stage ltac:(apply boots_manager; [done|by intros]).
  stage ltac:(by apply boots_stale_checker).
  stage ltac:(by apply boots_telemetry).
  intros Hw. apply ends_start; [|done]. destruct Hw as [Hf Hs]. split; [done|]. cbn. unfold certified.
  split_and!; try done; by eauto 8.
Qed.
End Spec.

(** C18: However the environment and controller-runtime answer, the operator starts its manager
    at most once, and only after the field index, all eight controllers (deployments with one
    worker), the webhooks unless they are disabled, the certificate watchers and the health
    checks are in place, with HTTP/2 and authorization as the flags say; webhooks are
    registered only after the index they select on, the stale branch checker only with a
    positive interval, telemetry only when it is enabled; after a failure nothing else is
    called and the process exits with an error. *)
Theorem main_starts_when_ready {S} (f : Flags) (s : S) :
  wp (booting_monitor f) (main f) s booting_start (λ r _ g, match r with
    | Ok _ => StartManager ∈ bt_done g
    | Err _ => bt_failed g = true ∨ ("WATCH_NAMESPACE", None) ∈ bt_env g
    | Panic _ => True
    end).
Proof. apply ends_main. split; [done|]. apply not_elem_of_nil. Qed.
