(* ===== verification/GitServerController.v ===== *)
(** * GitServerController: the credentials, connection and event listener of a git server

    [src/controllers/gitserver]: gitserver_controller.go, ssh.go and
    create_event_listener.go. The state of the reconciliation is the local variable
    [instance]; ssh is a call. *)

From S2P Require Import Prelude Api Effects Externals Host CodebaseController CodebaseChain StageDeploy Simulation.

Definition minute : Z := 60 * second.
Definition defaultRequeueTime : Z := second * 30.
Definition successRequeueTime : Z := minute * 30.

(** ** ssh.go *)

Record gitSshData := { sd_Host : string; sd_User : string; sd_Key : string; sd_Port : Z }.

Definition extractSshData (gitServer : ModelGitServer) (secret : Secret) : gitSshData :=
  {| sd_Host := mgs_GitHost gitServer; sd_User := mgs_GitUser gitServer;
     sd_Key := map_get (sec_Data secret) PrivateSShKeyName; sd_Port := mgs_SshPort gitServer |}.

Section SSH.
Context {S : Type}.

Definition publicKey (key : string) : M S unit :=
  sys_res (ParsePrivateKey key) ?> "failed to parse private key: ".

Definition sshInitFromSecret (data : gitSshData) : M S unit :=
  publicKey (sd_Key data) ;;; sys_res (SSHClientConfig (sd_Host data) (sd_Port data)).

(** The session and the client are closed again, which is only logged. *)
Definition checkGitServerConnection (data : gitSshData) : M S unit :=
  sshInitFromSecret data ?> "failed to initialize ssh client: " ;;;
  sys_res (SSHNewSession (sd_Host data) (sd_User data) (sd_Key data) (sd_Port data))
    ?> "failed to create ssh session: ".
End SSH.

(** ** create_event_listener.go *)

Definition generateEventListenerHost (gitServer : GitServer) (dnsWildcard : string) : string :=
  "el-" +:+ name_of gitServer +:+ "-" +:+ namespace_of gitServer +:+ "." +:+ dnsWildcard.
Definition generateEventListenerName (gitServerName : string) : string := "edp-" +:+ gitServerName.

Definition desiredEventListenerLabelSelector (gitServer : GitServer) : value :=
  VMap [("matchLabels", VMap [(GitServerLabel, VString (name_of gitServer))])].

Definition event_listener_resources (gitServer : GitServer) : value :=
  VMap [("kubernetesResource", VMap [("spec", VMap [("template", VMap [("spec", VMap [
    ("serviceAccountName", VString ("tekton-triggers-sa-" +:+ namespace_of gitServer));
    ("containers", VList [VMap [
      ("name", VString "");
      ("resources", VMap [
        ("limits", VMap [("cpu", VString "500m"); ("memory", VString "128Mi")]);
        ("requests", VMap [("cpu", VString "50m"); ("memory", VString "64Mi")])])]])])])])])].

Definition event_listener_content (gitServer : GitServer) : value :=
  let trigger suffix := VMap [("triggerRef",
    VString (gs_GitProvider (g_Spec gitServer) +:+ suffix))] in
  VMap [("spec", VMap [
    ("serviceAccountName", VString "default");
    ("labelSelector", desiredEventListenerLabelSelector gitServer);
    ("triggers", VList [trigger "-build"; trigger "-review"]);
    ("resources", event_listener_resources gitServer)])].

Definition selector_path : list string := ["spec"; "labelSelector"; "matchLabels"; GitServerLabel].

Definition elServicePort : Z := 8080.
Definition routeWeight : Z := 100.

(** The metadata the listener's resources are created with. *)
Definition listener_meta (name : string) (labels : gmap string string) (gitServer : GitServer)
  : ObjectMeta := set_Labels labels (new_meta name "" (namespace_of gitServer)).
Definition git_server_label (gitServer : GitServer) : gmap string string :=
  {[ GitServerLabel := name_of gitServer ]}.

Section Listener.
Context {X : Externals} {S : Type}.

Definition generateServiceName (gitServerName : string) : string :=
  GeneratedResourcePrefix +:+ "-" +:+ generateEventListenerName gitServerName.

Definition reconcileEventListenerLabelSelector (gitServer : GitServer) (el : EventListener) : M S unit :=
  current <- of_res (NestedString (el_Content el) selector_path)
    ?> "failed to read EventListener labelSelector: " ;;
  if bool_decide (default "" current = name_of gitServer) then ret tt
  else
    content <- of_res (SetNestedField (el_Content el) (name_of gitServer) selector_path)
      ?> "failed to set EventListener labelSelector: " ;;
    k_patch KEventListener el {| el_Meta := el_Meta el; el_Content := content |}
      ?> "failed to patch EventListener labelSelector: " ;;;
    ret tt.

(** [Get], and [client.IgnoreNotFound]: whether the object exists. *)
Definition present {O} (k : kind O) (ns name what : string) : M S (option O) :=
  r <- attempt (k_get k ns name) ;;
  match r with
  | inl o => ret (Some o)
  | inr err => if IsNotFound err then ret None else throw (EWrap ("failed to get " +:+ what +:+ ": ") err)
  end.

(** [SetControllerReference] and [Create]. *)
Definition create_owned {O} (k : kind O) (gitServer : GitServer) (meta : ObjectMeta)
    (o : ObjectMeta → O) (what : string) : M S unit :=
  m <- of_res (SetControllerReference "GitServer" (g_Meta gitServer) meta)
    ?> ("failed to set controller reference for " +:+ what +:+ ": ") ;;
  k_create k (o m) ?> ("failed to create " +:+ what +:+ ": ") ;;;
  ret tt.

Definition createEventListener (gitServer : GitServer) : M S unit :=
  let elName := generateEventListenerName (name_of gitServer) in
  el <- present KEventListener (namespace_of gitServer) elName "EventListener" ;;
  match el with
  | Some el => reconcileEventListenerLabelSelector gitServer el
  | None =>
    create_owned KEventListener gitServer (listener_meta elName (git_server_label gitServer) gitServer)
      (λ m, {| el_Meta := m; el_Content := event_listener_content gitServer |}) "EventListener"
  end.

(** The backend of both routing resources: everything under / goes to the listener's service. *)
Definition listener_path (gitServer : GitServer) (pathType : string) : HTTPPath :=
  {| hp_Path := "/"; hp_PathType := pathType;
     hp_ServiceName := generateServiceName (name_of gitServer); hp_ServicePort := elServicePort |}.

Definition getDnsWildcard (gitServer : GitServer) : M S string :=
  config <- GetKrciConfig (namespace_of gitServer) ?> "failed to get dnsWildcard: " ;;
  ret (kc_DnsWildcard config).

Definition createIngress (gitServer : GitServer) : M S unit :=
  let name := GenerateIngressName (name_of gitServer) in
  ingress <- present KIngress (namespace_of gitServer) name "Ingress" ;;
  match ingress with
  | Some _ => ret tt
  | None =>
    wildcard <- getDnsWildcard gitServer ;;
    create_owned KIngress gitServer (listener_meta name (git_server_label gitServer) gitServer)
      (λ m, {| ing_Meta := m;
               ing_Rules := [{| ir_Host := generateEventListenerHost gitServer wildcard;
                                ir_Paths := [listener_path gitServer "Prefix"] |}] |}) "Ingress"
  end.

Definition createHTTPRoute (gitServer : GitServer) : M S unit :=
  gatewayName <- GatewayName ;;
  gatewayNamespace <- GatewayNamespace ;;
  if bool_decide (gatewayName = "") || bool_decide (gatewayNamespace = "") then
    throw (ENew "GATEWAY_NAME/GATEWAY_NAMESPACE must be set when INGRESS_CONTROLLER_TYPE=envoy")
  else
    let name := GenerateIngressName (name_of gitServer) in
    route <- present KHTTPRoute (namespace_of gitServer) name "HTTPRoute" ;;
    match route with
    | Some _ => ret tt
    | None =>
      wildcard <- getDnsWildcard gitServer ;;
      create_owned KHTTPRoute gitServer (listener_meta name (git_server_label gitServer) gitServer)
        (λ m, {| hr_Meta := m;
                 hr_ParentRefs := [{| pf_Name := gatewayName; pf_Namespace := gatewayNamespace |}];
                 hr_Hostnames := [generateEventListenerHost gitServer wildcard];
                 hr_Rules := [listener_path gitServer "PathPrefix"] |}) "HTTPRoute"
    end.

Definition createRoute (gitServer : GitServer) : M S unit :=
  let name := GenerateIngressName (name_of gitServer) in
  route <- present KRoute (namespace_of gitServer) name "Route" ;;
  match route with
  | Some _ => ret tt
  | None =>
    wildcard <- getDnsWildcard gitServer ;;
    create_owned KRoute gitServer (listener_meta name ∅ gitServer)
      (λ m, {| rt_Meta := m; rt_Host := generateEventListenerHost gitServer wildcard;
               rt_InsecureEdgeTerminationPolicy := "Redirect"; rt_Termination := "edge";
               rt_ToKind := "Service"; rt_ToName := generateServiceName (name_of gitServer);
               rt_ToWeight := routeWeight; rt_TargetPort := "http-listener";
               rt_WildcardPolicy := "None"; rt_IngressHosts := [] |}) "Route"
  end.

Definition CreateEventListener_ServeRequest (gitServer : GitServer) : M S unit :=
  if gs_TektonDisabled (g_Spec gitServer) then ret tt
  else if negb (bool_decide (gs_WebhookUrl (g_Spec gitServer) = "")) then ret tt
  else
    createEventListener gitServer ;;;
    openshift <- IsOpenshift ;;
    if openshift : bool then createRoute gitServer
    else
      envoy <- IsEnvoy ;;
      if envoy : bool then createHTTPRoute gitServer else createIngress gitServer.

(** ** gitserver_controller.go *)

(** Another git server of the namespace uses the same secret. *)
Definition shared_secret (gitServer : GitServer) (items : list GitServer) : bool :=
  existsb (λ g, negb (bool_decide (name_of g = name_of gitServer))
    && bool_decide (gs_NameSshKeySecret (g_Spec g) = gs_NameSshKeySecret (g_Spec gitServer))) items.

Definition ensureSecretOwnership (gitServer : GitServer) : M S unit :=
  let secretName := gs_NameSshKeySecret (g_Spec gitServer) in
  secret <- present KSecret (namespace_of gitServer) secretName ("secret " +:+ secretName) ;;
  match secret with
  | None => ret tt
  | Some secret =>
    match GetControllerOf (sec_Meta secret) with
    | Some _ => ret tt
    | None =>
      gitServers <- k_list KGitServer (namespace_of gitServer) no_selector
        ?> ("failed to list GitServers in namespace " +:+ namespace_of gitServer +:+ ": ") ;;
      if shared_secret gitServer gitServers then ret tt
      else
        meta <- of_res (SetControllerReference "GitServer" (g_Meta gitServer) (sec_Meta secret))
          ?> ("failed to set owner reference on secret " +:+ name_of secret +:+ ": ") ;;
        k_update KSecret (obj_set_meta secret meta)
          ?> ("failed to update secret " +:+ name_of secret +:+ " with owner reference: ") ;;;
        ret tt
    end
  end.

Definition checkConnectionToGitServer (gitServer : ModelGitServer) : M S unit :=
  sshSecret <- k_get KSecret (mgs_Namespace gitServer) (mgs_NameSshKeySecret gitServer)
    ?> ("failed to get secret " +:+ mgs_NameSshKeySecret gitServer +:+ ": ") ;;
  let sshData := extractSshData gitServer sshSecret in
  if bool_decide (sd_Key sshData = "") then ret tt
  else checkGitServerConnection sshData
         ?> ("failed to establish connection to Git Server " +:+ sd_Host sshData +:+ ": ").
End Listener.

Definition set_Connected (b : bool) (s : GitServerStatus) : GitServerStatus :=
  {| gst_Error := gst_Error s; gst_Connected := b; gst_Status := gst_Status s |}.

Definition updateGitServerStatus (oldStatus : GitServerStatus) : M GitServer unit :=
  gitServer <- get ;;
  if bool_decide (g_Status gitServer = oldStatus) then ret tt
  else status_update_self KGitServer ?> "failed to update GitServer status: ".

Definition update_git_status (f : GitServerStatus → GitServerStatus) : M GitServer unit :=
  modify (λ g, g_with_status (f (g_Status g)) g).

(** The two failures before the connection is known. *)
Definition disconnected (oldStatus : GitServerStatus) (err : error) : M GitServer Result :=
  update_git_status (set_Connected false ∘ SetFailed (err_msg err)) ;;;
  updateGitServerStatus oldStatus ;;;
  ret {| RequeueAfter := defaultRequeueTime |}.

Section Controller.
Context {X : Externals}.

Definition serve_git_server : M GitServer Result :=
  instance <- get ;;
  let oldStatus := g_Status instance in
  owned <- attempt (ensureSecretOwnership instance) ;;
  match owned with
  | inr err => disconnected oldStatus err
  | inl _ =>
    connection <- attempt (checkConnectionToGitServer (ConvertToGitServer instance)) ;;
    match connection with
    | inr err => disconnected oldStatus err
    | inl _ =>
      update_git_status (set_Connected true) ;;;
      instance <- get ;;
      listener <- attempt (CreateEventListener_ServeRequest instance) ;;
      match listener with
      | inr err =>
        update_git_status (SetFailed (err_msg err)) ;;;
        updateGitServerStatus oldStatus ;;;
        ret {| RequeueAfter := defaultRequeueTime |}
      | inl _ =>
        update_git_status SetSuccess ;;;
        updateGitServerStatus oldStatus ;;;
        ret {| RequeueAfter := successRequeueTime |}
      end
    end
  end.

Definition ReconcileGitServer (request : ObjectKey) : M GitServer Result :=
  fetched <- attempt (do_res (CKube (KGet KGitServer request))) ;;
  match fetched with
  | inr err =>
    if IsNotFound err then ret no_result
    else throw (EWrap ("failed to fetch resource " +:+ quote_key request +:+ ": ") err)
  | inl instance => put instance ;;; serve_git_server
  end.
End Controller.

(** ** What one reconciliation has seen *)

Inductive fact :=
| SawGit (g : GitServer)
| SawSecret (key : ObjectKey) (s : Secret)
| SawPeers (ns : string) (l : list GitServer)
| SawConfig (m : ConfigMap)
| Session (host user key : string)
| NoListener | SawListener (e : EventListener)
| NoRoute | Routed.

(** The outcome of a get: the object, or that there is none. *)
Definition seen {O} (there : O → fact) (absent : fact) (r : res O) : list fact :=
  match r with
  | Ok o => [there o]
  | Err e => if IsNotFound e then [absent] else []
  | Panic _ => []
  end.
Definition learned {O} (f : O → fact) (r : res O) : list fact :=
  match r with Ok o => [f o] | _ => [] end.

Definition kube_facts {R} (c : kube_call R) : R → list fact :=
  match c in kube_call R return R → list fact with
  | KGet k key => match k in kind V return res V → list fact with
    | KGitServer => learned SawGit
    | KSecret => learned (SawSecret key)
    | KConfigMap => learned SawConfig
    | KEventListener => seen SawListener NoListener
    | KIngress | KHTTPRoute | KRoute => seen (λ _, Routed) NoRoute
    | _ => λ _, []
    end
  | KList k ns _ => match k in kind V return res (list V) → list fact with
    | KGitServer => learned (SawPeers ns)
    | _ => λ _, []
    end
  | KCreate k _ => match k in kind V return res V → list fact with
    | KEventListener => learned SawListener
    | KIngress | KHTTPRoute | KRoute => learned (λ _, Routed)
    | _ => λ _, []
    end
  | _ => λ _, []
  end.

Definition facts_of {R} (c : call R) : R → list fact :=
  match c in call R return R → list fact with
  | CKube kc => kube_facts kc
  | CSys sc => match sc in sys_call R return R → list fact with
    | SSHNewSession host user key _ => learned (λ _, Session host user key)
    | _ => λ _, []
    end
  | _ => λ _, []
  end.

Definition secret_key (gs : GitServer) : ObjectKey :=
  {| key_Namespace := namespace_of gs; key_Name := gs_NameSshKeySecret (g_Spec gs) |}.

(** The ssh session the git server's specification and a secret ask for was opened. *)
Definition connected (g : list fact) (gs : GitServer) : Prop :=
  ∃ s, SawSecret (secret_key gs) s ∈ g ∧
    let key := map_get (sec_Data s) PrivateSShKeyName in
    (key = "" ∨ Session (gs_GitHost (g_Spec gs)) (gs_GitUser (g_Spec gs)) key ∈ g).

(** The webhooks of the git server arrive: Tekton is off, a URL is given, or a listener and a
    route to it exist. *)
Definition reachable (g : list fact) (gs : GitServer) : Prop :=
  gs_TektonDisabled (g_Spec gs) = true ∨ gs_WebhookUrl (g_Spec gs) ≠ ""
  ∨ (∃ e, SawListener e ∈ g) ∧ Routed ∈ g.

Section Monitor.
Context {X : Externals}.

(** A routing resource of [gs] with these hosts: none was there, and the host is the one the
    configured wildcard gives. *)
Definition routes (g : list fact) (m : ObjectMeta) (hosts : list string) : Prop :=
  ∃ gs config, SawGit gs ∈ g ∧ NoRoute ∈ g ∧ SawConfig config ∈ g
    ∧ om_Name m = GenerateIngressName (name_of gs) ∧ om_Namespace m = namespace_of gs
    ∧ hosts = [generateEventListenerHost gs (map_get (cm_Data config) "dns_wildcard")].

Definition serving_guar (g : list fact) : ∀ R, call R → Prop := guard_kube (λ R c,
  match c with
  | KGet _ _ | KList _ _ _ => True
  | @KUpdate V k o => match k in kind V return V → Prop with
    | KSecret => λ s', ∃ gs s peers refs, SawGit gs ∈ g ∧ SawSecret (secret_key gs) s ∈ g
        ∧ SawPeers (namespace_of gs) peers ∈ g
        ∧ Forall (λ r, or_Controller r = false) (om_OwnerReferences (sec_Meta s))
        ∧ (∀ p, p ∈ peers → gs_NameSshKeySecret (g_Spec p) = gs_NameSshKeySecret (g_Spec gs) →
             name_of p = name_of gs)
        ∧ s' = obj_set_meta s (set_OwnerReferences refs (sec_Meta s))
    | _ => λ _, False
    end o
  | @KCreate V k o => match k in kind V return V → Prop with
    | KEventListener => λ e, ∃ gs, SawGit gs ∈ g ∧ NoListener ∈ g
        ∧ om_Name (el_Meta e) = generateEventListenerName (name_of gs)
        ∧ om_Namespace (el_Meta e) = namespace_of gs ∧ el_Content e = event_listener_content gs
    | KIngress => λ i, routes g (ing_Meta i) (map ir_Host (ing_Rules i))
    | KHTTPRoute => λ r, routes g (hr_Meta r) (hr_Hostnames r)
    | KRoute => λ r, routes g (rt_Meta r) [rt_Host r]
    | _ => λ _, False
    end o
  | @KPatch V k old new => match k in kind V return V → V → Prop with
    | KEventListener => λ old new, ∃ gs, SawGit gs ∈ g ∧ SawListener old ∈ g
        ∧ el_Meta new = el_Meta old
        ∧ NestedString (el_Content new) selector_path = Ok (Some (name_of gs))
        ∧ ∀ q, unrelated selector_path q → NestedField (el_Content new) q = NestedField (el_Content old) q
    | _ => λ _ _, False
    end old new
  | @KStatusUpdate V k o => match k in kind V return V → Prop with
    | KGitServer => λ o, ∃ gs, SawGit gs ∈ g
        ∧ g_Meta o = g_Meta gs ∧ g_Spec o = g_Spec gs ∧ g_Status o ≠ g_Status gs
        ∧ (gst_Connected (g_Status o) = true → connected g gs)
        ∧ (IsSuccess (g_Status o) = true →
             gst_Connected (g_Status o) = true ∧ gst_Error (g_Status o) = "" ∧ reachable g gs)
    | _ => λ _, False
    end o
  | _ => False
  end).

Definition serving_monitor : monitor (list fact) :=
  {| rely _ _ _ _ := True; guar := serving_guar; step g R c r := facts_of c r ++ g |}.

Context {XL : ExternalsLaws X}.

(** ** Lemmas *)

(** The facts only grow. *)
Definition grown (g0 : list fact) {T} (s0 : T) (s : T) (g : list fact) : Prop := s = s0 ∧ g0 ⊆ g.

Lemma connected_mono g g' gs : g ⊆ g' → connected g gs → connected g' gs.
Proof. intros Hg (s&Hs&Hk). exists s. split; [auto|]. destruct Hk; [by left|right; auto]. Qed.

(** A branch that ends in a failure. *)
Ltac failed := repeat wp_step; split; [split; [done|cbn; set_solver]|intros [=]].

Lemma wp_connection {T} gs (s : T) g :
  wp serving_monitor (checkConnectionToGitServer (ConvertToGitServer gs)) s g
    (λ r s' g', grown g s s' g' ∧ (r = Ok tt → connected g' gs)).
Proof.
  unfold checkConnectionToGitServer. wp_to_call. wp_step; [done|].
  intros [sec|e|w] _; [|failed|failed].
  destruct (decide (sd_Key (extractSshData (ConvertToGitServer gs) sec) = "")) as [Hk|Hk].
  { rewrite bool_decide_true by done. wp_step. split; [by split; [|cbn; set_solver]|].
    intros _. exists sec. split; [cbn; set_solver|by left]. }
  rewrite bool_decide_false by done.
  unfold checkGitServerConnection, sshInitFromSecret, publicKey.
  do 3 (wp_to_call; wp_step; [done|]; intros [[]|e|w] _; [|failed|failed]).
  split; [split; [done|cbn; set_solver]|]. intros _. exists sec.
  split; [cbn; set_solver|]. right. cbn. set_solver.
Qed.

Lemma wp_present {O T} (k : kind O) ns name what (s : T) g (Q : res (option O) → T → list fact → Prop) :
  let c := CKube (KGet k {| key_Namespace := ns; key_Name := name |}) in
  (∀ o, Q (Ok (Some o)) s (facts_of c (Ok o) ++ g)) →
  (∀ e, IsNotFound e = true → Q (Ok None) s (facts_of c (Err e) ++ g)) →
  (∀ r g', (∀ o, r ≠ Ok o) → g ⊆ g' → Q r s g') →
  wp serving_monitor (present k ns name what) s g Q.
Proof.
  intros c Hok Hnone Hfail. unfold present. wp_to_call. wp_step; [done|].
  intros [o|e|w] _; [apply Hok| |by apply Hfail; [|set_solver]].
  cbv beta iota. destruct (IsNotFound e) eqn:He; [by apply Hnone|by apply Hfail; [|set_solver]].
Qed.

(** The call's facts are the only new ones; whatever was seen is still seen. *)
Lemma wp_create_owned {O T} (k : kind O) gs meta (o : ObjectMeta → O) what (s : T) g
    (Q : res unit → T → list fact → Prop) :
  (∀ refs, serving_guar g (res O) (CKube (KCreate k (o (set_OwnerReferences refs meta))))) →
  (∀ m o', Q (Ok tt) s (facts_of (CKube (KCreate k (o m))) (Ok o') ++ g)) →
  (∀ r g', r ≠ Ok tt → g ⊆ g' → Q r s g') →
  wp serving_monitor (create_owned k gs meta o what) s g Q.
Proof.
  intros Hg Hok Hfail. unfold create_owned. wp_to_call.
  destruct (SetControllerReference _ _ _) as [m|e|w] eqn:Hm; [|by apply Hfail..].
  destruct (SetControllerReference_rest _ _ _ _ Hm) as [refs ->].
  wp_to_call. wp_step; [apply Hg|].
  intros [o'|e|w] _; [apply Hok|by apply Hfail; [|set_solver]..].
Qed.

Lemma wp_getDnsWildcard {T} gs (s : T) g (Q : res string → T → list fact → Prop) :
  (∀ config g', SawConfig config ∈ g' → g ⊆ g' → Q (Ok (map_get (cm_Data config) "dns_wildcard")) s g') →
  (∀ r g', (∀ v, r ≠ Ok v) → g ⊆ g' → Q r s g') →
  wp serving_monitor (getDnsWildcard gs) s g Q.
Proof.
  intros Hok Hfail. unfold getDnsWildcard, GetKrciConfig, getEdpConfig. wp_to_call.
  wp_step; [done|]. intros [config|e|w] _; [apply Hok; cbn; set_solver| |by apply Hfail; [|set_solver]].
  cbv beta iota. destruct (IsNotFound e); [|by apply Hfail; [|set_solver]].
  wp_to_call. wp_step; [done|].
  intros [config|e'|w] _; [apply Hok; cbn; set_solver|by apply Hfail; [|cbn; set_solver]..].
Qed.

Definition served (g : list fact) {T} (s : T) (done : fact) (r : res unit) (s' : T) (g' : list fact) : Prop :=
  grown g s s' g' ∧ (r = Ok tt → done ∈ g').

Lemma served_failed {T} g (s : T) (done : fact) r g' : r ≠ Ok tt → g ⊆ g' → served g s done r s g'.
Proof. by intros Hr Hg; split; [split|]. Qed.

(** The common part of the three routing resources. *)
Lemma wp_route {O T} (k : kind O) gs st what name labels (o : string → ObjectMeta → O)
    (hosts : O → list string) (meta : O → ObjectMeta) (s : T) g :
  let gs' := g_with_status st gs in
  SawGit gs ∈ g →
  name = GenerateIngressName (name_of gs') →
  (∀ key, facts_of (CKube (KGet k key)) = seen (λ _, Routed) NoRoute) →
  (∀ x, facts_of (CKube (KCreate k x)) = learned (λ _, Routed)) →
  (∀ g x, serving_guar g _ (CKube (KCreate k x)) = routes g (meta x) (hosts x)) →
  (∀ w m, meta (o w m) = m ∧ hosts (o w m) = [generateEventListenerHost gs' w]) →
  wp serving_monitor
    (route <- present k (namespace_of gs') name what ;;
     match route with
     | Some _ => ret tt
     | None => wildcard <- getDnsWildcard gs' ;;
               create_owned k gs' (listener_meta name labels gs') (o wildcard) what
     end) s g (served g s Routed).
Proof.
  intros gs' Hgit Hname Hget Hcreate Hguar Ho. rewrite Hname. apply wp_bind, wp_present.
  - intros o1. rewrite Hget. wp_step. by split; [split; [|cbn; set_solver]|cbn; set_solver].
  - intros e He. rewrite Hget. cbn. rewrite He. apply wp_bind, wp_getDnsWildcard.
    + intros config g' Hconfig Hg. apply wp_create_owned.
      * intros refs. rewrite Hguar. destruct (Ho (map_get (cm_Data config) "dns_wildcard")
          (set_OwnerReferences refs (listener_meta (GenerateIngressName (name_of gs')) labels gs')))
          as [-> ->].
        exists gs, config. split_and!; [set_solver|set_solver|done..].
      * intros m o'. rewrite Hcreate. by split; [split; [|cbn; set_solver]|cbn; set_solver].
      * intros r g1 Hr Hg1. apply served_failed; [done|set_solver].
    + intros [v|e'|w] g' Hr Hg; [by destruct (Hr v)|apply served_failed; [done|set_solver]..].
  - intros [v|e'|w] g' Hr Hg; [by destruct (Hr v)|apply served_failed; [done|set_solver]..].
Qed.

Lemma wp_label_selector {T} gs st el (s : T) g :
  SawGit gs ∈ g → SawListener el ∈ g →
  wp serving_monitor (reconcileEventListenerLabelSelector (g_with_status st gs) el) s g
    (λ _ s' g', grown g s s' g').
Proof.
  intros Hgit Hel. unfold reconcileEventListenerLabelSelector. apply wp_bind, wp_orelse, wp_of_res.
  destruct (NestedString _ _) as [cur|e|w]; [|by apply wp_throw|done].
  destruct (bool_decide _); [by apply wp_ret|]. apply wp_bind, wp_orelse, wp_of_res.
  destruct (SetNestedField _ _ _) as [content|e|w] eqn:Hset; [|by apply wp_throw|done].
  wp_to_call. wp_step.
  - exists gs. split_and!; [done..| |].
    + exact (SetNestedField_same _ _ _ _ Hset).
    + intros q. exact (SetNestedField_other _ _ _ _ q Hset).
  - intros [o|e|w] _; [wp_step|wp_step|]; by split; [|cbn; set_solver].
Qed.

Lemma wp_createEventListener {T} gs st (s : T) g :
  SawGit gs ∈ g →
  wp serving_monitor (createEventListener (g_with_status st gs)) s g
    (λ r s' g', grown g s s' g' ∧ (r = Ok tt → ∃ e, SawListener e ∈ g')).
Proof.
  intros Hgit. unfold createEventListener. apply wp_bind, wp_present.
  - intros el. eapply wp_mono; [apply wp_label_selector; cbn; set_solver|].
    intros r s' g' [-> Hg]. split; [split; [done|set_solver]|]. intros _. exists el. set_solver.
  - intros e He. cbn. rewrite He. apply wp_create_owned.
    + intros refs. exists gs. split_and!; [set_solver|set_solver|done..].
    + intros m o'. split; [split; [done|cbn; set_solver]|]. intros _. exists o'. cbn. set_solver.
    + intros r g' Hr Hg. split; [split; [done|set_solver]|done].
  - intros [v|e'|w] g' Hr Hg; [by destruct (Hr v)|by split; [split|]..].
Qed.

Lemma wp_createRoute {T} gs st (s : T) g :
  SawGit gs ∈ g →
  wp serving_monitor (createRoute (g_with_status st gs)) s g (served g s Routed).
Proof. intros H. by apply (wp_route KRoute gs st _ _ _ _ (λ r, [rt_Host r]) rt_Meta). Qed.

Lemma wp_createIngress {T} gs st (s : T) g :
  SawGit gs ∈ g →
  wp serving_monitor (createIngress (g_with_status st gs)) s g (served g s Routed).
Proof. intros H. by apply (wp_route KIngress gs st _ _ _ _ (map ir_Host ∘ ing_Rules) ing_Meta). Qed.

Lemma wp_createHTTPRoute {T} gs st (s : T) g :
  SawGit gs ∈ g →
  wp serving_monitor (createHTTPRoute (g_with_status st gs)) s g
    (λ r s' g', ∃ g1, g ⊆ g1 ∧ served g1 s Routed r s' g').
Proof.
  intros H. unfold createHTTPRoute, GatewayName, GatewayNamespace, getenv.
  wp_to_call. wp_step; [done|]. intros v1 _. wp_to_call. wp_step; [done|]. intros v2 _.
  wp_step; cbv beta iota. destruct (_ || _);
    [apply wp_throw; exists g; split; [done|apply served_failed; [done|cbn; set_solver]]|].
  eapply wp_mono; [by apply (wp_route KHTTPRoute gs st _ _ _ _ hr_Hostnames hr_Meta)|].
  intros r s' g' Hr. by eexists; split; [|exact Hr].
Qed.

Lemma wp_serve_listener {T} gs st (s : T) g :
  SawGit gs ∈ g →
  wp serving_monitor (CreateEventListener_ServeRequest (g_with_status st gs)) s g
    (λ r s' g', grown g s s' g' ∧ (r = Ok tt → reachable g' gs)).
Proof.
  intros Hgit. unfold CreateEventListener_ServeRequest. cbn [g_with_status g_Spec].
  destruct (gs_TektonDisabled (g_Spec gs)) eqn:Htek; [apply wp_ret; by split; [split|left]|].
  destruct (negb _) eqn:Hurl.
  { apply wp_ret. split; [by split|]. intros _. right; left. by bool_props. }
  apply wp_bind. eapply wp_mono; [by apply wp_createEventListener|].
  intros [[]|e|w] s1 g1 [[-> Hg1] Hl]; [|by split..]. destruct (Hl eq_refl) as [el Hel].
  assert (Hroute : ∀ r s' g', (∃ g2, g1 ⊆ g2 ∧ served g2 s Routed r s' g') →
    grown g s s' g' ∧ (r = Ok tt → reachable g' gs)).
  { intros r s' g' (g2&Hg2&[-> Hg]&Hr). split; [split; [done|set_solver]|]. intros Hok.
    right; right. split; [exists el; set_solver|auto]. }
  unfold IsOpenshift, lookup_platform, IsEnvoy, getenv. wp_to_call. wp_step; [done|]. intros v _.
  do 2 (wp_step; cbv beta iota). destruct (bool_decide (default K8S v = Openshift)).
  { eapply wp_mono; [apply wp_createRoute; cbn; set_solver|]. intros r s' g' Hr. apply Hroute.
    by eexists; split; [|exact Hr]. }
  wp_to_call. wp_step; [done|]. intros v' _. do 2 (wp_step; cbv beta iota).
  destruct (bool_decide (default "" v' = IngressControllerEnvoy)).
  - eapply wp_mono; [apply wp_createHTTPRoute; cbn; set_solver|]. intros r s' g' (g2&Hg2&Hr).
    apply Hroute. exists g2. split; [done|exact Hr].
  - eapply wp_mono; [apply wp_createIngress; cbn; set_solver|]. intros r s' g' Hr. apply Hroute.
    by eexists; split; [|exact Hr].
Qed.

Lemma shared_secret_false gs items :
  shared_secret gs items = false →
  ∀ p, p ∈ items → gs_NameSshKeySecret (g_Spec p) = gs_NameSshKeySecret (g_Spec gs) → name_of p = name_of gs.
Proof.
  unfold shared_secret. intros H p Hp Hs. apply not_true_iff_false in H.
  destruct (decide (name_of p = name_of gs)) as [|Hne]; [done|]. exfalso. apply H, existsb_exists.
  exists p. split; [by apply list_elem_of_In|]. by rewrite bool_decide_false, bool_decide_true.
Qed.

Lemma wp_ensureSecretOwnership {T} gs (s : T) g :
  SawGit gs ∈ g → wp serving_monitor (ensureSecretOwnership gs) s g (λ _ s' g', grown g s s' g').
Proof.
  intros Hgit. unfold ensureSecretOwnership. apply wp_bind, wp_present.
  - intros sec. cbv beta iota. destruct (GetControllerOf (sec_Meta sec)) eqn:Hctl;
      [by wp_step; split; [|cbn; set_solver]|].
    apply GetControllerOf_none in Hctl. wp_to_call. wp_step; [done|].
    intros [peers|e|w] _; [|wp_step|]; [|by split; [|cbn; set_solver]..].
    cbv beta iota. destruct (shared_secret gs peers) eqn:Hshared;
      [by wp_step; split; [|cbn; set_solver]|].
    apply wp_bind, wp_orelse, wp_of_res.
    destruct (SetControllerReference _ _ _) as [m|e|w] eqn:Hm; [|wp_step|];
      [|by split; [|cbn; set_solver]..].
    destruct (SetControllerReference_rest _ _ _ _ Hm) as [refs ->].
    wp_to_call. wp_step.
    + exists gs, sec, peers, refs. split_and!; [cbn; set_solver..| | |done]; [done|].
      by apply shared_secret_false.
    + intros [o|e|w] _; [wp_step|wp_step|]; by split; [|cbn; set_solver].
  - intros e He. wp_step. by split; [|cbn; set_solver].
  - intros [v|e|w] g' Hr Hg; [by destruct (Hr v)|by split..].
Qed.

(** The status write, from any object that differs from the fetched one in its status. *)
Lemma wp_update_status gs st g :
  SawGit gs ∈ g →
  (gst_Connected st = true → connected g gs) →
  (IsSuccess st = true → gst_Connected st = true ∧ gst_Error st = "" ∧ reachable g gs) →
  wp serving_monitor (updateGitServerStatus (g_Status gs)) (g_with_status st gs) g (λ _ _ _, True).
Proof.
  intros Hgit Hc Hok. unfold updateGitServerStatus. wp_step. wp_step. cbv beta iota.
  cbn [g_Status g_with_status].
  destruct (decide (st = g_Status gs)) as [->|Hne];
    [rewrite bool_decide_true by done; by wp_step|rewrite bool_decide_false by done].
  wp_to_call. wp_step; [by exists gs|]. intros [o|e|w] _; by repeat wp_step.
Qed.

Lemma wp_disconnected gs e g :
  SawGit gs ∈ g →
  wp serving_monitor (disconnected (g_Status gs) e) gs g (λ _ _ _, True).
Proof.
  intros Hgit. unfold disconnected, update_git_status. apply wp_bind. wp_step. cbv beta iota.
  apply wp_bind. eapply wp_mono; [by apply wp_update_status|].
  intros [[]|e'|w] s' g' _; by repeat wp_step.
Qed.

Lemma wp_serve_git_server gs g :
  SawGit gs ∈ g → wp serving_monitor serve_git_server gs g (λ _ _ _, True).
Proof.
  intros Hgit. unfold serve_git_server. apply wp_bind. wp_step. cbv beta iota zeta.
  apply wp_bind, wp_attempt. eapply wp_mono; [by apply wp_ensureSecretOwnership|].
  intros [[]|e|w] s1 g1 [-> Hg1]; [|apply wp_disconnected; set_solver|done].
  cbv beta iota. apply wp_bind, wp_attempt. eapply wp_mono; [apply wp_connection|].
  intros [[]|e|w] s2 g2 [[-> Hg2] Hc]; [|apply wp_disconnected; set_solver|done].
  cbv beta iota. specialize (Hc eq_refl). unfold update_git_status.
  do 2 (apply wp_bind; wp_step; cbv beta iota).
  apply wp_bind, wp_attempt. eapply wp_mono; [apply wp_serve_listener; set_solver|].
  intros [[]|e|w] s3 g3 [[-> Hg3] Hr]; [| |done].
  all: cbv beta iota; apply wp_bind; wp_step; cbv beta iota; apply wp_bind.
  all: eapply wp_mono;
    [apply (wp_update_status gs); [set_solver|intros _; by eapply connected_mono|]
    |intros [[]|e'|w] s' g' _; by repeat wp_step].
  - intros _. split_and!; [done..|by apply Hr].
  - done.
Qed.
End Monitor.

(** C15: Whatever the API server and the git server answer, a reconciliation of a GitServer
    makes its ssh secret its own only while the secret has no controller and no other listed
    GitServer uses it; it creates an EventListener, an Ingress, an HTTPRoute or a Route only
    after it saw that there is none, with the host of the configured wildcard; it changes an
    existing EventListener only at the git server's label of the selector; it writes the status
    only when it changes, says "connected" only after the ssh session of the secret's key was
    opened or the key is empty, and "ok" only if the webhooks also reach the server. *)
Theorem git_server_reconcile_safe {X : Externals} {XL : ExternalsLaws X} (request : ObjectKey) s :
  wp serving_monitor (ReconcileGitServer request) s [] (λ _ _ _, True).
Proof.
  unfold ReconcileGitServer. apply wp_bind, wp_attempt, wp_do_res; [done|]. intros [gs|e|w] _; [| |done].
  - cbv beta iota. apply wp_bind. wp_step. cbv beta iota. apply wp_serve_git_server. cbn. set_solver.
  - cbv beta iota. by destruct (IsNotFound e); wp_step.
Qed.

Lemma git_server_reconcile_safe_witness :
  wp serving_monitor (ReconcileGitServer {| key_Namespace := "ns"; key_Name := "gitlab" |})
    sim_gitlab [] (λ _ _ _, True).
Proof. exact (@git_server_reconcile_safe reference reference_laws _ _). Defined.
