(* ===== verification/WebhookUrl.v ===== *)
(** * WebhookUrl: from the git server's listener to the codebase's webhook

    Two components meet in the cluster: [CreateEventListener] of the GitServer controller
    writes an Ingress, an HTTPRoute or a Route, and [getWebHookUrl] of the codebase's chain
    reads the address of a webhook from it. *)

From S2P Require Import Prelude Api Effects Externals Urls Host CodebaseController CodebaseChain StageDeploy Simulation GitServerController.

(** The routing resources under the listener's name. *)
Record cluster := { w_ingress : option Ingress; w_http : option HTTPRoute; w_route : option Route }.
Definition no_routes : cluster := {| w_ingress := None; w_http := None; w_route := None |}.

(** What a get of a stored object answers. *)
Definition stored {O} (o : option O) (r : res O) : Prop :=
  match o with
  | Some x => r = Ok x
  | None => ∃ msg, r = Err (EExt NotFound msg)
  end.

(** The router admitted the route: its status repeats the host. *)
Definition admitted (r : Route) : Route :=
  {| rt_Meta := rt_Meta r; rt_Host := rt_Host r;
     rt_InsecureEdgeTerminationPolicy := rt_InsecureEdgeTerminationPolicy r;
     rt_Termination := rt_Termination r; rt_ToKind := rt_ToKind r; rt_ToName := rt_ToName r;
     rt_ToWeight := rt_ToWeight r; rt_TargetPort := rt_TargetPort r;
     rt_WildcardPolicy := rt_WildcardPolicy r; rt_IngressHosts := [rt_Host r] |}.

Section Exposure.
Context {X : Externals} (gs : GitServer) (vars : string → option string) (wildcard : string).

Definition route_key : ObjectKey :=
  {| key_Namespace := namespace_of gs; key_Name := GenerateIngressName (name_of gs) |}.

(** An API server that keeps what is written, a pod with the environment [vars], and a
    [krci-config] with the wildcard; an EventListener is absent or selects this server. *)
Definition keeper_rely (g : cluster) : ∀ R, call R → R → Prop := λ R c,
  match c in call R return R → Prop with
  | CKube kc => match kc in kube_call R return R → Prop with
    | KGet k key => match k in kind V return res V → Prop with
      | KIngress => λ r, key = route_key → stored (w_ingress g) r
      | KHTTPRoute => λ r, key = route_key → stored (w_http g) r
      | KRoute => λ r, key = route_key → stored (w_route g) r
      | KConfigMap => λ r, ∃ config, r = Ok config ∧ map_get (cm_Data config) "dns_wildcard" = wildcard
      | KEventListener => λ r, stored None r
          ∨ ∃ el, r = Ok el ∧ NestedString (el_Content el) selector_path = Ok (Some (name_of gs))
      | _ => λ _, True
      end
    | KCreate k o => λ r, r = Ok o
    | _ => λ _, True
    end
  | CSys sc => match sc in sys_call R return R → Prop with
    | LookupEnv name => λ r, r = vars name
    | _ => λ _, True
    end
  | _ => λ _, True
  end.

Definition keeper_step (g : cluster) : ∀ R, call R → R → cluster := λ R c _,
  match c with
  | CKube (@KCreate V k o) => match k in kind V return V → cluster with
    | KIngress => λ i, {| w_ingress := Some i; w_http := w_http g; w_route := w_route g |}
    | KHTTPRoute => λ h, {| w_ingress := w_ingress g; w_http := Some h; w_route := w_route g |}
    | KRoute => λ r, {| w_ingress := w_ingress g; w_http := w_http g; w_route := Some (admitted r) |}
    | _ => λ _, g
    end o
  | _ => g
  end.

Definition keeper : monitor cluster :=
  {| rely := keeper_rely; guar _ _ _ := True; step := keeper_step |}.

(** The resource the platform uses shows this host. *)
Definition exposed (host : string) (g : cluster) : Prop :=
  if bool_decide (default K8S (vars "PLATFORM_TYPE") = Openshift) then
    ∃ r, w_route g = Some r ∧ rt_IngressHosts r = [host]
  else if bool_decide (default "" (vars "INGRESS_CONTROLLER_TYPE") = IngressControllerEnvoy) then
    ∃ r, w_http g = Some r ∧ hr_Hostnames r = [host]
  else ∃ i, w_ingress g = Some i ∧ map ir_Host (ing_Rules i) = [host].

(** The pod is configured for Kubernetes or OpenShift, and for a gateway if it uses one. *)
Definition configured : Prop :=
  default K8S (vars "PLATFORM_TYPE") ∈ [K8S; Openshift]
  ∧ (vars "INGRESS_CONTROLLER_TYPE" = Some IngressControllerEnvoy →
       ∃ a n b m, vars "GATEWAY_NAME" = Some (String a n) ∧ vars "GATEWAY_NAMESPACE" = Some (String b m)).

(** [SetControllerReference] accepts an object nobody owns. *)
Definition ownable : Prop := ∀ m, om_OwnerReferences m = [] →
  ∃ refs, SetControllerReference "GitServer" (g_Meta gs) m = Ok (set_OwnerReferences refs m).

Let host := generateEventListenerHost gs wildcard.

Lemma wp_kept {O T} (k : kind O) (key : ObjectKey) what (s : T) g
    (Q : res (option O) → T → cluster → Prop) :
  (∀ r, keeper_rely g _ (CKube (KGet k key)) r →
     (∃ o, r = Ok o ∧ Q (Ok (Some o)) s g) ∨ (∃ m, r = Err (EExt NotFound m) ∧ Q (Ok None) s g)) →
  wp keeper (present k (key_Namespace key) (key_Name key) what) s g Q.
Proof.
  intros H. destruct key as [ns n]. unfold present. wp_to_call. wp_step; [done|].
  intros r Hr. destruct (H r Hr) as [(o&->&HQ)|(m&->&HQ)]; exact HQ.
Qed.

Lemma wp_keep_owned {O T} (k : kind O) meta (o : ObjectMeta → O) what (s : T) g
    (Q : res unit → T → cluster → Prop) :
  ownable → om_OwnerReferences meta = [] →
  (∀ refs r, Q (Ok tt) s (keeper_step g _ (CKube (KCreate k (o (set_OwnerReferences refs meta)))) r)) →
  wp keeper (create_owned k gs meta o what) s g Q.
Proof.
  intros Hown Hm HQ. unfold create_owned. wp_to_call. destruct (Hown meta Hm) as [refs ->].
  wp_to_call. wp_step; [done|]. intros r ->. wp_step. apply HQ.
Qed.

Lemma wp_keep_wildcard {T} (s : T) g (Q : res string → T → cluster → Prop) :
  Q (Ok wildcard) s g → wp keeper (getDnsWildcard gs) s g Q.
Proof.
  intros HQ. unfold getDnsWildcard, GetKrciConfig. wp_to_call. wp_step; [done|].
  intros r (config&->&Hw). repeat (wp_step; cbv beta iota). cbn. by rewrite Hw.
Qed.

Lemma wp_keep_env {T} name (s : T) g (Q : res (option string) → T → cluster → Prop) :
  Q (Ok (vars name)) s g → wp keeper (do_call (CSys (LookupEnv name))) s g Q.
Proof. intros HQ. wp_step; [done|]. by intros r ->. Qed.

Lemma host_with_protocol : GetHostWithProtocol host = "https://" +:+ host.
Proof. reflexivity. Qed.

Definition fresh_or_exposed (g : cluster) : Prop := g = no_routes ∨ exposed host g.

(** The common part of the three routing resources: what is stored is kept, what is missing is
    created with the host. *)
Lemma wp_keep_route {O T} (k : kind O) name what labels (o : string → ObjectMeta → O) (s : T) g
    (Q : res unit → T → cluster → Prop) (there : cluster → option O) :
  ownable →
  name = GenerateIngressName (name_of gs) →
  (∀ r, keeper_rely g (res O) (CKube (KGet k route_key)) r → stored (there g) r) →
  (∀ x, there g = Some x → Q (Ok tt) s g) →
  (∀ m r, there g = None → Q (Ok tt) s (keeper_step g (res O) (CKube (KCreate k (o wildcard m))) r)) →
  wp keeper
    (route <- present k (namespace_of gs) name what ;;
     match route with
     | Some _ => ret tt
     | None => wildcard <- getDnsWildcard gs ;;
               create_owned k gs (listener_meta name labels gs) (o wildcard) what
     end) s g Q.
Proof.
  intros Hown Hname Hrely Hthere Hmissing. rewrite Hname. apply wp_bind, (wp_kept k route_key).
  intros r Hr. apply Hrely in Hr. destruct (there g) as [x|] eqn:Hx.
  - left. exists x. split; [done|]. wp_step. eauto.
  - right. destruct Hr as [m ->]. exists m. split; [done|]. cbv beta iota.
    apply wp_bind, wp_keep_wildcard. cbv beta iota. apply wp_keep_owned; [done..|].
    intros refs r. by apply Hmissing.
Qed.

Lemma wp_keep_listener {T} (s : T) g (Q : res unit → T → cluster → Prop) :
  ownable → Q (Ok tt) s g → wp keeper (createEventListener gs) s g Q.
Proof.
  intros Hown HQ. unfold createEventListener.
  apply wp_bind, (wp_kept KEventListener
    {| key_Namespace := namespace_of gs; key_Name := generateEventListenerName (name_of gs) |}).
  intros r [[m ->]|(el&->&Hel)].
  - right. exists m. split; [done|]. cbv beta iota. by apply wp_keep_owned.
  - left. exists el. split; [done|]. cbv beta iota. unfold reconcileEventListenerLabelSelector.
    apply wp_bind, wp_orelse, wp_of_res. rewrite Hel. cbv beta iota.
    rewrite bool_decide_true by done. by wp_step.
Qed.

Lemma wp_keep_platform {T} b (s : T) g (Q : res bool → T → cluster → Prop) :
  Q (Ok (bool_decide (default K8S (vars "PLATFORM_TYPE") = b))) s g →
  wp keeper (p <- lookup_platform ;; ret (bool_decide (p = b))) s g Q.
Proof. intros HQ. unfold lookup_platform. by repeat apply wp_bind; apply wp_keep_env. Qed.

Lemma wp_keep_getenv {T} name (s : T) g (Q : res string → T → cluster → Prop) :
  Q (Ok (default "" (vars name))) s g → wp keeper (getenv name) s g Q.
Proof. intros HQ. by apply wp_bind, wp_keep_env. Qed.

Definition envoy_env : bool := bool_decide (default "" (vars "INGRESS_CONTROLLER_TYPE") = IngressControllerEnvoy).

Lemma wp_keep_envoy {T} (s : T) g (Q : res bool → T → cluster → Prop) :
  Q (Ok envoy_env) s g → wp keeper IsEnvoy s g Q.
Proof. intros HQ. by apply wp_bind, wp_keep_getenv. Qed.

Lemma wp_createHTTPRoute_kept {T} (s : T) g (Q : res unit → T → cluster → Prop) :
  ownable → configured → envoy_env = true →
  (∀ x, w_http g = Some x → Q (Ok tt) s g) →
  (∀ x, w_http g = None → hr_Hostnames x = [host] →
     Q (Ok tt) s {| w_ingress := w_ingress g; w_http := Some x; w_route := w_route g |}) →
  wp keeper (createHTTPRoute gs) s g Q.
Proof.
  intros Hown [_ Hgw] Henvoy Hthere Hnew. unfold createHTTPRoute, GatewayName, GatewayNamespace.
  destruct Hgw as (a&n&b&m&Hn&Hm).
  { apply bool_decide_eq_true in Henvoy. by destruct (vars _) as [v|]; [f_equal|]. }
  apply wp_bind, wp_keep_getenv. apply wp_bind, wp_keep_getenv. rewrite Hn, Hm. cbn [default from_option].
  apply (wp_keep_route KHTTPRoute _ _ _ _ s g Q w_http); [done|done|by intros r Hr; apply Hr|done|].
  intros md r Hnone. by apply Hnew.
Qed.

Lemma wp_serve_exposes {T} (s : T) g :
  ownable → configured → gs_TektonDisabled (g_Spec gs) = false → gs_WebhookUrl (g_Spec gs) = "" →
  fresh_or_exposed g →
  wp keeper (CreateEventListener_ServeRequest gs) s g (λ r s' g', r = Ok tt ∧ exposed host g').
Proof.
  intros Hown Hconf Htek Hurl Hg. unfold CreateEventListener_ServeRequest.
  rewrite Htek, bool_decide_true by done. cbn [negb].
  apply wp_bind, wp_keep_listener; [done|]. cbv beta iota.
  apply wp_bind, wp_keep_platform. cbv beta iota. unfold fresh_or_exposed, exposed in *.
  destruct (bool_decide (default K8S (vars "PLATFORM_TYPE") = Openshift)).
  { apply (wp_keep_route KRoute _ _ _ _ s g _ w_route); [done|done|by intros r Hr; apply Hr|by naive_solver|].
    intros md r _. split; [done|]. by eexists. }
  apply wp_bind, wp_keep_envoy. cbv beta iota. fold envoy_env in *. destruct envoy_env eqn:Henvoy.
  - apply wp_createHTTPRoute_kept; [done..|by naive_solver|]. intros x _ Hx. split; [done|]. by eexists.
  - apply (wp_keep_route KIngress _ _ _ _ s g _ w_ingress); [done|done|by intros r Hr; apply Hr|by naive_solver|].
    intros md r _. split; [done|]. by eexists.
Qed.

Lemma wp_getWebHookUrl {T} (s : T) g :
  configured → gs_WebhookUrl (g_Spec gs) = "" → exposed host g →
  wp keeper (getWebHookUrl gs) s g (λ r _ _, r = Ok ("https://" +:+ host)).
Proof.
  intros [Hplat _] Hurl Hg. unfold getWebHookUrl. rewrite bool_decide_true by done. cbn [negb].
  apply wp_bind, wp_keep_platform. cbv beta iota. unfold exposed in Hg.
  destruct (decide (default K8S (vars "PLATFORM_TYPE") = Openshift)) as [Hos|Hos];
    [rewrite Hos in *; rewrite (bool_decide_true (Openshift = Openshift)) in Hg by done; cbn [negb]
    |rewrite (bool_decide_false _ Hos) in Hg].
  - rewrite (bool_decide_false (Openshift = K8S)) by done. cbn [negb].
    destruct Hg as (r&Hr&Hh). unfold getWebhookRouteUrl. wp_to_call. wp_step; [done|].
    intros x Hx. specialize (Hx eq_refl). cbn in Hx. rewrite Hr in Hx. cbn in Hx. subst x.
    cbv beta iota. by rewrite Hh.
  - assert (Hk : default K8S (vars "PLATFORM_TYPE") = K8S) by set_solver.
    rewrite bool_decide_true by done. cbn [negb].
    apply wp_bind, wp_keep_envoy. cbv beta iota. fold envoy_env in Hg. destruct envoy_env.
    + destruct Hg as (r&Hr&Hh). unfold getWebhookHTTPRouteUrl. wp_to_call. wp_step; [done|].
      intros x Hx. specialize (Hx eq_refl). cbn in Hx. rewrite Hr in Hx. cbn in Hx. subst x.
      cbv beta iota. by rewrite Hh.
    + destruct Hg as (i&Hi&Hh). unfold getWebhookIngressUrl. wp_to_call. wp_step; [done|].
      intros x Hx. specialize (Hx eq_refl). cbn in Hx. rewrite Hi in Hx. cbn in Hx. subst x.
      cbv beta iota. destruct (ing_Rules i) as [|rule rules]; [done|].
      cbn in Hh. injection Hh as Hrule _. wp_step. by rewrite Hrule.
Qed.

Lemma wp_serve_again {T} (l : list nat) (s : T) g :
  ownable → configured → gs_TektonDisabled (g_Spec gs) = false → gs_WebhookUrl (g_Spec gs) = "" →
  exposed host g →
  wp keeper (for_each l (λ _, CreateEventListener_ServeRequest gs)) s g
    (λ r _ g', match r with Ok _ => exposed host g' | _ => False end).
Proof.
  intros Hown Hconf Htek Hurl Hg.
  apply (wp_for_each keeper l _ (λ _, exposed host) (λ _ _ _, False)); [done|].
  intros _ s' g' _ Hg'. eapply wp_mono; [by apply wp_serve_exposes; [..|right]|].
  by intros r s1 g1 [-> H1].
Qed.
End Exposure.

(** C20: The address a codebase's webhook is created with is the address its git server is
    served at: once the GitServer controller has served the server any number of times, on
    Kubernetes with nginx or envoy or on OpenShift, the codebase's chain reads
    https://el-<name>-<namespace>.<wildcard> back from the cluster, whichever resource carries it. *)
Theorem webhook_url_roundtrip {X : Externals} {T} gs vars wildcard (n : nat) (s : T) :
  ownable gs → configured vars →
  gs_TektonDisabled (g_Spec gs) = false → gs_WebhookUrl (g_Spec gs) = "" →
  wp (keeper gs vars wildcard)
    (for_each (seq 0 (S n)) (λ _, CreateEventListener_ServeRequest gs) ;;; getWebHookUrl gs) s no_routes
    (λ r _ _, r = Ok ("https://el-" +:+ name_of gs +:+ "-" +:+ namespace_of gs +:+ "." +:+ wildcard)).
Proof.
  intros Hown Hconf Htek Hurl. cbn [seq for_each]. apply wp_bind, wp_bind.
  eapply wp_mono; [by apply (wp_serve_exposes gs vars wildcard); [..|left]|]. intros r s1 g1 [-> Hg1].
  eapply wp_mono; [by apply wp_serve_again|]. intros [[]|e|w] s2 g2 Hg2; [|done..].
  eapply wp_mono; [by apply (wp_getWebHookUrl gs vars wildcard)|]. intros r _ _ ->. reflexivity.
Qed.

Definition listening_server : GitServer :=
  {| g_Meta := new_meta "gitlab" "" "ns";
     g_Spec := {| gs_GitHost := "gitlab.com"; gs_GitUser := "git"; gs_HttpsPort := 0; gs_SshPort := 22;
                  gs_NameSshKeySecret := "gitlab-sshkey"; gs_GitProvider := GitProviderGitlab;
                  gs_SkipWebhookSSLVerification := false; gs_WebhookUrl := "";
                  gs_TektonDisabled := false |};
     g_Status := {| gst_Error := ""; gst_Connected := true; gst_Status := "" |} |}.

Lemma webhook_url_roundtrip_witness :
  wp (@keeper reference listening_server (λ _, None) "example.com")
    (for_each (seq 0 3) (λ _, CreateEventListener_ServeRequest listening_server) ;;;
     getWebHookUrl listening_server) tt no_routes
    (λ r _ _, r = Ok "https://el-gitlab-ns.example.com").
Proof.
  apply (@webhook_url_roundtrip reference unit listening_server (λ _, None) "example.com" 2 tt).
  - intros m _. by eexists.
  - split; [set_solver|done].
  - reflexivity.
  - reflexivity.
Defined.
