(* ===== verification/Jira.v ===== *)
(** * Jira: the Jira client and the JiraServer controller

    [src/pkg/client/jira] over the go-jira library, whose calls are [jira_call]s, and
    [src/controllers/jiraserver]. A [jira.Client] is the connection it was made with. *)

From S2P Require Import Prelude Api Effects GoStd Json Externals Host CodebaseController.

(** ** pkg/client/jira *)

Definition ConvertSpecToJiraServer (url user password : string) : JiraConnection :=
  {| jc_ApiUrl := url; jc_User := user; jc_Pwd := password |}.

Section Client.
Context {S : Type}.

Definition initClient (js : JiraConnection) : M S JiraConnection :=
  jira_res js JNewClient ?> "failed to create new jira client: " ;;;
  ret js.
Definition GoJiraAdapterFactory_New (js : JiraConnection) : M S JiraConnection := initClient js.

Variable client : JiraConnection.

Definition Connected : M S bool := jira_res client JGetSelf ?> "failed to fetch jira user: ".

Definition GetIssue (issueId : string) : M S (option IssueFields) :=
  answer <- do_call (CJira client (JGetIssue issueId)) ;;
  of_res (ia_Issue answer) ?> "failed to fetch jira issue: ".

(** The project's ID. A response without fields is dereferenced. *)
Definition GetProjectInfo (issueId : string) : M S string :=
  answer <- do_call (CJira client (JGetIssue issueId)) ;;
  if bool_decide (ia_StatusCode answer = Some 404%Z) then throw (ESentinel ErrJiraNotFound)
  else match ia_Issue answer with
  | Ok (Some fields) => ret (if_ProjectID fields)
  | Ok None => panic "nil pointer dereference: issue.Fields"
  | Err err =>
    if str_contains "404" (err_msg err) then throw (ESentinel ErrJiraNotFound)
    else throw (EWrap "failed to fetch jira issue: " err)
  | Panic w => panic w
  end.

Definition CreateFixVersionValue (projectId : Z) (versionName : string) : M S unit :=
  jira_res client (JCreateVersion versionName projectId) ?> "failed to create jira version component: ".

Definition CreateComponentValue (projectId : Z) (componentName : string) : M S unit :=
  project <- jira_res client (JGetProject (itoa projectId)) ?> "failed to fetch jira project: " ;;
  jira_res client (JCreateComponent componentName project projectId) ?> "failed to create jira component: ".

Definition ApplyTagsToIssue (issue : string) (tags : value) : M S unit :=
  jira_res client (JUpdateIssue issue tags) ?> "failed to update jira issue: ".

Definition remote_link (title link : string) : RemoteLink :=
  {| rl_Relationship := "links to"; rl_Title := title; rl_URL := link;
     rl_IconUrl16x16 := "https://raw.githubusercontent.com/KubeRocketCI/docs/main/static/img/kuberocketci.png" |}.
Definition remote_link_path (issueId : string) : string := "rest/api/2/issue/" +:+ issueId +:+ "/remotelink".

Definition CreateIssueLink (issueId title link : string) : M S unit :=
  let remoteLink := Some (remote_link title link) in
  jira_res client (JNewRequest "POST" (remote_link_path issueId) remoteLink)
    ?> "failed to create HTTP request to jira: " ;;;
  jira_res client (JDo "POST" (remote_link_path issueId) remoteLink)
    ?> "failed to perform HTTP request to jira: ".

(** [url.URL{Path: p}.String()]: bytes a path may not contain are escaped. *)
Definition path_char (a : Ascii.ascii) : bool :=
  let c := code a in
  ascii_between 48 57 a || ascii_between 65 90 a || ascii_between 97 122 a
  || existsb (Z.eqb c) (map (λ n, Z.of_nat n) [45; 95; 46; 126; 36; 38; 43; 44; 47; 58; 59; 61; 64]%nat).
Definition upper_hex (n : nat) : Ascii.ascii := ascii_upper (hex_digit n).
Definition escape_byte (a : Ascii.ascii) : string :=
  if path_char a then String a ""
  else let n := Ascii.nat_of_ascii a in
       String (byte 37) (String (upper_hex (n / 16)) (String (upper_hex (n mod 16)) "")).
Fixpoint path_escape (s : string) : string :=
  match s with
  | "" => ""
  | String a s' => escape_byte a +:+ path_escape s'
  end.

(** The query with [maxResults] is built and never put into the URL. *)
Definition issue_type_meta_url (projectID issueTypeID : string) : string :=
  path_escape ("rest/api/2/issue/createmeta/" +:+ projectID +:+ "/issuetypes/" +:+ issueTypeID).

Definition GetIssueTypeMeta (projectID issueTypeID : string) : M S (gmap string IssueTypeMeta) :=
  let url := issue_type_meta_url projectID issueTypeID in
  jira_res client (JNewRequest "GET" url None)
    ?> "failed to create GetIssueTypeMeta HTTP request to jira: " ;;;
  values <- jira_res client (JDoMeta "GET" url)
    ?> "failed to perform GetIssueTypeMeta HTTP request to jira: " ;;
  ret (members (map (λ m, (itm_FieldID m, m)) values)).
End Client.

(** [initJiraClient] of both controllers. *)
Definition initJiraClient {S} (js : JiraServer) : M S JiraConnection :=
  let name := js_CredentialName (j_Spec js) in
  s <- GetSecret name (namespace_of js) ?> ("failed to get secret " +:+ name +:+ ": ") ;;
  let user := map_get (sec_Data s) "username" in
  let pwd := map_get (sec_Data s) "password" in
  GoJiraAdapterFactory_New (ConvertSpecToJiraServer (js_ApiUrl (j_Spec js)) user pwd)
    ?> "failed to create Jira client: ".

(** ** controllers/jiraserver *)

Definition j_with_status (s : JiraServerStatus) (j : JiraServer) : JiraServer :=
  {| j_Meta := j_Meta j; j_Spec := j_Spec j; j_Status := s |}.
Definition set_Available (b : bool) (j : JiraServer) : JiraServer :=
  j_with_status {| jst_Available := b; jst_LastTimeUpdated := jst_LastTimeUpdated (j_Status j);
    jst_Status := jst_Status (j_Status j); jst_DetailedMessage := jst_DetailedMessage (j_Status j) |} j.
Definition set_jira_status (status message : string) (j : JiraServer) : JiraServer :=
  j_with_status {| jst_Available := jst_Available (j_Status j);
    jst_LastTimeUpdated := jst_LastTimeUpdated (j_Status j);
    jst_Status := status; jst_DetailedMessage := message |} j.
Definition set_jira_time (t : Z) (j : JiraServer) : JiraServer :=
  j_with_status {| jst_Available := jst_Available (j_Status j); jst_LastTimeUpdated := t;
    jst_Status := jst_Status (j_Status j); jst_DetailedMessage := jst_DetailedMessage (j_Status j) |} j.

Definition checkConnection {S} (client : JiraConnection) : M S bool :=
  Connected client ?> "failed to connect to Jira server: ".

(** The only handler of the default chain: there is no next one. *)
Definition CheckConnection_ServeRequest (client : JiraConnection) : M JiraServer unit :=
  connected <- checkConnection client ;;
  modify (set_Available connected).

Definition jira_updateStatus : M JiraServer unit :=
  t <- now ;;
  modify (set_jira_time t) ;;;
  r <- attempt (status_update_self KJiraServer) ;;
  match r with
  | inl _ => ret tt
  | inr _ => u <- attempt (update_self KJiraServer) ;; ret tt
  end.

Definition serve_jira_server : M JiraServer Result :=
  i <- get ;;
  client <- attempt (initJiraClient i) ;;
  match client with
  | inr err => modify (set_Available false) ;;; throw err
  | inl c =>
    served <- attempt (CheckConnection_ServeRequest c) ;;
    match served with
    | inr err =>
      modify (set_jira_status "error" (err_msg err)) ;;;
      throw (EWrap "failed serving default chain: " err)
    | inl _ => modify (set_jira_status "finished" "") ;;; ret no_result
    end
  end.

Definition ReconcileJiraServer (request : ObjectKey) : M JiraServer Result :=
  fetched <- attempt (do_res (CKube (KGet KJiraServer request))) ;;
  match fetched with
  | inr err =>
    if IsNotFound err then ret no_result
    else throw (EWrap ("failed to fetch JiraServer resource " +:+ quote_key request +:+ ": ") err)
  | inl i => put i ;;; deferring jira_updateStatus serve_jira_server
  end.
