(* ===== verification/JiraMetadata.v ===== *)
(** * JiraMetadata: the JiraIssueMetadata controller

    [src/controllers/jiraissuemetadata]: the controller and its chain, which creates field values
    in a Jira project, applies them to issues, links the issues and deletes the resource. *)

From S2P Require Import Prelude Api Effects GoStd Json Externals Host CodebaseController Jira.

(** ** Payloads *)

Section Payload.
Context {X : Externals}.

(** [util.GetFieldsMap] *)
Definition GetFieldsMap (payload : string) (keysToDelete : list string) : res (gmap string json) :=
  match parse_json payload ≫= decode_map with
  | None => Err (EWrap "failed to unmarshal json payload: "
      (ENew (Unmarshal_error "map[string]interface {}" payload)))
  | Some requestPayload => Ok (foldl (λ m key, delete key m) requestPayload keysToDelete)
  end.
End Payload.

Record link := { lk_Ticket : string; lk_Title : string; lk_Url : string }.
Definition zero_link : link := {| lk_Ticket := ""; lk_Title := ""; lk_Url := "" |}.

(** One member of a JSON object decoded into a [link]. *)
Definition decode_link_field (cur : link) (kv : string * json) : option link :=
  let '(k, v) := kv in
  if is_field "ticket" k then
    s ← decode_string (lk_Ticket cur) v; Some {| lk_Ticket := s; lk_Title := lk_Title cur; lk_Url := lk_Url cur |}
  else if is_field "title" k then
    s ← decode_string (lk_Title cur) v; Some {| lk_Ticket := lk_Ticket cur; lk_Title := s; lk_Url := lk_Url cur |}
  else if is_field "url" k then
    s ← decode_string (lk_Url cur) v; Some {| lk_Ticket := lk_Ticket cur; lk_Title := lk_Title cur; lk_Url := s |}
  else Some cur.
Definition decode_link (cur : link) (j : json) : option link :=
  match j with
  | JObj l => foldl (λ acc kv, cur ← acc; decode_link_field cur kv) (Some cur) l
  | JNull => Some cur
  | _ => None
  end.

(** An array decoded into a slice: elements are decoded into what its backing array holds. *)
Fixpoint decode_items (backing : list link) (l : list json) : option (list link) :=
  match l with
  | [] => Some backing
  | j :: l' =>
    v ← decode_link (default zero_link (head backing)) j;
    rest ← decode_items (tail backing) l';
    Some (v :: rest)
  end.

(** [[]link]: nil, or a backing array and a length. *)
Definition decode_links (cur : option (list link * nat)) (j : json) : option (option (list link * nat)) :=
  match j with
  | JNull => Some None
  | JArr [] => Some (Some ([], 0))
  | JArr l =>
    b ← decode_items (default [] (fst <$> cur)) l; Some (Some (b, length l))
  | _ => None
  end.

(** [jiraPayload]: the links, [None] for a nil slice. *)
Definition decode_payload (j : json) : option (option (list link)) :=
  match j with
  | JNull => Some None
  | JObj l =>
    links ← foldl (λ acc '(k, v), cur ← acc; if is_field "issuesLinks" k then decode_links cur v else Some cur)
              (Some None) l;
    Some ((λ '(b, n), take n b) <$> links)
  | _ => None
  end.

(** ** The handlers *)

Definition m_with_status (s : JiraIssueMetadataStatus) (i : JiraIssueMetadata) : JiraIssueMetadata :=
  {| m_Meta := m_Meta i; m_Spec := m_Spec i; m_Status := s |}.
Definition append_error (msg : string) (i : JiraIssueMetadata) : JiraIssueMetadata :=
  let s := m_Status i in
  m_with_status {| jmt_LastTimeUpdated := jmt_LastTimeUpdated s; jmt_Status := jmt_Status s;
    jmt_DetailedMessage := jmt_DetailedMessage s; jmt_FailureCount := jmt_FailureCount s;
    jmt_ErrorStrings := jmt_ErrorStrings s ++ [msg] |} i.

Definition issuesLinks := "issuesLinks".
Definition jiraLabelFieldName := "labels".

(** [nextServeOrNil] with a next handler. *)
Definition metadata_next (next : M JiraIssueMetadata unit) : M JiraIssueMetadata unit :=
  next ?> "failed to process next handler: ".

Section Handlers.
Context {X : Externals}.

(** A call whose failure is remembered in the status. *)
Definition remember {A} (m : M JiraIssueMetadata A) (msg : error → string) : M JiraIssueMetadata unit :=
  r <- attempt m ;;
  match r with
  | inl _ => ret tt
  | inr err => modify (append_error (msg err))
  end.

Definition DeleteJiraIssueMetadataCr_ServeRequest : M JiraIssueMetadata unit :=
  metadata <- get ;;
  if negb (bool_decide (jmt_ErrorStrings (m_Status metadata) = [])) then
    throw (ENew (str_join newline (jmt_ErrorStrings (m_Status metadata))))
  else
    k_delete KJiraIssueMetadata (namespace_of metadata) (name_of metadata)
      ?> ("failed to remove fix version cr " +:+ name_of metadata +:+ ": ").

Definition create_link (client : JiraConnection) (linkInfo : link) : M JiraIssueMetadata unit :=
  remember (CreateIssueLink client (lk_Ticket linkInfo) (lk_Title linkInfo) (lk_Url linkInfo)) (λ err,
    "failed to create remote link. ticket - " +:+ lk_Ticket linkInfo +:+ ", title - " +:+ lk_Title linkInfo
    +:+ ", url - " +:+ lk_Url linkInfo +:+ ", err: " +:+ err_msg err).

Definition PutIssueWebLink_ServeRequest (client : JiraConnection) (next : M JiraIssueMetadata unit)
  : M JiraIssueMetadata unit :=
  metadata <- get ;;
  let text := jm_Payload (m_Spec metadata) in
  match parse_json text ≫= decode_payload with
  | None => throw (EWrap "invalid spec payload json: " (ENew (Unmarshal_error "chain.jiraPayload" text)))
  | Some None => throw (ENew "issuesLinks is a mandatory field in payload")
  | Some (Some links) => for_each links (create_link client) ;;; metadata_next next
  end.

(** The entry of a field in the request: labels are strings, other values have a name. *)
Definition update_entry (k : string) (v : json) : option value :=
  match v with
  | JStr strVal =>
    Some (VList [VMap [("add",
      if bool_decide (k = "labels") then VString strVal else VMap [("name", VString strVal)])]])
  | _ => None
  end.
Definition createRequestBody (requestPayload : gmap string json) : value :=
  VMap [("update", VMap (map_to_list (map_imap update_entry requestPayload)))].

Definition apply_tags (client : JiraConnection) (body : value) (ticket : string) : M JiraIssueMetadata unit :=
  remember (ApplyTagsToIssue client ticket body) (λ err,
    "failed to apply tags to issue " +:+ ticket +:+ ", err: " +:+ err_msg err).

Definition ApplyTagsToIssues_ServeRequest (client : JiraConnection) (next : M JiraIssueMetadata unit)
  : M JiraIssueMetadata unit :=
  metadata <- get ;;
  requestPayload <- of_res (GetFieldsMap (jm_Payload (m_Spec metadata)) [issuesLinks])
    ?> "failed to get map with Jira field values: " ;;
  let body := createRequestBody requestPayload in
  for_each (jm_Tickets (m_Spec metadata)) (apply_tags client body) ;;;
  metadata_next next.

Section PutTagValue.
Context {S : Type} (client : JiraConnection).

(** The project of the first ticket Jira knows, and the ticket. *)
Fixpoint getProjectInfo (tickets : list string) : M S (string * string) :=
  match tickets with
  | [] => throw (ENew "jira issue not found")
  | ticket :: tickets' =>
    r <- attempt (GetProjectInfo client ticket) ;;
    match r with
    | inl projectInfo => ret (projectInfo, ticket)
    | inr err =>
      if err_is ErrJiraNotFound err then getProjectInfo tickets'
      else throw (EWrap "failed to get project info: " err)
    end
  end.

(** [createApiMap]: a missing key is a nil function. *)
Definition createApiMap (k : string) : option (Z → string → M S unit) :=
  if bool_decide (k = "fixVersions") then Some (CreateFixVersionValue client)
  else if bool_decide (k = "components") then Some (CreateComponentValue client)
  else None.

(** The body of the loop. *)
Definition create_field_value (projectID : string) (issueTypeMeta : gmap string IssueTypeMeta)
    (k : string) (v : json) : M S unit :=
  match issueTypeMeta !! k with
  | None => ret tt
  | Some metaInfo =>
    match v with
    | JStr val =>
      if contains (itm_AllowedValues metaInfo) val then ret tt
      else
        id <- of_res (Atoi projectID) ?> "failed to parse to int project ID: " ;;
        match createApiMap k with
        | None => panic "nil pointer dereference: createApiMap[k]"
        | Some create =>
          create id val ?> ("failed to create value " +:+ val +:+ " for " +:+ k +:+ " field: ")
        end
    | _ =>
      throw (ENew ("wrong type of payload value, '" +:+ fmt_value FormatFloat v +:+ "' is not string"))
    end
  end.

Definition tryToCreateFieldValues (requestPayload : gmap string json) (tickets : list string) : M S unit :=
  '(projectID, ticket) <- getProjectInfo tickets ?> "failed to get project info: " ;;
  issue <- GetIssue client ticket ?> ("failed to get issue for " +:+ ticket +:+ " ticket: ") ;;
  match issue with
  | None => panic "nil pointer dereference: issue.Fields"
  | Some fields =>
    issueTypeMeta <- GetIssueTypeMeta client projectID (if_TypeID fields)
      ?> "failed to get issue type meta: " ;;
    keys <- sys (RangeMap (map fst (map_to_list requestPayload))) ;;
    for_each keys (λ k, create_field_value projectID issueTypeMeta k (default JNull (requestPayload !! k)))
  end.
End PutTagValue.

Definition PutTagValue_ServeRequest (client : JiraConnection) (next : M JiraIssueMetadata unit)
  : M JiraIssueMetadata unit :=
  metadata <- get ;;
  requestPayload <- of_res (GetFieldsMap (jm_Payload (m_Spec metadata)) [issuesLinks; jiraLabelFieldName])
    ?> "failed to get map with Jira field values: " ;;
  if bool_decide (jm_Tickets (m_Spec metadata) = []) then
    throw (ENew "JiraIssueMetadata is invalid. Tickets field can't be empty")
  else
    tryToCreateFieldValues client requestPayload (jm_Tickets (m_Spec metadata))
      ?> "failed to create field values in Jira project: " ;;;
    metadata_next next.

(** ** The chains *)

Definition createDefChain (client : JiraConnection) : M JiraIssueMetadata unit :=
  PutTagValue_ServeRequest client
    (ApplyTagsToIssues_ServeRequest client
      (PutIssueWebLink_ServeRequest client DeleteJiraIssueMetadataCr_ServeRequest)).
Definition createWithoutApplyingTagsChain (client : JiraConnection) : M JiraIssueMetadata unit :=
  PutIssueWebLink_ServeRequest client DeleteJiraIssueMetadataCr_ServeRequest.

Definition JiraMetadata_CreateChain (metadataPayload : string) (client : JiraConnection)
  : res (M JiraIssueMetadata unit) :=
  match GetFieldsMap metadataPayload [] with
  | Ok payload =>
    let links_there := match payload !! issuesLinks with None | Some JNull => false | _ => true end in
    if bool_decide (size payload = 1) && links_there then Ok (createWithoutApplyingTagsChain client)
    else Ok (createDefChain client)
  | Err e => Err (EWrap "failed to parse fields map from payload: " e)
  | Panic w => Panic w
  end.

(** ** The controller *)

Definition set_metadata_status (status message : string) (i : JiraIssueMetadata) : JiraIssueMetadata :=
  let s := m_Status i in
  m_with_status {| jmt_LastTimeUpdated := jmt_LastTimeUpdated s; jmt_Status := status;
    jmt_DetailedMessage := message; jmt_FailureCount := jmt_FailureCount s;
    jmt_ErrorStrings := jmt_ErrorStrings s |} i.
Definition setErrorStatus (msg : string) : JiraIssueMetadata → JiraIssueMetadata := set_metadata_status "error" msg.
Definition set_metadata_time (t : Z) (i : JiraIssueMetadata) : JiraIssueMetadata :=
  let s := m_Status i in
  m_with_status {| jmt_LastTimeUpdated := t; jmt_Status := jmt_Status s;
    jmt_DetailedMessage := jmt_DetailedMessage s; jmt_FailureCount := jmt_FailureCount s;
    jmt_ErrorStrings := jmt_ErrorStrings s |} i.
Definition incr_metadata_failures (i : JiraIssueMetadata) : JiraIssueMetadata :=
  let s := m_Status i in
  m_with_status {| jmt_LastTimeUpdated := jmt_LastTimeUpdated s; jmt_Status := jmt_Status s;
    jmt_DetailedMessage := jmt_DetailedMessage s; jmt_FailureCount := int64 (jmt_FailureCount s + 1);
    jmt_ErrorStrings := jmt_ErrorStrings s |} i.

Definition timeoutDurationStep : Z := 500 * 1000000.
Definition metadata_setFailureCount : M JiraIssueMetadata Z :=
  metadata <- get ;;
  let timeout := GetTimeout Duration_overflow (jmt_FailureCount (m_Status metadata)) timeoutDurationStep in
  modify incr_metadata_failures ;;;
  ret timeout.

Definition metadata_updateStatus : M JiraIssueMetadata unit :=
  t <- now ;;
  modify (set_metadata_time t) ;;;
  r <- attempt (status_update_self KJiraIssueMetadata) ;;
  match r with
  | inl _ => ret tt
  | inr _ => u <- attempt (update_self KJiraIssueMetadata) ;; ret tt
  end.

Definition metadata_setOwnerRef : M JiraIssueMetadata unit :=
  metadata <- get ;;
  let name := jm_CodebaseName (m_Spec metadata) in
  c <- k_get KCodebase (namespace_of metadata) name
    ?> ("failed to fetch Codebase resource " +:+ go_quote name +:+ ": ") ;;
  meta <- of_res (SetControllerReference "Codebase" (c_Meta c) (m_Meta metadata))
    ?> "failed to set owner ref for JiraIssueMetadata CR: " ;;
  put (obj_set_meta metadata meta).

Definition getJiraServer {S} (metadata : JiraIssueMetadata) : M S JiraServer :=
  ref <- of_res (GetOwnerReference "Codebase" (om_OwnerReferences (m_Meta metadata)))
    ?> "failed to fetch OwnerReference: " ;;
  c <- k_get KCodebase (namespace_of metadata) (or_Name ref)
    ?> ("failed to fetch Codebase resource " +:+ go_quote (or_Name ref) +:+ ": ") ;;
  match cs_JiraServer (c_Spec c) with
  | None => throw (ENew ("codebase " +:+ name_of c +:+ " has disabled jira integration. skip JiraIssueMetadata "
      +:+ name_of metadata +:+ " reconciliation"))
  | Some jiraServerName =>
    k_get KJiraServer (namespace_of metadata) jiraServerName
      ?> ("failed to fetch JiraServer resource " +:+ go_quote jiraServerName +:+ ": ")
  end.

(** [lookup] *)
Definition reconcile_period {S} : M S string :=
  value <- env "RECONCILIATION_PERIOD" ;;
  ret (default "360" value).

(** An error that is also put into the status. *)
Definition metadata_failed {A} (err err' : error) : M JiraIssueMetadata A :=
  modify (setErrorStatus (err_msg err)) ;;;
  throw err'.

Definition serve_metadata : M JiraIssueMetadata Result :=
  orelse metadata_setOwnerRef (λ err, metadata_failed err err) ;;;
  i <- get ;;
  js <- orelse (getJiraServer i) (λ err, metadata_failed err err) ;;
  if negb (jst_Available (j_Status js)) then
    timeout <- metadata_setFailureCount ;; ret {| RequeueAfter := timeout |}
  else
    jc <- orelse (initJiraClient js) (λ err, metadata_failed err err) ;;
    i <- get ;;
    ch <- orelse (of_res (JiraMetadata_CreateChain (jm_Payload (m_Spec i)) jc))
            (λ err, metadata_failed err (EWrap "failed to configure `CreateChain`: " err)) ;;
    served <- attempt ch ;;
    match served with
    | inr err =>
      modify (setErrorStatus (err_msg err)) ;;;
      timeout <- metadata_setFailureCount ;;
      ret {| RequeueAfter := timeout |}
    | inl _ =>
      period <- reconcile_period ;;
      duration <- of_res (ParseDuration (period +:+ "m")) ?> "failed to parse time duration: " ;;
      ret {| RequeueAfter := duration |}
    end.

Definition ReconcileJiraIssueMetadata (request : ObjectKey) : M JiraIssueMetadata Result :=
  fetched <- attempt (do_res (CKube (KGet KJiraIssueMetadata request))) ;;
  match fetched with
  | inr err =>
    if IsNotFound err then ret no_result
    else throw (EWrap ("failed to fetch JiraIssueMetadata resource " +:+ quote_key request +:+ ": ") err)
  | inl i => put i ;;; deferring metadata_updateStatus serve_metadata
  end.
End Handlers.
