(* ===== verification/Backoff.v ===== *)
(** * Backoff: how long an object waits after a failure

    [GetTimeout] of [src/pkg/util/reconcilation.go] in Go's double arithmetic, for the steps of
    the three controllers that use it: linear for ten failures, then a power of e, and no
    duration at all from a count that the step determines. *)

From Stdlib Require Floats.SpecFloat.
From S2P Require Import Prelude GoStd Doubles Api Effects Externals Host Simulation.
From S2P Require Import CodebaseCommon CodebaseController BranchChain BranchController JiraMetadata.

#[local] Open Scope Z_scope.

(** The value of the project's own test. *)
Example GetTimeout_golden overflow : GetTimeout overflow 15 (10 * second) = 88861105205078672.
Proof. vm_compute. reflexivity. Qed.

(** ** Durations *)

Definition in_range (x : SpecFloat.spec_float) : bool :=
  match integer_part x with Some z => (- 2 ^ 63 <=? z) && (z <? 2 ^ 63) | None => false end.

Lemma Duration_of_out overflow x : in_range x = false → Duration_of overflow x = overflow x.
Proof. unfold in_range, Duration_of. destruct (integer_part x) as [z|]; [|done]. by intros ->. Qed.

Lemma at_least_out x : at_least 63 x → in_range x = false.
Proof.
  intros Hx. unfold in_range. destruct (integer_part x) as [z|] eqn:Hz; [|done].
  pose proof (truncate_bound 63 x z ltac:(lia) Hx Hz). lia.
Qed.

(** ** The loop of math.Pow

    The squares do not depend on the bits of the exponent, so they are a table: after [k] rounds
    [x1] is still at least a half and [xe] is more than [2 ^ k], until the loop is left. *)

Definition e_start : powers := pow_start math_E.
Fixpoint squares (k : nat) : powers := match k with 0%nat => e_start | S k => pow_step false (squares k) end.

Definition same_square (p q : powers) : Prop := pw_xe p = pw_xe q ∧ pw_x1 p = pw_x1 q.
Lemma pow_step_square b p q : same_square p q → same_square (pow_step b p) (pow_step false q).
Proof. intros [He Hx]. unfold same_square, pow_step. cbn. by rewrite He, Hx. Qed.

Lemma squares_table k :
  (k < 12)%nat → 2 ^ Z.of_nat k < pw_xe (squares k) ≤ 4096 ∧ at_least (- 1) (pw_x1 (squares k)).
Proof. intros Hk. do 12 (destruct k as [|k]; [by vm_compute|]). lia. Qed.
Lemma squares_end : 4096 < pw_xe (squares 12).
Proof. by vm_compute. Qed.

(** What is left of the exponent in round [k] counts with [2 ^ k]. *)
Lemma pow_loop_bound fuel k i p v :
  same_square p (squares k) → (k ≤ 12)%nat → 0 ≤ i < 2 ^ Z.of_nat fuel →
  at_least (v - pw_ae p) (pw_a1 p) → - Z.of_nat k ≤ v - pw_ae p →
  let r := pow_loop fuel i p in
  ∃ b, Z.min (v + 2 ^ Z.of_nat k * i) (v + 4096) ≤ b ∧ - 12 ≤ b - r.2 ∧ at_least (b - r.2) r.1.
Proof.
  revert k i p v. induction fuel as [|fuel IH]; intros k i p v Hsq Hk Hi Ha Hv; cbn [pow_loop].
  { exists v. split_and!; [|cbn; lia|exact Ha]. change (2 ^ Z.of_nat 0) with 1 in Hi. assert (i = 0) as -> by lia. lia. }
  destruct (i =? 0) eqn:Hz; [exists v; split_and!; [lia|cbn; lia|exact Ha]|].
  pose proof Hsq as [Hxe Hx1]. destruct (decide (k = 12%nat)) as [->|Hk12].
  { pose proof squares_end as Hend. replace (4096 <? pw_xe p) with true by lia. rewrite orb_true_r.
    exists (v + pw_xe p). cbn [fst snd]. split_and!; [lia|lia|].
    by replace (v + pw_xe p - (pw_ae p + pw_xe p)) with (v - pw_ae p) by lia. }
  destruct (squares_table k ltac:(lia)) as [Hlim Hhalf]. rewrite <- Hxe in Hlim. rewrite <- Hx1 in Hhalf.
  assert (H2k : 0 < 2 ^ Z.of_nat k) by (apply Z.pow_pos_nonneg; lia).
  replace ((pw_xe p <? - 4096) || (4096 <? pw_xe p)) with false by lia.
  rewrite Nat2Z.inj_succ, Z.pow_succ_r in Hi by lia. pose proof (Z.div_mod i 2 ltac:(lia)) as Hdm.
  pose proof (Z.mod_pos_bound i 2 ltac:(lia)) as Hmod. pose proof (Zmod_odd i) as Hodd.
  destruct (IH (S k) (i / 2) (pow_step (Z.odd i) p) (if Z.odd i then v + pw_xe p - 1 else v))
    as (b&Hb&Hr&Hat).
  - by apply pow_step_square.
  - lia.
  - split; [apply Z.div_pos; lia|apply Z.div_lt_upper_bound; lia].
  - destruct (Z.odd i); cbn; [|exact Ha].
    replace (v + pw_xe p - 1 - (pw_ae p + pw_xe p)) with (v - pw_ae p + - 1) by lia. apply mul_bound; [lia|done..].
  - destruct (Z.odd i); cbn; lia.
  - exists b. split_and!; [|exact Hr|exact Hat]. etrans; [|exact Hb].
    rewrite Nat2Z.inj_succ, Z.pow_succ_r by lia. destruct (Z.odd i); nia.
Qed.

(** The double of a wait, for the exponent [n]. *)
Definition wait (step n : Z) : SpecFloat.spec_float := f64_mul (float64 step) (PowInt math_E n).

Lemma PowInt_bound n : 1 < n ≤ 2 ^ 53 → at_least (Z.min n 4096) (PowInt math_E n).
Proof.
  intros Hn. unfold PowInt. replace (Z.abs n) with n by lia.
  replace (n <=? 2 ^ 53) with true by lia. replace (n =? 0) with false by lia.
  replace (n =? 1) with false by lia. replace (2 ^ 63 <=? n) with false by lia.
  replace (n <? 0) with false by lia. fold e_start.
  assert (H64 : n < 2 ^ Z.of_nat 64) by (change (2 ^ Z.of_nat 64) with (2 ^ 53 * 2048); lia).
  destruct (pow_loop_bound 64 0 n e_start 0) as (b&Hb&Hr&Hat);
    [done|lia|lia|by vm_compute|vm_compute; discriminate|].
  destruct (pow_loop 64 n e_start) as [a1 ae]. cbn [fst snd] in *. change (2 ^ Z.of_nat 0) with 1 in Hb.
  apply at_least_weaken with b; [lia|]. replace b with (b - ae + ae) by lia. apply ldexp_bound; [lia|done].
Qed.

(** A step of at least [2 ^ c] has no duration for an exponent of [63 - c] on. *)
Lemma wait_out c step n :
  0 ≤ c → at_least c (float64 step) → 2 ≤ n ≤ 2 ^ 53 → 63 - c ≤ n → in_range (wait step n) = false.
Proof.
  intros Hc Hs Hn Hcn. apply at_least_out. apply at_least_weaken with (c + Z.min n 4096); [lia|].
  apply mul_bound; [lia|done|]. apply PowInt_bound. lia.
Qed.

(** ** The wait of a failure count *)

(** The wait after [n] earlier failures: linear, then between two powers, and from [last] on not
    a duration. *)
Inductive waits (step last : Z) (overflow : SpecFloat.spec_float → Z) (n : Z) : Z → Prop :=
| waits_linear : n < minFactor → waits step last overflow n ((n + 1) * step)
| waits_exponential t :
    minFactor ≤ n ≤ last → t < 2 ^ 63 →
    step * 2718 ^ (n + 1) ≤ t * 1000 ^ (n + 1) ≤ step * 2719 ^ (n + 1) →
    waits step last overflow n t
| waits_undefined x : last < n → in_range x = false → waits step last overflow n (overflow x).

(** The integers of an interval. *)
Definition interval (from to : Z) : list Z := map (λ i, from + Z.of_nat i) (seq 0 (Z.to_nat (to - from))).
Lemma interval_forallb (f : Z → bool) from to n : forallb f (interval from to) = true → from ≤ n < to → f n = true.
Proof.
  intros H Hn. rewrite forallb_forall in H. apply H, in_map_iff.
  exists (Z.to_nat (n - from)). split; [lia|]. apply in_seq. lia.
Qed.

Definition exponential (step n : Z) : bool :=
  match integer_part (wait step (n + 1)) with
  | Some t => (0 <=? t) && (t <? 2 ^ 63) && (step * 2718 ^ (n + 1) <=? t * 1000 ^ (n + 1))
              && (t * 1000 ^ (n + 1) <=? step * 2719 ^ (n + 1))
  | None => false
  end.

Section Wait.
Context (step last c : Z).
Context (Hstep : 0 < step < 2 ^ 59) (Hc : 0 ≤ c) (Hfloat : at_least c (float64 step)) (Hlast : 10 ≤ last).
Context (Hexp : forallb (exponential step) (interval 10 (last + 1)) = true).
Context (Hout : forallb (λ n, negb (in_range (wait step (n + 1)))) (interval (last + 1) 63) = true).

Lemma GetTimeout_waits overflow n : 0 ≤ n < 2 ^ 53 → waits step last overflow n (GetTimeout overflow n step).
Proof.
  intros Hn. destruct (decide (n < 10)) as [Hl|Hl].
  { rewrite GetTimeout_linear by (unfold minFactor; lia). constructor. done. }
  unfold GetTimeout. replace (n <? minFactor) with false by (unfold minFactor; lia).
  rewrite (int64_id (n + 1)) by lia. fold (wait step (n + 1)). destruct (decide (n ≤ last)) as [Hle|Hgt].
  - pose proof (interval_forallb _ _ _ n Hexp ltac:(lia)) as H. unfold exponential in H. unfold Duration_of.
    destruct (integer_part (wait step (n + 1))) as [t|]; [|done]. bool_props.
    replace ((- 2 ^ 63 <=? t) && (t <? 2 ^ 63)) with true by lia.
    apply waits_exponential; unfold minFactor; lia.
  - assert (Hr : in_range (wait step (n + 1)) = false).
    { destruct (decide (n < 63)).
      - apply negb_true_iff, (interval_forallb _ _ _ n Hout). lia.
      - apply (wait_out c); [done|done|lia|lia]. }
    rewrite Duration_of_out by done. apply waits_undefined; [lia|done].
Qed.
End Wait.

(** The two steps in use. *)
Lemma waits_10s overflow n :
  0 ≤ n < 2 ^ 53 → waits (10 * second) 19 overflow n (GetTimeout overflow n (10 * second)).
Proof. apply (GetTimeout_waits _ _ 33); by vm_compute. Qed.
Lemma waits_500ms overflow n :
  0 ≤ n < 2 ^ 53 → waits timeoutDurationStep 22 overflow n (GetTimeout overflow n timeoutDurationStep).
Proof. apply (GetTimeout_waits _ _ 28); by vm_compute. Qed.

(** ** Properties *)

(** C33: After a failure the three controllers that count failures ask to be called again after a
    wait that depends on the count alone, with the arithmetic of Go's doubles: fewer than ten
    earlier failures are as many steps and one more (10 seconds for codebases and branches, half
    a second for Jira metadata); the next ten (thirteen) waits are the step times a power of e,
    the first of them 59874 steps, almost a week for a codebase; for every later count the
    product is no [time.Duration], and the wait is what the platform makes of it. *)
Theorem failure_backoff {X : Externals} c b m :
  wp (assuming (λ _ _ _, True)) setFailureCount c tt (λ r _ _, ∀ t, r = Ok t →
    0 ≤ cst_FailureCount (c_Status c) < 2 ^ 53 →
    waits (10 * second) 19 Duration_overflow (cst_FailureCount (c_Status c)) t)
  ∧ wp (assuming (λ _ _ _, True)) branch_setFailureCount b tt (λ r _ _, ∀ t, r = Ok t →
    0 ≤ bst_FailureCount (b_Status b) < 2 ^ 53 →
    waits (10 * second) 19 Duration_overflow (bst_FailureCount (b_Status b)) t)
  ∧ wp (assuming (λ _ _ _, True)) metadata_setFailureCount m tt (λ r _ _, ∀ t, r = Ok t →
    0 ≤ jmt_FailureCount (m_Status m) < 2 ^ 53 →
    waits timeoutDurationStep 22 Duration_overflow (jmt_FailureCount (m_Status m)) t).
Proof.
  split_and!.
  - unfold setFailureCount. wp_step. wp_step. wp_step. wp_step. wp_step.
    eapply wp_keeps with (J := λ _ _, True); [keeps_go|done|].
    intros [u|e|w] s g _; [|done..]. wp_step. intros t [= <-]. apply waits_10s.
  - unfold branch_setFailureCount, update_branch_status. repeat wp_step. intros t [= <-]. apply waits_10s.
  - unfold metadata_setFailureCount. repeat wp_step. intros t [= <-]. apply waits_500ms.
Qed.
