(* ===== verification/JiraProperties.v ===== *)
(** * JiraProperties: what the Jira controllers do to Jira and to their resources

    The monitor of a JiraIssueMetadata collects what a reconciliation saw and did; its
    guarantees say what every call to Jira and to the API server rests on. *)

From S2P Require Import Prelude Api Effects GoStd Json Externals Host CodebaseController Jira JiraMetadata Simulation.

Inductive jira_fact :=
| SeenMetadata (i : JiraIssueMetadata)
| SeenServer (j : JiraServer)
| SeenJiraSecret (key : ObjectKey) (s : Secret)
| SeenIssue (issueId : string) (f : IssueFields)
| SeenFields (url : string) (page : list IssueTypeMeta)
| Linked (url : string) (l : RemoteLink)
| Tagged (issue : string) (tags : value).

Definition when_ok {A} (r : res A) (f : A → list jira_fact) : list jira_fact :=
  match r with Ok a => f a | _ => [] end.

Definition jira_facts {R} (c : call R) : R → list jira_fact :=
  match c in call R return R → list jira_fact with
  | CKube kc => match kc in kube_call R return R → list jira_fact with
    | KGet k key => match k in kind V return res V → list jira_fact with
      | KJiraIssueMetadata => λ r, when_ok r (λ i, [SeenMetadata i])
      | KJiraServer => λ r, when_ok r (λ j, [SeenServer j])
      | KSecret => λ r, when_ok r (λ s, [SeenJiraSecret key s])
      | _ => λ _, []
      end
    | _ => λ _, []
    end
  | CJira _ jc => match jc in jira_call R return R → list jira_fact with
    | JGetIssue issueId => λ a, when_ok (ia_Issue a) (λ f, match f with Some f => [SeenIssue issueId f] | None => [] end)
    | JDoMeta _ url => λ r, when_ok r (λ page, [SeenFields url page])
    | JDo _ url (Some l) => λ r, when_ok r (λ _, [Linked url l])
    | JUpdateIssue issue tags => λ r, when_ok r (λ _, [Tagged issue tags])
    | _ => λ _, []
    end
  | _ => λ _, []
  end.

(** The connection is the one of an available Jira server, with the credentials of its secret. *)
Definition authorised (g : list jira_fact) (js : JiraConnection) : Prop :=
  ∃ server s, SeenServer server ∈ g ∧ jst_Available (j_Status server) = true
    ∧ SeenJiraSecret {| key_Namespace := namespace_of server; key_Name := js_CredentialName (j_Spec server) |} s ∈ g
    ∧ js = ConvertSpecToJiraServer (js_ApiUrl (j_Spec server))
             (map_get (sec_Data s) "username") (map_get (sec_Data s) "password").

Section Monitor.
Context {X : Externals}.

(** The payload's links, and the request body of its other fields. *)
Definition payload_links (i : JiraIssueMetadata) : option (list link) :=
  mjoin (parse_json (jm_Payload (m_Spec i)) ≫= decode_payload).
Definition payload_field (i : JiraIssueMetadata) (k val : string) : Prop :=
  ∃ m, parse_json (jm_Payload (m_Spec i)) ≫= decode_map = Some m ∧ m !! k = Some (JStr val).
Definition tags_of (i : JiraIssueMetadata) : option value :=
  m ← parse_json (jm_Payload (m_Spec i)) ≫= decode_map; Some (createRequestBody (delete issuesLinks m)).
(** The payload consists of links only. *)
Definition links_only (i : JiraIssueMetadata) : Prop :=
  ∃ m v, parse_json (jm_Payload (m_Spec i)) ≫= decode_map = Some m ∧ size m = 1
    ∧ m !! issuesLinks = Some v ∧ v ≠ JNull.

Definition linked (g : list jira_fact) (l : link) : Prop :=
  Linked (remote_link_path (lk_Ticket l)) (remote_link (lk_Title l) (lk_Url l)) ∈ g.

(** A value of field [k] may be created in project [id]: a ticket of the metadata is in that
    project, the payload asks for the value, and the fields of the issue type were listed with
    [k] and without the value. *)
Definition missing_value (g : list jira_fact) (k val : string) (id : Z) : Prop :=
  ∃ i t f url page m, SeenMetadata i ∈ g ∧ t ∈ jm_Tickets (m_Spec i)
    ∧ SeenIssue t f ∈ g ∧ Atoi (if_ProjectID f) = Ok id ∧ payload_field i k val
    ∧ SeenFields url page ∈ g ∧ m ∈ page ∧ itm_FieldID m = k ∧ val ∉ itm_AllowedValues m.

Definition jira_guar (g : list jira_fact) : ∀ R, call R → Prop := λ R c,
  match c with
  | CKube kc => match kc with
    | KGet _ _ => True
    | @KUpdate V k o => match k in kind V return V → Prop with
      | KJiraIssueMetadata => λ o, ∃ i, SeenMetadata i ∈ g ∧ m_Spec o = m_Spec i
      | _ => λ _, False
      end o
    | @KStatusUpdate V k o => match k in kind V return V → Prop with
      | KJiraIssueMetadata => λ o, ∃ i, SeenMetadata i ∈ g ∧ m_Spec o = m_Spec i
      | _ => λ _, False
      end o
    | KDelete k key => match k with
      | KJiraIssueMetadata => ∃ i links, SeenMetadata i ∈ g
          ∧ key = {| key_Namespace := namespace_of i; key_Name := name_of i |}
          ∧ payload_links i = Some links ∧ (∀ l, l ∈ links → linked g l)
          ∧ (links_only i ∨ ∃ tags, tags_of i = Some tags
               ∧ ∀ t, t ∈ jm_Tickets (m_Spec i) → Tagged t tags ∈ g)
      | _ => False
      end
    | _ => False
    end
  | CJira js jc => authorised g js ∧ match jc with
    | JCreateVersion val id => missing_value g "fixVersions" val id
    | JCreateComponent val _ id => missing_value g "components" val id
    | JUpdateIssue t tags => ∃ i, SeenMetadata i ∈ g ∧ t ∈ jm_Tickets (m_Spec i) ∧ tags_of i = Some tags
    | JDo method url (Some l) => method = "POST" ∧ ∃ i links x, SeenMetadata i ∈ g
        ∧ payload_links i = Some links ∧ x ∈ links
        ∧ url = remote_link_path (lk_Ticket x) ∧ l = remote_link (lk_Title x) (lk_Url x)
    | JDo _ _ None => False
    | _ => True
    end
  | CSys (LookupEnv _) | CSys Now => True
  | CSys (RangeMap _) => True
  | _ => False
  end.

Definition jira_monitor : monitor (list jira_fact) :=
  {| rely _ _ _ _ := True; guar := jira_guar; step g R c r := jira_facts c r ++ g |}.

(** ** Lemmas *)

Lemma authorised_mono g g' js : g ⊆ g' → authorised g js → authorised g' js.
Proof. intros Hg (server&s&?&?&?&?). exists server, s. split_and!; auto. Qed.

Lemma members_lookup {V} (l : list (string * V)) (m : gmap string V) k v :
  foldl (λ m '(k, v), <[k := v]> m) m l !! k = Some v → (k, v) ∈ l ∨ m !! k = Some v.
Proof.
  revert m. induction l as [|[k' v'] l IH]; intros m; cbn; [by right|].
  intros [H|H]%IH; [left; by right|]. apply lookup_insert_Some in H as [[-> ->]|[_ H]]; [left; by left|by right].
Qed.

(** A call that leaves the state alone and adds to what was seen. *)
Definition adds {T A} (s : T) (g : list jira_fact) (P : A → list jira_fact → Prop) : res A → T → list jira_fact → Prop :=
  λ r s' g', s' = s ∧ g ⊆ g' ∧ ∀ a, r = Ok a → P a g'.

Lemma adds_fail {T A} (s : T) g g' (P : A → list jira_fact → Prop) r :
  g ⊆ g' → (∀ a, r ≠ Ok a) → adds s g P r s g'.
Proof. intros Hg Hr. split_and!; [done..|]. intros a Ha. by destruct (Hr a). Qed.
Lemma adds_ok {T A} (s : T) g g' (P : A → list jira_fact → Prop) a :
  g ⊆ g' → P a g' → adds s g P (Ok a) s g'.
Proof. intros Hg HP. split_and!; [done..|]. by intros a' [= <-]. Qed.

(** One request of the client, with an error message. *)
Lemma wp_jira_res {T R} js (c : jira_call (res R)) msg (s : T) g (P : R → list jira_fact → Prop) :
  jira_guar g _ (CJira js c) →
  (∀ a, P a (jira_facts (CJira js c) (Ok a) ++ g)) →
  wp jira_monitor (jira_res js c ?> msg) s g (adds s g P).
Proof.
  intros Hg HP. wp_to_call. wp_step; [done|]. intros [a|e|w] _.
  - apply adds_ok; [set_solver|apply HP].
  - wp_step. apply adds_fail; [set_solver|done].
  - apply adds_fail; [set_solver|done].
Qed.

(** Sequencing of such calls. *)
Lemma wp_adds_bind {T A B} (h : M T A) (f : A → M T B) (s : T) g
    (P : A → list jira_fact → Prop) (P' : B → list jira_fact → Prop) :
  wp jira_monitor h s g (adds s g P) →
  (∀ a g', g ⊆ g' → P a g' → wp jira_monitor (f a) s g' (adds s g' P')) →
  wp jira_monitor (mbind h f) s g (adds s g P').
Proof.
  intros Hh Hf. apply wp_bind. eapply wp_mono; [exact Hh|].
  intros [a|e|w] s' g' (->&Hg&HP); [|by apply adds_fail..].
  eapply wp_mono; [by apply Hf; [|apply HP]|]. intros r s'' g'' (->&Hg'&HP').
  split_and!; [done|set_solver|done].
Qed.

(** An error message around such a call. *)
Lemma wp_adds_wrap {T A} (h : M T A) msg (s : T) g (P : A → list jira_fact → Prop) :
  wp jira_monitor h s g (adds s g P) → wp jira_monitor (h ?> msg) s g (adds s g P).
Proof.
  intros Hh. apply wp_orelse. eapply wp_mono; [exact Hh|].
  intros [a|e|w] s' g' H; [done| |done]. destruct H as (->&Hg&_). wp_step. by apply adds_fail.
Qed.

Lemma wp_adds_ret {T A} (a : A) (s : T) g (P : A → list jira_fact → Prop) :
  P a g → wp jira_monitor (ret a) s g (adds s g P).
Proof. intros HP. wp_step. by apply adds_ok. Qed.
Lemma wp_adds_throw {T A} e (s : T) g (P : A → list jira_fact → Prop) :
  wp jira_monitor (throw e) s g (adds s g P).
Proof. wp_step. by apply adds_fail. Qed.
Lemma wp_adds_panic {T A} w (s : T) g (P : A → list jira_fact → Prop) :
  wp jira_monitor (panic w) s g (adds s g P).
Proof. wp_step. by apply adds_fail. Qed.
Lemma wp_adds_res {T A} (r : res A) (s : T) g (P : A → list jira_fact → Prop) :
  (∀ a, r = Ok a → P a g) → wp jira_monitor (of_res r) s g (adds s g P).
Proof. intros HP. wp_step. by split_and!. Qed.

Lemma wp_initJiraClient {T} server (s : T) g :
  SeenServer server ∈ g → jst_Available (j_Status server) = true →
  wp jira_monitor (initJiraClient server) s g (adds s g (λ js g', authorised g' js)).
Proof.
  intros Hs Ha. unfold initJiraClient, GetSecret.
  eapply wp_adds_bind with (P := λ sec g', SeenJiraSecret {| key_Namespace := namespace_of server;
    key_Name := js_CredentialName (j_Spec server) |} sec ∈ g').
  - apply wp_adds_wrap, wp_adds_wrap. wp_step. wp_step; [done|]. intros [sec|e|w] _;
      [apply adds_ok; cbn; set_solver|by apply adds_fail; [set_solver|]..].
  - intros sec g' Hg Hsec. apply wp_adds_wrap.
    assert (Hauth : authorised g' (ConvertSpecToJiraServer (js_ApiUrl (j_Spec server))
      (map_get (sec_Data sec) "username") (map_get (sec_Data sec) "password"))).
    { exists server, sec. split_and!; auto. }
    eapply wp_adds_bind with (P := λ _ _, True); [by apply wp_jira_res|].
    intros _ g1 Hg1 _. apply wp_adds_ret. by eapply authorised_mono.
Qed.

(** *** Creating field values *)

Lemma wp_GetProjectInfo {T} js t (s : T) g (Q : res string → T → list jira_fact → Prop) :
  authorised g js →
  (∀ f g', SeenIssue t f ∈ g' → g ⊆ g' → Q (Ok (if_ProjectID f)) s g') →
  (∀ r g', g ⊆ g' → (∀ a, r ≠ Ok a) → Q r s g') →
  wp jira_monitor (GetProjectInfo js t) s g Q.
Proof.
  intros Hauth Hok Hfail. unfold GetProjectInfo. wp_to_call. wp_step; [done|]. intros a _.
  cbv beta iota. destruct (bool_decide _); [wp_step; apply Hfail; [set_solver|done]|].
  destruct (ia_Issue a) as [[f|]|e|w] eqn:Ha.
  - wp_step. apply Hok; cbn; rewrite Ha; set_solver.
  - wp_step. apply Hfail; [set_solver|done].
  - destruct (str_contains _ _); wp_step; (apply Hfail; [set_solver|done]).
  - wp_step. apply Hfail; [set_solver|done].
Qed.

Lemma wp_getProjectInfo {T} js tickets (s : T) g :
  authorised g js →
  wp jira_monitor (getProjectInfo js tickets) s g (adds s g (λ '(p, t) g',
    t ∈ tickets ∧ ∃ f, SeenIssue t f ∈ g' ∧ p = if_ProjectID f)).
Proof.
  revert g. induction tickets as [|t tickets IH]; intros g Hauth; cbn [getProjectInfo];
    [apply wp_adds_throw|].
  apply wp_bind, wp_attempt, wp_GetProjectInfo; [done|..].
  - intros f g' Hf Hg. cbv beta iota. wp_step. apply adds_ok; [done|]. split; [set_solver|eauto].
  - intros [a|e|w] g' Hg Hr; [by destruct (Hr a)| |by apply adds_fail].
    cbv beta iota. destruct (err_is _ _); [|wp_step; by apply adds_fail].
    eapply wp_mono; [apply IH; by eapply authorised_mono|]. intros r s' g1 (->&Hg1&HP).
    split_and!; [done|set_solver|]. intros [p t'] Hr'. destruct (HP _ Hr') as [? ?]. split; [set_solver|done].
Qed.

Lemma wp_GetIssueTypeMeta {T} js p ty (s : T) g :
  authorised g js →
  wp jira_monitor (GetIssueTypeMeta js p ty) s g (adds s g (λ m g',
    ∀ k x, m !! k = Some x → ∃ url page, SeenFields url page ∈ g' ∧ x ∈ page ∧ itm_FieldID x = k)).
Proof.
  intros Hauth. unfold GetIssueTypeMeta.
  eapply wp_adds_bind with (P := λ _ _, True); [by apply wp_jira_res|]. intros _ g1 Hg1 _.
  eapply wp_adds_bind with (P := λ page g', SeenFields (issue_type_meta_url p ty) page ∈ g').
  - apply wp_jira_res; [|intros page; cbn; set_solver]. split; [by eapply authorised_mono|done].
  - intros page g2 Hg2 Hpage. apply wp_adds_ret. intros k x Hx.
    exists (issue_type_meta_url p ty), page. split; [done|].
    unfold members in Hx. apply members_lookup in Hx as [Hx|Hx]; [|done].
    apply list_elem_of_fmap in Hx as (m&[= -> ->]&Hm). done.
Qed.

(** The value of field [k] is missing in the project named by [p]. *)
Definition may_create (g : list jira_fact) (p k val : string) : Prop :=
  ∀ id, Atoi p = Ok id → missing_value g k val id.

Lemma missing_value_mono g g' k val id : g ⊆ g' → missing_value g k val id → missing_value g' k val id.
Proof.
  intros Hg (i&t&f&url&page&m&?&?&?&?&?&?&?&?&?). exists i, t, f, url, page, m. split_and!; auto.
Qed.

Lemma wp_create_value {T} js k create id val (s : T) g :
  authorised g js → missing_value g k val id → createApiMap js k = Some create →
  wp jira_monitor (create id val) s g (adds s g (λ _ _, True)).
Proof.
  intros Hauth Hmiss. unfold createApiMap. case_bool_decide as Hk; [subst k|case_bool_decide as Hk'; [subst k|done]].
  - intros [= <-]. by apply wp_jira_res.
  - intros [= <-]. unfold CreateComponentValue.
    eapply wp_adds_bind with (P := λ _ _, True); [by apply wp_jira_res|]. intros project g1 Hg1 _.
    apply wp_jira_res; [|done]. split; [by eapply authorised_mono|by eapply missing_value_mono].
Qed.

Lemma wp_create_field_value {T} js p (meta : gmap string IssueTypeMeta) k v (s : T) g :
  authorised g js →
  (∀ x val, meta !! k = Some x → v = JStr val → val ∉ itm_AllowedValues x → may_create g p k val) →
  wp jira_monitor (create_field_value js p meta k v) s g (adds s g (λ _ _, True)).
Proof.
  intros Hauth Hmay. unfold create_field_value. destruct (meta !! k) as [x|] eqn:Hx; [|by apply wp_adds_ret].
  destruct v as [| | |val| |]; try apply wp_adds_throw.
  unfold contains. case_bool_decide as Hin; [by apply wp_adds_ret|].
  eapply wp_adds_bind with (P := λ id _, Atoi p = Ok id); [by apply wp_adds_wrap, wp_adds_res|].
  intros id g1 Hg1 Hid. destruct (createApiMap js k) as [create|] eqn:Hc; [|apply wp_adds_panic].
  apply wp_adds_wrap. eapply wp_create_value; [by eapply authorised_mono| |exact Hc].
  eapply missing_value_mono; [exact Hg1|]. by eapply Hmay.
Qed.

Lemma wp_tryToCreateFieldValues {T} js i m payload (s : T) g :
  authorised g js → SeenMetadata i ∈ g →
  parse_json (jm_Payload (m_Spec i)) ≫= decode_map = Some m → (∀ k v, payload !! k = Some v → m !! k = Some v) →
  wp jira_monitor (tryToCreateFieldValues js payload (jm_Tickets (m_Spec i))) s g (adds s g (λ _ _, True)).
Proof.
  intros Hauth Hi Hm Hpay. unfold tryToCreateFieldValues.
  eapply wp_adds_bind; [by apply wp_adds_wrap, wp_getProjectInfo|].
  intros [p t] g1 Hg1 (Ht&f&Hf&->).
  eapply wp_adds_bind with (P := λ _ _, True).
  { apply wp_adds_wrap. unfold GetIssue. wp_to_call. wp_step; [split; [by eapply authorised_mono|done]|].
    intros a _. apply wp_orelse, wp_of_res. destruct (ia_Issue a) as [o|e|w];
      [apply adds_ok; [set_solver|done]|wp_step|]; (apply adds_fail; [set_solver|done]). }
  intros [fields|] g2 Hg2 _; [|apply wp_adds_panic].
  eapply wp_adds_bind.
  { apply wp_adds_wrap, wp_GetIssueTypeMeta. eapply authorised_mono; [|exact Hauth]. set_solver. }
  intros meta g3 Hg3 Hmeta. cbv beta in Hmeta.
  eapply wp_adds_bind with (P := λ _ _, True).
  { unfold sys. wp_step; [done|]. intros order _. by apply adds_ok; [set_solver|]. }
  intros keys g4 Hg4 _.
  assert (H : ∀ g5, g4 ⊆ g5 → wp jira_monitor (for_each keys (λ k,
    create_field_value js (if_ProjectID f) meta k (default JNull (payload !! k)))) s g5 (adds s g5 (λ _ _, True))).
  { induction keys as [|k keys IH]; intros g5 Hg5; cbn [for_each]; [by apply wp_adds_ret|].
    eapply wp_adds_bind; [apply wp_create_field_value|].
    - eapply authorised_mono; [|exact Hauth]. set_solver.
    - intros x val Hx Hval Hin id Hid. destruct (payload !! k) as [v|] eqn:Hk; [|done]. cbn in Hval. subst v.
      destruct (Hmeta _ _ Hx) as (url&page&Hpage&Hxp&Hxk). exists i, t, f, url, page, x.
      split_and!; [set_solver|done|set_solver|done| |set_solver|done..].
      exists m. split; [done|by apply Hpay].
    - intros _ g6 Hg6 _. apply IH. set_solver. }
  apply H. set_solver.
Qed.

(** *** Tags, links and the deletion *)

(** The object is the metadata that was fetched, but for its status and owners. *)
Definition serving (i s : JiraIssueMetadata) (g : list jira_fact) : Prop :=
  SeenMetadata i ∈ g ∧ m_Spec s = m_Spec i ∧ name_of s = name_of i ∧ namespace_of s = namespace_of i.
Definition clean (s : JiraIssueMetadata) : Prop := jmt_ErrorStrings (m_Status s) = [].
Definition working i js s g : Prop := serving i s g ∧ authorised g js.

Lemma working_mono i js s g g' : g ⊆ g' → working i js s g → working i js s g'.
Proof. intros Hg [(?&?) ?]. split; [split; auto|by eapply authorised_mono]. Qed.
Lemma working_error i js s g msg : working i js s g → working i js (append_error msg s) g.
Proof. done. Qed.
Lemma append_error_dirty msg s : ¬ clean (append_error msg s).
Proof. unfold clean. cbn. intros H. by apply app_eq_nil in H as [_ H]. Qed.

(** What a loop body may do: keep the object, add facts, and either be remembered or have [P]. *)
Definition collects (i : JiraIssueMetadata) js (P : list jira_fact → Prop) s g : res unit → JiraIssueMetadata → list jira_fact → Prop :=
  λ r s' g', working i js s' g' ∧ g ⊆ g' ∧ (clean s' → clean s ∧ (r = Ok tt → P g')).

Lemma wp_remember {A} i js (m : M JiraIssueMetadata A) msg (P : list jira_fact → Prop) s g :
  working i js s g → wp jira_monitor m s g (adds s g (λ _, P)) →
  wp jira_monitor (remember m msg) s g (collects i js P s g).
Proof.
  intros Hw Hm. apply wp_bind, wp_attempt. eapply wp_mono; [exact Hm|].
  intros [a|e|w] s' g' (->&Hg&HP); cbv beta iota.
  - wp_step. split_and!; [by eapply working_mono|done|]. intros Hc. split; [done|]. intros _. by eapply HP.
  - wp_step. split_and!; [by apply working_error; eapply working_mono|done|].
    intros Hc. by apply append_error_dirty in Hc.
  - split_and!; [by eapply working_mono|done|done].
Qed.

Lemma wp_collect {A} i js (l : list A) (f : A → M JiraIssueMetadata unit) (P : A → list jira_fact → Prop) s g :
  (∀ a g g', g ⊆ g' → P a g → P a g') →
  (∀ a s g, a ∈ l → working i js s g → wp jira_monitor (f a) s g (collects i js (P a) s g)) →
  working i js s g →
  wp jira_monitor (for_each l f) s g (collects i js (λ g', ∀ a, a ∈ l → P a g') s g).
Proof.
  intros Hmono Hf. revert s g. induction l as [|a l IH]; intros s g Hw; cbn [for_each].
  { wp_step. split_and!; [done|done|]. intros Hc. split; [done|]. set_solver. }
  apply wp_bind. eapply wp_mono; [apply Hf; [set_solver|done]|].
  intros [[]|e|w] s1 g1 (Hw1&Hg1&Hc1); [|by split_and!; [..|intros Hc; split; [apply Hc1|]]..].
  eapply wp_mono; [apply IH; [|done]; intros b; intros; apply Hf; [set_solver|done]|].
  intros r s2 g2 (Hw2&Hg2&Hc2). split_and!; [done|set_solver|].
  intros Hc. destruct (Hc2 Hc) as [Hc' Hl]. destruct (Hc1 Hc') as [Hc0 Ha]. split; [done|].
  intros Hr b Hb. rewrite elem_of_cons in Hb; destruct Hb as [->|Hb]; [by eapply Hmono; [|apply Ha]|by apply Hl].
Qed.

Definition all_linked i (g : list jira_fact) : Prop :=
  ∃ links, payload_links i = Some links ∧ ∀ l, l ∈ links → linked g l.
Definition all_tagged i (g : list jira_fact) : Prop :=
  links_only i ∨ ∃ tags, tags_of i = Some tags ∧ ∀ t, t ∈ jm_Tickets (m_Spec i) → Tagged t tags ∈ g.

Lemma all_tagged_mono i g g' : g ⊆ g' → all_tagged i g → all_tagged i g'.
Proof. intros Hg [H|(tags&H&Ht)]; [by left|right]. exists tags. split; [done|]. auto. Qed.

Lemma wp_delete i js s g :
  working i js s g → (clean s → all_linked i g ∧ all_tagged i g) →
  wp jira_monitor DeleteJiraIssueMetadataCr_ServeRequest s g (λ _ s' g', working i js s' g').
Proof.
  intros Hw Hready. pose proof Hw as [(Hi&_&Hn&Hns) _]. unfold DeleteJiraIssueMetadataCr_ServeRequest.
  apply wp_bind, wp_get. cbv beta iota.
  destruct (negb _) eqn:Hc; [wp_step; done|]. apply negb_false_iff, bool_decide_eq_true in Hc.
  destruct (Hready Hc) as [(links&Hl&Hlinked) Htag]. wp_to_call. wp_step.
  - exists i, links. rewrite Hn, Hns. by split_and!.
  - intros [[]|e|w] _; [|wp_step|]; (eapply working_mono; [|exact Hw]); set_solver.
Qed.

Lemma wp_next i js (next : M JiraIssueMetadata unit) s g :
  wp jira_monitor next s g (λ _ s' g', working i js s' g') →
  wp jira_monitor (metadata_next next) s g (λ _ s' g', working i js s' g').
Proof.
  intros H. apply wp_orelse. eapply wp_mono; [exact H|]. intros [a|e|w] s' g' Hw; [done|by wp_step|done].
Qed.

Lemma wp_put_links i js s g :
  working i js s g → (clean s → all_tagged i g) →
  wp jira_monitor (PutIssueWebLink_ServeRequest js DeleteJiraIssueMetadataCr_ServeRequest) s g
    (λ _ s' g', working i js s' g').
Proof.
  intros Hw Htag. pose proof Hw as [(Hi&Hspec&_) _]. unfold PutIssueWebLink_ServeRequest.
  apply wp_bind, wp_get. cbv beta iota zeta. rewrite Hspec.
  destruct (parse_json _ ≫= decode_payload) as [[links|]|] eqn:Hp; [|by wp_step..].
  assert (Hlinks : payload_links i = Some links) by (unfold payload_links; by rewrite Hp).
  apply wp_bind. eapply wp_mono; [apply (wp_collect i js links _ (λ l g, linked g l)); [| |done]|].
  - unfold linked. set_solver.
  - intros l s1 g1 Hl Hw1. apply wp_remember; [done|]. unfold CreateIssueLink. destruct Hw1 as [(Hi1&_) Ha1].
    eapply wp_adds_bind with (P := λ _ _, True); [by apply wp_jira_res|]. intros _ g2 Hg2 _.
    apply wp_jira_res; [|intros u; cbn; unfold linked; set_solver].
    split; [by eapply authorised_mono|]. split; [done|]. exists i, links, l. split_and!; auto.
  - intros [[]|e|w] s1 g1 (Hw1&Hg1&Hc); [|done..]. apply wp_next, wp_delete; [done|]. intros Hc1.
    destruct (Hc Hc1) as [Hc0 Hl]. split; [by exists links; split; [|apply Hl]|].
    by eapply all_tagged_mono; [|apply Htag].
Qed.

Lemma wp_apply_tags i js s g :
  working i js s g →
  wp jira_monitor (ApplyTagsToIssues_ServeRequest js
    (PutIssueWebLink_ServeRequest js DeleteJiraIssueMetadataCr_ServeRequest)) s g
    (λ _ s' g', working i js s' g').
Proof.
  intros Hw. pose proof Hw as [(Hi&Hspec&_) _]. unfold ApplyTagsToIssues_ServeRequest.
  apply wp_bind, wp_get. cbv beta iota. rewrite Hspec. unfold GetFieldsMap.
  apply wp_bind, wp_orelse, wp_of_res. destruct (parse_json _ ≫= decode_map) as [m|] eqn:Hm; [|by wp_step].
  cbv beta iota zeta. cbn [foldl].
  assert (Htags : tags_of i = Some (createRequestBody (delete issuesLinks m))) by (unfold tags_of; by rewrite Hm).
  apply wp_bind. eapply wp_mono; [apply (wp_collect i js _ _ (λ t g,
    Tagged t (createRequestBody (delete issuesLinks m)) ∈ g)); [set_solver| |done]|].
  - intros t s1 g1 Ht Hw1. apply wp_remember; [done|]. destruct Hw1 as [(Hi1&_) Ha1].
    apply wp_jira_res; [|intros u; cbn; set_solver]. split; [done|]. by exists i.
  - intros [[]|e|w] s1 g1 (Hw1&Hg1&Hc); [|done..]. apply wp_next, wp_put_links; [done|]. intros Hc1.
    right. eexists. split; [exact Htags|]. by apply Hc.
Qed.

Lemma wp_put_tag_value i js s g :
  working i js s g →
  wp jira_monitor (createDefChain js) s g (λ _ s' g', working i js s' g').
Proof.
  intros Hw. pose proof Hw as [(Hi&Hspec&_) Ha]. unfold createDefChain, PutTagValue_ServeRequest.
  apply wp_bind, wp_get. cbv beta iota. rewrite Hspec. unfold GetFieldsMap.
  apply wp_bind, wp_orelse, wp_of_res. destruct (parse_json _ ≫= decode_map) as [m|] eqn:Hm; [|by wp_step].
  cbv beta iota zeta. cbn [foldl]. destruct (bool_decide _); [by wp_step|].
  apply wp_bind. eapply wp_mono; [apply wp_adds_wrap; eapply wp_tryToCreateFieldValues; [done|done|exact Hm|]|].
  - intros k v Hk. by rewrite !lookup_delete_Some in Hk; destruct Hk as (_&_&Hk).
  - intros [[]|e|w] s1 g1 (->&Hg1&_); [|by eapply working_mono..].
    apply wp_next, wp_apply_tags. by eapply working_mono.
Qed.

Lemma wp_chain i js s g ch :
  working i js s g → JiraMetadata_CreateChain (jm_Payload (m_Spec i)) js = Ok ch →
  wp jira_monitor ch s g (λ _ s' g', working i js s' g').
Proof.
  intros Hw. unfold JiraMetadata_CreateChain, GetFieldsMap.
  destruct (parse_json _ ≫= decode_map) as [m|] eqn:Hm; [|done]. cbn [foldl].
  destruct (bool_decide (size m = 1) && _) eqn:Hsize; intros [= <-]; [|by apply wp_put_tag_value].
  apply wp_put_links; [done|]. intros _. left. apply andb_true_iff in Hsize as [Hs Hl].
  apply bool_decide_eq_true in Hs. destruct (m !! issuesLinks) as [v|] eqn:Hv; [|done].
  exists m, v. split_and!; [done..|]. by destruct v.
Qed.

(** *** The controller *)

Context {XL : ExternalsLaws X}.

Lemma wp_update_metadata i s g :
  serving i s g → wp jira_monitor metadata_updateStatus s g (λ _ _ _, True).
Proof.
  intros (Hi&Hspec&_). unfold metadata_updateStatus. wp_to_call. wp_step; [done|]. intros t _.
  wp_to_call. wp_step; [by exists i|]. intros [o|e|w] _; [by repeat wp_step| |done].
  wp_to_call. wp_step; [exists i; split; [set_solver|done]|]. intros [o|e'|w] _; by repeat wp_step.
Qed.

(** What every step of the controller keeps. *)
Definition kept i {A} : res A → JiraIssueMetadata → list jira_fact → Prop := λ _ s g, serving i s g.

Lemma serving_mono i s g g' : g ⊆ g' → serving i s g → serving i s g'.
Proof. intros Hg (?&?). split; auto. Qed.

Lemma wp_failed i {A} (e e' : error) s g :
  serving i s g → wp jira_monitor (metadata_failed (A:=A) e e') s g (λ r s' g', kept i r s' g' ∧ ∀ a, r ≠ Ok a).
Proof. intros H. unfold metadata_failed. by repeat (wp_step; cbv beta iota). Qed.

Lemma wp_setOwnerRef i s g :
  serving i s g → wp jira_monitor metadata_setOwnerRef s g (kept i).
Proof.
  intros Hs. pose proof Hs as (Hi&Hspec&Hn&Hns). unfold metadata_setOwnerRef, kept.
  wp_to_call. wp_step; [done|]. intros [c|e|w] _; [|wp_step|]; [|by eapply serving_mono; [|exact Hs]; set_solver..].
  cbv beta iota. apply wp_bind, wp_orelse, wp_of_res.
  destruct (SetControllerReference _ _ _) as [meta|e|w] eqn:Hm; [|wp_step|];
    [|by eapply serving_mono; [|exact Hs]; set_solver..].
  destruct (SetControllerReference_rest _ _ _ _ Hm) as [refs ->]. cbv beta iota. wp_step.
  eapply serving_mono; [|by split_and!]. set_solver.
Qed.

Lemma wp_getJiraServer {T} i (s : T) g :
  wp jira_monitor (getJiraServer i) s g (adds s g (λ server g', SeenServer server ∈ g')).
Proof.
  unfold getJiraServer. eapply wp_adds_bind with (P := λ _ _, True); [by apply wp_adds_wrap, wp_adds_res|].
  intros ref g1 Hg1 _. eapply wp_adds_bind with (P := λ _ _, True).
  { apply wp_adds_wrap. wp_step. wp_step; [done|]. intros [c|e|w] _;
      [apply adds_ok; [set_solver|done]|apply adds_fail; [set_solver|done]..]. }
  intros c g2 Hg2 _. destruct (cs_JiraServer (c_Spec c)) as [name|]; [|apply wp_adds_throw].
  apply wp_adds_wrap. wp_step. wp_step; [done|]. intros [j|e|w] _;
    [apply adds_ok; cbn; set_solver|apply adds_fail; [set_solver|done]..].
Qed.

(** An adding call whose error goes to the status. *)
Lemma wp_or_failed i {A B} (h : M JiraIssueMetadata A) (f : A → M JiraIssueMetadata B) wrap s g
    (P : A → list jira_fact → Prop) :
  serving i s g → wp jira_monitor h s g (adds s g P) →
  (∀ a g', g ⊆ g' → P a g' → wp jira_monitor (f a) s g' (kept i)) →
  wp jira_monitor (mbind (orelse h (λ err, metadata_failed err (wrap err))) f) s g (kept i).
Proof.
  intros Hs Hh Hf. apply wp_bind, wp_orelse. eapply wp_mono; [exact Hh|].
  intros [a|e|w] s' g' (->&Hg&HP); [by apply Hf; [|apply HP]| |by eapply serving_mono].
  eapply wp_mono; [apply wp_failed; by eapply serving_mono|].
  by intros [a|e1|w] s1 g1 [H1 Hr]; [destruct (Hr a)|..].
Qed.

Lemma wp_serve_metadata i s g :
  serving i s g → wp jira_monitor serve_metadata s g (kept i).
Proof.
  intros Hs. unfold serve_metadata. apply wp_bind, wp_orelse.
  eapply wp_mono; [by apply wp_setOwnerRef|]. intros [[]|e|w] s1 g1 Hs1; [| |done].
  2: { eapply wp_mono; [by apply wp_failed|]. by intros [a|e1|w] s2 g2 [H Hr]; [destruct (Hr a)|..]. }
  apply wp_bind, wp_get. cbv beta iota.
  apply (wp_or_failed _ _ _ id _ _ (λ server g', SeenServer server ∈ g')); [done|apply wp_getJiraServer|].
  intros server g2 Hg2 Hserver. destruct (jst_Available (j_Status server)) eqn:Hav; cbn [negb].
  2: { unfold metadata_setFailureCount. repeat (wp_step; cbv beta iota zeta).
       by eapply (serving_mono i s1); [exact Hg2|]. }
  apply (wp_or_failed _ _ _ id _ _ (λ js g', authorised g' js)); [by eapply serving_mono|by apply wp_initJiraClient|].
  intros js g3 Hg3 Hjs. apply wp_bind, wp_get. cbv beta iota.
  assert (Hw : working i js s1 g3) by (split; [eapply serving_mono; [|exact Hs1]; set_solver|done]).
  pose proof Hw as [(_&Hspec&_) _]. rewrite Hspec.
  apply (wp_or_failed _ _ _ (EWrap "failed to configure `CreateChain`: ") _ _
    (λ ch g', g' = g3 ∧ JiraMetadata_CreateChain (jm_Payload (m_Spec i)) js = Ok ch));
    [by apply Hw|apply wp_adds_res; by intros a ->|].
  intros ch g4 _ [-> Hch]. apply wp_bind, wp_attempt. eapply wp_mono; [by eapply wp_chain|].
  intros [[]|e|w] s5 g5 [Hs5 _]; [| |done].
  - unfold reconcile_period. wp_to_call. wp_step; [done|]. intros v _.
    do 3 (wp_step; cbv beta iota). by destruct (ParseDuration _); repeat (wp_step; cbv beta iota).
  - cbv beta iota. unfold metadata_setFailureCount. by repeat (wp_step; cbv beta iota zeta).
Qed.
End Monitor.


Definition demo_metadata : JiraIssueMetadata :=
  {| m_Meta := new_meta "app-1" "" "ns";
     m_Spec := {| jm_CodebaseName := "app"; jm_Payload := "{}"; jm_Commits := []; jm_Tickets := ["PRJ-1"] |};
     m_Status := {| jmt_LastTimeUpdated := 0; jmt_Status := ""; jmt_DetailedMessage := "";
       jmt_FailureCount := 0; jmt_ErrorStrings := [] |} |}.


(** ** The fields of an issue type

    Jira answers a listing without [maxResults] with its first 50 entries. *)

Definition question : Ascii.ascii := byte 63.
Definition page_of (url : string) (all : list IssueTypeMeta) : list IssueTypeMeta :=
  if str_contains (String question "maxResults=") url then all else take 50 all.

Section Pages.
Context {X : Externals} (all : list IssueTypeMeta) (fields : IssueFields).

(** A Jira server that works: it knows every ticket, and lists the fields [all] in pages. No
    version may be created. *)
Definition pages_rely : ∀ R, call R → R → Prop := λ R c,
  match c in call R return R → Prop with
  | CJira _ jc => match jc in jira_call R return R → Prop with
    | JGetIssue _ => λ a, a = {| ia_StatusCode := Some 200%Z; ia_Issue := Ok (Some fields) |}
    | JNewRequest _ _ _ => λ r, r = Ok tt
    | JDoMeta _ url => λ r, r = Ok (page_of url all)
    | _ => λ _, True
    end
  | CSys sc => match sc in sys_call R return R → Prop with
    | RangeMap keys => λ r, Permutation keys r
    | _ => λ _, True
    end
  | _ => λ _, True
  end.
Definition nothing_created : ∀ R, call R → Prop := λ R c,
  match c with
  | CJira _ (JCreateVersion _ _) | CJira _ (JCreateComponent _ _ _) => False
  | _ => True
  end.
Definition pages_monitor : monitor unit :=
  {| rely _ := pages_rely; guar _ := nothing_created; step _ _ _ _ := tt |}.

Definition no_question (s : string) : bool := str_forallb (λ a, negb (bool_decide (a = question))) s.

Lemma escape_byte_no_question a : no_question (escape_byte a) = true.
Proof. destruct a as [[] [] [] [] [] [] [] []]; vm_compute; reflexivity. Qed.

Lemma path_escape_no_question s : str_contains (String question "maxResults=") (path_escape s) = false.
Proof.
  enough (H : no_question (path_escape s) = true).
  { unfold no_question in H. revert H. generalize (path_escape s). intros t. induction t as [|a t IH]; [done|]. cbn.
    intros H. apply andb_true_iff in H as [Ha Ht]. rewrite (IH Ht), orb_false_r.
    apply negb_true_iff, bool_decide_eq_false in Ha. by rewrite bool_decide_false by congruence. }
  induction s as [|a s IH]; [done|]. cbn [path_escape]. unfold no_question in *.
  rewrite str_forallb_app, IH, andb_true_r. apply escape_byte_no_question.
Qed.

Lemma wp_pages_getProjectInfo {T} client tickets (s : T) :
  tickets ≠ [] →
  wp pages_monitor (getProjectInfo client tickets) s tt (λ r s' _, ∃ t, r = Ok (if_ProjectID fields, t)).
Proof.
  destruct tickets as [|t tickets]; [done|]. intros _. cbn [getProjectInfo].
  unfold GetProjectInfo. wp_to_call. wp_step; [done|]. intros a ->. cbv beta iota. cbn.
  rewrite bool_decide_false by done. by wp_step; wp_step; exists t.
Qed.

Lemma wp_pages_GetIssue {T} client t (s : T) :
  wp pages_monitor (GetIssue client t) s tt (λ r _ _, r = Ok (Some fields)).
Proof. unfold GetIssue. wp_to_call. wp_step; [done|]. intros a ->. by wp_step; wp_step. Qed.

Lemma wp_pages_GetIssueTypeMeta {T} client p ty (s : T) :
  wp pages_monitor (GetIssueTypeMeta client p ty) s tt (λ r _ _,
    r = Ok (members (map (λ m, (itm_FieldID m, m)) (take 50 all)))).
Proof.
  unfold GetIssueTypeMeta. wp_to_call. wp_step; [done|]. intros r ->. wp_to_call. wp_step; [done|].
  intros r ->. cbv beta iota. wp_step. unfold page_of, issue_type_meta_url.
  by rewrite path_escape_no_question.
Qed.

End Pages.

(** C38: When the fields of the issue type that Jira lists on its first page are none of the
    payload's, no fix version and no component is created and the handler reports success,
    although later pages may have the field: the request for the fields never asks for more
    than a page. The comment above the query says that it is crucial to do so. *)
Theorem field_values_beyond_first_page {X : Externals} {T} (all : list IssueTypeMeta) (fields : IssueFields)
    client (payload : gmap string json) tickets (s : T) :
  tickets ≠ [] → (∀ m, m ∈ take 50 all → payload !! itm_FieldID m = None) →
  wp (pages_monitor all fields) (tryToCreateFieldValues client payload tickets) s tt (λ r _ _, r = Ok tt).
Proof.
  intros Ht Hpage. unfold tryToCreateFieldValues.
  apply wp_bind, wp_orelse. eapply wp_mono; [by apply wp_pages_getProjectInfo|]. intros r s1 [] [t ->].
  cbv beta iota. apply wp_bind, wp_orelse. eapply wp_mono; [apply wp_pages_GetIssue|]. intros r s2 [] ->.
  cbv beta iota. apply wp_bind, wp_orelse. eapply wp_mono; [apply wp_pages_GetIssueTypeMeta|].
  intros r s3 [] ->. cbv beta iota. wp_to_call. wp_step; [done|]. intros keys Hkeys.
  assert (Hin : ∀ k, k ∈ keys → is_Some (payload !! k)).
  { intros k Hk. cbn in Hkeys. rewrite <- Hkeys in Hk. apply list_elem_of_fmap in Hk as ([k' v]&->&Hk).
    apply elem_of_map_to_list in Hk. by exists v. }
  clear Hkeys. induction keys as [|k keys IH]; cbn [for_each]; [by wp_step|].
  apply wp_bind. unfold create_field_value at 1.
  destruct (members _ !! k) as [m|] eqn:Hm; [exfalso|].
  - unfold members in Hm. apply members_lookup in Hm as [Hm|Hm]; [|done].
    apply list_elem_of_fmap in Hm as (m'&[= -> ->]&Hm). destruct (Hin (itm_FieldID m')) as [v Hv]; [set_solver|].
    by rewrite Hpage in Hv.
  - wp_step. cbv beta iota. apply IH. intros k' Hk'. apply Hin. set_solver.
Qed.

(** Fifty custom fields come before the fix versions, which lack the value. *)
Definition many_fields : list IssueTypeMeta :=
  map (λ n, {| itm_FieldID := "customfield_" +:+ pretty n; itm_AllowedValues := [] |}) (seq 0 50)
  ++ [{| itm_FieldID := "fixVersions"; itm_AllowedValues := ["1.0"] |}].

Lemma field_values_beyond_first_page_witness :
  wp (pages_monitor many_fields {| if_ProjectID := "10001"; if_TypeID := "3"; if_TypeName := "Task" |})
    (@tryToCreateFieldValues reference unit (ConvertSpecToJiraServer "https://jira" "u" "p")
       {[ "fixVersions" := JStr "2.0" ]} ["PRJ-1"]) tt tt (λ r _ _, r = Ok tt).
Proof.
  apply (@field_values_beyond_first_page reference unit many_fields); [done|].
  intros m Hm. apply lookup_singleton_ne. intros Hf.
  assert (Hall : forallb (λ m, negb (bool_decide (itm_FieldID m = "fixVersions"))) (take 50 many_fields) = true)
    by (vm_compute; reflexivity).
  rewrite forallb_forall in Hall. apply list_elem_of_In in Hm. apply Hall in Hm.
  by rewrite <- Hf, bool_decide_true in Hm.
Defined.

(** ** The status of a Jira server *)

(** What a reconciliation learned: the server it fetched and the answer of the check. *)
Record checked_server := { ck_server : option JiraServer; ck_answer : option (res bool) }.

Definition check_step (g : checked_server) : ∀ R, call R → R → checked_server := λ R c,
  match c in call R return R → checked_server with
  | CKube kc => match kc in kube_call R return R → checked_server with
    | KGet k _ => match k in kind V return res V → checked_server with
      | KJiraServer => λ r, match r with
        | Ok i => {| ck_server := Some i; ck_answer := ck_answer g |}
        | _ => g
        end
      | _ => λ _, g
      end
    | _ => λ _, g
    end
  | CJira _ jc => match jc in jira_call R return R → checked_server with
    | JGetSelf => λ r, {| ck_server := ck_server g; ck_answer := Some r |}
    | _ => λ _, g
    end
  | _ => λ _, g
  end.

Definition check_message (e : error) : string :=
  "failed to connect to Jira server: failed to fetch jira user: " +:+ err_msg e.

(** The status of the server [i] after the check: only an answer changes [Available]. *)
Definition status_after (i : JiraServer) (answer : option (res bool)) (st : JiraServerStatus) : Prop :=
  match answer with
  | None => jst_Available st = false
      ∧ jst_Status st = jst_Status (j_Status i) ∧ jst_DetailedMessage st = jst_DetailedMessage (j_Status i)
  | Some (Ok connected) => jst_Available st = connected ∧ jst_Status st = "finished" ∧ jst_DetailedMessage st = ""
  | Some (Err e) => jst_Available st = jst_Available (j_Status i)
      ∧ jst_Status st = "error" ∧ jst_DetailedMessage st = check_message e
  | Some (Panic _) => False
  end.

Definition written_server (g : checked_server) (o : JiraServer) : Prop :=
  ∃ i, ck_server g = Some i ∧ j_Meta o = j_Meta i ∧ j_Spec o = j_Spec i
    ∧ status_after i (ck_answer g) (j_Status o).
Definition check_guar (g : checked_server) : ∀ R, call R → Prop := guard_kube (λ R c,
  match c with
  | KGet _ _ => True
  | @KStatusUpdate V k o => match k in kind V return V → Prop with
      KJiraServer => written_server g | _ => λ _, False end o
  | @KUpdate V k o => match k in kind V return V → Prop with
      KJiraServer => written_server g | _ => λ _, False end o
  | _ => False
  end).
(** The client libraries answer with a result or an error. *)
Definition no_panic {A} (r : res A) : Prop := match r with Panic _ => False | _ => True end.
Definition check_rely : ∀ R, call R → R → Prop := λ R c,
  match c in call R return R → Prop with
  | CKube kc => match kc in kube_call R return R → Prop with KGet _ _ => no_panic | _ => λ _, True end
  | CJira _ jc => match jc in jira_call R return R → Prop with
      JNewClient => no_panic | JGetSelf => no_panic | _ => λ _, True end
  | _ => λ _, True
  end.
Definition check_monitor : monitor checked_server :=
  {| rely _ := check_rely; guar := check_guar; step := check_step |}.

Lemma wp_jira_updateStatus s g :
  written_server g s → wp check_monitor jira_updateStatus s g (λ _ _ _, True).
Proof.
  intros (i&Hi&Hm&Hs&Hst). assert (Hw : ∀ t, written_server g (set_jira_time t s)).
  { intros t. exists i. split_and!; [done..|]. by destruct (ck_answer g) as [[]|]. }
  unfold jira_updateStatus. wp_to_call. wp_step; [done|]. intros t _. wp_to_call.
  wp_step; [apply Hw|]. intros [o|e|w] _; [by repeat wp_step| |done].
  wp_to_call. wp_step; [apply Hw|]. intros [o|e'|w] _; by repeat wp_step.
Qed.

(** C32: Whatever is answered, the status a reconciliation of a JiraServer writes is "finished"
    with the answer of the check as its availability; "error" with the error of the check; or,
    when no client could be made, unavailable with the previous status text. When the check
    fails the server keeps the availability it had, so an unreachable server that was available
    stays available. *)
Theorem jira_server_status_written (request : ObjectKey) s :
  wp check_monitor (ReconcileJiraServer request) s {| ck_server := None; ck_answer := None |} (λ _ _ _, True).
Proof.
  unfold ReconcileJiraServer. apply wp_bind, wp_attempt, wp_do_res; [done|]. intros [i|e|w] _; [| |done].
  2: { cbv beta iota. by destruct (IsNotFound e); wp_step. }
  cbv beta iota. apply wp_bind. wp_step. cbv beta iota. apply wp_deferring.
  eapply wp_mono with (Q := λ r s' g', written_server g' s').
  2: { intros r s1 g1 Hw. eapply wp_mono; [by apply wp_jira_updateStatus|done]. }
  unfold serve_jira_server, initJiraClient, GetSecret, GoJiraAdapterFactory_New, initClient.
  wp_to_call. wp_step; [done|]. intros [sec|e|w] Hr; [| |done].
  - wp_to_call. wp_step; [done|]. intros [[]|e|w] Hr'; [| |done].
    + unfold CheckConnection_ServeRequest, checkConnection, Connected. wp_to_call. wp_step; [done|].
      intros [b|e|w] Hr''; [| |done]; repeat (wp_step; cbv beta iota); by exists i.
    + repeat (wp_step; cbv beta iota); by exists i.
  - repeat (wp_step; cbv beta iota); by exists i.
Qed.
