(* ===== verification/IntegrationSecret.v ===== *)
(** * IntegrationSecret: the connection status of integration secrets

    [src/controllers/integrationsecret]: one HTTP request with the credentials of a secret, and
    two annotations with its outcome. The state of the reconciliation is the local [secret];
    requests are calls, [tlsConfig] is nil outside of tests. *)

From S2P Require Import Prelude Api Effects GoStd Json Externals Host CodebaseController GitServerController Simulation.

Definition integrationSecretLabel := "app.edp.epam.com/integration-secret".
Definition integrationSecretTypeLabel := "app.edp.epam.com/secret-type".
Definition integrationSecretConnectionAnnotation := "app.edp.epam.com/integration-secret-connected".
Definition integrationSecretErrorAnnotation := "app.edp.epam.com/integration-secret-error".
Definition successConnectionRequeueTime : Z := minute * 30.
Definition failConnectionRequeueTime : Z := minute * 1.

(** strconv.FormatBool *)
Definition FormatBool (b : bool) : string := if b then "true" else "false".

Definition set_Annotations (a : gmap string string) (m : ObjectMeta) : ObjectMeta :=
  {| om_Name := om_Name m; om_GenerateName := om_GenerateName m; om_Namespace := om_Namespace m;
     om_Labels := om_Labels m; om_Annotations := a; om_Finalizers := om_Finalizers m;
     om_OwnerReferences := om_OwnerReferences m; om_DeletionTimestamp := om_DeletionTimestamp m;
     om_CreationTimestamp := om_CreationTimestamp m; om_Generation := om_Generation m |}.
Definition secret_annotations (s : Secret) : gmap string string := om_Annotations (sec_Meta s).
Definition with_annotations (a : gmap string string) (s : Secret) : Secret :=
  obj_set_meta s (set_Annotations a (sec_Meta s)).

(** ** Requests *)

Definition newRequest (url : string) : HttpRequest :=
  {| rq_Method := ""; rq_BaseURL := url; rq_Path := ""; rq_Timeout := second * 5;
     rq_BasicAuth := None; rq_AuthToken := None; rq_Headers := []; rq_Body := [] |}.
Definition SetBasicAuth (u p : string) (r : HttpRequest) : HttpRequest :=
  {| rq_Method := rq_Method r; rq_BaseURL := rq_BaseURL r; rq_Path := rq_Path r; rq_Timeout := rq_Timeout r;
     rq_BasicAuth := Some (u, p); rq_AuthToken := rq_AuthToken r; rq_Headers := rq_Headers r;
     rq_Body := rq_Body r |}.
Definition SetAuthToken (t : string) (r : HttpRequest) : HttpRequest :=
  {| rq_Method := rq_Method r; rq_BaseURL := rq_BaseURL r; rq_Path := rq_Path r; rq_Timeout := rq_Timeout r;
     rq_BasicAuth := rq_BasicAuth r; rq_AuthToken := Some t; rq_Headers := rq_Headers r;
     rq_Body := rq_Body r |}.
Definition SetHeader (k v : string) (r : HttpRequest) : HttpRequest :=
  {| rq_Method := rq_Method r; rq_BaseURL := rq_BaseURL r; rq_Path := rq_Path r; rq_Timeout := rq_Timeout r;
     rq_BasicAuth := rq_BasicAuth r; rq_AuthToken := rq_AuthToken r;
     rq_Headers := rq_Headers r ++ [(k, v)]; rq_Body := rq_Body r |}.
Definition SetBody (b : list (string * string)) (r : HttpRequest) : HttpRequest :=
  {| rq_Method := rq_Method r; rq_BaseURL := rq_BaseURL r; rq_Path := rq_Path r; rq_Timeout := rq_Timeout r;
     rq_BasicAuth := rq_BasicAuth r; rq_AuthToken := rq_AuthToken r; rq_Headers := rq_Headers r;
     rq_Body := b |}.
Definition send (method path : string) (r : HttpRequest) : HttpRequest :=
  {| rq_Method := method; rq_BaseURL := rq_BaseURL r; rq_Path := path; rq_Timeout := rq_Timeout r;
     rq_BasicAuth := rq_BasicAuth r; rq_AuthToken := rq_AuthToken r; rq_Headers := rq_Headers r;
     rq_Body := rq_Body r |}.

Definition newRequestWithAuth (secret : Secret) : HttpRequest :=
  let req := newRequest (map_get (sec_Data secret) "url") in
  match sec_Data secret !! "username" with
  | Some username => SetBasicAuth username (map_get (sec_Data secret) "password") req
  | None => SetAuthToken (map_get (sec_Data secret) "token") req
  end.

(** ** .dockerconfigjson *)

Record registryAuth := { ra_Username : string; ra_Password : string }.

Definition decode_auth_field (cur : registryAuth) (kv : string * json) : option registryAuth :=
  let '(k, v) := kv in
  if is_field "username" k then
    s ← decode_string (ra_Username cur) v; Some {| ra_Username := s; ra_Password := ra_Password cur |}
  else if is_field "password" k then
    s ← decode_string (ra_Password cur) v; Some {| ra_Username := ra_Username cur; ra_Password := s |}
  else Some cur.
Definition decode_auth (j : json) : option registryAuth :=
  let zero := {| ra_Username := ""; ra_Password := "" |} in
  match j with
  | JObj l => foldl (λ acc kv, cur ← acc; decode_auth_field cur kv) (Some zero) l
  | JNull => Some zero
  | _ => None
  end.
(** An object decoded into a map adds to it; [null] makes it nil. *)
Definition decode_auths (cur : gmap string registryAuth) (j : json) : option (gmap string registryAuth) :=
  match j with
  | JObj l => foldl (λ acc '(k, v), m ← acc; a ← decode_auth v; Some (<[k := a]> m)) (Some cur) l
  | JNull => Some ∅
  | _ => None
  end.
(** [registryConfig] *)
Definition decode_registry (j : json) : option (gmap string registryAuth) :=
  match j with
  | JObj l => foldl (λ acc '(k, v), m ← acc; if is_field "auths" k then decode_auths m v else Some m) (Some ∅) l
  | JNull => Some ∅
  | _ => None
  end.

Section Connection.
Context {X : Externals} {S : Type}.

(** The request, with the prefixes of the two errors. *)
Definition check_request (prefix status_prefix : string) (rq : HttpRequest) : M S unit :=
  resp <- do_res (CHttp rq) ?> prefix ;;
  if negb (rs_IsSuccess resp) then throw (ENew (status_prefix +:+ rs_Status resp)) else ret tt.

Definition docker_hub_request (username password : string) : HttpRequest :=
  send "POST" "/v2/users/login"
    (SetBody [("username", username); ("password", password)]
      (SetHeader "Content-Type" "application/json" (newRequest "https://hub.docker.com"))).
Definition checkDockerHub (username password : string) : M S unit :=
  check_request "" "http status code " (docker_hub_request username password).

Definition github_request (auth : registryAuth) (url : string) : HttpRequest :=
  send "GET" "/v2/_catalog"
    (SetAuthToken (base64_encode (ra_Password auth))
      (SetHeader "Content-Type" "application/json" (newRequest url))).
Definition checkGitHubRegistry (auth : registryAuth) (url : string) : M S unit :=
  check_request "failed to connect to GitHub registry " "GitHub registry http status code " (github_request auth url).

(** The body of the loop over the registries: it returns in every case. *)
Definition check_registry_auth (url : string) (auth : registryAuth) : M S unit :=
  if bool_decide (url = "https://index.docker.io/v1/") then checkDockerHub (ra_Username auth) (ra_Password auth)
  else
    let url := if has_prefix "https://" url then url else "https://" +:+ url in
    if has_prefix "https://ghcr.io" url then checkGitHubRegistry auth url
    else check_request "" "http status code "
           (send "GET" "/v2/" (SetBasicAuth (ra_Username auth) (ra_Password auth) (newRequest url))).

Definition checkRegistry (secret : Secret) : M S unit :=
  let rawConf := map_get (sec_Data secret) ".dockerconfigjson" in
  if bool_decide (String.length rawConf = 0) then
    throw (ENew ("no .dockerconfigjson key in secret " +:+ name_of secret))
  else match parse_json rawConf ≫= decode_registry with
  | None => throw (EWrap "failed to unmarshal .dockerconfigjson: "
      (ENew (Unmarshal_error "integrationsecret.registryConfig" rawConf)))
  | Some auths =>
    keys <- sys (RangeMap (map fst (map_to_list auths))) ;;
    match keys with
    | [] => throw (ENew "no auths in .dockerconfigjson")
    | url :: _ => check_registry_auth url (default {| ra_Username := ""; ra_Password := "" |} (auths !! url))
    end
  end.

(** The request of a secret that is not a registry's: by its type. *)
Definition typed_request (secret : Secret) : HttpRequest :=
  let req := newRequest (map_get (sec_Data secret) "url") in
  let token := map_get (sec_Data secret) "token" in
  let ty := map_get (labels_of secret) integrationSecretTypeLabel in
  if bool_decide (ty = "sonar") then send "GET" "/api/system/ping" (SetBasicAuth token "" req)
  else if bool_decide (ty = "nexus") then send "GET" "/service/rest/v1/status" (newRequestWithAuth secret)
  else if bool_decide (ty = "dependency-track") then
    send "GET" "/api/v1/team/self" (SetHeader "X-Api-Key" token req)
  else if bool_decide (ty = "defectdojo") then
    send "GET" "/api/v2/user_profile" (SetHeader "Authorization" ("Token " +:+ token) req)
  else if bool_decide (ty = "argocd") then
    send "GET" "/api/v1/projects" (SetHeader "Authorization" ("Bearer " +:+ token) req)
  else send "GET" "/" req.

Definition secret_checkConnection (secret : Secret) : M S unit :=
  if bool_decide (map_get (labels_of secret) integrationSecretTypeLabel = "registry") then checkRegistry secret
  else check_request "" "http status code " (typed_request secret).
End Connection.

(** ** The controller *)

Definition updateConnectionAnnotation (reachable : bool) (errMess : string) : M Secret unit :=
  secret <- get ;;
  let ann := secret_annotations secret in
  if negb (bool_decide (map_get ann integrationSecretConnectionAnnotation = FormatBool reachable))
     || negb (bool_decide (map_get ann integrationSecretConnectionAnnotation = errMess))
  then
    let ann1 := delete integrationSecretErrorAnnotation
      (<[integrationSecretConnectionAnnotation := FormatBool reachable]> ann) in
    let ann2 := if bool_decide (errMess = "") then ann1
                else <[integrationSecretErrorAnnotation := errMess]> ann1 in
    put (with_annotations ann2 secret) ;;;
    update_self KSecret ?> "failed to update Secret: "
  else ret tt.

Section Controller.
Context {X : Externals}.

Definition serve_secret : M Secret Result :=
  secret <- get ;;
  checked <- attempt (secret_checkConnection secret) ;;
  let reachable := match checked with inl _ => true | inr _ => false end in
  let errMess := match checked with inl _ => "" | inr err => "connection failed: " +:+ err_msg err end in
  updateConnectionAnnotation reachable errMess ;;;
  ret {| RequeueAfter := if reachable then successConnectionRequeueTime else failConnectionRequeueTime |}.

Definition ReconcileIntegrationSecret (request : ObjectKey) : M Secret Result :=
  fetched <- attempt (do_res (CKube (KGet KSecret request))) ;;
  match fetched with
  | inr err => if IsNotFound err then ret no_result else throw (EWrap "failed to get Secret: " err)
  | inl secret => put secret ;;; serve_secret
  end.
End Controller.

Definition hasIntegrationSecretLabelLabel (object : Secret) : bool :=
  bool_decide (map_get (labels_of object) integrationSecretLabel = "true").

(** ** What a reconciliation does *)

(** The secret that was fetched, the outcome of the request, and the number of updates. *)
Record secret_view := { sv_secret : option Secret; sv_response : option (res HttpResponse); sv_updates : nat }.

Definition view_step (g : secret_view) : ∀ R, call R → R → secret_view := λ R c,
  match c in call R return R → secret_view with
  | CHttp _ => λ r, {| sv_secret := sv_secret g; sv_response := Some r; sv_updates := sv_updates g |}
  | CKube kc => match kc in kube_call R return R → secret_view with
    | KGet k _ => match k in kind V return res V → secret_view with
      | KSecret => λ r, match r with
        | Ok s => {| sv_secret := Some s; sv_response := sv_response g; sv_updates := sv_updates g |}
        | _ => g
        end
      | _ => λ _, g
      end
    | KUpdate _ _ => λ _, {| sv_secret := sv_secret g; sv_response := sv_response g; sv_updates := S (sv_updates g) |}
    | _ => λ _, g
    end
  | _ => λ _, g
  end.

(** The request succeeded. *)
Definition answered (g : secret_view) : bool :=
  match sv_response g with Some (Ok resp) => rs_IsSuccess resp | _ => false end.

(** The request of a registry's secret: to one of its registries, over https, with the
    credentials of that registry. *)
Definition registry_request (s : Secret) (rq : HttpRequest) : Prop :=
  ∃ auths url auth, parse_json (map_get (sec_Data s) ".dockerconfigjson") ≫= decode_registry = Some auths
    ∧ auths !! url = Some auth
    ∧ has_prefix "https://" (rq_BaseURL rq) = true
    ∧ (rq_BaseURL rq = url ∨ rq_BaseURL rq = "https://" +:+ url
       ∨ url = "https://index.docker.io/v1/" ∧ rq_BaseURL rq = "https://hub.docker.com")
    ∧ (rq_BasicAuth rq = Some (ra_Username auth, ra_Password auth)
       ∨ rq_AuthToken rq = Some (base64_encode (ra_Password auth))
       ∨ rq_Body rq = [("username", ra_Username auth); ("password", ra_Password auth)]).

Definition own_request (s : Secret) (rq : HttpRequest) : Prop :=
  if bool_decide (map_get (labels_of s) integrationSecretTypeLabel = "registry")
  then registry_request s rq
  else rq_BaseURL rq = map_get (sec_Data s) "url" ∧ rq_Method rq = "GET" ∧ rq_Body rq = [].

(** The annotations say what the request came to; nothing else of the secret changes. *)
Definition annotated (g : secret_view) (s o : Secret) : Prop :=
  sec_Data o = sec_Data s
  ∧ set_Annotations (secret_annotations s) (sec_Meta o) = sec_Meta s
  ∧ secret_annotations o !! integrationSecretConnectionAnnotation = Some (FormatBool (answered g))
  ∧ (if answered g then secret_annotations o !! integrationSecretErrorAnnotation = None
     else ∃ msg, secret_annotations o !! integrationSecretErrorAnnotation = Some ("connection failed: " +:+ msg))
  ∧ ∀ k, k ≠ integrationSecretConnectionAnnotation → k ≠ integrationSecretErrorAnnotation →
      secret_annotations o !! k = secret_annotations s !! k.

Definition secret_guar (g : secret_view) : ∀ R, call R → Prop := λ R c,
  match c with
  | CHttp rq => sv_response g = None ∧ ∃ s, sv_secret g = Some s ∧ own_request s rq
  | CKube kc => match kc with
    | @KGet V k _ => match k in kind V return Prop with KSecret => True | _ => False end
    | @KUpdate V k o => match k in kind V return V → Prop with
      | KSecret => λ o, sv_updates g = 0 ∧ ∃ s, sv_secret g = Some s ∧ annotated g s o
      | _ => λ _, False
      end o
    | _ => False
    end
  | CSys (RangeMap _) => True
  | _ => False
  end.

(** A map is ranged over in an order of its keys. *)
Definition secret_rely : ∀ R, call R → R → Prop := λ R c,
  match c in call R return R → Prop with
  | CSys sc => match sc in sys_call R return R → Prop with
    | RangeMap keys => λ r, Permutation keys r
    | _ => λ _, True
    end
  | _ => λ _, True
  end.
Definition secret_monitor : monitor secret_view :=
  {| rely _ := secret_rely; guar := secret_guar; step := view_step |}.

(** ** Lemmas *)

Section Lemmas.
Context {X : Externals}.

(** The outcome of the check: at most one request, and success exactly when it was answered. *)
Definition check_post (s0 : Secret) (r : res unit) (s' : Secret) (g' : secret_view) : Prop :=
  s' = s0 ∧ sv_secret g' = Some s0 ∧ sv_updates g' = 0 ∧ (answered g' = true ↔ r = Ok tt).

Definition unasked (s : Secret) (g : secret_view) : Prop :=
  sv_secret g = Some s ∧ sv_response g = None ∧ sv_updates g = 0.

Lemma wp_check_request prefix status rq s g :
  unasked s g → own_request s rq →
  wp secret_monitor (check_request prefix status rq) s g (check_post s).
Proof.
  intros (Hs&Hr&Hu) Hrq. unfold check_request. wp_to_call. wp_step; [split; [done|by exists s]|].
  intros [resp|e|w] _; cbv beta iota.
  - destruct (rs_IsSuccess resp) eqn:Hok; cbn [negb]; wp_step; split_and!; try done; cbn; by rewrite Hok.
  - wp_step. by split_and!.
  - by split_and!.
Qed.

Lemma unasked_failed s g (r : res unit) : unasked s g → r ≠ Ok tt → check_post s r s g.
Proof. intros (Hs&Hr&Hu) Hne. split_and!; [done..|]. unfold answered. by rewrite Hr. Qed.

Lemma wp_check_registry_auth url auth auths s g :
  unasked s g → map_get (labels_of s) integrationSecretTypeLabel = "registry" →
  parse_json (map_get (sec_Data s) ".dockerconfigjson") ≫= decode_registry = Some auths →
  auths !! url = Some auth →
  wp secret_monitor (check_registry_auth url auth) s g (check_post s).
Proof.
  intros Hg Hty Hdec Hurl. unfold check_registry_auth.
  assert (Hown : ∀ rq, registry_request s rq → own_request s rq) by (intros rq; unfold own_request; by rewrite bool_decide_true).
  destruct (decide (url = "https://index.docker.io/v1/")) as [->|Hhub];
    [rewrite bool_decide_true by done|rewrite bool_decide_false by done].
  - apply wp_check_request; [done|]. apply Hown. eexists auths, _, auth. split_and!; [done..| |]; auto.
  - set (url' := if has_prefix "https://" url then url else "https://" +:+ url).
    assert (Hurl' : has_prefix "https://" url' = true) by (unfold url'; by destruct (has_prefix _ url) eqn:?).
    assert (Hbase : url' = url ∨ url' = "https://" +:+ url) by (unfold url'; destruct (has_prefix _ url); auto).
    cbv zeta. destruct (has_prefix "https://ghcr.io" url'); apply wp_check_request; try done; apply Hown;
      exists auths, url, auth; cbn; naive_solver.
Qed.

Lemma wp_secret_checkConnection s g :
  unasked s g → wp secret_monitor (secret_checkConnection s) s g (check_post s).
Proof.
  intros Hg. unfold secret_checkConnection. case_bool_decide as Hty.
  - unfold checkRegistry. destruct (bool_decide (String.length _ = 0)); [wp_step; by apply unasked_failed|].
    destruct (parse_json _ ≫= decode_registry) as [auths|] eqn:Hdec; [|wp_step; by apply unasked_failed].
    apply wp_bind. unfold sys. wp_step; [done|]. intros keys Hkeys. cbn in Hkeys. cbv beta iota.
    destruct keys as [|url keys]; [wp_step; by apply unasked_failed|].
    assert (Hin : url ∈ map fst (map_to_list auths)) by (rewrite Hkeys; set_solver).
    apply list_elem_of_fmap in Hin as ([url' auth]&->&Hin). apply elem_of_map_to_list in Hin. cbn [fst].
    rewrite Hin. by eapply wp_check_registry_auth.
  - apply wp_check_request; [done|]. unfold own_request. rewrite bool_decide_false by done.
    unfold typed_request, newRequestWithAuth.
    repeat case_bool_decide; try done. by destruct (sec_Data s !! "username").
Qed.

Lemma wp_updateConnectionAnnotation s g reachable msg :
  sv_secret g = Some s → sv_updates g = 0 → answered g = reachable →
  wp secret_monitor (updateConnectionAnnotation reachable
      (if reachable then "" else "connection failed: " +:+ msg)) s g
    (λ r s' g', answered g' = reachable ∧ sv_updates g' = 1).
Proof.
  intros Hs Hu Ha. unfold updateConnectionAnnotation. apply wp_bind, wp_get. cbv beta iota zeta.
  set (errMess := if reachable then "" else "connection failed: " +:+ msg).
  assert (Hne : FormatBool reachable ≠ errMess) by (subst errMess; by destruct reachable).
  set (ann := secret_annotations s).
  destruct (negb (bool_decide (map_get ann integrationSecretConnectionAnnotation = FormatBool reachable)) || _) eqn:Hc.
  2: { apply orb_false_iff in Hc as [H1 H2]. apply negb_false_iff, bool_decide_eq_true in H1, H2. congruence. }
  wp_to_call. wp_step.
  - split; [done|]. exists s. split; [done|]. unfold annotated. rewrite Ha.
    assert (Hmeta : ∀ a, secret_annotations (with_annotations a s) = a) by done.
    rewrite !Hmeta. fold ann. clear Hc. split_and!; [done|by destruct s as [[] d]|..].
    + case_bool_decide; rewrite ?lookup_insert_ne, lookup_delete_ne, lookup_insert by done; by rewrite decide_True.
    + subst errMess. destruct reachable.
      * by rewrite bool_decide_true, lookup_delete, decide_True by done.
      * exists msg. by rewrite bool_decide_false, lookup_insert, decide_True by done.
    + intros k Hk1 Hk2. by case_bool_decide; rewrite ?lookup_insert_ne, lookup_delete_ne, lookup_insert_ne by done.
  - intros [o|e|w] _; repeat (wp_step; cbv beta iota); (split; [exact Ha|cbn; by rewrite Hu]).
Qed.

Lemma wp_serve_secret s g :
  unasked s g →
  wp secret_monitor serve_secret s g (λ r _ g', ∀ res, r = Ok res → sv_updates g' = 1
    ∧ res = {| RequeueAfter := if answered g' then successConnectionRequeueTime else failConnectionRequeueTime |}).
Proof.
  intros Hg. unfold serve_secret. apply wp_bind, wp_get. cbv beta iota.
  apply wp_bind, wp_attempt. eapply wp_mono; [by apply wp_secret_checkConnection|].
  intros r s1 g1 (->&Hs&Hu&Ha).
  assert (Hupdate : ∀ reachable msg, answered g1 = reachable →
    wp secret_monitor (updateConnectionAnnotation reachable (if reachable then "" else "connection failed: " +:+ msg) ;;;
      ret {| RequeueAfter := if reachable then successConnectionRequeueTime else failConnectionRequeueTime |}) s g1
      (λ r _ g', ∀ res, r = Ok res → sv_updates g' = 1
        ∧ res = {| RequeueAfter := if answered g' then successConnectionRequeueTime else failConnectionRequeueTime |})).
  { intros reachable msg Hr. apply wp_bind. eapply wp_mono; [by apply wp_updateConnectionAnnotation|].
    intros [[]|e|w] s2 g2 [Ha2 Hu2]; [|done..]. wp_step. intros res [= <-]. by rewrite Ha2. }
  destruct r as [[]|e|w]; cbv beta iota zeta; [| |done].
  - apply (Hupdate true ""). by apply Ha.
  - apply (Hupdate false (err_msg e)). apply not_true_iff_false. rewrite Ha. done.
Qed.
End Lemmas.

