(* ===== verification/Schema.v ===== *)
(** * Schema: everything the operator writes has the types of its CRDs

    The custom resource definitions ([src/config/crd/bases], generated from the markers in
    [src/api/v1]) type more than Go does: enumerations, unique condition types, required
    results. This file reads them as predicates on objects and gives every handler a type in
    the style of a program logic: from stored objects that have their types, every write has its
    type. *)

From S2P Require Import Prelude GoStd Json Api Effects Urls Externals Host Simulation.
From S2P Require Import CodebaseCommon PutProject CodebaseChain CodebaseController.
From S2P Require Import BranchLabels BranchChain BranchController DeploymentUsage StaleCheck.
From S2P Require Import StageDeploy ImageStreamDeploy GitServerController Jira JiraMetadata IntegrationSecret.

(** ** The schemas *)

Definition result_ok (r : string) : Prop := r ∈ [Success; Error].
Definition int64_ok (z : Z) : Prop := (- 2 ^ 63 ≤ z < 2 ^ 63)%Z.
(** [listMapKey=type] and the enumeration of a condition's status *)
Definition conditions_ok (l : list Condition) : Prop :=
  NoDup (map cond_Type l) ∧ ∀ c, c ∈ l → cond_Status c ∈ ["True"; "False"; "Unknown"].

Definition spec_ok {O} (k : kind O) : O → Prop :=
  match k with
  | KCodebase => λ c, cs_Strategy (c_Spec c) ∈ [Create; Clone; Import]
      ∧ cs_CiTool (c_Spec c) ∈ [CITekton; CIGitLab]
  | KGitServer => λ g, gs_GitProvider (g_Spec g)
      ∈ [GitProviderGerrit; GitProviderGitlab; GitProviderGithub; GitProviderBitbucket]
  | _ => λ _, True
  end.

Definition status_ok {O} (k : kind O) : O → Prop :=
  match k with
  | KCodebase => λ c, result_ok (cst_Result (c_Status c)) ∧ int64_ok (cst_FailureCount (c_Status c))
  | KCodebaseBranch => λ b, result_ok (bst_Result (b_Status b))
      ∧ int64_ok (bst_FailureCount (b_Status b)) ∧ conditions_ok (bst_Conditions (b_Status b))
  | KCDStageDeploy => λ d, dst_Status (d_Status d)
      ∈ [CDStageDeployStatusFailed; CDStageDeployStatusRunning; CDStageDeployStatusPending;
         CDStageDeployStatusCompleted; CDStageDeployStatusInQueue]
  | KJiraIssueMetadata => λ m, int64_ok (jmt_FailureCount (m_Status m))
  | _ => λ _, True
  end.

(** An object whose status was never written has none; Go reads that as zero values. *)
Definition blank {O} (k : kind O) : O → Prop :=
  match k with
  | KCodebase => λ c, c_Status c = zero_codebase_status
  | KCodebaseBranch => λ b, b_Status b = zero_branch_status
  | _ => λ _, False
  end.
Definition stored {O} (k : kind O) (o : O) : Prop := spec_ok k o ∧ (status_ok k o ∨ blank k o).

Definition same_status {O} (k : kind O) : O → O → Prop :=
  match k with
  | KCodebase => λ o o', c_Status o' = c_Status o
  | KCodebaseBranch => λ o o', b_Status o' = b_Status o
  | _ => λ _ _, False
  end.

(** The API server stores only what has its type. A write of the object itself leaves the status
    alone: the answer has the stored one, or none, and then the client keeps the one it sent. *)
Definition schema_rely : ∀ R, call R → R → Prop := when_kube (λ R c,
  match c in kube_call R return R → Prop with
  | KGet k _ => λ r, match r with Ok o => stored k o | _ => True end
  | KList k _ _ => λ r, match r with Ok l => ∀ o, o ∈ l → stored k o | _ => True end
  | KUpdate k o => λ r, match r with
      | Ok o' => spec_ok k o' ∧ (status_ok k o' ∨ same_status k o o') | _ => True end
  | KPatch k _ o => λ r, match r with
      | Ok o' => spec_ok k o' ∧ (status_ok k o' ∨ same_status k o o') | _ => True end
  | KStatusUpdate k _ => λ r, match r with Ok o' => spec_ok k o' ∧ status_ok k o' | _ => True end
  | KStatusPatch k _ _ => λ r, match r with Ok o' => spec_ok k o' ∧ status_ok k o' | _ => True end
  | _ => λ _, True
  end).

(** The one status that the schema refuses: the error of a failed owner reference on a branch
    without a status, which has no result. *)
Definition unrecordable {O} (k : kind O) : O → Prop :=
  match k with
  | KCodebaseBranch => λ b, bst_Result (b_Status b) = "" ∧ bst_Status (b_Status b) = errorStatus
      ∧ bst_Git (b_Status b) ≠ CodebaseBranchGitStatusBranchCreated
  | _ => λ _, False
  end.

Definition schema_guar : ∀ R, call R → Prop := guard_kube (λ R c,
  match c with
  | KCreate k o => spec_ok k o
  | KUpdate k o => spec_ok k o
  | KPatch k _ o => spec_ok k o
  | KStatusUpdate k o => status_ok k o ∨ unrecordable k o
  | KStatusPatch k _ o => status_ok k o
  | _ => True
  end).

Definition schema_monitor : monitor unit :=
  {| rely _ := schema_rely; guar _ := schema_guar; step _ _ _ _ := tt |}.

(** A handler whose object has type [T] before and after. *)
#[local] Abbreviation types T h := (keeps schema_monitor (λ s _, T s) h).

(** [wp_keeps] for a type *)
Lemma wp_types {S A} (T : S → Prop) (h : M S A) s g (Q : res A → S → unit → Prop) :
  types T h → T s → (∀ r s g, T s → Q r s g) → wp schema_monitor h s g Q.
Proof. intros Hh Hs HQ. by apply (wp_keeps _ (λ s _, T s)). Qed.

Lemma int64_range z : int64_ok (int64 z).
Proof. unfold int64_ok, int64. pose proof (Z.mod_pos_bound (z + 2 ^ 63) (2 ^ 64)). lia. Qed.

(** ** Codebases

    A codebase in hand has its spec; once [settled], its status has a result too. *)

Definition codebase_ok (settled : bool) (c : Codebase) : Prop :=
  spec_ok KCodebase c ∧ int64_ok (cst_FailureCount (c_Status c))
  ∧ (settled = true → result_ok (cst_Result (c_Status c))).

Lemma stored_codebase c : stored KCodebase c → codebase_ok false c.
Proof. intros [Hs [[Hr Hf]|Hb]]; cbn in *; (split; [done|]); [done|]. by rewrite Hb. Qed.

Lemma settled_codebase b c : codebase_ok true c → codebase_ok b c.
Proof. intros (?&?&?). split_and!; auto. Qed.

Lemma codebase_written b c : spec_ok KCodebase c ∧ status_ok KCodebase c → codebase_ok b c.
Proof. intros (?&?&?). by split_and!. Qed.
Lemma codebase_answered b c c' :
  codebase_ok b c → spec_ok KCodebase c' ∧ (status_ok KCodebase c' ∨ same_status KCodebase c c') →
  codebase_ok b c'.
Proof. intros (?&?&?) [? [[]|Hs]]; [by split_and!|]. cbn in Hs. split; [done|]. by rewrite Hs. Qed.

Lemma types_codebase_update b : types (codebase_ok b) (update_self KCodebase).
Proof.
  intros c g H. unfold update_self. wp_to_call. wp_step; [by destruct H|].
  intros [c'|e|w] Hr; wp_go. by apply (codebase_answered b c).
Qed.
Lemma types_codebase_patch b orig : types (codebase_ok b) (patch_self KCodebase orig).
Proof.
  intros c g H. unfold patch_self. wp_to_call. wp_step; [by destruct H|].
  intros [c'|e|w] Hr; wp_go. by apply (codebase_answered b c).
Qed.
Lemma types_codebase_status : types (codebase_ok true) (status_update_self KCodebase).
Proof.
  intros c g H. unfold status_update_self. wp_to_call. wp_step; [left; destruct H as (?&?&?); by split; auto|].
  intros [c'|e|w] Hr; wp_go. by apply codebase_written.
Qed.
Lemma types_codebase_status_patch orig : types (codebase_ok true) (status_patch_self KCodebase orig).
Proof.
  intros c g H. unfold status_patch_self. wp_to_call. wp_step; [destruct H as (?&?&?); by split; auto|].
  intros [c'|e|w] Hr; wp_go. by apply codebase_written.
Qed.
#[local] Hint Resolve types_codebase_update types_codebase_patch types_codebase_status
  types_codebase_status_patch : keeps.

Definition settles {A} (h : M Codebase A) : Prop :=
  ∀ c g, codebase_ok false c → wp schema_monitor h c g (λ _ c' _, codebase_ok true c').

Lemma settles_types {A} (h : M Codebase A) : settles h → types (codebase_ok true) h.
Proof. intros H c g Hc. by apply H, settled_codebase. Qed.

Lemma settles_fail a m : settles (fail_codebase a m).
Proof.
  intros c g (?&?&?). unfold fail_codebase. wp_to_call. wp_step; [done|]. intros t _. wp_step.
  split_and!; [done|done|]. intros _. by right; left.
Qed.
Lemma settles_error {A} a e : settles (processCodebaseError (A:=A) a e).
Proof.
  intros c g H. unfold processCodebaseError. wp_step. eapply wp_mono; [by apply settles_fail|].
  intros [[]|?|?] c' g' Hc; [by wp_step|done|done].
Qed.
Lemma settles_intermediate a : settles (setIntermediateSuccessFields a).
Proof.
  intros c g (?&?&?). unfold setIntermediateSuccessFields. wp_step. unfold now. wp_step; [done|].
  intros t _. wp_step. wp_step. wp_step. wp_step. wp_step.
  eapply wp_types; [apply types_codebase_status|split_and!; [done|done|intros _; by left]|].
  intros [[]|e|w] c' g' Hc; [done|by wp_step|done].
Qed.

Lemma types_fail b a m : types (codebase_ok b) (fail_codebase a m).
Proof.
  intros c g (?&?&?). eapply wp_mono; [apply settles_fail; by split_and!|]. intros. by apply settled_codebase.
Qed.
Lemma types_intermediate a : types (codebase_ok true) (setIntermediateSuccessFields a).
Proof. apply settles_types, settles_intermediate. Qed.

(** Changes of other fields *)
Lemma types_set_Git b s : types (codebase_ok b) (modify (λ c, c_with_status (set_Git s (c_Status c)) c)).
Proof. apply keeps_modify. by intros c g (?&?&?). Qed.
Lemma types_set_GitWebUrl b u :
  types (codebase_ok b) (modify (λ c, c_with_status (set_GitWebUrl u (c_Status c)) c)).
Proof. apply keeps_modify. by intros c g (?&?&?). Qed.
Lemma types_set_WebHookRef b r :
  types (codebase_ok b) (modify (λ c, c_with_status (set_WebHookRef r (c_Status c)) c)).
Proof. apply keeps_modify. by intros c g (?&?&?). Qed.
#[local] Hint Resolve types_fail types_intermediate types_set_Git types_set_GitWebUrl
  types_set_WebHookRef : keeps.

(** The first handler settles the status, whether it fails or not (when it panics the
    reconciliation is over); the others keep it so. *)
Definition ended {A} (r : res A) : bool := match r with Panic _ => false | _ => true end.

Lemma settles_PutGitWebRepoUrl c g :
  codebase_ok false c →
  wp schema_monitor PutGitWebRepoUrl_ServeRequest c g (λ r c' _, codebase_ok (ended r) c').
Proof.
  intros H. unfold PutGitWebRepoUrl_ServeRequest. wp_step. wp_step. wp_step. wp_step.
  apply (wp_types (codebase_ok false)); [keeps_go|done|]. intros [gs|e|w] c1 g1 H1; [|by apply settles_error|done].
  wp_step. wp_step. apply (wp_types (codebase_ok false)); [keeps_go|done|].
  intros [url|e|w] c2 g2 H2; [|by apply settles_error|done].
  wp_step. wp_step. wp_step. eapply wp_mono; [by apply settles_intermediate|].
  intros [[]|e|w] c3 g3 H3; [done|by wp_step|by apply settled_codebase].
Qed.

Lemma types_later_handlers :
  types (codebase_ok true) (chain_ServeRequest (tail MakeChain)).
Proof. unfold MakeChain, tail. keeps_go. Qed.

Lemma types_MakeChain c g :
  codebase_ok false c →
  wp schema_monitor (chain_ServeRequest MakeChain) c g (λ r c' _, codebase_ok (ended r) c').
Proof.
  intros H. change MakeChain with (PutGitWebRepoUrl_ServeRequest :: tail MakeChain).
  cbn [chain_ServeRequest]. wp_step. wp_step. eapply wp_mono; [by apply settles_PutGitWebRepoUrl|].
  intros [[]|e|w] c1 g1 H1; [|by wp_step|done].
  apply (wp_types (codebase_ok true)); [apply types_later_handlers|done|]. intros r c2 g2 H2.
  by apply settled_codebase.
Qed.

Lemma types_deletion_chain b : types (codebase_ok b) (chain_ServeRequest MakeDeletionChain).
Proof. unfold MakeDeletionChain. keeps_go. Qed.

Lemma types_finish : types (codebase_ok true) updateFinishStatus.
Proof.
  intros c g (?&?&?). unfold updateFinishStatus. wp_to_call. wp_step; [done|]. intros t _.
  do 3 wp_step. apply (wp_types (codebase_ok true)); [apply types_codebase_status| |].
  - split_and!; [done|done|intros _; by left].
  - intros [[]|e|w] c' g' Hc; [done|by wp_step|done].
Qed.

Section Handlers.
Context {X : Externals}.

Lemma types_failure_count : types (codebase_ok true) setFailureCount.
Proof.
  assert (H : types (codebase_ok true) (modify (λ c, c_with_status (incr_FailureCount (c_Status c)) c))).
  { apply keeps_modify. intros c g (?&?&?). split_and!; [done|apply int64_range|done]. }
  unfold setFailureCount. keeps_go.
Qed.

Lemma types_serve_codebase : types (codebase_ok false) serve_codebase.
Proof.
  intros c g H. unfold serve_codebase. wp_step. wp_step. eapply wp_mono; [by apply types_MakeChain|].
  intros [[]|e|w] c1 g1 H1; [| |done].
  - apply (wp_types (codebase_ok true)); [|done|by intros; apply settled_codebase].
    pose proof types_finish. keeps_go; done.
  - apply (wp_types (codebase_ok true)); [|done|by intros; apply settled_codebase].
    pose proof types_failure_count. keeps_go; done.
Qed.

(** Metadata and the strings that modifiers trim are not typed. *)
Lemma types_finalizers b : types (codebase_ok b) setFinalizers.
Proof.
  intros c g H. unfold setFinalizers. wp_step. wp_step. wp_step; [by wp_step|].
  destruct (AddFinalizer _ _) as [a1 m1]. destruct (AddFinalizer _ m1) as [a2 m2].
  wp_step. wp_step. apply (wp_types (codebase_ok b)); [keeps_go|done|done].
Qed.

Lemma types_labels b : types (codebase_ok b) initLabels.
Proof.
  intros c g H. unfold initLabels. wp_step. wp_step. destruct (wanted_labels c) as [labels ch].
  wp_step; [by wp_step|]. wp_step. wp_step. apply (wp_types (codebase_ok b)); [keeps_go|done|done].
Qed.

Lemma types_delete b : types (codebase_ok b) tryToDeleteCodebase.
Proof.
  pose proof types_deletion_chain. unfold tryToDeleteCodebase. keeps_go.
Qed.

Lemma types_Apply b : types (codebase_ok b) Apply.
Proof.
  intros c g H. unfold Apply. wp_step. wp_step. wp_step. wp_step.
  destruct (apply_modifiers modifiers false c) as [[patch c']|e|w] eqn:Ha; [|done|done].
  assert (codebase_ok b c') as H'.
  { destruct H as (?&?&?).
    unfold modifiers, apply_modifiers, trimCodebaseGitSuffix, addCodebaseGitSuffix in Ha.
    repeat (case_match; cbn in Ha; try done); simplify_eq; by split_and!. }
  wp_step. wp_step. apply (wp_types (codebase_ok b)); [keeps_go|done|done].
Qed.

Lemma types_Reconcile request c g :
  wp schema_monitor (Reconcile request) c g (λ _ _ _, True).
Proof.
  unfold Reconcile. wp_step. wp_step. wp_step; [done|]. intros [c0|e|w] Hr; [|by wp_go|done].
  wp_step. wp_step. apply stored_codebase in Hr.
  apply (wp_types (codebase_ok false)); [|done|done].
  pose proof (types_Apply false). pose proof (types_finalizers false). pose proof (types_labels false).
  pose proof (types_delete false). pose proof types_serve_codebase. keeps_go; done.
Qed.
End Handlers.

(** ** Branches

    A branch that was never reconciled has no result; then it is not created in git. *)

Definition branch_ok (settled : bool) (b : CodebaseBranch) : Prop :=
  int64_ok (bst_FailureCount (b_Status b)) ∧ conditions_ok (bst_Conditions (b_Status b))
  ∧ (result_ok (bst_Result (b_Status b))
     ∨ settled = false ∧ bst_Result (b_Status b) = ""
       ∧ bst_Git (b_Status b) ≠ CodebaseBranchGitStatusBranchCreated).

Lemma no_conditions : conditions_ok [].
Proof. split; [constructor|]. by intros c ?%elem_of_nil. Qed.

Lemma stored_branch b : stored KCodebaseBranch b → branch_ok false b.
Proof.
  intros [_ [(?&?&?)|Hb]]; [by split_and!; auto|]. cbn in Hb. unfold branch_ok. rewrite Hb.
  split; [done|]. split; [apply no_conditions|]. by right.
Qed.
Lemma stored_conditions b : stored KCodebaseBranch b → conditions_ok (bst_Conditions (b_Status b)).
Proof. intros H. by apply stored_branch in H as (?&?&?). Qed.
Lemma settled_branch s b : branch_ok true b → branch_ok s b.
Proof. intros (?&?&[?|[? ?]]); [|done]. by split_and!; auto. Qed.
Lemma settled_status b : branch_ok true b ↔ status_ok KCodebaseBranch b.
Proof.
  split; [intros (?&?&[?|[? ?]]); [by split_and!|done]|]. intros (?&?&?). by split_and!; auto.
Qed.

Lemma branch_answered s b b' :
  branch_ok s b → spec_ok KCodebaseBranch b' ∧ (status_ok KCodebaseBranch b' ∨ same_status KCodebaseBranch b b') →
  branch_ok s b'.
Proof.
  intros H [_ [Hs|Hs]]; [by apply settled_branch, settled_status|]. cbn in Hs.
  unfold branch_ok in *. by rewrite Hs.
Qed.

Lemma types_branch_update s : types (branch_ok s) (update_self KCodebaseBranch).
Proof.
  intros b g H. unfold update_self. wp_to_call. wp_step; [done|].
  intros [b'|e|w] Hr; wp_go. by apply (branch_answered s b).
Qed.
Lemma types_branch_patch s orig : types (branch_ok s) (patch_self KCodebaseBranch orig).
Proof.
  intros b g H. unfold patch_self. wp_to_call. wp_step; [done|].
  intros [b'|e|w] Hr; wp_go. by apply (branch_answered s b).
Qed.
Lemma types_branch_status : types (branch_ok true) (status_update_self KCodebaseBranch).
Proof.
  intros b g H. unfold status_update_self. wp_to_call. wp_step; [left; by apply settled_status|].
  intros [b'|e|w] Hr; wp_go. by apply settled_status, Hr.
Qed.
Lemma types_branch_status_patch orig : types (branch_ok true) (status_patch_self KCodebaseBranch orig).
Proof.
  intros b g H. unfold status_patch_self. wp_to_call. wp_step; [by apply settled_status|].
  intros [b'|e|w] Hr; wp_go. by apply settled_status, Hr.
Qed.

(** Changes that keep the result, the conditions and the range of the counter. *)
Lemma types_branch_modify s f :
  (∀ st, bst_Result (f st) = bst_Result st ∧ bst_Git (f st) = bst_Git st
    ∧ bst_Conditions (f st) = bst_Conditions st
    ∧ (int64_ok (bst_FailureCount st) → int64_ok (bst_FailureCount (f st)))) →
  types (branch_ok s) (update_branch_status f).
Proof.
  intros Hf. apply keeps_modify. intros b g (H1&H2&H3). destruct (Hf (b_Status b)) as (Hr&Hg&Hc&Hi).
  unfold branch_ok. cbn. rewrite Hr, Hg, Hc. auto.
Qed.
(** Changes that set the result. *)
Lemma branch_set s f b :
  (∀ st, result_ok (bst_Result (f st)) ∧ bst_Conditions (f st) = bst_Conditions st
    ∧ (int64_ok (bst_FailureCount st) → int64_ok (bst_FailureCount (f st)))) →
  branch_ok s b → branch_ok true (b_with_status (f (b_Status b)) b).
Proof.
  intros Hf (?&?&_). destruct (Hf (b_Status b)) as (Hr&Hc&Hi). unfold branch_ok. cbn. rewrite Hc. auto.
Qed.
Lemma set_failed s a m t b : branch_ok s b → branch_ok true (b_with_status (failed_status a m t (b_Status b)) b).
Proof. apply branch_set. intros st. split; [by right; left|by split]. Qed.
Lemma set_cis_failed s a m t b :
  branch_ok s b → branch_ok true (b_with_status (cis_failed_status a m t (b_Status b)) b).
Proof. apply branch_set. intros st. split; [by right; left|by split]. Qed.
Lemma set_intermediate s a t b :
  branch_ok s b → branch_ok true (b_with_status (branch_intermediate_status a t (b_Status b)) b).
Proof. apply branch_set. intros st. split; [by left|by split]. Qed.
Lemma set_cis_intermediate s a t b :
  branch_ok s b → branch_ok true (b_with_status (cis_intermediate_status a t (b_Status b)) b).
Proof. apply branch_set. intros st. split; [by left|by split]. Qed.
Lemma set_success s a t b :
  branch_ok s b → branch_ok true (b_with_status (success_status a t (b_Status b)) b).
Proof. apply branch_set. intros st. split; [by left|by split]. Qed.

Lemma types_set_branch_Git s : types (branch_ok true) (update_branch_status (set_branch_Git s)).
Proof. apply keeps_modify. intros b g (?&?&[?|[? ?]]); [|done]. by split_and!; auto. Qed.
#[local] Hint Resolve types_branch_update types_branch_patch types_branch_status
  types_branch_status_patch types_set_branch_Git : keeps.

Lemma types_branch_fail m : types (branch_ok true) (putGitBranchSetFailedFields m).
Proof. unfold putGitBranchSetFailedFields. keeps_go. intros b g. apply set_failed. Qed.
Lemma types_cis_fail a m : types (branch_ok true) (cis_setFailedFields a m).
Proof. unfold cis_setFailedFields. keeps_go. intros b g. apply set_cis_failed. Qed.
Lemma types_cis_intermediate a :
  types (branch_ok true) (PutCodebaseImageStream_setIntermediateSuccessFields a).
Proof.
  assert (H : ∀ t, types (branch_ok true) (update_branch_status (cis_intermediate_status a t))).
  { intros t. apply keeps_modify. intros b g. apply set_cis_intermediate. }
  unfold PutCodebaseImageStream_setIntermediateSuccessFields. keeps_go.
Qed.
Lemma types_append_version v : types (branch_ok true) (update_branch_status (append_version v)).
Proof. by apply types_branch_modify. Qed.
#[local] Hint Resolve types_branch_fail types_cis_fail types_cis_intermediate types_append_version : keeps.

Lemma settles_branch_intermediate a b g :
  branch_ok false b →
  wp schema_monitor (PutBranchInGit_setIntermediateSuccessFields a) b g (λ _ b' _, branch_ok true b').
Proof.
  intros H. unfold PutBranchInGit_setIntermediateSuccessFields, update_branch_status. wp_to_call. wp_step; [done|].
  intros t _. do 5 wp_step.
  apply (wp_types (branch_ok true)); [apply types_branch_status|by eapply set_intermediate|].
  intros [[]|e|w] b' g' Hb; [done|by wp_step|done].
Qed.

(** A check of the reference: a failure is recorded in the status. *)
Lemma wp_recorded_check {A} (h : M CodebaseBranch A) p b g :
  types (branch_ok false) h → branch_ok false b →
  wp schema_monitor (checked h p) b g (λ r b' _, branch_ok (match r with Err _ => true | _ => false end) b').
Proof.
  intros Hh H. unfold checked. wp_step. apply (wp_types (branch_ok false)); [done|done|].
  intros [a|e|w] b1 g1 H1; [done| |done]. wp_step. unfold processErr, update_branch_status. wp_to_call. wp_step; [done|].
  intros t _. do 3 wp_step. by eapply set_failed.
Qed.

Section Branches.
Context {X : Externals}.

Lemma types_create_branch : types (branch_ok true) create_branch_in_git.
Proof. unfold create_branch_in_git. keeps_go. Qed.

Lemma types_late_branch_handlers :
  types (branch_ok true) (ProcessNewVersion_ServeRequest (Some (PutCodebaseImageStream_ServeRequest None))).
Proof. keeps_go. Qed.

Definition reaches {A} (h : M CodebaseBranch A) : Prop :=
  ∀ b g, branch_ok false b → wp schema_monitor h b g (λ r b' _, branch_ok (ended r) b').

Lemma reaches_wrap {A} (h : M CodebaseBranch A) p : reaches h → reaches (h ?> p).
Proof.
  intros Hh b g H. wp_step. eapply wp_mono; [by apply Hh|]. intros [a|e|w] b' g' Hb; [done|by wp_step|done].
Qed.

Lemma reaches_PutBranchInGit next :
  types (branch_ok true) next → reaches (PutBranchInGit_ServeRequest (Some next)).
Proof.
  intros Hn b g H. unfold PutBranchInGit_ServeRequest.
  assert (types (branch_ok true) (PutBranchInGit_next (Some next))) as Hnext.
  { unfold PutBranchInGit_next, NextServeOrNil. keeps_go. }
  wp_step. wp_step. case_bool_decide as Hg.
  - apply (wp_types (branch_ok true)); [done| |by intros; apply settled_branch].
    destruct H as (?&?&[?|(_&_&Hne)]); [by split_and!; auto|by destruct Hne].
  - wp_step. eapply wp_mono; [by apply settles_branch_intermediate|].
    intros [[]|e|w] b1 g1 H1; [|done|by apply settled_branch].
    apply (wp_types (branch_ok true)); [|done|by intros; apply settled_branch].
    pose proof types_create_branch. keeps_go.
Qed.

Lemma reaches_CheckReference next :
  reaches next → reaches (CheckReferenceExists_ServeRequest (Some next)).
Proof.
  intros Hn b g H. unfold CheckReferenceExists_ServeRequest.
  assert (reaches (CheckReferenceExists_next (Some next))) as Hnext by (by do 2 apply reaches_wrap).
  wp_step. wp_step. wp_step; [by apply Hnext|]. wp_step; [by apply Hnext|]. cbn zeta.
  do 4 (wp_step; eapply wp_mono; [apply wp_recorded_check; [keeps_go|done]|];
    intros [?|?|?] ? ? ?; [|done|done]; clear H; rename select (branch_ok _ _) into H).
  by apply Hnext.
Qed.

Lemma reaches_GetChain : reaches GetChain.
Proof. apply reaches_CheckReference, reaches_PutBranchInGit, types_late_branch_handlers. Qed.

(** The status of the object in hand with the conditions of the one just read *)
Lemma wp_status_sent s b g (Q : res unit → CodebaseBranch → unit → Prop) :
  branch_ok s b → (s = true ∨ bst_Status (b_Status b) = errorStatus) →
  (∀ r, Q r b tt) → wp schema_monitor branch_updateStatus b g Q.
Proof.
  intros H Hs HQ. unfold branch_updateStatus. destruct g. wp_to_call. wp_step; [done|].
  intros [b'|e|w] Hr; [|by wp_step|done]. wp_step. wp_to_call. wp_step.
  - cbn in Hr. destruct (H) as (Hf&Hcs&[Hres|(->&Hres&Hg)]).
    + left. split; [done|]. split; [done|by apply (stored_conditions b')].
    + right. by destruct Hs.
  - intros [o|e|w] _; [by wp_step|by wp_step|done].
Qed.
Lemma types_branch_updateStatus : types (branch_ok true) branch_updateStatus.
Proof. intros b [] H. apply (wp_status_sent true); auto. Qed.

Lemma types_branch_failure_count s : types (branch_ok s) branch_setFailureCount.
Proof.
  assert (types (branch_ok s) (update_branch_status incr_branch_failures)).
  { apply types_branch_modify. intros st. do 3 (split; [done|]). intros _. apply int64_range. }
  unfold branch_setFailureCount. keeps_go.
Qed.

Lemma types_success_status a : types (branch_ok true) (setSuccessStatus a).
Proof.
  pose proof types_branch_updateStatus. unfold setSuccessStatus. keeps_go.
  intros b g. apply set_success.
Qed.

Lemma types_serve_branch c : types (branch_ok false) (serve_branch c).
Proof.
  intros b g H. unfold serve_branch. wp_step. wp_step. wp_step. wp_step.
  assert (branch_ok false (init_build c b)) as H0 by (unfold init_build; by case_match).
  eapply wp_mono; [by apply reaches_GetChain|]. intros r b1 g1 H1.
  destruct r as [[]|e|w]; [| |done];
    apply (wp_types (branch_ok true)); try done; try (intros; by apply settled_branch).
  - pose proof types_success_status. keeps_go.
  - pose proof (types_branch_failure_count true). pose proof types_branch_updateStatus. keeps_go.
Qed.

Lemma types_release ns name : types (branch_ok false) (RetryOnConflict (release_branch ns name)).
Proof.
  assert (types (branch_ok false) (release_branch ns name)) as Hr.
  { intros b g H. unfold release_branch. wp_to_call. wp_step; [done|].
    intros [b'|e|w] Hb; [|done|done]. wp_step. wp_step.
    apply (wp_types (branch_ok false)); [apply types_branch_update|by apply stored_branch in Hb|done]. }
  unfold RetryOnConflict. induction DefaultRetry_retries as [|n IH]; cbn [retry_loop]; [done|keeps_go].
Qed.

Lemma types_try_delete : types (branch_ok false) try_delete_branch.
Proof.
  assert (types (branch_ok false) (tryToDeleteCodebaseBranch GetDeletionChain)) as Hd.
  { intros b g H. unfold tryToDeleteCodebaseBranch. wp_step. wp_step. wp_step.
    - destruct (AddFinalizer _ _) as [added m]. wp_step. wp_step.
      apply (wp_types (branch_ok false)); [keeps_go|done|done].
    - wp_step. wp_step. unfold GetDeletionChain, empty_chain_ServeRequest. wp_step. cbn.
      apply (wp_types (branch_ok false)); [|done|done]. pose proof types_release. keeps_go. }
  unfold try_delete_branch. keeps_go.
Qed.

Lemma types_label name : types (branch_ok false) (AddCodebaseLabel name).
Proof.
  intros b g H. unfold AddCodebaseLabel. wp_step. wp_step. wp_step. wp_step. wp_step; [done|].
  intros order _. destruct (set_labels _ _ _ _) as [labels upd]. wp_step. wp_step.
  apply (wp_types (branch_ok false)); [keeps_go|done|done].
Qed.

Lemma types_default_values c : types (branch_ok false) (setDefaultValues c).
Proof.
  intros b g H. unfold setDefaultValues. wp_step. wp_step. wp_step; [by wp_step|]. wp_step; [by wp_step|].
  wp_to_call. wp_step; [done|]. intros [gs|e|w] _; [|by wp_step|done].
  wp_step; [by wp_step|]. destruct (set_default _ _ _) as [pipelines ch]. by do 3 wp_step.
Qed.

Lemma types_owner_ref c : types (branch_ok false) (setOwnerRef c).
Proof.
  intros b g H. unfold setOwnerRef. wp_step. wp_step. wp_step. wp_step. wp_step.
  destruct (SetControllerReference _ _ _) as [m|e|w]; by repeat wp_step.
Qed.

Lemma types_owner_failed err : types (branch_ok false) (owner_ref_failed err).
Proof.
  intros b [] H. unfold owner_ref_failed, BranchController.setErrorStatus, update_branch_status.
  do 6 wp_step. apply (wp_status_sent false); [by destruct H|by right|].
  intros [[]|e|w]; by repeat wp_step.
Qed.

Lemma types_ReconcileCodebaseBranch request b g :
  wp schema_monitor (ReconcileCodebaseBranch request) b g (λ _ _ _, True).
Proof.
  unfold ReconcileCodebaseBranch. wp_step. wp_step. wp_step; [done|]. intros [b0|e|w] Hr; [|by wp_go|done].
  wp_step. wp_step. apply stored_branch in Hr. apply (wp_types (branch_ok false)); [|done|done].
  pose proof types_try_delete. pose proof types_label. pose proof types_default_values.
  pose proof types_owner_ref. pose proof types_owner_failed. pose proof types_serve_branch. keeps_go.
Qed.
End Branches.

(** ** The other controllers *)

Section Others.
Context {X : Externals}.

Definition deploy_ok (d : CDStageDeploy) : Prop := status_ok KCDStageDeploy d.

Lemma types_deploy_status : types deploy_ok (status_update_self KCDStageDeploy).
Proof.
  intros d g H. unfold status_update_self. wp_to_call. wp_step; [by left|].
  intros [d'|e|w] Hr; wp_go. apply Hr.
Qed.
Lemma types_set_deploy s :
  s ∈ [CDStageDeployStatusFailed; CDStageDeployStatusRunning; CDStageDeployStatusPending;
       CDStageDeployStatusCompleted; CDStageDeployStatusInQueue] →
  types deploy_ok (modify (set_deploy_status s)).
Proof. intros Hs. by apply keeps_modify. Qed.
Lemma types_deploy_failed e : types deploy_ok (modify (SetFailedStatus e)).
Proof. apply keeps_modify. intros d g _. by left. Qed.

Lemma types_serve_deploy : types deploy_ok serve_deploy.
Proof.
  pose proof types_deploy_status. pose proof types_deploy_failed.
  pose proof (types_set_deploy CDStageDeployStatusRunning ltac:(set_solver)).
  pose proof (types_set_deploy CDStageDeployStatusPending ltac:(set_solver)).
  pose proof (types_set_deploy CDStageDeployStatusInQueue ltac:(set_solver)).
  pose proof (types_set_deploy CDStageDeployStatusCompleted ltac:(set_solver)).
  unfold serve_deploy, CreateChain. keeps_go.
Qed.
Lemma types_ReconcileCDStageDeploy request d g :
  wp schema_monitor (ReconcileCDStageDeploy request) d g (λ _ _ _, True).
Proof.
  unfold ReconcileCDStageDeploy. wp_step. wp_step. wp_step; [done|].
  intros [d0|e|w] Hr; [|by wp_go|done]. wp_step. wp_step. destruct Hr as [_ [Hr|[]]].
  apply (wp_types deploy_ok); [|done|done]. pose proof types_serve_deploy. keeps_go.
Qed.

(** Statuses without enumerations, and no statuses at all *)
Lemma types_untyped_status {O} (k : kind O) : (∀ o, status_ok k o) → types (λ _, True) (status_update_self k).
Proof.
  intros Hk o g _. unfold status_update_self. wp_to_call. wp_step; [by left|].
  intros [o'|e|w] Hr; by wp_go.
Qed.
Lemma types_ReconcileGitServer request : types (λ _, True) (ReconcileGitServer request).
Proof. pose proof (types_untyped_status KGitServer (λ _, I)). keeps_go. Qed.
Lemma types_ReconcileJiraServer request : types (λ _, True) (ReconcileJiraServer request).
Proof. pose proof (types_untyped_status KJiraServer (λ _, I)). keeps_go. Qed.
Lemma types_ReconcileCodebaseImageStream {S} request :
  types (λ _ : S, True) (ReconcileCodebaseImageStream request).
Proof. keeps_go. Qed.
Lemma types_ReconcileIntegrationSecret request : types (λ _, True) (ReconcileIntegrationSecret request).
Proof. keeps_go. Qed.

Definition metadata_ok (m : JiraIssueMetadata) : Prop := status_ok KJiraIssueMetadata m.
Lemma types_metadata_status : types metadata_ok (status_update_self KJiraIssueMetadata).
Proof.
  intros m g H. unfold status_update_self. wp_to_call. wp_step; [by left|].
  intros [m'|e|w] Hr; wp_go. apply Hr.
Qed.
Lemma types_metadata_update : types metadata_ok (update_self KJiraIssueMetadata).
Proof.
  intros m g H. unfold update_self. wp_to_call. wp_step; [done|].
  intros [m'|e|w] Hr; wp_go. by destruct Hr as [_ [Hr|[]]].
Qed.
Lemma types_metadata_count : types metadata_ok (modify incr_metadata_failures).
Proof. apply keeps_modify. intros m g _. apply int64_range. Qed.
Lemma types_metadata_modify f :
  (∀ m, jmt_FailureCount (m_Status (f m)) = jmt_FailureCount (m_Status m)) → types metadata_ok (modify f).
Proof. intros Hf. apply keeps_modify. intros m g. unfold metadata_ok. cbn. by rewrite Hf. Qed.
Lemma types_metadata_owner : types metadata_ok metadata_setOwnerRef.
Proof.
  intros m g H. unfold metadata_setOwnerRef. wp_to_call. wp_step; [done|].
  intros [c|e|w] _; [|by wp_step|done]. do 3 wp_step.
  destruct (SetControllerReference _ _ _) as [meta|e|w]; by repeat wp_step.
Qed.
Lemma types_project_info c tickets : types metadata_ok (getProjectInfo c tickets).
Proof. induction tickets as [|t tickets IH]; cbn [getProjectInfo]; keeps_go. Qed.
Lemma types_field_value c id metas k v : types metadata_ok (create_field_value c id metas k v).
Proof. unfold create_field_value, createApiMap. repeat case_bool_decide; keeps_go. Qed.
Lemma types_metadata_chain payload c :
  match JiraMetadata_CreateChain payload c with Ok ch => types metadata_ok ch | _ => True end.
Proof.
  unfold JiraMetadata_CreateChain. destruct (GetFieldsMap payload []) as [m|e|w]; [|done|done].
  pose proof (types_project_info c). pose proof (types_field_value c).
  destruct (_ && _); keeps_go; by apply types_metadata_modify.
Qed.
Lemma types_metadata_serve : types metadata_ok serve_metadata.
Proof.
  pose proof types_metadata_owner as Ho. pose proof types_metadata_count as Hc.
  assert (Hf : ∀ A e e', types metadata_ok (metadata_failed (A:=A) e e'))
    by (unfold metadata_failed; keeps_go; by apply types_metadata_modify).
  unfold serve_metadata. do 3 (apply keeps_bind; [keeps_go|intros ?]).
  keeps_step; [keeps_go|]. do 2 (apply keeps_bind; [keeps_go|intros ?]).
  rename a3 into i. intros m g Hm. wp_step. wp_step. wp_step.
  pose proof (types_metadata_chain (jm_Payload (m_Spec i)) a2) as Hch.
  destruct (JiraMetadata_CreateChain _ _) as [ch|e|w]; [| |done].
  - apply (wp_types metadata_ok); [|done|done]. keeps_go; by apply types_metadata_modify.
  - unfold metadata_failed. by do 3 wp_step.
Qed.
Lemma types_ReconcileJiraIssueMetadata request m g :
  wp schema_monitor (ReconcileJiraIssueMetadata request) m g (λ _ _ _, True).
Proof.
  unfold ReconcileJiraIssueMetadata. wp_step. wp_step. wp_step; [done|].
  intros [m0|e|w] Hr; [|by wp_go|done]. wp_step. wp_step. destruct Hr as [_ [Hr|[]]].
  apply (wp_types metadata_ok); [|done|done].
  pose proof types_metadata_serve. pose proof types_metadata_status. pose proof types_metadata_update.
  keeps_go; by apply types_metadata_modify.
Qed.

(** A sweep marks only branches that were created in git, which have a result. *)
Context {XL : ExternalsLaws X}.

Lemma set_stale_conditions t b v l :
  conditions_ok l → conditions_ok (fst (SetStatusCondition t (stale_condition b v) l)).
Proof.
  intros [Hn Hs]. split.
  - rewrite SetStatusCondition_types. case_bool_decide; [done|]. apply NoDup_app.
    split; [done|]. split; [set_solver|]. apply NoDup_singleton.
  - intros c [Hc| ->]%SetStatusCondition_in; [by apply Hs|]. unfold stale_condition. cbn.
    destruct (ExistsInGit v); [by right; left|by left].
Qed.

Lemma types_stale_condition v : types (branch_ok true) (updateStatusCondition v).
Proof.
  intros b g (Hf&Hc&Hr). unfold updateStatusCondition. wp_to_call. wp_step; [done|]. intros t _.
  pose proof (set_stale_conditions t b v _ Hc) as Hc'.
  destruct (SetStatusCondition _ _ _) as [l ch]. wp_step. wp_step.
  assert (branch_ok true (b_with_status (set_Conditions l (b_Status b)) b)) as H by by split.
  wp_step; [by wp_step|]. apply (wp_types (branch_ok true)); [keeps_go|done|done].
Qed.
Lemma types_stale_label v : types (branch_ok true) (updateStaleLabel v).
Proof.
  intros b g H. unfold updateStaleLabel. wp_step. wp_step. destruct (stale_labels _ _); [|by wp_step].
  wp_step. wp_step. apply (wp_types (branch_ok true)); [keeps_go|done|done].
Qed.
Lemma types_check_branch {S} recorder c usage l b (s : S) g :
  stored KCodebaseBranch b →
  wp schema_monitor (check_branch recorder c usage l b) s g (λ _ _ _, True).
Proof.
  intros Hb. unfold check_branch. wp_step; [by wp_step|]. wp_step. wp_step. wp_step.
  rename Heqb0 into He. apply stored_branch in Hb as (Hf&Hc&Hr).
  apply (wp_types (branch_ok true)).
  - pose proof types_stale_condition. pose proof types_stale_label. keeps_go.
  - destruct Hr as [?|(_&_&Hne)]; [by split_and!; auto|]. exfalso.
    apply negb_false_iff in He. unfold eligibleForCheck in He.
    rewrite (bool_decide_false _ Hne) in He. by destruct (is_deleting b).
  - intros r s' g' _. by wp_go.
Qed.

Lemma types_sweep {S} recorder ns (s : S) g :
  wp schema_monitor (sweep recorder ns) s g (λ _ _ _, True).
Proof.
  unfold sweep. wp_to_call. wp_step; [done|]. intros [branches|e|w] Hb; [|by wp_step|done].
  wp_step. wp_step. apply (wp_types (λ _, True)); [keeps_go|done|].
  intros [usage|e|w] s1 g1 _; [|by wp_step|done]. wp_to_call. wp_step; [done|]. intros order _.
  apply (wp_types (λ _, True)); [|done|done]. apply keeps_for_each. intros name.
  apply keeps_bind; [apply keeps_attempt|by intros; keeps_go]. unfold checkCodebaseBranches.
  do 4 (apply keeps_bind; [keeps_go|intros ?]). intros s2 g2 _.
  eapply wp_mono; [apply (wp_for_each _ _ _ (λ _ _, True) (λ _ _ _, True)); [done|]|done].
  intros b s3 g3 [Hin _]%group_by_codebase_in _. eapply wp_mono; [|by intros [[]|?|?]].
  by apply types_check_branch, Hb.
Qed.
End Others.

(** ** The operator *)

(** What makes the operator run, with the object it allocates. *)
Inductive event :=
| OnCodebase (request : ObjectKey) (o : Codebase)
| OnCodebaseBranch (request : ObjectKey) (o : CodebaseBranch)
| OnCodebaseImageStream (request : ObjectKey)
| OnCDStageDeploy (request : ObjectKey) (o : CDStageDeploy)
| OnGitServer (request : ObjectKey) (o : GitServer)
| OnIntegrationSecret (request : ObjectKey) (o : Secret)
| OnJiraServer (request : ObjectKey) (o : JiraServer)
| OnJiraIssueMetadata (request : ObjectKey) (o : JiraIssueMetadata)
| OnStaleCheck (recorder : bool) (namespace : string).

Definition discard {S A} (h : M S A) (s : S) : prog unit := bind (h s) (λ _, Ret tt).
Definition operator {X : Externals} (e : event) : prog unit :=
  match e with
  | OnCodebase request o => discard (Reconcile request) o
  | OnCodebaseBranch request o => discard (ReconcileCodebaseBranch request) o
  | OnCodebaseImageStream request => discard (ReconcileCodebaseImageStream request) tt
  | OnCDStageDeploy request o => discard (ReconcileCDStageDeploy request) o
  | OnGitServer request o => discard (ReconcileGitServer request) o
  | OnIntegrationSecret request o => discard (ReconcileIntegrationSecret request) o
  | OnJiraServer request o => discard (ReconcileJiraServer request) o
  | OnJiraIssueMetadata request o => discard (ReconcileJiraIssueMetadata request) o
  | OnStaleCheck recorder namespace => discard (sweep recorder namespace) tt
  end.

Lemma safe_discard {S A} (h : M S A) s :
  wp schema_monitor h s tt (λ _ _ _, True) → safe schema_monitor (discard h s) tt (λ _ _, True).
Proof. intros H. apply safe_bind. eapply safe_mono; [|exact H]. done. Qed.

Lemma operator_safe {X : Externals} {XL : ExternalsLaws X} e :
  safe schema_monitor (operator e) tt (λ _ _, True).
Proof.
  destruct e; cbn [operator]; apply safe_discard.
  - apply types_Reconcile.
  - apply types_ReconcileCodebaseBranch.
  - by apply (types_ReconcileCodebaseImageStream (S:=unit)).
  - apply types_ReconcileCDStageDeploy.
  - by apply types_ReconcileGitServer.
  - by apply types_ReconcileIntegrationSecret.
  - by apply types_ReconcileJiraServer.
  - apply types_ReconcileJiraIssueMetadata.
  - apply types_sweep.
Qed.


Definition typed_request : ObjectKey := {| key_Namespace := "ns"; key_Name := "app" |}.
Definition typed_trace : list obs := trace sim (operator (X:=reference) (OnCodebase typed_request sim_app)) sim_start.
Definition is_codebase_status (o : obs) : bool :=
  match o with
  | Obs _ (CKube (KStatusUpdate KCodebase _)) _ | Obs _ (CKube (KStatusPatch KCodebase _ _)) _ => true
  | _ => false
  end.

