(* ===== verification/LinkedHooks.v ===== *)
(** * LinkedHooks: the whole operator linked to the clients of the hosting services

    All controllers and the stale sweep, each linked to the clients it calls, over histories in
    which the operator is killed anywhere: what it creates at GitHub, GitLab and Bitbucket. The
    controllers reach the services only through the [GitProvider] interface ([operator_indirect]),
    so what the clients keep of the webhooks they listed holds of the whole operator. *)

From S2P Require Import Prelude GoStd Json Api Effects Externals Urls SshHostKey GitClient ProviderClients Gerrit Linking.
From S2P Require Import CodebaseCommon PutProject CodebaseChain CodebaseController Simulation ProviderSafety.
From S2P Require Import BranchLabels BranchChain BranchController DeploymentUsage StaleCheck.
From S2P Require Import StageDeploy ImageStreamDeploy GitServerController Jira JiraMetadata Schema.

(** ** The operator calls no hosting service itself *)

Definition indirect_monitor : monitor unit :=
  {| rely _ _ _ _ := True;
     guar _ _ c := match c with CRest _ _ | CBitbucket _ => False | _ => True end;
     step _ _ _ _ := tt |}.
(** The handler goes through the interfaces. *)
#[local] Abbreviation indirect := (keeps indirect_monitor (λ _ _, True)).

Section Indirect.
Context {X : Externals}.

Lemma indirect_with_state {S T A} (t : T) (h : M T A) : indirect h → indirect (with_state (S := S) t h).
Proof. intros Hh s g _. apply wp_with_state. eapply wp_mono; [by apply Hh|done]. Qed.

Lemma indirect_chain (handlers : list (M Codebase unit)) :
  Forall (λ h, indirect h) handlers → indirect (chain_ServeRequest handlers).
Proof. induction 1 as [|h handlers Hh Hrest IH]; cbn [chain_ServeRequest]; keeps_go; done. Qed.

Lemma indirect_retry n (fn : M CodebaseBranch unit) : indirect fn → indirect (retry_loop n fn).
Proof. intros Hf. induction n as [|n IH]; cbn [retry_loop]; [done|keeps_go; done]. Qed.

Lemma indirect_codebase request : indirect (Reconcile request).
Proof. keeps_go; apply indirect_chain; repeat first [apply Forall_nil_2 | apply Forall_cons_2]; keeps_go. Qed.
Lemma indirect_branch request : indirect (ReconcileCodebaseBranch request).
Proof. keeps_go; apply indirect_retry; keeps_go. Qed.

Lemma indirect_project_info c tickets : indirect (getProjectInfo c tickets : M JiraIssueMetadata _).
Proof. induction tickets as [|t tickets IH]; cbn [getProjectInfo]; keeps_go. Qed.
Lemma indirect_field_value c id metas k v : indirect (create_field_value c id metas k v : M JiraIssueMetadata unit).
Proof. unfold create_field_value, createApiMap. repeat case_bool_decide; keeps_go. Qed.
Lemma indirect_metadata_chain payload c :
  match JiraMetadata_CreateChain payload c with Ok ch => indirect ch | _ => True end.
Proof.
  unfold JiraMetadata_CreateChain. destruct (GetFieldsMap payload []) as [m|e|w]; [|done|done].
  pose proof (indirect_project_info c). pose proof (indirect_field_value c). destruct (_ && _); keeps_go.
Qed.
Lemma indirect_metadata_serve : indirect serve_metadata.
Proof.
  unfold serve_metadata. do 3 (apply keeps_bind; [keeps_go|intros ?]).
  keeps_step; [keeps_go|]. do 2 (apply keeps_bind; [keeps_go|intros ?]).
  rename a2 into c, a3 into i. intros m g _. wp_step. wp_step. wp_step.
  pose proof (indirect_metadata_chain (jm_Payload (m_Spec i)) c) as Hch.
  destruct (JiraMetadata_CreateChain _ _) as [ch|e|w]; [| |done].
  - eapply wp_keeps with (J := λ _ _, True); [keeps_go|done|done].
  - unfold metadata_failed. by do 3 wp_step.
Qed.
#[local] Hint Resolve indirect_metadata_serve : keeps.
Lemma indirect_metadata request : indirect (ReconcileJiraIssueMetadata request).
Proof. keeps_go. Qed.

Lemma indirect_sweep recorder namespace : indirect (sweep recorder namespace : M unit unit).
Proof. keeps_go; apply indirect_with_state; keeps_go. Qed.

Lemma operator_indirect e : safe indirect_monitor (operator e) tt (λ _ _, True).
Proof.
  assert (Hd : ∀ S A (h : M S A) s, indirect h → safe indirect_monitor (discard h s) tt (λ _ _, True)).
  { intros S A h s Hh. unfold discard. apply safe_bind. eapply safe_mono; [|by apply Hh]. done. }
  destruct e; cbn [operator]; apply Hd;
    [apply indirect_codebase|apply indirect_branch|..|apply indirect_metadata|apply indirect_sweep]; keeps_go.
Qed.
End Indirect.

(** ** The webhooks at the services *)

(** A repository at a service, as its requests name it. *)
Inductive place :=
| OnHost (HostURL : string) (PathParams : list (string * string))
| OnBitbucket (owner repo : string).
#[export] Instance place_eq_dec : EqDecision place.
Proof. solve_decision. Defined.

(** The webhooks that the operator asked for and that no later listing lacked, and the listing
    that nothing was asked for after. *)
Record hosted := { ht_hooks : list (place * string); ht_shown : option (place * list string) }.
Definition hosted_start : hosted := {| ht_hooks := []; ht_shown := None |}.

Definition asked (p : place) (url : string) (g : hosted) : hosted :=
  {| ht_hooks := (p, url) :: ht_hooks g; ht_shown := None |}.
Definition shown_at (p : place) (urls : list string) (g : hosted) : hosted :=
  {| ht_hooks := List.filter (λ h, negb (bool_decide (h.1 = p)) || bool_decide (h.2 ∈ urls)) (ht_hooks g);
     ht_shown := Some (p, urls) |}.
Definition urls_of (hooks : list (option WebHook)) : list string := omap (option_map wh_URL) hooks.

(** The address in the body of a request for a webhook; other bodies have none. *)
Definition member (key : string) (j : json) : option json :=
  match j with
  | JObj l => option_map snd (List.find (λ kv, bool_decide (kv.1 = key)) l)
  | _ => None
  end.
Definition hook_url (body : json) : option string :=
  match member "url" body with
  | Some (JStr u) => Some u
  | _ => match member "config" body with
         | Some config => match member "url" config with Some (JStr u) => Some u | _ => None end
         | None => None
         end
  end.
Definition asked_url (rq : RestRequest) : option string :=
  if bool_decide (rr_Method rq = "POST") then
    match rr_Body rq with Some body => hook_url body | None => None end
  else None.

Definition asking (p : place) (url : option string) (g : hosted) : hosted :=
  match url with Some u => asked p u g | None => g end.

Definition listing {T} (t : rest_result T) (resp : RestResponse T) : option (list string) :=
  if ra_IsError resp then None else
  match t in rest_result T return T → option (list string) with
  | RGitHubWebHooks => λ hooks, Some (urls_of (map convertWebhook hooks))
  | RGitlabWebHooks => λ hooks, Some (urls_of (map convertGitlabWebhook hooks))
  | _ => λ _, None
  end (ra_Result resp).

Definition hosted_step (g : hosted) : ∀ R, call R → R → hosted := λ R c,
  match c in call R return R → hosted with
  | CRest t rq => λ r,
      let p := OnHost (rr_HostURL rq) (rr_PathParams rq) in
      let g := asking p (asked_url rq) g in
      match r with
      | Ok resp => match listing t resp with Some urls => shown_at p urls g | None => g end
      | _ => g
      end
  | CBitbucket bc => match bc in bitbucket_call R return R → hosted with
      | BPostHook _ owner repo body => λ _, asking (OnBitbucket owner repo) (hook_url body) g
      | BGetHooks _ owner repo => λ r, match r with
          | Ok resp => if bool_decide (br_StatusCode resp = StatusOK) then
              shown_at (OnBitbucket owner repo) (urls_of (match br_JSON resp with
                | Some (Some hooks) => map bitbucket_hook hooks
                | _ => []
                end)) g
            else g
          | _ => g
          end
      | _ => λ _, g
      end
  | _ => λ _, g
  end.

(** The last listing of the place shows no such webhook, and none that was asked for remains. *)
Definition may_ask (g : hosted) (p : place) (url : option string) : Prop :=
  match url with
  | Some u => (p, u) ∉ ht_hooks g ∧ (∃ urls, ht_shown g = Some (p, urls) ∧ u ∉ urls)
  | None => True
  end.

Definition hosted_guar (g : hosted) : ∀ R, call R → Prop := λ R c,
  match c with
  | CRest _ rq => may_ask g (OnHost (rr_HostURL rq) (rr_PathParams rq)) (asked_url rq)
  | CBitbucket (BPostHook _ owner repo body) => hook_url body ≠ None ∧ may_ask g (OnBitbucket owner repo) (hook_url body)
  | CProvider _ => False
  | _ => True
  end.
(** Nothing is assumed of the answers. *)
Definition hosted_monitor : monitor hosted :=
  {| rely _ _ _ _ := True; guar := hosted_guar; step := hosted_step |}.

(** What was asked for at the place of the last listing is shown in it, and nothing was asked
    for twice. *)
Record hosted_ok (g : hosted) : Prop := {
  hk_shown p urls u : ht_shown g = Some (p, urls) → (p, u) ∈ ht_hooks g → u ∈ urls;
  hk_nodup : NoDup (ht_hooks g) }.

Lemma hosted_ok_start : hosted_ok hosted_start.
Proof. split; [done|constructor]. Qed.

Lemma hosted_ok_shown p urls g : hosted_ok g → hosted_ok (shown_at p urls g).
Proof.
  intros [Hs Hd]. split; cbn.
  - intros q l u [= <- <-] Hin. apply list_elem_of_In, List.filter_In in Hin as [_ Hin].
    cbn in Hin. rewrite bool_decide_true in Hin by done. by apply bool_decide_eq_true in Hin.
  - rewrite NoDup_ListNoDup in *. by apply List.NoDup_filter.
Qed.
Lemma hosted_ok_asking p url g : may_ask g p url → hosted_ok g → hosted_ok (asking p url g).
Proof.
  destruct url as [u|]; [|done]. intros [Hn _] [_ Hd]. split; cbn; [done|by constructor].
Qed.
Lemma may_ask_shown g p u urls : hosted_ok g → ht_shown g = Some (p, urls) → u ∉ urls → may_ask g p (Some u).
Proof. intros [Hs _] Hl Hu. split; [|by exists urls]. intros Hin. by eapply Hu, Hs. Qed.

Lemma hosted_ok_step g R (c : call R) r :
  hosted_ok g → hosted_guar g R c → hosted_ok (hosted_step g R c r).
Proof.
  intros Hg Ha. destruct c as [R kc|R cfg gc|R pc|R gc|R sc|R js jc|rq|R gc|T t rq|R bc|R sc]; try done.
  - pose proof (hosted_ok_asking _ _ _ Ha Hg) as H. destruct r as [resp|e|w]; [|done..]. cbn.
    destruct (listing t resp); [by apply hosted_ok_shown|done].
  - destruct bc; try done.
    + destruct Ha as [_ Ha]. by apply hosted_ok_asking.
    + destruct r as [resp|e|w]; [|done..]. cbn. case_bool_decide; [by apply hosted_ok_shown|done].
Qed.

(** ** The clients *)

Definition intact (_ : unit) (g : hosted) : Prop := hosted_ok g.

Lemma keeps_read {T} (t : rest_result T) rq : asked_url rq = None → keeps hosted_monitor intact (rest t rq).
Proof.
  intros Hrq. apply keeps_do_res. intros [] g Hg. cbn [guar hosted_monitor hosted_guar]. rewrite Hrq. split; [done|].
  intros r _. apply hosted_ok_step; [done|]. cbn [hosted_guar]. by rewrite Hrq.
Qed.
Lemma keeps_bitbucket {R} (c : bitbucket_call (res R)) :
  (∀ g, hosted_guar g _ (CBitbucket c)) → keeps hosted_monitor intact (bitbucket c).
Proof. intros Hc. apply keeps_do_res. intros [] g Hg. split; [apply Hc|]. intros r _. by apply hosted_ok_step. Qed.
#[local] Hint Extern 1 (keeps hosted_monitor intact (rest _ _)) => apply keeps_read; reflexivity : keeps.
#[local] Hint Extern 1 (keeps hosted_monitor intact (bitbucket _)) => apply keeps_bitbucket; intros; exact I : keeps.

(** Look for the address in the listing of the place, create. *)
Lemma wp_ask_if_not_exists p list_hooks create u g :
  hosted_ok g →
  wp hosted_monitor list_hooks tt g (λ r _ g', hosted_ok g'
    ∧ match r with Ok hooks => ht_shown g' = Some (p, urls_of hooks) | _ => True end) →
  (∀ g', hosted_ok g' → may_ask g' p (Some u) → wp hosted_monitor create tt g' (λ _ _ g'', hosted_ok g'')) →
  wp hosted_monitor (webhook_if_not_exists list_hooks create u) tt g (λ _ _ g', hosted_ok g').
Proof.
  intros Hg Hlist Hcreate. unfold webhook_if_not_exists. wp_step. eapply wp_mono; [exact Hlist|].
  intros [hooks|e|w] [] g' [Hg' Hs]; [|done..]. do 2 wp_step.
  pose proof (find_webhook_cases hooks u) as Hc.
  destruct (find_webhook hooks u) as [[w|]|e|w]; [by wp_step| |done|done].
  apply Hcreate; [done|]. eapply may_ask_shown; [done|exact Hs|].
  unfold urls_of. rewrite list_elem_of_omap. intros ([w|]&Hin&Hw); [|done].
  by eapply Hc, (inj Some).
Qed.

(** The two requests of the GitHub and the GitLab client. *)
Lemma wp_list_rest {T} (t : rest_result T) what rq (convert : T → list (option WebHook)) g :
  asked_url rq = None →
  (∀ resp, listing t resp = if ra_IsError resp then None else Some (urls_of (convert (ra_Result resp)))) →
  hosted_ok g →
  wp hosted_monitor (resp <- respond what t rq ;; no_error what resp ;;; ret (convert (ra_Result resp))) tt g
    (λ r _ g', hosted_ok g' ∧ match r with
      | Ok hooks => ht_shown g' = Some (OnHost (rr_HostURL rq) (rr_PathParams rq), urls_of hooks)
      | _ => True
      end).
Proof.
  intros Hrq Hl Hg. unfold respond, no_error. do 3 wp_step. wp_step; [cbn; by rewrite Hrq|]. intros r _.
  assert (Hok : hosted_ok (hosted_step g _ (CRest t rq) r)) by (apply hosted_ok_step; [done|cbn; by rewrite Hrq]).
  destruct r as [resp|e|w]; [|by wp_step|done]. cbn in *. rewrite Hl in *.
  destruct (ra_IsError resp); wp_go; by split.
Qed.
Lemma wp_ask_rest {T R} (t : rest_result T) what rq (k : RestResponse T → R) u g :
  asked_url rq = Some u → hosted_ok g → may_ask g (OnHost (rr_HostURL rq) (rr_PathParams rq)) (Some u) →
  wp hosted_monitor (resp <- respond what t rq ;; no_error what resp ;;; ret (k resp)) tt g (λ _ _ g', hosted_ok g').
Proof.
  intros Hrq Hg Ha. unfold respond, no_error. do 3 wp_step. wp_step; [cbn; by rewrite Hrq|]. intros r _.
  assert (Hok : hosted_ok (hosted_step g _ (CRest t rq) r)) by (apply hosted_ok_step; [done|cbn; by rewrite Hrq]).
  destruct r as [resp|e|w]; [|by wp_step|done]. wp_go; exact Hok.
Qed.

Section Hooks.
Context (url token projectID secret hookURL : string) (skipTLS : bool).

Lemma wp_github_hook g : hosted_ok g →
  wp hosted_monitor (GitHub_CreateWebHookIfNotExists url token projectID secret hookURL skipTLS) tt g (λ _ _ g', hosted_ok g').
Proof.
  intros Hg. unfold GitHub_CreateWebHookIfNotExists, GitHub_GetWebHooks, GitHub_CreateWebHook.
  destruct (parseProjectID projectID) as [[owner repo]|e|w]; [|unfold webhook_if_not_exists; by wp_go..].
  apply (wp_ask_if_not_exists (OnHost url (repo_params owner repo))); [done|..].
  - do 2 wp_step. by apply (wp_list_rest RGitHubWebHooks _ (github_request url token "GET" _ _ _ _) (map convertWebhook)).
  - intros g' Hg' Ha. do 2 wp_step. by eapply wp_ask_rest.
Qed.

Lemma wp_gitlab_hook g : hosted_ok g →
  wp hosted_monitor (GitLab_CreateWebHookIfNotExists url token projectID secret hookURL skipTLS) tt g (λ _ _ g', hosted_ok g').
Proof.
  intros Hg. apply (wp_ask_if_not_exists (OnHost url [("project-id", projectID)])); [done|..].
  - by apply (wp_list_rest RGitlabWebHooks _ (gitlab_request url token "GET" _ _ _) (map convertGitlabWebhook)).
  - intros g' Hg' Ha. by eapply wp_ask_rest.
Qed.

Lemma wp_bitbucket_hook g : hosted_ok g →
  wp hosted_monitor (Bitbucket_CreateWebHookIfNotExists token projectID secret hookURL skipTLS) tt g (λ _ _ g', hosted_ok g').
Proof.
  intros Hg. unfold Bitbucket_CreateWebHookIfNotExists, Bitbucket_GetWebHooks, Bitbucket_CreateWebHook, bitbucket_respond.
  destruct (parseProjectID projectID) as [[owner repo]|e|w]; [|unfold webhook_if_not_exists; by wp_go..].
  apply (wp_ask_if_not_exists (OnBitbucket owner repo)); [done|..].
  - do 5 wp_step. wp_step; [done|]. intros r _.
    assert (Hok : hosted_ok (hosted_step g _ (CBitbucket (BGetHooks (Intercept token) owner repo)) r))
      by by apply hosted_ok_step.
    destruct r as [resp|e|w]; [|by wp_step|done]. cbn in *. unfold bitbucket_failed.
    case_bool_decide; cbn [negb]; [|by wp_step].
    destruct (br_JSON resp) as [[hooks|]|]; [|by wp_step..]. wp_step.
    pose proof (bitbucket_webhooks_ok resp hooks) as Hb.
    destruct (bitbucket_webhooks resp hooks) as [ws|e|w]; [|by split..]. by rewrite (Hb ws).
  - intros g' Hg' Ha. do 2 wp_step. wp_to_call. wp_step; [done|]. intros uuid _. do 3 wp_step.
    wp_step; [by split|]. intros r _.
    assert (Hok : hosted_ok (hosted_step g' _ (CBitbucket (BPostHook (Intercept token) owner repo
      (bitbucket_hook_body uuid secret hookURL skipTLS))) r)) by by apply hosted_ok_step.
    destruct r as [resp|e|w]; wp_go; exact Hok.
Qed.
End Hooks.

Lemma safe_provider_client {R} (c : provider_call R) g :
  hosted_ok g → safe hosted_monitor (provider_client c) g (λ _ g', hosted_ok g').
Proof.
  intros Hg. destruct c; cbn [provider_client]; apply safe_answer;
    try (eapply wp_keeps with (J := intact); [|exact Hg|by intros r [] g'];
         solve [unfold choose; repeat case_bool_decide; keeps_go]).
  unfold choose. repeat case_bool_decide; [by apply wp_github_hook|by apply wp_gitlab_hook|by apply wp_bitbucket_hook].
Qed.

(** The clients keep what the controllers rely on, which is nothing. *)
#[export] Instance hosting_clients_implement {X : Externals} :
  Implements indirect_monitor hosted_monitor (λ _ g, hosted_ok g).
Proof.
  intros R c [] g Hg Hi.
  assert (Hn : ∀ R' (h : M unit R') (Q : res R' → hosted → Prop), keeps hosted_monitor intact h →
    (∀ r g', hosted_ok g' → Q r g') → safe hosted_monitor (answer h) g Q).
  { intros R' h Q Hh HQ. apply safe_answer. eapply wp_keeps; [exact Hh|exact Hg|]. intros r [] g' H. by apply HQ. }
  destruct c as [R kc|R cfg gc|R pc|R gc|R sc|R js jc|rq|R gc|T t rq|R bc|R sc]; cbn [expand]; try done.
  - destruct gc; (apply Hn; [keeps_go|by split]).
  - eapply safe_mono; [|by apply safe_provider_client]. by split.
  - destruct gc; (apply Hn; [keeps_go|by split]).
  - destruct sc; try done; (apply Hn; [keeps_go|by split]).
Qed.

Lemma hosted_relied g tr : relied hosted_monitor g tr.
Proof. revert g. induction tr as [|[R c r] tr IH]; intros g; [done|]. by split. Qed.

(** ** Properties *)


(** ** A crash after a webhook was created *)

(** The world of [Simulation] whose service keeps the webhooks it is asked for. *)
Definition listed_urls (urls : list string) : list (option gitlabWebHook) :=
  map (λ u, Some {| glw_ID := 7; glw_URL := u |}) urls.
Definition hosting_sim : environment (sim_state * list string) := λ R c w,
  match c in call R return R * (sim_state * list string) with
  | CRest t rq =>
      (Ok {| ra_StatusCode := 200; ra_Status := "200 OK"; ra_IsError := false; ra_String := "";
             ra_Result := match t in rest_result T return T → T with
               | RGitlabWebHooks => λ _, listed_urls w.2
               | _ => λ r, r
               end (ra_Result (sim_rest t)) |},
       (w.1, match asked_url rq with Some u => u :: w.2 | None => w.2 end))
  | c' => let '(r, w1) := sim _ c' w.1 in (r, (w1, w.2))
  end.

Definition asks (o : obs) : bool :=
  match o with Obs _ (CRest _ rq) _ => bool_decide (asked_url rq ≠ None) | _ => false end.
Definition lists (o : obs) : bool :=
  match o with Obs _ (CRest RGitlabWebHooks _) _ => true | _ => false end.
(** The part of a trace up to the first webhook asked for. *)
Fixpoint killed_after_hook (tr : list obs) : list obs :=
  match tr with
  | [] => []
  | o :: tr' => if asks o then [o] else o :: killed_after_hook tr'
  end.

Definition on_app : event := OnCodebase {| key_Namespace := "ns"; key_Name := "app" |} sim_app.
Definition first_run : list obs :=
  trace hosting_sim (Linking.link (operator (X := reference) on_app)) (sim_start, []).
Definition second_run : list obs :=
  trace hosting_sim (Linking.link (operator (X := reference) on_app)) (sim_start, ["https://el.example.com"]).

Lemma killed_prefix tr : ∃ rest, tr = killed_after_hook tr ++ rest.
Proof.
  induction tr as [|o tr [rest IH]]; [by exists []|]. cbn. destruct (asks o).
  - by exists tr.
  - exists rest. cbn. by rewrite <- IH.
Qed.

