(* ===== verification/Predicates.v ===== *)
(** * Predicates: the events the controllers react to

    [src/pkg/predicate/pause.go] and the update predicates the controllers register in their
    [SetupWithManager]. An object of an event is [None] when the interface is nil; a
    controller is called when the pause predicate and its own one both accept the event. *)

From S2P Require Import Prelude Api Host IntegrationSecret.

Definition pauseAnnotation := "edp.epam.com/paused".

Section Pause.
Context {O : Type} {HO : Object O}.

Definition annotations_of (o : O) : gmap string string := om_Annotations (obj_meta o).

Definition Pause_run (obj : O) : bool :=
  let annotations := annotations_of obj in
  if bool_decide (annotations = ∅) then true
  else match annotations !! pauseAnnotation with
  | None => true
  | Some annoStr =>
    match ParseBool annoStr with
    | Ok pause => negb pause
    | _ => true
    end
  end.

Definition Pause_Create (obj : option O) : bool :=
  match obj with None => false | Some o => Pause_run o end.
Definition Pause_Delete (obj : option O) : bool :=
  match obj with None => false | Some o => Pause_run o end.
Definition Pause_Generic (obj : option O) : bool :=
  match obj with None => false | Some o => Pause_run o end.
Definition Pause_Update (objectOld objectNew : option O) : bool :=
  match objectNew with
  | Some o => Pause_run o
  | None => match objectOld with Some o => Pause_run o | None => false end
  end.

Definition PauseAnnotationChanged (objOld objNew : option O) : bool :=
  match objOld, objNew with
  | Some oldO, Some newO =>
    let oldAnno := annotations_of oldO !! pauseAnnotation in
    let newAnno := annotations_of newO !! pauseAnnotation in
    match oldAnno, newAnno with
    | Some _, None => true
    | None, Some _ => true
    | _, _ => negb (bool_decide (default "" oldAnno = default "" newAnno))
    end
  | _, _ => false
  end.
End Pause.

(** ** The controllers' own update predicates *)

Definition codebase_UpdateFunc (oo no : option Codebase) : bool :=
  match oo, no with
  | Some o, Some n =>
    PauseAnnotationChanged (Some o) (Some n) || negb (bool_decide (c_Spec o = c_Spec n)) || is_deleting n
  | _, _ => false
  end.

Definition codebasebranch_UpdateFunc (oo no : option CodebaseBranch) : bool :=
  match oo, no with
  | Some o, Some n =>
    PauseAnnotationChanged (Some o) (Some n) || negb (bool_decide (b_Spec o = b_Spec n)) || is_deleting n
  | _, _ => false
  end.

Definition cdstagedeploy_UpdateFunc (oo no : option CDStageDeploy) : bool :=
  match oo, no with
  | Some o, Some n => PauseAnnotationChanged (Some o) (Some n)
  | _, _ => false
  end.

Definition codebaseimagestream_CreateFunc (_ : option CodebaseImageStream) : bool := false.
(** [on.Labels != nil]: labels decoded from the API server are nil when there is none. *)
Definition codebaseimagestream_UpdateFunc (oo on : option CodebaseImageStream) : bool :=
  match oo, on with
  | Some o, Some n =>
    PauseAnnotationChanged (Some o) (Some n)
    || negb (bool_decide (is_Tags (i_Spec o) = is_Tags (i_Spec n)))
       && negb (bool_decide (labels_of n = ∅))
  | _, _ => false
  end.

(** Only an update that leaves the status as it was. *)
Definition jiraserver_UpdateFunc (oldObject newObject : option JiraServer) : bool :=
  match oldObject, newObject with
  | Some o, Some n =>
    PauseAnnotationChanged (Some o) (Some n) || bool_decide (j_Status o = j_Status n)
  | _, _ => false
  end.

Definition jiraissuemetadata_UpdateFunc (oo no : option JiraIssueMetadata) : bool :=
  match oo, no with
  | Some o, Some n =>
    PauseAnnotationChanged (Some o) (Some n) || negb (bool_decide (m_Spec o = m_Spec n))
  | _, _ => false
  end.

(** Integration secrets are not pausable: these are the only predicates of their controller. *)
Definition integrationsecret_CreateFunc (o : Secret) : bool := hasIntegrationSecretLabelLabel o.
Definition integrationsecret_DeleteFunc (_ : Secret) : bool := false.
Definition integrationsecret_UpdateFunc (_ objectNew : Secret) : bool := hasIntegrationSecretLabelLabel objectNew.
Definition integrationsecret_GenericFunc (o : Secret) : bool := hasIntegrationSecretLabelLabel o.

(** [WithPredicates(pause, p)] *)
Definition reconciled_on_update {O} `{Object O} (p : option O → option O → bool) (oo no : O) : bool :=
  Pause_Update (Some oo) (Some no) && p (Some oo) (Some no).

(** ** Lemmas *)

(** The value that pauses: only what [strconv.ParseBool] reads as true. *)
Definition paused {O} `{Object O} (o : O) : Prop :=
  ∃ v, annotations_of o !! pauseAnnotation = Some v ∧ ParseBool v = Ok true.

Lemma Pause_run_spec {O} `{Object O} (o : O) : Pause_run o = false ↔ paused o.
Proof.
  unfold Pause_run, paused. case_bool_decide as He.
  - rewrite He. split; [done|]. by intros (v&?&_).
  - destruct (annotations_of o !! pauseAnnotation) as [v|]; [|by split; [|intros (v&?&_)]].
    destruct (ParseBool v) as [[]|e|w] eqn:Hv; cbn;
      (split; [intros [=]; by exists v|intros (v'&[= <-]&?); congruence]).
Qed.

(** ** Properties *)

(** C30: An update event of a codebase or a branch reaches its controller exactly when the new
    object is not paused and the pause annotation changed, the spec changed, or the object is
    being deleted; an update of a deployment when only the first holds; an update of an image
    stream when that annotation or the tags of a labelled stream changed; one of a Jira server
    when that annotation changed or the status did not; one of Jira issue metadata when that
    annotation or the spec changed. *)
Theorem reconciled_on_update_iff (c c' : Codebase) (b b' : CodebaseBranch) (d d' : CDStageDeploy)
    (i i' : CodebaseImageStream) (j j' : JiraServer) (m m' : JiraIssueMetadata) :
  (reconciled_on_update codebase_UpdateFunc c c' = true ↔ ¬ paused c'
     ∧ (annotations_of c !! pauseAnnotation ≠ annotations_of c' !! pauseAnnotation
        ∨ c_Spec c ≠ c_Spec c' ∨ is_deleting c' = true))
  ∧ (reconciled_on_update codebasebranch_UpdateFunc b b' = true ↔ ¬ paused b'
     ∧ (annotations_of b !! pauseAnnotation ≠ annotations_of b' !! pauseAnnotation
        ∨ b_Spec b ≠ b_Spec b' ∨ is_deleting b' = true))
  ∧ (reconciled_on_update cdstagedeploy_UpdateFunc d d' = true ↔ ¬ paused d'
     ∧ annotations_of d !! pauseAnnotation ≠ annotations_of d' !! pauseAnnotation)
  ∧ (reconciled_on_update codebaseimagestream_UpdateFunc i i' = true ↔ ¬ paused i'
     ∧ (annotations_of i !! pauseAnnotation ≠ annotations_of i' !! pauseAnnotation
        ∨ is_Tags (i_Spec i) ≠ is_Tags (i_Spec i') ∧ labels_of i' ≠ ∅))
  ∧ (reconciled_on_update jiraserver_UpdateFunc j j' = true ↔ ¬ paused j'
     ∧ (annotations_of j !! pauseAnnotation ≠ annotations_of j' !! pauseAnnotation
        ∨ j_Status j = j_Status j'))
  ∧ (reconciled_on_update jiraissuemetadata_UpdateFunc m m' = true ↔ ¬ paused m'
     ∧ (annotations_of m !! pauseAnnotation ≠ annotations_of m' !! pauseAnnotation
        ∨ m_Spec m ≠ m_Spec m')).
Proof.
  assert (Hch : ∀ O (HO : Object O) (o o' : O), PauseAnnotationChanged (Some o) (Some o') = true
    ↔ annotations_of o !! pauseAnnotation ≠ annotations_of o' !! pauseAnnotation).
  { intros O HO o o'. unfold PauseAnnotationChanged.
    destruct (annotations_of o !! _), (annotations_of o' !! _); cbn;
      rewrite ?negb_true_iff, ?bool_decide_eq_false; naive_solver. }
  assert (Hr : ∀ O (HO : Object O) (o : O), Pause_run o = true ↔ ¬ paused o).
  { intros O HO o. rewrite <- Pause_run_spec. by destruct (Pause_run o). }
  unfold reconciled_on_update, Pause_Update, codebase_UpdateFunc, codebasebranch_UpdateFunc,
    cdstagedeploy_UpdateFunc, codebaseimagestream_UpdateFunc, jiraserver_UpdateFunc, jiraissuemetadata_UpdateFunc.
  rewrite !andb_true_iff, !orb_true_iff, !andb_true_iff, !negb_true_iff, !bool_decide_eq_false,
    !bool_decide_eq_true, !Hch, !Hr.
  tauto.
Qed.

(** Pausing stops and resuming restarts: while an object is paused none of its events
    reaches a controller, and the update that resumes it always does. *)
Theorem resume_is_reconciled {O} `{HO : Object O} (p : option O → option O → bool) (o o' : O) :
  (∀ o o', PauseAnnotationChanged (Some o) (Some o') = true → p (Some o) (Some o') = true) →
  (paused o' → reconciled_on_update p o o' = false ∧ Pause_Create (Some o') = false
     ∧ Pause_Delete (Some o') = false ∧ Pause_Generic (Some o') = false)
  ∧ (paused o → ¬ paused o' → reconciled_on_update p o o' = true).
Proof.
  intros Hp. unfold reconciled_on_update, Pause_Update, Pause_Create, Pause_Delete, Pause_Generic. split.
  - rewrite <- Pause_run_spec. by intros ->.
  - intros (v&Hv&Ht) Hn. assert (Hr : Pause_run o' = true).
    { destruct (Pause_run o') eqn:Hr; [done|]. by apply Pause_run_spec in Hr. }
    rewrite Hr. apply Hp. unfold PauseAnnotationChanged. rewrite Hv.
    destruct (annotations_of o' !! pauseAnnotation) as [v'|] eqn:Hv'; [|done]. cbn.
    rewrite negb_true_iff, bool_decide_eq_false. intros ->. apply Hn. by exists v'.
Qed.

Lemma resume_is_reconciled_witness :
  let d v := {| d_Meta := {| om_Name := "d"; om_GenerateName := ""; om_Namespace := "ns"; om_Labels := ∅;
       om_Annotations := {[pauseAnnotation := v]}; om_Finalizers := []; om_OwnerReferences := [];
       om_DeletionTimestamp := None; om_CreationTimestamp := 0; om_Generation := 0 |};
     d_Spec := {| ds_Pipeline := "p"; ds_Stage := "s";
                  ds_Tag := {| ct_Codebase := ""; ct_Tag := ""; ct_Digest := "" |};
                  ds_Tags := []; ds_TriggerType := "Auto" |};
     d_Status := {| dst_Status := ""; dst_Message := "" |} |} in
  reconciled_on_update cdstagedeploy_UpdateFunc (d "true") (d "no") = true.
Proof.
  apply (resume_is_reconciled cdstagedeploy_UpdateFunc); [done| |].
  - by exists "true".
  - intros (v&Hv&Ht). vm_compute in Hv. injection Hv as <-. vm_compute in Ht. discriminate.
Defined.
