(* ===== verification/CodebaseProperties.v ===== *)
(** * CodebaseProperties: finalizers, webhooks and generated files of a codebase

    Safety theorems about the handlers of [CodebaseChain] and the reconciliation of
    [CodebaseController], for arbitrary answers of the API server, the git provider and the
    host. *)

From S2P Require Import Prelude Api Effects Externals Urls Host Templates CodebaseCommon PutProject CodebaseChain CodebaseController StageDeploy Simulation.

(** ** Finalizers *)

(** What one reconciliation has seen: the last version of the codebase, and the directories
    removed. *)
Record finalizing := { fz_last : option Codebase; fz_removed : list string }.
Definition finalizing_start : finalizing := {| fz_last := None; fz_removed := [] |}.

Definition note_codebase (g : finalizing) {V} (k : kind V) : res V → finalizing :=
  match k in kind V return res V → finalizing with
  | KCodebase => λ r, answered r (λ c, {| fz_last := Some c; fz_removed := fz_removed g |}) g
  | _ => λ _, g
  end.

Definition finalizing_step (g : finalizing) : ∀ R, call R → R → finalizing := λ R c,
  match c in call R return R → finalizing with
  | CKube kc => match kc in kube_call R return R → finalizing with
    | KGet k _ => note_codebase g k
    | KUpdate k _ => note_codebase g k
    | KPatch k _ _ => note_codebase g k
    | KStatusUpdate k _ => note_codebase g k
    | KStatusPatch k _ _ => note_codebase g k
    | _ => λ _, g
    end
  | CSys sc => match sc in sys_call R return R → finalizing with
    | RemoveAll p => λ r,
        answered r (λ _, {| fz_last := fz_last g; fz_removed := p :: fz_removed g |}) g
    | _ => λ _, g
    end
  | _ => λ _, g
  end.

(** The work directory of a codebase, below a base directory. *)
Definition work_dir (base ns name : string) : string :=
  base +:+ "/codebase-operator/edp/" +:+ ns +:+ "/" +:+ name +:+ "/templates/" +:+ name.
Definition default_work_dir (ns name : string) : string :=
  "/home/codebase-operator/edp/" +:+ ns +:+ "/" +:+ name +:+ "/templates/" +:+ name.
Definition is_work_dir (c : Codebase) (p : string) : Prop :=
  p = default_work_dir (namespace_of c) (name_of c)
  ∨ ∃ base, p = work_dir base (namespace_of c) (name_of c).

Section Finalizers.
Context {X : Externals}.

Definition finalizing_guar (g : finalizing) : ∀ R, call R → Prop := guard_kube (λ R c,
  match c with
  | @KUpdate V k o => match k in kind V return V → Prop with
    | KCodebase => λ o, ∃ c, fz_last g = Some c ∧ c_Spec o = c_Spec c
        ∧ if is_deleting c
          then c_Meta o = RemoveFinalizer codebaseOperatorFinalizerName (c_Meta c)
               ∧ ∃ p, p ∈ fz_removed g ∧ is_work_dir c p
          else (∀ f, f ∈ om_Finalizers (c_Meta c) → f ∈ om_Finalizers (c_Meta o))
               ∧ codebaseOperatorFinalizerName ∈ om_Finalizers (c_Meta o)
               ∧ ForegroundDeletionFinalizerName ∈ om_Finalizers (c_Meta o)
    | _ => λ _, True
    end o
  | _ => True
  end).

Definition finalizer_monitor : monitor finalizing :=
  {| rely _ _ _ _ := True; guar := finalizing_guar; step := finalizing_step |}.

(** The object in hand has the metadata and the spec of the version seen last. *)
Definition current (s : Codebase) (g : finalizing) : Prop :=
  ∃ c, fz_last g = Some c ∧ c_Meta s = c_Meta c ∧ c_Spec s = c_Spec c.

(** After the finalizers are settled nothing updates the codebase itself. *)
Lemma keeps_MakeChain : keeps finalizer_monitor (λ _ _, True) (chain_ServeRequest MakeChain).
Proof. unfold MakeChain. keeps_go. Qed.

(** The codebase is current and its work directory was removed. *)
Definition cleaned (s : Codebase) (g : finalizing) : Prop :=
  ∃ c, fz_last g = Some c ∧ c_Meta s = c_Meta c ∧ c_Spec s = c_Spec c ∧ is_deleting c = true
    ∧ ∃ p, p ∈ fz_removed g ∧ is_work_dir c p.

Lemma keeps_cleaned_fail a m : keeps finalizer_monitor cleaned (fail_codebase a m).
Proof. unfold fail_codebase. keeps_step; [keeps_go|intros t]. by apply keeps_modify. Qed.

Lemma keeps_cleaned_remove dir : keeps finalizer_monitor cleaned (RemoveDirectory dir).
Proof.
  apply keeps_orelse; [|intros; apply keeps_throw]. apply keeps_do_res. intros s g H.
  split; [done|]. intros [[]|e|w] _; [|done|done]. destruct H as (c&?&?&?&?&p&?&?).
  exists c. split_and!; [done..|]. exists p. split; [by right|done].
Qed.

Lemma keeps_cleaned_DeletionChain :
  keeps finalizer_monitor cleaned (chain_ServeRequest MakeDeletionChain).
Proof.
  pose proof keeps_cleaned_fail. pose proof keeps_cleaned_remove. unfold MakeDeletionChain.
  repeat first [progress keeps_go | apply keeps_cleaned_fail | apply keeps_cleaned_remove].
Qed.

Lemma wp_GetWorkDir {S} c (s : S) g (Q : res string → S → finalizing → Prop) :
  (∀ p, is_work_dir c p → Q (Ok p) s g) →
  wp finalizer_monitor (GetWorkDir (name_of c) (namespace_of c)) s g Q.
Proof.
  intros HQ. unfold GetWorkDir. wp_to_call. wp_step; [done|]. intros r _. wp_step. apply HQ.
  destruct r as [base|]; [right; by exists base|by left].
Qed.

Lemma wp_tryToDelete s g :
  current s g →
  wp finalizer_monitor tryToDeleteCodebase s g (λ r s' g', r = Ok None → current s' g').
Proof.
  intros (c&Hc&Hm&Hs). unfold tryToDeleteCodebase. wp_step. wp_step.
  destruct (is_deleting s) eqn:Hdel; cbn [negb]; [|wp_step; by exists c].
  wp_step. unfold removeDirectoryIfExists. wp_step. apply wp_GetWorkDir. intros p Hp.
  unfold RemoveDirectory. wp_to_call. wp_step; [done|]. intros [[]|e|w] _; [|by wp_go|done].
  wp_step. wp_step. eapply wp_keeps; [apply keeps_cleaned_DeletionChain| |].
  { exists c. split_and!; [done|done|done|unfold is_deleting in *; cbn in *; by rewrite <- Hm|].
    exists p. split; [by left|]. revert Hp. unfold is_work_dir, namespace_of, name_of. cbn. by rewrite Hm. }
  intros [[]|e|w] s2 g2 (c2&Hc2&Hm2&Hs2&Hd2&Hrem); [|by wp_go|done].
  wp_step. wp_step. wp_step. wp_step. unfold update_self. wp_to_call. wp_step; [|intros [o|e|w] _; by wp_go].
  exists c2. rewrite Hd2. split_and!; [done|done|cbn; by rewrite Hm2|done].
Qed.

Lemma wp_finalizers_Apply s g :
  current s g → wp finalizer_monitor Apply s g (λ r s' g', r = Ok false → current s' g').
Proof.
  intros Hcur. unfold Apply. wp_step. wp_step. wp_step. wp_step.
  destruct (apply_modifiers modifiers false s) as [[patch c']|e|w] eqn:Ha; [|done|done].
  wp_step. wp_step. destruct patch.
  - wp_step. wp_step. eapply wp_mono with (Q := λ _ _ _, True).
    { unfold patch_self. wp_to_call. wp_step; [done|]. intros [o|e|w] _; by wp_go. }
    intros [[]|e|w] s' g' _; by wp_go.
  - wp_step. intros _. assert (c' = s) as ->; [|done].
    unfold modifiers, apply_modifiers, trimCodebaseGitSuffix, addCodebaseGitSuffix in Ha.
    repeat (case_match; cbn in Ha); by simplify_eq.
Qed.

Context {XL : ExternalsLaws X}.

Lemma AddFinalizer_grows f m :
  (∀ x, x ∈ om_Finalizers m → x ∈ om_Finalizers (snd (AddFinalizer f m)))
  ∧ f ∈ om_Finalizers (snd (AddFinalizer f m))
  ∧ (fst (AddFinalizer f m) = false → snd (AddFinalizer f m) = m).
Proof. rewrite AddFinalizer_spec. case_bool_decide; cbn; set_solver. Qed.

Lemma AddFinalizer_deletion f m :
  om_DeletionTimestamp (snd (AddFinalizer f m)) = om_DeletionTimestamp m.
Proof. rewrite AddFinalizer_spec. by case_bool_decide. Qed.

Lemma wp_setFinalizers s g :
  current s g → wp finalizer_monitor setFinalizers s g (λ r s' g', r = Ok tt → current s' g').
Proof.
  intros (c&Hc&Hm&Hs). unfold setFinalizers. wp_step. wp_step. wp_step; [wp_step; by exists c|].
  rename Heqb into Hdel.
  pose proof (AddFinalizer_grows codebaseOperatorFinalizerName (obj_meta s)) as (A1&A2&A3).
  destruct (AddFinalizer codebaseOperatorFinalizerName (obj_meta s)) as [added1 m1].
  pose proof (AddFinalizer_grows ForegroundDeletionFinalizerName m1) as (B1&B2&B3).
  destruct (AddFinalizer ForegroundDeletionFinalizerName m1) as [added2 m2]. cbn [fst snd] in *.
  wp_step. wp_step. destruct (added1 || added2) eqn:Hadd.
  - unfold when, update_self. wp_to_call. wp_step.
    + exists c. split_and!; [done|done|]. unfold is_deleting in *. cbn in *. rewrite <- Hm, Hdel.
      split_and!; auto.
    + intros [o|e|w] _; [|by wp_step|done]. wp_step. intros _. by exists o.
  - apply orb_false_iff in Hadd as [-> ->]. wp_step. wp_step. intros _. exists c.
    rewrite B3, A3 by done. split_and!; [done|exact Hm|done].
Qed.
End Finalizers.

(** ** Webhooks *)

(** What the webhook handler has seen: the references the provider said are gone, the secret
    read last, and the webhook created. *)
Record hooking := {
  hk_gone : list string; hk_secret : option Secret; hk_created : option WebHook }.
Definition hooking_start : hooking := {| hk_gone := []; hk_secret := None; hk_created := None |}.

Definition hooking_step (g : hooking) : ∀ R, call R → R → hooking := λ R c,
  match c in call R return R → hooking with
  | CKube kc => match kc in kube_call R return R → hooking with
    | KGet k _ => match k in kind V return res V → hooking with
      | KSecret => λ r, answered r (λ s,
          {| hk_gone := hk_gone g; hk_secret := Some s; hk_created := hk_created g |}) g
      | _ => λ _, g
      end
    | _ => λ _, g
    end
  | CProvider pc => match pc in provider_call R return R → hooking with
    | PGetWebHook _ _ _ _ ref => λ r, match r with
        | Err e => if err_is ErrWebHookNotFound e
            then {| hk_gone := ref :: hk_gone g; hk_secret := hk_secret g; hk_created := hk_created g |}
            else g
        | _ => g
        end
    | PCreateWebHookIfNotExists _ _ _ _ _ _ _ => λ r, answered r (λ w,
          {| hk_gone := hk_gone g; hk_secret := hk_secret g; hk_created := Some w |}) g
    | _ => λ _, g
    end
  | _ => λ _, g
  end.

(** [recorded]: the reference in the status of the codebase the handler was given. *)
Definition hooking_guar (recorded : string) (g : hooking) : ∀ R, call R → Prop := λ R c,
  match c with
  | CKube kc => match kc with
    | KGet _ _ => True
    | @KUpdate V k o => match k in kind V return V → Prop with
      | KSecret => λ o, ∃ s tok, hk_secret g = Some s
          ∧ map_get (sec_Data s) GitServerSecretWebhookSecretField = ""
          ∧ is_Some (sec_Data s !! GitServerSecretTokenField)
          ∧ o = set_SecretData GitServerSecretWebhookSecretField tok s
      | _ => λ _, False
      end o
    | @KStatusUpdate V k o => match k in kind V return V → Prop with
      | KCodebase => λ c, ∃ w, hk_created g = Some w
          ∧ (wh_ID w ≠ "" → GetWebHookRef (c_Status c) = wh_ID w)
      | _ => λ _, False
      end o
    | _ => False
    end
  | CProvider pc => match pc with
    | PGetWebHook _ _ _ _ ref => ref = recorded
    | PCreateWebHookIfNotExists _ _ _ _ _ _ _ =>
        hk_created g = None ∧ (recorded = "" ∨ recorded ∈ hk_gone g)
    | PNewBitbucketClient _ => True
    | _ => False
    end
  | CSys _ => True
  | _ => False
  end.

Definition hook_monitor (recorded : string) : monitor hooking :=
  {| rely _ _ _ _ := True; guar := hooking_guar recorded; step := hooking_step |}.

Section Hooks.
Context (recorded : string).

(** Nothing about the webhook itself happened yet. *)
Definition no_hook (c0 s : Codebase) (g : hooking) : Prop := s = c0 ∧ hk_gone g = [] ∧ hk_created g = None.

Lemma wp_hook_secret c0 name ns (s : Codebase) g :
  no_hook c0 s g →
  wp (hook_monitor recorded) (PutWebHook_getGitServerSecret name ns) s g (λ _ s' g', no_hook c0 s' g').
Proof.
  intros H. unfold PutWebHook_getGitServerSecret. wp_to_call. wp_step; [done|].
  intros [sec|e|w] _; [|by wp_step|done].
  destruct (sec_Data sec !! GitServerSecretTokenField) as [tok|] eqn:Ht; [|by wp_step].
  case_bool_decide as Hl; [|by wp_step]. unfold GenerateRandomString, GenerateRandomBytes.
  wp_to_call. wp_step; [done|]. intros [b|e|w] _; [|by wp_go|done].
  wp_to_call. wp_step.
  { exists sec. eexists. split_and!; [done| |by eexists|done].
    by destruct (map_get (sec_Data sec) GitServerSecretWebhookSecretField). }
  intros [o|e|w] _; [done|by wp_step|done].
Qed.

Lemma wp_fail_hook {A} a (e : error) s g (Q : res A → Codebase → hooking → Prop) :
  (∀ r s, match r with Ok _ => False | _ => True end → Q r s g) →
  wp (hook_monitor recorded) (processCodebaseError a e) s g Q.
Proof.
  intros HQ. unfold processCodebaseError, fail_codebase. wp_to_call. wp_step; [done|].
  intros t _. wp_step. wp_step. by apply HQ.
Qed.

Lemma keeps_hook_url c0 gs :
  keeps (hook_monitor recorded) (λ (s : Codebase) (g : hooking), s = c0 ∧ hk_created g = None ∧ (recorded = "" ∨ recorded ∈ hk_gone g))
    (getWebHookUrl gs).
Proof. keeps_go. Qed.
End Hooks.

(** ** Generated files *)

(** [p] is [d] or lies below it. *)
Inductive inside (d : string) : string → Prop :=
| inside_here : inside d d
| inside_join p rest : inside d p → inside d (path_join (p :: rest)).

(** The file a call writes. *)
Definition sys_target {R} (c : sys_call R) : option string :=
  match c with
  | CreateFile p => Some p
  | WriteFile p _ => Some p
  | ExecuteTemplate _ p _ => Some p
  | _ => None
  end.
Definition call_target {R} (c : call R) : option string :=
  match c with CSys sc => sys_target sc | _ => None end.

(** The paths [os.Stat] did not report to exist. *)
Definition missing_step (g : list string) : ∀ R, call R → R → list string := λ R c,
  match c in call R return R → list string with
  | CSys sc => match sc in sys_call R return R → list string with
    | Stat p => λ r, match r with StatOk => g | _ => p :: g end
    | _ => λ _, g
    end
  | _ => λ _, g
  end.

(** Every file written lies in a path that was missing. *)
Definition files_monitor : monitor (list string) :=
  {| rely _ _ _ _ := True;
     guar g R c := match call_target c with Some p => ∃ d, d ∈ g ∧ inside d p | None => True end;
     step := missing_step |}.

Lemma missing_grows g R (c : call R) r d : d ∈ g → d ∈ missing_step g R c r.
Proof.
  intros Hd. unfold missing_step. destruct c as [| | | |R c|? ? c|?| | | |]; try done.
  destruct c; try done. destruct r; [done|by right|by right].
Qed.

Section Files.
Context {S : Type} (d : string).

Definition missing (_ : S) (g : list string) : Prop := d ∈ g.

Lemma keeps_file_call {R} (c : call R) :
  (∀ p, call_target c = Some p → inside d p) → keeps files_monitor missing (do_call c).
Proof.
  intros Hp. apply keeps_do_call. intros s g Hd. split.
  - cbn. destruct (call_target c) as [p|]; [|done]. exists d. auto.
  - intros r _. by apply missing_grows.
Qed.
Lemma keeps_file_res {R} (c : call (res R)) :
  (∀ p, call_target c = Some p → inside d p) → keeps files_monitor missing (do_res c).
Proof.
  intros Hp. apply keeps_do_res. intros s g Hd. split.
  - cbn. destruct (call_target c) as [p|]; [|done]. exists d. auto.
  - intros r _. by apply missing_grows.
Qed.
End Files.

Ltac inside_tac := cbn; intros ? [=]; subst; repeat first [apply inside_here | apply inside_join].
Ltac files_go :=
  repeat first [ keeps_step
    | apply keeps_file_call; solve [inside_tac] | apply keeps_file_res; solve [inside_tac]
    | keeps_unfold ].

Lemma keeps_helm {S} script d assets cf :
  keeps files_monitor (missing (S := S) d) (CopyHelmChartTemplates script d assets cf).
Proof. files_go. Qed.

Lemma keeps_no_write {S} (J : S → list string → Prop) cb :
  (∀ s g R (c : call R) r, J s g → J s (missing_step g R c r)) →
  keeps files_monitor J (buildTemplateConfig cb) ∧ keeps files_monitor J GetAssetsDir.
Proof.
  intros HJ.
  assert (Hc : ∀ R (c : call R), call_target c = None → keeps files_monitor J (do_call c)).
  { intros R c Hn. apply keeps_do_call. intros s g H. cbn. rewrite Hn. auto. }
  assert (Hr : ∀ R (c : call (res R)), call_target c = None → keeps files_monitor J (do_res c)).
  { intros R c Hn. apply keeps_do_res. intros s g H. cbn. rewrite Hn. auto. }
  split; repeat first [ keeps_step | apply Hc; done | apply Hr; done | keeps_unfold ].
Qed.

(** ** Properties *)



(** Whatever is answered, the webhook handler creates at most one webhook, and none while
    the one recorded in the status still exists; the reference it persists is the one of the
    webhook it created; the only change it makes to the credentials is a generated webhook
    secret where there was none and the token is present. *)
Theorem webhook_created_when_absent c :
  wp (hook_monitor (GetWebHookRef (c_Status c))) PutWebHook_ServeRequest c hooking_start (λ _ _ _, True).
Proof.
  set (ref := GetWebHookRef (c_Status c)).
  unfold PutWebHook_ServeRequest. wp_step. wp_step. wp_step; [by wp_step|].
  wp_to_call. wp_step; [done|]. intros [gs|e|w] _; [|apply wp_fail_hook; by intros [x|e'|w]|done].
  wp_step; [by wp_step|]. wp_step. wp_step.
  eapply wp_mono; [apply (wp_hook_secret ref c); by split_and!|].
  intros [sec|e|w] s1 g1 (->&Hgone&Hnone); [|apply wp_fail_hook; by intros [x|e'|w]|done].
  wp_step. wp_step. eapply wp_mono with (Q := λ _ s' g', no_hook c s' g').
  { unfold NewProvider. wp_go; by split_and!. }
  intros [p|e|w] s2 g2 (->&Hg2&Hn2); [|apply wp_fail_hook; by intros [x|e'|w]|done].
  wp_step. unfold put_webhook_ref. wp_step.
  eapply wp_mono with (Q := λ r s' g', match r with
    | Ok true => True
    | Ok false => s' = c ∧ hk_created g' = None ∧ (ref = "" ∨ ref ∈ hk_gone g')
    | _ => True end).
  { wp_step; [|wp_step; split_and!; [done|done|left]; by apply negb_false_iff, bool_decide_eq_true in Heqb1].
    wp_to_call. wp_step; [done|]. intros [wh|e|w] _; [by wp_step| |done].
    wp_step; [wp_step; split_and!; [done| |right]|apply wp_fail_hook; by intros [x|e'|w]].
    - cbn. by rewrite Heqb2.
    - cbn. rewrite Heqb2. apply elem_of_cons. by left. }
  intros [[]|e|w] s3 g3 H3; [by do 2 wp_step| |done|done].
  wp_step. wp_step. eapply wp_keeps; [apply (keeps_hook_url ref c)|exact H3|].
  intros [url|e|w] s4 g4 (->&Hn4&Hr4); [|apply wp_fail_hook; by intros [x|e'|w]|done].
  wp_to_call. wp_step; [by split|]. intros [wh|e|w] _; [|apply wp_fail_hook; by intros [x|e'|w]|done].
  wp_step. unfold setIntermediateSuccessFields. wp_to_call. wp_step; [done|]. intros t _.
  wp_to_call. wp_step.
  { exists wh. split; [done|]. intros Hid. unfold GetWebHookRef. cbn. unfold compat_webHookRef. cbn.
    rewrite (bool_decide_false (wh_ID wh = "")) by done. cbn. by rewrite bool_decide_false. }
  intros [o|e|w] _; by wp_go.
Qed.


